(* ===== verification/_CoqProject ===== *)
-Q . S2P
Prelude.v
Layout.v
Printfmt.v
FormatSpec.v
CString.v
Stdarg.v
Printf.v
Ports.v
Queue.v
Kernel.v
Pgdir.v
BootMem.v
BootMap.v
PageCheck.v
MemStart.v
Segment.v
Structs.v
StartAsm.v
Trap.v
SwitchOver.v
Console.v
Keyboard.v
Kdebug.v
KdebugSpec.v
Monitor.v
MonitorSpec.v
Vmcs.v
Ept.v
Constants.v
SysRegs.v
Vmx.v
Init.v
AsmMachine.v
VmxInsn.v
VmAsm.v
VmAsm64.v
SvmAsm.v
VmRun.v
Boot.v
BootSpec.v
BootChain.v
BootImage.v
