(* ===== verification/Prelude.v ===== *)
(** * JOS-vmx: a verification development

    JOS-vmx is a teaching kernel for 32-bit x86 with the beginnings of a
    virtual-machine monitor.  A BIOS loads the boot sector; it loads the kernel
    from the disk and jumps to it; the kernel sets up its console, its memory and
    its trap tables, checks that its memory management works, and then starts the
    virtual-machine monitor, which panics where the source leaves an exercise.
    Exceptions and the panic lead to the kernel monitor, a small command
    interpreter with a debugger's backtrace.  This library models those parts, file
    by file, and proves what each does.

    ** How the code is modelled

    Prelude.v (this file) has the common language.  A C integer is a [Z]; the
    wrap-around of unsigned arithmetic is written out ([u8], [u16], [u32], [u64]),
    and signed arithmetic that leaves the range of [int] is undefined ([int_op]).
    A function is a computation [M S A] on the state [S] of its component, which
    gives an [outcome]: a value and a state ([Ret]); a panic with the format of its
    message ([Panic]: an [assert] that fails is one); undefined behaviour
    ([Fault]); or still running ([Spin]), when the fuel of a loop is used up or the
    device has nothing more to say.  [wp m Q s] says that [m], run in [s], returns,
    and that [Q] holds of what it returns, so a theorem in terms of [wp] or of an
    equation [m s = Ret ..] is one of total correctness.  [while] takes its fuel
    from a bound on the loop that each file gives: the size of memory for a walk
    through a string, the pages of the machine for the free list, the length of the
    input for a loop that polls or reads; every theorem shows that it is enough.
    [zoom] runs a computation on a part of a larger state.  The tactics [wp_go] and
    [ends_go] take the steps of a computation, [divmod] arithmetic on words.

    ** The files

    The machine and the C library.
    - Layout.v: inc/types.h, inc/memlayout.h, inc/error.h and part 1 of inc/mmu.h.
    - Printfmt.v, FormatSpec.v: lib/printfmt.c.  [vprintfmt] as the machine over the
      bytes of the format that it is, and what a format means; the machine stops
      always and prints what the format means ([vprintfmt_format]).
    - CString.v: lib/string.c on byte memory, each function against its meaning.
    - Stdarg.v: inc/stdarg.h; the arguments of a call as bytes on the stack are the list
      that the formatter takes ([va_list_correct]).
    - Printf.v: vsnprintf and the printing functions of kern/printf.c.
    - Ports.v, SysRegs.v: inc/x86.h, kern/kclock.c and the register accesses of
      inc/hvm/asm.h.  A device is the sequence of values that its ports deliver and
      the log of all accesses; the class [HasIO] is how a component reaches them.
    - Queue.v: the list macros of inc/queue.h, proved against the class [Queue]
      (what a structure with links must offer).  Kernel.v gives the instance.
    - Segment.v, Structs.v: descriptors and gates of inc/mmu.h as bit-fields, and
      the layouts of inc/desc.h and inc/elf.h; the two headers agree.
    - Vmcs.v, Constants.v: inc/hvm/constants.h and the tables of the other headers.

    Start-up.
    - StartAsm.v: boot/boot.S and kern/entry.S as lists of instructions on a
      processor with real and protected mode.  The first gets to [bootmain]
      ([boot_S_correct]: the keyboard controller may be busy for as long as it
      likes), the second from there to [i386_init] ([entry_S_correct]); the segments
      the first leaves are the ones the second needs.
    - Boot.v, BootSpec.v: boot/main.c, against an ELF image as a sequence of bytes.
    - BootChain.v: the three in a row on one machine, from the BIOS to the call of
      [i386_init] with the kernel in memory ([power_on_correct]).
    - BootImage.v: boot/mkbootdisk.c, and that the boot loader reads back from the
      disk it makes the kernel that was put there ([boot_disk_image]).
    - Init.v: [i386_init] of kern/init.c on the state made of all components.

    Memory management, kern/pmap.c and kern/pmap.h.
    - Kernel.v: the state (RAM by words, [struct Page] objects, free list, TLB,
      control registers), page_alloc and page_free.
    - Pgdir.v: the page tables.  [vm_ok] is the invariant (every reference count is
      the number of references, no table is shared, free pages are not referenced)
      and [mapping] the abstract address space; page_insert and page_remove are
      insertion and deletion, on every branch.
    - BootMem.v, BootMap.v: boot-time allocation and mapping, [page_init] and
      [page_check]; [boot_mem_init] builds exactly the kernel's address space.  An access
      outside the machine's memory is undefined, and no allocation tests for it, so
      the theorems ask for room: [pages_fit] for the page tables and the array of
      pages, 118 pages behind the kernel for all of start-up.
    - SwitchOver.v: the end of [boot_mem_init] on a processor that segments and pages
      its own fetches and accesses, with a TLB it may fill and empty at any time, as a
      step relation.  The other files let a kernel pointer KERNBASE + x reach RAM at x;
      this is proved at every step, from the segments of entry.S to the page tables
      ([switch_over_correct]).
    - PageCheck.v: all assertions of [page_check] hold.
    - MemStart.v: the three calls of [i386_init] in a row establish [vm_ok].

    Traps, console, monitor.
    - Trap.v: kern/trap.c and kern/trapentry.S: the gates in memory, the frames that
      the stubs push, the dispatch.
    - Console.v, Keyboard.v: kern/console.c and lib/readline.c, with the ring buffer,
      the display and the keyboard as their specifications have them.  The bytes of the
      serial line and the keyboard arrive in rounds of polling, any number in each;
      [readline_correct] says what line they make.
    - Kdebug.v, KdebugSpec.v: kern/kdebug.c, the search in the stabs, which returns on
      every table and is right on sorted ones without adjacent addresses, and what it
      finds for a compiled program.
    - Monitor.v, MonitorSpec.v: kern/monitor.c with _panic and _warn.

    The virtual-machine monitor, hvm/.
    - Ept.v: hvm/vt_ept.c.
    - Vmx.v: hvm/vt.c, hvm/vt_regs.c and hvm/vt_init.c: exits, register access, the
      fields of the VMCS.  What a VM exit loads, by the field numbers of the processor's
      manual, is the processor as it was ([host_state_correct]).  What entering the guest
      does is a parameter here.
    - AsmMachine.v, VmAsm.v, VmAsm64.v, SvmAsm.v: hvm/asm_vmop.S, that parameter: a
      machine for the instructions, the class [Virtualization] (what Intel's and
      AMD's extensions do), and its six functions.  What the guest does between the
      entry and the exit is a parameter still, on all it can reach.
    - VmxInsn.v: the VMX instructions of inc/hvm/asm.h as bytes and by name.
    - VmRun.v: the loop of [vt_main] as a transition system.

    ** What the theorems found

    The models are of the code as it is, and some theorems say what it does wrong:
    page_remove of an unmapped address decrements the count of page 0
    ([page_remove_unmapped]); the page under the kernel stack may be mapped
    ([boot_stack_guard_missing]); the alignment check gets a bad frame
    ([trapframe_built]); vector 0 has no gate ([idt_init_correct]); the 512th pending
    character empties the input buffer ([cons_put_correct]); memset of 2^31 bytes
    ([memset_correct]); cprintf returns 0 ([cprintf_correct]); a failed entry in the
    64-bit code returns to the wrong place ([asm_regs_64_correct]); of adjacent stabs
    the wrong one is found ([stab_binsearch_adjacent]); boot_alloc goes on when memory
    has run out ([boot_alloc_past_ram]).

    ** Not modelled

    The build files, the linker script (its symbols are parameters) and
    mergedep.pl.  What the source leaves as an exercise: the functions that panic as
    not implemented are modelled to the panic, and beyond it where there is code.
    In StartAsm.v and SysRegs.v, paging, the LDT's contents and changes of privilege;
    in SwitchOver.v, caches of directory entries, which the processors it was written
    for do not have;
    in Trap.v the return from a trap, which is the processor's.  The registers and
    the stack of compiled C code: where C meets assembly, what it leaves in them is
    a parameter.  Time: the loops that wait for a device are bounded by what the
    device delivers.  Interrupts are off in all of this kernel, so there is no
    concurrency but the guest's, which is a parameter. *)

From Stdlib Require Export ZArith Lia Ascii String.
From stdpp Require Export base decidable option list gmap strings fin_maps.
From coqutil Require Import Z.bitblast.

#[export] Set Default Goal Selector "!".
Open Scope Z_scope.

(** ** Machine words

    An unsigned w-bit integer of the C code is the [Z] between 0 and 2^w - 1;
    the wrap-around of C's unsigned arithmetic is written out with [u8], [u16],
    [u32] and [u64].  [i32] and [i8] give the signed reading of a word. *)

Definition u8 (z : Z) : Z := z mod 2 ^ 8.
Definition u16 (z : Z) : Z := z mod 2 ^ 16.
Definition u32 (z : Z) : Z := z mod 2 ^ 32.
Definition u64 (z : Z) : Z := z mod 2 ^ 64.
Definition i32 (z : Z) : Z := (z + 2 ^ 31) mod 2 ^ 32 - 2 ^ 31.
Definition i8 (z : Z) : Z := (z + 2 ^ 7) mod 2 ^ 8 - 2 ^ 7.

(** The values of a C [int]; leaving this range is undefined behaviour. *)
Definition in_int (z : Z) : bool := (- 2 ^ 31 <=? z) && (z <? 2 ^ 31).

Declare Scope word_scope.
Delimit Scope word_scope with word.
Notation "x ⊞ y" := (u32 (x + y)) (at level 50, left associativity) : word_scope.
Notation "x ⊟ y" := (u32 (x - y)) (at level 50, left associativity) : word_scope.

Lemma u8_range z : 0 <= u8 z < 2 ^ 8.
Proof. unfold u8. apply Z.mod_pos_bound. lia. Qed.
Lemma u16_range z : 0 <= u16 z < 2 ^ 16.
Proof. unfold u16. apply Z.mod_pos_bound. lia. Qed.
Lemma u32_range z : 0 <= u32 z < 2 ^ 32.
Proof. unfold u32. apply Z.mod_pos_bound. lia. Qed.
Lemma u8_small z : 0 <= z < 2 ^ 8 -> u8 z = z.
Proof. apply Z.mod_small. Qed.
Lemma u16_small z : 0 <= z < 2 ^ 16 -> u16 z = z.
Proof. apply Z.mod_small. Qed.
Lemma u32_small z : 0 <= z < 2 ^ 32 -> u32 z = z.
Proof. apply Z.mod_small. Qed.
Lemma u64_small z : 0 <= z < 2 ^ 64 -> u64 z = z.
Proof. apply Z.mod_small. Qed.
Lemma i32_small z : - 2 ^ 31 <= z < 2 ^ 31 -> i32 z = z.
Proof. intros. unfold i32. rewrite Z.mod_small; lia. Qed.
Lemma i32_range z : - 2 ^ 31 <= i32 z < 2 ^ 31.
Proof. unfold i32. pose proof (Z.mod_pos_bound (z + 2 ^ 31) (2 ^ 32)). lia. Qed.

(** [words] rewrites wrapped values that are in range; the side conditions are
    left to [lia]. *)
Create Rewrite HintDb words.
Create HintDb ranges.
#[export] Hint Rewrite u8_small u16_small u32_small u64_small i32_small using lia : words.
#[export] Hint Resolve u8_range u16_range u32_range i32_range : ranges.

(** Turn every [div] and [mod] by a constant into linear facts. *)
Ltac divmod := unfold u8, u16, u32, u64, i32, i8 in *; Z.div_mod_to_equations; lia.

(** Bitwise equalities, bit by bit. *)
Ltac bits := Z.bitblast.

Lemma land_ones_mod x n : 0 <= n -> Z.land x (2 ^ n - 1) = x mod 2 ^ n.
Proof. intros. rewrite <- Z.land_ones by lia. f_equal. rewrite Z.ones_equiv. lia. Qed.

(** Clearing the low [n] bits. *)
Lemma ldiff_ones_div x n : 0 <= n -> Z.ldiff x (Z.ones n) = x / 2 ^ n * 2 ^ n.
Proof.
  intros. rewrite Z.ldiff_ones_r by lia.
  rewrite Z.shiftl_mul_pow2, Z.shiftr_div_pow2; lia.
Qed.

(** Testing one bit with a mask. *)
Lemma land_bit x n : 0 <= n -> (Z.land x (2 ^ n) =? 0) = negb (Z.testbit x n).
Proof.
  intros Hn. destruct (Z.testbit x n) eqn:E; cbn [negb].
  - apply Z.eqb_neq. intros H. apply (f_equal (fun z => Z.testbit z n)) in H.
    rewrite Z.land_spec, E, Z.pow2_bits_true, Z.bits_0 in H by lia. discriminate.
  - apply Z.eqb_eq, Z.bits_inj'. intros i Hi. rewrite Z.land_spec, Z.bits_0, Z.pow2_bits_eqb by lia.
    destruct (Z.eqb_spec n i) as [<-|]; [by rewrite E|apply andb_false_r].
Qed.

(** Or-ing flags below bit [n] into a multiple of 2^n is an addition. *)
Lemma lor_low_add a b n :
  0 <= n -> 0 <= b < 2 ^ n -> a mod 2 ^ n = 0 -> Z.lor a b = a + b.
Proof.
  intros Hn Hb Ha.
  assert (Hz : Z.land a b = 0).
  { apply Z.bits_inj'. intros i Hi. rewrite Z.land_spec, Z.bits_0.
    destruct (decide (i < n)).
    - rewrite <- (Z.mod_pow2_bits_low a n i) by lia.
      rewrite Ha, Z.bits_0. reflexivity.
    - replace b with (b mod 2 ^ n) by (apply Z.mod_small; lia).
      rewrite Z.mod_pow2_bits_high by lia. apply andb_false_r. }
  pose proof (Z.add_lor_land a b). lia.
Qed.

(** ** Characters and strings

    A C string is the list of its bytes; [bytes "..."] reads a literal, [chr]
    a character constant. *)

Definition chr (a : ascii) : Z := Z.of_nat (nat_of_ascii a).

Fixpoint bytes (s : string) : list Z :=
  match s with
  | EmptyString => []
  | String a s' => chr a :: bytes s'
  end.

Lemma chr_range a : 0 <= chr a < 256.
Proof. unfold chr. pose proof (nat_ascii_bounded a). lia. Qed.

Lemma bytes_app s t : bytes (s +:+ t) = bytes s ++ bytes t.
Proof. induction s as [|a s IH]; simpl; [done | by rewrite IH]. Qed.

(** Replace the character constants of the goal by their codes. *)
Ltac chars :=
  repeat match goal with
  | |- context [chr ?a] => let v := eval vm_compute in (chr a) in change (chr a) with v
  | H : context [chr ?a] |- _ =>
      let v := eval vm_compute in (chr a) in change (chr a) with v in H
  end.

(** ** Programs

    A C function that reads and changes a state of type [S] is a function of
    type [M S A].  Running it gives one of four outcomes: it returns; it calls
    [panic], which prints a message and never returns; it does something C
    leaves undefined (an access outside an object, a signed overflow, a missing
    variadic argument); or it is still running when the fuel of one of its loops,
    or the script of the hardware it reads from, ends. *)

Inductive outcome (S A : Type) : Type :=
  | Ret (a : A) (s : S)
  | Panic (why : string) (s : S)
  | Fault
  | Spin.
Arguments Ret {S A} a s.
Arguments Panic {S A} why s.
Arguments Fault {S A}.
Arguments Spin {S A}.

Definition M (S A : Type) : Type := S -> outcome S A.

#[export] Instance M_ret S : MRet (M S) := fun A a s => Ret a s.
#[export] Instance M_bind S : MBind (M S) := fun A B f m s =>
  match m s with
  | Ret a s' => f a s'
  | Panic w s' => Panic w s'
  | Fault => Fault
  | Spin => Spin
  end.

Definition gets {S A} (f : S -> A) : M S A := fun s => Ret (f s) s.
Definition modify {S} (f : S -> S) : M S () := fun s => Ret tt (f s).
Definition panic {S A} (why : string) : M S A := fun s => Panic why s.
Definition fault {S A} : M S A := fun _ => Fault.
Definition spin {S A} : M S A := fun _ => Spin.

(** [assert(x)] of <inc/assert.h>. *)
Definition kassert {S} (b : bool) : M S () :=
  if b then mret tt else panic "assertion failed: %s".

(** Dereferencing something that may not be there. *)
Definition deref {S A} (o : option A) : M S A :=
  match o with Some a => mret a | None => fault end.

Definition when {S} (b : bool) (m : M S ()) : M S () := if b then m else mret tt.

(** Signed arithmetic: a result outside [int] is undefined. *)
Definition int_op {S} (z : Z) : M S Z := if in_int z then mret z else fault.

(** A C loop.  [i] holds the loop's variables; when the fuel runs out the loop
    is reported as still running. *)
Fixpoint while {S I} (fuel : nat) (cond : I -> M S bool) (body : I -> M S I) (i : I) : M S I :=
  match fuel with
  | O => spin
  | Datatypes.S fuel' =>
      b ← cond i;
      if b : bool then (i' ← body i; while fuel' cond body i') else mret i
  end.

Lemma while_S {S I} fuel (cond : I -> M S bool) (body : I -> M S I) i :
  while (Datatypes.S fuel) cond body i =
  (b ← cond i; if b : bool then (i' ← body i; while fuel cond body i') else mret i).
Proof. reflexivity. Qed.

Lemma bind_ret {S A B} (a : A) (f : A -> M S B) s : (mret a ≫= f) s = f a s.
Proof. reflexivity. Qed.

Lemma bind_eq {S A B} (m : M S A) (f : A -> M S B) s a s' :
  m s = Ret a s' -> (m ≫= f) s = f a s'.
Proof. unfold mbind, M_bind. by intros ->. Qed.

Lemma bind_ret_iff {S A B} (m : M S A) (f : A -> M S B) s b t :
  (m ≫= f) s = Ret b t <-> exists a s', m s = Ret a s' /\ f a s' = Ret b t.
Proof.
  unfold mbind, M_bind. destruct (m s) as [a s'|w s'| |]; split; try (by intros (? & ? & [=] & ?)); try done.
  - by exists a, s'.
  - by intros (? & ? & [= <- <-] & ?).
Qed.

Lemma int_op_ok {S} z : - 2 ^ 31 <= z < 2 ^ 31 -> int_op (S := S) z = mret z.
Proof.
  intros. unfold int_op, in_int.
  by replace ((- 2 ^ 31 <=? z) && (z <? 2 ^ 31)) with true by lia.
Qed.

Fixpoint for_each {S A} (f : A -> M S ()) (l : list A) : M S () :=
  match l with
  | [] => mret tt
  | a :: l' => f a;; for_each f l'
  end.

(** Running an operation on a part of a larger state. *)
Definition zoom {S T A} (get : S -> T) (set : T -> S -> S) (m : M T A) : M S A := fun s =>
  match m (get s) with
  | Ret a t => Ret a (set t s)
  | Panic w t => Panic w (set t s)
  | Fault => Fault
  | Spin => Spin
  end.

(** ** Total correctness

    [wp m Q s]: started in [s], [m] returns, and the result and final state
    satisfy [Q].  It excludes panics, undefined behaviour and running on. *)

Definition wp {S A} (m : M S A) (Q : A -> S -> Prop) (s : S) : Prop :=
  match m s with Ret a s' => Q a s' | _ => False end.

Section wp_rules.
Context {S : Type}.
Implicit Types (s : S).

Lemma wp_iff {A} (m : M S A) Q s : wp m Q s <-> exists a s', m s = Ret a s' /\ Q a s'.
Proof. unfold wp. destruct (m s); split; naive_solver. Qed.

Lemma wp_eq {A} (m : M S A) a s s' : wp m (fun b t => b = a /\ t = s') s <-> m s = Ret a s'.
Proof. unfold wp. destruct (m s); naive_solver. Qed.

Lemma wp_run {A} (m : M S A) a s s' (Q : A -> S -> Prop) : m s = Ret a s' -> Q a s' -> wp m Q s.
Proof. unfold wp. by intros ->. Qed.

Lemma wp_mono {A} (m : M S A) (Q R : A -> S -> Prop) s :
  wp m Q s -> (forall a s', Q a s' -> R a s') -> wp m R s.
Proof. unfold wp. destruct (m s); naive_solver. Qed.

Lemma wp_ret {A} (a : A) (Q : A -> S -> Prop) s : Q a s -> wp (mret a) Q s.
Proof. done. Qed.

Lemma wp_bind {A B} (m : M S A) (f : A -> M S B) Q s :
  wp m (fun a s' => wp (f a) Q s') s -> wp (m ≫= f) Q s.
Proof. unfold wp, mbind, M_bind. by destruct (m s). Qed.

Lemma wp_gets {A} (f : S -> A) (Q : A -> S -> Prop) s : Q (f s) s -> wp (gets f) Q s.
Proof. done. Qed.

Lemma wp_modify (f : S -> S) (Q : () -> S -> Prop) s : Q tt (f s) -> wp (modify f) Q s.
Proof. done. Qed.

Lemma wp_kassert b (Q : () -> S -> Prop) s : b = true -> Q tt s -> wp (kassert b) Q s.
Proof. by intros ->. Qed.

Lemma wp_deref {A} (o : option A) a (Q : A -> S -> Prop) s : o = Some a -> Q a s -> wp (deref o) Q s.
Proof. by intros ->. Qed.

Lemma wp_if {A} (b : bool) (m n : M S A) Q s :
  (b = true -> wp m Q s) -> (b = false -> wp n Q s) -> wp (if b then m else n) Q s.
Proof. destruct b; naive_solver. Qed.

(** The loop rule: an invariant and a measure below the fuel. *)
Lemma wp_while {I} (Inv : I -> S -> Prop) (mu : I -> nat)
    (cond : I -> M S bool) (body : I -> M S I) (Q : I -> S -> Prop) fuel i s :
  Inv i s -> (mu i < fuel)%nat ->
  (forall i s, Inv i s ->
    wp (cond i) (fun b s' =>
      if b then wp (body i) (fun i' s'' => Inv i' s'' /\ (mu i' < mu i)%nat) s'
      else Q i s') s) ->
  wp (while fuel cond body i) Q s.
Proof.
  intros Hi Hf Hstep. revert i s Hi Hf.
  induction fuel as [|fuel IH]; intros i s Hi Hf; [lia|]. simpl.
  apply wp_bind. eapply wp_mono; [exact (Hstep i s Hi)|].
  intros [|] s' Hb; [|by apply wp_ret].
  apply wp_bind. eapply wp_mono; [exact Hb|].
  intros i' s'' [Hi' Hm]. apply IH; [done | lia].
Qed.

(** More fuel does not change a loop that ends. *)
Lemma while_stable {I} (cond : I -> M S bool) (body : I -> M S I) f1 f2 i s :
  while f1 cond body i s <> Spin -> (f1 <= f2)%nat ->
  while f2 cond body i s = while f1 cond body i s.
Proof.
  revert f2 i s. induction f1 as [|f1 IH]; intros f2 i s Hw Hle; [done|].
  destruct f2 as [|f2]; [lia|]. simpl in *. unfold mbind, M_bind in *.
  destruct (cond i s) as [[|] s1|? ?| |]; try done.
  destruct (body i s1) as [i' s2|? ?| |]; try done. apply IH; [done | lia].
Qed.

(** A run of the loop body given step by step. *)
Inductive iterates {I} (cond : I -> M S bool) (body : I -> M S I) : I -> S -> I -> S -> Prop :=
  | iterates_stop i s : cond i s = Ret false s -> iterates cond body i s i s
  | iterates_go i s i' s' j t :
      cond i s = Ret true s -> body i s = Ret i' s' ->
      iterates cond body i' s' j t -> iterates cond body i s j t.

Lemma while_iterates {I} (cond : I -> M S bool) (body : I -> M S I) fuel i s j t :
  iterates cond body i s j t -> while fuel cond body i s <> Spin ->
  while fuel cond body i s = Ret j t.
Proof.
  intros Hit Hsp. assert (exists f, while f cond body i s = Ret j t) as [f Hf].
  { clear Hsp. induction Hit as [i s Hc|i s i' s' j t Hc Hb Hit [f IH]].
    - exists 1%nat. simpl. unfold mbind, M_bind. by rewrite Hc.
    - exists (Datatypes.S f). simpl. unfold mbind, M_bind. by rewrite Hc, Hb. }
  destruct (decide (f <= fuel)%nat).
  - rewrite (while_stable cond body f fuel i s); [done| |done]. by rewrite Hf.
  - rewrite <- Hf. symmetry. apply while_stable; [done | lia].
Qed.
End wp_rules.

(** [ends m Q s]: [m] does not run on for ever from [s], and if it returns,
    its result and final state satisfy [Q]; it may panic or be undefined. *)
Definition ends {S A} (m : M S A) (Q : A -> S -> Prop) (s : S) : Prop :=
  match m s with Ret a s' => Q a s' | Spin => False | _ => True end.

Section ends_rules.
Context {S : Type}.

Lemma ends_mono {A} (m : M S A) (Q R : A -> S -> Prop) s :
  ends m Q s -> (forall a s', Q a s' -> R a s') -> ends m R s.
Proof. unfold ends. destruct (m s); naive_solver. Qed.

Lemma ends_bind {A B} (m : M S A) (f : A -> M S B) Q s :
  ends m (fun a s' => ends (f a) Q s') s -> ends (m ≫= f) Q s.
Proof. unfold ends, mbind, M_bind. by destruct (m s). Qed.

Lemma ends_ret {A} (a : A) (Q : A -> S -> Prop) s : Q a s -> ends (mret a) Q s.
Proof. done. Qed.

Lemma ends_int_op z (Q : Z -> S -> Prop) s : (in_int z = true -> Q z s) -> ends (int_op z) Q s.
Proof. unfold int_op. destruct (in_int z); [by intros H; apply H | done]. Qed.

Lemma wp_int_op z (Q : Z -> S -> Prop) s : - 2 ^ 31 <= z < 2 ^ 31 -> Q z s -> wp (int_op z) Q s.
Proof.
  intros Hz HQ. unfold int_op, in_int.
  replace ((- 2 ^ 31 <=? z) && (z <? 2 ^ 31)) with true by lia. done.
Qed.

Lemma ends_while {I} (Inv : I -> S -> Prop) (mu : I -> nat)
    (cond : I -> M S bool) (body : I -> M S I) (Q : I -> S -> Prop) fuel i s :
  Inv i s -> (mu i < fuel)%nat ->
  (forall i s, Inv i s ->
    ends (cond i) (fun b s' =>
      if b then ends (body i) (fun i' s'' => Inv i' s'' /\ (mu i' < mu i)%nat) s'
      else Q i s') s) ->
  ends (while fuel cond body i) Q s.
Proof.
  intros Hi Hf Hstep. revert i s Hi Hf.
  induction fuel as [|fuel IH]; intros i s Hi Hf; [lia|]. simpl.
  apply ends_bind. eapply ends_mono; [exact (Hstep i s Hi)|].
  intros [|] s' Hb; [|by apply ends_ret].
  apply ends_bind. eapply ends_mono; [exact Hb|].
  intros i' s'' [Hi' Hm]. apply IH; [done | lia].
Qed.
End ends_rules.

Create HintDb wp.
#[export] Hint Resolve wp_ret wp_gets wp_modify : wp.

(** One symbolic step of a program. *)
Ltac wp_step :=
  lazymatch goal with
  | |- wp (mbind _ _) _ _ => apply wp_bind
  | |- wp (mret _) _ _ => apply wp_ret
  | |- wp (gets _) _ _ => apply wp_gets
  | |- wp (modify _) _ _ => apply wp_modify
  | |- wp (when true _) _ _ => unfold when
  | |- wp (when false _) _ _ => unfold when
  | |- wp (kassert _) _ _ => apply wp_kassert
  | |- wp (if true then ?m else _) ?Q ?s => change (wp m Q s)
  | |- wp (if false then _ else ?m) ?Q ?s => change (wp m Q s)
  end.
Ltac wp_go := repeat wp_step.

Ltac ends_step :=
  lazymatch goal with
  | |- ends (mbind _ _) _ _ => apply ends_bind
  | |- ends (mret _) _ _ => apply ends_ret
  | |- ends (int_op _) _ _ => apply ends_int_op; intros ?
  | |- ends fault _ _ => exact I
  | |- ends (panic _) _ _ => exact I
  | |- ends (if true then ?m else _) ?Q ?s => change (ends m Q s)
  | |- ends (if false then _ else ?m) ?Q ?s => change (ends m Q s)
  end.
Ltac ends_go := repeat ends_step.

Lemma for_each_app {S A} (f : A -> M S ()) l1 l2 s :
  for_each f (l1 ++ l2) s = (for_each f l1;; for_each f l2) s.
Proof.
  revert s. induction l1 as [|a l1 IH]; intros s; simpl; [done|].
  unfold mbind, M_bind. destruct (f a s) as [? s1|? ?| |]; [|done..].
  rewrite IH. unfold mbind, M_bind. done.
Qed.

(** ** Counting

    [tally l f] is the number of elements of [l] on which [f] holds. *)

Definition tally {K} (f : K -> bool) (l : list K) : Z :=
  foldr (fun k n => Z.b2z (f k) + n) 0 l.

Lemma tally_nonneg {K} (f : K -> bool) l : 0 <= tally f l.
Proof. induction l as [|k l IH]; simpl; [lia|]. destruct (f k); simpl; lia. Qed.

Lemma tally_ext {K} (f g : K -> bool) l :
  (forall k, k ∈ l -> f k = g k) -> tally f l = tally g l.
Proof.
  induction l as [|k l IH]; intros H; simpl; [done|].
  rewrite H by set_solver. rewrite IH; [done|]. set_solver.
Qed.

Lemma tally_zero {K} (f : K -> bool) l : tally f l = 0 <-> (forall k, k ∈ l -> f k = false).
Proof.
  induction l as [|k l IH]; simpl.
  - split; [set_solver | done].
  - pose proof (tally_nonneg f l). split.
    + intros H0 k' Hk'. destruct (f k) eqn:E; simpl in *; [lia|].
      apply elem_of_cons in Hk' as [->|Hk']; [done|]. apply IH; [lia | done].
    + intros Hall. rewrite Hall by set_solver. simpl. apply IH. set_solver.
Qed.

Lemma tally_pos {K} (f : K -> bool) l k : k ∈ l -> f k = true -> 0 < tally f l.
Proof.
  intros Hk Hf. pose proof (tally_nonneg f l).
  destruct (decide (tally f l = 0)) as [E|]; [|lia].
  apply tally_zero with (k := k) in E; congruence.
Qed.

(** Changing the predicate at one element. *)
Lemma tally_update {K} `{EqDecision K} (f g : K -> bool) l k :
  NoDup l -> k ∈ l -> (forall k', k' ∈ l -> k' <> k -> f k' = g k') ->
  tally g l = tally f l - Z.b2z (f k) + Z.b2z (g k).
Proof.
  induction l as [|x l IH]; intros Hnd Hk Heq; [set_solver|]. simpl.
  apply NoDup_cons in Hnd as [Hx Hnd].
  destruct (decide (x = k)) as [->|Hne].
  - rewrite (tally_ext g f l); [lia|].
    intros k' Hk'. symmetry. apply Heq; [set_solver|]. intros ->. done.
  - rewrite IH; [|done|set_solver|intros; apply Heq; set_solver].
    rewrite (Heq x); [lia|set_solver|done].
Qed.
