(* ===== verification/Layout.v ===== *)
(** * Layout: integer helpers, linear addresses and the memory map

    Models inc/types.h (MIN, MAX, ROUNDDOWN, ROUNDUP), part 1 of inc/mmu.h (the
    decomposition of a linear address, page table entry flags and control
    register bits), the memory map of inc/memlayout.h and the error codes of
    inc/error.h.  The macros are functions on [Z] that first convert their
    argument to [uintptr_t] or [physaddr_t], as the C casts do. *)

From S2P Require Import Prelude.
Open Scope Z_scope.

(** ** inc/types.h *)

Definition MIN (a b : Z) : Z := if a <=? b then a else b.
Definition MAX (a b : Z) : Z := if b <=? a then a else b.

Definition ROUNDDOWN (a n : Z) : Z := let a := u32 a in u32 (a - a mod n).
Definition ROUNDUP (a n : Z) : Z := let n := u32 n in ROUNDDOWN (u32 (u32 a + n - 1)) n.

(** ** inc/mmu.h, part 1 *)

Definition NPDENTRIES : Z := 1024.
Definition NPTENTRIES : Z := 1024.
Definition PGSIZE : Z := 4096.
Definition PGSHIFT : Z := 12.
Definition PTSIZE : Z := PGSIZE * NPTENTRIES.
Definition PTSHIFT : Z := 22.

Definition PTE_P : Z := 0x001.
Definition PTE_W : Z := 0x002.
Definition PTE_U : Z := 0x004.
Definition PTE_PWT : Z := 0x008.
Definition PTE_PCD : Z := 0x010.
Definition PTE_A : Z := 0x020.
Definition PTE_D : Z := 0x040.
Definition PTE_PS : Z := 0x080.
Definition PTE_MBZ : Z := 0x180.
Definition PTE_AVAIL : Z := 0xE00.
Definition PTE_USER : Z := Z.lor (Z.lor (Z.lor PTE_AVAIL PTE_P) PTE_W) PTE_U.

Definition CR0_PE : Z := 0x00000001.
Definition CR0_PG : Z := 0x80000000.

(** page number field of address *)
Definition PGNUM (la : Z) : Z := Z.shiftr (u32 la) PGSHIFT.
(** page directory index *)
Definition PDX (la : Z) : Z := Z.land (Z.shiftr (u32 la) PTSHIFT) 0x3FF.
(** page table index *)
Definition PTX (la : Z) : Z := Z.land (Z.shiftr (u32 la) PGSHIFT) 0x3FF.
(** offset in page *)
Definition PGOFF (la : Z) : Z := Z.land (u32 la) 0xFFF.
(** construct linear address from indexes and offset; the macro's [PDXSHIFT] is
    defined in no header, so it is an argument here *)
Definition PGADDR (PDXSHIFT d t o : Z) : Z :=
  Z.lor (Z.lor (u32 (Z.shiftl d PDXSHIFT)) (u32 (Z.shiftl t PGSHIFT))) o.
(** address in page table entry *)
Definition PTE_ADDR (pte : Z) : Z := Z.land (u32 pte) (u32 (Z.lnot 0xFFF)).

(** ** inc/memlayout.h *)

Definition KERNBASE : Z := 0xF0000000.
Definition IOPHYSMEM : Z := 0x0A0000.
Definition EXTPHYSMEM : Z := 0x100000.
Definition VPT : Z := KERNBASE - PTSIZE.
Definition KSTACKTOP : Z := VPT.
Definition KSTKSIZE : Z := 8 * PGSIZE.
Definition ULIM : Z := KSTACKTOP - PTSIZE.
Definition UVPT : Z := ULIM - PTSIZE.
Definition UPAGES : Z := UVPT - PTSIZE.
Definition UENVS : Z := UPAGES - PTSIZE.
Definition UTOP : Z := UENVS.
Definition UXSTACKTOP : Z := UTOP.
Definition USTACKTOP : Z := UTOP - 2 * PGSIZE.
Definition UTEXT : Z := 2 * PTSIZE.
Definition UTEMP : Z := PTSIZE.
Definition PFTEMP : Z := UTEMP + PTSIZE - PGSIZE.
Definition USTABDATA : Z := PTSIZE / 2.

(** ** inc/error.h *)

Definition E_UNSPECIFIED : Z := 1.
Definition E_BAD_ENV : Z := 2.
Definition E_INVAL : Z := 3.
Definition E_NO_MEM : Z := 4.
Definition E_NO_FREE_ENV : Z := 5.
Definition E_FAULT : Z := 6.
Definition MAXERROR : Z := 6.

(** ** Arithmetic reading of the address macros *)

Lemma PGNUM_div la : PGNUM la = u32 la / 4096.
Proof. unfold PGNUM, PGSHIFT. rewrite Z.shiftr_div_pow2 by lia. reflexivity. Qed.

Lemma PDX_div la : PDX la = u32 la / 2 ^ 22.
Proof.
  unfold PDX, PTSHIFT. change 0x3FF with (2 ^ 10 - 1).
  rewrite land_ones_mod, Z.shiftr_div_pow2 by lia. divmod.
Qed.

Lemma PTX_div la : PTX la = u32 la / 4096 mod 1024.
Proof.
  unfold PTX, PGSHIFT. change 0x3FF with (2 ^ 10 - 1).
  rewrite land_ones_mod, Z.shiftr_div_pow2 by lia. reflexivity.
Qed.

Lemma PGOFF_mod la : PGOFF la = u32 la mod 4096.
Proof. unfold PGOFF. change 0xFFF with (2 ^ 12 - 1). by rewrite land_ones_mod by lia. Qed.

Lemma PTE_ADDR_div pte : PTE_ADDR pte = u32 pte / 4096 * 4096.
Proof.
  unfold PTE_ADDR. change 4096 with (2 ^ 12). rewrite <- ldiff_ones_div by lia.
  pose proof (u32_range pte) as H.
  apply Z.bits_inj'. intros i Hi. rewrite Z.land_spec, Z.ldiff_spec.
  unfold u32 at 2. change (Z.ones 12) with (0xFFF).
  destruct (decide (i < 32)).
  - rewrite Z.mod_pow2_bits_low, Z.lnot_spec by lia. reflexivity.
  - rewrite Z.mod_pow2_bits_high by lia. unfold u32.
    rewrite Z.mod_pow2_bits_high by lia. reflexivity.
Qed.

Lemma PDX_range la : 0 <= PDX la < 1024.
Proof. rewrite PDX_div. pose proof (u32_range la). divmod. Qed.
Lemma PTX_range la : 0 <= PTX la < 1024.
Proof. rewrite PTX_div. divmod. Qed.
#[export] Hint Resolve PDX_range PTX_range : ranges.

(** The two indices determine the page. *)
Lemma PGNUM_split la : PGNUM la = PDX la * 1024 + PTX la.
Proof. rewrite PGNUM_div, PDX_div, PTX_div. pose proof (u32_range la). divmod. Qed.

Lemma same_page a b : PGNUM a = PGNUM b <-> PDX a = PDX b /\ PTX a = PTX b.
Proof.
  rewrite !PGNUM_split.
  pose proof (PTX_range a). pose proof (PTX_range b). lia.
Qed.

(** ** Properties *)

(** [la] is put together again from its three fields exactly when PDXSHIFT is
    the shift [PTSHIFT] that [PDX] uses: a linear address and the triple (PDX,
    PTX, PGOFF) determine each other. *)
Theorem PGADDR_roundtrip p :
  0 <= p < 32 ->
  (forall la, PGADDR p (PDX la) (PTX la) (PGOFF la) = u32 la) <-> p = PTSHIFT.
Proof.
  intros Hp. split.
  - intros H. specialize (H 0x400000). revert H.
    unfold PGADDR. change (PDX 0x400000) with 1.
    change (u32 (Z.shiftl (PTX 0x400000) PGSHIFT)) with 0.
    change (PGOFF 0x400000) with 0. rewrite !Z.lor_0_r.
    rewrite Z.shiftl_mul_pow2, Z.mul_1_l by lia.
    assert (2 ^ p < 2 ^ 32) by (apply Z.pow_lt_mono_r; lia).
    assert (0 < 2 ^ p) by (apply Z.pow_pos_nonneg; lia).
    rewrite u32_small by lia. change (u32 0x400000) with (2 ^ 22). intros E.
    apply Z.pow_inj_r in E; unfold PTSHIFT; lia.
  - intros -> la. unfold PGADDR, PTSHIFT, PGSHIFT.
    pose proof (PDX_range la). pose proof (PTX_range la).
    rewrite !Z.shiftl_mul_pow2 by lia.
    rewrite !u32_small by lia.
    assert (0 <= PGOFF la < 4096) by (rewrite PGOFF_mod; divmod).
    rewrite (lor_low_add _ (PTX la * 2 ^ 12) 22) by (lia || divmod).
    rewrite (lor_low_add _ (PGOFF la) 12) by (lia || divmod).
    rewrite PDX_div, PTX_div, PGOFF_mod. pose proof (u32_range la). divmod.
Qed.

(** [ROUNDUP a n] is the least multiple of [n] that is not below [a], as long as
    [a + n - 1] does not wrap; when it wraps the result lies below [a]. *)
Theorem ROUNDUP_least a n :
  0 <= a < 2 ^ 32 -> 0 < n < 2 ^ 32 ->
  (a + n - 1 < 2 ^ 32 ->
     (n | ROUNDUP a n) /\ a <= ROUNDUP a n /\
     forall m, (n | m) -> a <= m -> ROUNDUP a n <= m) /\
  (2 ^ 32 <= a + n - 1 -> ROUNDUP a n < a).
Proof.
  intros Ha Hn. unfold ROUNDUP, ROUNDDOWN. rewrite !(u32_small n) by lia.
  rewrite (u32_small a) by lia.
  rewrite (u32_small (u32 _)) by auto with ranges.
  assert (Hd : forall x, 0 <= x -> x = n * (x / n) + x mod n /\ 0 <= x mod n < n).
  { intros x _. pose proof (Z.div_mod x n). pose proof (Z.mod_pos_bound x n). lia. }
  split; intros Hle.
  - rewrite (u32_small (a + n - 1)) by lia.
    destruct (Hd (a + n - 1)) as [Hq Hm]; [lia|].
    set (q := (a + n - 1) / n) in *. set (r := (a + n - 1) mod n) in *.
    rewrite u32_small by lia.
    replace (a + n - 1 - r) with (n * q) by lia.
    split_and!; [exists q; lia | nia |].
    intros m [k ->] Hm'. assert (q <= k) by nia. nia.
  - assert (u32 (a + n - 1) = a + n - 1 - 2 ^ 32) as -> by divmod.
    destruct (Hd (a + n - 1 - 2 ^ 32)) as [Hq Hm]; [lia|].
    set (r := (a + n - 1 - 2 ^ 32) mod n) in *.
    assert (0 <= (a + n - 1 - 2 ^ 32) / n) by (apply Z.div_pos; lia).
    rewrite u32_small by nia. lia.
Qed.

Lemma ROUNDUP_least_witness :
  (0 <= 5 < 2 ^ 32 /\ 0 < PGSIZE < 2 ^ 32 /\ 5 + PGSIZE - 1 < 2 ^ 32) /\
  (PGSIZE | ROUNDUP 5 PGSIZE) /\ 5 <= ROUNDUP 5 PGSIZE.
Proof.
  unfold PGSIZE. split; [lia|].
  destruct (ROUNDUP_least 5 4096) as [H _]; [lia | lia |].
  destruct H as (H1 & H2 & _); [lia | by split].
Defined.

Lemma PGADDR_roundtrip_witness :
  (0 <= 22 < 32) /\ PGADDR 22 (PDX 0xF0123456) (PTX 0xF0123456) (PGOFF 0xF0123456) = 0xF0123456.
Proof. split; [lia|]. apply (PGADDR_roundtrip 22); [lia | reflexivity]. Defined.
