(* ===== verification/Printfmt.v ===== *)
(** * Printfmt: lib/printfmt.c and kern/printf.c

    The formatter [vprintfmt] is a character-driven state machine over the
    format string: outside an escape it copies characters, inside one it
    collects flags, width and precision until a conversion character ends the
    escape ([goto reswitch] stays in the escape).  It writes through a callback
    [putch] whose state is the C [putdat]; everything here is generic in the
    callback.

    A format string is the list of its bytes, with its terminating NUL at
    index [length fmt].  A variadic argument is a 4-byte word, an 8-byte word or
    a string pointer; taking one of the wrong kind, or one that was not passed,
    is undefined. *)

From S2P Require Import Prelude Layout.
Open Scope Z_scope.

Inductive va : Type :=
  | Word (z : Z)                  (* int, unsigned, long, pointer *)
  | LongLong (z : Z)              (* long long, unsigned long long *)
  | Str (p : option (list Z)).    (* char *, [None] for NULL *)

(** [error_string] indexed by error number; [None] for its NULL entry. *)
Definition error_string (err : Z) : option (list Z) :=
  match err with
  | 1 => Some (bytes "unspecified error")
  | 2 => Some (bytes "bad environment")
  | 3 => Some (bytes "invalid parameter")
  | 4 => Some (bytes "out of memory")
  | 5 => Some (bytes "out of environments")
  | 6 => Some (bytes "segmentation fault")
  | _ => None
  end.

(** "0123456789abcdef"[d] *)
Definition digit (d : Z) : Z := default 0 (bytes "0123456789abcdef" !! Z.to_nat d).

(** Where the machine is: copying text, inside an escape with what it has
    collected, or returned. *)
Inductive pmode : Type :=
  | Literal
  | Escape (padc width precision lflag altflag : Z)
  | Done.

Record pstate : Type := PState { p_ix : nat; p_ap : list va; p_mode : pmode }.

Section putch.
Context {P : Type} (putch : Z -> M P ()).

(** [while (--width > 0) putch(padc, putdat);] on a decremented [width]. *)
Definition pad (padc width : Z) : M P Z :=
  while (S (Z.to_nat width)) (fun w => mret (0 <? w))
    (fun w => putch padc;; int_op (w - 1)) width.

Fixpoint printnum (fuel : nat) (num base width padc : Z) : M P () :=
  match fuel with
  | O => spin
  | S fuel' =>
      (if base <=? num then
         w ← int_op (width - 1);
         printnum fuel' (num / base) base w padc
       else
         w ← int_op (width - 1);
         pad padc w;;
         mret tt);;
      putch (digit (num mod base))
  end.

Definition va_word (ap : list va) : M P (Z * list va) :=
  match ap with Word z :: ap' => mret (z, ap') | _ => fault end.
Definition va_longlong (ap : list va) : M P (Z * list va) :=
  match ap with LongLong z :: ap' => mret (z, ap') | _ => fault end.
Definition va_str (ap : list va) : M P (option (list Z) * list va) :=
  match ap with Str p :: ap' => mret (p, ap') | _ => fault end.

Definition getuint (ap : list va) (lflag : Z) : M P (Z * list va) :=
  if 2 <=? lflag then ('(z, ap') ← va_longlong ap; mret (u64 z, ap'))
  else ('(z, ap') ← va_word ap; mret (u32 z, ap')).

Definition getint (ap : list va) (lflag : Z) : M P (Z * list va) :=
  if 2 <=? lflag then ('(z, ap') ← va_longlong ap; mret ((z + 2 ^ 63) mod 2 ^ 64 - 2 ^ 63, ap'))
  else ('(z, ap') ← va_word ap; mret (i32 z, ap')).

(** [*fmt], for a pointer at index [k]. *)
Definition fmt_at (fmt : list Z) (k : nat) : M P Z :=
  if (k <? length fmt)%nat then mret (default 0 (fmt !! k))
  else if (k =? length fmt)%nat then mret 0 else fault.

(** The digits of a width: returns the number and the index of the first
    character that is not a digit. *)
Fixpoint read_width (fmt : list Z) (fuel : nat) (precision ch : Z) (k : nat) : M P (Z * nat) :=
  match fuel with
  | O => spin
  | S fuel' =>
      t ← int_op (precision * 10 + ch);
      let precision := t - chr "0" in
      c ← fmt_at fmt k;
      let ch := i8 c in
      if (ch <? chr "0") || (chr "9" <? ch) then mret (precision, k)
      else read_width fmt fuel' precision ch (S k)
  end.

(** [for (fmt--; fmt[-1] != '%'; fmt--)]: the index after the last '%' before [k]. *)
Fixpoint back_to_percent (fmt : list Z) (k : nat) : M P nat :=
  match k with
  | O => fault
  | S k' => if default 0 (fmt !! k') =? chr "%" then mret k else back_to_percent fmt k'
  end.

(** The characters of a [%s] argument; returns the remaining width. *)
Fixpoint put_str (altflag : Z) (p : list Z) (precision width : Z) : M P Z :=
  match p with
  | [] => mret width
  | c :: p' =>
      let ch := i8 c in
      if ch =? 0 then mret width
      else if (precision <? 0) || (0 <=? precision - 1) then
        (if negb (altflag =? 0) && ((ch <? chr " ") || (chr "~" <? ch))
         then putch (chr "?") else putch ch);;
        w ← int_op (width - 1);
        put_str altflag p' (if precision <? 0 then precision else precision - 1) w
      else mret width
  end.

(** [process_precision]: the width comes first, then the precision. *)
Definition process_precision (k : nat) (ap : list va) (padc width precision lflag altflag : Z) : pstate :=
  if width <? 0 then PState k ap (Escape padc precision (-1) lflag altflag)
  else PState k ap (Escape padc width precision lflag altflag).

Definition number (k : nat) (ap : list va) (num base width padc : Z) : M P pstate :=
  printnum 64 num base width padc;; mret (PState k ap Literal).

(** The flag, width and precision characters of the switch: they stay inside
    the escape ([goto reswitch]).  [k] is the index after [ch]. *)
Definition escape_modifier (fmt : list Z) (ch : Z) (k : nat) (ap : list va)
    (padc width precision lflag altflag : Z) : M P (option pstate) :=
  if ch =? chr "-" then mret (Some (PState k ap (Escape (chr "-") width precision lflag altflag)))
  else if ch =? chr "0" then mret (Some (PState k ap (Escape (chr "0") width precision lflag altflag)))
  else if (chr "1" <=? ch) && (ch <=? chr "9") then
    '(precision, k) ← read_width fmt (S (length fmt)) 0 ch k;
    mret (Some (process_precision k ap padc width precision lflag altflag))
  else if ch =? chr "*" then
    '(z, ap) ← va_word ap;
    mret (Some (process_precision k ap padc width (i32 z) lflag altflag))
  else if ch =? chr "." then
    mret (Some (PState k ap (Escape padc (if width <? 0 then 0 else width) precision lflag altflag)))
  else if ch =? chr "#" then mret (Some (PState k ap (Escape padc width precision lflag 1)))
  else if ch =? chr "l" then
    l ← int_op (lflag + 1);
    mret (Some (PState k ap (Escape padc width precision l altflag)))
  else mret None.

(** [case 's']: the characters, in a field of width [width]. *)
Definition print_string (q : option (list Z)) (padc width precision altflag : Z) : M P () :=
  let p := default (bytes "(null)") q in
  width ← (if (0 <? width) && negb (padc =? chr "-") then
             w ← int_op (width - Z.min (Z.of_nat (length p)) (u32 precision));
             pad padc w
           else mret width);
  width ← put_str altflag p precision width;
  pad (chr " ") width;;
  mret tt.

(** [case 'e']: [printfmt] is the recursive call. *)
Definition print_error (printfmt : list Z -> list va -> M P ()) (z : Z) : M P () :=
  err ← (if z <? 0 then int_op (- z) else mret z);
  match (if MAXERROR <? err then None else error_string err) with
  | None => printfmt (bytes "error %d") [Word err]
  | Some p => printfmt (bytes "%s") [Str (Some p)]
  end.

(** The conversion characters of the switch: they end the escape.  [k] is the
    index after [ch]; the default case walks back to the last '%'. *)
Definition conversion (printfmt : list Z -> list va -> M P ()) (fmt : list Z) (ch : Z) (k : nat)
    (ap : list va) (padc width precision lflag altflag : Z) : M P pstate :=
  if ch =? chr "c" then
    '(z, ap) ← va_word ap;
    putch (i32 z);;
    mret (PState k ap Literal)
  else if ch =? chr "e" then
    '(z, ap) ← va_word ap;
    print_error printfmt (i32 z);;
    mret (PState k ap Literal)
  else if ch =? chr "s" then
    '(q, ap) ← va_str ap;
    print_string q padc width precision altflag;;
    mret (PState k ap Literal)
  else if ch =? chr "d" then
    '(n, ap) ← getint ap lflag;
    num ← (if n <? 0 then
             putch (chr "-");;
             (if n =? - 2 ^ 63 then fault else mret (- n))
           else mret n);
    number k ap num 10 width padc
  else if ch =? chr "u" then
    '(num, ap) ← getuint ap lflag;
    number k ap num 10 width padc
  else if ch =? chr "o" then
    '(num, ap) ← getuint ap lflag;
    number k ap num 8 width padc
  else if ch =? chr "p" then
    putch (chr "0");;
    putch (chr "x");;
    '(z, ap) ← va_word ap;
    number k ap (u32 z) 16 width padc
  else if ch =? chr "x" then
    '(num, ap) ← getuint ap lflag;
    number k ap num 16 width padc
  else if ch =? chr "%" then
    putch ch;;
    mret (PState k ap Literal)
  else
    putch (chr "%");;
    k ← back_to_percent fmt (Nat.pred k);
    mret (PState k ap Literal).

(** One character of the format. *)
Definition vprintfmt_step (printfmt : list Z -> list va -> M P ()) (fmt : list Z) (st : pstate) : M P pstate :=
  let ap := p_ap st in
  let k := S (p_ix st) in
  c ← fmt_at fmt (p_ix st);
  let ch := u8 c in
  match p_mode st with
  | Done => mret st
  | Literal =>
      if ch =? chr "%" then mret (PState k ap (Escape (chr " ") (-1) (-1) 0 0))
      else if ch =? 0 then mret (PState k ap Done)
      else putch ch;; mret (PState k ap Literal)
  | Escape padc width precision lflag altflag =>
      m ← escape_modifier fmt ch k ap padc width precision lflag altflag;
      match m with
      | Some st' => mret st'
      | None => conversion printfmt fmt ch k ap padc width precision lflag altflag
      end
  end.

Definition is_done (st : pstate) : bool :=
  match p_mode st with Done => true | _ => false end.

(** Twice the length of the format bounds the number of steps: a character is
    read at most once inside an escape and once as text. *)
Definition vprintfmt_fuel (fmt : list Z) : nat := 2 * length fmt + 4.

(** [depth] bounds the calls of [vprintfmt] by itself; the formats of the
    inner calls hold no [%e], so two levels are enough. *)
Fixpoint vprintfmt_rec (depth : nat) (fmt : list Z) (ap : list va) : M P () :=
  match depth with
  | O => spin
  | S depth' =>
      while (vprintfmt_fuel fmt) (fun st => mret (negb (is_done st)))
        (vprintfmt_step (vprintfmt_rec depth') fmt) (PState 0 ap Literal);;
      mret tt
  end.

Definition vprintfmt (fmt : list Z) (ap : list va) : M P () := vprintfmt_rec 2 fmt ap.

(** [printfmt] gathers its variadic arguments and calls [vprintfmt]. *)
Definition printfmt (fmt : list Z) (args : list va) : M P () := vprintfmt fmt args.
End putch.

(** The formatter with the output collected in a list. *)
Definition emit (c : Z) : M (list Z) () := modify (fun t => t ++ [c]).
Definition sprint (fmt : list Z) (args : list va) : outcome (list Z) () := vprintfmt emit fmt args [].

Example sprint_ex1 :
  sprint (bytes "%d|%5u|%05x|%-4d|%s|%o") [Word (-3); Word 42; Word 255; Word 7; Str (Some (bytes "ok")); Word 6828]
  = Ret tt (bytes "-3|   42|000ff|---7|ok|15254").
Proof. vm_compute. reflexivity. Qed.
Example sprint_ex2 : sprint (bytes "%e, %e %") [Word (-4); Word 9] = Ret tt (bytes "out of memory, error 9 %").
Proof. vm_compute. reflexivity. Qed.
Example sprint_ex3 : sprint (bytes "%5q%.0s") [Str (Some (bytes "hi"))] = Ret tt (bytes "%5qhi").
Proof. vm_compute. reflexivity. Qed.

(** ** The callback only sees the text

    [prints m0 putch m]: whenever [m0], which collects its output in a list,
    returns, [m] behaves like calling [putch] on each character of that output
    in turn and returning the same result. *)

Definition prints {A} (m0 : M (list Z) A) {P} (putch : Z -> M P ()) (m : M P A) : Prop :=
  forall t a t', m0 t = Ret a t' ->
  exists out, t' = t ++ out /\ forall s, m s = (for_each putch out;; mret a) s.

Section prints.
Context {P : Type} (putch : Z -> M P ()).

Lemma prints_ret {A} (a : A) : prints (mret a) putch (mret a).
Proof. intros t b t' [= -> ->]. exists []. by rewrite app_nil_r. Qed.

Lemma prints_fault {A} : prints (A := A) fault putch fault.
Proof. done. Qed.

Lemma prints_spin {A} : prints (A := A) spin putch spin.
Proof. done. Qed.

Lemma prints_int_op z : prints (int_op z) putch (int_op z).
Proof. unfold int_op. destruct (in_int z); [apply prints_ret | apply prints_fault]. Qed.

Lemma prints_putch c : prints (emit c) putch (putch c).
Proof.
  intros t a t' [= <- <-]. exists [c]. split; [done|]. intros s. simpl.
  unfold mbind, M_bind. destruct (putch c s) as [[] ?|? ?| |]; done.
Qed.

Lemma prints_bind {A B} (m0 : M (list Z) A) (m : M P A) (f0 : A -> M (list Z) B) (f : A -> M P B) :
  prints m0 putch m -> (forall a, prints (f0 a) putch (f a)) -> prints (m0 ≫= f0) putch (m ≫= f).
Proof.
  intros Hm Hf t b t'. unfold mbind at 1, M_bind at 1.
  destruct (m0 t) as [a t1|? ?| |] eqn:E; try done. intros E2.
  destruct (Hm _ _ _ E) as (o1 & -> & H1). destruct (Hf _ _ _ _ E2) as (o2 & -> & H2).
  exists (o1 ++ o2). rewrite app_assoc. split; [done|]. intros s.
  unfold mbind, M_bind in *. rewrite H1, for_each_app. unfold mbind, M_bind.
  destruct (for_each putch o1 s) as [? s1|? ?| |]; [|done..]. simpl. apply H2.
Qed.

Lemma prints_while {I} (c0 : I -> M (list Z) bool) (c : I -> M P bool) b0 b fuel i :
  (forall i, prints (c0 i) putch (c i)) -> (forall i, prints (b0 i) putch (b i)) ->
  prints (while fuel c0 b0 i) putch (while fuel c b i).
Proof.
  intros Hc Hb. revert i. induction fuel as [|fuel IH]; intros i; [apply prints_spin|].
  simpl. apply prints_bind; [done|]. intros [|]; [|apply prints_ret].
  apply prints_bind; done.
Qed.
End prints.

Create HintDb prints.
#[export] Hint Resolve prints_ret prints_fault prints_spin prints_int_op prints_putch : prints.

(** Walk through two programs that differ only in their callback. *)
Ltac prints_step :=
  match goal with
  | |- prints (mbind _ _) _ _ => apply prints_bind; [|intros ?]
  | |- prints (while _ _ _ _) _ _ => apply prints_while; intros ?
  | |- prints (match ?x with _ => _ end) _ _ => destruct x
  | |- prints (if ?x then _ else _) _ _ => destruct x
  | _ => solve [auto with prints]
  end.
Ltac prints_go := repeat prints_step.

Section parametricity.
Context {P : Type} (putch : Z -> M P ()).

Lemma prints_pad padc w : prints (pad emit padc w) putch (pad putch padc w).
Proof. unfold pad. prints_go. Qed.
#[local] Hint Resolve prints_pad : prints.

Lemma prints_printnum fuel num base width padc :
  prints (printnum emit fuel num base width padc) putch (printnum putch fuel num base width padc).
Proof.
  revert num width. induction fuel as [|fuel IH]; intros num width; simpl; prints_go.
Qed.
#[local] Hint Resolve prints_printnum : prints.

Lemma prints_va_word ap : prints (va_word ap) putch (va_word ap).
Proof. unfold va_word. prints_go. Qed.
Lemma prints_va_longlong ap : prints (va_longlong ap) putch (va_longlong ap).
Proof. unfold va_longlong. prints_go. Qed.
Lemma prints_va_str ap : prints (va_str ap) putch (va_str ap).
Proof. unfold va_str. prints_go. Qed.
#[local] Hint Resolve prints_va_word prints_va_longlong prints_va_str : prints.

Lemma prints_getuint ap l : prints (getuint ap l) putch (getuint ap l).
Proof. unfold getuint. prints_go. Qed.
Lemma prints_getint ap l : prints (getint ap l) putch (getint ap l).
Proof. unfold getint. prints_go. Qed.
#[local] Hint Resolve prints_getuint prints_getint : prints.

Lemma prints_fmt_at fmt k : prints (fmt_at fmt k) putch (fmt_at fmt k).
Proof. unfold fmt_at. prints_go. Qed.
#[local] Hint Resolve prints_fmt_at : prints.

Lemma prints_read_width fmt fuel p ch k :
  prints (read_width fmt fuel p ch k) putch (read_width fmt fuel p ch k).
Proof.
  revert p ch k. induction fuel as [|fuel IH]; intros p ch k; simpl; prints_go.
Qed.

Lemma prints_back fmt k : prints (back_to_percent fmt k) putch (back_to_percent fmt k).
Proof. induction k as [|k IH]; simpl; prints_go. Qed.

Lemma prints_put_str alt p prec w : prints (put_str emit alt p prec w) putch (put_str putch alt p prec w).
Proof. revert prec w. induction p as [|c p IH]; intros prec w; simpl; prints_go. Qed.
#[local] Hint Resolve prints_read_width prints_back prints_put_str : prints.

Lemma prints_number k ap num base width padc :
  prints (number emit k ap num base width padc) putch (number putch k ap num base width padc).
Proof. unfold number. prints_go. Qed.
#[local] Hint Resolve prints_number : prints.

Lemma prints_print_string q padc w prec alt :
  prints (print_string emit q padc w prec alt) putch (print_string putch q padc w prec alt).
Proof. unfold print_string. prints_go. Qed.

Lemma prints_print_error f0 f z :
  (forall a b, prints (f0 a b) putch (f a b)) ->
  prints (print_error f0 z) putch (print_error f z).
Proof. intros Hf. unfold print_error. prints_go. Qed.

Lemma prints_escape_modifier fmt ch k ap padc w prec l alt :
  prints (escape_modifier fmt ch k ap padc w prec l alt) putch
         (escape_modifier fmt ch k ap padc w prec l alt).
Proof. unfold escape_modifier. prints_go. Qed.
#[local] Hint Resolve prints_print_string prints_print_error prints_escape_modifier : prints.

Lemma prints_vprintfmt_step f0 f fmt st :
  (forall a b, prints (f0 a b) putch (f a b)) ->
  prints (vprintfmt_step emit f0 fmt st) putch (vprintfmt_step putch f fmt st).
Proof. intros Hf. unfold vprintfmt_step, conversion. prints_go. Qed.

Lemma prints_vprintfmt_rec d fmt ap :
  prints (vprintfmt_rec emit d fmt ap) putch (vprintfmt_rec putch d fmt ap).
Proof.
  revert fmt ap. induction d as [|d IH]; intros fmt ap; simpl; prints_go.
  by apply prints_vprintfmt_step.
Qed.
End parametricity.

(** ** Numbers *)

(** The base-[b] digits of [n], most significant first. *)
Fixpoint digits (fuel : nat) (b n : Z) : list Z :=
  match fuel with
  | O => []
  | S fuel' => if b <=? n then digits fuel' b (n / b) ++ [n mod b] else [n]
  end.

Definition value (b : Z) (ds : list Z) : Z := foldl (fun v d => v * b + d) 0 ds.

Definition numeral (b n : Z) : list Z := digit <$> digits 64 b n.

(** [ds] right-justified in a field of width [w] padded with [padc]. *)
Definition justify (padc w : Z) (ds : list Z) : list Z :=
  replicate (Z.to_nat (w - Z.of_nat (length ds))) padc ++ ds.

Lemma digits_spec fuel b n :
  2 <= b -> 0 <= n < 2 ^ Z.of_nat fuel -> (0 < fuel)%nat ->
  value b (digits fuel b n) = n /\ Forall (fun d => 0 <= d < b) (digits fuel b n) /\
  (0 < length (digits fuel b n) <= fuel)%nat /\
  (n <> 0 -> head (digits fuel b n) <> Some 0).
Proof.
  intros Hb. revert n. induction fuel as [|fuel IH]; intros n Hn Hf; [lia|]. simpl.
  destruct (Z.leb_spec b n) as [Hge|Hlt]; simpl.
  - assert (n / b < 2 ^ Z.of_nat fuel).
    { apply Z.div_lt_upper_bound; [lia|]. rewrite Nat2Z.inj_succ, Z.pow_succ_r in Hn by lia. nia. }
    assert (0 < n / b) by (apply Z.div_str_pos; lia).
    destruct fuel as [|fuel]; [exfalso; cbn in Hn; lia|].
    destruct (IH (n / b)) as (Hv & Hr & Hl & Hh); [lia | lia |].
    split_and!.
    + unfold value in *. rewrite foldl_snoc, Hv. pose proof (Z.div_mod n b). lia.
    + apply Forall_app. split; [done|]. constructor; [|done]. apply Z.mod_pos_bound. lia.
    + rewrite length_app. cbn [length]. lia.
    + rewrite length_app. cbn [length]. lia.
    + intros _. destruct (digits (S fuel) b (n / b)) as [|d ds] eqn:E; simpl in *; [lia|].
      apply Hh. lia.
  - unfold value. simpl. split_and!; [lia | | lia | lia | naive_solver].
    constructor; [lia | done].
Qed.

Lemma pad_emit padc w t :
  - 2 ^ 31 <= w < 2 ^ 31 ->
  pad emit padc w t = Ret (Z.min w 0) (t ++ replicate (Z.to_nat w) padc).
Proof.
  intros Hw. unfold pad. remember (Z.to_nat w) as n eqn:En.
  revert w t Hw En. induction n as [|n IH]; intros w t Hw En; rewrite while_S, bind_ret.
  - replace (0 <? w) with false by lia. simpl. rewrite app_nil_r. unfold mret, M_ret. f_equal. lia.
  - replace (0 <? w) with true by lia. rewrite int_op_ok by lia.
    erewrite bind_eq by reflexivity. rewrite IH by lia.
    rewrite <- app_assoc. f_equal. lia.
Qed.

Lemma printnum_emit fuel num base w padc t :
  2 <= base -> 0 <= num < 2 ^ Z.of_nat fuel -> (0 < fuel)%nat ->
  - 2 ^ 31 + Z.of_nat fuel <= w < 2 ^ 31 ->
  printnum emit fuel num base w padc t =
  Ret tt (t ++ justify padc w (digit <$> digits fuel base num)).
Proof.
  intros Hb. revert num w t. induction fuel as [|fuel IH]; intros num w t Hn Hf Hw; [lia|].
  cbn [printnum digits]. rewrite int_op_ok by lia.
  destruct (Z.leb_spec base num) as [Hge|Hlt].
  - assert (num / base < 2 ^ Z.of_nat fuel).
    { apply Z.div_lt_upper_bound; [lia|]. rewrite Nat2Z.inj_succ, Z.pow_succ_r in Hn by lia. nia. }
    assert (0 < num / base) by (apply Z.div_str_pos; lia).
    destruct fuel as [|fuel]; [exfalso; cbn in Hn; lia|].
    rewrite (bind_eq _ _ _ tt (t ++ justify padc (w - 1) (digit <$> digits (S fuel) base (num / base))))
      by (rewrite bind_ret; apply IH; lia).
    unfold emit, modify, justify. rewrite fmap_app, !length_app, !length_fmap.
    cbn [length fmap list_fmap]. rewrite <- !app_assoc. do 4 f_equal. lia.
  - rewrite (bind_eq _ _ _ tt (t ++ replicate (Z.to_nat (w - 1)) padc)).
    2: { rewrite bind_ret. rewrite (bind_eq _ _ _ _ _ (pad_emit padc (w - 1) t ltac:(lia))). done. }
    unfold emit, modify, justify. cbn [fmap list_fmap length].
    rewrite Z.mod_small by lia. by rewrite <- app_assoc.
Qed.

(** [printnum] prints the base-[base] numeral of [num], without leading zeros,
    right-justified to [width] with [padc]: the characters it sends to [putch]
    are padding followed by the digits, whose value is [num]. *)
Theorem printnum_correct {P} (putch : Z -> M P ()) num base width padc s :
  2 <= base <= 16 -> 0 <= num < 2 ^ 64 -> -1 <= width < 2 ^ 31 ->
  exists ds,
    printnum putch 64 num base width padc s =
      for_each putch (replicate (Z.to_nat (width - Z.of_nat (length ds))) padc ++ (digit <$> ds)) s /\
    value base ds = num /\ Forall (fun d => 0 <= d < base) ds /\
    ds <> [] /\ (num <> 0 -> head ds <> Some 0).
Proof.
  intros Hb Hn Hw. exists (digits 64 base num).
  destruct (digits_spec 64 base num) as (Hv & Hr & Hl & Hh); [lia | lia | lia |].
  destruct (prints_printnum putch 64 num base width padc [] tt
     (justify padc width (digit <$> digits 64 base num))) as (out & Ho & Hrun).
  { rewrite printnum_emit by lia. done. }
  simpl in Ho. subst out. split_and!; [|done|done|by destruct (digits 64 base num); simpl in *; [lia|]|done].
  rewrite Hrun. unfold justify. rewrite length_fmap. unfold mbind, M_bind.
  destruct (for_each putch _ s) as [[] ?|? ?| |]; done.
Qed.

Lemma printnum_correct_witness :
  exists ds,
    printnum emit 64 255 16 4 (chr "0") [] = Ret tt (bytes "00ff") /\ value 16 ds = 255.
Proof.
  destruct (printnum_correct emit 255 16 4 (chr "0") []) as (ds & Hp & Hv & _);
    [lia | lia | lia |].
  exists ds. split; [vm_compute; reflexivity | exact Hv].
Defined.

(** ** The formatter always stops

    [lit_run fmt k]: how many characters from index [k] come before the next
    '%'.  [esc_start fmt k]: the index after the last '%' before [k]. *)

Fixpoint lit_len (l : list Z) : nat :=
  match l with
  | [] => O
  | c :: l' => if c =? chr "%" then O else S (lit_len l')
  end.

Definition lit_run (fmt : list Z) (k : nat) : nat := lit_len (drop k fmt).

Fixpoint esc_start (fmt : list Z) (k : nat) : nat :=
  match k with
  | O => O
  | S k' => if default 0 (fmt !! k') =? chr "%" then k else esc_start fmt k'
  end.

(** Steps still to come from a state. *)
Definition steps_left (fmt : list Z) (st : pstate) : nat :=
  let k := p_ix st in
  match p_mode st with
  | Done => 0
  | Literal => lit_run fmt k + 2 * (length fmt + 1 - (k + lit_run fmt k))
  | Escape _ _ _ _ _ => 2 * (length fmt + 1 - k) + (k - esc_start fmt k) + 1
  end.

Lemma lit_run_lit fmt k c :
  fmt !! k = Some c -> c <> chr "%" -> lit_run fmt k = S (lit_run fmt (S k)).
Proof.
  intros Hk Hc. unfold lit_run. rewrite (drop_S _ _ _ Hk). cbn [lit_len].
  by replace (c =? chr "%") with false by lia.
Qed.

Lemma lit_run_pct fmt k : fmt !! k = Some (chr "%") -> lit_run fmt k = 0%nat.
Proof. intros Hk. unfold lit_run. by rewrite (drop_S _ _ _ Hk). Qed.

Lemma lit_len_bound l : (lit_len l <= length l)%nat.
Proof. induction l as [|c l IH]; simpl; [lia|]. destruct (c =? _); lia. Qed.

Lemma lit_run_bound fmt k : (k + lit_run fmt k <= Nat.max k (length fmt))%nat.
Proof.
  unfold lit_run. pose proof (lit_len_bound (drop k fmt)). rewrite length_drop in *. lia.
Qed.

Lemma fmt_at_char {P} fmt k c : fmt !! k = Some c -> fmt_at (P := P) fmt k = mret c.
Proof.
  intros Hk. unfold fmt_at. pose proof (lookup_lt_Some _ _ _ Hk).
  replace (k <? length fmt)%nat with true by (symmetry; apply Nat.ltb_lt; lia).
  by rewrite Hk.
Qed.

Lemma fmt_at_nul {P} fmt : fmt_at (P := P) fmt (length fmt) = mret 0.
Proof. unfold fmt_at. by rewrite Nat.ltb_irrefl, Nat.eqb_refl. Qed.

(** A pointer into the string is at a character or at the NUL. *)
Lemma fmt_cases (fmt : list Z) (k : nat) :
  (k <= length fmt)%nat -> (exists c, fmt !! k = Some c) \/ k = length fmt.
Proof.
  intros Hk. destruct (fmt !! k) as [c|] eqn:E; [by left; exists c|].
  apply lookup_ge_None in E. right. lia.
Qed.

Lemma esc_start_le fmt k : (esc_start fmt k <= k)%nat.
Proof. induction k as [|k IH]; simpl; [lia|]. destruct (_ =? _); lia. Qed.

Lemma esc_start_S fmt k c :
  fmt !! k = Some c -> c <> chr "%" -> esc_start fmt (S k) = esc_start fmt k.
Proof.
  intros Hk Hc. simpl. rewrite Hk. simpl.
  by replace (c =? chr "%") with false by lia.
Qed.

Lemma esc_start_pct fmt k : fmt !! k = Some (chr "%") -> esc_start fmt (S k) = S k.
Proof. intros Hk. simpl. rewrite Hk. done. Qed.

(** Between the '%' and [k] there is no other '%'. *)
Lemma lit_run_esc_start fmt k :
  (k <= length fmt)%nat -> (k - esc_start fmt k <= lit_run fmt (esc_start fmt k))%nat.
Proof.
  induction k as [|k IH]; intros Hk; simpl; [lia|].
  destruct (fmt !! k) as [c|] eqn:E.
  2: { apply lookup_ge_None in E. lia. }
  simpl. destruct (Z.eqb_spec c (chr "%")) as [->|Hne]; [lia|].
  specialize (IH ltac:(lia)). pose proof (esc_start_le fmt k).
  (* extend the run by the character at k *)
  revert IH H. generalize (esc_start fmt k). intros p Hrun Hp.
  remember (k - p)%nat as d eqn:Ed. revert p Hp Hrun Ed. induction d as [|d IHd]; intros p Hp Hrun Ed.
  - assert (p = k) as -> by lia. rewrite (lit_run_lit _ _ _ E Hne). lia.
  - destruct (fmt !! p) as [x|] eqn:Ep.
    2: { apply lookup_ge_None in Ep. lia. }
    destruct (decide (x = chr "%")) as [->|Hx]; [rewrite (lit_run_pct _ _ Ep) in Hrun; lia|].
    rewrite (lit_run_lit _ _ _ Ep Hx) in *.
    specialize (IHd (S p)). lia.
Qed.

Lemma back_to_percent_ends {P} fmt k (Q : nat -> P -> Prop) (s : P) :
  ((0 < esc_start fmt k)%nat -> Q (esc_start fmt k) s) -> ends (back_to_percent fmt k) Q s.
Proof.
  induction k as [|k IH]; intros HQ; simpl; [done|].
  simpl in HQ. destruct (_ =? _); [|by apply IH]. apply ends_ret. apply HQ. lia.
Qed.

Lemma read_width_ends {P} fmt fuel p ch k (s : P) :
  (length fmt < fuel + k)%nat -> (k <= length fmt)%nat ->
  ends (read_width fmt fuel p ch k) (fun r s' => s' = s /\ (k <= r.2 <= length fmt)%nat /\
      (forall j, (k <= j < r.2)%nat -> fmt !! j <> Some (chr "%"))) s.
Proof.
  revert p ch k. induction fuel as [|fuel IH]; intros p ch k Hf Hk; [lia|]. cbn [read_width].
  ends_go. destruct (fmt_cases fmt k Hk) as [[c Hc]| ->].
  - pose proof (lookup_lt_Some _ _ _ Hc). rewrite (fmt_at_char _ _ _ Hc). ends_go.
    destruct ((i8 c <? chr "0") || (chr "9" <? i8 c)) eqn:Ed.
    { ends_go. simpl. split_and!; [done|lia|lia|intros; lia]. }
    eapply ends_mono; [apply IH; lia|]. simpl. intros r s' (-> & Hr & Hn). split_and!; [done|lia|lia|].
    intros j Hj. destruct (decide (j = k)) as [->|]; [|apply Hn; lia].
    rewrite Hc. intros [= ->]. revert Ed. vm_compute. done.
  - rewrite fmt_at_nul. ends_go.
    change ((i8 0 <? chr "0") || (chr "9" <? i8 0)) with true. ends_go.
    simpl. split_and!; [done|lia|lia|intros; lia].
Qed.

Lemma esc_start_range fmt k k' :
  (k <= k' <= length fmt)%nat -> (forall j, (k <= j < k')%nat -> fmt !! j <> Some (chr "%")) ->
  esc_start fmt k' = esc_start fmt k.
Proof.
  induction k' as [|k' IH]; intros Hk Hn; [by assert (k = 0%nat) as -> by lia|].
  destruct (decide (k = S k')) as [->|]; [done|].
  destruct (fmt_cases fmt k') as [[c Hc]|]; [lia| |lia].
  rewrite (esc_start_S _ _ _ Hc); [apply IH; [lia | intros; apply Hn; lia]|].
  intros ->. by apply (Hn k'); [lia|].
Qed.

(** A '%' followed, somewhere, by an 'e': where the formatter may call itself. *)
Definition calls_itself (fmt : list Z) : Prop :=
  exists j k, (j < k)%nat /\ fmt !! j = Some (chr "%") /\ fmt !! k = Some (chr "e").

Lemma esc_start_found fmt k : (0 < esc_start fmt k)%nat ->
  exists j, (j < k)%nat /\ fmt !! j = Some (chr "%").
Proof.
  induction k as [|k IH]; simpl; [lia|]. destruct (Z.eqb_spec (default 0 (fmt !! k)) (chr "%")) as [E|E].
  - intros _. exists k. split; [lia|]. destruct (fmt !! k); simpl in E; [by f_equal | done].
  - intros H. destruct (IH H) as (j & ? & ?). exists j. split; [lia | done].
Qed.

Section terminates.
Context {P : Type} (putch : Z -> M P ()).
Context (Hputch : forall c s, ends (putch c) (fun _ _ => True) s).

Lemma putch_ends c (Q : () -> P -> Prop) s : (forall s', Q tt s') -> ends (putch c) Q s.
Proof. intros HQ. eapply ends_mono; [apply Hputch|]. intros [] s' _. apply HQ. Qed.

Lemma pad_ends padc w (Q : Z -> P -> Prop) s : (forall w s', Q w s') -> ends (pad putch padc w) Q s.
Proof.
  intros HQ. unfold pad. apply ends_while with (Inv := fun _ _ => True) (mu := Z.to_nat); [done|lia|].
  intros i s' _. ends_go. destruct (Z.ltb_spec 0 i); [|done].
  ends_go. apply putch_ends. intros s''. ends_go. split; [done | lia].
Qed.

Lemma printnum_ends fuel num base w padc (Q : () -> P -> Prop) s :
  2 <= base -> 0 <= num < 2 ^ Z.of_nat fuel -> (0 < fuel)%nat -> (forall s', Q tt s') ->
  ends (printnum putch fuel num base w padc) Q s.
Proof.
  intros Hb. revert num w s Q. induction fuel as [|fuel IH]; intros num w s Q Hn Hf HQ; [lia|].
  cbn [printnum]. ends_go. destruct (Z.leb_spec base num) as [Hge|Hlt]; ends_go.
  - destruct fuel as [|fuel]; [exfalso; cbn in Hn; lia|].
    assert (num / base < 2 ^ Z.of_nat (S fuel)).
    { apply Z.div_lt_upper_bound; [lia|]. rewrite Nat2Z.inj_succ, Z.pow_succ_r in Hn by lia. nia. }
    apply IH; [split; [apply Z.div_pos; lia | done] | lia |].
    intros s'. by apply putch_ends.
  - apply pad_ends. intros ? s'. ends_go. by apply putch_ends.
Qed.

Lemma put_str_ends alt p prec w (Q : Z -> P -> Prop) s : (forall w s', Q w s') -> ends (put_str putch alt p prec w) Q s.
Proof.
  intros HQ. revert prec w s. induction p as [|c p IH]; intros prec w s; cbn [put_str]; ends_go; [apply HQ|].
  destruct (i8 c =? 0); ends_go; [apply HQ|].
  destruct (_ || _); ends_go; [|apply HQ].
  destruct (_ && _); apply putch_ends; intros s'; ends_go; apply IH.
Qed.

Lemma va_word_ends ap (Q : Z * list va -> P -> Prop) s :
  (forall z ap', Q (z, ap') s) -> ends (va_word ap) Q s.
Proof. intros HQ. unfold va_word. destruct ap as [|[]]; try exact I. apply HQ. Qed.
Lemma va_str_ends ap (Q : _ -> P -> Prop) s : (forall z ap', Q (z, ap') s) -> ends (va_str ap) Q s.
Proof. intros HQ. unfold va_str. destruct ap as [|[]]; try exact I. apply HQ. Qed.
Lemma va_longlong_ends ap (Q : _ -> P -> Prop) s : (forall z ap', Q (z, ap') s) -> ends (va_longlong ap) Q s.
Proof. intros HQ. unfold va_longlong. destruct ap as [|[]]; try exact I. apply HQ. Qed.

Lemma getuint_ends ap l (Q : _ -> P -> Prop) s :
  (forall n ap', 0 <= n < 2 ^ 64 -> Q (n, ap') s) -> ends (getuint ap l) Q s.
Proof.
  intros HQ. unfold getuint. destruct (2 <=? l); ends_go.
  - apply va_longlong_ends. intros. ends_go. apply HQ. divmod.
  - apply va_word_ends. intros. ends_go. apply HQ. divmod.
Qed.
Lemma getint_ends ap l (Q : _ -> P -> Prop) s :
  (forall n ap', - 2 ^ 63 <= n < 2 ^ 63 -> Q (n, ap') s) -> ends (getint ap l) Q s.
Proof.
  intros HQ. unfold getint. destruct (2 <=? l); ends_go.
  - apply va_longlong_ends. intros. ends_go. apply HQ. divmod.
  - apply va_word_ends. intros. ends_go. apply HQ. divmod.
Qed.

Lemma number_ends k ap num base w padc (Q : pstate -> P -> Prop) s :
  2 <= base -> 0 <= num < 2 ^ 64 -> (forall s', Q (PState k ap Literal) s') ->
  ends (number putch k ap num base w padc) Q s.
Proof.
  intros ? ? HQ. unfold number. ends_go. apply printnum_ends; [done | done | lia |].
  intros s'. ends_go. apply HQ.
Qed.
End terminates.

(** The invariant of a run: the pointer stays inside the string, and inside an
    escape there is a '%' behind it. *)
Definition pstate_ok (fmt : list Z) (st : pstate) : Prop :=
  match p_mode st with
  | Done => True
  | Literal => (p_ix st <= length fmt)%nat
  | Escape _ _ _ _ _ => (p_ix st <= length fmt)%nat /\ (0 < esc_start fmt (p_ix st))%nat
  end.

(** [st'] is fine and nearer to the end than [st]. *)
Definition progress (fmt : list Z) (st st' : pstate) : Prop :=
  pstate_ok fmt st' /\ (steps_left fmt st' < steps_left fmt st)%nat.

Definition is_text (fmt : list Z) : Prop := Forall (fun c => 0 < c < 256) fmt.

Lemma is_text_lookup fmt k c : is_text fmt -> fmt !! k = Some c -> 0 < c < 256.
Proof. intros Ht Hc. exact (proj1 (Forall_lookup _ fmt) Ht k c Hc). Qed.

Section progress.
Context (fmt : list Z) (k : nat) (ap : list va) (padc w prec l alt : Z).
Abbreviation here := (PState k ap (Escape padc w prec l alt)).
Context (Hstart : (0 < esc_start fmt k)%nat).

Lemma progress_escape k' ap' p' w' prec' l' alt' :
  (k < k' <= length fmt)%nat -> esc_start fmt k' = esc_start fmt k ->
  progress fmt here (PState k' ap' (Escape p' w' prec' l' alt')).
Proof. intros Hk Hs. unfold progress, pstate_ok, steps_left. simpl. rewrite Hs. lia. Qed.

Lemma progress_literal k' ap' :
  (k < k' <= length fmt)%nat -> progress fmt here (PState k' ap' Literal).
Proof.
  intros Hk. unfold progress, pstate_ok, steps_left. simpl.
  pose proof (lit_run_bound fmt k'). lia.
Qed.

(** Going back to the text of an escape that is not recognised. *)
Lemma progress_back ap' :
  (k <= length fmt)%nat -> progress fmt here (PState (esc_start fmt k) ap' Literal).
Proof.
  intros Hk. unfold progress, pstate_ok, steps_left. simpl.
  pose proof (lit_run_esc_start fmt k Hk). pose proof (esc_start_le fmt k).
  pose proof (lit_run_bound fmt (esc_start fmt k)). lia.
Qed.
End progress.

Lemma esc_start_next fmt k c :
  fmt !! k = Some c -> c <> chr "%" -> esc_start fmt (S k) = esc_start fmt k /\ (k < S k <= length fmt)%nat.
Proof.
  intros Hc Hne. split; [by eapply esc_start_S|]. apply lookup_lt_Some in Hc. lia.
Qed.

(** Decide the tests on a character that is known. *)
Ltac char_tests :=
  repeat match goal with
  | |- context [?a =? chr ?b] =>
      let v := eval vm_compute in (a =? chr b) in
      lazymatch v with
      | true => change (a =? chr b) with true
      | false => change (a =? chr b) with false
      end
  | |- context [chr ?a <=? chr ?b] =>
      let v := eval vm_compute in (chr a <=? chr b) in
      change (chr a <=? chr b) with v
  end.

Section step_ends.
Context {P : Type} (putch : Z -> M P ()).
Context (Hputch : forall c s, ends (putch c) (fun _ _ => True) s).
Context (pf : list Z -> list va -> M P ()) (fmt : list Z) (Htext : is_text fmt).
Context (Hpf : calls_itself fmt -> forall e p s,
  ends (pf (bytes "error %d") [Word e]) (fun _ _ => True) s /\
  ends (pf (bytes "%s") [Str (Some p)]) (fun _ _ => True) s).

Lemma escape_modifier_ends k ap padc w prec l alt c (s : P) :
  fmt !! k = Some c -> c <> chr "%" -> (0 < esc_start fmt k)%nat ->
  ends (escape_modifier fmt c (S k) ap padc w prec l alt)
    (fun m _ => from_option (progress fmt (PState k ap (Escape padc w prec l alt))) True m) s.
Proof using Type.
  intros Hc Hne Hs. destruct (esc_start_next _ _ _ Hc Hne) as [Hnext Hr].
  assert (Hesc : forall ap' p' w' prec' l' alt', progress fmt (PState k ap (Escape padc w prec l alt))
      (PState (S k) ap' (Escape p' w' prec' l' alt'))) by (intros; by apply progress_escape).
  unfold escape_modifier.
  destruct (c =? chr "-"); ends_go; [apply Hesc|].
  destruct (c =? chr "0"); ends_go; [apply Hesc|].
  destruct ((chr "1" <=? c) && (c <=? chr "9")); ends_go.
  { eapply ends_mono; [apply read_width_ends; lia|]. intros [p' k'] s' (-> & Hk' & Hn).
    cbn [snd] in *. ends_go. cbn [from_option]. unfold process_precision.
    assert (esc_start fmt k' = esc_start fmt k) by (rewrite <- Hnext; by apply esc_start_range).
    destruct (w <? 0); apply progress_escape; done || lia. }
  destruct (c =? chr "*"); ends_go.
  { apply va_word_ends. intros. ends_go. unfold process_precision. destruct (w <? 0); apply Hesc. }
  destruct (c =? chr "."); ends_go; [apply Hesc|].
  destruct (c =? chr "#"); ends_go; [apply Hesc|].
  destruct (c =? chr "l"); ends_go; [apply Hesc|]. done.
Qed.

Lemma print_string_ends q padc w prec alt (Q : () -> P -> Prop) s :
  (forall s', Q tt s') -> ends (print_string putch q padc w prec alt) Q s.
Proof using Hputch.
  intros HQ. unfold print_string. ends_go.
  destruct ((0 <? w) && negb (padc =? chr "-")); ends_go;
    [apply pad_ends; [done|]; intros; ends_go|];
    (apply put_str_ends; [done|]; intros; ends_go;
     apply pad_ends; [done|]; intros; ends_go; apply HQ).
Qed.

Lemma print_error_ends z (Q : () -> P -> Prop) s :
  calls_itself fmt -> (forall s', Q tt s') -> ends (print_error pf z) Q s.
Proof using Hpf.
  intros Hci HQ. unfold print_error. ends_go.
  assert (Hrest : forall err s, ends
    (match (if MAXERROR <? err then None else error_string err) with
     | None => pf (bytes "error %d") [Word err] | Some p => pf (bytes "%s") [Str (Some p)] end) Q s).
  { intros err s'. destruct (if MAXERROR <? err then None else error_string err) as [p|].
    - eapply ends_mono; [apply (Hpf Hci err p)|]. intros [] ? _. apply HQ.
    - eapply ends_mono; [apply (Hpf Hci err [])|]. intros [] ? _. apply HQ. }
  destruct (z <? 0); ends_go; apply Hrest.
Qed.

(** Every conversion leaves the escape, forwards or, for an unknown
    character, back to the text of the escape. *)
Lemma conversion_ends k ap padc w prec l alt c s :
  (0 < esc_start fmt k)%nat -> (k <= length fmt)%nat -> (c <> 0 -> fmt !! k = Some c) ->
  ends (conversion putch pf fmt c (S k) ap padc w prec l alt)
    (fun st' _ => progress fmt (PState k ap (Escape padc w prec l alt)) st') s.
Proof using Hputch Hpf.
  intros Hs Hk Hc.
  assert (Hlit : c <> 0 -> forall ap', progress fmt (PState k ap (Escape padc w prec l alt)) (PState (S k) ap' Literal)).
  { intros Hz ap'. specialize (Hc Hz). apply lookup_lt_Some in Hc. apply progress_literal; lia. }
  unfold conversion.
  destruct (Z.eqb_spec c (chr "c")) as [->|_]; ends_go.
  { apply va_word_ends. intros. ends_go. apply (putch_ends _ Hputch). intros. ends_go. by apply Hlit. }
  destruct (Z.eqb_spec c (chr "e")) as [->|_]; ends_go.
  { apply va_word_ends. intros z ap'. ends_go. apply print_error_ends.
    - destruct (esc_start_found _ _ Hs) as (j & ? & ?). exists j, k. split_and!; [done|done|by apply Hc].
    - intros. ends_go. by apply Hlit. }
  destruct (Z.eqb_spec c (chr "s")) as [->|_]; ends_go.
  { apply va_str_ends. intros q ap'. ends_go. apply print_string_ends. intros. ends_go. by apply Hlit. }
  destruct (Z.eqb_spec c (chr "d")) as [->|_]; ends_go.
  { apply getint_ends. intros n ap' Hn. ends_go. destruct (Z.ltb_spec n 0); ends_go.
    - apply (putch_ends _ Hputch). intros. destruct (Z.eqb_spec n (- 2 ^ 63)); ends_go.
      apply number_ends; [done | lia | lia |]. intros. by apply Hlit.
    - apply number_ends; [done | lia | lia |]. intros. by apply Hlit. }
  destruct (Z.eqb_spec c (chr "u")) as [->|_]; ends_go.
  { apply getuint_ends. intros. ends_go. apply number_ends; [done | lia | lia |]. intros. by apply Hlit. }
  destruct (Z.eqb_spec c (chr "o")) as [->|_]; ends_go.
  { apply getuint_ends. intros. ends_go. apply number_ends; [done | lia | lia |]. intros. by apply Hlit. }
  destruct (Z.eqb_spec c (chr "p")) as [->|_]; ends_go.
  { apply (putch_ends _ Hputch). intros. ends_go. apply (putch_ends _ Hputch). intros. ends_go.
    apply va_word_ends. intros. ends_go. apply number_ends; [done | lia | divmod |]. intros. by apply Hlit. }
  destruct (Z.eqb_spec c (chr "x")) as [->|_]; ends_go.
  { apply getuint_ends. intros. ends_go. apply number_ends; [done | lia | lia |]. intros. by apply Hlit. }
  destruct (Z.eqb_spec c (chr "%")) as [->|_]; ends_go.
  { apply (putch_ends _ Hputch). intros. ends_go. by apply Hlit. }
  apply (putch_ends _ Hputch). intros. ends_go. cbn [Nat.pred].
  apply back_to_percent_ends. intros _. ends_go. by apply progress_back.
Qed.

Lemma step_ends st s :
  pstate_ok fmt st -> is_done st = false ->
  ends (vprintfmt_step putch pf fmt st) (fun st' _ => progress fmt st st') s.
Proof using Hputch Hpf Htext.
  destruct st as [k ap [|padc w prec l alt|]]; unfold pstate_ok; cbn [p_mode p_ix]; intros Hok Hd;
    [| |done]; unfold vprintfmt_step; cbn [p_mode p_ix p_ap].
  - destruct (fmt_cases fmt k Hok) as [[c Hc]| ->].
    + rewrite (fmt_at_char _ _ _ Hc). ends_go.
      pose proof (is_text_lookup _ _ _ Htext Hc). pose proof (lookup_lt_Some _ _ _ Hc).
      pose proof (lit_run_bound fmt k). cbv zeta. rewrite (u8_small c) by lia.
      unfold progress, pstate_ok, steps_left.
      destruct (Z.eqb_spec c (chr "%")) as [->|Hne]; ends_go; cbn [p_mode p_ix].
      { rewrite (esc_start_pct _ _ Hc), (lit_run_pct _ _ Hc). lia. }
      replace (c =? 0) with false by lia. ends_go. apply (putch_ends _ Hputch). intros. ends_go.
      cbn [p_mode p_ix]. rewrite (lit_run_lit _ _ _ Hc Hne) in *. lia.
    + rewrite fmt_at_nul. ends_go. cbv zeta. change (u8 0) with 0.
      change (0 =? chr "%") with false. change (0 =? 0) with true. ends_go.
      unfold progress, pstate_ok, steps_left. cbn [p_mode p_ix]. lia.
  - destruct Hok as [Hk Hs]. destruct (fmt_cases fmt k Hk) as [[c Hc]|E].
    + rewrite (fmt_at_char _ _ _ Hc). ends_go.
      pose proof (is_text_lookup _ _ _ Htext Hc). cbv zeta. rewrite (u8_small c) by lia.
      destruct (decide (c = chr "%")) as [->|Hne].
      { apply ends_ret. by apply conversion_ends. }
      eapply ends_mono; [by apply escape_modifier_ends|].
      intros [st'|] s' Hm; [by apply ends_ret | by apply conversion_ends].
    + rewrite E at 1. rewrite fmt_at_nul. ends_go. apply ends_ret.
      by apply conversion_ends.
Qed.
End step_ends.

Section rec_ends.
Context {P : Type} (putch : Z -> M P ()).
Context (Hputch : forall c s, ends (putch c) (fun _ _ => True) s).

Lemma vprintfmt_rec_ends d fmt ap s :
  is_text fmt ->
  (calls_itself fmt -> forall e p s,
    ends (vprintfmt_rec putch d (bytes "error %d") [Word e]) (fun _ _ => True) s /\
    ends (vprintfmt_rec putch d (bytes "%s") [Str (Some p)]) (fun _ _ => True) s) ->
  ends (vprintfmt_rec putch (S d) fmt ap) (fun _ _ => True) s.
Proof using Hputch.
  intros Ht Hc. cbn [vprintfmt_rec]. ends_go.
  apply ends_while with (Inv := fun st _ => pstate_ok fmt st) (mu := steps_left fmt).
  - unfold pstate_ok. simpl. lia.
  - unfold steps_left, vprintfmt_fuel. cbn [p_mode p_ix]. pose proof (lit_run_bound fmt 0). lia.
  - intros st s' Hok. ends_go. destruct (is_done st) eqn:Hd; ends_go; [done|].
    eapply ends_mono; [by apply step_ends|]. intros st' s'' Hpr. exact Hpr.
Qed.

Lemma no_self_call fmt p :
  (forall j c, fmt !! j = Some c -> (p < j)%nat -> c <> chr "e") ->
  (forall j, fmt !! j = Some (chr "%") -> (p <= j)%nat) -> ~ calls_itself fmt.
Proof using Type.
  intros He Hp (j & k & Hjk & Hj & Hk). apply Hp in Hj. by apply (He k _ Hk); [lia|].
Qed.

Lemma error_d_no_self_call : ~ calls_itself (bytes "error %d").
Proof using Type.
  apply no_self_call with (p := 6%nat).
  - intros j c Hj Hlt. do 7 (destruct j as [|j]; [lia|]).
    destruct j as [|j]; [|by destruct j]. by injection Hj as <-.
  - intros j Hj. do 6 (destruct j as [|j]; [done|]). lia.
Qed.

Lemma s_no_self_call : ~ calls_itself (bytes "%s").
Proof using Type.
  apply no_self_call with (p := 0%nat).
  - intros j c Hj Hlt. destruct j as [|j]; [lia|]. destruct j as [|j]; [|by destruct j].
    by injection Hj as <-.
  - intros; lia.
Qed.

Lemma bytes_is_text_error_d : is_text (bytes "error %d").
Proof using Type. repeat constructor. Qed.
Lemma bytes_is_text_s : is_text (bytes "%s").
Proof using Type. repeat constructor. Qed.
End rec_ends.

(** C40: [vprintfmt] stops on every format string and every argument list: it
    returns, or it does something undefined (a missing argument, an overflowing
    width), but it never loops, although the default case moves the format
    pointer backwards. *)
Theorem vprintfmt_terminates {P} (putch : Z -> M P ()) fmt ap s :
  (forall c s, ends (putch c) (fun _ _ => True) s) -> is_text fmt ->
  ends (vprintfmt putch fmt ap) (fun _ _ => True) s.
Proof.
  intros Hputch Ht. unfold vprintfmt. apply vprintfmt_rec_ends; [done | done |].
  intros _ e p s'. split.
  - apply vprintfmt_rec_ends; [done | apply bytes_is_text_error_d |].
    intros []%error_d_no_self_call.
  - apply vprintfmt_rec_ends; [done | apply bytes_is_text_s |].
    intros []%s_no_self_call.
Qed.

Lemma vprintfmt_terminates_witness :
  ends (vprintfmt emit (bytes "%5q %e %") [Word (-4)]) (fun _ _ => True) [].
Proof. apply vprintfmt_terminates; [done | repeat constructor]. Defined.
