(* ===== verification/FormatSpec.v ===== *)
(** * FormatSpec: what a format string means

    A specification of the formatter of lib/printfmt.c that does not mention
    the character machine: a format is a list of pieces, text or a directive
    [%[flags][#][width][.precision][l][conversion]]; [unparse] writes the pieces
    down as the C format string and [render] says what each prints.
    [vprintfmt_format] shows that [vprintfmt], run on the string, sends exactly
    the rendered characters to its callback. *)

From S2P Require Import Prelude Layout Printfmt.
Open Scope Z_scope.

Inductive flag : Type := Minus | Zero.
Inductive conv : Type := ConvC | ConvE | ConvS | ConvD | ConvU | ConvO | ConvP | ConvX | ConvPct.

Record directive : Type := Dir {
  d_flags : list flag;
  d_alt : bool;
  d_width : option Z;
  d_prec : option Z;
  d_long : nat;
  d_conv : conv;
}.

Inductive piece : Type :=
  | Text (s : list Z)
  | Directive (d : directive).

(** ** The string of a format *)

Definition flag_char (f : flag) : Z := match f with Minus => chr "-" | Zero => chr "0" end.
Definition conv_char (c : conv) : Z :=
  match c with
  | ConvC => chr "c" | ConvE => chr "e" | ConvS => chr "s" | ConvD => chr "d" | ConvU => chr "u"
  | ConvO => chr "o" | ConvP => chr "p" | ConvX => chr "x" | ConvPct => chr "%"
  end.

Definition unparse_directive (d : directive) : list Z :=
  chr "%" :: (flag_char <$> d_flags d) ++ (if d_alt d then [chr "#"] else []) ++
  from_option (numeral 10) [] (d_width d) ++
  from_option (fun p => chr "." :: numeral 10 p) [] (d_prec d) ++
  replicate (d_long d) (chr "l") ++ [conv_char (d_conv d)].

Definition unparse_piece (p : piece) : list Z :=
  match p with Text s => s | Directive d => unparse_directive d end.

Definition unparse (ps : list piece) : list Z := concat (unparse_piece <$> ps).

(** ** What it prints *)

Definition arg_int (l : nat) (ap : list va) : option (Z * list va) :=
  match ap with
  | Word z :: ap' => if (l <? 2)%nat then Some (i32 z, ap') else None
  | LongLong z :: ap' => if (l <? 2)%nat then None else Some ((z + 2 ^ 63) mod 2 ^ 64 - 2 ^ 63, ap')
  | _ => None
  end.

Definition arg_uint (l : nat) (ap : list va) : option (Z * list va) :=
  match ap with
  | Word z :: ap' => if (l <? 2)%nat then Some (u32 z, ap') else None
  | LongLong z :: ap' => if (l <? 2)%nat then None else Some (u64 z, ap')
  | _ => None
  end.

(** The sign comes before the padding and does not count in the width. *)
Definition signed_field (padc w n : Z) : list Z :=
  (if n <? 0 then [chr "-"] else []) ++ justify padc w (numeral 10 (Z.abs n)).

(** At most [prec] characters ([-1]: all of them); with '#', the ones outside
    ' ' .. '~' as '?'. *)
Definition shown (alt : bool) (prec : Z) (p : list Z) : list Z :=
  (fun c => let ch := i8 c in
            if alt && ((ch <? chr " ") || (chr "~" <? ch)) then chr "?" else ch)
    <$> (if prec <? 0 then p else take (Z.to_nat prec) p).

(** Padded on the left with [padc], or, under '-', on the right with blanks. *)
Definition string_field (padc w : Z) (out : list Z) : list Z :=
  let n := Z.to_nat (w - Z.of_nat (length out)) in
  if padc =? chr "-" then out ++ replicate n (chr " ") else replicate n padc ++ out.

Definition error_text (n : Z) : list Z :=
  match (if MAXERROR <? Z.abs n then None else error_string (Z.abs n)) with
  | Some p => p
  | None => bytes "error " ++ numeral 10 (Z.abs n)
  end.

Definition padc_of (fs : list flag) : Z := default (chr " ") (flag_char <$> last fs).
Definition width_of (d : directive) : Z :=
  match d_width d, d_prec d with
  | Some w, _ => w
  | None, Some _ => 0
  | None, None => -1
  end.

Definition render_directive (d : directive) (ap : list va) : option (list Z * list va) :=
  let padc := padc_of (d_flags d) in
  let w := width_of d in
  match d_conv d with
  | ConvC => match ap with Word z :: ap' => Some ([i32 z], ap') | _ => None end
  | ConvE => match ap with
             | Word z :: ap' => if i32 z =? - 2 ^ 31 then None else Some (error_text (i32 z), ap')
             | _ => None
             end
  | ConvS => match ap with
             | Str q :: ap' =>
                 Some (string_field padc w (shown (d_alt d) (default (-1) (d_prec d)) (default (bytes "(null)") q)), ap')
             | _ => None
             end
  | ConvD => '(n, ap') ← arg_int (d_long d) ap;
             if n =? - 2 ^ 63 then None else Some (signed_field padc w n, ap')
  | ConvU => '(n, ap') ← arg_uint (d_long d) ap; Some (justify padc w (numeral 10 n), ap')
  | ConvO => '(n, ap') ← arg_uint (d_long d) ap; Some (justify padc w (numeral 8 n), ap')
  | ConvX => '(n, ap') ← arg_uint (d_long d) ap; Some (justify padc w (numeral 16 n), ap')
  | ConvP => match ap with
             | Word z :: ap' => Some (bytes "0x" ++ justify padc w (numeral 16 (u32 z)), ap')
             | _ => None
             end
  | ConvPct => Some ([chr "%"], ap)
  end.

Definition render_piece (p : piece) (ap : list va) : option (list Z * list va) :=
  match p with Text s => Some (s, ap) | Directive d => render_directive d ap end.

Fixpoint render (ps : list piece) (ap : list va) : option (list Z * list va) :=
  match ps with
  | [] => Some ([], ap)
  | p :: ps' =>
      '(out, ap1) ← render_piece p ap;
      '(out', ap2) ← render ps' ap1;
      Some (out ++ out', ap2)
  end.

(** Widths and precisions are positive numbers of at most nine digits, a format
    has at most 2^30 [l]s, and strings hold characters other than NUL. *)
Definition field_ok (o : option Z) : Prop := forall w, o = Some w -> 0 < w < 10 ^ 9.
Definition piece_ok (p : piece) : Prop :=
  match p with
  | Text s => is_text s /\ chr "%" ∉ s
  | Directive d => field_ok (d_width d) /\ field_ok (d_prec d) /\ Z.of_nat (d_long d) < 2 ^ 30
  end.
Definition va_ok (a : va) : Prop :=
  match a with Str (Some p) => is_text p /\ Z.of_nat (length p) < 2 ^ 30 | _ => True end.

Definition fmt1 : list piece :=
  [Text (bytes "n="); Directive (Dir [Zero] false (Some 5) None 0 ConvX);
   Text (bytes ", "); Directive (Dir [] false None None 0 ConvS)].
Example unparse_fmt1 : unparse fmt1 = bytes "n=%05x, %s".
Proof. vm_compute. reflexivity. Qed.
Example render_fmt1 :
  render fmt1 [Word 255; Str (Some (bytes "hi"))] = Some (bytes "n=000ff, hi", []).
Proof. vm_compute. reflexivity. Qed.

(** ** Reading the format back *)

Lemma drop_cons (l r : list Z) k c : drop k l = c :: r -> l !! k = Some c /\ drop (S k) l = r.
Proof.
  intros H. assert (Hc : l !! k = Some c) by (by rewrite <- (Nat.add_0_r k), <- lookup_drop, H).
  split; [done|]. rewrite (drop_S _ _ _ Hc) in H. by injection H.
Qed.

Lemma drop_app_drop (l a r : list Z) k : drop k l = a ++ r -> drop (k + length a) l = r.
Proof. intros H. by rewrite <- drop_drop, H, drop_app_length. Qed.

Lemma digit_char d : 0 <= d < 10 -> digit d = 48 + d.
Proof.
  intros Hd. unfold digit. assert (Hn : (Z.to_nat d < 10)%nat) by lia.
  replace d with (Z.of_nat (Z.to_nat d)) at 2 by lia. revert Hn. generalize (Z.to_nat d). intros n Hn.
  do 10 (destruct n as [|n]; [done|]). lia.
Qed.

Lemma foldl_digits_ge v ds : 0 <= v -> Forall (fun d => 0 <= d < 10) ds ->
  v <= foldl (fun v d => v * 10 + d) v ds.
Proof.
  revert v. induction ds as [|d ds IH]; intros v Hv Hds; simpl; [lia|].
  inversion_clear Hds as [|? ? Hd Hr]. specialize (IH (v * 10 + d) ltac:(lia) Hr). lia.
Qed.

Definition is_digit (c : Z) : bool := (chr "0" <=? c) && (c <=? chr "9").

(** [read_width] computes the value of the digits it finds. *)
Lemma read_width_value {P} fmt ds fuel acc d k c r (s : P) :
  drop k fmt = (digit <$> ds) ++ c :: r -> 0 < c < 128 -> is_digit c = false ->
  Forall (fun d => 0 <= d < 10) (d :: ds) -> 0 <= acc ->
  foldl (fun v d => v * 10 + d) acc (d :: ds) < 10 ^ 9 -> (length ds < fuel)%nat ->
  read_width fmt fuel acc (digit d) k s =
  Ret (foldl (fun v d => v * 10 + d) acc (d :: ds), (k + length ds)%nat) s.
Proof.
  intros Hk Hc Hnd. revert fuel acc d k Hk. induction ds as [|d' ds IH];
    intros fuel acc d k Hk Hds Hacc Hv Hf; (destruct fuel as [|fuel]; [simpl in Hf; lia|]);
    inversion_clear Hds as [|? ? Hd Hr]; cbn [read_width foldl] in *.
  - rewrite digit_char, int_op_ok by lia. rewrite bind_ret.
    apply drop_cons in Hk as [Hk _]. rewrite (fmt_at_char _ _ _ Hk), bind_ret.
    assert (Hi : i8 c = c) by divmod. rewrite Hi.
    unfold is_digit in Hnd. chars.
    replace ((c <? 48) || (57 <? c)) with true by lia. unfold mret, M_ret. do 2 f_equal; [lia|simpl; lia].
  - pose proof Hr as Hr'. inversion_clear Hr as [|? ? Hd' Hr2].
    pose proof (foldl_digits_ge ((acc * 10 + d) * 10 + d') ds ltac:(lia) Hr2).
    rewrite digit_char, int_op_ok by lia. rewrite bind_ret.
    apply drop_cons in Hk as [Hk Hk']. rewrite (fmt_at_char _ _ _ Hk), bind_ret.
    assert (Hi : i8 (digit d') = digit d') by (rewrite digit_char by lia; divmod). rewrite Hi.
    chars. rewrite (digit_char d') by lia.
    replace ((48 + d' <? 48) || (57 <? 48 + d')) with false by lia.
    rewrite <- (digit_char d') by lia. replace (acc * 10 + (48 + d) - 48) with (acc * 10 + d) by lia.
    rewrite (IH fuel (acc * 10 + d) d' (S k) Hk' Hr') by (cbn [length foldl] in *; lia).
    cbn [foldl length]. do 2 f_equal. lia.
Qed.

(** ** Steps of the machine *)

Section steps.
Context (pf : list Z -> list va -> M (list Z) ()) (fmt : list Z).

Definition moves (x y : pstate * list Z) : Prop :=
  is_done x.1 = false /\ vprintfmt_step emit pf fmt x.1 x.2 = Ret y.1 y.2.

Lemma moves_iterates st t st' t' :
  rtc moves (st, t) (st', t') -> is_done st' = true ->
  iterates (fun st => mret (negb (is_done st))) (vprintfmt_step emit pf fmt) st t st' t'.
Proof using Type.
  intros Hr Hd. remember (st, t) as x eqn:Ex. remember (st', t') as y eqn:Ey.
  revert st t Ex. induction Hr as [x|x [st1 t1] z [Hx Hm] Hr IH]; intros st t ->.
  - injection Ey as -> ->. apply iterates_stop. by rewrite Hd.
  - eapply iterates_go; [|exact Hm|by apply IH]. cbn [fst] in Hx. by rewrite Hx.
Qed.

Lemma moves_text s k r ap t :
  drop k fmt = s ++ r -> is_text s -> chr "%" ∉ s ->
  rtc moves (PState k ap Literal, t) (PState (k + length s) ap Literal, t ++ s).
Proof using Type.
  revert k t. induction s as [|c s IH]; intros k t Hk Ht Hn.
  { simpl. rewrite Nat.add_0_r, app_nil_r. done. }
  apply drop_cons in Hk as [Hc Hk]. inversion_clear Ht as [|? ? Hr Ht'].
  apply not_elem_of_cons in Hn as [Hne Hn].
  eapply rtc_l; [|replace (k + length (c :: s))%nat with (S k + length s)%nat by (simpl; lia);
                  replace (t ++ c :: s) with ((t ++ [c]) ++ s) by (by rewrite <- app_assoc);
                  by apply IH].
  split; [done|]. unfold vprintfmt_step. cbn [fst snd p_ix p_ap p_mode].
  rewrite (fmt_at_char _ _ _ Hc), bind_ret. cbv zeta. rewrite u8_small by lia.
  replace (c =? chr "%") with false by lia. replace (c =? 0) with false by lia. done.
Qed.

Lemma moves_percent k r ap t :
  drop k fmt = chr "%" :: r ->
  moves (PState k ap Literal, t) (PState (S k) ap (Escape (chr " ") (-1) (-1) 0 0), t).
Proof using Type.
  intros [Hc _]%drop_cons. split; [done|]. unfold vprintfmt_step. cbn [fst snd p_ix p_ap p_mode].
  by rewrite (fmt_at_char _ _ _ Hc).
Qed.

Lemma moves_end k ap t : length fmt = k -> moves (PState k ap Literal, t) (PState (S k) ap Done, t).
Proof using Type.
  intros <-. split; [done|]. unfold vprintfmt_step. cbn [fst snd p_ix p_ap p_mode].
  by rewrite fmt_at_nul.
Qed.

(** A step inside an escape, on a known character. *)
Lemma escape_step k c r ap padc w prec l alt t :
  drop k fmt = c :: r -> 0 <= c < 256 ->
  vprintfmt_step emit pf fmt (PState k ap (Escape padc w prec l alt)) t =
  (m ← escape_modifier fmt c (S k) ap padc w prec l alt;
   match m with
   | Some st' => mret st'
   | None => conversion emit pf fmt c (S k) ap padc w prec l alt
   end) t.
Proof using Type.
  intros [Hc _]%drop_cons Hr. unfold vprintfmt_step. cbn [p_ix p_ap p_mode].
  rewrite (fmt_at_char _ _ _ Hc), bind_ret. cbv zeta. by rewrite u8_small by lia.
Qed.

Lemma moves_flags fs k r ap padc w prec l alt t :
  drop k fmt = (flag_char <$> fs) ++ r ->
  rtc moves (PState k ap (Escape padc w prec l alt), t)
    (PState (k + length fs) ap (Escape (default padc (flag_char <$> last fs)) w prec l alt), t).
Proof using Type.
  revert k padc. induction fs as [|f fs IH]; intros k padc Hk.
  { simpl. rewrite Nat.add_0_r. done. }
  pose proof (drop_cons _ _ _ _ Hk) as [_ Hk'].
  eapply rtc_l; [|pose proof (IH (S k) (flag_char f) Hk') as IH';
     replace (k + length (f :: fs))%nat with (S k + length fs)%nat by (simpl; lia);
     replace (default padc (flag_char <$> last (f :: fs))) with
       (default (flag_char f) (flag_char <$> last fs)); [exact IH'|] ].
  - split; [done|]. cbn [fst snd]. cbn [fmap list_fmap app] in Hk.
    rewrite (escape_step _ _ _ _ _ _ _ _ _ _ Hk) by (destruct f; done). by destruct f.
  - rewrite last_cons. by destruct (last fs).
Qed.

Lemma moves_alt (b : bool) k r ap padc w prec l t :
  drop k fmt = (if b then [chr "#"] else []) ++ r ->
  rtc moves (PState k ap (Escape padc w prec l 0), t)
    (PState (k + (if b then 1 else 0)) ap (Escape padc w prec l (Z.b2z b)), t).
Proof using Type.
  destruct b; intros Hk; [|by rewrite Nat.add_0_r].
  eapply rtc_once. split; [done|]. cbn [fst snd].
  rewrite (escape_step _ _ _ _ _ _ _ _ _ _ Hk) by done. rewrite Nat.add_1_r. done.
Qed.

Lemma moves_longs n k r ap padc w prec l alt t :
  drop k fmt = replicate n (chr "l") ++ r -> 0 <= l -> l + Z.of_nat n < 2 ^ 31 ->
  rtc moves (PState k ap (Escape padc w prec l alt), t)
    (PState (k + n) ap (Escape padc w prec (l + Z.of_nat n) alt), t).
Proof using Type.
  revert k l. induction n as [|n IH]; intros k l Hk Hl Hn.
  { rewrite Nat.add_0_r, Z.add_0_r. done. }
  pose proof (drop_cons _ _ _ _ Hk) as [_ Hk']. cbn [replicate app] in Hk.
  eapply rtc_l; [|replace (k + S n)%nat with (S k + n)%nat by lia;
     replace (l + Z.of_nat (S n)) with ((l + 1) + Z.of_nat n) by lia; apply IH; [done|lia|lia]].
  split; [done|]. cbn [fst snd]. rewrite (escape_step _ _ _ _ _ _ _ _ _ _ Hk) by done.
  unfold escape_modifier. char_tests. cbv iota. cbn [andb]. rewrite int_op_ok by lia. done.
Qed.

(** A positive decimal number inside an escape. *)
Lemma moves_number n k c r ap padc w prec l alt t :
  0 < n < 10 ^ 9 -> drop k fmt = numeral 10 n ++ c :: r -> 0 < c < 128 -> is_digit c = false ->
  moves (PState k ap (Escape padc w prec l alt), t)
    (process_precision (k + length (numeral 10 n)) ap padc w n l alt, t).
Proof using Type.
  intros Hn Hk Hc Hd. unfold numeral in *.
  destruct (digits_spec 64 10 n) as (Hv & Hr & Hl & Hh); [lia|lia|lia|].
  destruct (digits 64 10 n) as [|d ds]; [simpl in Hl; lia|].
  assert (Hk' : drop (S k) fmt = (digit <$> ds) ++ c :: r) by (by apply drop_cons in Hk as [_ Hk]).
  rewrite fmap_cons in Hk. cbn [app] in Hk.
  assert (0 < d < 10).
  { inversion_clear Hr. specialize (Hh ltac:(lia)). simpl in Hh. destruct (decide (d = 0)) as [->|]; [done|lia]. }
  split; [done|]. cbn [fst snd]. pose proof (digit_char d ltac:(lia)) as Hdc.
  rewrite (escape_step _ _ _ _ _ _ _ _ _ _ Hk) by lia.
  unfold escape_modifier. unfold value in Hv.
  assert (Hlen : (length ds < S (length fmt))%nat).
  { apply (f_equal length) in Hk'. rewrite length_drop, length_app, length_fmap in Hk'. simpl in Hk'. lia. }
  pose proof (read_width_value fmt ds (S (length fmt)) 0 d (S k) c r t Hk' Hc Hd Hr ltac:(lia) ltac:(lia) Hlen) as Hrw.
  replace (digit d =? chr "-") with false by (chars; lia).
  replace (digit d =? chr "0") with false by (chars; lia).
  replace ((chr "1" <=? digit d) && (digit d <=? chr "9")) with true by (chars; lia).
  rewrite (bind_eq _ _ _ (Some (process_precision (k + length (digit <$> d :: ds)) ap padc w n l alt)) t);
    [done|].
  rewrite (bind_eq _ _ _ _ _ Hrw). rewrite Hv. unfold mret, M_ret. do 2 f_equal.
  rewrite length_fmap. simpl. by rewrite Nat.add_succ_r.
Qed.

Lemma moves_width o k c r ap padc l alt t :
  field_ok o -> drop k fmt = from_option (numeral 10) [] o ++ c :: r -> 0 < c < 128 -> is_digit c = false ->
  rtc moves (PState k ap (Escape padc (-1) (-1) l alt), t)
    (PState (k + length (from_option (numeral 10) [] o)) ap
       (Escape padc (default (-1) o) (-1) l alt), t).
Proof using Type.
  destruct o as [n|]; simpl; intros Hf Hk Hc Hd; [|by rewrite Nat.add_0_r].
  apply rtc_once. pose proof (moves_number n k c r ap padc (-1) (-1) l alt t (Hf n eq_refl) Hk Hc Hd) as Hm.
  exact Hm.
Qed.

Lemma moves_prec o k c r ap padc ow l alt t :
  field_ok ow -> field_ok o ->
  drop k fmt = from_option (fun p => chr "." :: numeral 10 p) [] o ++ c :: r -> 0 < c < 128 -> is_digit c = false ->
  rtc moves (PState k ap (Escape padc (default (-1) ow) (-1) l alt), t)
    (PState (k + length (from_option (fun p => chr "." :: numeral 10 p) [] o)) ap
       (Escape padc (match ow, o with Some w, _ => w | None, Some _ => 0 | None, None => -1 end)
          (default (-1) o) l alt), t).
Proof using Type.
  intros Hw Hf. destruct o as [n|]; cbn [from_option]; intros Hk Hc Hd.
  2: { simpl. rewrite Nat.add_0_r. by destruct ow. }
  assert (Hk' : drop (S k) fmt = numeral 10 n ++ c :: r) by (by apply drop_cons in Hk as [_ Hk]).
  set (w := match ow with Some w => w | None => 0 end).
  eapply rtc_l with (y := (PState (S k) ap (Escape padc w (-1) l alt), t)).
  { split; [done|]. cbn [fst snd]. cbn [app] in Hk.
    rewrite (escape_step _ _ _ _ _ _ _ _ _ _ Hk) by done.
    unfold escape_modifier. char_tests. cbv iota. cbn [andb].
    subst w. destruct ow as [w|]; [|done]. specialize (Hw w eq_refl). simpl.
    by replace (w <? 0) with false by lia. }
  eapply rtc_l; [by apply (moves_number n (S k) c r); [apply Hf|..]|].
  unfold process_precision. subst w. replace (k + length (chr "." :: numeral 10 n))%nat
    with (S k + length (numeral 10 n))%nat by (simpl; lia).
  destruct ow as [w|]; [|done]. specialize (Hw w eq_refl).
  by replace (w <? 0) with false by lia.
Qed.

(** From the '%' to the conversion character. *)
Lemma moves_directive d k r ap t :
  piece_ok (Directive d) -> drop k fmt = unparse_directive d ++ r ->
  exists k', S k' = (k + length (unparse_directive d))%nat /\ drop k' fmt = conv_char (d_conv d) :: r /\
  rtc moves (PState k ap Literal, t)
    (PState k' ap (Escape (padc_of (d_flags d)) (width_of d) (default (-1) (d_prec d))
       (Z.of_nat (d_long d)) (Z.b2z (d_alt d))), t).
Proof using Type.
  intros (Hw & Hp & Hl) Hk. unfold unparse_directive in *.
  set (c := conv_char (d_conv d)) in *. rewrite <- app_comm_cons in Hk.
  assert (Hc : 0 < c < 128 /\ is_digit c = false) by (subst c; by destruct (d_conv d)).
  pose proof (moves_percent k _ ap t Hk) as H0. apply drop_cons in Hk as [_ Hk].
  rewrite <- !app_assoc in Hk. cbn [app] in Hk.
  pose proof (moves_flags _ _ _ ap (chr " ") (-1) (-1) 0 0 t Hk) as H1.
  apply drop_app_drop in Hk. rewrite length_fmap in Hk.
  pose proof (moves_alt _ _ _ ap (padc_of (d_flags d)) (-1) (-1) 0 t Hk) as H2.
  apply drop_app_drop in Hk.
  assert (Hlr : forall n r, exists c' r', replicate n (chr "l") ++ c :: r = c' :: r' /\
      0 < c' < 128 /\ is_digit c' = false).
  { intros n r'. destruct n; [by exists c, r' | by eexists (chr "l"), _]. }
  destruct (Hlr (d_long d) r) as (c1 & r1 & E1 & Hc1 & Hd1).
  assert (Hpr : exists c' r', from_option (fun p => chr "." :: numeral 10 p) [] (d_prec d) ++ c1 :: r1 = c' :: r' /\
      0 < c' < 128 /\ is_digit c' = false).
  { destruct (d_prec d); [by eexists (chr "."), _ | by exists c1, r1]. }
  destruct Hpr as (c2 & r2 & E2 & Hc2 & Hd2). rewrite E1, E2 in Hk.
  pose proof (moves_width _ _ _ _ ap (padc_of (d_flags d)) 0 (Z.b2z (d_alt d)) t Hw Hk Hc2 Hd2) as H3.
  apply drop_app_drop in Hk. rewrite <- E2 in Hk.
  pose proof (moves_prec _ _ _ _ ap (padc_of (d_flags d)) _ 0 (Z.b2z (d_alt d)) t Hw Hp Hk Hc1 Hd1) as H4.
  apply drop_app_drop in Hk. rewrite <- E1 in Hk.
  pose proof (moves_longs _ _ _ ap (padc_of (d_flags d)) (width_of d) (default (-1) (d_prec d)) 0
    (Z.b2z (d_alt d)) t Hk ltac:(lia) ltac:(lia)) as H5.
  apply drop_app_drop in Hk. rewrite length_replicate in Hk.
  eexists. split; [|split; [exact Hk|]].
  - simpl. rewrite !length_app, length_fmap, length_replicate. simpl. destruct (d_alt d); simpl; lia.
  - eapply rtc_l; [exact H0|]. etrans; [exact H1|]. etrans; [exact H2|].
    replace (length (if d_alt d then [chr "#"] else [])) with (if d_alt d then 1 else 0)%nat in *
      by (by destruct (d_alt d)).
    etrans; [exact H3|]. etrans; [exact H4|]. exact H5.
Qed.
End steps.

(** ** What a conversion prints *)

Lemma put_str_emit alt p prec w t :
  is_text p -> (prec = -1 \/ 0 <= prec) -> - 2 ^ 31 + Z.of_nat (length p) <= w < 2 ^ 31 ->
  put_str emit alt p prec w t =
  Ret (w - Z.of_nat (length (shown (negb (alt =? 0)) prec p))) (t ++ shown (negb (alt =? 0)) prec p).
Proof.
  intros Ht. revert prec w t. induction Ht as [|c p Hc Ht IH]; intros prec w t Hp Hw; cbn [put_str length] in *.
  { unfold shown. rewrite take_nil. destruct (prec <? 0); cbn; by rewrite Z.sub_0_r, app_nil_r. }
  replace (i8 c =? 0) with false by divmod.
  assert (Hsh : prec <> 0 -> shown (negb (alt =? 0)) prec (c :: p) =
    (if negb (alt =? 0) && ((i8 c <? chr " ") || (chr "~" <? i8 c)) then chr "?" else i8 c) ::
    shown (negb (alt =? 0)) (if prec <? 0 then prec else prec - 1) p).
  { intros Hne. unfold shown. destruct (Z.ltb_spec prec 0) as [Hlt|]; [by apply Z.ltb_lt in Hlt as ->|].
    replace (prec - 1 <? 0) with false by lia.
    replace (Z.to_nat prec) with (S (Z.to_nat (prec - 1))) by lia. done. }
  destruct ((prec <? 0) || (0 <=? prec - 1)) eqn:Ed.
  - rewrite Hsh by lia. cbn [length].
    set (b := negb (alt =? 0) && ((i8 c <? chr " ") || (chr "~" <? i8 c))).
    rewrite (bind_eq _ _ _ tt (t ++ [if b then chr "?" else i8 c])) by (by destruct b).
    rewrite int_op_ok, bind_ret by lia.
    rewrite IH; [|destruct (Z.ltb_spec prec 0); lia | lia].
    rewrite <- app_assoc. f_equal. lia.
  - assert (prec = 0) as -> by lia. unfold shown. cbn. by rewrite Z.sub_0_r, app_nil_r.
Qed.

Lemma length_shown alt prec p :
  Z.of_nat (length (shown alt prec p)) =
  if prec <? 0 then Z.of_nat (length p) else Z.min prec (Z.of_nat (length p)).
Proof.
  unfold shown. rewrite length_fmap. destruct (Z.ltb_spec prec 0); [done|]. rewrite length_take. lia.
Qed.

Lemma print_string_emit q padc w prec alt t :
  va_ok (Str q) -> (prec = -1 \/ 0 <= prec < 2 ^ 32) -> -1 <= w < 2 ^ 30 ->
  print_string emit q padc w prec alt t =
  Ret tt (t ++ string_field padc w (shown (negb (alt =? 0)) prec (default (bytes "(null)") q))).
Proof.
  intros Hq Hp Hw. set (p := default (bytes "(null)") q).
  assert (is_text p /\ Z.of_nat (length p) < 2 ^ 30) as [Ht Hl].
  { subst p. destruct q; [exact Hq|]. split; [repeat constructor|done]. }
  unfold print_string. fold p. set (sh := shown (negb (alt =? 0)) prec p).
  pose proof (length_shown (negb (alt =? 0)) prec p) as Hsh. fold sh in Hsh.
  assert (Hle : Z.of_nat (length sh) <= Z.of_nat (length p)) by (destruct (Z.ltb_spec prec 0); lia).
  assert (Hrest : forall w' t', -2 ^ 30 <= w' < 2 ^ 30 ->
    (width ← put_str emit alt p prec w'; pad emit (chr " ") width;; mret tt) t' =
    Ret tt (t' ++ sh ++ replicate (Z.to_nat (w' - Z.of_nat (length sh))) (chr " "))).
  { intros w' t' Hw'. rewrite (bind_eq _ _ _ _ _ (put_str_emit alt p prec w' t' Ht ltac:(lia) ltac:(lia))).
    fold sh. rewrite (bind_eq _ _ _ _ _ (pad_emit (chr " ") (w' - Z.of_nat (length sh)) _ ltac:(lia))).
    by rewrite <- app_assoc. }
  unfold string_field. destruct (Z.eqb_spec padc (chr "-")) as [->|Hne].
  - rewrite andb_false_r, bind_ret. rewrite Hrest by lia. done.
  - rewrite andb_true_r. destruct (Z.ltb_spec 0 w).
    + assert (Hm : Z.min (Z.of_nat (length p)) (u32 prec) = Z.of_nat (length sh)).
      { rewrite Hsh. destruct Hp as [-> |]; [change (u32 (-1)) with (2 ^ 32 - 1); simpl; lia|].
        replace (prec <? 0) with false by lia. rewrite u32_small; lia. }
      rewrite Hm, int_op_ok by lia.
      rewrite (bind_eq _ _ _ _ _ (pad_emit padc (w - Z.of_nat (length sh)) _ ltac:(lia))).
      rewrite Hrest by lia. replace (Z.to_nat (Z.min _ 0 - _)) with 0%nat by lia.
      simpl. by rewrite app_nil_r, <- app_assoc.
    + rewrite bind_ret, Hrest by lia. replace (Z.to_nat (w - _)) with 0%nat by lia.
      simpl. by rewrite app_nil_r.
Qed.

Lemma number_emit k ap num base w padc t :
  2 <= base -> 0 <= num < 2 ^ 64 -> -1 <= w < 2 ^ 31 ->
  number emit k ap num base w padc t =
  Ret (PState k ap Literal) (t ++ justify padc w (numeral base num)).
Proof.
  intros. unfold number. by erewrite bind_eq by (apply printnum_emit; lia).
Qed.

Lemma getint_spec {P} ap l n ap' (s : P) :
  arg_int l ap = Some (n, ap') -> getint ap (Z.of_nat l) s = Ret (n, ap') s /\ - 2 ^ 63 <= n < 2 ^ 63.
Proof.
  unfold arg_int, getint. destruct ap as [|[z|z|] ap1]; try done.
  - destruct (Nat.ltb_spec l 2); [|done]. intros [= <- <-].
    replace (2 <=? Z.of_nat l) with false by lia. split; [done | divmod].
  - destruct (Nat.ltb_spec l 2); [done|]. intros [= <- <-].
    replace (2 <=? Z.of_nat l) with true by lia. split; [done | divmod].
Qed.

Lemma getuint_spec {P} ap l n ap' (s : P) :
  arg_uint l ap = Some (n, ap') -> getuint ap (Z.of_nat l) s = Ret (n, ap') s /\ 0 <= n < 2 ^ 64.
Proof.
  unfold arg_uint, getuint. destruct ap as [|[z|z|] ap1]; try done.
  - destruct (Nat.ltb_spec l 2); [|done]. intros [= <- <-].
    replace (2 <=? Z.of_nat l) with false by lia. split; [done | divmod].
  - destruct (Nat.ltb_spec l 2); [done|]. intros [= <- <-].
    replace (2 <=? Z.of_nat l) with true by lia. split; [done | divmod].
Qed.

(** What the recursive calls must print for [%e]. *)
Definition prints_errors (pf : list Z -> list va -> M (list Z) ()) : Prop :=
  forall z t, - 2 ^ 31 < z < 2 ^ 31 -> print_error pf z t = Ret tt (t ++ error_text z).

Lemma width_of_range d : field_ok (d_width d) -> -1 <= width_of d < 2 ^ 30.
Proof.
  unfold field_ok, width_of. destruct (d_width d) as [w|]; [intros H; specialize (H w eq_refl); lia|].
  destruct (d_prec d); lia.
Qed.

Lemma conversion_emit pf fmt k d ap ap' out t :
  piece_ok (Directive d) -> Forall va_ok ap -> render_directive d ap = Some (out, ap') ->
  (d_conv d = ConvE -> prints_errors pf) ->
  (m ← escape_modifier fmt (conv_char (d_conv d)) (S k) ap (padc_of (d_flags d)) (width_of d)
         (default (-1) (d_prec d)) (Z.of_nat (d_long d)) (Z.b2z (d_alt d));
   match m with
   | Some st' => mret st'
   | None => conversion emit pf fmt (conv_char (d_conv d)) (S k) ap (padc_of (d_flags d)) (width_of d)
         (default (-1) (d_prec d)) (Z.of_nat (d_long d)) (Z.b2z (d_alt d))
   end) t = Ret (PState (S k) ap' Literal) (t ++ out).
Proof.
  intros (Hw & Hp & Hl) Hap Hr Hpf. pose proof (width_of_range d Hw) as Hwr.
  unfold render_directive in Hr. destruct (d_conv d) eqn:Ec; cbn [conv_char];
    unfold escape_modifier, conversion; char_tests; cbv iota; cbn [andb]; cbv iota; rewrite bind_ret; cbv iota.
  - destruct ap as [|[z| |] ap1]; try done. by injection Hr as <- <-.
  - destruct ap as [|[z| |] ap1]; try done. destruct (Z.eqb_spec (i32 z) (- 2 ^ 31)); [done|].
    injection Hr as <- <-. cbn [va_word]. rewrite bind_ret.
    pose proof (i32_range z). rewrite (bind_eq _ _ _ _ _ (Hpf eq_refl (i32 z) t ltac:(lia))). done.
  - destruct ap as [|[| |q] ap1]; try done. injection Hr as <- <-. cbn [va_str]. rewrite bind_ret.
    inversion_clear Hap.
    assert (Hpr : default (-1) (d_prec d) = -1 \/ 0 <= default (-1) (d_prec d) < 2 ^ 32).
    { destruct (d_prec d) as [p|]; [|by left]. specialize (Hp p eq_refl). simpl. lia. }
    rewrite (bind_eq _ _ _ _ _ (print_string_emit q _ _ _ _ t ltac:(done) Hpr Hwr)).
    by destruct (d_alt d).
  - destruct (arg_int _ _) as [[n ap1]|] eqn:Ea; [|done]. cbn in Hr.
    destruct (getint_spec _ _ _ _ t Ea) as [Hg Hn].
    destruct (Z.eqb_spec n (- 2 ^ 63)); [done|]. injection Hr as <- <-.
    rewrite (bind_eq _ _ _ _ _ Hg). unfold signed_field. destruct (Z.ltb_spec n 0).
    + rewrite (bind_eq _ _ _ (- n) (t ++ [chr "-"])).
      2: { erewrite bind_eq by reflexivity. by replace (n =? - 2 ^ 63) with false by lia. }
      rewrite number_emit by lia. rewrite <- app_assoc. do 4 f_equal. by rewrite Z.abs_neq by lia.
    + rewrite bind_ret, number_emit by lia. by rewrite Z.abs_eq by lia.
  - destruct (arg_uint _ _) as [[n ap1]|] eqn:Ea; [|done]. injection Hr as <- <-.
    destruct (getuint_spec _ _ _ _ t Ea) as [Hg Hn]. rewrite (bind_eq _ _ _ _ _ Hg). by rewrite number_emit by lia.
  - destruct (arg_uint _ _) as [[n ap1]|] eqn:Ea; [|done]. injection Hr as <- <-.
    destruct (getuint_spec _ _ _ _ t Ea) as [Hg Hn]. rewrite (bind_eq _ _ _ _ _ Hg). by rewrite number_emit by lia.
  - destruct ap as [|[z| |] ap1]; try done. injection Hr as <- <-.
    do 2 erewrite bind_eq by reflexivity. cbn [va_word]. rewrite bind_ret.
    pose proof (u32_range z). rewrite number_emit by lia. by rewrite <- !app_assoc.
  - destruct (arg_uint _ _) as [[n ap1]|] eqn:Ea; [|done]. injection Hr as <- <-.
    destruct (getuint_spec _ _ _ _ t Ea) as [Hg Hn]. rewrite (bind_eq _ _ _ _ _ Hg). by rewrite number_emit by lia.
  - by injection Hr as <- <-.
Qed.

(** ** Whole formats *)

Lemma arg_int_rest l ap n ap' : arg_int l ap = Some (n, ap') -> exists a, ap = a :: ap'.
Proof. unfold arg_int. destruct ap as [|[] ?], (l <? 2)%nat; naive_solver. Qed.
Lemma arg_uint_rest l ap n ap' : arg_uint l ap = Some (n, ap') -> exists a, ap = a :: ap'.
Proof. unfold arg_uint. destruct ap as [|[] ?], (l <? 2)%nat; naive_solver. Qed.

Lemma render_directive_rest d ap out ap' :
  render_directive d ap = Some (out, ap') -> ap' = ap \/ exists a, ap = a :: ap'.
Proof.
  intros H. unfold render_directive in H. destruct (d_conv d);
    try (destruct ap as [|[] ?]; simplify_eq; eauto; repeat case_match; simplify_eq; by eauto).
  - destruct (arg_int _ _) as [[n a1]|] eqn:E; [|done]. apply arg_int_rest in E.
    cbn in H. case_match; simplify_eq. eauto.
  - destruct (arg_uint _ _) as [[n a1]|] eqn:E; simplify_eq/=. apply arg_uint_rest in E. eauto.
  - destruct (arg_uint _ _) as [[n a1]|] eqn:E; simplify_eq/=. apply arg_uint_rest in E. eauto.
  - destruct (arg_uint _ _) as [[n a1]|] eqn:E; simplify_eq/=. apply arg_uint_rest in E. eauto.
Qed.

Definition uses_e (ps : list piece) : Prop := exists d, Directive d ∈ ps /\ d_conv d = ConvE.

Lemma moves_pieces pf fmt ps k r args out rest t :
  Forall piece_ok ps -> Forall va_ok args -> render ps args = Some (out, rest) ->
  drop k fmt = unparse ps ++ r -> (uses_e ps -> prints_errors pf) ->
  rtc (moves pf fmt) (PState k args Literal, t)
    (PState (k + length (unparse ps)) rest Literal, t ++ out).
Proof.
  revert k args out t. induction ps as [|p ps IH]; intros k args out t Hps Hva Hr Hk He.
  { injection Hr as <- <-. simpl. by rewrite Nat.add_0_r, app_nil_r. }
  inversion_clear Hps as [|? ? Hp Hps']. cbn [render] in Hr.
  destruct (render_piece p args) as [[o1 ap1]|] eqn:E1; [|done]. cbn in Hr.
  destruct (render ps ap1) as [[o2 ap2]|] eqn:E2; [|done]. cbn in Hr. injection Hr as <- <-.
  change (unparse (p :: ps)) with (unparse_piece p ++ unparse ps) in *.
  rewrite <- app_assoc in Hk. pose proof (drop_app_drop _ _ _ _ Hk) as Hk'.
  rewrite length_app, Nat.add_assoc, app_assoc.
  etrans; [|apply (IH _ ap1 o2); [done| |done|done|]].
  - destruct p as [s|d]; cbn [unparse_piece render_piece] in *.
    + injection E1 as <- <-. destruct Hp. by eapply moves_text.
    + destruct (moves_directive pf fmt d k _ args t Hp Hk) as (k' & Hk2 & Hd & Hm).
      rewrite <- Hk2. eapply rtc_r; [exact Hm|]. split; [done|]. cbn [fst snd].
      rewrite (escape_step _ _ _ _ _ _ _ _ _ _ _ _ Hd) by (by destruct (d_conv d)).
      apply conversion_emit; [done..|]. intros Hce. apply He. exists d. split; [set_solver|done].
  - destruct p as [s|d]; cbn [render_piece] in E1; [by injection E1 as <- <-|].
    destruct (render_directive_rest _ _ _ _ E1) as [->|[a ->]]; [done|]. by inversion_clear Hva.
  - intros (d & ? & ?). apply He. exists d. split; [set_solver|done].
Qed.

Lemma unparse_is_text ps : Forall piece_ok ps -> is_text (unparse ps).
Proof.
  intros Hps. apply Forall_concat, Forall_fmap. eapply Forall_impl; [exact Hps|].
  intros [s|d]; [intros [Hs _]; exact Hs|]. intros (Hw & Hp & _). cbn [compose unparse_piece].
  assert (Hnum : forall o, field_ok o -> is_text (from_option (numeral 10) [] o)).
  { intros [n|] Ho; [|constructor]. specialize (Ho n eq_refl). simpl. unfold numeral. apply Forall_fmap.
    destruct (digits_spec 64 10 n) as (_ & Hr & _); [lia|lia|lia|].
    eapply Forall_impl; [exact Hr|]. intros x Hx. change (0 < digit x < 256). change (0 <= x < 10) in Hx. rewrite digit_char by lia. lia. }
  unfold unparse_directive. constructor; [done|].
  apply Forall_app_2; [by apply Forall_fmap, Forall_true; intros []|].
  apply Forall_app_2; [destruct (d_alt d); by repeat constructor|].
  apply Forall_app_2; [by apply Hnum|].
  apply Forall_app_2; [|apply Forall_app_2; [by apply Forall_replicate|]].
  - destruct (d_prec d) as [n|]; [|constructor]. constructor; [done|]. by apply (Hnum (Some n)).
  - repeat constructor; by destruct (d_conv d).
Qed.

(** A run of the machine from the start of the format to its end. *)
Lemma vprintfmt_rec_format depth ps args out rest t :
  Forall piece_ok ps -> Forall va_ok args -> render ps args = Some (out, rest) ->
  (uses_e ps -> prints_errors (vprintfmt_rec emit depth)) ->
  ends (vprintfmt_rec emit (S depth) (unparse ps) args) (fun _ _ => True) t ->
  vprintfmt_rec emit (S depth) (unparse ps) args t = Ret tt (t ++ out).
Proof.
  intros Hps Hva Hr He Hend. cbn [vprintfmt_rec] in *.
  assert (Hk : drop 0 (unparse ps) = unparse ps ++ []) by (by rewrite app_nil_r).
  pose proof (moves_pieces (vprintfmt_rec emit depth) _ _ _ _ _ _ _ t Hps Hva Hr Hk He) as Hm.
  pose proof (moves_end (vprintfmt_rec emit depth) (unparse ps) (0 + length (unparse ps)) rest (t ++ out) eq_refl) as Hd.
  pose proof (moves_iterates _ _ _ _ _ _ (rtc_r _ _ _ Hm Hd) eq_refl) as Hit.
  eapply while_iterates with (fuel := vprintfmt_fuel (unparse ps)) in Hit.
  - by rewrite (bind_eq _ _ _ _ _ Hit).
  - intros Hs. revert Hend. unfold ends, mbind, M_bind. by rewrite Hs.
Qed.

Lemma emit_ends c t : ends (emit c) (fun _ _ => True) t.
Proof. exact I. Qed.

Lemma error_string_text n p : error_string n = Some p ->
  (is_text p /\ Z.of_nat (length p) < 2 ^ 30) /\ (fun c => i8 c) <$> p = p.
Proof.
  unfold error_string. intros E.
  repeat case_match; try discriminate; injection E as <-;
    (split; [split; [repeat constructor|done] | reflexivity]).
Qed.

Lemma prints_errors_1 : prints_errors (vprintfmt_rec emit 1).
Proof.
  intros z t Hz. unfold print_error.
  assert (Hn : (if z <? 0 then int_op (- z) else mret z) t = Ret (A := Z) (Z.abs z) t).
  { destruct (Z.ltb_spec z 0); [rewrite int_op_ok by lia|]; unfold mret, M_ret; f_equal; lia. }
  rewrite (bind_eq _ _ _ _ _ Hn). unfold error_text.
  destruct (if MAXERROR <? Z.abs z then None else error_string (Z.abs z)) as [p|] eqn:E.
  - assert (Hp : (is_text p /\ Z.of_nat (length p) < 2 ^ 30) /\ (fun c => i8 c) <$> p = p).
    { destruct (MAXERROR <? Z.abs z); [done|]. by apply error_string_text in E. }
    destruct Hp as [Hp He].
    rewrite (vprintfmt_rec_format 0 [Directive (Dir [] false None None 0 ConvS)] [Str (Some p)] p []); [done|..].
    + repeat constructor; done.
    + by constructor.
    + cbn. rewrite app_nil_r. do 2 f_equal. unfold string_field, shown. cbn. change (chr " " =? chr "-") with false. cbv iota.
      rewrite He. by replace (Z.to_nat _) with 0%nat by lia.
    + intros (d & Hd & He'). apply list_elem_of_singleton in Hd. by injection Hd as ->.
    + apply vprintfmt_rec_ends; [apply emit_ends | apply bytes_is_text_s | intros []%s_no_self_call].
  - rewrite (vprintfmt_rec_format 0 [Text (bytes "error "); Directive (Dir [] false None None 0 ConvD)] [Word (Z.abs z)]
      (bytes "error " ++ numeral 10 (Z.abs z)) []); [done|..].
    + repeat constructor; [| done..]. rewrite list_elem_of_In. intros Hin. cbn in Hin. chars. lia.
    + by constructor.
    + cbn [render render_piece render_directive d_conv d_long arg_int]. cbn. rewrite (i32_small (Z.abs z)) by lia.
      replace (Z.abs z =? - 2 ^ 63) with false by lia. cbn. unfold signed_field, justify.
      replace (Z.abs z <? 0) with false by lia. rewrite Z.abs_eq by lia. rewrite app_nil_r.
      replace (Z.to_nat _) with 0%nat by lia. done.
    + intros (d & Hd & He'). apply elem_of_cons in Hd as [Hd|Hd]; [done|].
      apply list_elem_of_singleton in Hd. by injection Hd as ->.
    + apply vprintfmt_rec_ends; [apply emit_ends | apply bytes_is_text_error_d | intros []%error_d_no_self_call].
Qed.

(** C13: [vprintfmt] prints what the format means: on the string of any sequence of
    text pieces and directives it returns, having sent to [putch] exactly the
    characters [render] computes from the arguments, one at a time and in order. *)
Theorem vprintfmt_format {P} (putch : Z -> M P ()) ps args out rest s :
  Forall piece_ok ps -> Forall va_ok args -> render ps args = Some (out, rest) ->
  vprintfmt putch (unparse ps) args s = for_each putch out s.
Proof.
  intros Hps Hva Hr.
  assert (He : vprintfmt_rec emit 2 (unparse ps) args [] = Ret tt ([] ++ out)).
  { eapply vprintfmt_rec_format; [done..| intros _; apply prints_errors_1 |].
    apply (vprintfmt_terminates emit (unparse ps) args []); [apply emit_ends | by apply unparse_is_text]. }
  destruct (prints_vprintfmt_rec putch 2 _ _ _ _ _ He) as (o & Ho & Hrun). simpl in Ho. subst o.
  unfold vprintfmt. rewrite Hrun. unfold mbind, M_bind.
  by destruct (for_each putch out s) as [[] ?|? ?| |].
Qed.

Lemma vprintfmt_format_witness :
  vprintfmt emit (bytes "n=%05x, %s") [Word 255; Str (Some (bytes "hi"))] [] =
  for_each emit (bytes "n=000ff, hi") [].
Proof.
  apply (vprintfmt_format emit fmt1 [Word 255; Str (Some (bytes "hi"))] (bytes "n=000ff, hi") [] []).
  - assert (Ht : forall l, is_text l -> bool_decide (chr "%" ∉ l) = true -> piece_ok (Text l)).
    { intros l Hl Hn. split; [done | by apply bool_decide_eq_true in Hn]. }
    constructor; [apply Ht; [repeat constructor | done]|].
    constructor; [split_and!; [intros w [= <-]; lia | done | done]|].
    constructor; [apply Ht; [repeat constructor | done]|].
    constructor; [done | constructor].
  - repeat constructor.
  - vm_compute. reflexivity.
Defined.

(** ** Checking a format by computation *)

Definition is_textb (l : list Z) : bool := forallb (fun c => (0 <? c) && (c <? 256)) l.
Definition field_okb (o : option Z) : bool :=
  match o with Some w => (0 <? w) && (w <? 10 ^ 9) | None => true end.
Definition piece_okb (p : piece) : bool :=
  match p with
  | Text s => is_textb s && forallb (fun c => negb (c =? chr "%")) s
  | Directive d => field_okb (d_width d) && field_okb (d_prec d) && (Z.of_nat (d_long d) <? 2 ^ 30)
  end.
Definition va_okb (a : va) : bool :=
  match a with Str (Some p) => is_textb p && (Z.of_nat (length p) <? 2 ^ 30) | _ => true end.

Lemma is_textb_sound l : is_textb l = true -> is_text l.
Proof.
  unfold is_textb. rewrite forallb_forall. intros H. apply Forall_forall. intros c Hc.
  apply list_elem_of_In in Hc. specialize (H c Hc). lia.
Qed.
Lemma field_okb_sound o : field_okb o = true -> field_ok o.
Proof. unfold field_okb, field_ok. intros H w ->. lia. Qed.
Lemma piece_okb_sound p : piece_okb p = true -> piece_ok p.
Proof.
  destruct p as [s|d]; cbn [piece_okb piece_ok].
  - intros [Ht Hn]%andb_prop. split; [by apply is_textb_sound|]. intros Hin.
    rewrite forallb_forall in Hn. apply list_elem_of_In in Hin. by specialize (Hn _ Hin).
  - intros [[Hw Hp]%andb_prop Hl]%andb_prop. split_and!; [by apply field_okb_sound..|lia].
Qed.
Lemma pieces_okb_sound ps : forallb piece_okb ps = true -> Forall piece_ok ps.
Proof.
  rewrite forallb_forall. intros H. apply Forall_forall. intros p Hp.
  apply piece_okb_sound, H. by apply list_elem_of_In.
Qed.
Lemma va_okb_sound args : forallb va_okb args = true -> Forall va_ok args.
Proof.
  rewrite forallb_forall. intros H. apply Forall_forall. intros a Ha. apply list_elem_of_In in Ha.
  specialize (H a Ha). destruct a as [| |[p|]]; cbn in *; try done.
  apply andb_prop in H as [? ?]. split; [by apply is_textb_sound|lia].
Qed.
