(* ===== verification/CString.v ===== *)
(** * CString: lib/string.c

    The string routines on a byte-addressed memory.  A pointer is its address;
    reading or writing an address that is not part of an object is undefined.
    A loop that walks through memory visits a new address in each round, so the
    number of mapped addresses bounds it ([mem_fuel]); counted loops take their
    count as fuel.  The digits of strtol are those of Printfmt.v. *)

From S2P Require Import Prelude Layout Printfmt.
Open Scope Z_scope.

Abbreviation mem := (gmap Z Z).

(** [*(unsigned char * )a], [*(char * )a] and [*(char * )a = v]. *)
Definition load8 (a : Z) : M mem Z := m ← gets id; deref (m !! a).
Definition load_char (a : Z) : M mem Z := c ← load8 a; mret (i8 c).
Definition store8 (a v : Z) : M mem () := load8 a;; modify <[a := u8 v]>.

Definition store32 (a v : Z) : M mem () :=
  store8 a v;; store8 (a + 1) (Z.shiftr v 8);;
  store8 (a + 2) (Z.shiftr v 16);; store8 (a + 3) (Z.shiftr v 24).

Definition mem_fuel : M mem nat := gets (fun m => S (size m)).

Definition strlen (s : Z) : M mem Z :=
  fuel ← mem_fuel;
  '(_, n) ← while fuel (fun '(s, _) => c ← load_char s; mret (negb (c =? 0)))
              (fun '(s, n) => n' ← int_op (n + 1); mret (s + 1, n')) (s, 0);
  mret n.

Definition strnlen (s size : Z) : M mem Z :=
  '(_, _, n) ← while (S (Z.to_nat size))
      (fun '(s, size, _) => if 0 <? size then c ← load_char s; mret (negb (c =? 0)) else mret false)
      (fun '(s, size, n) => n' ← int_op (n + 1); mret (s + 1, size - 1, n')) (s, size, 0);
  mret n.

(** The third loop variable is the truth of the last [( *dst++ = *src++) != 0]. *)
Definition strcpy (dst src : Z) : M mem Z :=
  let ret := dst in
  fuel ← mem_fuel;
  while (S fuel) (fun '(_, _, go) => mret go)
    (fun '(dst, src, _) => c ← load_char src; store8 dst c;; mret (dst + 1, src + 1, negb (c =? 0)))
    (dst, src, true);;
  mret ret.

Definition strncpy (dst src size : Z) : M mem Z :=
  let ret := dst in
  while (S (Z.to_nat size)) (fun '(_, _, i) => mret (i <? size))
    (fun '(dst, src, i) =>
       c ← load_char src;
       store8 dst c;;
       mret (dst + 1, (if negb (c =? 0) then src + 1 else src), i + 1)) (dst, src, 0);;
  mret ret.

Definition strlcpy (dst src size : Z) : M mem Z :=
  let dst_in := dst in
  dst ← (if 0 <? size then
           '(dst, _, _) ← while (S (Z.to_nat size))
               (fun '(_, src, size) =>
                  if 0 <? u32 (size - 1) then c ← load_char src; mret (negb (c =? 0)) else mret false)
               (fun '(dst, src, size) =>
                  c ← load_char src; store8 dst c;; mret (dst + 1, src + 1, u32 (size - 1)))
               (dst, src, size);
           store8 dst 0;; mret dst
         else mret dst);
  mret (dst - dst_in).

Definition strcmp (p q : Z) : M mem Z :=
  fuel ← mem_fuel;
  '(p, q) ← while fuel
      (fun '(p, q) => a ← load_char p;
         if a =? 0 then mret false else b ← load_char q; mret (a =? b))
      (fun '(p, q) => mret (p + 1, q + 1)) (p, q);
  a ← load8 p; b ← load8 q; mret (a - b).

Definition strncmp (p q n : Z) : M mem Z :=
  '(p, q, n) ← while (S (Z.to_nat n))
      (fun '(p, q, n) =>
         if 0 <? n then
           a ← load_char p; if a =? 0 then mret false else b ← load_char q; mret (a =? b)
         else mret false)
      (fun '(p, q, n) => mret (p + 1, q + 1, n - 1)) (p, q, n);
  if n =? 0 then mret 0 else a ← load8 p; b ← load8 q; mret (a - b).

(** The second loop variable holds the value of a [return] inside the loop. *)
Definition strchr (s c : Z) : M mem Z :=
  fuel ← mem_fuel;
  '(_, ret) ← while (S fuel)
      (fun '(s, ret) => match ret with Some _ => mret false | None => x ← load_char s; mret (negb (x =? 0)) end)
      (fun '(s, _) => x ← load_char s; if x =? c then mret (s, Some s) else mret (s + 1, None))
      (s, None);
  mret (default 0 ret).

Definition strfind (s c : Z) : M mem Z :=
  fuel ← mem_fuel;
  while fuel (fun s => x ← load_char s; mret (negb (x =? 0) && negb (x =? c)))
    (fun s => mret (s + 1)) s.

(** [int m = n;] reads the count as a signed number. *)
Definition memset (v c n : Z) : M mem Z :=
  while (S (Z.to_nat n)) (fun '(_, m) => m' ← int_op (m - 1); mret (0 <=? m'))
    (fun '(p, m) => store8 p c;; mret (p + 1, m - 1)) (v, i32 n);;
  mret v.

Definition memcpy (dst src n : Z) : M mem Z :=
  while (S (Z.to_nat n)) (fun '(_, _, n) => mret (0 <? n))
    (fun '(d, s, n) => c ← load_char s; store8 d c;; mret (d + 1, s + 1, n - 1)) (dst, src, n);;
  mret dst.

Definition memmove (dst src n : Z) : M mem Z :=
  (if (src <? dst) && (dst <? src + n) then
     while (S (Z.to_nat n)) (fun '(_, _, n) => mret (0 <? n))
       (fun '(d, s, n) => c ← load_char (s - 1); store8 (d - 1) c;; mret (d - 1, s - 1, n - 1))
       (dst + n, src + n, n)
   else
     while (S (Z.to_nat n)) (fun '(_, _, n) => mret (0 <? n))
       (fun '(d, s, n) => c ← load_char s; store8 d c;; mret (d + 1, s + 1, n - 1)) (dst, src, n));;
  mret dst.

Definition memcmp (v1 v2 n : Z) : M mem Z :=
  '(_, _, _, ret) ← while (S (Z.to_nat n))
      (fun '(_, _, n, ret) => match ret with Some _ => mret false | None => mret (0 <? n) end)
      (fun '(s1, s2, n, _) =>
         a ← load8 s1; b ← load8 s2;
         if negb (a =? b) then mret (s1, s2, n - 1, Some (a - b)) else mret (s1 + 1, s2 + 1, n - 1, None))
      (v1, v2, n, None);
  mret (default 0 ret).

Definition memfind (s c n : Z) : M mem Z :=
  let ends := s + n in
  while (S (Z.to_nat n))
    (fun s => if s <? ends then x ← load8 s; mret (negb (x =? u8 c)) else mret false)
    (fun s => mret (s + 1)) s.

(** ** strtol *)

(** "gobble initial whitespace" *)
Definition skip_blanks (s : Z) : M mem Z :=
  fuel ← mem_fuel;
  while fuel (fun s => c ← load_char s; mret ((c =? chr " ") || (c =? 9))) (fun s => mret (s + 1)) s.

(** "plus/minus sign" *)
Definition strtol_sign (s : Z) : M mem (Z * bool) :=
  c ← load_char s;
  if c =? chr "+" then mret (s + 1, false)
  else if c =? chr "-" then mret (s + 1, true) else mret (s, false).

(** "hex or octal base prefix" *)
Definition strtol_prefix (s base : Z) : M mem (Z * Z) :=
  c0 ← load_char s;
  x ← (if ((base =? 0) || (base =? 16)) && (c0 =? chr "0")
       then c1 ← load_char (s + 1); mret (c1 =? chr "x") else mret false);
  if x : bool then mret (s + 2, 16)
  else if (base =? 0) && (c0 =? chr "0") then mret (s + 1, 8)
  else if base =? 0 then mret (s, 10) else mret (s, base).

(** The value of a digit character. *)
Definition strtol_digit (c : Z) : option Z :=
  if (chr "0" <=? c) && (c <=? chr "9") then Some (c - chr "0")
  else if (chr "a" <=? c) && (c <=? chr "z") then Some (c - chr "a" + 10)
  else if (chr "A" <=? c) && (c <=? chr "Z") then Some (c - chr "A" + 10)
  else None.

Definition strtol_digits (s base : Z) : M mem (Z * Z) :=
  fuel ← mem_fuel;
  while fuel
    (fun '(s, _) => c ← load_char s;
       match strtol_digit c with Some dig => mret (dig <? base) | None => mret false end)
    (fun '(s, val) => c ← load_char s;
       v ← int_op (val * base);
       v ← int_op (v + default 0 (strtol_digit c));
       mret (s + 1, v)) (s, 0).

Definition strtol (s endptr base : Z) : M mem Z :=
  s ← skip_blanks s;
  '(s, neg) ← strtol_sign s;
  '(s, base) ← strtol_prefix s base;
  '(s, val) ← strtol_digits s base;
  when (negb (endptr =? 0)) (store32 endptr s);;
  if neg : bool then int_op (- val) else mret val.

(** ** Objects in memory *)

(** The bytes [l] stand at [p]; [cstr]: a string and its NUL. *)
Definition array (m : mem) (p : Z) (l : list Z) : Prop :=
  forall i c, l !! i = Some c -> m !! (p + Z.of_nat i) = Some c.
Definition cstr (m : mem) (p : Z) (s : list Z) : Prop :=
  array m p (s ++ [0]) /\ Forall (fun c => 0 < c < 256) s.
(** [n] bytes at [p] that may be written. *)
Definition mapped (m : mem) (p n : Z) : Prop := forall a, p <= a < p + n -> is_Some (m !! a).
Definition is_bytes (l : list Z) : Prop := Forall (fun c => 0 <= c < 256) l.

(** The memory with [l] written at [p]. *)
Fixpoint write (m : mem) (p : Z) (l : list Z) : mem :=
  match l with [] => m | c :: l' => write (<[p := c]> m) (p + 1) l' end.

(** A memory of its own for examples: [l] at address [p]. *)
Definition mem_of (p : Z) (l : list Z) : mem := write ∅ p l.

Example strtol_ex : strtol 16 0 0 (mem_of 16 (bytes "  -0x1fz" ++ [0])) =
  Ret (- 31) (mem_of 16 (bytes "  -0x1fz" ++ [0])).
Proof. vm_compute. reflexivity. Qed.
Example memmove_ex : memmove 18 16 4 (mem_of 16 (bytes "abcdef")) = Ret 18 (mem_of 16 (bytes "ababcd")).
Proof. vm_compute. reflexivity. Qed.
Example strcmp_ex : exists m, strcmp 0 8 (write (mem_of 0 (bytes "abc" ++ [0])) 8 (bytes "abd" ++ [0])) = Ret (-1) m.
Proof. eexists. vm_compute. reflexivity. Qed.
Example memset_ex : memset 0 7 (2 ^ 31) (mem_of 0 [1]) = Fault.
Proof. unfold memset. destruct (Z.to_nat (2 ^ 31)); reflexivity. Qed.

(** ** Lemmas on memory *)

Lemma bytes_is_bytes s : is_bytes (bytes s).
Proof. induction s; constructor; [apply chr_range | done]. Qed.

Lemma array_nil m p : array m p [].
Proof. intros i c. by rewrite lookup_nil. Qed.

Lemma array_cons m p c l : array m p (c :: l) <-> m !! p = Some c /\ array m (p + 1) l.
Proof.
  split.
  - intros H. split; [rewrite <- (Z.add_0_r p); by apply (H 0%nat)|].
    intros i x Hx. replace (p + 1 + Z.of_nat i) with (p + Z.of_nat (S i)) by lia. by apply H.
  - intros [H0 H] [|i] x Hx; [injection Hx as <-; by rewrite Z.add_0_r|].
    replace (p + Z.of_nat (S i)) with (p + 1 + Z.of_nat i) by lia. by apply H.
Qed.

Lemma array_app m p l1 l2 :
  array m p (l1 ++ l2) <-> array m p l1 /\ array m (p + Z.of_nat (length l1)) l2.
Proof.
  revert p. induction l1 as [|c l1 IH]; intros p; simpl.
  - rewrite Z.add_0_r. split; [split; [apply array_nil | done] | tauto].
  - rewrite !array_cons, IH. replace (p + 1 + Z.of_nat (length l1)) with (p + Z.of_nat (S (length l1))) by lia. tauto.
Qed.

Lemma array_mapped m p l : array m p l -> mapped m p (Z.of_nat (length l)).
Proof.
  intros H a Ha. destruct (lookup_lt_is_Some_2 l (Z.to_nat (a - p))) as [c Hc]; [lia|].
  exists c. rewrite <- (H _ _ Hc). f_equal. lia.
Qed.

Lemma array_insert m p l a v :
  array m p l -> a < p \/ p + Z.of_nat (length l) <= a -> array (<[a := v]> m) p l.
Proof.
  intros H Ha i c Hc. pose proof (lookup_lt_Some _ _ _ Hc).
  rewrite lookup_insert_ne by lia. by apply H.
Qed.

Lemma mapped_insert m p n a v : mapped m p n -> mapped (<[a := v]> m) p n.
Proof.
  intros H x Hx. destruct (decide (a = x)) as [->|]; [rewrite lookup_insert_eq | rewrite lookup_insert_ne by done];
    [by eexists | by apply H].
Qed.

Lemma array_size m p l : array m p l -> (length l <= size m)%nat.
Proof.
  revert m p. induction l as [|c l IH]; intros m p H; simpl; [lia|].
  apply array_cons in H as [H0 H].
  assert (Hd : array (delete p m) (p + 1) l).
  { intros i x Hx. rewrite lookup_delete_ne by lia. by apply H. }
  apply IH in Hd. rewrite map_size_delete_Some in Hd by (by eexists).
  assert (size m <> 0%nat) by (intros E; apply map_size_empty_inv in E; subst m; by rewrite lookup_empty in H0).
  lia.
Qed.

Lemma write_out m p l a : a < p \/ p + Z.of_nat (length l) <= a -> write m p l !! a = m !! a.
Proof.
  revert m p. induction l as [|c l IH]; intros m p Ha; [done|]. cbn [write length] in *.
  rewrite IH by lia. by rewrite lookup_insert_ne by lia.
Qed.

Lemma write_insert m p l a v :
  a < p \/ p + Z.of_nat (length l) <= a -> write (<[a := v]> m) p l = <[a := v]> (write m p l).
Proof.
  revert m p. induction l as [|c l IH]; intros m p Ha; [done|]. cbn [write length] in *.
  rewrite insert_insert_ne by lia. apply IH. lia.
Qed.

Lemma write_snoc m p l c : write m p (l ++ [c]) = <[p + Z.of_nat (length l) := c]> (write m p l).
Proof.
  revert m p. induction l as [|x l IH]; intros m p; cbn [write length app]; [by rewrite Z.add_0_r|].
  rewrite IH. f_equal. lia.
Qed.

Lemma mapped_write m p l q n : mapped m q n -> mapped (write m p l) q n.
Proof. revert m p. induction l as [|c l IH]; intros m p H; [done|]. cbn [write]. by apply IH, mapped_insert. Qed.

Lemma write_array m p l : array (write m p l) p l.
Proof.
  revert m p. induction l as [|c l IH]; intros m p; [apply array_nil|]. cbn [write].
  apply array_cons. split; [|apply IH]. rewrite write_out by lia. apply lookup_insert_eq.
Qed.

Lemma wp_load8 a c (Q : Z -> mem -> Prop) m : m !! a = Some c -> Q c m -> wp (load8 a) Q m.
Proof. intros H HQ. unfold load8. wp_go. by eapply wp_deref. Qed.

Lemma wp_load_char a c (Q : Z -> mem -> Prop) m : m !! a = Some c -> Q (i8 c) m -> wp (load_char a) Q m.
Proof. intros H HQ. unfold load_char. wp_go. eapply wp_load8; [exact H|]. by wp_go. Qed.

Lemma wp_store8 a v (Q : () -> mem -> Prop) m :
  is_Some (m !! a) -> Q tt (<[a := u8 v]> m) -> wp (store8 a v) Q m.
Proof. intros [c H] HQ. unfold store8. wp_go. eapply wp_load8; [exact H|]. by wp_go. Qed.

Lemma i8_zero c : 0 <= c < 256 -> (i8 c =? 0) = (c =? 0).
Proof. intros. destruct (Z.eqb_spec c 0); [by subst|]. apply Z.eqb_neq. divmod. Qed.

Lemma i8_inj a b : 0 <= a < 256 -> 0 <= b < 256 -> (i8 a =? i8 b) = (a =? b).
Proof. intros. destruct (Z.eqb_spec a b); [subst; apply Z.eqb_refl|]. apply Z.eqb_neq. divmod. Qed.

Lemma u8_i8 c : 0 <= c < 256 -> u8 (i8 c) = c.
Proof. intros. divmod. Qed.

Lemma cstr_cases m p s : cstr m p s ->
  (s = [] /\ m !! p = Some 0) \/
  (exists c s', s = c :: s' /\ m !! p = Some c /\ 0 < c < 256 /\ cstr m (p + 1) s').
Proof.
  intros [Ha Hs]. destruct s as [|c s]; cbn [app] in Ha; apply array_cons in Ha as [H0 Ha]; [by left|].
  right. exists c, s. inversion_clear Hs. done.
Qed.

Lemma cstr_size m p s : cstr m p s -> (length s < size m)%nat.
Proof. intros [Ha _]. apply array_size in Ha. rewrite length_app in Ha. simpl in Ha. lia. Qed.

Lemma strlen_correct m p s :
  cstr m p s -> Z.of_nat (length s) < 2 ^ 31 -> strlen p m = Ret (Z.of_nat (length s)) m.
Proof.
  intros Hs Hl. apply wp_eq. unfold strlen, mem_fuel. wp_go.
  apply wp_while with
    (Inv := fun '(q, n) m' => m' = m /\ exists s', cstr m q s' /\ 0 <= n /\ n + Z.of_nat (length s') = Z.of_nat (length s))
    (mu := fun '(q, n) => (length s - Z.to_nat n)%nat).
  - split; [done|]. exists s. by split_and!.
  - apply cstr_size in Hs. lia.
  - intros [q n] m' (-> & s' & Hc & Hn & Hlen). wp_go.
    destruct (cstr_cases _ _ _ Hc) as [[-> H0]|(c & s2 & -> & H0 & Hr & Hc')];
      (eapply wp_load_char; [exact H0|]; wp_go); rewrite i8_zero by lia.
    + simpl in *. wp_go. split; [lia | done].
    + replace (c =? 0) with false by lia. cbn [negb]. cbn [length] in Hlen.
      wp_go. apply wp_int_op; [lia|]. wp_go. split; [split; [done|]|lia].
      exists s2. split_and!; [done | lia | lia].
Qed.

(** ** Copying *)

Lemma take_snoc (l : list Z) i c : l !! i = Some c -> take (S i) l = take i l ++ [c].
Proof. intros H. by apply take_S_r. Qed.

(** One step of a forward copy: the [i] bytes before are in place. *)
Lemma copy_step m dst src l i c :
  array m src l -> is_bytes l -> mapped m dst (Z.of_nat (length l)) -> l !! i = Some c ->
  dst <= src \/ src + Z.of_nat (length l) <= dst ->
  let m' := write m dst (take i l) in
  m' !! (src + Z.of_nat i) = Some c /\ is_Some (m' !! (dst + Z.of_nat i)) /\
  <[dst + Z.of_nat i := u8 (i8 c)]> m' = write m dst (take (S i) l).
Proof.
  intros Ha Hb Hm Hc Ho m'. pose proof (lookup_lt_Some _ _ _ Hc).
  assert (length (take i l) = i) as Hi by (rewrite length_take; lia).
  split_and!.
  - subst m'. rewrite write_out by (rewrite Hi; lia). by apply Ha.
  - subst m'. rewrite write_out by (rewrite Hi; lia). apply Hm. lia.
  - rewrite (take_snoc _ _ _ Hc), write_snoc, Hi, u8_i8; [done|].
    by apply (proj1 (Forall_lookup _ l) Hb i).
Qed.

Lemma copy_forward m dst src l :
  array m src l -> is_bytes l -> mapped m dst (Z.of_nat (length l)) ->
  dst <= src \/ src + Z.of_nat (length l) <= dst ->
  exists r, while (S (length l)) (fun '(_, _, n) => mret (0 <? n))
    (fun '(d, s, n) => c ← load_char s; store8 d c;; mret (d + 1, s + 1, n - 1))
    (dst, src, Z.of_nat (length l)) m = Ret r (write m dst l).
Proof.
  intros Ha Hb Hm Ho. assert (Hw : wp (while (S (length l)) (fun '(_, _, n) => mret (0 <? n))
    (fun '(d, s, n) => c ← load_char s; store8 d c;; mret (d + 1, s + 1, n - 1))
    (dst, src, Z.of_nat (length l))) (fun _ m' => m' = write m dst l) m);
    [|apply wp_iff in Hw as (r & m' & E & ->); by exists r].
  apply wp_while with
    (Inv := fun '(d, s, n) m' => exists i, (i <= length l)%nat /\ d = dst + Z.of_nat i /\ s = src + Z.of_nat i /\
       n = Z.of_nat (length l - i) /\ m' = write m dst (take i l))
    (mu := fun '(_, n) => Z.to_nat n); [exists 0%nat; split_and!; done || lia | lia |].
  intros [[d s] n] m' (i & Hi & -> & -> & -> & ->). wp_go.
  destruct (Z.ltb_spec 0 (Z.of_nat (length l - i))).
  - destruct (lookup_lt_is_Some_2 l i) as [c Hc]; [lia|].
    destruct (copy_step m dst src l i c) as (H1 & H2 & H3); [done..|].
    wp_go. eapply wp_load_char; [exact H1|]. wp_go. eapply wp_store8; [exact H2|]. wp_go.
    split; [|lia]. exists (S i). rewrite H3. split_and!; done || lia.
  - by rewrite take_ge by lia.
Qed.

Lemma copy_backward m dst src l :
  array m src l -> is_bytes l -> mapped m dst (Z.of_nat (length l)) -> src < dst ->
  exists r, while (S (length l)) (fun '(_, _, n) => mret (0 <? n))
    (fun '(d, s, n) => c ← load_char (s - 1); store8 (d - 1) c;; mret (d - 1, s - 1, n - 1))
    (dst + Z.of_nat (length l), src + Z.of_nat (length l), Z.of_nat (length l)) m = Ret r (write m dst l).
Proof.
  intros Ha Hb Hm Ho. assert (Hw : wp (while (S (length l)) (fun '(_, _, n) => mret (0 <? n))
    (fun '(d, s, n) => c ← load_char (s - 1); store8 (d - 1) c;; mret (d - 1, s - 1, n - 1))
    (dst + Z.of_nat (length l), src + Z.of_nat (length l), Z.of_nat (length l))) (fun _ m' => m' = write m dst l) m);
    [|apply wp_iff in Hw as (r & m' & E & ->); by exists r].
  apply wp_while with
    (Inv := fun '(d, s, n) m' => exists i, (i <= length l)%nat /\ d = dst + Z.of_nat i /\ s = src + Z.of_nat i /\
       n = Z.of_nat i /\ m' = write m (dst + Z.of_nat i) (drop i l))
    (mu := fun '(_, n) => Z.to_nat n).
  - exists (length l). rewrite drop_ge by lia. split_and!; done || lia.
  - lia.
  - intros [[d s] n] m' (i & Hi & -> & -> & -> & ->). wp_go.
    destruct i as [|i]; [simpl; by rewrite Z.add_0_r|].
    assert (E : (0 <? Z.of_nat (S i)) = true) by (apply Z.ltb_lt; lia). rewrite E. clear E.
    destruct (lookup_lt_is_Some_2 l i) as [c Hc]; [lia|].
    assert (0 <= c < 256) by (by apply (proj1 (Forall_lookup _ l) Hb i)).
    replace (src + Z.of_nat (S i) - 1) with (src + Z.of_nat i) by lia.
    replace (dst + Z.of_nat (S i) - 1) with (dst + Z.of_nat i) by lia.
    wp_go. eapply wp_load_char; [rewrite write_out by lia; by apply Ha|]. wp_go.
    apply wp_store8; [rewrite write_out by lia; apply Hm; lia|]. wp_go. split; [|lia].
    exists i. split_and!; [lia | done | done | lia |].
    rewrite u8_i8, (drop_S _ _ _ Hc) by done. cbn [write]. rewrite write_insert by lia. do 2 f_equal. lia.
Qed.

(** C37: [memmove] copies [n] bytes correctly however the two regions overlap: the
    destination holds what the source held before the call, nothing else
    changes, and [dst] is returned. *)
Theorem memmove_correct m dst src l :
  array m src l -> is_bytes l -> mapped m dst (Z.of_nat (length l)) ->
  memmove dst src (Z.of_nat (length l)) m = Ret dst (write m dst l).
Proof.
  intros Ha Hb Hm. unfold memmove. rewrite Nat2Z.id.
  destruct ((src <? dst) && (dst <? src + Z.of_nat (length l))) eqn:E.
  - destruct (copy_backward m dst src l) as [r Hr]; [done..|lia|]. by rewrite (bind_eq _ _ _ _ _ Hr).
  - destruct (copy_forward m dst src l) as [r Hr]; [done..|lia|]. by rewrite (bind_eq _ _ _ _ _ Hr).
Qed.

Lemma memmove_correct_witness :
  memmove 17 16 5 (mem_of 16 (bytes "abcdef")) = Ret 17 (mem_of 16 (bytes "aabcde")).
Proof.
  apply (memmove_correct (mem_of 16 (bytes "abcdef")) 17 16 (bytes "abcde")).
  - repeat (apply array_cons; split; [vm_compute; reflexivity|]). apply array_nil.
  - apply bytes_is_bytes.
  - intros a Ha. change (bytes "abcdef") with (bytes "a" ++ bytes "bcdef") in *.
    apply (array_mapped _ 17 (bytes "bcdef")); [|exact Ha].
    repeat (apply array_cons; split; [vm_compute; reflexivity|]). apply array_nil.
Defined.

(** [memset] fills [n] bytes for counts below 2^31; as [int m = n] makes the
    count negative from there on, larger counts leave memory unchanged, and
    [n = 2^31] overflows. *)
Theorem memset_correct m v c n :
  0 <= n < 2 ^ 32 -> mapped m v n ->
  memset v c n m =
  if n <? 2 ^ 31 then Ret v (write m v (replicate (Z.to_nat n) (u8 c)))
  else if n =? 2 ^ 31 then Fault else Ret v m.
Proof.
  intros Hn Hm. unfold memset. destruct (Z.ltb_spec n (2 ^ 31)).
  - apply wp_eq. wp_go. apply wp_while with
      (Inv := fun '(p, k) m' => exists i, (i <= Z.to_nat n)%nat /\ p = v + Z.of_nat i /\ k = n - Z.of_nat i /\
         m' = write m v (replicate i (u8 c))) (mu := fun '(_, k) => Z.to_nat k).
    + exists 0%nat. rewrite i32_small by lia. split_and!; try (done || lia).
    + rewrite i32_small by lia. lia.
    + intros [p k] m' (i & Hi & -> & -> & ->). wp_go. apply wp_int_op; [lia|]. wp_go.
      destruct (Z.leb_spec 0 (n - Z.of_nat i - 1)).
      * wp_go. apply wp_store8; [rewrite write_out by (rewrite length_replicate; lia); apply Hm; lia|].
        wp_go. split; [|lia]. exists (S i). split_and!; [lia|lia|lia|].
        rewrite replicate_S_end, write_snoc, length_replicate. done.
      * wp_go. split; [done|]. by replace (Z.to_nat n) with i by lia.
  - destruct (Z.eqb_spec n (2 ^ 31)) as [->|].
    + rewrite while_S. unfold mbind, M_bind. done.
    + rewrite while_S. erewrite bind_eq; [reflexivity|].
      erewrite bind_eq; [|rewrite int_op_ok by divmod; reflexivity].
      replace (0 <=? i32 n - 1) with false by divmod. done.
Qed.

Lemma memset_correct_witness :
  memset 16 7 2 (mem_of 16 [1; 2; 3]) = Ret 16 (mem_of 16 [7; 7; 3]).
Proof.
  rewrite memset_correct; [vm_compute; reflexivity | lia |].
  intros a Ha. apply (array_mapped _ 16 [1; 2]); [|exact Ha].
  repeat (apply array_cons; split; [vm_compute; reflexivity|]). apply array_nil.
Defined.

(** ** Copying and comparing strings *)

Lemma cstr_array m p s : cstr m p s -> array m p s /\ m !! (p + Z.of_nat (length s)) = Some 0.
Proof. intros [Ha _]. apply array_app in Ha as [? Ha]. apply array_cons in Ha as [? _]. done. Qed.

Lemma cstr_is_bytes m p s : cstr m p s -> is_bytes s.
Proof. intros [_ H]. eapply Forall_impl; [exact H|]. simpl. lia. Qed.

(** [strlcpy] copies at most [size - 1] characters, always adds a NUL, writes
    nothing beyond, and returns the number of characters it copied. *)
Theorem strlcpy_correct m dst src s size :
  cstr m src s -> 0 < size < 2 ^ 32 ->
  (dst + size <= src \/ src + Z.of_nat (length s) < dst) ->
  mapped m dst (Z.min size (Z.of_nat (length s) + 1)) ->
  let r := take (Z.to_nat (size - 1)) s in
  strlcpy dst src size m = Ret (Z.of_nat (length r)) (write m dst (r ++ [0])).
Proof.
  intros Hs Hsz Ho Hm r. apply wp_eq. unfold strlcpy. replace (0 <? size) with true by lia.
  destruct (cstr_array _ _ _ Hs) as [Ha H0]. pose proof (cstr_is_bytes _ _ _ Hs) as Hb.
  assert (Hr : Z.of_nat (length r) = Z.min (size - 1) (Z.of_nat (length s))) by (subst r; rewrite length_take; lia).
  wp_go. apply wp_while with
    (Inv := fun '(d, q, k) m' => exists i, Z.of_nat i <= Z.of_nat (length r) /\ d = dst + Z.of_nat i /\
       q = src + Z.of_nat i /\ k = size - Z.of_nat i /\ m' = write m dst (take i s))
    (mu := fun '(_, _, k) => Z.to_nat k); [exists 0%nat; split_and!; try done; lia | lia |].
  intros [[d q] k] m' (i & Hi & -> & -> & -> & ->).
  assert (Hli : length (take i s) = i) by (rewrite length_take; lia).
  assert (Hend : Z.of_nat i = Z.of_nat (length r) -> wp (store8 (dst + Z.of_nat i) 0;; mret (dst + Z.of_nat i))
      (fun a s' => wp (mret (a - dst)) (fun b t => b = Z.of_nat (length r) /\ t = write m dst (r ++ [0])) s')
      (write m dst (take i s))).
  { intros Hie. wp_go. apply wp_store8; [rewrite write_out by lia; apply Hm; lia|]. wp_go. split; [lia|].
    rewrite write_snoc. subst r. rewrite length_take in *. change (u8 0) with 0. f_equal; [lia|].
    f_equal. destruct (decide (length s <= i)%nat); [by rewrite !take_ge by lia | f_equal; lia]. }
  rewrite u32_small by lia. destruct (Z.ltb_spec 0 (size - Z.of_nat i - 1)); [|apply Hend; lia].
  wp_go. destruct (decide (i = length s)) as [->|Hne].
  { eapply wp_load_char; [rewrite write_out by lia; exact H0|]. wp_go. apply Hend. lia. }
  destruct (lookup_lt_is_Some_2 s i) as [c Hc]; [lia|].
  assert (0 < c < 256) by (destruct Hs as [_ Hs]; by apply (proj1 (Forall_lookup _ s) Hs i)).
  assert (Hld : write m dst (take i s) !! (src + Z.of_nat i) = Some c) by (rewrite write_out by lia; by apply Ha).
  eapply wp_load_char; [exact Hld|]. wp_go. rewrite i8_zero by lia. replace (c =? 0) with false by lia.
  cbn [negb]. wp_go. eapply wp_load_char; [exact Hld|]. wp_go.
  apply wp_store8; [rewrite write_out by lia; apply Hm; lia|]. wp_go. split; [|lia].
  exists (S i). split_and!; [lia|lia|lia|lia|]. rewrite (take_snoc _ _ _ Hc), write_snoc, u8_i8 by lia. by rewrite Hli.
Qed.

Lemma strlcpy_correct_witness :
  strlcpy 32 16 4 (write (mem_of 16 (bytes "abcdef" ++ [0])) 32 (replicate 4 255)) =
  Ret 3 (write (write (mem_of 16 (bytes "abcdef" ++ [0])) 32 (replicate 4 255)) 32 (bytes "abc" ++ [0])).
Proof.
  apply (strlcpy_correct _ 32 16 (bytes "abcdef") 4).
  - split; [|repeat constructor]. repeat (apply array_cons; split; [vm_compute; reflexivity|]). apply array_nil.
  - lia.
  - right. simpl. lia.
  - intros a Ha. apply (array_mapped _ 32 (replicate 4 255)); [apply write_array | simpl in *; lia].
Defined.

(** The difference of the first characters in which two strings differ; a
    string ends with a NUL. *)
Fixpoint first_diff (s t : list Z) : Z :=
  match s, t with
  | [], [] => 0
  | [], b :: _ => - b
  | a :: _, [] => a
  | a :: s', b :: t' => if a =? b then first_diff s' t' else a - b
  end.

Lemma strcmp_run m p q s t :
  cstr m p s -> cstr m q t ->
  strcmp p q m = Ret (first_diff s t) m /\ (first_diff s t = 0 <-> s = t).
Proof.
  intros Hs Ht. split.
  - apply wp_eq. unfold strcmp, mem_fuel. wp_go. apply wp_while with
      (Inv := fun '(p', q') m' => m' = m /\ exists s' t', cstr m p' s' /\ cstr m q' t' /\
         (length s' <= length s)%nat /\ (p' - p = Z.of_nat (length s - length s')) /\ first_diff s' t' = first_diff s t)
      (mu := fun '(p', _) => (length s - Z.to_nat (p' - p))%nat).
    + split; [done|]. exists s, t. split_and!; done || lia.
    + apply cstr_size in Hs. lia.
    + intros [p' q'] m' (-> & s' & t' & Hs' & Ht' & Hl & Hp & Hd). wp_go.
      destruct (cstr_cases _ _ _ Hs') as [[-> Hp0]|(a & s2 & -> & Hp0 & Hra & Hs2)];
        (eapply wp_load_char; [exact Hp0|]); wp_go; rewrite i8_zero by lia;
        destruct (cstr_cases _ _ _ Ht') as [[-> Hq0]|(b & t2 & -> & Hq0 & Hrb & Ht2)].
      * change (0 =? 0) with true. wp_go. do 2 (eapply wp_load8; [eassumption|]; wp_go). done.
      * change (0 =? 0) with true. wp_go. do 2 (eapply wp_load8; [eassumption|]; wp_go). done.
      * replace (a =? 0) with false by lia. wp_go. eapply wp_load_char; [exact Hq0|]. wp_go.
        rewrite i8_inj by lia. replace (a =? 0) with false by lia. wp_go.
        do 2 (eapply wp_load8; [eassumption|]; wp_go). simpl in Hd. split; [lia | done].
      * replace (a =? 0) with false by lia. wp_go. eapply wp_load_char; [exact Hq0|]. wp_go.
        rewrite i8_inj by lia. cbn [first_diff] in Hd. destruct (a =? b).
        { wp_go. cbn [length] in *. split; [split; [done|]|lia]. exists s2, t2. split_and!; done || lia. }
        wp_go. do 2 (eapply wp_load8; [eassumption|]; wp_go). split; [lia | done].
  - destruct Hs as [_ Hs], Ht as [_ Ht]. revert t Ht. induction Hs as [|a s Ha Hs IH]; intros t Ht;
      destruct Ht as [|b t Hb Ht]; cbn [first_diff]; [done | | |].
    + split; [lia | done].
    + split; [lia | done].
    + destruct (Z.eqb_spec a b) as [->|]; [rewrite IH by done; split; [by intros -> | by intros [=]]|].
      split; [lia | by intros [=]].
Qed.

(** Where [c] first stands in [s], and what [strchr] returns. *)
Fixpoint index_of (c : Z) (s : list Z) : option nat :=
  match s with
  | [] => None
  | x :: s' => if x =? c then Some O else S <$> index_of c s'
  end.

Lemma strchr_run m p s c :
  cstr m p s -> 0 < c < 256 ->
  strchr p (i8 c) m = Ret (from_option (fun i => p + Z.of_nat i) 0 (index_of c s)) m.
Proof.
  intros Hs Hc. apply wp_eq. unfold strchr, mem_fuel. wp_go. set (res := from_option _ 0 (index_of c s)).
  apply wp_while with
    (Inv := fun '(q, ret) m' => m' = m /\ match ret with
       | Some v => v = res
       | None => exists s', cstr m q s' /\ (length s' <= length s)%nat /\ (q - p = Z.of_nat (length s - length s')) /\
           from_option (fun i => q + Z.of_nat i) 0 (index_of c s') = res
       end)
    (mu := fun '(q, ret) => match ret with Some _ => 0 | None => S (length s - Z.to_nat (q - p)) end%nat).
  - split; [done|]. exists s. split_and!; done || lia.
  - apply cstr_size in Hs. lia.
  - intros [q ret] m' (-> & Hret). destruct ret as [v|]; [by wp_go; subst v|]. destruct Hret as (s' & Hs' & Hl & Hq & Hr).
    wp_go. destruct (cstr_cases _ _ _ Hs') as [[-> H0]|(x & s2 & -> & H0 & Hx & Hs2)];
      (eapply wp_load_char; [exact H0|]); wp_go; rewrite i8_zero by lia.
    + change (negb (0 =? 0)) with false. wp_go. done.
    + replace (negb (x =? 0)) with true by lia. wp_go. eapply wp_load_char; [exact H0|]. wp_go.
      rewrite i8_inj by lia. cbn [index_of] in Hr. cbn [length] in Hl, Hq. destruct (x =? c).
      * wp_go. split; [|lia]. split; [done|]. rewrite <- Hr. cbn. lia.
      * wp_go. split; [|lia]. split; [done|]. exists s2. split; [done|]. split; [lia|]. split; [lia|]. rewrite <- Hr.
        destruct (index_of c s2); cbn; lia.
Qed.

(** [strcmp] returns the difference of the first characters that differ, read
    as unsigned, so its sign is that of the lexicographic order; it is zero
    exactly on equal strings. *)
Theorem strcmp_correct m p q s t :
  cstr m p s -> cstr m q t ->
  strcmp p q m = Ret (first_diff s t) m /\ (first_diff s t = 0 <-> s = t).
Proof. apply strcmp_run. Qed.

Lemma strcmp_correct_witness :
  let m := write (mem_of 16 (bytes "help" ++ [0])) 32 (bytes "hello" ++ [0]) in
  strcmp 16 32 m = Ret (chr "p" - chr "l") m.
Proof.
  intros m. apply (strcmp_correct m 16 32 (bytes "help") (bytes "hello"));
    (split; [|repeat constructor]); subst m;
    repeat (apply array_cons; split; [vm_compute; reflexivity|]); apply array_nil.
Defined.

(** ** Reading numbers *)

Definition blank (c : Z) : bool := (c =? chr " ") || (c =? 9).

Lemma skip_blanks_correct m s bl c l :
  array m s (bl ++ c :: l) -> Forall (fun x => blank x = true) bl -> 0 <= c < 256 -> blank c = false ->
  skip_blanks s m = Ret (s + Z.of_nat (length bl)) m.
Proof.
  intros Ha Hbl Hc Hn. apply wp_eq. unfold skip_blanks, mem_fuel. wp_go.
  assert (Hsz := array_size _ _ _ Ha). rewrite length_app in Hsz.
  assert (Hi8 : forall x, 0 <= x < 256 -> (i8 x =? chr " ") || (i8 x =? 9) = blank x).
  { intros x Hx. unfold blank. chars. rewrite <- (i8_inj x 32), <- (i8_inj x 9) by lia. done. }
  apply wp_while with
    (Inv := fun q m' => m' = m /\ exists bl', array m q (bl' ++ c :: l) /\ Forall (fun x => blank x = true) bl' /\
       s <= q /\ (length bl' <= length bl)%nat /\ q + Z.of_nat (length bl') = s + Z.of_nat (length bl))
    (mu := fun q => (length bl - Z.to_nat (q - s))%nat).
  - split; [done|]. exists bl. split_and!; done || lia.
  - simpl in Hsz. lia.
  - intros q m' (-> & bl' & Ha' & Hbl' & Hsq & Hle & Hq). wp_go. destruct bl' as [|b bl'].
    + apply array_cons in Ha' as [H0 _]. eapply wp_load_char; [exact H0|]. wp_go.
      rewrite Hi8, Hn by done. simpl in Hq. split; [lia | done].
    + cbn [app] in Ha'. apply array_cons in Ha' as [H0 Ha']. inversion_clear Hbl' as [|? ? Hb Hbl2].
      eapply wp_load_char; [exact H0|]. wp_go.
      assert (0 <= b < 256) by (unfold blank in Hb; chars; lia). rewrite Hi8, Hb by done.
      wp_go. cbn [length] in *. split; [split; [done|]|lia]. exists bl'. split_and!; done || lia.
Qed.

(** The digits of a numeral are read back as its value. *)
Lemma strtol_digit_digit d : 0 <= d < 16 -> strtol_digit (i8 (digit d)) = Some d /\ 0 < digit d < 128 /\ blank (digit d) = false.
Proof.
  intros Hd. assert (Hn : (Z.to_nat d < 16)%nat) by lia.
  replace d with (Z.of_nat (Z.to_nat d)) by lia. revert Hn. generalize (Z.to_nat d). intros n Hn.
  do 16 (destruct n as [|n]; [done|]). lia.
Qed.

Lemma value_ge b v ds : 1 <= b -> 0 <= v -> Forall (fun d => 0 <= d < b) ds ->
  v <= foldl (fun v d => v * b + d) v ds.
Proof.
  intros Hb. revert v. induction ds as [|d ds IH]; intros v Hv Hds; simpl; [lia|].
  inversion_clear Hds as [|? ? Hd Hr]. specialize (IH (v * b + d) ltac:(nia) Hr). nia.
Qed.

Lemma strtol_digits_correct m s b ds c l :
  array m s ((digit <$> ds) ++ c :: l) -> 2 <= b <= 16 -> Forall (fun d => 0 <= d < b) ds ->
  (forall d, strtol_digit (i8 c) = Some d -> b <= d) -> value b ds < 2 ^ 31 ->
  strtol_digits s b m = Ret (s + Z.of_nat (length ds), value b ds) m.
Proof.
  intros Ha Hb Hds Hc Hv. apply wp_eq. unfold strtol_digits, mem_fuel. wp_go.
  assert (Hsz := array_size _ _ _ Ha). rewrite length_app, length_fmap in Hsz.
  apply wp_while with
    (Inv := fun '(q, v) m' => m' = m /\ exists ds', array m q ((digit <$> ds') ++ c :: l) /\
       Forall (fun d => 0 <= d < b) ds' /\ s <= q /\ 0 <= v /\ (length ds' <= length ds)%nat /\
       q + Z.of_nat (length ds') = s + Z.of_nat (length ds) /\
       foldl (fun v d => v * b + d) v ds' = value b ds)
    (mu := fun '(q, _) => (length ds - Z.to_nat (q - s))%nat).
  - split; [done|]. exists ds. split_and!; done || lia.
  - simpl in Hsz. lia.
  - intros [q v] m' (-> & ds' & Ha' & Hds' & Hsq & Hv0 & Hle & Hq & Hval). wp_go. destruct ds' as [|d ds'].
    + apply array_cons in Ha' as [H0 _]. eapply wp_load_char; [exact H0|]. simpl in Hq, Hval.
      destruct (strtol_digit (i8 c)) as [d|]; wp_go; [|split; [f_equal; lia | done]].
      specialize (Hc d eq_refl). replace (d <? b) with false by lia. wp_go. split; [f_equal; lia | done].
    + rewrite fmap_cons in Ha'. cbn [app] in Ha'. apply array_cons in Ha' as [H0 Ha'].
      inversion_clear Hds' as [|? ? Hd Hds2].
      destruct (strtol_digit_digit d) as (Hdd & _ & _); [lia|].
      cbn [foldl] in Hval. pose proof (value_ge b (v * b + d) ds' ltac:(lia) ltac:(nia) Hds2) as Hge. rewrite Hval in Hge.
      eapply wp_load_char; [exact H0|]. rewrite Hdd. wp_go. replace (d <? b) with true by lia. wp_go.
      eapply wp_load_char; [exact H0|]. rewrite Hdd. cbn [default id]. wp_go.
      apply wp_int_op; [nia|]. wp_go. apply wp_int_op; [simpl; nia|]. wp_go.
      cbn [length] in *. split; [split; [done|]|lia]. exists ds'. split_and!; done || lia || nia.
Qed.

(** How a base argument, a written prefix and the base read go together; [c] is
    the character after the number. *)
Definition prefix_ok (base : Z) (pre : list Z) (b n c : Z) : Prop :=
  (base = b /\ pre = [] /\ (b = 16 -> n = 0 -> i8 c <> chr "x")) \/
  (base = 16 /\ pre = bytes "0x" /\ b = 16) \/ (base = 0 /\ pre = bytes "0x" /\ b = 16) \/
  (base = 0 /\ pre = bytes "0" /\ b = 8) \/ (base = 0 /\ pre = [] /\ b = 10 /\ n <> 0).

Definition sign_text (neg : bool) (sgn : list Z) : Prop :=
  sgn = [] /\ neg = false \/ sgn = bytes "+" /\ neg = false \/ sgn = bytes "-" /\ neg = true.

Lemma load_char_eq m a c : m !! a = Some c -> load_char a m = Ret (i8 c) m.
Proof. intros H. apply wp_eq. by eapply wp_load_char. Qed.

Lemma i8_char c : 0 <= c < 128 -> i8 c = c.
Proof. intros. divmod. Qed.

(** The head of a numeral and the character after its first digit. *)
Lemma numeral_head b n c l :
  2 <= b <= 16 -> 0 <= n < 2 ^ 31 ->
  exists d l', numeral b n ++ c :: l = digit d :: l' /\ 0 <= d < 16 /\ (d = 0 -> n = 0 /\ l' = c :: l).
Proof.
  intros Hb Hn. unfold numeral.
  destruct (digits_spec 64 b n) as (Hv & Hr & Hl & Hh); [lia|lia|lia|].
  destruct (digits 64 b n) as [|d ds] eqn:E; [simpl in Hl; lia|]. inversion_clear Hr as [|? ? Hd Hr'].
  exists d, ((digit <$> ds) ++ c :: l). split; [done|]. split; [lia|]. intros ->.
  destruct (decide (n = 0)) as [->|Hne]; [|by destruct (Hh Hne)].
  split; [done|]. change 64%nat with (S 63) in E. cbn [digits] in E.
  replace (b <=? 0) with false in E by lia. by injection E as <-.
Qed.

Lemma strtol_sign_correct m s neg sgn c l :
  array m s (sgn ++ c :: l) -> sign_text neg sgn -> 0 < c < 128 -> c <> chr "+" -> c <> chr "-" ->
  strtol_sign s m = Ret (s + Z.of_nat (length sgn), neg) m.
Proof.
  intros Ha Hs Hc Hp Hm. unfold strtol_sign.
  destruct Hs as [[-> ->]|[[-> ->]|[-> ->]]]; apply array_cons in Ha as [H0 _];
    rewrite (bind_eq _ _ _ _ _ (load_char_eq _ _ _ H0)); [|done..].
  rewrite i8_char by lia. replace (c =? chr "+") with false by lia. replace (c =? chr "-") with false by lia.
  unfold mret, M_ret. do 2 f_equal. simpl. lia.
Qed.

(** The test for a base prefix, on a character that is '0'. *)
Ltac prefix_test :=
  match goal with |- context [if ?b then mbind _ (load_char _) else _] => change b with true end; cbv iota.

Lemma strtol_prefix_correct m s base pre b n c l :
  array m s (pre ++ numeral b n ++ c :: l) -> 2 <= b <= 16 -> 0 <= n < 2 ^ 31 -> prefix_ok base pre b n c ->
  strtol_prefix s base m = Ret (s + Z.of_nat (length pre), b) m.
Proof.
  intros Ha Hb Hn Hp. unfold strtol_prefix.
  destruct (numeral_head b n c l Hb Hn) as (d & l' & Hnum & Hd & Hd0). rewrite Hnum in Ha.
  destruct (strtol_digit_digit d Hd) as (_ & Hdr & _).
  assert (Hz : digit d = chr "0" -> d = 0).
  { intros E. destruct (strtol_digit_digit d Hd) as (Hx & _ & _). rewrite E in Hx.
    change (strtol_digit (i8 (chr "0"))) with (Some 0) in Hx. by injection Hx. }
  destruct Hp as [(-> & -> & Hx)|[(-> & -> & ->)|[(-> & -> & ->)|[(-> & -> & ->)|(-> & -> & -> & Hne)]]]].
  - simpl in Ha. apply array_cons in Ha as [H0 Ha1]. rewrite (bind_eq _ _ _ _ _ (load_char_eq _ _ _ H0)).
    rewrite i8_char by lia. replace (b =? 0) with false by lia. cbn [orb andb]. cbv iota.
    destruct ((b =? 16) && (digit d =? chr "0")) eqn:E; [|rewrite bind_ret; simpl; by rewrite Z.add_0_r].
    apply andb_prop in E as [E16 E0]. destruct (Hd0 (Hz ltac:(lia))) as [-> ->].
    apply array_cons in Ha1 as [H1 _].
    erewrite bind_eq; [|by rewrite (bind_eq _ _ _ _ _ (load_char_eq _ _ _ H1))].
    specialize (Hx ltac:(lia) eq_refl). replace (i8 c =? chr "x") with false by lia.
    simpl. by rewrite Z.add_0_r.
  - cbn [bytes app] in Ha. apply array_cons in Ha as [H0 Ha]. apply array_cons in Ha as [H1 _].
    rewrite (bind_eq _ _ _ _ _ (load_char_eq _ _ _ H0)). prefix_test.
    erewrite bind_eq; [|by rewrite (bind_eq _ _ _ _ _ (load_char_eq _ _ _ H1))]. done.
  - cbn [bytes app] in Ha. apply array_cons in Ha as [H0 Ha]. apply array_cons in Ha as [H1 _].
    rewrite (bind_eq _ _ _ _ _ (load_char_eq _ _ _ H0)). prefix_test.
    erewrite bind_eq; [|by rewrite (bind_eq _ _ _ _ _ (load_char_eq _ _ _ H1))]. done.
  - cbn [bytes app] in Ha. apply array_cons in Ha as [H0 Ha]. apply array_cons in Ha as [H1 _].
    rewrite (bind_eq _ _ _ _ _ (load_char_eq _ _ _ H0)). prefix_test.
    erewrite bind_eq; [|by rewrite (bind_eq _ _ _ _ _ (load_char_eq _ _ _ H1))].
    assert (Hnx : digit d <> chr "x").
    { intros E. destruct (strtol_digit_digit d Hd) as (Hx & _ & _). rewrite E in Hx.
      change (strtol_digit (i8 (chr "x"))) with (Some 33) in Hx. injection Hx. lia. }
    rewrite i8_char by lia. replace (digit d =? chr "x") with false by lia. done.
  - simpl in Ha. apply array_cons in Ha as [H0 _]. rewrite (bind_eq _ _ _ _ _ (load_char_eq _ _ _ H0)).
    assert (digit d <> chr "0") by (intros E; by destruct (Hd0 (Hz E))).
    rewrite i8_char by lia. replace (digit d =? chr "0") with false by lia.
    rewrite !andb_false_r. cbv iota. rewrite bind_ret. simpl. by rewrite Z.add_0_r.
Qed.

(** C39: [strtol] reads back every number [printnum] writes: blanks, a sign, the
    prefix its base argument admits and a base-[b] numeral give the number, and
    [endptr] the address of the character after it. *)
Theorem strtol_numeral m s bl neg sgn base pre b n c l endptr :
  array m s (bl ++ sgn ++ pre ++ numeral b n ++ c :: l) ->
  Forall (fun x => blank x = true) bl -> sign_text neg sgn -> prefix_ok base pre b n c ->
  2 <= b <= 16 -> 0 <= n < 2 ^ 31 -> (forall d, strtol_digit (i8 c) = Some d -> b <= d) ->
  strtol s endptr base m =
  (when (negb (endptr =? 0)) (store32 endptr
     (s + Z.of_nat (length (bl ++ sgn ++ pre ++ numeral b n))));;
   mret (if neg then - n else n)) m.
Proof.
  intros Ha Hbl Hs Hp Hb Hn Hc. unfold strtol.
  destruct (numeral_head b n c l Hb Hn) as (d0 & l0 & Hnum & Hd0 & _).
  destruct (strtol_digit_digit d0 Hd0) as (Hdd & Hdr & Hdb).
  assert (Hh1 : exists x r, pre ++ numeral b n ++ c :: l = x :: r /\ 0 < x < 128 /\ blank x = false /\ x <> chr "+" /\ x <> chr "-").
  { assert (digit d0 <> chr "+" /\ digit d0 <> chr "-") by (split; intros E; by rewrite E in Hdd).
    rewrite Hnum. destruct Hp as [(-> & -> & Hx)|[(-> & -> & ->)|[(-> & -> & ->)|[(-> & -> & ->)|(-> & -> & -> & Hne)]]]];
      [exists (digit d0), l0; tauto| | | |exists (digit d0), l0; tauto]; by eexists (chr "0"), _. }
  destruct Hh1 as (x1 & r1 & E1 & Hx1 & Hb1 & Hp1 & Hm1).
  assert (Hh2 : exists x r, sgn ++ x1 :: r1 = x :: r /\ 0 <= x < 256 /\ blank x = false).
  { destruct Hs as [[-> _]|[[-> _]|[-> _]]]; [exists x1, r1; split_and!; done || lia | by eexists (chr "+"), _ | by eexists (chr "-"), _]. }
  destruct Hh2 as (x2 & r2 & E2 & Hx2 & Hb2).
  pose proof Ha as Ha0. rewrite E1, E2 in Ha0.
  rewrite (bind_eq _ _ _ _ _ (skip_blanks_correct _ _ _ _ _ Ha0 Hbl Hx2 Hb2)).
  apply array_app in Ha as [_ Ha]. pose proof Ha as Ha1. rewrite E1 in Ha1.
  rewrite (bind_eq _ _ _ _ _ (strtol_sign_correct _ _ _ _ _ _ Ha1 Hs Hx1 Hp1 Hm1)).
  apply array_app in Ha as [_ Ha].
  rewrite (bind_eq _ _ _ _ _ (strtol_prefix_correct _ _ _ _ _ _ _ _ Ha Hb Hn Hp)).
  apply array_app in Ha as [_ Ha]. unfold numeral in Ha.
  destruct (digits_spec 64 b n) as (Hv & Hr & _ & _); [lia|lia|lia|].
  rewrite (bind_eq _ _ _ _ _ (strtol_digits_correct _ _ _ _ _ _ Ha Hb Hr Hc ltac:(rewrite Hv; lia))).
  rewrite Hv. unfold numeral. rewrite !length_app, length_fmap.
  rewrite !Nat2Z.inj_add, <- !Z.add_assoc.
  unfold mbind, M_bind. destruct (when _ _ m) as [[] m1|? ?| |]; try done.
  destruct neg; [by rewrite int_op_ok by lia | done].
Qed.

Lemma strtol_numeral_witness :
  strtol 16 0 0 (mem_of 16 (bytes "  -0x1fz")) = Ret (- 31) (mem_of 16 (bytes "  -0x1fz")).
Proof.
  apply (strtol_numeral (mem_of 16 (bytes "  -0x1fz")) 16 (bytes "  ") true (bytes "-") 0 (bytes "0x") 16 31 (chr "z") [] 0).
  - exact (write_array ∅ 16 (bytes "  -0x1fz")).
  - by repeat constructor.
  - right. right. done.
  - right. right. by left.
  - lia.
  - lia.
  - change (strtol_digit (i8 (chr "z"))) with (Some 35). intros d [= <-]. lia.
Defined.
