(* ===== verification/Stdarg.v ===== *)
(** * Stdarg: inc/stdarg.h

    A [va_list] is an address on the caller's stack.  Printfmt.v takes the arguments of
    a call as a list of values; here they are bytes in memory, and the macros and
    the functions of lib/printfmt.c that use them read that list from it. *)

From S2P Require Import Prelude Layout Printfmt CString.
Open Scope Z_scope.

(** ** The macros *)

Definition sizeof_long : Z := 4.
Definition va_size (size : Z) : Z := (size + sizeof_long - 1) / sizeof_long * sizeof_long.
Definition va_start (last size : Z) : Z := u32 (last + va_size size).

(** [n] bytes of memory as a number. *)
Fixpoint load_le (n : nat) (a : Z) : M mem Z :=
  match n with
  | O => mret 0
  | S n' => c ← load8 (u32 a); r ← load_le n' (a + 1); mret (c + 256 * r)
  end.

(** The argument, and the pointer behind it. *)
Definition va_arg (ap : Z) (size : nat) : M mem (Z * Z) :=
  let ap := u32 (ap + va_size (Z.of_nat size)) in
  v ← load_le size (u32 (ap - va_size (Z.of_nat size)));
  mret (v, ap).
Definition va_end (ap : Z) : M mem () := mret tt.

(** The two functions of lib/printfmt.c, on an [ap] that they advance. *)
Definition getuint_at (ap lflag : Z) : M mem (Z * Z) :=
  if 2 <=? lflag then va_arg ap 8
  else if negb (lflag =? 0) then va_arg ap 4
  else va_arg ap 4.
Definition getint_at (ap lflag : Z) : M mem (Z * Z) :=
  if 2 <=? lflag then ('(v, ap) ← va_arg ap 8; mret ((v + 2 ^ 63) mod 2 ^ 64 - 2 ^ 63, ap))
  else if negb (lflag =? 0) then ('(v, ap) ← va_arg ap 4; mret (i32 v, ap))
  else ('(v, ap) ← va_arg ap 4; mret (i32 v, ap)).

(** ** A call *)

(** What a caller pushes for an argument, lowest byte first. *)
Fixpoint le_bytes (n : nat) (z : Z) : list Z :=
  match n with O => [] | S n' => z mod 256 :: le_bytes n' (z / 256) end.
Inductive carg : Type := CWord (z : Z) | CLongLong (z : Z) | CPtr (q : Z).
Definition carg_bytes (c : carg) : list Z :=
  match c with CWord z => le_bytes 4 z | CLongLong z => le_bytes 8 z | CPtr q => le_bytes 4 q end.
Definition frame (cs : list carg) : list Z := flat_map carg_bytes cs.

(** The value it is in Printfmt.v: a pointer is the string it points to. *)
Definition denotes (m : mem) (c : carg) (v : va) : Prop :=
  match c, v with
  | CWord z, Word z' => z' = z
  | CLongLong z, LongLong z' => z' = z
  | CPtr q, Str None => q = 0
  | CPtr q, Str (Some s) => 0 < q < 2 ^ 32 /\ cstr m q s
  | _, _ => False
  end.

Definition passed (m : mem) (ap : Z) (args : list va) : Prop :=
  exists cs, Forall2 (denotes m) cs args /\ array m ap (frame cs) /\ 0 <= ap /\ ap + Z.of_nat (length (frame cs)) < 2 ^ 32.

(** ** Properties *)

Lemma le_bytes_length n z : length (le_bytes n z) = n.
Proof. revert z. induction n as [|n IH]; intros z; [done|]. cbn. by rewrite IH. Qed.

Lemma load_le_run m n : forall a z, array m a (le_bytes n z) -> 0 <= a -> a + Z.of_nat n < 2 ^ 32 ->
  load_le n a m = Ret (z mod 256 ^ Z.of_nat n) m.
Proof.
  induction n as [|n IH]; intros a z Ha H0 H1; cbn [load_le le_bytes] in *; [by rewrite Z.mod_1_r|].
  apply array_cons in Ha as [Hc Hr]. rewrite u32_small by lia.
  rewrite (bind_eq _ _ _ (z mod 256) m) by (unfold load8, mbind, M_bind, gets, id; by rewrite Hc).
  rewrite (bind_eq _ _ _ _ _ (IH (a + 1) (z / 256) Hr ltac:(lia) ltac:(lia))). unfold mret, M_ret. f_equal.
  rewrite Nat2Z.inj_succ, Z.pow_succ_r by lia. rewrite Z.rem_mul_r by (try apply Z.pow_nonzero; lia). lia.
Qed.

(** One argument is read; the pointer moves over it. *)
Lemma va_arg_run m ap c cs z n : carg_bytes c = le_bytes n z -> n = 4%nat \/ n = 8%nat ->
  array m ap (frame (c :: cs)) -> 0 <= ap -> ap + Z.of_nat (length (frame (c :: cs))) < 2 ^ 32 ->
  va_arg ap n m = Ret (z mod 2 ^ (8 * Z.of_nat n), ap + Z.of_nat n) m /\ array m (ap + Z.of_nat n) (frame cs) /\
  ap + Z.of_nat n + Z.of_nat (length (frame cs)) < 2 ^ 32.
Proof.
  intros Ec Hn Ha H0 H1. cbn [frame flat_map] in *. fold (frame cs) in *. rewrite Ec in *. rewrite length_app, le_bytes_length in H1.
  apply array_app in Ha as [Ha Hr]. rewrite le_bytes_length in Hr. split; [|split; [done|lia]].
  assert (Es : va_size (Z.of_nat n) = Z.of_nat n) by (by destruct Hn as [-> | ->]).
  unfold va_arg. rewrite Es. rewrite (u32_small (ap + Z.of_nat n)) by lia. replace (ap + Z.of_nat n - Z.of_nat n) with ap by lia.
  rewrite (u32_small ap) by lia. rewrite (bind_eq _ _ _ _ _ (load_le_run m n ap z Ha H0 ltac:(lia))). unfold mret, M_ret.
  by destruct Hn as [-> | ->].
Qed.

(** The first argument is of the size that its value has. *)
Lemma passed_cons m ap v args : passed m ap (v :: args) ->
  exists c z n, denotes m c v /\ carg_bytes c = le_bytes n z /\ n = (match v with LongLong _ => 8 | _ => 4 end)%nat /\
    va_arg ap n m = Ret (z mod 2 ^ (8 * Z.of_nat n), ap + Z.of_nat n) m /\ passed m (ap + Z.of_nat n) args /\
    z = match c with CWord z | CLongLong z | CPtr z => z end.
Proof.
  intros (cs & Hd & Ha & H0 & H1). inversion Hd as [|c ? cs' ? Hc Hcs]; subst.
  assert (H : exists z n, carg_bytes c = le_bytes n z /\ n = (match v with LongLong _ => 8 | _ => 4 end)%nat /\
    z = match c with CWord z | CLongLong z | CPtr z => z end).
  { destruct c as [z|z|q], v as [z'|z'|[s|]]; cbn in Hc; try done; eexists _, _; split_and!; reflexivity. }
  destruct H as (z & n & Ec & En & Ez). exists c, z, n. assert (n = 4%nat \/ n = 8%nat) by (destruct v; auto).
  destruct (va_arg_run m ap c cs' z n) as (E & Hr & Hl); [done..|]. split_and!; try done. exists cs'. split_and!; try done. lia.
Qed.

(** What the caller's stack holds behind the last named parameter. *)
Lemma passed_start m p fmt cs args :
  array m p (le_bytes 4 fmt ++ frame cs) -> 0 <= p -> p + 4 + Z.of_nat (length (frame cs)) < 2 ^ 32 -> Forall2 (denotes m) cs args ->
  passed m (va_start p 4) args.
Proof.
  intros Ha H0 H1 Hd. apply array_app in Ha as [_ Ha]. rewrite le_bytes_length in Ha. unfold va_start. change (va_size 4) with 4.
  rewrite u32_small by lia. exists cs. split_and!; try done; lia.
Qed.

(** C28: A [va_list] is the list of the arguments that the caller pushed: when [va_start] has
    been applied to the format of a call, each function of lib/printfmt.c that takes an
    argument gets from memory what Printfmt.v takes from the list, and leaves the
    pointer at the rest of the list. *)
Theorem va_list_correct m p fmt cs args lflag :
  array m p (le_bytes 4 fmt ++ frame cs) -> 0 <= p -> p + 4 + Z.of_nat (length (frame cs)) < 2 ^ 32 -> Forall2 (denotes m) cs args ->
  let reads {A B} (in_list : M () (A * list va)) (in_memory : Z -> M mem (B * Z)) (same : A -> B -> Prop) ap args :=
    forall a args', in_list tt = Ret (a, args') tt -> exists b ap', in_memory ap m = Ret (b, ap') m /\ same a b /\ passed m ap' args' in
  passed m (va_start p 4) args /\
  forall ap args, passed m ap args ->
    reads (getuint args lflag) (fun ap => getuint_at ap lflag) eq ap args /\
    reads (getint args lflag) (fun ap => getint_at ap lflag) eq ap args /\
    reads (va_word args) (fun ap => va_arg ap 4) (fun z w => w = u32 z) ap args /\
    reads (va_str args) (fun ap => va_arg ap 4)
      (fun s q => match s with None => q = 0 | Some s => q <> 0 /\ cstr m q s end) ap args.
Proof.
  intros Ha H0 H1 Hd reads. split; [by eapply passed_start|]. clear p fmt cs args Ha H0 H1 Hd. intros ap args Hp.
  assert (Hword : forall z args', args = Word z :: args' -> va_arg ap 4 m = Ret (u32 z, ap + 4) m /\ passed m (ap + 4) args').
  { intros z args' ->. apply passed_cons in Hp as (c & z' & n & Hc & _ & -> & E & Hr & ->). destruct c; try done. by cbn in Hc; subst z0. }
  assert (Hlong : forall z args', args = LongLong z :: args' -> va_arg ap 8 m = Ret (u64 z, ap + 8) m /\ passed m (ap + 8) args').
  { intros z args' ->. apply passed_cons in Hp as (c & z' & n & Hc & _ & -> & E & Hr & ->). destruct c; try done. by cbn in Hc; subst z0. }
  split_and!; intros a args'; unfold getuint, getint, getuint_at, getint_at.
  - destruct (2 <=? lflag), args as [|[z|z|s] args1]; try done; cbn; intros [= <- <-].
    + destruct (Hlong z args1 eq_refl) as [E Hr]. eauto.
    + destruct (Hword z args1 eq_refl) as [E Hr]. destruct (negb (lflag =? 0)); eauto.
  - destruct (2 <=? lflag), args as [|[z|z|s] args1]; try done; cbn; intros [= <- <-].
    + destruct (Hlong z args1 eq_refl) as [E Hr]. erewrite bind_eq by exact E. eexists _, _. split_and!; [reflexivity| |done]. unfold u64.
      by rewrite Z.add_mod_idemp_l by lia.
    + destruct (Hword z args1 eq_refl) as [E Hr]. assert (Hi : i32 (u32 z) = i32 z) by (unfold i32, u32; divmod).
      destruct (negb (lflag =? 0)); (erewrite bind_eq by exact E); eexists _, _; split_and!; [reflexivity|done|done|reflexivity|done|done].
  - destruct args as [|[z|z|s] args1]; try done. cbn. intros [= <- <-]. destruct (Hword z args1 eq_refl) as [E Hr]. eauto.
  - destruct args as [|[z|z|s] args1]; try done. cbn. intros [= <- <-].
    apply passed_cons in Hp as (c & z' & n & Hc & _ & -> & E & Hr & ->). destruct c as [|z'|q]; try (by destruct s). cbn in Hc.
    exists (q mod 2 ^ 32), (ap + 4). split; [exact E|]. split; [|done]. destruct s as [s|]; [|by subst q].
    destruct Hc as [Hq Hc]. rewrite Z.mod_small by lia. split; [lia|done].
Qed.

(** cprintf("%s %lld", "hi", -1) *)
Definition call_ex : mem :=
  write (mem_of 0x500 (bytes "hi" ++ [0])) 0x1000 (le_bytes 4 0x400 ++ frame [CPtr 0x500; CLongLong (-1)]).

Lemma va_list_correct_witness : va_arg 0x1004 4 call_ex = Ret (0x500, 0x1008) call_ex /\ cstr call_ex 0x500 (bytes "hi") /\
  getint_at 0x1008 2 call_ex = Ret (-1, 0x1010) call_ex.
Proof.
  destruct (va_list_correct call_ex 0x1000 0x400 [CPtr 0x500; CLongLong (-1)] [Str (Some (bytes "hi")); LongLong (-1)] 2) as [Hs H].
  - apply write_array.
  - lia.
  - cbn. lia.
  - constructor; [|constructor; [done|constructor]]. split; [lia|]. split; [|by repeat constructor].
    intros i c Hi. unfold call_ex. rewrite write_out; [by apply write_array|]. apply lookup_lt_Some in Hi. cbn in *. lia.
  - change (va_start 0x1000 4) with 0x1004 in Hs. destruct (H _ _ Hs) as (_ & _ & _ & H1).
    destruct (H1 (Some (bytes "hi")) [LongLong (-1)] eq_refl) as (b & ap & E & [Hb Hc] & Hp). 
    assert (E' : va_arg 0x1004 4 call_ex = Ret (0x500, 0x1008) call_ex) by (vm_compute; reflexivity).
    rewrite E' in E. injection E as <- <-. split; [exact E'|]. split; [exact Hc|].
    destruct (H _ _ Hp) as (_ & H2 & _). destruct (H2 (-1) [] eq_refl) as (b & ap & E & <- & _).
    assert (E2 : match getint_at 0x1008 2 call_ex with Ret (_, a) _ => a = 0x1010 | _ => False end) by (vm_compute; reflexivity).
    rewrite E in E2 |- *. by subst ap.
Defined.
