(* ===== verification/Printf.v ===== *)
(** * Printf: the callers of the formatter

    [vsnprintf]/[snprintf] of lib/printfmt.c, which write into a buffer in
    memory, and [vcprintf]/[cprintf] of kern/printf.c, which write to the console
    through [cputchar].  A local variable whose address is passed to [vprintfmt]
    is a component of the callback's state. *)

From S2P Require Import Prelude Layout Printfmt FormatSpec CString.
Open Scope Z_scope.

(** Run [m] with a fresh local variable, and return its final value. *)
Definition with_local {S L A} (l : L) (m : M (S * L) A) : M S (A * L) := fun s =>
  match m (s, l) with
  | Ret a (s', l') => Ret (a, l') s'
  | Panic w (s', _) => Panic w s'
  | Fault => Fault
  | Spin => Spin
  end.

(** ** lib/printfmt.c *)

Record sprintbuf : Type := Sprintbuf { b_buf : Z; b_ebuf : Z; b_cnt : Z }.

Definition on_mem {A} (m : M mem A) : M (mem * sprintbuf) A := zoom fst (fun t s => (t, s.2)) m.

Definition sprintputch (ch : Z) : M (mem * sprintbuf) () :=
  b ← gets snd;
  cnt ← int_op (b_cnt b + 1);
  modify (fun s => (s.1, Sprintbuf (b_buf b) (b_ebuf b) cnt));;
  when (b_buf b <? b_ebuf b)
    (on_mem (store8 (b_buf b) ch);;
     modify (fun s => (s.1, Sprintbuf (b_buf b + 1) (b_ebuf b) cnt))).

Definition vsnprintf (buf n : Z) (fmt : list Z) (ap : list va) : M mem Z :=
  let b := Sprintbuf buf (buf + n - 1) 0 in
  if (buf =? 0) || (n <? 1) then mret (- E_INVAL)
  else
    '(_, b) ← with_local b (vprintfmt sprintputch fmt ap);
    store8 (b_buf b) 0;;
    mret (b_cnt b).

Definition snprintf (buf n : Z) (fmt : list Z) (args : list va) : M mem Z := vsnprintf buf n fmt args.

(** ** kern/printf.c *)

Section vcprintf.
Context {P : Type} (cputchar : Z -> M P ()).

(** [*cnt++] reads [*cnt] and increments the pointer, a local of [putch]. *)
Definition putch (ch : Z) : M (P * Z) () :=
  zoom fst (fun t s => (t, s.2)) (cputchar ch);;
  _ ← gets snd;
  mret tt.

Definition vcprintf (fmt : list Z) (ap : list va) : M P Z :=
  '(_, cnt) ← with_local 0 (vprintfmt putch fmt ap); mret cnt.

Definition cprintf (fmt : list Z) (args : list va) : M P Z := vcprintf fmt args.
End vcprintf.

Example snprintf_ex : snprintf 16 4 (bytes "%d!") [Word 1234] (mem_of 16 [7; 7; 7; 7; 7]) =
  Ret 5 (mem_of 16 (bytes "123" ++ [0; 7])).
Proof. vm_compute. reflexivity. Qed.

(** ** Properties *)

(** The state of [vsnprintf] after the characters [done]. *)
Lemma sprintputch_run m buf n l0 out :
  0 < n -> mapped m buf n -> Z.of_nat (length l0 + length out) < 2 ^ 31 ->
  let st l := (write m buf (take (Z.to_nat (n - 1)) (u8 <$> l)),
               Sprintbuf (buf + Z.min (n - 1) (Z.of_nat (length l))) (buf + n - 1) (Z.of_nat (length l))) in
  for_each sprintputch out (st l0) = Ret tt (st (l0 ++ out)).
Proof.
  intros Hn Hm Hl st. revert l0 Hl. induction out as [|c out IH]; intros l0 Hl; simpl for_each.
  { by rewrite app_nil_r. }
  cbn [length] in Hl. replace (l0 ++ c :: out) with ((l0 ++ [c]) ++ out) by (by rewrite <- app_assoc).
  rewrite <- IH by (rewrite length_app; simpl; lia).
  rewrite (bind_eq _ _ _ tt (st (l0 ++ [c]))); [done|]. unfold sprintputch, gets. rewrite bind_eq with (a := (st l0).2) (s' := st l0) by done.
  unfold st. cbn [fst snd b_cnt b_buf b_ebuf]. rewrite int_op_ok, bind_ret by lia.
  erewrite bind_eq by reflexivity. cbn [fst].
  rewrite !length_app, fmap_app. cbn [length fmap list_fmap].
  set (k := Z.to_nat (n - 1)). assert (Hlt : length (take k (u8 <$> l0)) = Nat.min k (length l0))
    by (by rewrite length_take, length_fmap).
  destruct (Z.ltb_spec (buf + Z.min (n - 1) (Z.of_nat (length l0))) (buf + n - 1)).
  - unfold when. erewrite bind_eq.
    2: { unfold on_mem, zoom. cbn [fst].
         rewrite (proj1 (wp_eq (store8 _ c) tt _ (<[buf + Z.of_nat (length l0) := u8 c]> (write m buf (take k (u8 <$> l0)))))).
         - reflexivity.
         - replace (Z.min _ _) with (Z.of_nat (length l0)) by lia.
           apply wp_store8; [rewrite write_out by lia; apply Hm; lia | done]. }
    unfold modify. cbn [fst snd]. rewrite (take_app_ge (u8 <$> l0)) by (rewrite length_fmap; lia).
    rewrite (take_ge (u8 <$> l0)) by (rewrite length_fmap; lia).
    rewrite length_fmap, (take_ge [u8 c]) by (simpl; lia).
    rewrite write_snoc, length_fmap. do 3 f_equal; lia.
  - unfold when, mret, M_ret. rewrite (take_app_le (u8 <$> l0)) by (rewrite length_fmap; lia).
    do 3 f_equal; lia.
Qed.

(** C29: [vsnprintf] writes the first [n - 1] characters of the formatted text and a
    NUL into [buf], never outside its [n] bytes, and returns the length of the
    whole text; without a buffer it fails with -E_INVAL and writes nothing. *)
Theorem vsnprintf_correct m buf n ps args out rest :
  Forall piece_ok ps -> Forall va_ok args -> render ps args = Some (out, rest) ->
  Z.of_nat (length out) < 2 ^ 31 -> (buf <> 0 -> 0 < n -> mapped m buf n) ->
  vsnprintf buf n (unparse ps) args m =
  if (buf =? 0) || (n <? 1) then Ret (- E_INVAL) m
  else Ret (Z.of_nat (length out)) (write m buf (take (Z.to_nat (n - 1)) (u8 <$> out) ++ [0])).
Proof.
  intros Hps Hva Hr Hl Hm. unfold vsnprintf. destruct ((buf =? 0) || (n <? 1)) eqn:E; [done|].
  specialize (Hm ltac:(lia) ltac:(lia)).
  pose proof (sprintputch_run m buf n [] out ltac:(lia) Hm ltac:(simpl; lia)) as Hrun. cbv zeta beta in Hrun.
  erewrite bind_eq.
  2: { unfold with_local. rewrite (vprintfmt_format sprintputch ps args out rest) by done.
       change (u8 <$> []) with (@nil Z) in Hrun. rewrite take_nil in Hrun. cbn [write length app] in Hrun.
       change (Z.of_nat 0) with 0 in Hrun.
       replace (buf + Z.min (n - 1) 0) with buf in Hrun by lia. rewrite Hrun. reflexivity. }
  cbn [b_buf b_cnt]. set (k := Z.to_nat (n - 1)).
  assert (Hlt : length (take k (u8 <$> out)) = Nat.min k (length out)) by (by rewrite length_take, length_fmap).
  rewrite (bind_eq _ _ _ tt (write m buf (take k (u8 <$> out) ++ [0]))).
  - done.
  - apply wp_eq. apply wp_store8; [rewrite write_out by lia; apply Hm; lia|].
    split; [done|]. rewrite write_snoc. f_equal. lia.
Qed.

Lemma vsnprintf_correct_witness :
  vsnprintf 16 4 (unparse [Text (bytes "hello")]) [] (mem_of 16 [7; 7; 7; 7; 7]) =
  Ret 5 (mem_of 16 (bytes "hel" ++ [0; 7])).
Proof.
  rewrite (vsnprintf_correct _ _ _ _ _ (bytes "hello") []); [vm_compute; reflexivity | | constructor | reflexivity | simpl; lia |].
  - constructor; [|constructor]. split; [repeat constructor|].
    apply (bool_decide_eq_true (chr "%" ∉ bytes "hello")). vm_compute. reflexivity.
  - intros _ _ a Ha. apply (array_mapped _ 16 [7; 7; 7; 7; 7]); [exact (write_array ∅ 16 [7; 7; 7; 7; 7]) | simpl; lia].
Defined.

(** What [cprintf] does, for any console. *)
Lemma cprintf_run {P} (cputchar : Z -> M P ()) ps args out rest s :
  Forall piece_ok ps -> Forall va_ok args -> render ps args = Some (out, rest) ->
  cprintf cputchar (unparse ps) args s = (for_each cputchar out;; mret 0) s.
Proof.
  intros Hps Hva Hr. unfold cprintf, vcprintf.
  assert (Hrun : forall s, with_local 0 (for_each (putch cputchar) out) s =
    (for_each cputchar out;; mret (tt, 0)) s).
  { clear. assert (Hp : forall c s n, putch cputchar c (s, n) =
      match cputchar c s with Ret _ t => Ret tt (t, n) | Panic w t => Panic w (t, n) | Fault => Fault | Spin => Spin end).
    { intros c s n. unfold putch, zoom, mbind, M_bind. cbn [fst]. by destruct (cputchar c s). }
    induction out as [|c out IH]; intros s; [reflexivity|]. cbn [for_each].
    unfold with_local, mbind, M_bind in *. rewrite Hp.
    destruct (cputchar c s) as [[] s1|? ?| |]; [|done..]. apply IH. }
  unfold with_local in *. unfold mbind at 1, M_bind at 1. rewrite (vprintfmt_format (putch cputchar) ps args out rest (s, 0)) by done.
  specialize (Hrun s). unfold mbind, M_bind, mret, M_ret in *.
  destruct (for_each (putch cputchar) out (s, 0)) as [[] [s1 n1]|? [? ?]| |];
    destruct (for_each cputchar out s) as [[] s2|? ?| |]; by simplify_eq/=.
Qed.

(** The same for a format whose pieces are found by computation. *)
Lemma cprintf_emit ps fmt args out rest t :
  unparse ps = fmt -> forallb piece_okb ps = true -> forallb va_okb args = true ->
  render ps args = Some (out, rest) -> cprintf emit fmt args t = Ret 0 (t ++ out).
Proof.
  intros <- Hp Ha Hr. rewrite (cprintf_run emit ps args out rest t) by (done || by apply pieces_okb_sound || by apply va_okb_sound).
  assert (Hf : forall l t, for_each emit l t = Ret tt (t ++ l)).
  { induction l as [|c l IH]; intros u; cbn [for_each]; [by rewrite app_nil_r|].
    rewrite (bind_eq _ _ _ tt (u ++ [c])) by done. by rewrite IH, <- app_assoc. }
  by rewrite (bind_eq _ _ _ _ _ (Hf out t)).
Qed.

(** [cprintf] sends the formatted text to the console, character by character,
    and then returns 0: the count its comment promises is never updated. *)
Theorem cprintf_correct {P} (cputchar : Z -> M P ()) ps args out rest s :
  Forall piece_ok ps -> Forall va_ok args -> render ps args = Some (out, rest) ->
  cprintf cputchar (unparse ps) args s = (for_each cputchar out;; mret 0) s.
Proof. apply cprintf_run. Qed.

Lemma cprintf_correct_witness :
  cprintf emit (bytes "hello") [] [] = Ret 0 (bytes "hello").
Proof.
  apply (cprintf_correct emit [Text (bytes "hello")] [] (bytes "hello") [] []).
  - constructor; [|constructor]. split; [repeat constructor|].
    apply (bool_decide_eq_true (chr "%" ∉ bytes "hello")). vm_compute. reflexivity.
  - constructor.
  - reflexivity.
Defined.
