(* ===== verification/Ports.v ===== *)
(** * Ports: port I/O (inc/x86.h) and the CMOS clock (kern/kclock.c)

    A device is known by what the processor exchanges with it: [io_in] is the
    sequence of values the ports will deliver, [io_log] what has been read and
    written, latest last.  Reading when the sequence is exhausted is reported as
    still running.  [HasIO] is the interface through which every component
    reaches the ports, whatever its own state is. *)

From S2P Require Import Prelude.
Open Scope Z_scope.

Inductive port_event : Type :=
  | In (w : Z) (port v : Z)
  | Out (w : Z) (port v : Z).

Record io : Type := Io { io_in : list Z; io_log : list port_event }.

Class HasIO (S : Type) : Type := {
  io_of : S -> io;
  with_io : io -> S -> S;
  io_of_with : forall i s, io_of (with_io i s) = i;
  with_io_of : forall s, with_io (io_of s) s = s;
  with_io_with : forall i j s, with_io i (with_io j s) = with_io i s;
}.

#[export, refine] Instance io_has_io : HasIO io := {| io_of := id; with_io := fun i _ => i |}.
Proof. all: done. Defined.

Section ports.
Context {S : Type} `{HasIO S}.

Definition log_event (e : port_event) : M S () :=
  modify (fun s => with_io (Io (io_in (io_of s)) (io_log (io_of s) ++ [e])) s).

(** A [w]-bit read from and write to a port. *)
Definition port_in (w port : Z) : M S Z :=
  script ← gets (fun s => io_in (io_of s));
  match script with
  | [] => spin
  | v :: rest =>
      let data := v mod 2 ^ w in
      modify (fun s => with_io (Io rest (io_log (io_of s))) s);;
      log_event (In w (u16 port) data);;
      mret data
  end.
Definition port_out (w port data : Z) : M S () := log_event (Out w (u16 port) (data mod 2 ^ w)).

Definition inb (port : Z) : M S Z := port_in 8 port.
Definition inw (port : Z) : M S Z := port_in 16 port.
Definition inl (port : Z) : M S Z := port_in 32 port.
Definition outb (port data : Z) : M S () := port_out 8 port data.
Definition outw (port data : Z) : M S () := port_out 16 port data.
Definition outl (port data : Z) : M S () := port_out 32 port data.

(** [cnt] units, one after the other, as the string instructions do. *)
Fixpoint ins (w port : Z) (cnt : nat) : M S (list Z) :=
  match cnt with
  | O => mret []
  | Datatypes.S cnt' => x ← port_in w port; l ← ins w port cnt'; mret (x :: l)
  end.
Definition insb (port : Z) (cnt : nat) : M S (list Z) := ins 8 port cnt.
Definition insw (port : Z) (cnt : nat) : M S (list Z) := ins 16 port cnt.
Definition insl (port : Z) (cnt : nat) : M S (list Z) := ins 32 port cnt.
Definition outsb (port : Z) (data : list Z) : M S () := for_each (port_out 8 port) data.
Definition outsw (port : Z) (data : list Z) : M S () := for_each (port_out 16 port) data.
Definition outsl (port : Z) (data : list Z) : M S () := for_each (port_out 32 port) data.

(** The effect of reading [v] and of writing [data], on the state. *)
Definition after_in (w port v : Z) (s : S) : S :=
  with_io (Io (tail (io_in (io_of s))) (io_log (io_of s) ++ [In w (u16 port) (v mod 2 ^ w)])) s.
Definition after_out (w port data : Z) (s : S) : S :=
  with_io (Io (io_in (io_of s)) (io_log (io_of s) ++ [Out w (u16 port) (data mod 2 ^ w)])) s.

Lemma port_in_eq w port v rest s :
  io_in (io_of s) = v :: rest -> port_in w port s = Ret (v mod 2 ^ w) (after_in w port v s).
Proof.
  intros E. unfold port_in, gets. erewrite bind_eq by reflexivity. rewrite E.
  unfold modify. erewrite bind_eq by reflexivity. unfold log_event, modify.
  erewrite bind_eq by reflexivity. unfold mret, M_ret, after_in.
  by rewrite io_of_with, with_io_with, E.
Qed.

Lemma port_out_eq w port data s : port_out w port data s = Ret tt (after_out w port data s).
Proof. reflexivity. Qed.

Lemma wp_outb port data (Q : () -> S -> Prop) s : Q tt (after_out 8 port data s) -> wp (outb port data) Q s.
Proof. done. Qed.

Lemma wp_inb port v rest (Q : Z -> S -> Prop) s :
  io_in (io_of s) = v :: rest -> Q (u8 v) (after_in 8 port v s) -> wp (inb port) Q s.
Proof. intros E HQ. by apply (wp_run _ _ _ _ _ (port_in_eq 8 port v rest s E)). Qed.
End ports.

(** ** kern/kclock.h, kern/kclock.c *)

Definition IO_RTC : Z := 0x070.
Definition MC_NVRAM_START : Z := 0xe.
Definition NVRAM_BASELO : Z := MC_NVRAM_START + 7.
Definition NVRAM_BASEHI : Z := MC_NVRAM_START + 8.
Definition NVRAM_EXTLO : Z := MC_NVRAM_START + 9.
Definition NVRAM_EXTHI : Z := MC_NVRAM_START + 10.
Definition NVRAM_PEXTLO : Z := MC_NVRAM_START + 34.
Definition NVRAM_PEXTHI : Z := MC_NVRAM_START + 35.
Definition NVRAM_CENTURY : Z := MC_NVRAM_START + 36.

Section kclock.
Context {S : Type} `{HasIO S}.

Definition mc146818_read (reg : Z) : M S Z := outb IO_RTC reg;; inb (IO_RTC + 1).
Definition mc146818_write (reg datum : Z) : M S () := outb IO_RTC reg;; outb (IO_RTC + 1) datum.

Lemma mc146818_read_eq reg v rest s :
  io_in (io_of s) = v :: rest ->
  mc146818_read reg s = Ret (u8 v) (with_io (Io rest (io_log (io_of s) ++ [Out 8 IO_RTC (u8 reg); In 8 (IO_RTC + 1) (u8 v)])) s).
Proof.
  intros E. unfold mc146818_read, outb, inb. erewrite bind_eq by apply port_out_eq.
  erewrite port_in_eq by (unfold after_out; by rewrite io_of_with).
  unfold after_in, after_out. by rewrite !io_of_with, with_io_with, E; cbn [io_in io_log tail]; rewrite <- app_assoc.
Qed.
End kclock.
