(* ===== verification/Queue.v ===== *)
(** * Queue: the doubly linked lists of inc/queue.h

    The macros work on any structure with a link field.  [Queue S] is the
    interface they need: a state with one list head and numbered elements, each
    with a [le_next] and a [le_prev]; a [le_prev] points at the pointer that points
    at the element, which is the head or another element's [le_next].  The
    theorems are proved against the interface: on a well-formed list each macro
    does what its name says to the sequence of elements. *)

From S2P Require Import Prelude.
Open Scope Z_scope.

(** The place a [struct type **] points to. *)
Inductive ploc : Type := PHead | PNext (i : nat).
#[export] Instance ploc_eq_dec : EqDecision ploc.
Proof. solve_decision. Defined.

(** [LIST_ENTRY(type)] *)
Record entry : Type := Entry { le_next : option nat; le_prev : option ploc }.

Class Queue (S : Type) : Type := {
  q_first : S -> option nat;                  (* (head)->lh_first *)
  q_set_first : option nat -> S -> S;
  q_entry : S -> nat -> option entry;         (* (elm)->field, if elm points to an element *)
  q_set_entry : nat -> entry -> S -> S;
  q_first_set : forall o s, q_first (q_set_first o s) = o;
  q_first_entry : forall i e s, q_first (q_set_entry i e s) = q_first s;
  q_entry_first : forall o s i, q_entry (q_set_first o s) i = q_entry s i;
  q_entry_set : forall i e s, is_Some (q_entry s i) -> q_entry (q_set_entry i e s) i = Some e;
  q_entry_ne : forall i j e s, i <> j -> q_entry (q_set_entry i e s) j = q_entry s j;
}.

Section macros.
Context {S : Type} `{Queue S}.

Definition LIST_EMPTY : M S bool := f ← gets q_first; mret (bool_decide (f = None)).
Definition LIST_FIRST : M S (option nat) := gets q_first.
Definition get_entry (i : nat) : M S entry := s ← gets id; deref (q_entry s i).
Definition LIST_NEXT (elm : nat) : M S (option nat) := e ← get_entry elm; mret (le_next e).
Definition get_prev (elm : nat) : M S (option ploc) := e ← get_entry elm; mret (le_prev e).

Definition set_next (elm : nat) (v : option nat) : M S () :=
  e ← get_entry elm; modify (q_set_entry elm (Entry v (le_prev e))).
Definition set_prev (elm : nat) (v : option ploc) : M S () :=
  e ← get_entry elm; modify (q_set_entry elm (Entry (le_next e) v)).
(** [*p = v;] for a [p] of type [struct type **]; NULL faults. *)
Definition set_at (p : option ploc) (v : option nat) : M S () :=
  match p with
  | None => fault
  | Some PHead => modify (q_set_first v)
  | Some (PNext i) => set_next i v
  end.

Definition LIST_HEAD_INITIALIZER : option nat := None.
Definition LIST_INIT : M S () := modify (q_set_first None).

Definition LIST_INSERT_AFTER (listelm elm : nat) : M S () :=
  n ← LIST_NEXT listelm;
  set_next elm n;;
  match n with
  | Some j => set_prev j (Some (PNext elm))
  | None => mret tt
  end;;
  set_next listelm (Some elm);;
  set_prev elm (Some (PNext listelm)).

Definition LIST_INSERT_BEFORE (listelm elm : nat) : M S () :=
  p ← get_prev listelm;
  set_prev elm p;;
  set_next elm (Some listelm);;
  p' ← get_prev listelm;
  set_at p' (Some elm);;
  set_prev listelm (Some (PNext elm)).

Definition LIST_INSERT_HEAD (elm : nat) : M S () :=
  n ← LIST_FIRST;
  set_next elm n;;
  match n with
  | Some j => set_prev j (Some (PNext elm))
  | None => mret tt
  end;;
  modify (q_set_first (Some elm));;
  set_prev elm (Some PHead).

Definition LIST_REMOVE (elm : nat) : M S () :=
  n ← LIST_NEXT elm;
  match n with
  | Some j => p ← get_prev elm; set_prev j p
  | None => mret tt
  end;;
  p ← get_prev elm;
  n' ← LIST_NEXT elm;
  set_at p n'.

(** [LIST_FOREACH(var, head, field) body]; [fuel] bounds the number of elements. *)
Definition LIST_FOREACH (fuel : nat) (body : nat -> M S ()) : M S () :=
  f ← LIST_FIRST;
  while fuel (fun var => mret (bool_decide (var <> None)))
    (fun var => i ← deref var; body i;; LIST_NEXT i) f;;
  mret tt.

(** ** Well-formed lists *)

(** From the place [p], holding [head l], the elements [l] follow. *)
Fixpoint chain (s : S) (p : ploc) (l : list nat) : Prop :=
  match l with
  | [] => True
  | i :: l' => q_entry s i = Some (Entry (head l') (Some p)) /\ chain s (PNext i) l'
  end.

Definition is_list (s : S) (l : list nat) : Prop :=
  q_first s = head l /\ chain s PHead l /\ NoDup l.

(** The elements of [l1], followed by the pointer value [v]; [place l1] is
    where that pointer is. *)
Fixpoint seg (s : S) (p : ploc) (l : list nat) (v : option nat) : Prop :=
  match l with
  | [] => True
  | i :: l' =>
      q_entry s i = Some (Entry (match l' with [] => v | j :: _ => Some j end) (Some p)) /\
      seg s (PNext i) l' v
  end.
Definition place_from (p : ploc) (l : list nat) : ploc := from_option PNext p (last l).
Definition place (l : list nat) : ploc := place_from PHead l.
Definition before (s : S) (l : list nat) (v : option nat) : Prop :=
  q_first s = match l with [] => v | j :: _ => Some j end /\ seg s PHead l v.

(** The state [s'] is [s] except for the links of elements in [l]. *)
Definition links_frame (s s' : S) (l : list nat) : Prop :=
  forall j, j ∉ l -> q_entry s' j = q_entry s j.

Lemma place_from_cons p i l : place_from p (i :: l) = place_from (PNext i) l.
Proof using Type. unfold place_from. rewrite last_cons. by destruct (last l). Qed.

Lemma chain_app s p l1 l2 : chain s p (l1 ++ l2) <-> seg s p l1 (head l2) /\ chain s (place_from p l1) l2.
Proof using Type.
  revert p. induction l1 as [|i l1 IH]; intros p; simpl; [tauto|].
  rewrite IH, place_from_cons. destruct l1; simpl; tauto.
Qed.

Lemma is_list_app s l1 l2 :
  is_list s (l1 ++ l2) <-> before s l1 (head l2) /\ chain s (place l1) l2 /\ NoDup (l1 ++ l2).
Proof using Type.
  unfold is_list, before, place. rewrite chain_app. destruct l1; simpl; tauto.
Qed.

Lemma chain_ext s s' p l : (forall j, j ∈ l -> q_entry s' j = q_entry s j) -> chain s p l -> chain s' p l.
Proof using Type.
  revert p. induction l as [|i l IH]; intros p He; simpl; [done|].
  intros [Hi Hc]. split; [rewrite He; [done | set_solver]|]. apply IH; [set_solver | done].
Qed.

Lemma is_list_ext s s' l :
  q_first s' = q_first s -> (forall j, q_entry s' j = q_entry s j) -> is_list s l -> is_list s' l.
Proof using Type.
  intros Hf He (H1 & H2 & H3). split_and!; [by rewrite Hf| |done]. eapply chain_ext; [|exact H2]. done.
Qed.

Lemma seg_ext s s' p l v : (forall j, j ∈ l -> q_entry s' j = q_entry s j) -> seg s p l v -> seg s' p l v.
Proof using Type.
  revert p. induction l as [|i l IH]; intros p He; simpl; [done|].
  intros [Hi Hc]. split; [rewrite He; [done | set_solver]|]. apply IH; [set_solver | done].
Qed.

Lemma before_entry s l v i e : i ∉ l -> before s l v -> before (q_set_entry i e s) l v.
Proof using Type.
  intros Hi [Hf Hs]. split; [by rewrite q_first_entry|]. eapply seg_ext; [|exact Hs].
  intros j Hj. apply q_entry_ne. set_solver.
Qed.

Lemma seg_last s p l i v :
  seg s p (l ++ [i]) v -> q_entry s i = Some (Entry v (Some (place_from p l))).
Proof using Type.
  revert p. induction l as [|j l IH]; intros p; cbn [app seg]; [tauto|].
  intros [_ Hs]. rewrite place_from_cons. by apply IH.
Qed.

Lemma seg_set_last s p l i v w :
  NoDup (l ++ [i]) -> seg s p (l ++ [i]) v ->
  seg (q_set_entry i (Entry w (Some (place_from p l))) s) p (l ++ [i]) w.
Proof using Type.
  revert p. induction l as [|j l IH]; intros p Hnd; cbn [app seg].
  - intros [Hi _]. split; [|done]. rewrite q_entry_set by (by eexists). done.
  - intros [Hj Hs]. apply NoDup_cons in Hnd as [Hjn Hnd].
    split; [|rewrite place_from_cons; by apply IH].
    rewrite q_entry_ne by set_solver. rewrite Hj. destruct l; done.
Qed.

Lemma wp_get_entry i e (Q : entry -> S -> Prop) s : q_entry s i = Some e -> Q e s -> wp (get_entry i) Q s.
Proof using Type. intros Hi HQ. unfold get_entry. wp_go. by eapply wp_deref. Qed.

Lemma wp_LIST_NEXT i e (Q : option nat -> S -> Prop) s :
  q_entry s i = Some e -> Q (le_next e) s -> wp (LIST_NEXT i) Q s.
Proof using Type. intros Hi HQ. unfold LIST_NEXT. wp_go. eapply wp_get_entry; [exact Hi|]. by wp_go. Qed.

Lemma wp_get_prev i e (Q : option ploc -> S -> Prop) s :
  q_entry s i = Some e -> Q (le_prev e) s -> wp (get_prev i) Q s.
Proof using Type. intros Hi HQ. unfold get_prev. wp_go. eapply wp_get_entry; [exact Hi|]. by wp_go. Qed.

Lemma wp_set_next i e v (Q : () -> S -> Prop) s :
  q_entry s i = Some e -> Q tt (q_set_entry i (Entry v (le_prev e)) s) -> wp (set_next i v) Q s.
Proof using Type. intros Hi HQ. unfold set_next. wp_go. eapply wp_get_entry; [exact Hi|]. by wp_go. Qed.

Lemma wp_set_prev i e v (Q : () -> S -> Prop) s :
  q_entry s i = Some e -> Q tt (q_set_entry i (Entry (le_next e) v) s) -> wp (set_prev i v) Q s.
Proof using Type. intros Hi HQ. unfold set_prev. wp_go. eapply wp_get_entry; [exact Hi|]. by wp_go. Qed.

(** Storing through the pointer behind [l1]. *)
Lemma wp_set_at_place l v w (Q : () -> S -> Prop) s :
  before s l v -> NoDup l ->
  (forall s', before s' l w -> links_frame s s' l -> Q tt s') ->
  wp (set_at (Some (place l)) w) Q s.
Proof using Type.
  intros [Hf Hs] Hnd HQ. destruct l as [|i l' _] using rev_ind; unfold place, place_from.
  - cbn [last from_option set_at]. wp_go. apply HQ; [split; [by rewrite q_first_set | done]|].
    intros j _. apply q_entry_first.
  - rewrite last_snoc. cbn [from_option set_at]. eapply wp_set_next; [by eapply seg_last|]. cbn [le_prev].
    apply HQ.
    + split; [rewrite q_first_entry; by destruct l'|]. by eapply seg_set_last.
    + intros j Hj. apply q_entry_ne. set_solver.
Qed.

Lemma links_frame_entry s i e l : i ∈ l -> links_frame s (q_set_entry i e s) l.
Proof using Type. intros Hi j Hj. apply q_entry_ne. set_solver. Qed.
Lemma links_frame_trans s1 s2 s3 l : links_frame s1 s2 l -> links_frame s2 s3 l -> links_frame s1 s3 l.
Proof using Type. intros H1 H2 j Hj. by rewrite H2, H1. Qed.
Lemma links_frame_mono s1 s2 l l' : l ⊆ l' -> links_frame s1 s2 l -> links_frame s1 s2 l'.
Proof using Type. intros Hl H1 j Hj. apply H1. set_solver. Qed.

Lemma chain_head s p i l : chain s p (i :: l) -> q_entry s i = Some (Entry (head l) (Some p)).
Proof using Type. simpl. tauto. Qed.

(** Moving the first element of a chain to another place. *)
Lemma chain_move s p p' i l :
  chain s p (i :: l) -> i ∉ l -> chain (q_set_entry i (Entry (head l) (Some p')) s) p' (i :: l).
Proof using Type.
  intros [Hi Hc] Hn. split; [by rewrite q_entry_set by (by eexists)|].
  eapply chain_ext; [|exact Hc]. intros j Hj. apply q_entry_ne. set_solver.
Qed.

Lemma chain_entry s p l i e : i ∉ l -> chain s p l -> chain (q_set_entry i e s) p l.
Proof using Type.
  intros Hn Hc. eapply chain_ext; [|exact Hc]. intros j Hj. apply q_entry_ne. set_solver.
Qed.

(** The stores [LIST_INSERT_HEAD] and [LIST_INSERT_AFTER] have in common. *)
Lemma wp_link_in l1 l2 x e (Q : () -> S -> Prop) s :
  is_list s (l1 ++ l2) -> x ∉ l1 ++ l2 -> q_entry s x = Some e ->
  (forall s', is_list s' (l1 ++ x :: l2) -> links_frame s s' (l1 ++ x :: l2) -> Q tt s') ->
  wp (set_next x (head l2);;
      match head l2 with Some j => set_prev j (Some (PNext x)) | None => mret tt end;;
      set_at (Some (place l1)) (Some x);;
      set_prev x (Some (place l1))) Q s.
Proof using Type.
  intros Hl Hx He HQ. apply is_list_app in Hl as (Hb & Hc & Hnd).
  apply not_elem_of_app in Hx as [Hx1 Hx2]. pose proof Hnd as Hnd0.
  apply NoDup_app in Hnd as (Hnd1 & Hdis & Hnd2).
  wp_go. eapply wp_set_next; [exact He|]. cbn [le_prev].
  set (s1 := q_set_entry x (Entry (head l2) (le_prev e)) s).
  assert (Hb1 : before s1 l1 (head l2)) by (by apply before_entry).
  assert (Hc1 : chain s1 (place l1) l2) by (by apply chain_entry).
  assert (Hx1' : q_entry s1 x = Some (Entry (head l2) (le_prev e))) by (by apply q_entry_set; eexists).
  (* the old successor points back to x *)
  assert (Hstep : forall s2, before s2 l1 (head l2) -> chain s2 (PNext x) l2 ->
      q_entry s2 x = Some (Entry (head l2) (le_prev e)) -> links_frame s s2 (l1 ++ x :: l2) ->
      wp (set_at (Some (place l1)) (Some x)) (fun _ s' => wp (set_prev x (Some (place l1))) Q s') s2).
  { intros s2 Hb2 Hc2 Hx2' Hf2. eapply wp_set_at_place; [exact Hb2|done|].
    intros s3 Hb3 Hf3. assert (Hx3 : q_entry s3 x = Some (Entry (head l2) (le_prev e))) by (by rewrite Hf3).
    eapply wp_set_prev; [exact Hx3|]. cbn [le_next]. apply HQ.
    - apply is_list_app. split_and!.
      + apply before_entry; [done|]. exact Hb3.
      + split; [by apply q_entry_set; eexists|]. apply chain_entry; [done|].
        eapply chain_ext; [|exact Hc2]. intros j Hj. apply Hf3. set_solver.
      + apply NoDup_app. split_and!; [done|set_solver|]. constructor; done.
    - eapply links_frame_trans; [exact Hf2|]. eapply links_frame_trans;
        [eapply links_frame_mono; [|exact Hf3]; set_solver|]. apply links_frame_entry. set_solver. }
  destruct l2 as [|j l2]; cbn [head] in *; wp_go.
  - apply Hstep; [done|done|done|]. apply links_frame_entry. set_solver.
  - eapply wp_set_prev; [by eapply chain_head|]. cbn [le_next]. wp_go.
    apply Hstep.
    + apply before_entry; [set_solver|done].
    + apply NoDup_cons in Hnd2 as [? ?]. by eapply chain_move.
    + rewrite q_entry_ne by set_solver. done.
    + eapply links_frame_trans; apply links_frame_entry; set_solver.
Qed.

(** [LIST_REMOVE] takes the element out and leaves its own links alone. *)
Lemma wp_LIST_REMOVE l1 l2 x (Q : () -> S -> Prop) s :
  is_list s (l1 ++ x :: l2) ->
  (forall s', is_list s' (l1 ++ l2) -> links_frame s s' (l1 ++ l2) -> Q tt s') ->
  wp (LIST_REMOVE x) Q s.
Proof using Type.
  intros Hl HQ. apply is_list_app in Hl as (Hb & Hc & Hnd).
  apply NoDup_app in Hnd as (Hnd1 & Hdis & Hnd2). apply NoDup_cons in Hnd2 as [Hx2 Hnd2].
  pose proof (chain_head _ _ _ _ Hc) as Hx. destruct Hc as [_ Hc].
  unfold LIST_REMOVE. wp_go. eapply wp_LIST_NEXT; [exact Hx|]. cbn [le_next].
  assert (Hstep : forall s2, before s2 l1 (Some x) -> chain s2 (place l1) l2 ->
      q_entry s2 x = Some (Entry (head l2) (Some (place l1))) -> links_frame s s2 (l1 ++ l2) ->
      wp (get_prev x) (fun p s' => wp (n' ← LIST_NEXT x; set_at p n') Q s') s2).
  { intros s2 Hb2 Hc2 Hx2' Hf2. eapply wp_get_prev; [exact Hx2'|]. wp_go.
    eapply wp_LIST_NEXT; [exact Hx2'|]. cbn [le_next le_prev].
    eapply wp_set_at_place; [exact Hb2|done|]. intros s3 Hb3 Hf3. apply HQ.
    - apply is_list_app. split_and!; [done| |apply NoDup_app; split_and!; [done|set_solver|done]].
      eapply chain_ext; [|exact Hc2]. intros j Hj. apply Hf3. set_solver.
    - eapply links_frame_trans; [exact Hf2|]. eapply links_frame_mono; [|exact Hf3]. set_solver. }
  destruct l2 as [|j l2]; cbn [head] in *; wp_go.
  - apply Hstep; [done|done|done|]. by intros ? ?.
  - eapply wp_get_prev; [exact Hx|]. cbn [le_prev]. eapply wp_set_prev; [by eapply chain_head|]. cbn [le_next]. wp_go.
    apply NoDup_cons in Hnd2 as [? ?]. apply Hstep.
    + apply before_entry; [set_solver|done].
    + by eapply chain_move.
    + rewrite q_entry_ne by set_solver. done.
    + apply links_frame_entry. set_solver.
Qed.

Lemma wp_LIST_INSERT_HEAD l x e (Q : () -> S -> Prop) s :
  is_list s l -> x ∉ l -> q_entry s x = Some e ->
  (forall s', is_list s' (x :: l) -> links_frame s s' (x :: l) -> Q tt s') ->
  wp (LIST_INSERT_HEAD x) Q s.
Proof using Type.
  intros Hl Hx He HQ. pose proof (proj1 Hl) as Hf. unfold LIST_INSERT_HEAD, LIST_FIRST.
  apply wp_bind, wp_gets. rewrite Hf. exact (wp_link_in [] l x e Q s Hl Hx He HQ).
Qed.
End macros.

(** ** What the macros can change

    [touched s s']: [s'] comes from [s] by storing into the head and into link
    fields, and nothing else. *)

Create HintDb touches.

Section touched.
Context {S : Type} `{Queue S}.

Inductive touched (s : S) : S -> Prop :=
  | touched_refl : touched s s
  | touched_first o s' : touched s s' -> touched s (q_set_first o s')
  | touched_entry i e s' : touched s s' -> is_Some (q_entry s' i) -> touched s (q_set_entry i e s').

Lemma touched_trans s1 s2 s3 : touched s1 s2 -> touched s2 s3 -> touched s1 s3.
Proof using Type. intros H12 H23. induction H23; [done | by constructor..]. Qed.

Definition touches {A} (m : M S A) : Prop := forall s a s', m s = Ret a s' -> touched s s'.

Lemma touches_ret {A} (a : A) : touches (mret a).
Proof using Type. intros s b s' [= _ <-]. constructor. Qed.
Lemma touches_gets {A} (f : S -> A) : touches (gets f).
Proof using Type. intros s b s' [= _ <-]. constructor. Qed.
Lemma touches_first o : touches (modify (q_set_first o)).
Proof using Type. intros s b s' [= _ <-]. do 2 constructor. Qed.
Lemma touches_bind {A B} (m : M S A) (f : A -> M S B) :
  touches m -> (forall a, touches (f a)) -> touches (m ≫= f).
Proof using Type.
  intros Hm Hf s b s'. unfold mbind, M_bind. destruct (m s) as [a s1|? ?| |] eqn:E; try done.
  intros E2. eapply touched_trans; [by eapply Hm | by eapply Hf].
Qed.
Lemma touches_get_entry i : touches (get_entry i).
Proof using Type.
  intros s b s'. unfold get_entry, mbind, M_bind, gets, deref. destruct (q_entry (id s) i); [|done].
  intros [= _ <-]. constructor.
Qed.
Lemma touches_set_entry i (f : entry -> entry) : touches (e ← get_entry i; modify (q_set_entry i (f e))).
Proof using Type.
  intros s b s'. unfold get_entry, mbind, M_bind, gets, deref, modify, id. destruct (q_entry s i) eqn:E; [|done].
  intros [= _ <-]. constructor; [constructor | by eexists].
Qed.
#[local] Hint Resolve touches_ret touches_gets touches_first touches_get_entry : touches.

Lemma touches_set_next i v : touches (set_next i v).
Proof using Type. exact (touches_set_entry i (fun e => Entry v (le_prev e))). Qed.
Lemma touches_set_prev i v : touches (set_prev i v).
Proof using Type. exact (touches_set_entry i (fun e => Entry (le_next e) v)). Qed.
#[local] Hint Resolve touches_set_next touches_set_prev : touches.
Lemma touches_set_at p v : touches (set_at p v).
Proof using Type. destruct p as [[|i]|]; cbn [set_at]; eauto with touches. by intros ? ? ?. Qed.
#[local] Hint Resolve touches_set_at : touches.

Ltac touch_go :=
  repeat match goal with
  | |- touches (mbind _ _) => apply touches_bind; [|intros ?]
  | |- touches (match ?x with _ => _ end) => destruct x
  | _ => solve [eauto with touches]
  end.

Lemma touches_LIST_INSERT_HEAD x : touches (LIST_INSERT_HEAD x).
Proof using Type. unfold LIST_INSERT_HEAD, LIST_FIRST. touch_go. Qed.
Lemma touches_LIST_REMOVE x : touches (LIST_REMOVE x).
Proof using Type. unfold LIST_REMOVE, LIST_NEXT, get_prev. touch_go. Qed.

Lemma wp_touches {A} (m : M S A) Q s :
  touches m -> wp m Q s -> wp m (fun a s' => Q a s' /\ touched s s') s.
Proof using Type. intros Hm (a & s' & E & HQ)%wp_iff. apply wp_iff. exists a, s'. split_and!; [done..|]. by eapply Hm. Qed.

Lemma wp_LIST_REMOVE_touched l1 l2 x (Q : () -> S -> Prop) s :
  is_list s (l1 ++ x :: l2) ->
  (forall s', is_list s' (l1 ++ l2) -> touched s s' -> links_frame s s' (l1 ++ l2) -> Q tt s') -> wp (LIST_REMOVE x) Q s.
Proof using Type.
  intros Hl HQ. eapply wp_mono; [apply (wp_touches _ (fun _ s' => is_list s' (l1 ++ l2) /\ links_frame s s' (l1 ++ l2)) _ (touches_LIST_REMOVE x))|].
  - eapply wp_LIST_REMOVE; [exact Hl|]. by intros.
  - intros [] s' [[? ?] ?]. by apply HQ.
Qed.

Lemma wp_LIST_INSERT_HEAD_touched l x e (Q : () -> S -> Prop) s :
  is_list s l -> x ∉ l -> q_entry s x = Some e ->
  (forall s', is_list s' (x :: l) -> touched s s' -> links_frame s s' (x :: l) -> Q tt s') -> wp (LIST_INSERT_HEAD x) Q s.
Proof using Type.
  intros Hl Hx He HQ.
  eapply wp_mono; [apply (wp_touches _ (fun _ s' => is_list s' (x :: l) /\ links_frame s s' (x :: l)) _ (touches_LIST_INSERT_HEAD x))|].
  - eapply wp_LIST_INSERT_HEAD; [exact Hl|done|exact He|]. by intros.
  - intros [] s' [[? ?] ?]. by apply HQ.
Qed.
End touched.

(** C26: Each insertion macro splices the new element into the list where it says:
    at the head, after an element, before an element.  No link outside the list
    changes. *)
Theorem list_insert_correct {S} `{Queue S} l1 l2 x e (s : S) :
  is_list s (l1 ++ l2) -> x ∉ l1 ++ l2 -> q_entry s x = Some e ->
  let spliced (m : M S ()) := wp m (fun _ s' => is_list s' (l1 ++ x :: l2) /\ links_frame s s' (l1 ++ x :: l2)) s in
  (l1 = [] -> spliced (LIST_INSERT_HEAD x)) /\
  (forall y, last l1 = Some y -> spliced (LIST_INSERT_AFTER y x)) /\
  (forall y, head l2 = Some y -> spliced (LIST_INSERT_BEFORE y x)).
Proof.
  intros Hl Hx He spliced. split_and!.
  - intros ->. subst spliced. eapply wp_LIST_INSERT_HEAD; [done..|]. by intros.
  - intros y Hy. subst spliced. destruct l1 as [|z l1 _] using rev_ind; [done|].
    rewrite last_snoc in Hy. injection Hy as ->. pose proof Hl as Hl'. rewrite <- app_assoc in Hl'.
    apply is_list_app in Hl' as (_ & Hc & _). cbn [app] in Hc. apply chain_head in Hc.
    pose proof (wp_link_in (l1 ++ [y]) l2 x e
      (fun _ s' => is_list s' ((l1 ++ [y]) ++ x :: l2) /\ links_frame s s' ((l1 ++ [y]) ++ x :: l2))
      s Hl Hx He (fun s' a b => conj a b)) as Hw.
    unfold place, place_from in Hw. rewrite last_snoc in Hw. cbn [from_option] in Hw.
    unfold LIST_INSERT_AFTER. apply wp_bind. eapply wp_LIST_NEXT; [exact Hc|]. cbn [le_next]. exact Hw.
  - intros y Hy. subst spliced. destruct l2 as [|z l2]; [done|]. injection Hy as ->.
    apply is_list_app in Hl as (Hb & Hc & Hnd). apply not_elem_of_app in Hx as [Hx1 Hx2].
    apply NoDup_app in Hnd as (Hnd1 & Hdis & Hnd2). apply NoDup_cons in Hnd2 as [Hy2 Hnd2].
    pose proof (chain_head _ _ _ _ Hc) as Hye.
    unfold LIST_INSERT_BEFORE. wp_go. eapply wp_get_prev; [exact Hye|]. cbn [le_prev]. wp_go.
    eapply wp_set_prev; [exact He|]. cbn [le_next]. wp_go. eapply wp_set_next; [apply q_entry_set; by eexists|]. cbn [le_prev].
    set (s2 := q_set_entry x _ (q_set_entry x _ s)).
    assert (Hx2' : q_entry s2 x = Some (Entry (Some y) (Some (place l1)))).
    { apply q_entry_set. rewrite q_entry_set by (by eexists). by eexists. }
    assert (Hf2 : links_frame s s2 [x]).
    { eapply links_frame_trans; apply links_frame_entry; set_solver. }
    assert (Hye2 : q_entry s2 y = Some (Entry (head l2) (Some (place l1)))) by (rewrite Hf2 by set_solver; done).
    wp_go. eapply wp_get_prev; [exact Hye2|]. cbn [le_prev]. wp_go.
    eapply wp_set_at_place; [do 2 (apply before_entry; [done|]); exact Hb|done|].
    intros s3 Hb3 Hf3. eapply wp_set_prev; [rewrite Hf3 by set_solver; exact Hye2|]. cbn [le_next]. split.
    + apply is_list_app. split_and!.
      * apply before_entry; [set_solver|]. exact Hb3.
      * split; [rewrite q_entry_ne by set_solver; by rewrite Hf3|].
        apply (chain_move _ (place l1)); [|done]. eapply chain_ext; [|exact Hc].
        intros j Hj. rewrite Hf3 by set_solver. apply Hf2. set_solver.
      * apply NoDup_app. split_and!; [done|set_solver|]. constructor; [done|]. by constructor.
    + eapply links_frame_trans; [eapply links_frame_mono; [|exact Hf2]; set_solver|].
      eapply links_frame_trans; [eapply links_frame_mono; [|exact Hf3]; set_solver|].
      apply links_frame_entry. set_solver.
Qed.

(** C25: [LIST_REMOVE] takes an element out of the list wherever it is, and keeps
    the order of the others. *)
Theorem list_remove_correct {S} `{Queue S} l1 l2 x (s : S) :
  is_list s (l1 ++ x :: l2) ->
  wp (LIST_REMOVE x) (fun _ s' => is_list s' (l1 ++ l2) /\ links_frame s s' (l1 ++ l2)) s.
Proof. intros Hl. eapply wp_LIST_REMOVE; [exact Hl|]. by intros. Qed.

(** ** A small instance: a head and a map of links *)

Record links : Type := Links { l_first : option nat; l_elems : gmap nat entry }.
#[export, refine] Instance links_queue : Queue links := {|
  q_first := l_first;
  q_set_first := fun o s => Links o (l_elems s);
  q_entry := fun s i => l_elems s !! i;
  q_set_entry := fun i e s => Links (l_first s) (<[i := e]> (l_elems s));
|}.
Proof.
  - done.
  - done.
  - done.
  - intros. apply lookup_insert_eq.
  - intros. by apply lookup_insert_ne.
Defined.

(** 1, 2, 3 in a list, and 7 outside. *)
Definition links_ex : links :=
  Links (Some 1%nat)
    (<[1 := Entry (Some 2) (Some PHead)]> (<[2 := Entry (Some 3) (Some (PNext 1))]>
      (<[3 := Entry None (Some (PNext 2))]> (<[7 := Entry None None]> ∅))))%nat.

Lemma links_ex_is_list : is_list links_ex [1; 2; 3]%nat.
Proof. repeat split; try reflexivity. repeat constructor; set_solver. Qed.

Lemma list_insert_correct_witness :
  wp (LIST_INSERT_BEFORE 3 7) (fun _ s' => is_list s' [1; 2; 7; 3]%nat) links_ex.
Proof.
  destruct (list_insert_correct [1; 2]%nat [3]%nat 7 (Entry None None) links_ex links_ex_is_list) as (_ & _ & Hb).
  - set_solver.
  - reflexivity.
  - eapply wp_mono; [exact (Hb 3%nat eq_refl)|]. by intros [] ? [? _].
Defined.

Lemma list_remove_correct_witness :
  wp (LIST_REMOVE 2) (fun _ s' => is_list s' [1; 3]%nat) links_ex.
Proof.
  eapply wp_mono; [exact (list_remove_correct [1]%nat [3]%nat 2 links_ex links_ex_is_list)|]. by intros [] ? [? _].
Defined.
