(* ===== verification/Kernel.v ===== *)
(** * Kernel: the memory manager's state, and physical pages (kern/pmap.h)

    [kernel] is the state that kern/pmap.c keeps: its global variables, the RAM
    it reaches at KERNBASE, the TLB and control registers, the ports, and the
    characters given to [cputchar].

    RAM is a map from word addresses to 32-bit words; a word nobody has written
    has the value [k_ram0] gives it, which is arbitrary.  A kernel pointer is its
    virtual address; it reaches RAM through the mapping of KERNBASE + x to x, and
    an access outside the machine's [npages] pages is undefined.  The array [pages]
    is a typed object: a [struct Page *] is an index into it. *)

From S2P Require Import Prelude Layout Printfmt Printf Ports Queue.
Open Scope Z_scope.

Record Page : Type := MkPage { pp_link : entry; pp_ref : Z }.

Record kernel : Type := Kernel {
  k_npages : Z;               (* npages *)
  k_n_base_pages : Z;         (* n_base_pages *)
  k_pgdir : Z;                (* kern_pgdir *)
  k_pages : list Page;        (* the array pages points to ... *)
  k_pages_va : Z;             (* ... and where boot_alloc put it *)
  k_free : option nat;        (* page_free_list.lh_first *)
  k_nextfree : Z;             (* boot_alloc's nextfree *)
  k_ram : gmap Z Z;
  k_ram0 : Z -> Z;
  k_tlb : gmap Z Z;           (* page number to the entry the TLB holds *)
  k_cr0 : Z;
  k_cr3 : Z;
  k_io : io;
  k_out : list Z;
  k_seg : list (string * Z);  (* loads of segment registers, latest last *)
}.

Definition set_npages v k := Kernel v (k_n_base_pages k) (k_pgdir k) (k_pages k) (k_pages_va k) (k_free k) (k_nextfree k) (k_ram k) (k_ram0 k) (k_tlb k) (k_cr0 k) (k_cr3 k) (k_io k) (k_out k) (k_seg k).
Definition set_n_base_pages v k := Kernel (k_npages k) v (k_pgdir k) (k_pages k) (k_pages_va k) (k_free k) (k_nextfree k) (k_ram k) (k_ram0 k) (k_tlb k) (k_cr0 k) (k_cr3 k) (k_io k) (k_out k) (k_seg k).
Definition set_pgdir v k := Kernel (k_npages k) (k_n_base_pages k) v (k_pages k) (k_pages_va k) (k_free k) (k_nextfree k) (k_ram k) (k_ram0 k) (k_tlb k) (k_cr0 k) (k_cr3 k) (k_io k) (k_out k) (k_seg k).
Definition set_pages v k := Kernel (k_npages k) (k_n_base_pages k) (k_pgdir k) v (k_pages_va k) (k_free k) (k_nextfree k) (k_ram k) (k_ram0 k) (k_tlb k) (k_cr0 k) (k_cr3 k) (k_io k) (k_out k) (k_seg k).
Definition set_pages_va v k := Kernel (k_npages k) (k_n_base_pages k) (k_pgdir k) (k_pages k) v (k_free k) (k_nextfree k) (k_ram k) (k_ram0 k) (k_tlb k) (k_cr0 k) (k_cr3 k) (k_io k) (k_out k) (k_seg k).
Definition set_free v k := Kernel (k_npages k) (k_n_base_pages k) (k_pgdir k) (k_pages k) (k_pages_va k) v (k_nextfree k) (k_ram k) (k_ram0 k) (k_tlb k) (k_cr0 k) (k_cr3 k) (k_io k) (k_out k) (k_seg k).
Definition set_nextfree v k := Kernel (k_npages k) (k_n_base_pages k) (k_pgdir k) (k_pages k) (k_pages_va k) (k_free k) v (k_ram k) (k_ram0 k) (k_tlb k) (k_cr0 k) (k_cr3 k) (k_io k) (k_out k) (k_seg k).
Definition set_ram v k := Kernel (k_npages k) (k_n_base_pages k) (k_pgdir k) (k_pages k) (k_pages_va k) (k_free k) (k_nextfree k) v (k_ram0 k) (k_tlb k) (k_cr0 k) (k_cr3 k) (k_io k) (k_out k) (k_seg k).
Definition set_tlb v k := Kernel (k_npages k) (k_n_base_pages k) (k_pgdir k) (k_pages k) (k_pages_va k) (k_free k) (k_nextfree k) (k_ram k) (k_ram0 k) v (k_cr0 k) (k_cr3 k) (k_io k) (k_out k) (k_seg k).
Definition set_cr0 v k := Kernel (k_npages k) (k_n_base_pages k) (k_pgdir k) (k_pages k) (k_pages_va k) (k_free k) (k_nextfree k) (k_ram k) (k_ram0 k) (k_tlb k) v (k_cr3 k) (k_io k) (k_out k) (k_seg k).
Definition set_cr3 v k := Kernel (k_npages k) (k_n_base_pages k) (k_pgdir k) (k_pages k) (k_pages_va k) (k_free k) (k_nextfree k) (k_ram k) (k_ram0 k) (k_tlb k) (k_cr0 k) v (k_io k) (k_out k) (k_seg k).
Definition set_io v k := Kernel (k_npages k) (k_n_base_pages k) (k_pgdir k) (k_pages k) (k_pages_va k) (k_free k) (k_nextfree k) (k_ram k) (k_ram0 k) (k_tlb k) (k_cr0 k) (k_cr3 k) v (k_out k) (k_seg k).
Definition set_out v k := Kernel (k_npages k) (k_n_base_pages k) (k_pgdir k) (k_pages k) (k_pages_va k) (k_free k) (k_nextfree k) (k_ram k) (k_ram0 k) (k_tlb k) (k_cr0 k) (k_cr3 k) (k_io k) v (k_seg k).
Definition set_seg v k := Kernel (k_npages k) (k_n_base_pages k) (k_pgdir k) (k_pages k) (k_pages_va k) (k_free k) (k_nextfree k) (k_ram k) (k_ram0 k) (k_tlb k) (k_cr0 k) (k_cr3 k) (k_io k) (k_out k) v.

#[export, refine] Instance kernel_has_io : HasIO kernel := {| io_of := k_io; with_io := set_io |}.
Proof. - done. - by intros []. - done. Defined.

(** The characters [cputchar] receives. *)
Definition kputchar (c : Z) : M kernel () := modify (fun k => set_out (k_out k ++ [c]) k).
Definition kprintf (fmt : list Z) (args : list va) : M kernel Z := cprintf kputchar fmt args.

(** ** RAM *)

Definition word (k : kernel) (pa : Z) : Z := default (k_ram0 k pa) (k_ram k !! pa).
Definition set_word (pa v : Z) (k : kernel) : kernel := set_ram (<[pa := u32 v]> (k_ram k)) k.

(** A word of RAM that the kernel can reach at virtual address [va]. *)
Definition in_ram (k : kernel) (va : Z) : bool :=
  (KERNBASE <=? va) && (va + 4 <=? 2 ^ 32) && (va - KERNBASE + 4 <=? k_npages k * PGSIZE) && (va mod 4 =? 0).

Definition ld (va : Z) : M kernel Z :=
  k ← gets id; if in_ram k va then mret (word k (va - KERNBASE)) else fault.
Definition st (va v : Z) : M kernel () :=
  k ← gets id; if in_ram k va then modify (set_word (va - KERNBASE) v) else fault.

(** [memset(va, c, n)] on words. *)
Definition kmemset (va c n : Z) : M kernel () :=
  for_each (fun i => st (va + 4 * Z.of_nat i) (u8 c * 0x01010101)) (seq 0 (Z.to_nat (n / 4))).

(** ** Addresses and pages: kern/pmap.h *)

Definition PADDR (kva : Z) : M kernel Z :=
  let m_kva := u32 kva in
  if m_kva <? KERNBASE then panic "PADDR called with invalid kva %08lx" else mret (m_kva - KERNBASE).

Definition KADDR (pa : Z) : M kernel Z :=
  let m_pa := u32 pa in
  let m_ppn := PGNUM m_pa in
  k ← gets id;
  if k_npages k <=? m_ppn then panic "KADDR called with invalid pa %08lx"
  else mret (u32 (m_pa + KERNBASE)).

Definition page2ppn (pp : nat) : Z := u32 (Z.of_nat pp).
Definition page2pa (pp : nat) : Z := u32 (Z.shiftl (page2ppn pp) PGSHIFT).
Definition pa2page (pa : Z) : M kernel nat :=
  k ← gets id;
  if k_npages k <=? PGNUM pa then panic "pa2page called with invalid pa"
  else mret (Z.to_nat (PGNUM pa)).
Definition page2kva (pp : nat) : M kernel Z := KADDR (page2pa pp).

Definition get_page (pp : nat) : M kernel Page := k ← gets id; deref (k_pages k !! pp).
Definition set_page (pp : nat) (p : Page) : M kernel () :=
  get_page pp;; modify (fun k => set_pages (<[pp := p]> (k_pages k)) k).
Definition get_ref (pp : nat) : M kernel Z := p ← get_page pp; mret (pp_ref p).
Definition set_ref (pp : nat) (r : Z) : M kernel () :=
  p ← get_page pp; set_page pp (MkPage (pp_link p) (u16 r)).

(** The free list: its head is [page_free_list], its links the [pp_link]s. *)
#[export, refine] Instance kernel_queue : Queue kernel := {|
  q_first := k_free;
  q_set_first := set_free;
  q_entry := fun k i => pp_link <$> k_pages k !! i;
  q_set_entry := fun i e k => set_pages (alter (fun p => MkPage e (pp_ref p)) i (k_pages k)) k;
|}.
Proof.
  - done.
  - done.
  - done.
  - intros i e k [x Hx]. cbn. rewrite list_lookup_alter_eq. destruct (k_pages k !! i); done.
  - intros i j e k Hij. cbn. by rewrite list_lookup_alter_ne.
Defined.

(** ** kern/pmap.c: allocation *)

Definition zero_page : Page := MkPage (Entry None None) 0.

(** [memset(pp, 0, sizeof( *pp))] *)
Definition page_clear (pp : nat) : M kernel () := set_page pp zero_page.

(** The value of the function, and what it stores in [*pp_store]. *)
Definition page_alloc : M kernel (Z * option nat) :=
  empty ← LIST_EMPTY;
  if empty : bool then mret (- E_NO_MEM, None)
  else
    f ← LIST_FIRST;
    pp ← deref f;
    LIST_REMOVE pp;;
    set_page pp zero_page;;
    mret (0, Some pp).

Definition page_free (pp : nat) : M kernel () := LIST_INSERT_HEAD pp.

Definition page_decref (pp : nat) : M kernel () :=
  r ← get_ref pp;
  set_ref pp (r - 1);;
  r' ← get_ref pp;
  when (r' =? 0) (page_free pp).

(** ** Control registers and the TLB *)

Definition invlpg (va : Z) : M kernel () := modify (fun k => set_tlb (delete (PGNUM va) (k_tlb k)) k).
(** Loading cr3 empties the TLB. *)
Definition lcr3 (v : Z) : M kernel () := modify (fun k => set_tlb ∅ (set_cr3 (u32 v) k)).
Definition rcr3 : M kernel Z := gets k_cr3.
Definition lcr0 (v : Z) : M kernel () := modify (set_cr0 (u32 v)).
Definition rcr0 : M kernel Z := gets k_cr0.
Definition tlbflush : M kernel () := cr3 ← rcr3; lcr3 cr3.

(** ** RAM lemmas *)

Lemma word_set_word k pa pa' v :
  word (set_word pa v k) pa' = if decide (pa = pa') then u32 v else word k pa'.
Proof.
  unfold word, set_word. cbn. case_decide as E; [subst; by rewrite lookup_insert_eq | by rewrite lookup_insert_ne].
Qed.

Lemma wp_ld va (Q : Z -> kernel -> Prop) k : in_ram k va = true -> Q (word k (va - KERNBASE)) k -> wp (ld va) Q k.
Proof. intros Hr HQ. unfold ld. wp_go. unfold id. rewrite Hr. by wp_go. Qed.

Lemma wp_st va v (Q : () -> kernel -> Prop) k :
  in_ram k va = true -> Q tt (set_word (va - KERNBASE) v k) -> wp (st va v) Q k.
Proof. intros Hr HQ. unfold st. wp_go. unfold id. rewrite Hr. by wp_go. Qed.

(** A state with another RAM. *)
Definition ram_only (k k' : kernel) : Prop := k' = set_ram (k_ram k') k.

Lemma ram_only_refl k : ram_only k k.
Proof. by destruct k. Qed.
Lemma ram_only_trans k1 k2 k3 : ram_only k1 k2 -> ram_only k2 k3 -> ram_only k1 k3.
Proof. unfold ram_only. intros -> ->. done. Qed.

(** The free list is in the page descriptors and the head only. *)
Lemma is_list_same k k' l : k_free k' = k_free k -> k_pages k' = k_pages k -> is_list k l -> is_list k' l.
Proof. intros Hf Hp. apply is_list_ext; [done|]. intros j. cbn. by rewrite Hp. Qed.

(** Page [n] of physical memory exists. *)
Definition page_in_ram (k : kernel) (n : Z) : Prop := 0 <= n < k_npages k /\ k_npages k <= 65536.

Lemma page_in_ram_word k n i :
  page_in_ram k n -> 0 <= i < 1024 -> in_ram k (KERNBASE + n * PGSIZE + 4 * i) = true.
Proof.
  intros [Hn Hk] Hi. unfold in_ram, KERNBASE, PGSIZE in *.
  assert ((4026531840 + n * 4096 + 4 * i) mod 4 = 0) as -> by divmod.
  rewrite !andb_true_iff, !Z.leb_le. lia.
Qed.

Lemma wp_kmemset_page n v (Q : () -> kernel -> Prop) k :
  page_in_ram k n ->
  (forall k', ram_only k k' ->
     (forall pa, word k' pa =
        if decide (n * PGSIZE <= pa < (n + 1) * PGSIZE /\ pa mod 4 = 0) then u32 (u8 v * 0x01010101) else word k pa) ->
     Q tt k') ->
  wp (kmemset (KERNBASE + n * PGSIZE) v PGSIZE) Q k.
Proof.
  intros Hn HQ. unfold kmemset. change (Z.to_nat (PGSIZE / 4)) with 1024%nat.
  assert (Hgen : forall c j k1, (j + c = 1024)%nat -> ram_only k k1 ->
    (forall pa, word k1 pa = if decide (n * PGSIZE <= pa < n * PGSIZE + 4 * Z.of_nat j /\ pa mod 4 = 0)
                             then u32 (u8 v * 0x01010101) else word k pa) ->
    wp (for_each (fun i => st (KERNBASE + n * PGSIZE + 4 * Z.of_nat i) (u8 v * 0x01010101)) (seq j c)) Q k1).
  { induction c as [|c IH]; intros j k1 Hj Hro Hw; cbn [seq for_each].
    - apply HQ; [done|]. intros pa. rewrite Hw. unfold PGSIZE. destruct (decide _), (decide _); done || lia.
    - wp_go. apply wp_st.
      + apply page_in_ram_word; [|lia]. by rewrite Hro.
      + apply IH; [lia | eapply ram_only_trans; [exact Hro|done] |].
        intros pa. rewrite word_set_word, Hw. unfold PGSIZE in *. pose proof (Z.div_mod pa 4).
        case_decide as E.
        * subst pa. rewrite decide_True; [done|]. split; [lia|]. divmod.
        * destruct (decide _) as [E1|E1], (decide _) as [E2|E2]; try done; exfalso.
          { apply E2. split; [lia|tauto]. }
          { apply E1. destruct E2 as [E3 E2]. split; [|done]. revert E E2 E3. clear. intros. divmod. } }
  apply Hgen; [done | apply ram_only_refl |].
  intros pa. rewrite decide_False; [done|]. lia.
Qed.

Lemma wp_KADDR_page n off (Q : Z -> kernel -> Prop) k :
  page_in_ram k n -> 0 <= off < PGSIZE ->
  Q (KERNBASE + n * PGSIZE + off) k -> wp (KADDR (n * PGSIZE + off)) Q k.
Proof.
  intros [Hn Hk] Ho HQ. unfold KADDR. wp_go. unfold id, PGSIZE, KERNBASE in *.
  rewrite (u32_small (n * 4096 + off)) by lia.
  assert (PGNUM (n * 4096 + off) = n) as -> by (rewrite PGNUM_div, u32_small by lia; divmod).
  replace (k_npages k <=? n) with false by lia. wp_go.
  replace (u32 _) with (4026531840 + n * 4096 + off) by (rewrite u32_small; lia). done.
Qed.

Lemma page2pa_eq k pp : page_in_ram k (Z.of_nat pp) -> page2pa pp = Z.of_nat pp * PGSIZE.
Proof.
  intros [? ?]. unfold page2pa, page2ppn, PGSHIFT, PGSIZE. rewrite Z.shiftl_mul_pow2 by lia.
  rewrite (u32_small (Z.of_nat pp)) by lia. rewrite u32_small; lia.
Qed.

(** ** The page allocator *)

Definition ref_of (k : kernel) (pp : nat) : Z := default 0 (pp_ref <$> k_pages k !! pp).

(** A state with other free-list links. *)
Definition links_only (k k' : kernel) : Prop :=
  k' = set_free (k_free k') (set_pages (k_pages k') k) /\ pp_ref <$> k_pages k' = pp_ref <$> k_pages k.

Lemma touched_links_only k k' : touched k k' -> links_only k k'.
Proof.
  intros Ht. induction Ht as [|o k' Ht [IH1 IH2]|i e k' Ht [IH1 IH2] _].
  - by destruct k.
  - split; [|done]. rewrite IH1. done.
  - split; [rewrite IH1; done|]. rewrite <- IH2. cbn. apply list_eq. intros j. rewrite !list_lookup_fmap.
    destruct (decide (i = j)) as [->|Hne].
    + rewrite list_lookup_alter_eq. by destruct (k_pages k' !! j).
    + by rewrite list_lookup_alter_ne.
Qed.

Lemma links_only_ref k k' pp : links_only k k' -> ref_of k' pp = ref_of k pp.
Proof.
  intros [_ H]. unfold ref_of. f_equal. change (pp_ref <$> k_pages k' !! pp = pp_ref <$> k_pages k !! pp).
  by rewrite <- !list_lookup_fmap, H.
Qed.

Lemma links_only_length k k' : links_only k k' -> length (k_pages k') = length (k_pages k).
Proof. intros [_ H]. apply (f_equal length) in H. by rewrite !length_fmap in H. Qed.

(** Everything but the array of pages and the free list is as before. *)
Definition pages_only (k k' : kernel) : Prop :=
  k' = set_free (k_free k') (set_pages (k_pages k') k) /\ length (k_pages k') = length (k_pages k).

Lemma pages_only_refl k : pages_only k k.
Proof. by destruct k. Qed.
Lemma pages_only_trans k1 k2 k3 : pages_only k1 k2 -> pages_only k2 k3 -> pages_only k1 k3.
Proof. intros [-> H1] [-> H2]. split; [done | cbn in *; congruence]. Qed.
Lemma links_pages_only k k' : links_only k k' -> pages_only k k'.
Proof. intros H. split; [apply H | by apply links_only_length]. Qed.
Lemma pages_only_word k k' pa : pages_only k k' -> word k' pa = word k pa.
Proof. intros [-> _]. done. Qed.

(** The descriptors of the pages outside [W] are as before. *)
Definition pages_frame (W : list nat) (k k' : kernel) : Prop := forall q, q ∉ W -> k_pages k' !! q = k_pages k !! q.

Lemma pages_frame_refl W k : pages_frame W k k.
Proof. by intros q _. Qed.
Lemma pages_frame_trans W k1 k2 k3 : pages_frame W k1 k2 -> pages_frame W k2 k3 -> pages_frame W k1 k3.
Proof. intros H1 H2 q Hq. by rewrite H2, H1. Qed.
Lemma pages_frame_mono W W' k k' : W ⊆ W' -> pages_frame W k k' -> pages_frame W' k k'.
Proof. intros HW H q Hq. apply H. set_solver. Qed.
Lemma pages_frame_same W k k' : k_pages k' = k_pages k -> pages_frame W k k'.
Proof. by intros E q _; rewrite E. Qed.

Lemma links_pages_frame W k k' : links_only k k' -> links_frame k k' W -> pages_frame W k k'.
Proof.
  intros [_ Hr] Hl q Hq. specialize (Hl q Hq). cbn in Hl.
  assert (E : pp_ref <$> k_pages k' !! q = pp_ref <$> k_pages k !! q) by (by rewrite <- !list_lookup_fmap, Hr).
  destruct (k_pages k' !! q) as [[]|], (k_pages k !! q) as [[]|]; cbn in *; congruence.
Qed.

Lemma wp_get_page pp p (Q : Page -> kernel -> Prop) k : k_pages k !! pp = Some p -> Q p k -> wp (get_page pp) Q k.
Proof. intros Hp HQ. unfold get_page. wp_go. by eapply wp_deref. Qed.

Lemma wp_set_page pp p (Q : () -> kernel -> Prop) k :
  (pp < length (k_pages k))%nat -> Q tt (set_pages (<[pp := p]> (k_pages k)) k) -> wp (set_page pp p) Q k.
Proof.
  intros Hp HQ. unfold set_page. wp_go. destruct (lookup_lt_is_Some_2 _ _ Hp) as [p0 Hp0].
  eapply wp_get_page; [exact Hp0|]. by wp_go.
Qed.

Lemma wp_get_ref pp (Q : Z -> kernel -> Prop) k :
  (pp < length (k_pages k))%nat -> Q (ref_of k pp) k -> wp (get_ref pp) Q k.
Proof.
  intros Hp HQ. unfold get_ref. wp_go. destruct (lookup_lt_is_Some_2 _ _ Hp) as [p0 Hp0].
  eapply wp_get_page; [exact Hp0|]. wp_go. unfold ref_of in HQ. by rewrite Hp0 in HQ.
Qed.

(** Replacing a page's reference count leaves the free list alone. *)
Lemma is_list_set_ref k pp p r l :
  k_pages k !! pp = Some p -> is_list k l ->
  is_list (set_pages (<[pp := MkPage (pp_link p) r]> (k_pages k)) k) l.
Proof.
  intros Hp (Hf & Hc & Hnd). split_and!; [done| |done]. eapply chain_ext; [|exact Hc].
  intros j _. cbn. destruct (decide (pp = j)) as [->|Hne].
  - rewrite list_lookup_insert_eq by (by eapply lookup_lt_Some). by rewrite Hp.
  - by rewrite list_lookup_insert_ne.
Qed.

(** What [set_ref] does. *)
Definition ref_set (k k' : kernel) (pp : nat) (r : Z) : Prop :=
  pages_only k k' /\ ref_of k' pp = u16 r /\ (forall q, q <> pp -> ref_of k' q = ref_of k q) /\
  (forall l, is_list k l -> is_list k' l) /\ pages_frame [pp] k k'.

Lemma wp_set_ref pp r (Q : () -> kernel -> Prop) k :
  (pp < length (k_pages k))%nat -> (forall k', ref_set k k' pp r -> Q tt k') -> wp (set_ref pp r) Q k.
Proof.
  intros Hp HQ. unfold set_ref. wp_go. destruct (lookup_lt_is_Some_2 _ _ Hp) as [p0 Hp0].
  eapply wp_get_page; [exact Hp0|]. wp_go. apply wp_set_page; [done|]. apply HQ. split_and!.
  - split; [done|]. cbn. apply length_insert.
  - unfold ref_of. cbn. by rewrite list_lookup_insert_eq.
  - intros q Hq. unfold ref_of. cbn. by rewrite list_lookup_insert_ne.
  - intros l. by apply is_list_set_ref.
  - intros q Hq. cbn. rewrite list_lookup_insert_ne; [done|]. set_solver.
Qed.

(** Pages on a free list exist. *)
Lemma chain_lookup k p l pp : chain k p l -> pp ∈ l -> (pp < length (k_pages k))%nat.
Proof.
  revert p. induction l as [|i l IH]; intros p; simpl; [set_solver|].
  intros [Hi Hc] Hpp. apply elem_of_cons in Hpp as [->|Hpp]; [|by eapply IH].
  change (pp_link <$> k_pages k !! i = Some (Entry (head l) (Some p))) in Hi.
  apply lookup_lt_is_Some. destruct (k_pages k !! i); [by eexists | done].
Qed.

(** Zeroing a page that is not on the list. *)
Lemma chain_set_other k pp p loc l : pp ∉ l -> chain k loc l -> chain (set_pages (<[pp := p]> (k_pages k)) k) loc l.
Proof.
  intros Hn Hc. eapply chain_ext; [|exact Hc]. intros j Hj. cbn. rewrite list_lookup_insert_ne; [done|]. set_solver.
Qed.

Lemma wp_page_alloc_cons k pp l (Q : Z * option nat -> kernel -> Prop) :
  is_list k (pp :: l) ->
  (forall k', pages_only k k' -> is_list k' l -> ref_of k' pp = 0 ->
     (forall q, q <> pp -> ref_of k' q = ref_of k q) -> pages_frame (pp :: l) k k' -> Q (0, Some pp) k') ->
  wp page_alloc Q k.
Proof.
  intros Hl HQ. pose proof Hl as (Hf & Hc & Hnd). cbn in Hf.
  assert (Hlt : (pp < length (k_pages k))%nat) by (eapply chain_lookup; [exact Hc | set_solver]).
  unfold page_alloc, LIST_EMPTY, LIST_FIRST. wp_go. cbn [q_first kernel_queue]. rewrite Hf.
  rewrite bool_decide_false by done. wp_go. eapply wp_deref; [by rewrite <- Hf|]. wp_go.
  eapply (wp_LIST_REMOVE_touched [] l); [exact Hl|]. intros k1 Hl1 Ht Hfr. apply touched_links_only in Ht. wp_go.
  apply wp_set_page; [by rewrite (links_only_length _ _ Ht)|]. wp_go.
  assert (Hpn : pp ∉ l) by (by apply NoDup_cons in Hnd as [? _]).
  apply HQ.
  - eapply pages_only_trans; [by apply links_pages_only|]. split; [done|]. cbn. apply length_insert.
  - destruct Hl1 as (? & ? & ?). split_and!; [done| by apply chain_set_other |done].
  - unfold ref_of. cbn. rewrite list_lookup_insert_eq; [done|]. by rewrite (links_only_length _ _ Ht).
  - intros q Hq. rewrite <- (links_only_ref _ _ q Ht). unfold ref_of. cbn. by rewrite list_lookup_insert_ne.
  - intros q Hq. cbn. rewrite list_lookup_insert_ne by set_solver. apply (links_pages_frame l); [done|exact Hfr|set_solver].
Qed.

Lemma wp_page_alloc_nil k (Q : Z * option nat -> kernel -> Prop) :
  is_list k [] -> Q (- E_NO_MEM, None) k -> wp page_alloc Q k.
Proof.
  intros (Hf & _) HQ. unfold page_alloc, LIST_EMPTY. wp_go. cbn [q_first kernel_queue] in *. rewrite Hf. by wp_go.
Qed.

Lemma wp_page_free k pp l (Q : () -> kernel -> Prop) :
  is_list k l -> pp ∉ l -> (pp < length (k_pages k))%nat ->
  (forall k', links_only k k' -> is_list k' (pp :: l) -> pages_frame (pp :: l) k k' -> Q tt k') ->
  wp (page_free pp) Q k.
Proof.
  intros Hl Hn Hlt HQ. destruct (lookup_lt_is_Some_2 _ _ Hlt) as [p Hp]. unfold page_free.
  eapply (wp_LIST_INSERT_HEAD_touched l pp (pp_link p)); [exact Hl|exact Hn| |].
  - change (pp_link <$> k_pages k !! pp = Some (pp_link p)). by rewrite Hp.
  - intros k1 Hl1 Ht Hfr. apply touched_links_only in Ht. apply HQ; [done|done|by apply links_pages_frame].
Qed.

(** [page_decref]: one reference less; the page is freed with its last one. *)
Lemma wp_page_decref k pp l (Q : () -> kernel -> Prop) :
  is_list k l -> (ref_of k pp = 1 -> pp ∉ l) -> 0 < ref_of k pp < 2 ^ 16 -> (pp < length (k_pages k))%nat ->
  (forall k', pages_only k k' -> ref_of k' pp = ref_of k pp - 1 ->
     (forall q, q <> pp -> ref_of k' q = ref_of k q) ->
     is_list k' (if ref_of k pp =? 1 then pp :: l else l) -> pages_frame (pp :: l) k k' -> Q tt k') ->
  wp (page_decref pp) Q k.
Proof.
  intros Hl Hn Hr Hlt HQ. unfold page_decref. wp_go. apply wp_get_ref; [done|]. wp_go.
  apply wp_set_ref; [done|]. intros k1 (Hp1 & Hr1 & Ho1 & Hl1 & Hf1). wp_go.
  assert (Hf1' : pages_frame (pp :: l) k k1) by (eapply pages_frame_mono; [|exact Hf1]; set_solver).
  rewrite u16_small in Hr1 by lia.
  apply wp_get_ref; [by rewrite (proj2 Hp1)|]. rewrite Hr1.
  destruct (Z.eqb_spec (ref_of k pp) 1) as [E|E].
  - replace (ref_of k pp - 1 =? 0) with true by lia. unfold when.
    eapply wp_page_free; [by apply Hl1 | by apply Hn | by rewrite (proj2 Hp1) |].
    intros k2 Hlk Hl2 Hf2. apply HQ; [|by rewrite (links_only_ref _ _ _ Hlk)| |done|by eapply pages_frame_trans].
    + eapply pages_only_trans; [exact Hp1 | by apply links_pages_only].
    + intros q Hq. rewrite (links_only_ref _ _ _ Hlk). by apply Ho1.
  - replace (ref_of k pp - 1 =? 0) with false by lia. unfold when. wp_go. by apply HQ; [..|apply Hl1|].
Qed.

(** C14: [page_alloc] takes the first free page, clears its descriptor and changes
    nothing else; without free pages it fails with -E_NO_MEM and changes nothing.
    [page_free] puts the page back, so that the next [page_alloc] returns it. *)
Theorem page_alloc_free_correct k l :
  is_list k l ->
  (forall pp l', l = pp :: l' ->
     wp page_alloc (fun r k' => r = (0, Some pp) /\ is_list k' l' /\ pages_only k k' /\
       (forall q, ref_of k' q = if decide (q = pp) then 0 else ref_of k q)) k) /\
  (l = [] -> page_alloc k = Ret (- E_NO_MEM, None) k) /\
  (forall pp, pp ∉ l -> (pp < length (k_pages k))%nat ->
     wp (page_free pp;; page_alloc) (fun r k' => r = (0, Some pp) /\ is_list k' l /\ pages_only k k') k).
Proof.
  intros Hl. split_and!.
  - intros pp l' ->. eapply wp_page_alloc_cons; [exact Hl|]. intros k' Hp Hl' H0 Ho _. split_and!; [done..|].
    intros q. by case_decide as E; [subst | apply Ho].
  - intros ->. apply wp_eq. by eapply wp_page_alloc_nil.
  - intros pp Hn Hlt. wp_go. eapply wp_page_free; [done..|]. intros k1 Hlk Hl1 _.
    eapply wp_page_alloc_cons; [exact Hl1|]. intros k2 Hp Hl2 _ _ _. split_and!; [done..|].
    eapply pages_only_trans; [by apply links_pages_only | done].
Qed.

(** A machine with three pages, the last two of them free. *)
Definition kernel_ex : kernel :=
  Kernel 3 3 KERNBASE
    [zero_page; MkPage (Entry (Some 2%nat) (Some PHead)) 0; MkPage (Entry None (Some (PNext 1))) 0]
    0 (Some 1%nat) 0 ∅ (fun _ => 0) ∅ 0 0 (Io [] []) [] [].
Lemma kernel_ex_is_list : is_list kernel_ex [1; 2]%nat.
Proof. repeat split; try reflexivity. repeat constructor; set_solver. Qed.

Lemma page_alloc_free_correct_witness :
  wp (page_free 0;; page_alloc) (fun r k' => r = (0, Some 0%nat) /\ is_list k' [1; 2]%nat) kernel_ex.
Proof.
  destruct (page_alloc_free_correct kernel_ex [1; 2]%nat kernel_ex_is_list) as (_ & _ & Hf).
  eapply wp_mono; [apply (Hf 0%nat); [set_solver | simpl; lia]|]. intros r k' (? & ? & _). done.
Defined.
