(* ===== verification/Pgdir.v ===== *)
(** * Pgdir: the two-level page tables (kern/pmap.c)

    [pgdir_walk], [page_lookup], [page_remove], [page_insert], [tlb_invalidate] and
    [check_va2pa], on the state of Kernel.v.  [vm_ok] is the invariant of the user
    part of an address space (below UTOP): every reference count is the number
    of page table and directory entries that point to the page (plus the
    references held elsewhere), page tables are not shared, free pages are not
    referenced.  [mapping] is the abstract state, a function from page numbers
    to pages and permissions; the theorems say that [page_insert] and
    [page_remove] are insertion into and deletion from it. *)

From S2P Require Import Prelude Layout Ports Queue Kernel.
Open Scope Z_scope.

Definition pgdir_walk (pgdir va create : Z) : M kernel Z :=
  let pde := pgdir + 4 * PDX va in
  e ← ld pde;
  ok ← (if e =? 0 then
          if create =? 0 then mret false
          else
            '(r, store) ← page_alloc;
            if negb (r =? 0) then mret false
            else
              pp ← deref store;
              st pde (Z.lor (Z.lor (Z.lor (page2pa pp) PTE_U) PTE_W) PTE_P);;
              set_ref pp 1;;
              pte ← KADDR (page2pa pp);
              kmemset pte 0 PGSIZE;;
              mret true
        else mret true);
  if ok : bool then
    e ← ld pde;
    pte ← KADDR (PTE_ADDR e);
    mret (pte + 4 * PTX va)
  else mret 0.

(** The page, and what is stored in [*pte_store] (whose address is not NULL
    when [store] holds). *)
Definition page_lookup (pgdir va : Z) (store : bool) : M kernel (option nat * option Z) :=
  pte ← pgdir_walk pgdir va 0;
  if pte =? 0 then mret (None, None)
  else
    e ← ld pte;
    mret (Some (Z.to_nat (PGNUM (PTE_ADDR e))), if store then Some pte else None).

Definition tlb_invalidate (pgdir va : Z) : M kernel () := invlpg va.

Definition page_remove (pgdir va : Z) : M kernel () :=
  '(pp, pte_store) ← page_lookup pgdir va true;
  match pp with
  | None => mret tt
  | Some pp =>
      page_decref pp;;
      pte ← deref pte_store;
      st pte 0;;
      tlb_invalidate pgdir va
  end.

(** The condition on the old entry is [( *pte && PTE_P) != 0]. *)
Definition page_insert (pgdir : Z) (pp : nat) (va perm : Z) : M kernel Z :=
  pte ← pgdir_walk pgdir va (Z.lor perm PTE_P);
  if pte =? 0 then mret (- E_NO_MEM)
  else
    r ← get_ref pp;
    set_ref pp (r + 1);;
    e ← ld pte;
    when (negb (e =? 0) && negb (PTE_P =? 0)) (page_remove pgdir va);;
    st pte (Z.lor (Z.lor (page2pa pp) PTE_P) perm);;
    mret 0.

Definition check_va2pa (pgdir va : Z) : M kernel Z :=
  e ← ld (pgdir + 4 * PDX va);
  if Z.land e PTE_P =? 0 then mret (u32 (Z.lnot 0))
  else
    p ← KADDR (PTE_ADDR e);
    x ← ld (p + 4 * PTX va);
    if Z.land x PTE_P =? 0 then mret (u32 (Z.lnot 0))
    else
      x ← ld (p + 4 * PTX va);
      mret (PTE_ADDR x).

(** ** Entries and slots *)

(** The directory entries below UTOP and the pages they can map. *)
Definition NUSER : Z := UTOP / PTSIZE.

Inductive slot : Type := SDir (i : Z) | SPage (n : Z).
#[export] Instance slot_eq_dec : EqDecision slot.
Proof. solve_decision. Defined.

Definition slots : list slot := (SDir <$> seqZ 0 NUSER) ++ (SPage <$> seqZ 0 (NUSER * 1024)).

Section space.
Context (pd : nat).    (* the page of the directory *)

Definition dir_addr (i : Z) : Z := Z.of_nat pd * PGSIZE + 4 * i.
Definition dir (k : kernel) (i : Z) : Z := word k (dir_addr i).
Definition pte_addr (k : kernel) (n : Z) : Z := PTE_ADDR (dir k (n / 1024)) + 4 * (n mod 1024).

(** What is in a slot; a page without a page table has no entry. *)
Definition content (k : kernel) (s : slot) : Z :=
  match s with
  | SDir i => dir k i
  | SPage n => if dir k (n / 1024) =? 0 then 0 else word k (pte_addr k n)
  end.

Definition target (c : Z) : option nat := if c =? 0 then None else Some (Z.to_nat (PGNUM c)).
Definition hit (c : Z) (p : nat) : bool := bool_decide (target c = Some p).

(** The number of slots that point to page [p]. *)
Definition refs (k : kernel) (p : nat) : Z := tally (fun s => hit (content k s) p) slots.

(** The abstract state: page number to page and permission bits. *)
Definition mapping (k : kernel) (n : Z) : option (nat * Z) :=
  let c := content k (SPage n) in
  if c =? 0 then None else Some (Z.to_nat (PGNUM c), c mod PGSIZE).

Definition entry_ok (k : kernel) (res : list nat) (c : Z) : Prop :=
  0 <= c < 2 ^ 32 /\ c mod 2 = 1 /\ PGNUM c < k_npages k /\ Z.to_nat (PGNUM c) ∉ res.

(** [l] is the free list; [res] are pages outside the allocator's care, among
    them the directory; [ext p] references to page [p] are held elsewhere. *)
Record vm_ok (ext : nat -> Z) (res : list nat) (k : kernel) (l : list nat) : Prop := VmOk {
  vm_np : k_npages k <= 65536;
  vm_len : Z.of_nat (length (k_pages k)) = k_npages k;
  vm_pd : pd ∈ res /\ Z.of_nat pd < k_npages k;
  vm_list : is_list k l;
  vm_free : forall p, p ∈ l -> ref_of k p = 0 /\ p ∉ res;
  vm_slot : forall s, s ∈ slots -> content k s <> 0 -> entry_ok k res (content k s);
  vm_tables : forall i i', 0 <= i < NUSER -> 0 <= i' < NUSER -> dir k i <> 0 -> dir k i' <> 0 ->
                PGNUM (dir k i) = PGNUM (dir k i') -> i = i';
  vm_refs : forall p, Z.of_nat p < k_npages k -> ref_of k p = refs k p + ext p /\ ref_of k p < 2 ^ 16;
}.

(** The TLB holds only entries that are in the page tables and present. *)
Definition tlb_ok (k : kernel) : Prop :=
  forall n e, 0 <= n < NUSER * 1024 -> k_tlb k !! n = Some e -> e = content k (SPage n) /\ e <> 0.
End space.

Lemma slots_dir i : SDir i ∈ slots <-> 0 <= i < NUSER.
Proof.
  unfold slots. rewrite elem_of_app, !list_elem_of_fmap. setoid_rewrite elem_of_seqZ.
  split; [intros [(? & [= ->] & ?)|(? & [=] & ?)]; lia|]. intros H. left. exists i. split; [done | lia].
Qed.
Lemma slots_page n : SPage n ∈ slots <-> 0 <= n < NUSER * 1024.
Proof.
  unfold slots. rewrite elem_of_app, !list_elem_of_fmap. setoid_rewrite elem_of_seqZ.
  split; [intros [(? & [=] & ?)|(? & [= ->] & ?)]; lia|]. intros H. right. exists n. split; [done | lia].
Qed.
Lemma slots_NoDup : NoDup slots.
Proof.
  unfold slots. apply NoDup_app. split_and!.
  - apply NoDup_fmap; [by intros ? ? [=] | apply NoDup_seqZ].
  - intros s (? & -> & _)%list_elem_of_fmap (? & [=] & _)%list_elem_of_fmap.
  - apply NoDup_fmap; [by intros ? ? [=] | apply NoDup_seqZ].
Qed.
#[global] Opaque slots.

Lemma NUSER_eq : NUSER = 955.
Proof. reflexivity. Qed.

(** A user address and its page number. *)
Definition user (va : Z) : Prop := 0 <= va < UTOP.

Lemma user_page va : user va ->
  0 <= PGNUM va < NUSER * 1024 /\ PGNUM va / 1024 = PDX va /\ PGNUM va mod 1024 = PTX va /\ 0 <= PDX va < NUSER.
Proof.
  unfold user. change UTOP with (955 * 2 ^ 22). rewrite NUSER_eq. intros Hva.
  pose proof (PDX_range va). pose proof (PTX_range va). rewrite PGNUM_split.
  assert (PDX va < 955) by (rewrite PDX_div, u32_small by lia; divmod).
  split_and!; divmod || lia.
Qed.

(** ** The invariant under a change of one slot *)

Lemma hit_0 p : hit 0 p = false.
Proof. reflexivity. Qed.

Section update.
Context (pd : nat).
Implicit Types (k : kernel) (p : nat).
Abbreviation content := (content pd).
Abbreviation refs := (refs pd).

Lemma refs_nonneg k p : 0 <= refs k p.
Proof using Type. apply tally_nonneg. Qed.

Lemma refs_slot k p s : s ∈ slots -> hit (content k s) p = true -> 0 < refs k p.
Proof using Type. intros Hs Hh. by eapply tally_pos. Qed.

Lemma refs_update k k' p s0 v :
  s0 ∈ slots -> (forall s, s ∈ slots -> content k' s = if decide (s = s0) then v else content k s) ->
  refs k' p = refs k p - Z.b2z (hit (content k s0) p) + Z.b2z (hit v p).
Proof using Type.
  intros Hs Hc. unfold refs. rewrite (tally_update (fun s => hit (content k s) p) (fun s => hit (content k' s) p) slots s0).
  - rewrite (Hc s0), decide_True by done. done.
  - apply slots_NoDup.
  - done.
  - intros s Hs' Hne. by rewrite (Hc s), decide_False.
Qed.

Lemma vm_update ext ext' res k k' l l' s0 v :
  vm_ok pd ext res k l ->
  k_npages k' = k_npages k -> length (k_pages k') = length (k_pages k) ->
  is_list k' l' -> (forall p, p ∈ l' -> ref_of k' p = 0 /\ p ∉ res) ->
  s0 ∈ slots -> (v <> 0 -> entry_ok k res v) ->
  (forall i i', s0 = SDir i -> v <> 0 -> i' <> i -> 0 <= i' < NUSER -> dir pd k i' <> 0 ->
     PGNUM (dir pd k i') <> PGNUM v) ->
  (forall s, s ∈ slots -> content k' s = if decide (s = s0) then v else content k s) ->
  (forall p, Z.of_nat p < k_npages k -> ref_of k' p < 2 ^ 16 /\
     ref_of k' p - ext' p = ref_of k p - ext p - Z.b2z (hit (content k s0) p) + Z.b2z (hit v p)) ->
  vm_ok pd ext' res k' l'.
Proof using Type.
  intros Hok Hnp Hlen Hl Hfree Hs Hv Htab Hc Hr. destruct Hok.
  assert (Hdir : forall i, 0 <= i < NUSER -> dir pd k' i = if decide (SDir i = s0) then v else dir pd k i).
  { intros i Hi. apply (Hc (SDir i)). by apply slots_dir. }
  constructor.
  - by rewrite Hnp.
  - by rewrite Hlen, Hnp.
  - by rewrite Hnp.
  - done.
  - done.
  - intros s Hss. rewrite (Hc s Hss). unfold entry_ok. rewrite Hnp. case_decide; [exact Hv | by apply vm_slot0].
  - intros i i' Hi Hi'. rewrite (Hdir i Hi), (Hdir i' Hi').
    case_decide as E1; case_decide as E2; try congruence.
    + intros Hv0 Hd0 E. destruct (decide (i' = i)) as [->|Hne]; [done|].
      by destruct (Htab i i' (eq_sym E1) Hv0 Hne Hi' Hd0).
    + intros Hd0 Hv0 E. destruct (decide (i = i')) as [->|Hne]; [done|].
      by destruct (Htab i' i (eq_sym E2) Hv0 Hne Hi Hd0).
    + intros Hd0 Hd0' E. by apply vm_tables0.
  - intros p Hp. rewrite Hnp in Hp. destruct (Hr p Hp) as [Hb He]. split; [|done].
    rewrite (refs_update k k' p s0 v Hs Hc). destruct (vm_refs0 p Hp). lia.
Qed.

(** A change that is invisible in the slots. *)
Lemma vm_same ext ext' res k k' l l' :
  vm_ok pd ext res k l ->
  k_npages k' = k_npages k -> length (k_pages k') = length (k_pages k) ->
  is_list k' l' -> (forall p, p ∈ l' -> ref_of k' p = 0 /\ p ∉ res) ->
  (forall pa, word k' pa = word k pa) ->
  (forall p, Z.of_nat p < k_npages k -> ref_of k' p < 2 ^ 16 /\ ref_of k' p - ext' p = ref_of k p - ext p) ->
  vm_ok pd ext' res k' l'.
Proof using Type.
  intros Hok Hnp Hlen Hl Hfree Hw Hr. set (s0 := SDir 0).
  assert (Hs0 : s0 ∈ slots) by (apply slots_dir; by rewrite NUSER_eq).
  assert (Hcs : forall s, content k' s = content k s).
  { intros [i|n]; cbn; unfold pte_addr, dir; by rewrite !Hw. }
  eapply (vm_update ext ext' res k k' l l' s0 (content k s0)); try done.
  - intros Hne. by apply (vm_slot _ _ _ _ _ Hok).
  - intros i i' Hi Hv Hne Hi' Hd E. apply Hne. eapply (vm_tables _ _ _ _ _ Hok); try done.
    + rewrite NUSER_eq in *. injection Hi. lia.
    + injection Hi as <-. done.
    + injection Hi as <-. done.
  - intros s _. rewrite Hcs. by case_decide as E; [rewrite E|].
  - intros p Hp. destruct (Hr p Hp). split; [done | lia].
Qed.

Lemma entry_page k res c : entry_ok k res c -> c <> 0 ->
  PTE_ADDR c = PGNUM c * PGSIZE /\ 0 <= PGNUM c < k_npages k /\ target c = Some (Z.to_nat (PGNUM c)).
Proof using Type.
  intros (Hr & _ & Hlt & _) Hne. rewrite PTE_ADDR_div, PGNUM_div in *. rewrite u32_small in * by lia.
  split; [done|]. split; [split; [apply Z.div_pos; lia | done]|].
  unfold target. rewrite PGNUM_div, u32_small by lia. by replace (c =? 0) with false by lia.
Qed.

(** Directory entries and page table entries are words of RAM. *)
Lemma dir_in_ram ext res k l i :
  vm_ok pd ext res k l -> 0 <= i < NUSER -> in_ram k (KERNBASE + Z.of_nat pd * PGSIZE + 4 * i) = true.
Proof using Type.
  intros Hok Hi. rewrite NUSER_eq in Hi. apply page_in_ram_word; [|lia].
  split; [|apply Hok]. destruct (vm_pd _ _ _ _ _ Hok). lia.
Qed.

Lemma table_in_ram ext res k l n :
  vm_ok pd ext res k l -> 0 <= n < NUSER * 1024 -> dir pd k (n / 1024) <> 0 ->
  exists t, PTE_ADDR (dir pd k (n / 1024)) = t * PGSIZE /\ page_in_ram k t /\ (Z.to_nat t ∉ res) /\
    t = PGNUM (dir pd k (n / 1024)) /\
    in_ram k (KERNBASE + pte_addr pd k n) = true.
Proof using Type.
  intros Hok Hn Hd.
  assert (Hs : SDir (n / 1024) ∈ slots) by (apply slots_dir; divmod).
  pose proof (vm_slot _ _ _ _ _ Hok _ Hs Hd) as He. cbn in He.
  destruct (entry_page _ _ _ He Hd) as (Ha & Ht & _). exists (PGNUM (dir pd k (n / 1024))).
  assert (Hin : page_in_ram k (PGNUM (dir pd k (n / 1024)))) by (split; [done | apply Hok]).
  split_and!; [done|done|apply He|done|]. unfold pte_addr. rewrite Ha, Z.add_assoc.
  apply page_in_ram_word; [done|]. divmod.
Qed.

(** Storing into a page table entry changes that slot only. *)
Lemma content_set_pte ext res k l n v :
  vm_ok pd ext res k l -> 0 <= n < NUSER * 1024 -> dir pd k (n / 1024) <> 0 ->
  forall s, s ∈ slots ->
  content (set_word (pte_addr pd k n) v k) s = if decide (s = SPage n) then u32 v else content k s.
Proof using Type.
  intros Hok Hn Hd s Hs. destruct (table_in_ram _ _ _ _ _ Hok Hn Hd) as (t & Ht & Htr & Htn & Etn & _).
  assert (Hdir : forall i, 0 <= i < NUSER -> dir pd (set_word (pte_addr pd k n) v k) i = dir pd k i).
  { intros i Hi. unfold dir at 1. rewrite word_set_word, decide_False; [done|].
    unfold pte_addr, dir_addr. rewrite Ht. intros E.
    assert (t = Z.of_nat pd) as -> by (rewrite NUSER_eq in *; unfold PGSIZE in E; divmod).
    rewrite Nat2Z.id in Htn. by destruct (vm_pd _ _ _ _ _ Hok). }
  destruct s as [i|m]; cbn.
  - apply slots_dir in Hs. rewrite decide_False by done. by apply Hdir.
  - apply slots_page in Hs. rewrite Hdir by divmod.
    destruct (Z.eqb_spec (dir pd k (m / 1024)) 0) as [E0|Hm].
    { rewrite decide_False; [done|]. intros [= ->]. done. }
    assert (Hpa : forall k', dir pd k' (m / 1024) = dir pd k (m / 1024) -> pte_addr pd k' m = pte_addr pd k m)
      by (intros k' E; unfold pte_addr; by rewrite E).
    rewrite Hpa by (apply Hdir; divmod). rewrite word_set_word.
    destruct (table_in_ram _ _ _ _ _ Hok Hs Hm) as (t' & Ht' & _ & _ & Et' & _).
    destruct (decide (SPage m = SPage n)) as [[= ->]|Hne]; [by rewrite decide_True|].
    rewrite decide_False; [done|]. unfold pte_addr. rewrite Ht, Ht'. intros E.
    assert (t = t' /\ n mod 1024 = m mod 1024) as [Ett Emod].
    { assert (0 <= n mod 1024 < 1024) by divmod. assert (0 <= m mod 1024 < 1024) by divmod.
      unfold PGSIZE in E. lia. }
    assert (n / 1024 = m / 1024).
    { eapply (vm_tables _ _ _ _ _ Hok); [divmod|divmod|done|done|congruence]. }
    apply Hne. f_equal. rewrite (Z.div_mod n 1024), (Z.div_mod m 1024); lia.
Qed.
End update.

(** ** pgdir_walk *)

(** Nothing but RAM, the page descriptors, the free list and the TLB changes. *)
Definition mm_only (k k' : kernel) : Prop :=
  k' = set_tlb (k_tlb k') (set_ram (k_ram k') (set_free (k_free k') (set_pages (k_pages k') k))) /\
  length (k_pages k') = length (k_pages k).

Lemma mm_only_refl k : mm_only k k.
Proof. by destruct k. Qed.
Lemma mm_only_trans k1 k2 k3 : mm_only k1 k2 -> mm_only k2 k3 -> mm_only k1 k3.
Proof. intros [-> H1] [-> H2]. split; [done | cbn in *; congruence]. Qed.
Lemma mm_only_pages k k' : pages_only k k' -> mm_only k k'.
Proof. intros [-> H]. done. Qed.
Lemma mm_only_ram k k' : ram_only k k' -> mm_only k k'.
Proof. intros ->. done. Qed.
Lemma mm_only_npages k k' : mm_only k k' -> k_npages k' = k_npages k.
Proof. intros [-> _]. done. Qed.

Definition pgdir_of (pd : nat) : Z := KERNBASE + Z.of_nat pd * PGSIZE.

Lemma lor_PTE_flags n :
  Z.lor (Z.lor (Z.lor (n * PGSIZE) PTE_U) PTE_W) PTE_P = n * PGSIZE + 7.
Proof.
  rewrite <- !Z.lor_assoc. change (Z.lor PTE_U (Z.lor PTE_W PTE_P)) with 7.
  apply (lor_low_add _ _ 12); [lia | lia |]. unfold PGSIZE. change (2 ^ 12) with 4096. apply Z.mod_mul. lia.
Qed.

Lemma entry_fields n f : 0 <= n < 2 ^ 20 -> 0 <= f < PGSIZE ->
  PGNUM (n * PGSIZE + f) = n /\ PTE_ADDR (n * PGSIZE + f) = n * PGSIZE /\ (n * PGSIZE + f) mod PGSIZE = f.
Proof.
  intros Hn Hf. unfold PGSIZE in *. rewrite PGNUM_div, PTE_ADDR_div, u32_small by lia.
  split_and!; [divmod | divmod | rewrite Z.add_comm, Z.mod_add by lia; apply Z.mod_small; lia].
Qed.

Section walk.
Context (pd : nat).
Abbreviation content := (content pd).

(** A page table for the directory entry [i], installed in page [p]. *)
Record table_added (k k' : kernel) (i : Z) (p : nat) : Prop := TableAdded {
  ta_mm : mm_only k k';
  ta_tlb : k_tlb k' = k_tlb k;
  ta_content : forall s, s ∈ slots -> content k' s = if decide (s = SDir i) then Z.of_nat p * PGSIZE + 7 else content k s;
  ta_ref : forall q, ref_of k' q = if decide (q = p) then 1 else ref_of k q;
  ta_word : forall pa, pa <> dir_addr pd i ->
    ~ (Z.of_nat p * PGSIZE <= pa < (Z.of_nat p + 1) * PGSIZE) -> word k' pa = word k pa;
}.

(** A free page is neither a page table nor the target of a page table. *)
Lemma free_not_referenced ext res k l p s :
  vm_ok pd ext res k l -> (forall q, 0 <= ext q) -> p ∈ l -> s ∈ slots -> content k s <> 0 ->
  PGNUM (content k s) <> Z.of_nat p.
Proof using Type.
  intros Hok Hext Hp Hs Hc E.
  destruct (entry_page _ _ _ (vm_slot _ _ _ _ _ Hok s Hs Hc) Hc) as (_ & Hr & Ht).
  assert (Hlt : Z.of_nat p < k_npages k) by lia.
  destruct (vm_refs _ _ _ _ _ Hok p Hlt) as [Hrf _]. destruct (vm_free _ _ _ _ _ Hok p Hp) as [H0 _].
  assert (0 < refs pd k p).
  { eapply refs_slot; [exact Hs|]. apply bool_decide_eq_true. rewrite Ht, E. f_equal. apply Nat2Z.id. }
  specialize (Hext p). lia.
Qed.

Lemma table_added_content k k1 k2 k3 i p :
  0 <= i < NUSER -> dir pd k i = 0 -> Z.of_nat p < k_npages k -> k_npages k <= 65536 -> p <> pd ->
  (forall n, 0 <= n < NUSER * 1024 -> dir pd k (n / 1024) <> 0 ->
     exists t, PTE_ADDR (dir pd k (n / 1024)) = t * PGSIZE /\ t <> Z.of_nat p /\ t <> Z.of_nat pd) ->
  (forall pa, word k1 pa = word k pa) ->
  k2 = set_word (dir_addr pd i) (Z.of_nat p * PGSIZE + 7) k1 ->
  (forall pa, word k3 pa = if decide (Z.of_nat p * PGSIZE <= pa < (Z.of_nat p + 1) * PGSIZE /\ pa mod 4 = 0)
                           then 0 else word k2 pa) ->
  forall s, s ∈ slots -> content k3 s = if decide (s = SDir i) then Z.of_nat p * PGSIZE + 7 else content k s.
Proof using Type.
  intros Hi Hd Hp Hnp Hpd Hoth Hw1 -> Hw3. rewrite NUSER_eq in Hi.
  assert (Hdir : forall j, 0 <= j < 955 -> dir pd k3 j = if decide (j = i) then Z.of_nat p * PGSIZE + 7 else dir pd k j).
  { intros j Hj. unfold dir. rewrite Hw3, decide_False by (unfold dir_addr, PGSIZE; lia).
    rewrite word_set_word, Hw1. unfold dir_addr, PGSIZE.
    case_decide as E; case_decide as E'; try (exfalso; lia); [|done]. apply u32_small. unfold PGSIZE. lia. }
  intros [j|n] Hs; [apply slots_dir in Hs | apply slots_page in Hs]; rewrite NUSER_eq in Hs; cbn.
  - rewrite Hdir by done. case_decide as E; case_decide as E'; congruence.
  - assert (Hj : 0 <= n / 1024 < 955) by divmod. rewrite decide_False by done.
    destruct (decide (n / 1024 = i)) as [E|E].
    + unfold pte_addr. rewrite (Hdir _ Hj), decide_True by done. rewrite E, Hd.
      replace (Z.of_nat p * PGSIZE + 7 =? 0) with false by (unfold PGSIZE; lia).
      destruct (entry_fields (Z.of_nat p) 7) as (_ & -> & _); [lia | unfold PGSIZE; lia |].
      rewrite Hw3, decide_True; [done|]. unfold PGSIZE.
      assert (0 <= n mod 1024 < 1024) by divmod. split; [lia|]. divmod.
    + unfold pte_addr. rewrite (Hdir _ Hj), decide_False by done.
      destruct (Z.eqb_spec (dir pd k (n / 1024)) 0) as [|Hne]; [done|].
      destruct (Hoth n ltac:(rewrite NUSER_eq; lia) Hne) as (t & -> & Htp & Htd).
      assert (0 <= n mod 1024 < 1024) by divmod. 
      rewrite Hw3, decide_False by (unfold PGSIZE; lia). rewrite word_set_word, decide_False; [by rewrite Hw1|].
      unfold dir_addr, PGSIZE. lia.
Qed.

(** The address arithmetic of a directory access. *)
Lemma dir_va i : pgdir_of pd + 4 * i - KERNBASE = dir_addr pd i.
Proof using Type. unfold pgdir_of, dir_addr. lia. Qed.

Lemma wp_ld_dir ext res k l i (Q : Z -> kernel -> Prop) :
  vm_ok pd ext res k l -> 0 <= i < NUSER -> Q (dir pd k i) k -> wp (ld (pgdir_of pd + 4 * i)) Q k.
Proof using Type.
  intros Hok Hi HQ. apply wp_ld; [by eapply dir_in_ram|]. by rewrite dir_va.
Qed.

(** The end of the walk, once there is a page table. *)
Lemma wp_walk_end ext res k l va (Q : Z -> kernel -> Prop) :
  vm_ok pd ext res k l -> user va -> dir pd k (PDX va) <> 0 ->
  Q (KERNBASE + pte_addr pd k (PGNUM va)) k ->
  wp (ld (pgdir_of pd + 4 * PDX va))
    (fun e k' => wp (pte ← KADDR (PTE_ADDR e); mret (pte + 4 * PTX va)) Q k') k.
Proof using Type.
  intros Hok Hva Hd HQ. destruct (user_page va Hva) as (Hn & Hdx & Htx & Hi).
  eapply wp_ld_dir; [exact Hok|exact Hi|]. wp_go. rewrite <- Hdx in Hd |- *.
  destruct (table_in_ram _ _ _ _ _ _ Hok Hn Hd) as (t & Ht & Htr & _).
  rewrite Ht. rewrite <- (Z.add_0_r (t * PGSIZE)). apply wp_KADDR_page; [done | unfold PGSIZE; lia|]. wp_go.
  unfold pte_addr in HQ. rewrite Ht in HQ. rewrite <- Htx.
  replace (KERNBASE + t * PGSIZE + 0 + 4 * (PGNUM va mod 1024)) with (KERNBASE + (t * PGSIZE + 4 * (PGNUM va mod 1024))) by lia.
  done.
Qed.

Lemma table_added_vm ext res k l k' i p :
  vm_ok pd ext res k (p :: l) -> (forall q, 0 <= ext q) -> 0 <= i < NUSER -> dir pd k i = 0 ->
  Z.of_nat p < k_npages k -> is_list k' l -> table_added k k' i p -> vm_ok pd ext res k' l.
Proof using Type.
  intros Hok Hext Hi Hd Hp Hl [Hmm _ Hc Hr _]. pose proof (vm_np _ _ _ _ _ Hok) as Hnp.
  destruct (vm_free _ _ _ _ _ Hok p) as [Hr0 Hres]; [set_solver|].
  destruct (entry_fields (Z.of_nat p) 7) as (Hpg & _ & _); [lia | unfold PGSIZE; lia |].
  set (v := Z.of_nat p * PGSIZE + 7) in *.
  assert (Hv : v <> 0) by (subst v; unfold PGSIZE; lia).
  eapply (vm_update pd ext ext res k k' (p :: l) l (SDir i) v).
  - exact Hok.
  - by apply mm_only_npages.
  - apply Hmm.
  - done.
  - intros q Hq. rewrite Hr. destruct (vm_list _ _ _ _ _ Hok) as (_ & _ & Hnd). apply NoDup_cons in Hnd as [Hpl _].
    rewrite decide_False by congruence. apply (vm_free _ _ _ _ _ Hok). set_solver.
  - by apply slots_dir.
  - intros _. unfold entry_ok. rewrite Hpg, Nat2Z.id. split_and!; [subst v; unfold PGSIZE; lia|subst v; unfold PGSIZE; lia| |lia|done].
    subst v. unfold PGSIZE. divmod.
  - intros i0 i' [= <-] _ Hne Hi' Hd'. rewrite Hpg.
    eapply (free_not_referenced _ _ _ _ p (SDir i') Hok Hext); [set_solver | by apply slots_dir | done].
  - done.
  - intros q Hq. rewrite Hr. destruct (vm_refs _ _ _ _ _ Hok q Hq). cbn [content]. rewrite Hd, hit_0.
    unfold hit, target. replace (v =? 0) with false by lia. rewrite Hpg, Nat2Z.id.
    destruct (decide (q = p)) as [->|Hne]; [rewrite bool_decide_true by done; simpl; lia|].
    rewrite bool_decide_false by congruence. simpl. lia.
Qed.

Lemma wp_pgdir_walk ext res k l va create (Q : Z -> kernel -> Prop) :
  vm_ok pd ext res k l -> (forall q, 0 <= ext q) -> user va ->
  (dir pd k (PDX va) <> 0 -> Q (KERNBASE + pte_addr pd k (PGNUM va)) k) ->
  (dir pd k (PDX va) = 0 -> create = 0 \/ l = [] -> Q 0 k) ->
  (dir pd k (PDX va) = 0 -> create <> 0 -> forall p l' k', l = p :: l' ->
     vm_ok pd ext res k' l' -> table_added k k' (PDX va) p -> dir pd k' (PDX va) <> 0 -> pages_frame (p :: l') k k' ->
     Q (KERNBASE + pte_addr pd k' (PGNUM va)) k') ->
  wp (pgdir_walk (pgdir_of pd) va create) Q k.
Proof using Type.
  intros Hok Hext Hva Q1 Q2 Q3. destruct (user_page va Hva) as (Hn & Hdx & Htx & Hi).
  unfold pgdir_walk. wp_go. eapply wp_ld_dir; [exact Hok|exact Hi|]. wp_go.
  destruct (Z.eqb_spec (dir pd k (PDX va)) 0) as [E|E]; wp_go; [|eapply wp_walk_end; [done..|by apply Q1]].
  destruct (Z.eqb_spec create 0) as [Ec|Ec]; wp_go; [apply Q2; tauto|].
  destruct l as [|p l]; [eapply wp_page_alloc_nil; [apply Hok|]; change (negb (- E_NO_MEM =? 0)) with true; wp_go; tauto|].
  eapply wp_page_alloc_cons; [apply Hok|]. intros k1 Hp1 Hl1 Hr1 Ho1 Hfr1.
  change (negb (0 =? 0)) with false. wp_go. apply (wp_deref _ p); [done|]. wp_go.
  pose proof (vm_np _ _ _ _ _ Hok) as Hnp. destruct (vm_free _ _ _ _ _ Hok p) as [Hr0 Hres]; [set_solver|].
  assert (Hp : Z.of_nat p < k_npages k).
  { rewrite <- (vm_len _ _ _ _ _ Hok). destruct (vm_list _ _ _ _ _ Hok) as (_ & Hc & _).
    apply (chain_lookup _ _ _ p) in Hc; [lia | set_solver]. }
  assert (Hpk : page_in_ram k (Z.of_nat p)) by (split; [lia | done]).
  assert (Hnp1 : k_npages k1 = k_npages k) by (by destruct Hp1 as [-> _]).
  rewrite (page2pa_eq k) by done. rewrite lor_PTE_flags.
  apply wp_st; [unfold in_ram; rewrite Hnp1; by eapply dir_in_ram|]. rewrite dir_va. wp_go.
  set (k2 := set_word _ _ k1).
  assert (Hlen2 : length (k_pages k2) = length (k_pages k)) by apply Hp1.
  apply wp_set_ref. { rewrite Hlen2. pose proof (vm_len _ _ _ _ _ Hok). lia. }
  intros k2' (Hp2 & Hr2 & Ho2 & Hl2 & Hfr2). wp_go.
  assert (Hpk2 : page_in_ram k2' (Z.of_nat p)).
  { split; destruct Hp2 as [-> _]; cbn; rewrite Hnp1; [lia | done]. }
  rewrite <- (Z.add_0_r (Z.of_nat p * PGSIZE)). apply wp_KADDR_page; [done | unfold PGSIZE; lia|]. wp_go.
  rewrite Z.add_0_r. apply wp_kmemset_page; [done|]. intros k3 Hro Hw3. wp_go.
  change (u32 (u8 0 * 16843009)) with 0 in Hw3.
  assert (Hadded : table_added k k3 (PDX va) p).
  { constructor.
    - eapply mm_only_trans; [by apply mm_only_pages|]. eapply mm_only_trans; [|by apply mm_only_ram].
      eapply mm_only_trans; [|apply mm_only_pages; exact Hp2]. subst k2. done.
    - rewrite Hro. cbn. destruct Hp2 as [-> _]. cbn. by destruct Hp1 as [-> _].
    - eapply (table_added_content k k1 k2 k3); try done.
      + intros ->. destruct (vm_pd _ _ _ _ _ Hok). done.
      + intros n Hn' Hd. destruct (table_in_ram _ _ _ _ _ _ Hok Hn' Hd) as (t & Ht & Htr & Htn & Et & _).
        exists t. split_and!; [done| |intros ->; rewrite Nat2Z.id in Htn; by destruct (vm_pd _ _ _ _ _ Hok)].
        rewrite Et. eapply (free_not_referenced _ _ _ _ p (SDir (n / 1024)) Hok Hext); [set_solver | apply slots_dir; divmod | done].
      + intros pa. by apply pages_only_word.
      + intros pa. rewrite Hw3. case_decide; [done|]. by apply pages_only_word.
    - intros q. assert (ref_of k3 q = ref_of k2' q) as -> by (by rewrite Hro).
      case_decide as E'; [subst q; rewrite Hr2; by apply u16_small|]. rewrite Ho2 by done. by apply Ho1.
    - intros pa Hne Hout. rewrite Hw3, decide_False by tauto. rewrite (pages_only_word _ _ _ Hp2).
      subst k2. rewrite word_set_word, decide_False by done. by apply pages_only_word. }
  assert (Hl3 : is_list k3 l).
  { apply (is_list_same k2'); [by rewrite Hro..|]. apply Hl2. by apply (is_list_same k1). }
  assert (Hok3 : vm_ok pd ext res k3 l) by (eapply table_added_vm; done).
  assert (Hd3 : dir pd k3 (PDX va) <> 0).
  { pose proof (ta_content _ _ _ _ Hadded (SDir (PDX va)) ltac:(by apply slots_dir)) as Hc. cbn in Hc.
    rewrite decide_True in Hc by done. rewrite Hc. unfold PGSIZE. lia. }
  assert (Hfr : pages_frame (p :: l) k k3).
  { eapply pages_frame_trans; [exact Hfr1|]. eapply pages_frame_trans; [eapply pages_frame_mono; [|exact Hfr2]; set_solver|].
    apply pages_frame_same. by rewrite Hro. }
  eapply wp_walk_end; [exact Hok3|done|done|]. by eapply Q3.
Qed.
End walk.

(** ** page_lookup and page_remove *)

Section remove.
Context (pd : nat).
Abbreviation content := (content pd).

Lemma content_page_dir k n : content k (SPage n) <> 0 -> dir pd k (n / 1024) <> 0.
Proof using Type. cbn. intros H E. by rewrite E in H. Qed.

Lemma content_page_word k n : dir pd k (n / 1024) <> 0 -> content k (SPage n) = word k (pte_addr pd k n).
Proof using Type. intros H. cbn. by apply Z.eqb_neq in H as ->. Qed.

(** The page table entry of [n] is overwritten with [v]. *)
Record pte_written (k k' : kernel) (n v : Z) : Prop := PteWritten {
  pw_content : forall s, s ∈ slots -> content k' s = if decide (s = SPage n) then v else content k s;
  pw_word : forall pa, pa <> pte_addr pd k n -> word k' pa = word k pa;
}.

Lemma pte_written_addr k k' n v : 0 <= n < NUSER * 1024 -> pte_written k k' n v -> pte_addr pd k' n = pte_addr pd k n.
Proof using Type.
  intros Hn [Hc _]. assert (Hs : SDir (n / 1024) ∈ slots) by (apply slots_dir; divmod).
  specialize (Hc _ Hs). rewrite decide_False in Hc by done. cbn in Hc. unfold pte_addr. by rewrite Hc.
Qed.

(** Storing [v] moves the reference the entry held to what [v] points to. *)
Lemma wp_st_pte ext res k l n v (Q : () -> kernel -> Prop) :
  vm_ok pd ext res k l -> 0 <= n < NUSER * 1024 -> dir pd k (n / 1024) <> 0 ->
  0 <= v < 2 ^ 32 -> (v <> 0 -> entry_ok k res v) ->
  (forall k', mm_only k k' -> k_pages k' = k_pages k -> k_tlb k' = k_tlb k -> pte_written k k' n v ->
     vm_ok pd (fun p => ext p + Z.b2z (hit (content k (SPage n)) p) - Z.b2z (hit v p)) res k' l -> Q tt k') ->
  wp (st (KERNBASE + pte_addr pd k n) v) Q k.
Proof using Type.
  intros Hok Hn Hd Hv He HQ.
  destruct (table_in_ram _ _ _ _ _ _ Hok Hn Hd) as (t & Ht & Htr & Htn & Et & Hin).
  apply wp_st; [done|]. replace (KERNBASE + pte_addr pd k n - KERNBASE) with (pte_addr pd k n) by lia.
  assert (Hcont : forall s, s ∈ slots -> content (set_word (pte_addr pd k n) v k) s = if decide (s = SPage n) then v else content k s).
  { intros s Hs. rewrite (content_set_pte pd ext res k l n v) by done. by rewrite u32_small by lia. }
  apply HQ; [done|done|done| |].
  - split; [done|]. intros pa Hne. by rewrite word_set_word, decide_False.
  - eapply (vm_update pd ext _ res k _ l l (SPage n) v); try done.
    + apply (is_list_same k); [done|done|]. apply Hok.
    + intros p Hp. apply (vm_free _ _ _ _ _ Hok p Hp).
    + by apply slots_page.
    + intros p Hp. destruct (vm_refs _ _ _ _ _ Hok p Hp) as [_ Hb]. split; [exact Hb|].
      change (ref_of (set_word (pte_addr pd k n) v k) p) with (ref_of k p). lia.
Qed.

(** The page a nonzero entry points to is in use. *)
Lemma mapped_page ext res k l s :
  vm_ok pd ext res k l -> (forall q, 0 <= ext q) -> s ∈ slots -> content k s <> 0 ->
  let q := Z.to_nat (PGNUM (content k s)) in
  Z.of_nat q = PGNUM (content k s) /\ Z.of_nat q < k_npages k /\ (q < length (k_pages k))%nat /\
  0 < ref_of k q < 2 ^ 16 /\ (q ∉ l) /\ (q ∉ res) /\ (forall p, hit (content k s) p = bool_decide (p = q)).
Proof using Type.
  intros Hok Hext Hs Hc q. pose proof (vm_slot _ _ _ _ _ Hok _ Hs Hc) as He.
  destruct (entry_page _ _ _ He Hc) as (_ & Hr & Ht). fold q in Ht.
  assert (Hq : Z.of_nat q = PGNUM (content k s)) by lia.
  assert (Hhit : forall p, hit (content k s) p = bool_decide (p = q)).
  { intros p. unfold hit. rewrite Ht. apply bool_decide_ext. naive_solver. }
  destruct (vm_refs _ _ _ _ _ Hok q ltac:(lia)) as [Hrf Hb].
  assert (0 < refs pd k q) by (eapply refs_slot; [exact Hs | rewrite Hhit; by apply bool_decide_eq_true]).
  specialize (Hext q). split_and!; try done; try lia.
  - pose proof (vm_len _ _ _ _ _ Hok). lia.
  - intros Hl. destruct (vm_free _ _ _ _ _ Hok _ Hl). lia.
  - by apply He.
Qed.

(** [page_lookup] where there is a page table. *)
Lemma wp_page_lookup_table ext res k l va (Q : option nat * option Z -> kernel -> Prop) :
  vm_ok pd ext res k l -> (forall q, 0 <= ext q) -> user va -> dir pd k (PDX va) <> 0 ->
  Q (Some (Z.to_nat (PGNUM (PTE_ADDR (content k (SPage (PGNUM va)))))), Some (KERNBASE + pte_addr pd k (PGNUM va))) k ->
  wp (page_lookup (pgdir_of pd) va true) Q k.
Proof using Type.
  intros Hok Hext Hva Hd HQ. destruct (user_page va Hva) as (Hn & Hdx & _ & _).
  unfold page_lookup. wp_go. eapply wp_pgdir_walk; [done..| |by intros|by intros].
  intros _. rewrite <- Hdx in Hd. destruct (table_in_ram _ _ _ _ _ _ Hok Hn Hd) as (t & Ht & Htr & _ & _ & Hin).
  replace (KERNBASE + pte_addr pd k (PGNUM va) =? 0) with false.
  2: { symmetry. apply Z.eqb_neq. unfold pte_addr. rewrite Ht. destruct Htr as [? _]. unfold KERNBASE, PGSIZE.
       assert (0 <= PGNUM va mod 1024) by divmod. lia. }
  wp_go. apply wp_ld; [done|]. wp_go.
  replace (KERNBASE + pte_addr pd k (PGNUM va) - KERNBASE) with (pte_addr pd k (PGNUM va)) by lia.
  by rewrite <- content_page_word.
Qed.

Lemma PGNUM_PTE_ADDR c : PGNUM (PTE_ADDR c) = PGNUM c.
Proof using Type.
  rewrite !PGNUM_div, PTE_ADDR_div. pose proof (u32_range c). rewrite (u32_small (_ * _)) by divmod. divmod.
Qed.

Lemma wp_page_remove ext res k l va (Q : () -> kernel -> Prop) :
  vm_ok pd ext res k l -> (forall q, 0 <= ext q) -> user va ->
  let n := PGNUM va in let c := content k (SPage n) in let q := Z.to_nat (PGNUM c) in
  c <> 0 ->
  (forall k', vm_ok pd ext res k' (if ref_of k q =? 1 then q :: l else l) -> mm_only k k' ->
     pte_written k k' n 0 -> k_tlb k' = delete n (k_tlb k) ->
     (forall p, ref_of k' p = if decide (p = q) then ref_of k q - 1 else ref_of k p) -> pages_frame (q :: l) k k' -> Q tt k') ->
  wp (page_remove (pgdir_of pd) va) Q k.
Proof using Type.
  intros Hok Hext Hva n c q Hc HQ. destruct (user_page va Hva) as (Hn & Hdx & _ & _). fold n in Hn, Hdx.
  pose proof (content_page_dir _ _ Hc) as Hd.
  assert (Hs : SPage n ∈ slots) by (by apply slots_page).
  destruct (mapped_page _ _ _ _ _ Hok Hext Hs Hc) as (Hq & Hqn & Hql & Hqr & Hqf & Hqres & Hhit).
  fold c q in Hq, Hqn, Hql, Hqr, Hqf, Hqres, Hhit.
  unfold page_remove. wp_go. eapply wp_page_lookup_table; [done..|by rewrite <- Hdx|].
  fold n c. rewrite PGNUM_PTE_ADDR. fold q. wp_go.
  eapply (wp_page_decref k q l); [apply Hok|done|done|done|].
  intros k1 Hp1 Hr1 Ho1 Hl1 Hfr. wp_go. eapply wp_deref; [done|]. wp_go.
  assert (Hok1 : vm_ok pd (fun p => ext p - Z.b2z (bool_decide (p = q))) res k1 (if ref_of k q =? 1 then q :: l else l)).
  { eapply (vm_same pd ext); [exact Hok|by destruct Hp1 as [-> _]|by destruct Hp1|done| |intros pa; by apply pages_only_word|].
    - intros p Hp. assert (p = q /\ ref_of k q = 1 \/ p <> q /\ p ∈ l) as [[-> E]|[Hne Hpl]].
      { destruct (Z.eqb_spec (ref_of k q) 1); [apply elem_of_cons in Hp as [->|?]; [by left|]|]; right; (split; [by intros ->|done]). }
      + split; [lia | done].
      + rewrite Ho1 by done. by apply (vm_free _ _ _ _ _ Hok).
    - intros p Hp. destruct (vm_refs _ _ _ _ _ Hok p Hp). case_bool_decide as E; [subst p; simpl; lia|].
      rewrite Ho1 by done. simpl. lia. }
  assert (Hw1 : forall pa, word k1 pa = word k pa) by (intros; by apply pages_only_word).
  assert (Hcs : forall s, content k1 s = content k s) by (intros [i|m]; cbn; unfold pte_addr, dir; by rewrite !Hw1).
  assert (Ha : pte_addr pd k n = pte_addr pd k1 n) by (unfold pte_addr, dir; by rewrite !Hw1).
  rewrite Ha. eapply (wp_st_pte _ _ _ _ _ 0 _ Hok1); [done|unfold dir; by rewrite Hw1|lia|done|].
  intros k2 Hm2 Hpg2 Htl2 Hpw2 Hok2. unfold tlb_invalidate, invlpg. wp_go. fold n. apply HQ.
  - eapply (vm_same pd); [exact Hok2|done|done|apply (is_list_same k2); [done|done|apply Hok2]| |done|].
    + intros p Hp. apply (vm_free _ _ _ _ _ Hok2 p Hp).
    + intros p Hp. destruct (vm_refs _ _ _ _ _ Hok2 p Hp) as [_ Hb]. split; [exact Hb|].
      rewrite Hcs. fold c. rewrite Hhit, hit_0. simpl. change (ref_of (set_tlb _ k2) p) with (ref_of k2 p). lia.
  - eapply mm_only_trans; [by apply mm_only_pages|]. eapply mm_only_trans; [exact Hm2|]. done.
  - destruct Hpw2 as [P1 P2]. split.
    + intros s Hss. change (content (set_tlb (delete n (k_tlb k2)) k2) s) with (content k2 s).
      rewrite (P1 s Hss). by rewrite Hcs.
    + intros pa Hne. rewrite Ha in Hne. change (word (set_tlb _ k2) pa) with (word k2 pa). by rewrite (P2 pa Hne).
  - cbn. rewrite Htl2. by destruct Hp1 as [-> _].
  - intros p. assert (ref_of (set_tlb (delete n (k_tlb k2)) k2) p = ref_of k1 p) as ->.
    { unfold ref_of. cbn. by rewrite Hpg2. }
    case_decide as E; [by subst p|by apply Ho1].
  - eapply pages_frame_trans; [exact Hfr|]. by apply pages_frame_same.
Qed.
End remove.

(** ** page_insert *)

Section insert.
Context (pd : nat).
Abbreviation content := (content pd).

Lemma vm_ext ext ext' res k l : (forall p, ext p = ext' p) -> vm_ok pd ext res k l -> vm_ok pd ext' res k l.
Proof using Type.
  intros He Hok. eapply (vm_same pd ext); [exact Hok|done|done|apply Hok|apply Hok|done|].
  intros p Hp. destruct (vm_refs _ _ _ _ _ Hok p Hp). rewrite He. lia.
Qed.

(** The words of reserved pages other than the user part of the directory. *)
Definition reserved_kept (res : list nat) (k k' : kernel) : Prop :=
  forall p j, p ∈ res -> 0 <= j < 1024 -> p <> pd \/ NUSER <= j ->
  word k' (Z.of_nat p * PGSIZE + 4 * j) = word k (Z.of_nat p * PGSIZE + 4 * j).

Lemma reserved_kept_table ext res k l k' i p :
  vm_ok pd ext res k l -> p ∈ l -> 0 <= i < NUSER -> table_added pd k k' i p -> reserved_kept res k k'.
Proof using Type.
  intros Hok Hp Hi Hta q j Hq Hj Hor. destruct (vm_free _ _ _ _ _ Hok p Hp) as [_ Hres].
  assert (q <> p) by (by intros ->). rewrite NUSER_eq in *.
  apply (ta_word _ _ _ _ _ Hta); unfold dir_addr, PGSIZE; lia.
Qed.

Lemma reserved_kept_pte ext res k l k' n v :
  vm_ok pd ext res k l -> 0 <= n < NUSER * 1024 -> dir pd k (n / 1024) <> 0 -> pte_written pd k k' n v ->
  reserved_kept res k k'.
Proof using Type.
  intros Hok Hn Hd [_ Hw] q j Hq Hj _. apply Hw. unfold pte_addr.
  destruct (table_in_ram _ _ _ _ _ _ Hok Hn Hd) as (t & -> & Htr & Htn & _). intros E.
  assert (0 <= n mod 1024 < 1024) by divmod. destruct Htr. unfold PGSIZE in E.
  assert (t = Z.of_nat q) as -> by lia. by rewrite Nat2Z.id in Htn.
Qed.

Lemma lor_perm n perm : 0 <= perm < PGSIZE ->
  Z.lor (Z.lor (n * PGSIZE) PTE_P) perm = n * PGSIZE + Z.lor perm PTE_P /\
  0 <= Z.lor perm PTE_P < PGSIZE /\ Z.lor perm PTE_P mod 2 = 1.
Proof using Type.
  intros Hp. assert (Hr : 0 <= Z.lor perm PTE_P < PGSIZE).
  { split; [apply Z.lor_nonneg; unfold PTE_P; lia|].
    apply (Z.log2_lt_cancel _ (2 ^ 12)). change (Z.log2 (2 ^ 12)) with 12.
    rewrite Z.log2_lor by (unfold PTE_P; lia). change (Z.log2 PTE_P) with 0.
    rewrite Z.max_l by apply Z.log2_nonneg.
    destruct (decide (perm = 0)) as [->|]; [done|]. apply Z.log2_lt_pow2; [lia|exact (proj2 Hp)]. }
  split_and!; [|lia|lia|].
  - rewrite <- Z.lor_assoc, (Z.lor_comm PTE_P). apply (lor_low_add _ _ 12); [lia | exact Hr |].
    unfold PGSIZE. change (2 ^ 12) with 4096. apply Z.mod_mul. lia.
  - rewrite Zmod_odd, <- Z.bit0_odd, Z.lor_spec. change (Z.testbit PTE_P 0) with true. by rewrite orb_true_r.
Qed.

(** The free list after the page of [n] is replaced by [pp]. *)
Definition freed (k : kernel) (n : Z) (pp : nat) (l : list nat) : list nat :=
  match mapping pd k n with
  | Some (q, _) => if bool_decide (q <> pp) && (ref_of k q =? 1) then q :: l else l
  | None => l
  end.

(** The page mapped at [n]. *)
Definition replaced (k : kernel) (n : Z) : list nat := match mapping pd k n with Some (q, _) => [q] | None => [] end.

Record inserted (ext : nat -> Z) (res : list nat) (k k' : kernel) (l : list nat) (n : Z) (pp : nat) (perm : Z) : Prop := Inserted {
  ins_ok : vm_ok pd ext res k' (freed k n pp l);
  ins_mm : mm_only k k';
  ins_written : pte_written pd k k' n (Z.of_nat pp * PGSIZE + Z.lor perm PTE_P);
  ins_tlb : forall m, k_tlb k' !! m = if decide (m = n) then if content k (SPage n) =? 0 then k_tlb k !! m else None else k_tlb k !! m;
  ins_pages : pages_frame (replaced k n ++ pp :: l) k k';
}.

(** The part of [page_insert] after the walk. *)
Lemma wp_insert_tail ext res k l va pp perm (Q : Z -> kernel -> Prop) :
  vm_ok pd ext res k l -> (forall q, 0 <= ext q) -> user va -> dir pd k (PDX va) <> 0 ->
  Z.of_nat pp < k_npages k -> pp ∉ l -> pp ∉ res -> 0 <= perm < PGSIZE -> ref_of k pp < 2 ^ 16 - 1 ->
  (forall k', inserted ext res k k' l (PGNUM va) pp perm -> Q 0 k') ->
  let pte := KERNBASE + pte_addr pd k (PGNUM va) in
  wp (get_ref pp) (fun r k1 => wp (set_ref pp (r + 1);; e ← ld pte;
      when (negb (e =? 0) && negb (PTE_P =? 0)) (page_remove (pgdir_of pd) va);;
      st pte (Z.lor (Z.lor (page2pa pp) PTE_P) perm);;
      mret 0) Q k1) k.
Proof using Type.
  intros Hok Hext Hva Hd Hpp Hpl Hpr Hperm Hov HQ pte. destruct (user_page va Hva) as (Hn & Hdx & _ & _).
  set (n := PGNUM va) in *. rewrite <- Hdx in Hd.
  pose proof (vm_np _ _ _ _ _ Hok) as Hnp. pose proof (vm_len _ _ _ _ _ Hok) as Hlen.
  assert (Hppl : (pp < length (k_pages k))%nat) by lia.
  apply wp_get_ref; [done|]. wp_go. apply wp_set_ref; [done|]. intros k1 (Hp1 & Hr1 & Ho1 & Hl1 & Hf1).
  destruct (vm_refs _ _ _ _ _ Hok pp Hpp) as [Hrf _]. pose proof (refs_nonneg pd k pp). pose proof (Hext pp).
  rewrite u16_small in Hr1 by lia.
  assert (Hw1 : forall pa, word k1 pa = word k pa) by (intros; by apply pages_only_word).
  assert (Hcs : forall s, content k1 s = content k s) by (intros [i|m]; cbn; unfold pte_addr, dir; by rewrite !Hw1).
  assert (Ha1 : pte_addr pd k1 n = pte_addr pd k n) by (unfold pte_addr, dir; by rewrite !Hw1).
  assert (Hd1 : dir pd k1 (n / 1024) <> 0) by (unfold dir; by rewrite Hw1).
  assert (Hnp1 : k_npages k1 = k_npages k) by (by destruct Hp1 as [-> _]).
  assert (Hok1 : vm_ok pd (fun p => ext p + Z.b2z (bool_decide (p = pp))) res k1 l).
  { eapply (vm_same pd ext); [exact Hok|done|apply Hp1|apply Hl1, Hok| |done|].
    - intros p Hp. rewrite Ho1 by (by intros ->). by apply (vm_free _ _ _ _ _ Hok).
    - intros p Hp. destruct (vm_refs _ _ _ _ _ Hok p Hp). case_bool_decide as E; [subst p|rewrite Ho1 by done]; simpl; lia. }
  assert (Hext1 : forall q, 0 <= ext q + Z.b2z (bool_decide (q = pp))) by (intros q; specialize (Hext q); destruct (bool_decide _); simpl; lia).
  wp_go. apply wp_ld. { destruct (table_in_ram _ _ _ _ _ _ Hok1 Hn Hd1) as (? & _ & _ & _ & _ & Hin). subst pte. by rewrite <- Ha1. }
  subst pte. replace (KERNBASE + pte_addr pd k n - KERNBASE) with (pte_addr pd k n) by lia.
  rewrite <- Ha1, <- (content_page_word pd k1 n Hd1). change (negb (PTE_P =? 0)) with true. rewrite andb_true_r.
  destruct (lor_perm (Z.of_nat pp) perm Hperm) as (Hlor & Hfl & Hodd). set (fl := Z.lor perm PTE_P) in *.
  set (v := Z.of_nat pp * PGSIZE + fl) in *.
  destruct (entry_fields (Z.of_nat pp) fl) as (Hpg & _ & _); [lia | done|]. fold v in Hpg.
  assert (Hvr : 0 <= v < 2 ^ 32) by (subst v; unfold PGSIZE in *; lia).
  assert (Hv2 : v mod 2 = 1) by (subst v; unfold PGSIZE; revert Hodd; clear; intros; divmod).
  assert (Hhv : forall p, hit v p = bool_decide (p = pp)).
  { intros p. unfold hit, target. replace (v =? 0) with false by (symmetry; apply Z.eqb_neq; intros E; by rewrite E in Hv2).
    rewrite Hpg, Nat2Z.id. apply bool_decide_ext. naive_solver. }
  rewrite (page2pa_eq k) by (split; lia). rewrite Hlor. fold v.
  (* the last store, from the state after the old page is gone *)
  assert (Hst : forall k2 l2, vm_ok pd (fun p => ext p + Z.b2z (bool_decide (p = pp))) res k2 l2 ->
    mm_only k k2 -> content k2 (SPage n) = 0 -> dir pd k2 (n / 1024) <> 0 -> pte_addr pd k2 n = pte_addr pd k n ->
    l2 = freed k n pp l ->
    (forall s, s ∈ slots -> content k2 s = if decide (s = SPage n) then 0 else content k s) ->
    (forall pa, pa <> pte_addr pd k n -> word k2 pa = word k pa) ->
    (forall m, k_tlb k2 !! m = if decide (m = n) then if content k (SPage n) =? 0 then k_tlb k !! m else None else k_tlb k !! m) ->
    pages_frame (replaced k n ++ pp :: l) k k2 ->
    wp (st (KERNBASE + pte_addr pd k1 n) v) (fun _ k' => wp (mret 0) Q k') k2).
  { intros k2 l2 Hok2 Hmm2 Hc2 Hd2 Ha2 -> Hcs2 Hw2 Ht2 Hf2. rewrite Ha1, <- Ha2.
    eapply (wp_st_pte pd _ _ _ _ n v _ Hok2 Hn Hd2 Hvr).
    - intros _. unfold entry_ok. rewrite Hpg, Nat2Z.id. rewrite (mm_only_npages _ _ Hmm2). done.
    - intros k3 Hmm3 Hpg3 Htl3 [Pc Pw] Hok3. wp_go. apply HQ. split.
      + eapply vm_ext; [|exact Hok3]. intros p. cbn beta. rewrite Hc2, hit_0, Hhv. simpl. lia.
      + by eapply mm_only_trans.
      + split; [intros s Hs; rewrite (Pc s Hs), (Hcs2 s Hs); by case_decide|].
        intros pa Hne. rewrite Pw by (by rewrite Ha2). by apply Hw2.
      + intros m. by rewrite Htl3.
      + eapply pages_frame_trans; [exact Hf2|by apply pages_frame_same]. }
  pose proof (Hcs (SPage n)) as Hcn.
  destruct (Z.eqb_spec (content k1 (SPage n)) 0) as [E|E]; cbn [negb]; unfold when.
  - wp_go. rewrite Hcn in E. apply (Hst k1 l); try done.
    + by apply mm_only_pages.
    + by rewrite Hcn.
    + unfold freed, mapping. by rewrite E.
    + intros s _. rewrite Hcs. by case_decide as Es; [rewrite Es|].
    + intros m. rewrite E. change (0 =? 0) with true. destruct Hp1 as [-> _]. cbn. by case_decide.
    + eapply pages_frame_mono; [|exact Hf1]. set_solver.
  - wp_go. eapply (wp_page_remove pd _ _ _ _ va _ Hok1 Hext1 Hva E). fold n. rewrite Hcn.
    intros k2 Hok2 Hmm2 Hpw2 Ht2 Hr2 Hf2. rewrite Hcn in E.
    assert (Hs : SPage n ∈ slots) by (by apply slots_page).
    destruct (mapped_page pd _ _ _ _ _ Hok Hext Hs E) as (Hq & Hqn & Hql & Hqr & Hqf & Hqres & Hhit).
    set (q := Z.to_nat (PGNUM (content k (SPage n)))) in *.
    wp_go. eapply Hst; [exact Hok2| | | |by rewrite (pte_written_addr _ _ _ _ _ Hn Hpw2)| | | | |].
    + eapply mm_only_trans; [by apply mm_only_pages|done].
    + rewrite (pw_content _ _ _ _ _ Hpw2 _ Hs). by rewrite decide_True.
    + assert (Hsd : SDir (n / 1024) ∈ slots) by (apply slots_dir; divmod).
      pose proof (pw_content _ _ _ _ _ Hpw2 _ Hsd) as Hcd. rewrite decide_False in Hcd by done. cbn in Hcd. by rewrite Hcd.
    + unfold freed, mapping. apply Z.eqb_neq in E as ->. fold q.
      destruct (decide (q = pp)) as [Eq|Hne].
      * rewrite bool_decide_false by tauto. cbn [andb]. rewrite Eq, Hr1. rewrite Eq in Hqr. by replace (_ =? 1) with false by lia.
      * rewrite bool_decide_true by done. cbn [andb]. by rewrite Ho1.
    + intros s Hss. rewrite (pw_content _ _ _ _ _ Hpw2 _ Hss). by rewrite Hcs.
    + intros pa Hne. rewrite (pw_word _ _ _ _ _ Hpw2) by (by rewrite Ha1). apply Hw1.
    + intros m. rewrite Ht2. apply Z.eqb_neq in E as ->. case_decide as Em; [subst m; apply lookup_delete_eq|].
      rewrite lookup_delete_ne by done. by destruct Hp1 as [-> _].
    + unfold replaced, mapping. apply Z.eqb_neq in E as ->. fold q.
      eapply pages_frame_trans; eapply pages_frame_mono; [|exact Hf1| |exact Hf2]; set_solver.
Qed.
End insert.

(** ** The specification: a finite map of pages *)

Section refinement.
Context (pd : nat).

Lemma mapping_content k k' m :
  content pd k' (SPage m) = content pd k (SPage m) -> mapping pd k' m = mapping pd k m.
Proof using Type. unfold mapping. by intros ->. Qed.

Lemma mapping_None k m : mapping pd k m = None <-> content pd k (SPage m) = 0.
Proof using Type. unfold mapping. destruct (Z.eqb_spec (content pd k (SPage m)) 0); naive_solver. Qed.

Lemma tlb_ok_written k k' n v :
  tlb_ok pd k -> pte_written pd k k' n v ->
  (forall m, m <> n -> k_tlb k' !! m = k_tlb k !! m) -> k_tlb k' !! n = None -> tlb_ok pd k'.
Proof using Type.
  intros Ht [Hc _] Hother Hn m e Hm He. destruct (decide (m = n)) as [->|Hne]; [by rewrite Hn in He|].
  rewrite Hother in He by done. rewrite (Hc (SPage m)) by (by apply slots_page).
  rewrite decide_False by congruence. by apply Ht.
Qed.

Lemma inserted_mapping ext res k k' l n pp perm :
  inserted pd ext res k k' l n pp perm -> Z.of_nat pp < k_npages k -> k_npages k <= 65536 -> 0 <= perm < PGSIZE ->
  forall m, 0 <= m < NUSER * 1024 ->
  mapping pd k' m = if decide (m = n) then Some (pp, Z.lor perm PTE_P) else mapping pd k m.
Proof using Type.
  intros Hins Hpp Hnp Hperm m Hm.
  destruct (lor_perm (Z.of_nat pp) perm Hperm) as (_ & Hfl & Hodd).
  destruct (entry_fields (Z.of_nat pp) (Z.lor perm PTE_P)) as (Hpg & _ & Hf); [lia | done|].
  pose proof (pw_content _ _ _ _ _ (ins_written _ _ _ _ _ _ _ _ _ Hins) (SPage m) ltac:(by apply slots_page)) as Hc.
  destruct (decide (m = n)) as [E|E].
  - subst m. rewrite decide_True in Hc by done. unfold mapping. rewrite Hc, Hpg, Hf, Nat2Z.id.
    replace (_ =? 0) with false; [done|]. symmetry. apply Z.eqb_neq. intros E0.
    assert (Z.lor perm PTE_P = 0) as E1 by (unfold PGSIZE in *; lia). by rewrite E1 in Hodd.
  - rewrite decide_False in Hc by congruence. by apply mapping_content.
Qed.

Lemma inserted_tlb ext res k k' l n pp perm :
  inserted pd ext res k k' l n pp perm -> tlb_ok pd k -> 0 <= n < NUSER * 1024 -> tlb_ok pd k'.
Proof using Type.
  intros Hins Ht Hn. eapply tlb_ok_written; [exact Ht | apply Hins | |].
  - intros m Hne. rewrite (ins_tlb _ _ _ _ _ _ _ _ _ Hins). by rewrite decide_False.
  - rewrite (ins_tlb _ _ _ _ _ _ _ _ _ Hins), decide_True by done.
    destruct (Z.eqb_spec (content pd k (SPage n)) 0) as [E|]; [|done].
    destruct (k_tlb k !! n) as [e|] eqn:El; [|done]. destruct (Ht n e Hn El). congruence.
Qed.
End refinement.

(** [page_insert], by the three things it can do. *)
Lemma wp_page_insert pd ext res k l va pp perm (Q : Z -> kernel -> Prop) :
  vm_ok pd ext res k l -> (forall q, 0 <= ext q) -> user va ->
  Z.of_nat pp < k_npages k -> pp ∉ l -> pp ∉ res -> 0 <= perm < PGSIZE -> ref_of k pp < 2 ^ 16 - 1 ->
  (dir pd k (PDX va) = 0 -> l = [] -> Q (- E_NO_MEM) k) ->
  (dir pd k (PDX va) <> 0 -> forall k', inserted pd ext res k k' l (PGNUM va) pp perm -> Q 0 k') ->
  (dir pd k (PDX va) = 0 -> forall p l' k1 k', l = p :: l' -> table_added pd k k1 (PDX va) p -> pages_frame (p :: l') k k1 ->
     vm_ok pd ext res k1 l' -> dir pd k1 (PDX va) <> 0 -> inserted pd ext res k1 k' l' (PGNUM va) pp perm -> Q 0 k') ->
  wp (page_insert (pgdir_of pd) pp va perm) Q k.
Proof.
  intros Hok Hext Hva Hpp Hpl Hpr Hperm Hov Q1 Q2 Q3. destruct (user_page va Hva) as (Hn & Hdx & _ & Hi).
  destruct (lor_perm 0 perm Hperm) as (_ & Hfl & Hodd).
  assert (Hne : Z.lor perm PTE_P <> 0) by (intros E; by rewrite E in Hodd).
  assert (Hptr : forall k0 l0, vm_ok pd ext res k0 l0 -> dir pd k0 (PDX va) <> 0 -> (KERNBASE + pte_addr pd k0 (PGNUM va) =? 0) = false).
  { intros k0 l0 Hok0 Hd. rewrite <- Hdx in Hd. destruct (table_in_ram _ _ _ _ _ _ Hok0 Hn Hd) as (t & Ht0 & [? _] & _).
    apply Z.eqb_neq. unfold pte_addr, KERNBASE, PGSIZE in *. rewrite Ht0. assert (0 <= PGNUM va mod 1024) by divmod. lia. }
  unfold page_insert. wp_go. eapply (wp_pgdir_walk pd ext res k l); [done|done|done| | |].
  - intros Hd. rewrite (Hptr k l Hok Hd). wp_go. eapply (wp_insert_tail pd ext res k l); [done..|]. by apply Q2.
  - intros Hd [E|E]; [done|]. change (0 =? 0) with true. wp_go. by apply Q1.
  - intros Hd _ p l' k0 -> Hok0 Hta Hd0 Hfr. rewrite (Hptr k0 l' Hok0 Hd0). wp_go.
    assert (Hpne : pp <> p) by (intros ->; set_solver).
    assert (Hnp0 : k_npages k0 = k_npages k) by (apply mm_only_npages, Hta).
    eapply (wp_insert_tail pd ext res k0 l'); [done|done|done|done|by rewrite Hnp0|set_solver|done|done| |].
    { rewrite (ta_ref _ _ _ _ _ Hta). by rewrite decide_False. }
    intros k' Hins. by eapply Q3.
Qed.

(** C1: [page_insert] implements insertion into the map of the address space: it
    either maps [va] to [pp] with the permissions asked for and leaves every other
    page as it was, or fails with -E_NO_MEM, exactly when a page table is needed
    and there is no free page, and then changes nothing.  The reference counts
    stay exact, a page replaced at [va] is freed exactly when this was its last
    reference (never when it is [pp] itself), the TLB keeps no stale entry, and
    kernel mappings and pages are untouched. *)
Theorem page_insert_refines pd ext res k l va pp perm :
  vm_ok pd ext res k l -> tlb_ok pd k -> (forall q, 0 <= ext q) -> user va ->
  Z.of_nat pp < k_npages k -> pp ∉ l -> pp ∉ res -> 0 <= perm < PGSIZE -> ref_of k pp < 2 ^ 16 - 1 ->
  let n := PGNUM va in
  let l1 := if dir pd k (PDX va) =? 0 then tail l else l in
  wp (page_insert (pgdir_of pd) pp va perm) (fun r k' =>
    if bool_decide (dir pd k (PDX va) = 0 /\ l = []) then r = - E_NO_MEM /\ k' = k
    else
      r = 0 /\ vm_ok pd ext res k' (freed pd k n pp l1) /\ tlb_ok pd k' /\
      (forall m, 0 <= m < NUSER * 1024 ->
         mapping pd k' m = if decide (m = n) then Some (pp, Z.lor perm PTE_P) else mapping pd k m) /\
      reserved_kept pd res k k' /\ mm_only k k') k.
Proof.
  intros Hok Ht Hext Hva Hpp Hpl Hpr Hperm Hov n l1. destruct (user_page va Hva) as (Hn & Hdx & _ & Hi). fold n in Hn, Hdx.
  pose proof (vm_np _ _ _ _ _ Hok) as Hnp.
  eapply (wp_page_insert pd ext res k l); [done..| | |]; fold n.
  - intros Hd E. by rewrite bool_decide_true.
  - intros Hd k' Hins. rewrite bool_decide_false by tauto. subst l1. apply Z.eqb_neq in Hd as Hd'. rewrite Hd'. rewrite <- Hdx in Hd.
    split_and!; [done|apply Hins|by eapply inserted_tlb|by eapply inserted_mapping| |apply Hins].
    eapply reserved_kept_pte; [exact Hok|exact Hn|done|apply Hins].
  - intros Hd p l' k0 k' -> Hta _ Hok0 Hd0 Hins.
    rewrite bool_decide_false by (intros [_ [=]]). subst l1. rewrite Hd. change (0 =? 0) with true. cbn [tail].
    assert (Hnp0 : k_npages k0 = k_npages k) by (apply mm_only_npages, Hta).
    assert (Hc0 : forall m, 0 <= m < NUSER * 1024 -> content pd k0 (SPage m) = content pd k (SPage m)).
    { intros m Hm. rewrite (ta_content _ _ _ _ _ Hta) by (by apply slots_page). by rewrite decide_False. }
    assert (Hcn : content pd k (SPage n) = 0) by (cbn; by rewrite Hdx, Hd).
    split_and!.
    + done.
    + pose proof (ins_ok _ _ _ _ _ _ _ _ _ Hins) as H. unfold freed in *.
      rewrite (proj2 (mapping_None pd k0 n)) in H by (by rewrite Hc0). by rewrite (proj2 (mapping_None pd k n)).
    + eapply inserted_tlb; [exact Hins| |done]. intros m e Hm He. rewrite (ta_tlb _ _ _ _ _ Hta) in He.
      rewrite Hc0 by done. by apply Ht.
    + intros m Hm. rewrite (inserted_mapping _ _ _ _ _ _ _ _ _ Hins) by (done || lia). case_decide; [done|].
      apply mapping_content. by apply Hc0.
    + intros q j Hq Hj Hor. rewrite (reserved_kept_pte _ _ _ _ _ _ _ _ Hok0 Hn ltac:(by rewrite Hdx) (ins_written _ _ _ _ _ _ _ _ _ Hins) q j) by done.
      eapply reserved_kept_table; [exact Hok| |exact Hi|exact Hta|done..]. set_solver.
    + eapply mm_only_trans; [apply Hta | apply Hins].
Qed.

(** C2: [page_remove] implements deletion: the page at [va] is unmapped, its
    reference count decreases and it is freed exactly when this was its last
    reference; the TLB entry is gone.  Where there is no page table nothing
    happens. *)
Theorem page_remove_refines pd ext res k l va :
  vm_ok pd ext res k l -> tlb_ok pd k -> (forall q, 0 <= ext q) -> user va ->
  let n := PGNUM va in
  mapping pd k n <> None \/ dir pd k (PDX va) = 0 ->
  wp (page_remove (pgdir_of pd) va) (fun _ k' =>
    match mapping pd k n with
    | None => k' = k
    | Some (q, _) =>
        vm_ok pd ext res k' (if ref_of k q =? 1 then q :: l else l) /\ tlb_ok pd k' /\
        (forall m, 0 <= m < NUSER * 1024 -> mapping pd k' m = if decide (m = n) then None else mapping pd k m) /\
        k_tlb k' !! n = None /\ reserved_kept pd res k k' /\ mm_only k k' /\
        forall p, ref_of k' p = if decide (p = q) then ref_of k q - 1 else ref_of k p
    end) k.
Proof.
  intros Hok Ht Hext Hva n Hcase. destruct (user_page va Hva) as (Hn & Hdx & _ & Hi). fold n in Hn, Hdx.
  destruct (decide (content pd k (SPage n) = 0)) as [E|E].
  - rewrite (proj2 (mapping_None pd k n) E) in *. destruct Hcase as [|Hd]; [done|].
    unfold page_remove, page_lookup. wp_go.
    eapply (wp_pgdir_walk pd ext res k l); [done|done|done|done| |done].
    intros _ _. change (0 =? 0) with true. by wp_go.
  - assert (mapping pd k n = Some (Z.to_nat (PGNUM (content pd k (SPage n))), content pd k (SPage n) mod PGSIZE)) as ->.
    { unfold mapping. by apply Z.eqb_neq in E as ->. }
    eapply (wp_page_remove pd ext res k l va); [done|done|done|exact E|]. fold n.
    intros k' Hok' Hmm Hpw Htl Hr _. split_and!; [done| | | | |done|done].
    + eapply tlb_ok_written; [exact Ht|exact Hpw| |]; rewrite Htl; [|apply lookup_delete_eq].
      intros m Hne. by rewrite lookup_delete_ne.
    + intros m Hm. pose proof (pw_content _ _ _ _ _ Hpw (SPage m) ltac:(by apply slots_page)) as Hc.
      destruct (decide (m = n)) as [Em|Em]; [subst m; rewrite decide_True in Hc by done; by apply mapping_None|].
      rewrite decide_False in Hc by congruence. by apply mapping_content.
    + rewrite Htl. apply lookup_delete_eq.
    + eapply reserved_kept_pte; [exact Hok|exact Hn|by apply content_page_dir|exact Hpw].
Qed.

(** C27: Where a page table exists but maps nothing at [va], [page_lookup] returns
    page 0 instead of NULL, so that [page_remove] does not "silently do nothing":
    it takes a reference from page 0, whose count wraps from 0 to 65535. *)
Theorem page_remove_unmapped pd ext res k l va :
  vm_ok pd ext res k l -> (forall q, 0 <= ext q) -> user va ->
  dir pd k (PDX va) <> 0 -> mapping pd k (PGNUM va) = None -> ref_of k 0 = 0 ->
  page_lookup (pgdir_of pd) va true k = Ret (Some 0%nat, Some (KERNBASE + pte_addr pd k (PGNUM va))) k /\
  wp (page_remove (pgdir_of pd) va) (fun _ k' => ref_of k' 0 = 65535) k.
Proof.
  intros Hok Hext Hva Hd Hm%mapping_None H0. destruct (user_page va Hva) as (Hn & Hdx & _ & _).
  assert (Hlen : (0 < length (k_pages k))%nat).
  { pose proof (vm_len _ _ _ _ _ Hok). destruct (vm_pd _ _ _ _ _ Hok). lia. }
  split.
  - apply wp_eq. eapply (wp_page_lookup_table pd); [done..|]. by rewrite Hm.
  - unfold page_remove. wp_go. eapply (wp_page_lookup_table pd); [done..|]. rewrite Hm.
    change (Z.to_nat (PGNUM (PTE_ADDR 0))) with 0%nat. wp_go. unfold page_decref. wp_go.
    apply wp_get_ref; [done|]. rewrite H0. wp_go. apply wp_set_ref; [done|].
    intros k1 (Hp1 & Hr1 & _). wp_go. apply wp_get_ref; [by rewrite (proj2 Hp1)|]. rewrite Hr1.
    change (u16 (0 - 1) =? 0) with false. unfold when. wp_go. eapply wp_deref; [done|]. wp_go.
    rewrite <- Hdx in Hd. destruct (table_in_ram _ _ _ _ _ _ Hok Hn Hd) as (_ & _ & _ & _ & _ & Hin).
    apply wp_st; [by destruct Hp1 as [-> _]|]. unfold tlb_invalidate, invlpg. wp_go. exact Hr1.
Qed.

Lemma check_va2pa_run pd ext res k l va :
  vm_ok pd ext res k l -> user va ->
  check_va2pa (pgdir_of pd) va k =
  Ret (match mapping pd k (PGNUM va) with Some (q, _) => Z.of_nat q * PGSIZE | None => 2 ^ 32 - 1 end) k.
Proof.
  intros Hok Hva. destruct (user_page va Hva) as (Hn & Hdx & Htx & Hi).
  assert (Hodd : forall c, c mod 2 = 1 -> (Z.land c PTE_P =? 0) = false).
  { intros c Hc. unfold PTE_P. change 1 with (2 ^ 1 - 1). rewrite land_ones_mod by lia. change (2 ^ 1) with 2. by rewrite Hc. }
  apply wp_eq. unfold check_va2pa. wp_go. eapply (wp_ld_dir pd); [exact Hok|exact Hi|].
  destruct (Z.eqb_spec (dir pd k (PDX va)) 0) as [E|E].
  { assert (mapping pd k (PGNUM va) = None) as -> by (apply mapping_None; cbn; by rewrite Hdx, E).
    rewrite E. change (Z.land 0 PTE_P =? 0) with true. by wp_go. }
  pose proof (vm_slot _ _ _ _ _ Hok (SDir (PDX va)) ltac:(by apply slots_dir) E) as (_ & Ho & _ & _). cbn in Ho.
  rewrite (Hodd _ Ho). wp_go. rewrite <- Hdx in E |- *.
  destruct (table_in_ram _ _ _ _ _ _ Hok Hn E) as (t & Ht & Htr & _ & _ & Hin).
  rewrite Ht. rewrite <- (Z.add_0_r (t * PGSIZE)). apply wp_KADDR_page; [done | unfold PGSIZE; lia|]. wp_go.
  assert (Hva' : KERNBASE + t * PGSIZE + 0 + 4 * PTX va = KERNBASE + pte_addr pd k (PGNUM va)).
  { unfold pte_addr. rewrite Ht, Htx. lia. }
  assert (Hld : forall Q, Q (content pd k (SPage (PGNUM va))) k -> wp (ld (KERNBASE + t * PGSIZE + 0 + 4 * PTX va)) Q k).
  { intros Q HQ. rewrite Hva'. apply wp_ld; [done|]. rewrite (content_page_word pd) in HQ by done.
    by replace (KERNBASE + pte_addr pd k (PGNUM va) - KERNBASE) with (pte_addr pd k (PGNUM va)) by lia. }
  apply Hld. unfold mapping. destruct (Z.eqb_spec (content pd k (SPage (PGNUM va))) 0) as [E0|E0].
  { rewrite E0. change (Z.land 0 PTE_P =? 0) with true. by wp_go. }
  pose proof (vm_slot _ _ _ _ _ Hok (SPage (PGNUM va)) ltac:(by apply slots_page) E0) as He.
  rewrite (Hodd _ ltac:(apply He)). wp_go. apply Hld. wp_go.
  destruct (entry_page _ _ _ He E0) as (-> & Hr & _). split; [|done]. f_equal. lia.
Qed.

(** [check_va2pa] reads the abstract map. *)
Theorem check_va2pa_correct pd ext res k l va :
  vm_ok pd ext res k l -> user va ->
  check_va2pa (pgdir_of pd) va k =
  Ret (match mapping pd k (PGNUM va) with Some (q, _) => Z.of_nat q * PGSIZE | None => 2 ^ 32 - 1 end) k.
Proof. apply check_va2pa_run. Qed.

(** ** Examples *)

(** An address space without user mappings satisfies the invariant. *)
Lemma vm_ok_empty pd res k l :
  k_npages k <= 65536 -> Z.of_nat (length (k_pages k)) = k_npages k -> pd ∈ res -> Z.of_nat pd < k_npages k ->
  is_list k l -> (forall p, p ∈ l -> p ∉ res) -> (forall p, ref_of k p = 0) ->
  (forall i, 0 <= i < NUSER -> dir pd k i = 0) -> vm_ok pd (fun _ => 0) res k l.
Proof.
  intros Hnp Hlen Hpd Hlt Hl Hf Hr Hd.
  assert (Hc : forall s, s ∈ slots -> content pd k s = 0).
  { intros [i|n] Hs; cbn; [by apply Hd, slots_dir|]. apply slots_page in Hs. by rewrite Hd by divmod. }
  constructor; try done.
  - intros p Hp. split; [done | by apply Hf].
  - intros s Hs Hne. by rewrite (Hc s Hs) in Hne.
  - intros i i' Hi _ Hne. by rewrite (Hd i Hi) in Hne.
  - intros p _. rewrite Hr. split; [|lia]. unfold refs.
    rewrite (proj2 (tally_zero _ slots)); [done|]. intros s Hs. by rewrite (Hc s Hs), hit_0.
Qed.

(** Four pages: the directory, two free ones and one in use. *)
Definition vm_ex : kernel :=
  Kernel 4 4 (pgdir_of 0)
    [zero_page; MkPage (Entry (Some 2%nat) (Some PHead)) 0; MkPage (Entry None (Some (PNext 1))) 0; zero_page]
    0 (Some 1%nat) 0 ∅ (fun _ => 0) ∅ 0 0 (Io [] []) [] [].

Lemma vm_ex_ok : vm_ok 0 (fun _ => 0) [0%nat] vm_ex [1; 2]%nat.
Proof.
  apply vm_ok_empty; [done|done|set_solver|done| |set_solver| |done].
  - repeat split; try reflexivity. repeat constructor; set_solver.
  - intros p. do 4 (destruct p as [|p]; [done|]). done.
Qed.

Lemma user_ex : user 0x1000 /\ user 0x2000.
Proof. unfold user. change UTOP with 4005560320. lia. Qed.

(** The same machine with page 3 mapped at 0x1000 through a page table. *)
Lemma vm_ex_mapped : exists k l, vm_ok 0 (fun _ => 0) [0%nat] k l /\ tlb_ok 0 k /\
  mapping 0 k 1 = Some (3%nat, 3) /\ mapping 0 k 2 = None /\ dir 0 k 0 <> 0 /\ ref_of k 0 = 0.
Proof.
  pose proof vm_ex_ok as Hok. assert (Hext : forall q : nat, 0 <= (fun _ : nat => 0) q) by (intros; lia).
  assert (Hw : wp (pgdir_walk (pgdir_of 0) 0x1000 1)
    (fun _ k0 => vm_ok 0 (fun _ => 0) [0%nat] k0 [2]%nat /\ table_added 0 vm_ex k0 0 1 /\ dir 0 k0 0 <> 0) vm_ex).
  { eapply (wp_pgdir_walk 0); [exact Hok|exact Hext|apply user_ex| | |].
    - by intros [].
    - by intros _ [|].
    - intros _ _ p l' k' [= <- <-] H1 H2 H3 _. done. }
  destruct (proj1 (wp_iff _ _ _) Hw) as (? & k0 & _ & Hok0 & Hta & Hd). clear Hw.
  assert (Hw : wp (get_ref 3) (fun r k1 => wp (set_ref 3 (r + 1);; e ← ld (KERNBASE + pte_addr 0 k0 (PGNUM 0x1000));
        when (negb (e =? 0) && negb (PTE_P =? 0)) (page_remove (pgdir_of 0) 0x1000);;
        st (KERNBASE + pte_addr 0 k0 (PGNUM 0x1000)) (Z.lor (Z.lor (page2pa 3) PTE_P) 2);; mret 0)
        (fun _ k' => inserted 0 (fun _ => 0) [0%nat] k0 k' [2]%nat (PGNUM 0x1000) 3 2) k1) k0).
  { assert (k_npages k0 = 4) as Hnp by (apply (mm_only_npages vm_ex), Hta).
    eapply (wp_insert_tail 0); [exact Hok0|exact Hext|apply user_ex|exact Hd|by rewrite Hnp|set_solver|set_solver|by unfold PGSIZE| |done].
    rewrite (ta_ref _ _ _ _ _ Hta). by vm_compute. }
  destruct (proj1 (wp_iff _ _ _) Hw) as (r & k1 & _ & Hw'). destruct (proj1 (wp_iff _ _ _) Hw') as (? & k2 & _ & Hins). clear Hw Hw'.
  change (PGNUM 0x1000) with 1 in Hins.
  assert (Hnp : k_npages k0 = 4) by (apply (mm_only_npages vm_ex), Hta).
  assert (Hc0 : forall n, 0 <= n < NUSER * 1024 -> content 0 k0 (SPage n) = 0).
  { intros n Hn. rewrite (ta_content _ _ _ _ _ Hta) by (by apply slots_page). by rewrite decide_False. }
  assert (Ht0 : tlb_ok 0 k0) by (intros n e _; by rewrite (ta_tlb _ _ _ _ _ Hta)).
  pose proof (ins_ok _ _ _ _ _ _ _ _ _ Hins) as Hok2. unfold freed in Hok2.
  rewrite (proj2 (mapping_None 0 k0 1)) in Hok2 by (apply Hc0; by rewrite NUSER_eq).
  exists k2, [2]%nat. split; [exact Hok2|].
  split; [eapply inserted_tlb; [exact Hins|exact Ht0|by rewrite NUSER_eq]|].
  pose proof (inserted_mapping _ _ _ _ _ _ _ _ _ Hins ltac:(rewrite Hnp; lia) ltac:(rewrite Hnp; lia) ltac:(by unfold PGSIZE)) as Hm.
  split; [rewrite (Hm 1) by (rewrite NUSER_eq; lia); done|].
  split; [rewrite (Hm 2) by (rewrite NUSER_eq; lia); rewrite decide_False by done; apply mapping_None, Hc0; by rewrite NUSER_eq|].
  split.
  - pose proof (pw_content _ _ _ _ _ (ins_written _ _ _ _ _ _ _ _ _ Hins) (SDir 0) ltac:(apply slots_dir; by rewrite NUSER_eq)) as Hc.
    rewrite decide_False in Hc by done. cbn in Hc. by rewrite Hc.
  - assert (k_npages k2 = 4) as Hnp2 by (rewrite (mm_only_npages k0); [done|apply Hins]).
    destruct (vm_refs _ _ _ _ _ Hok2 0%nat ltac:(rewrite Hnp2; lia)) as [-> _].
    assert (refs 0 k2 0 = 0) as ->; [|done]. apply tally_zero. intros s Hs.
    destruct (hit (content 0 k2 s) 0) eqn:Eh; [|done]. exfalso.
    assert (Hne : content 0 k2 s <> 0) by (intros E; by rewrite E in Eh).
    destruct (mapped_page 0 _ _ _ _ s Hok2 Hext Hs Hne) as (_ & _ & _ & _ & _ & Hres & Hh).
    rewrite Hh in Eh. apply bool_decide_eq_true in Eh. rewrite <- Eh in Hres. set_solver.
Qed.

Lemma page_insert_refines_witness :
  wp (page_insert (pgdir_of 0) 3 0x1000 PTE_W) (fun r k' => r = 0 /\ mapping 0 k' 1 = Some (3%nat, 3)) vm_ex.
Proof.
  eapply wp_mono; [apply (page_insert_refines 0 (fun _ => 0) [0%nat] vm_ex [1; 2]%nat 0x1000 3 PTE_W);
    [apply vm_ex_ok|done|done|apply user_ex|done|set_solver|set_solver|done|done]|].
  intros r k'. rewrite bool_decide_false by (by intros [_ ?]). intros (-> & _ & _ & Hm & _). split; [done|].
  rewrite (Hm 1) by (rewrite NUSER_eq; lia). done.
Defined.

Lemma page_remove_refines_witness :
  exists k, mapping 0 k 1 = Some (3%nat, 3) /\
    wp (page_remove (pgdir_of 0) 0x1000) (fun _ k' => mapping 0 k' 1 = None /\ k_tlb k' !! 1 = None) k.
Proof.
  destruct vm_ex_mapped as (k & l & Hok & Ht & Hm & _). exists k. split; [done|].
  eapply wp_mono; [apply (page_remove_refines 0 (fun _ => 0) [0%nat] k l 0x1000);
    [exact Hok|exact Ht|done|apply user_ex|left; change (PGNUM 0x1000) with 1; by rewrite Hm]|].
  change (PGNUM 0x1000) with 1. rewrite Hm. intros _ k' (_ & _ & Hm' & Htl & _).
  split; [|done]. by rewrite (Hm' 1) by (rewrite NUSER_eq; lia).
Defined.

Lemma page_remove_unmapped_witness :
  exists k, mapping 0 k 2 = None /\ wp (page_remove (pgdir_of 0) 0x2000) (fun _ k' => ref_of k' 0 = 65535) k.
Proof.
  destruct vm_ex_mapped as (k & l & Hok & _ & _ & Hm & Hd & Hr). exists k. split; [done|].
  apply (page_remove_unmapped 0 (fun _ => 0) [0%nat] k l 0x2000); [exact Hok|done|apply user_ex|exact Hd|exact Hm|exact Hr].
Defined.

Lemma check_va2pa_correct_witness :
  exists k, check_va2pa (pgdir_of 0) 0x1000 k = Ret (3 * PGSIZE) k.
Proof.
  destruct vm_ex_mapped as (k & l & Hok & _ & Hm & _). exists k.
  rewrite (check_va2pa_correct 0 (fun _ => 0) [0%nat] k l 0x1000 Hok (proj1 user_ex)).
  change (PGNUM 0x1000) with 1. by rewrite Hm.
Defined.
