(* ===== verification/BootMem.v ===== *)
(** * BootMem: building the kernel address space and the free list (kern/pmap.c)

    [i386_mem_detect], the boot-time allocator and page-table walk,
    [boot_mem_check], [boot_mem_init], [page_init] and [page_check].  The linker's
    [end] and the address of [bootstack] are parameters. *)

From S2P Require Import Prelude Layout Printfmt Printf Ports Queue Kernel Pgdir.
Open Scope Z_scope.

Definition GD_KT : Z := 0x08.
Definition GD_KD : Z := 0x10.
Definition GD_UT : Z := 0x18.
Definition GD_UD : Z := 0x20.
Definition GD_TSS : Z := 0x28.

(** sizeof(struct Page) *)
Definition sizeof_Page : Z := 12.

(** ** Memory size *)

Definition nvram_read (r : Z) : M kernel Z :=
  lo ← mc146818_read r;
  hi ← mc146818_read (u32 (r + 1));
  mret (Z.lor lo (Z.shiftl hi 8)).

Definition i386_mem_detect : M kernel () :=
  b ← nvram_read NVRAM_BASELO;
  modify (set_n_base_pages (b * 1024 / PGSIZE));;
  e ← nvram_read NVRAM_EXTLO;
  let n_extended_pages := e * 1024 / PGSIZE in
  (if negb (n_extended_pages =? 0) then
     modify (set_npages (u32 (EXTPHYSMEM / PGSIZE + n_extended_pages)))
   else k ← gets id; modify (set_npages (k_n_base_pages k)));;
  k ← gets id;
  kprintf (bytes "Physical memory: %dK available, ") [Word (u32 (k_npages k * PGSIZE) / 1024)];;
  kprintf (bytes "base = %dK, extended = %dK" ++ [10])
    [Word (u32 (k_n_base_pages k * PGSIZE) / 1024); Word (u32 (n_extended_pages * PGSIZE) / 1024)];;
  mret tt.

Section boot.
Context (kend bootstack : Z).   (* &end[0], &bootstack[0] *)

(** ** boot_alloc and the boot-time page tables *)

Definition boot_alloc (n : Z) : M kernel Z :=
  k ← gets id;
  when (k_nextfree k =? 0) (modify (set_nextfree (ROUNDUP kend PGSIZE)));;
  modify (fun k => set_nextfree (ROUNDUP (k_nextfree k) PGSIZE) k);;
  v ← gets k_nextfree;
  modify (fun k => set_nextfree (u32 (k_nextfree k + n)) k);;
  mret v.

(** 'create' is used as perm: the [bool] holds any number. *)
Definition boot_pgdir_walk (la create : Z) : M kernel Z :=
  kern_pgdir ← gets k_pgdir;
  let pde := kern_pgdir + 4 * PDX la in
  e ← ld pde;
  ok ← (if Z.land e PTE_P =? 0 then
          if create =? 0 then mret false
          else
            pte ← boot_alloc PGSIZE;
            if pte =? 0 then mret false
            else
              pa ← PADDR pte;
              st pde (Z.lor (Z.lor (PTE_ADDR pa) PTE_P) create);;
              mret true
        else mret true);
  if ok : bool then
    e ← ld pde;
    pte ← KADDR (PTE_ADDR e);
    mret (pte + 4 * PTX la)
  else mret 0.

Definition boot_map_segment (la size pa perm : Z) : M kernel () :=
  while (Z.to_nat (size / PGSIZE + 2)) (fun i => mret (i <? size))
    (fun i =>
       pte ← boot_pgdir_walk (u32 (la + i)) (Z.lor PTE_P perm);
       st pte (Z.lor (Z.lor (u32 (pa + i)) PTE_P) perm);;
       mret (u32 (i + PGSIZE))) 0;;
  mret tt.

(** ** boot_mem_check *)

(** [for (i = 0; KERNBASE + i != 0; i += PGSIZE)] *)
Definition check_phys_mem : M kernel () :=
  while (Z.to_nat ((2 ^ 32 - KERNBASE) / PGSIZE + 1)) (fun i => mret (negb (u32 (KERNBASE + i) =? 0)))
    (fun i =>
       kern_pgdir ← gets k_pgdir;
       pa ← check_va2pa kern_pgdir (u32 (KERNBASE + i));
       kassert (pa =? i);;
       mret (u32 (i + PGSIZE))) 0;;
  mret tt.

Definition check_kernel_stack : M kernel () :=
  while (Z.to_nat (KSTKSIZE / PGSIZE + 1)) (fun i => mret (i <? KSTKSIZE))
    (fun i =>
       kern_pgdir ← gets k_pgdir;
       pa ← check_va2pa kern_pgdir (KSTACKTOP - KSTKSIZE + i);
       p ← PADDR bootstack;
       kassert (pa =? u32 (p + i));;
       mret (i + PGSIZE)) 0;;
  mret tt.

(** The [switch] over directory entries. *)
Definition check_pdes : M kernel () :=
  while (Z.to_nat (NPDENTRIES + 1)) (fun i => mret (i <? NPDENTRIES))
    (fun i =>
       kern_pgdir ← gets k_pgdir;
       e ← ld (kern_pgdir + 4 * i);
       (if (i =? PDX VPT) || (i =? PDX (KSTACKTOP - 1)) then kassert (negb (e =? 0))
        else if PDX KERNBASE <=? i then kassert (negb (e =? 0))
        else kassert (e =? 0));;
       mret (i + 1)) 0;;
  mret tt.

Definition boot_mem_check : M kernel () :=
  check_phys_mem;;
  check_kernel_stack;;
  check_pdes;;
  kprintf (bytes "boot_mem_check() succeeded!" ++ [10]) [];;
  mret tt.

(** ** boot_mem_init *)

(** A [mov] to a segment register, an [lgdt], [ljmp] or [lldt]. *)
Definition load_seg (r : string) (v : Z) : M kernel () :=
  modify (fun k => set_seg (k_seg k ++ [(r, v)]) k).

(** [n] bytes from [va] on are RAM that the kernel can reach. *)
Definition range_in_ram (k : kernel) (va n : Z) : bool :=
  (KERNBASE <=? va) && (va + n <=? 2 ^ 32) && (va - KERNBASE + n <=? k_npages k * PGSIZE).

(** [memset(pages, 0, npages*sizeof(struct Page))], on the typed array; like every
    access it is undefined outside the machine's memory. *)
Definition clear_pages (n : Z) : M kernel () :=
  k ← gets id;
  if range_in_ram k (k_pages_va k) n then modify (set_pages (replicate (Z.to_nat (n / sizeof_Page)) zero_page)) else fault.

(** The first part maps the kernel's address space in a directory that is not yet in
    use, and returns [kern_pgdir]. *)
Definition map_kernel : M kernel Z :=
  i386_mem_detect;;
  kern_pgdir ← boot_alloc PGSIZE;
  modify (set_pgdir kern_pgdir);;
  kmemset kern_pgdir 0 PGSIZE;;
  pd ← PADDR kern_pgdir;
  st (kern_pgdir + 4 * PDX VPT) (Z.lor (Z.lor pd PTE_W) PTE_P);;
  stack ← PADDR bootstack;
  boot_map_segment (KSTACKTOP - KSTKSIZE) KSTKSIZE stack PTE_W;;
  boot_map_segment KERNBASE (u32 (0xffffffff - KERNBASE)) 0 PTE_W;;
  npages ← gets k_npages;
  pages ← boot_alloc (u32 (npages * sizeof_Page));
  modify (set_pages_va pages);;
  clear_pages (u32 (npages * sizeof_Page));;
  boot_mem_check;;
  mret kern_pgdir.

(** The second part switches paging on and segmentation over, with the directory entry
    for linear address 0 there only in between. *)
Definition switch_over (kern_pgdir : Z) : M kernel () :=
  e ← ld (kern_pgdir + 4 * PDX KERNBASE);
  st kern_pgdir e;;
  pd ← PADDR kern_pgdir;
  lcr3 pd;;
  cr0 ← rcr0;
  lcr0 (Z.lor cr0 (Z.lor CR0_PE CR0_PG));;
  load_seg "gdtr" 0;;
  load_seg "gs" GD_KD;;
  load_seg "fs" GD_KD;;
  load_seg "es" GD_KD;;
  load_seg "ds" GD_KD;;
  load_seg "ss" GD_KD;;
  load_seg "cs" GD_KT;;
  load_seg "ldtr" 0;;
  st kern_pgdir 0;;
  pd ← PADDR kern_pgdir;
  lcr3 pd.

Definition boot_mem_init : M kernel () := kern_pgdir ← map_kernel; switch_over kern_pgdir.

(** ** page_init *)

(** One round of the loop: initialise page [i] and decide whether it is free. *)
Definition page_init_step (i : Z) : M kernel () :=
  set_ref (Z.to_nat i) 0;;
  if i =? 0 then mret tt
  else if (PGNUM IOPHYSMEM <=? i) && (i <? PGNUM EXTPHYSMEM) then mret tt
  else
    base ← PADDR KERNBASE;
    in_kernel ← (if PGNUM base <=? i then
                   v ← boot_alloc 0;
                   pa ← PADDR v;
                   mret (i <? PGNUM pa)
                 else mret false);
    if in_kernel : bool then mret tt
    else LIST_INSERT_HEAD (Z.to_nat i).

Definition page_init : M kernel () :=
  LIST_INIT;;
  k ← gets id;
  while (S (Z.to_nat (k_npages k))) (fun i => k ← gets id; mret (i <? k_npages k))
    (fun i => page_init_step i;; mret (i + 1)) 0;;
  mret tt.
End boot.

(** ** page_check *)

(** The results of [page_alloc] stored in a local variable. *)
Definition alloc_ok : M kernel nat :=
  '(r, store) ← page_alloc;
  kassert (r =? 0);;
  pp ← deref store;
  mret pp.
Definition alloc_fails : M kernel () :=
  '(r, _) ← page_alloc;
  kassert (r =? - E_NO_MEM).
Definition check_maps (va pa : Z) : M kernel () :=
  kern_pgdir ← gets k_pgdir;
  x ← check_va2pa kern_pgdir va;
  kassert (x =? pa).
Definition check_insert (pp : nat) (va : Z) (ok : bool) : M kernel () :=
  kern_pgdir ← gets k_pgdir;
  r ← page_insert kern_pgdir pp va 0;
  kassert (if ok then r =? 0 else r <? 0).
Definition check_ref (pp : nat) (n : Z) : M kernel () :=
  r ← get_ref pp; kassert (r =? n).
Definition check_pde0 (pp : nat) : M kernel () :=
  kern_pgdir ← gets k_pgdir;
  e ← ld kern_pgdir;
  kassert (PTE_ADDR e =? page2pa pp).

(** Three distinct pages are allocated and the rest of the free list is stolen. *)
Definition page_check_steal : M kernel (nat * nat * nat * option nat) :=
  pp0 ← alloc_ok;
  pp1 ← alloc_ok;
  pp2 ← alloc_ok;
  kassert (negb (bool_decide (pp1 = pp0)));;
  kassert (negb (bool_decide (pp2 = pp1)) && negb (bool_decide (pp2 = pp0)));;
  fl ← gets k_free;
  LIST_INIT;;
  alloc_fails;;
  mret (pp0, pp1, pp2, fl).

Definition page_check_map (pp0 pp1 pp2 : nat) : M kernel () :=
  kern_pgdir ← gets k_pgdir;
  '(pp, _) ← page_lookup kern_pgdir 0 true;
  kassert (bool_decide (pp = None));;
  check_insert pp1 0 false;;
  page_free pp0;;
  check_insert pp1 0 true;;
  check_pde0 pp0;;
  check_maps 0 (page2pa pp1);;
  check_ref pp1 1;;
  check_ref pp0 1;;
  check_insert pp2 PGSIZE true;;
  check_maps PGSIZE (page2pa pp2);;
  check_ref pp2 1;;
  alloc_fails;;
  check_insert pp2 PGSIZE true;;
  check_maps PGSIZE (page2pa pp2);;
  check_ref pp2 1;;
  alloc_fails;;
  check_insert pp0 PTSIZE false;;
  check_insert pp1 PGSIZE true;;
  check_maps 0 (page2pa pp1);;
  check_maps PGSIZE (page2pa pp1);;
  check_ref pp1 2;;
  check_ref pp2 0.

Definition page_check_unmap (pp0 pp1 pp2 : nat) : M kernel () :=
  kern_pgdir ← gets k_pgdir;
  pp ← alloc_ok;
  kassert (bool_decide (pp = pp2));;
  page_remove kern_pgdir 0;;
  check_maps 0 (u32 (Z.lnot 0));;
  check_maps PGSIZE (page2pa pp1);;
  check_ref pp1 1;;
  check_ref pp2 0;;
  page_remove kern_pgdir PGSIZE;;
  check_maps 0 (u32 (Z.lnot 0));;
  check_maps PGSIZE (u32 (Z.lnot 0));;
  check_ref pp1 0;;
  check_ref pp2 0;;
  pp ← alloc_ok;
  kassert (bool_decide (pp = pp1));;
  alloc_fails.

Definition page_check : M kernel () :=
  '(pp0, pp1, pp2, fl) ← page_check_steal;
  page_check_map pp0 pp1 pp2;;
  page_check_unmap pp0 pp1 pp2;;
  check_pde0 pp0;;
  kern_pgdir ← gets k_pgdir;
  st kern_pgdir 0;;
  check_ref pp0 1;;
  set_ref pp0 0;;
  modify (set_free fl);;
  page_free pp0;;
  page_free pp1;;
  page_free pp2;;
  kprintf (bytes "page_check() succeeded!" ++ [10]) [];;
  mret tt.

(** ** The boot-time allocator *)

Lemma range_in_ram_iff k va n :
  range_in_ram k va n = true <-> KERNBASE <= va /\ va + n <= 2 ^ 32 /\ va - KERNBASE + n <= k_npages k * PGSIZE.
Proof. unfold range_in_ram. rewrite !andb_true_iff, !Z.leb_le. tauto. Qed.

Lemma ROUNDUP_page a : 0 <= a <= 2 ^ 32 - PGSIZE -> ROUNDUP a PGSIZE = (a + 4095) / 4096 * 4096.
Proof.
  unfold PGSIZE. intros Ha. unfold ROUNDUP, ROUNDDOWN. rewrite (u32_small a), (u32_small 4096) by lia.
  rewrite (u32_small (a + 4096 - 1)) by lia. rewrite (u32_small (a + 4096 - 1)) by lia.
  pose proof (Z.div_mod (a + 4096 - 1) 4096 ltac:(lia)). pose proof (Z.mod_pos_bound (a + 4096 - 1) 4096 ltac:(lia)).
  replace (a + 4095) with (a + 4096 - 1) by lia. rewrite u32_small; lia.
Qed.

(** The comment on [boot_alloc] says that it panics when memory runs out.  It has no
    such test: it returns the next address whatever it is, and if that is too close
    to the end of memory for the array of pages, clearing the array writes outside. *)
Lemma boot_alloc_past_ram kend n k :
  0 < k_nextfree k <= 2 ^ 32 - PGSIZE -> k_nextfree k mod PGSIZE = 0 -> 0 <= n ->
  boot_alloc kend n k = Ret (k_nextfree k) (set_nextfree (u32 (k_nextfree k + n)) k) /\
  (k_npages k * PGSIZE < k_nextfree k - KERNBASE + n ->
     (pages ← boot_alloc kend n; modify (set_pages_va pages);; clear_pages n) k = Fault).
Proof.
  intros Ha Hm Hn.
  assert (Hr : ROUNDUP (k_nextfree k) PGSIZE = k_nextfree k) by (rewrite ROUNDUP_page by lia; unfold PGSIZE in *; divmod).
  assert (E : boot_alloc kend n k = Ret (k_nextfree k) (set_nextfree (u32 (k_nextfree k + n)) k)).
  { apply wp_eq. unfold boot_alloc. wp_go. unfold id. replace (k_nextfree k =? 0) with false by lia.
    unfold when. wp_go. cbn [k_nextfree set_nextfree]. rewrite Hr. done. }
  split; [exact E|]. intros Hout. rewrite (bind_eq _ _ _ _ _ E). unfold modify. erewrite bind_eq by reflexivity.
  unfold clear_pages, gets. erewrite bind_eq by reflexivity. unfold id.
  destruct (range_in_ram _ _ _) eqn:Er; [|done]. apply range_in_ram_iff in Er as (_ & _ & Er).
  cbn [k_pages_va k_npages set_pages_va set_nextfree] in Er. lia.
Qed.

(** ** What page_init makes free *)


(** The next free page, as [page_init] sees it. *)
Definition next_page (k : kernel) : Z := (k_nextfree k + 4095) / 4096.

Section page_init.
Context (kend : Z).

(** Nothing but the pages, the free list and [nextfree] changes. *)
Definition init_only (k k' : kernel) : Prop :=
  k' = set_nextfree (k_nextfree k') (set_free (k_free k') (set_pages (k_pages k') k)) /\
  length (k_pages k') = length (k_pages k).

Lemma init_only_trans k1 k2 k3 : init_only k1 k2 -> init_only k2 k3 -> init_only k1 k3.
Proof using Type. intros [-> H1] [-> H2]. split; [done | cbn in *; congruence]. Qed.
Lemma init_only_pages k k' : pages_only k k' -> init_only k k'.
Proof using Type. intros [-> H]. by destruct k. Qed.

Lemma wp_boot_alloc_0 k (Q : Z -> kernel -> Prop) :
  0 < k_nextfree k <= 2 ^ 32 - PGSIZE ->
  Q (next_page k * 4096) (set_nextfree (next_page k * 4096) k) -> wp (boot_alloc kend 0) Q k.
Proof using Type.
  intros Hn HQ. unfold boot_alloc. wp_go. unfold id. replace (k_nextfree k =? 0) with false by lia.
  unfold when. wp_go. rewrite ROUNDUP_page by lia. fold (next_page k). cbn [k_nextfree set_nextfree].
  rewrite Z.add_0_r, u32_small; [exact HQ|]. unfold next_page, PGSIZE in *. divmod.
Qed.

(** The state in the loop, before page [i]. *)
Record init_inv (k0 k : kernel) (i : Z) : Prop := InitInv {
  ii_only : init_only k0 k;
  ii_list : is_list k (rev (seq (Z.to_nat (next_page k0 - KERNBASE / 4096)) (Z.to_nat (i - (next_page k0 - KERNBASE / 4096)))));
  ii_refs : forall p, Z.of_nat p < i -> ref_of k p = 0;
  ii_next : 0 < k_nextfree k <= 2 ^ 32 - PGSIZE /\ next_page k = next_page k0;
}.

Lemma wp_page_init_step k0 k i (Q : () -> kernel -> Prop) :
  init_inv k0 k i -> 0 <= i < k_npages k0 -> Z.of_nat (length (k_pages k0)) = k_npages k0 -> k_npages k0 <= 65536 ->
  KERNBASE + EXTPHYSMEM <= k_nextfree k0 ->
  (forall k', init_inv k0 k' (i + 1) -> Q tt k') -> wp (page_init_step kend i) Q k.
Proof using Type.
  intros Hinv Hi Hlen Hnp Hnf HQ. destruct Hinv as [Honly Hlist Hrefs [Hn Hnext]].
  set (F := next_page k0 - KERNBASE / 4096) in *.
  assert (HF : 256 <= F) by (unfold F, next_page, KERNBASE, EXTPHYSMEM in *; divmod).
  assert (Hil : (Z.to_nat i < length (k_pages k))%nat) by (rewrite (proj2 Honly); lia).
  unfold page_init_step. wp_go. apply wp_set_ref; [done|]. intros k1 (Hp1 & Hr1 & Ho1 & Hl1 & _). wp_go.
  assert (Honly1 : init_only k0 k1) by (eapply init_only_trans; [exact Honly | by apply init_only_pages]).
  assert (Hn1 : k_nextfree k1 = k_nextfree k) by (by destruct Hp1 as [-> _]).
  assert (Hrefs1 : forall p, Z.of_nat p < i + 1 -> ref_of k1 p = 0).
  { intros p Hp. destruct (decide (p = Z.to_nat i)) as [->|Hne]; [by rewrite Hr1|].
    rewrite Ho1 by done. apply Hrefs. lia. }
  (* a page that is not free *)
  assert (Hskip : forall k2, init_only k1 k2 -> (forall l, is_list k1 l -> is_list k2 l) -> (forall p, ref_of k2 p = ref_of k1 p) ->
      0 < k_nextfree k2 <= 2 ^ 32 - PGSIZE /\ next_page k2 = next_page k0 -> i < F -> Q tt k2).
  { intros k2 Ho2 Hl2 Hr2 Hn2 HiF. apply HQ. split; [by eapply init_only_trans| | |done].
    - apply Hl2, Hl1. fold F in Hlist |- *. replace (Z.to_nat (i + 1 - F)) with 0%nat by lia.
      by replace (Z.to_nat (i - F)) with 0%nat in Hlist by lia.
    - intros p Hp. rewrite Hr2. by apply Hrefs1. }
  assert (Hnk1 : 0 < k_nextfree k1 <= 2 ^ 32 - PGSIZE /\ next_page k1 = next_page k0)
    by (unfold next_page in *; rewrite Hn1; done).
  destruct (Z.eqb_spec i 0); wp_go; [apply Hskip; [by destruct k1|done|done|done|lia]|].
  change (PGNUM IOPHYSMEM) with 160. change (PGNUM EXTPHYSMEM) with 256.
  destruct ((160 <=? i) && (i <? 256)) eqn:Eh; wp_go; [apply Hskip; [by destruct k1|done|done|done|lia]|].
  unfold PADDR at 1. change (u32 KERNBASE <? KERNBASE) with false. wp_go.
  change (PGNUM (u32 KERNBASE - KERNBASE)) with 0. replace (0 <=? i) with true by lia. wp_go.
  apply wp_boot_alloc_0; [apply Hnk1|]. rewrite (proj2 Hnk1).
  set (k2 := set_nextfree (next_page k0 * 4096) k1).
  assert (Hb : KERNBASE + 256 * 4096 <= next_page k0 * 4096 < 2 ^ 32).
  { rewrite <- Hnext. unfold F, next_page, KERNBASE, EXTPHYSMEM, PGSIZE in *. divmod. }
  unfold PADDR. rewrite u32_small by (unfold KERNBASE in *; lia).
  replace (next_page k0 * 4096 <? KERNBASE) with false by (unfold KERNBASE in *; lia). wp_go.
  assert (PGNUM (next_page k0 * 4096 - KERNBASE) = F) as ->.
  { unfold F. rewrite PGNUM_div, u32_small by (unfold KERNBASE in *; lia). unfold KERNBASE. divmod. }
  assert (Hnk2 : 0 < k_nextfree k2 <= 2 ^ 32 - PGSIZE /\ next_page k2 = next_page k0).
  { unfold k2, next_page. cbn [k_nextfree set_nextfree]. fold (next_page k0). unfold KERNBASE, PGSIZE in *. split; [lia|]. divmod. }
  assert (Hl2 : forall l, is_list k1 l -> is_list k2 l) by (intros l; by apply is_list_same).
  destruct (Z.ltb_spec i F); wp_go; [apply Hskip; [by destruct k1|done|done|done|done]|].
  eapply (wp_page_free k2); [apply Hl2, Hl1, Hlist| |change (k_pages k2) with (k_pages k1); by rewrite (proj2 Hp1)|].
  { rewrite list_elem_of_In, <- in_rev, in_seq. lia. }
  intros k3 Hlk3 Hl3 _. apply HQ. fold F. split.
  - eapply init_only_trans; [exact Honly1|]. eapply init_only_trans; [|apply init_only_pages, links_pages_only; exact Hlk3].
    unfold k2. by destruct k1.
  - fold F. replace (Z.to_nat (i + 1 - F)) with (S (Z.to_nat (i - F))) by lia.
    rewrite seq_S, rev_app_distr. cbn [rev app]. by replace (Z.to_nat F + Z.to_nat (i - F))%nat with (Z.to_nat i) by lia.
  - intros p Hp. rewrite (links_only_ref _ _ _ Hlk3). by apply Hrefs1.
  - destruct Hlk3 as [-> _]. exact Hnk2.
Qed.
End page_init.

Lemma page_init_run kend k :
  Z.of_nat (length (k_pages k)) = k_npages k -> k_npages k <= 65536 ->
  KERNBASE + EXTPHYSMEM <= k_nextfree k <= 2 ^ 32 - PGSIZE ->
  let F := next_page k - KERNBASE / 4096 in
  wp (page_init kend) (fun _ k' =>
    is_list k' (rev (seq (Z.to_nat F) (Z.to_nat (k_npages k - F)))) /\
    (forall p, Z.of_nat p < k_npages k -> ref_of k' p = 0) /\ init_only k k' /\ 256 <= F) k.
Proof.
  intros Hlen Hnp Hnf F. unfold page_init, LIST_INIT. wp_go. set (k1 := q_set_first None k).
  assert (HF : 256 <= F) by (unfold F, next_page, KERNBASE, EXTPHYSMEM in *; divmod).
  apply wp_while with
    (Inv := fun i k' => 0 <= i <= Z.max 0 (k_npages k) /\ init_inv k1 k' i)
    (mu := fun i => Z.to_nat (k_npages k - i)).
  - split; [lia|]. split.
    + by destruct k.
    + change (next_page k1 - KERNBASE / 4096) with F. replace (Z.to_nat (0 - F)) with 0%nat by lia.
      split_and!; [done|done|]. constructor.
    + intros p Hp. lia.
    + split; [|done]. unfold KERNBASE, EXTPHYSMEM in Hnf. cbn. lia.
  - cbn. unfold id. lia.
  - intros i k' [Hi Hinv]. wp_go. unfold id.
    assert (Hnk : k_npages k' = k_npages k) by (by rewrite (proj1 (ii_only _ _ _ Hinv))).
    rewrite Hnk. destruct (Z.ltb_spec i (k_npages k)); wp_go.
    + eapply (wp_page_init_step kend k1); [exact Hinv|cbn; lia|done|done|cbn; lia|].
      intros k2 Hinv2. wp_go. split; [split; [lia|exact Hinv2]|lia].
    + split_and!.
      * pose proof (ii_list _ _ _ Hinv) as Hl. change (next_page k1 - KERNBASE / 4096) with F in Hl.
        by replace (Z.to_nat (k_npages k - F)) with (Z.to_nat (i - F)) by lia.
      * intros p Hp. apply (ii_refs _ _ _ Hinv). lia.
      * eapply init_only_trans; [|apply (ii_only _ _ _ Hinv)]. by destruct k.
      * done.
Qed.

(** C15: [page_init] frees exactly the pages from the end of the kernel and of its
    boot-time allocations to the end of memory, highest first, and clears all
    reference counts.  The test [i >= PGNUM(PADDR(KERNBASE))] holds for every
    page, so no page of base memory is freed. *)
Theorem page_init_correct kend k :
  Z.of_nat (length (k_pages k)) = k_npages k -> k_npages k <= 65536 ->
  KERNBASE + EXTPHYSMEM <= k_nextfree k <= 2 ^ 32 - PGSIZE ->
  let F := next_page k - KERNBASE / 4096 in
  wp (page_init kend) (fun _ k' =>
    is_list k' (rev (seq (Z.to_nat F) (Z.to_nat (k_npages k - F)))) /\
    (forall p, Z.of_nat p < k_npages k -> ref_of k' p = 0) /\ init_only k k' /\ 256 <= F) k.
Proof. apply page_init_run. Qed.

(** A machine of 258 pages whose kernel ends in the first page of extended memory. *)
Definition boot_ex : kernel :=
  Kernel 258 160 (KERNBASE + 0x100000) (replicate 258 (MkPage (Entry None None) 7)) 0 None (KERNBASE + 0x100004)
    ∅ (fun _ => 0) ∅ 0 0 (Io [] []) [] [].

Lemma page_init_correct_witness :
  wp (page_init 0) (fun _ k' => is_list k' [257]%nat /\ ref_of k' 5 = 0) boot_ex.
Proof.
  eapply wp_mono; [apply (page_init_correct 0 boot_ex);
    [reflexivity|cbn; lia|unfold KERNBASE, EXTPHYSMEM, PGSIZE; cbn; unfold KERNBASE; lia]|].
  intros _ k' (Hl & Hr & _). split; [exact Hl | apply (Hr 5%nat); cbn; lia].
Defined.
