(* ===== verification/BootMap.v ===== *)
(** * BootMap: the address space that boot_mem_init builds (kern/pmap.c)

    The page directory and page tables during start-up, before there is a page
    allocator: the invariant of the boot-time walk, [boot_map_segment] as an update
    of the map from linear to physical addresses, and [boot_mem_init]. *)

From S2P Require Import Prelude Layout Printfmt FormatSpec Printf Ports Queue Kernel Pgdir BootMem.
Open Scope Z_scope.

Section boot_map.
Context (kend bootstack d : Z).   (* [d]: the page of the directory *)

Definition vpt_slot : Z := PDX VPT.

(** Directory entry [n], whether it is present, and the page of its table. *)
Definition pde (k : kernel) (n : Z) : Z := word k (d * PGSIZE + 4 * n).
Definition present (k : kernel) (n : Z) : bool := Z.testbit (pde k n) 0.
Definition table (k : kernel) (n : Z) : Z := PGNUM (pde k n).

(** The page table entry for [la], if there is a page table. *)
Definition pte (k : kernel) (la : Z) : option Z :=
  if present k (PDX la) then Some (word k (table k (PDX la) * PGSIZE + 4 * PTX la)) else None.

(** [f] is the next free page.  The directory and the tables are different pages
    in memory, before [f]; only the recursive entry leads back to the directory. *)
Record dir_ok (k : kernel) (f : Z) : Prop := DirOk {
  bo_pgdir : k_pgdir k = KERNBASE + d * PGSIZE;
  bo_pages : 0 <= d < f /\ f <= k_npages k /\ k_npages k < 65536;
  bo_tables : forall n, 0 <= n < 1024 -> n <> vpt_slot -> present k n = true -> d < table k n < f;
  bo_apart : forall n m, 0 <= n < 1024 -> 0 <= m < 1024 -> n <> vpt_slot -> m <> vpt_slot ->
    present k n = true -> present k m = true -> table k n = table k m -> n = m;
}.
Record boot_ok (k : kernel) (f : Z) : Prop := BootOk {
  bo_dir :> dir_ok k f;
  bo_next : k_nextfree k = KERNBASE + f * PGSIZE;
}.

(** Nothing but RAM and [nextfree] changes, and RAM only from the directory on. *)
Definition boot_only (k k' : kernel) : Prop :=
  k' = set_nextfree (k_nextfree k') (set_ram (k_ram k') k) /\
  forall pa, pa < d * PGSIZE -> word k' pa = word k pa.

Lemma boot_only_refl k : boot_only k k.
Proof. by destruct k. Qed.
Lemma boot_only_trans k1 k2 k3 : boot_only k1 k2 -> boot_only k2 k3 -> boot_only k1 k3.
Proof. intros [-> H1] [-> H2]. split; [done|]. intros pa Hpa. by rewrite H2, H1. Qed.
Lemma boot_only_npages k k' : boot_only k k' -> k_npages k' = k_npages k.
Proof. by intros [-> _]. Qed.

Lemma land_P e : Z.land e PTE_P = 0 <-> Z.testbit e 0 = false.
Proof.
  pose proof (land_bit e 0 ltac:(lia)) as H. change (2 ^ 0) with PTE_P in H. rewrite <- Z.eqb_eq, H. by destruct (Z.testbit e 0).
Qed.

(** An entry: a page and flags with the present bit. *)
Lemma entry_value p c : 0 <= p < 65536 -> 0 <= c < PGSIZE -> Z.testbit c 0 = true ->
  let e := Z.lor (Z.lor (p * PGSIZE) PTE_P) c in
  e = p * PGSIZE + c /\ u32 e = e /\ PGNUM e = p /\ Z.testbit e 0 = true.
Proof.
  intros Hp Hc Hb e. unfold PGSIZE in *.
  assert (E : e = p * 4096 + c).
  { unfold e. rewrite <- Z.lor_assoc. assert (H1 : Z.lor PTE_P c = c).
    { apply Z.bits_inj'. intros i Hi. rewrite Z.lor_spec. destruct (decide (i = 0)) as [->|]; [by rewrite Hb|].
      change PTE_P with (2 ^ 0). by rewrite Z.pow2_bits_false by lia. }
    rewrite H1, (lor_low_add _ c 12) by (lia || divmod). done. }
  assert (E32 : u32 e = e) by (rewrite E, u32_small by lia; done).
  split_and!; [done|done| |].
  - rewrite PGNUM_div, E32, E. divmod.
  - unfold e. by rewrite Z.lor_spec, Hb, orb_true_r.
Qed.

Lemma wp_boot_alloc_page k f (Q : Z -> kernel -> Prop) :
  k_nextfree k = KERNBASE + f * PGSIZE -> 0 <= f -> f + 1 < 65536 ->
  Q (KERNBASE + f * PGSIZE) (set_nextfree (KERNBASE + (f + 1) * PGSIZE) k) -> wp (boot_alloc kend PGSIZE) Q k.
Proof using Type.
  intros Hn Hf0 Hf HQ. unfold KERNBASE, PGSIZE in *. unfold boot_alloc. wp_go. unfold id. rewrite Hn. replace (_ =? 0) with false by lia.
  unfold when. wp_go. cbn [k_nextfree set_nextfree]. rewrite ROUNDUP_page by (unfold PGSIZE; lia).
  rewrite Hn. replace ((4026531840 + f * 4096 + 4095) / 4096 * 4096) with (4026531840 + f * 4096) by divmod.
  rewrite u32_small by lia. by replace (4026531840 + f * 4096 + 4096) with (4026531840 + (f + 1) * 4096) by lia.
Qed.

Lemma pde_in_ram k f la : dir_ok k f -> in_ram k (k_pgdir k + 4 * PDX la) = true.
Proof using Type.
  intros Hok. rewrite (bo_pgdir _ _ Hok). destruct (bo_pages _ _ Hok). apply page_in_ram_word; [split; lia|apply PDX_range].
Qed.

Lemma word_pde k la : k_pgdir k = KERNBASE + d * PGSIZE -> word k (k_pgdir k + 4 * PDX la - KERNBASE) = pde k (PDX la).
Proof using Type. intros ->. unfold pde. f_equal. lia. Qed.

Lemma wp_table k e la t (Q : Z -> kernel -> Prop) :
  PGNUM e = t -> 0 <= t < k_npages k -> k_npages k <= 65536 ->
  Q (KERNBASE + t * PGSIZE + 4 * PTX la) k -> wp (KADDR (PTE_ADDR e)) (fun p => wp (mret (p + 4 * PTX la)) Q) k.
Proof using Type.
  intros He Ht Hk HQ. replace (PTE_ADDR e) with (t * PGSIZE + 0) by (rewrite PTE_ADDR_div, <- He, PGNUM_div; unfold PGSIZE; lia).
  apply wp_KADDR_page; [done|unfold PGSIZE; lia|]. wp_go. by rewrite Z.add_0_r.
Qed.

(** The state after a page table has been added for directory entry [n]. *)
Definition table_new (k : kernel) (n f c : Z) : kernel :=
  set_word (d * PGSIZE + 4 * n) (f * PGSIZE + c) (set_nextfree (KERNBASE + (f + 1) * PGSIZE) k).

Lemma wp_boot_pgdir_walk k f la c (Q : Z -> kernel -> Prop) :
  boot_ok k f -> PDX la <> vpt_slot -> 0 <= c < PGSIZE -> Z.testbit c 0 = true ->
  (present k (PDX la) = true -> Q (KERNBASE + table k (PDX la) * PGSIZE + 4 * PTX la) k) ->
  (present k (PDX la) = false -> f < k_npages k /\ f + 1 < 65536 /\ Q (KERNBASE + f * PGSIZE + 4 * PTX la) (table_new k (PDX la) f c)) ->
  wp (boot_pgdir_walk kend la c) Q k.
Proof using Type.
  intros Hok Hv Hc Hcb HP HN. pose proof (pde_in_ram k f la Hok) as Hram. destruct (bo_pages _ _ Hok) as ((Hd1 & Hd2) & Hf & Hnp).
  unfold boot_pgdir_walk. wp_go. apply wp_ld; [done|]. rewrite word_pde by apply (bo_pgdir _ _ Hok). wp_go. destruct (present k (PDX la)) eqn:Ep.
  - replace (Z.land (pde k (PDX la)) PTE_P =? 0) with false.
    2:{ symmetry. apply Z.eqb_neq. rewrite land_P. unfold present in Ep. by rewrite Ep. }
    wp_go. apply wp_ld; [done|]. rewrite word_pde by apply (bo_pgdir _ _ Hok). wp_go.
    pose proof (bo_tables _ _ Hok (PDX la) (PDX_range la) Hv Ep) as Ht.
    apply (wp_table k (pde k (PDX la)) la (table k (PDX la))); [done|lia|lia|by apply HP].
  - unfold present in Ep. apply land_P in Ep. rewrite Ep. cbn [Z.eqb]. destruct (HN eq_refl) as (Hlt & Hlt' & HQ).
    replace (c =? 0) with false by (destruct (Z.eqb_spec c 0); [subst c; discriminate|done]).
    wp_go. apply (wp_boot_alloc_page k f); [apply (bo_next _ _ Hok)|lia|lia|]. wp_go.
    replace (KERNBASE + f * PGSIZE =? 0) with false by (unfold KERNBASE, PGSIZE; lia). wp_go. unfold PADDR. wp_go.
    rewrite u32_small by (unfold KERNBASE, PGSIZE; lia). replace (_ <? KERNBASE) with false by (unfold PGSIZE; lia). wp_go.
    assert (Hpa : PTE_ADDR (KERNBASE + f * PGSIZE - KERNBASE) = f * PGSIZE).
    { rewrite PTE_ADDR_div. unfold KERNBASE, PGSIZE. rewrite u32_small by lia. divmod. }
    destruct (entry_value f c ltac:(lia) Hc Hcb) as (E1 & E2 & E3 & E4).
    apply wp_st; [exact Hram|]. rewrite Hpa, E1. rewrite (bo_pgdir _ _ Hok). replace (KERNBASE + d * PGSIZE + 4 * PDX la - KERNBASE) with (d * PGSIZE + 4 * PDX la) by lia.
    fold (table_new k (PDX la) f c). wp_go. rewrite <- (bo_pgdir _ _ Hok). apply wp_ld; [exact Hram|]. rewrite (bo_pgdir _ _ Hok).
    replace (KERNBASE + d * PGSIZE + 4 * PDX la - KERNBASE) with (d * PGSIZE + 4 * PDX la) by lia.
    unfold table_new at 1. rewrite word_set_word, decide_True by done. rewrite <- E1, E2.
    wp_go. apply (wp_table (table_new k (PDX la) f c) _ la f); [exact E3|cbn; lia|cbn; lia|exact HQ].
Qed.

Lemma boot_ok_ext k k' f :
  k_pgdir k' = k_pgdir k -> k_nextfree k' = k_nextfree k -> k_npages k' = k_npages k ->
  (forall n, 0 <= n < 1024 -> pde k' n = pde k n) -> boot_ok k f -> boot_ok k' f.
Proof using Type.
  intros Hg Hn Hp He [[? ? Ht Ha] ?].
  assert (H : forall n, 0 <= n < 1024 -> present k' n = present k n /\ table k' n = table k n)
    by (intros n Hr; unfold present, table; by rewrite He).
  split; [|congruence]. split; [congruence|by rewrite Hp| |].
  - intros n Hr Hv Hpr. destruct (H n Hr) as [E1 E2]. rewrite E1 in Hpr. rewrite E2. by apply Ht.
  - intros n m Hrn Hrm Hvn Hvm Hpn Hpm. destruct (H n Hrn) as [E1 E2], (H m Hrm) as [E3 E4].
    rewrite E1 in Hpn. rewrite E3 in Hpm. rewrite E2, E4. by apply Ha.
Qed.

(** Storing an entry in an existing table. *)
Lemma set_entry k f la v :
  boot_ok k f -> PDX la <> vpt_slot -> present k (PDX la) = true ->
  let k' := set_word (table k (PDX la) * PGSIZE + 4 * PTX la) v k in
  (forall n, 0 <= n < 1024 -> pde k' n = pde k n) /\ boot_ok k' f /\ boot_only k k' /\ pte k' la = Some (u32 v) /\
  (forall la', PDX la' <> vpt_slot -> PGNUM la' <> PGNUM la -> pte k' la' = pte k la').
Proof using Type.
  intros Hok Hv Hp k'. pose proof (bo_tables _ _ Hok (PDX la) (PDX_range la) Hv Hp) as Ht. pose proof (PTX_range la) as Hx.
  assert (He : forall n, 0 <= n < 1024 -> pde k' n = pde k n).
  { intros n Hn. unfold pde, k'. rewrite word_set_word, decide_False; [done|]. unfold PGSIZE. lia. }
  assert (Hpr : forall n, 0 <= n < 1024 -> present k' n = present k n /\ table k' n = table k n)
    by (intros n Hn; unfold present, table; by rewrite He).
  split; [done|]. split; [by apply (boot_ok_ext k)|]. split.
  { split; [done|]. intros pa Hpa. unfold k'. rewrite word_set_word, decide_False; [done|]. unfold PGSIZE in *. lia. }
  unfold pte. split.
  - destruct (Hpr _ (PDX_range la)) as [-> ->]. rewrite Hp. unfold k'. by rewrite word_set_word, decide_True.
  - intros la' Hv' Hne. destruct (Hpr _ (PDX_range la')) as [-> ->]. destruct (present k (PDX la')) eqn:Hp'; [|done].
    unfold k'. rewrite word_set_word, decide_False; [done|]. intros E. pose proof (PTX_range la') as Hx'.
    assert (table k (PDX la) = table k (PDX la') /\ PTX la = PTX la') as [E1 E2] by (unfold PGSIZE in *; lia).
    apply Hne, same_page. split; [|done]. symmetry. apply (bo_apart _ _ Hok); try done; apply PDX_range.
Qed.

(** Adding a table. *)
Lemma add_table k f n c :
  boot_ok k f -> 0 <= n < 1024 -> n <> vpt_slot -> present k n = false -> f < k_npages k -> f + 1 < 65536 ->
  0 <= c < PGSIZE -> Z.testbit c 0 = true ->
  let k' := table_new k n f c in
  boot_ok k' (f + 1) /\ boot_only k k' /\ present k' n = true /\ table k' n = f /\
  (forall m, 0 <= m < 1024 -> m <> n -> pde k' m = pde k m) /\
  (forall la', PDX la' <> vpt_slot -> PDX la' <> n -> pte k' la' = pte k la').
Proof using Type.
  intros Hok Hn Hv Hp Hf1 Hf2 Hc Hcb k'. destruct (bo_pages _ _ Hok) as ((Hd1 & Hd2) & Hf & Hnp).
  destruct (entry_value f c ltac:(lia) Hc Hcb) as (E1 & E2 & E3 & E4).
  assert (Hw : forall pa, word k' pa = if decide (d * PGSIZE + 4 * n = pa) then f * PGSIZE + c else word k pa).
  { intros pa. unfold k', table_new. rewrite word_set_word. case_decide; [by rewrite <- E1, E2|done]. }
  assert (Hnew : pde k' n = f * PGSIZE + c) by (unfold pde; by rewrite Hw, decide_True).
  assert (Hpn : present k' n = true) by (unfold present; by rewrite Hnew, <- E1).
  assert (Htn : table k' n = f) by (unfold table; by rewrite Hnew, <- E1).
  assert (He : forall m, 0 <= m < 1024 -> m <> n -> pde k' m = pde k m)
    by (intros m Hm Hne; unfold pde; rewrite Hw, decide_False; [done|lia]).
  assert (Hpr : forall m, 0 <= m < 1024 -> m <> n -> present k' m = present k m /\ table k' m = table k m)
    by (intros m Hm Hne; unfold present, table; by rewrite He).
  split_and!; try done.
  - split; [|done]. split; [apply (bo_pgdir _ _ Hok)|cbn; lia| |].
    + intros m Hm Hmv Hpm. destruct (decide (m = n)) as [->|Hne]; [rewrite Htn; lia|].
      destruct (Hpr m Hm Hne) as [E5 E6]. rewrite E5 in Hpm. rewrite E6. pose proof (bo_tables _ _ Hok m Hm Hmv Hpm). lia.
    + intros m m' Hm Hm' Hmv Hmv' Hpm Hpm' E.
      destruct (decide (m = n)) as [->|Hne], (decide (m' = n)) as [->|Hne']; [done| | |].
      * destruct (Hpr m' Hm' Hne') as [E5 E6]. rewrite E5 in Hpm'. rewrite E6, Htn in E. pose proof (bo_tables _ _ Hok m' Hm' Hmv' Hpm'). lia.
      * destruct (Hpr m Hm Hne) as [E5 E6]. rewrite E5 in Hpm. rewrite E6, Htn in E. pose proof (bo_tables _ _ Hok m Hm Hmv Hpm). lia.
      * destruct (Hpr m Hm Hne) as [E5 E6], (Hpr m' Hm' Hne') as [E7 E8]. rewrite E5 in Hpm. rewrite E7 in Hpm'. rewrite E6, E8 in E.
        by apply (bo_apart _ _ Hok).
  - split; [done|]. intros pa Hpa. rewrite Hw, decide_False; [done|lia].
  - intros la' Hv' Hne. unfold pte. destruct (Hpr _ (PDX_range la') Hne) as [-> ->]. destruct (present k (PDX la')) eqn:Ep; [|done].
    rewrite Hw, decide_False; [done|]. pose proof (bo_tables _ _ Hok _ (PDX_range la') Hv' Ep). pose proof (PTX_range la'). unfold PGSIZE. lia.
Qed.

(** What one round of [boot_map_segment] does: [la] gets the entry [v]. *)
Record map_one (k k' : kernel) (la v : Z) : Prop := MapOne {
  mo_only : boot_only k k';
  mo_entry : pte k' la = Some (u32 v);
  mo_present : present k' (PDX la) = true;
  mo_pde : forall n, 0 <= n < 1024 -> n <> PDX la -> pde k' n = pde k n;
  mo_kept : forall la', PDX la' <> vpt_slot -> PGNUM la' <> PGNUM la ->
    present k (PDX la) = true \/ PDX la' <> PDX la -> pte k' la' = pte k la';
}.

Lemma wp_map_one k f la v c (Q : () -> kernel -> Prop) :
  boot_ok k f -> PDX la <> vpt_slot -> 0 <= c < PGSIZE -> Z.testbit c 0 = true ->
  (present k (PDX la) = false -> f < k_npages k /\ f + 1 < 65536) ->
  (forall k', boot_ok k' (if present k (PDX la) then f else f + 1) -> map_one k k' la v -> Q tt k') ->
  wp (boot_pgdir_walk kend la c) (fun p => wp (st p v) Q) k.
Proof using Type.
  intros Hok Hv Hc Hcb Hroom HQ. apply (wp_boot_pgdir_walk k f); [done..| |].
  - intros Hp. rewrite Hp in HQ. pose proof (bo_tables _ _ Hok _ (PDX_range la) Hv Hp) as Ht. destruct (bo_pages _ _ Hok) as (? & ? & ?).
    destruct (set_entry k f la v Hok Hv Hp) as (He & Hok' & Hon & Hpte & Hkept).
    apply wp_st; [apply page_in_ram_word; [split; lia|apply PTX_range]|].
    replace (KERNBASE + table k (PDX la) * PGSIZE + 4 * PTX la - KERNBASE) with (table k (PDX la) * PGSIZE + 4 * PTX la) by lia.
    apply HQ; [done|]. split; [done|done| | |].
    + unfold present. rewrite He by apply PDX_range. exact Hp.
    + intros. by apply He.
    + intros. by apply Hkept.
  - intros Hp. rewrite Hp in HQ. destruct (Hroom Hp) as [Hf1 Hf2]. split; [done|]. split; [done|].
    destruct (add_table k f (PDX la) c Hok (PDX_range la) Hv Hp Hf1 Hf2 Hc Hcb) as (Hok1 & Hon1 & Hp1 & Ht1 & He1 & Hk1).
    set (k1 := table_new k (PDX la) f c) in *. destruct (bo_pages _ _ Hok) as (? & ? & ?).
    destruct (set_entry k1 (f + 1) la v Hok1 Hv Hp1) as (He & Hok' & Hon & Hpte & Hkept). rewrite Ht1 in *.
    apply wp_st; [apply page_in_ram_word; [split; cbn; lia|apply PTX_range]|].
    replace (KERNBASE + f * PGSIZE + 4 * PTX la - KERNBASE) with (f * PGSIZE + 4 * PTX la) by lia.
    apply HQ; [done|]. split; [by eapply boot_only_trans|done| | |].
    + unfold present. rewrite He by apply PDX_range. exact Hp1.
    + intros n Hn Hne. rewrite He by done. by apply He1.
    + intros la' Hv' Hne [Hpr|Hpdx]; [congruence|]. rewrite Hkept by done. by apply Hk1.
Qed.

Lemma perm_bits perm : 0 <= perm < PGSIZE -> 0 <= Z.lor PTE_P perm < PGSIZE /\ Z.testbit (Z.lor PTE_P perm) 0 = true.
Proof using Type.
  unfold PGSIZE. intros Hp. split; [|by rewrite Z.lor_spec].
  assert (E : Z.lor PTE_P perm = Z.lor PTE_P perm mod 2 ^ 12).
  { rewrite <- (Z.mod_small perm (2 ^ 12)) by lia. apply Z.bits_inj'. intros i Hi. destruct (decide (i < 12)).
    - by rewrite Z.mod_pow2_bits_low by lia.
    - rewrite Z.mod_pow2_bits_high by lia. rewrite Z.lor_spec, Z.mod_pow2_bits_high by lia.
      change PTE_P with (2 ^ 0). by rewrite Z.pow2_bits_false by lia. }
  rewrite E. apply Z.mod_pos_bound. lia.
Qed.

Lemma PDX_mono a b : 0 <= a -> a <= b -> b < 2 ^ 32 -> PDX a <= PDX b.
Proof using Type. intros. rewrite !PDX_div, !u32_small by lia. apply Z.div_le_mono; lia. Qed.

Lemma PDX_next a b : 0 <= a -> a <= b -> b <= a + PGSIZE -> b < 2 ^ 32 -> PDX b <= PDX a + 1.
Proof using Type. unfold PGSIZE. intros. rewrite !PDX_div, !u32_small by lia. divmod. Qed.

Section segment.
Context (k : kernel) (f la size pa perm : Z).
Context (Hok : boot_ok k f) (Hla : la mod PGSIZE = 0) (Hla0 : 0 <= la) (Hsize : 0 < size).
Context (Hend : la + size <= 2 ^ 32) (Hwrap : size + PGSIZE <= 2 ^ 32) (Hpa0 : 0 <= pa) (Hpa_end : pa + size <= 2 ^ 32).
Context (Hperm : 0 <= perm < PGSIZE).

Definition last_pde : Z := PDX (la + size - 1).
Context (Hvpt : vpt_slot < PDX la \/ last_pde < vpt_slot) (Hroom : f + (last_pde - PDX la + 1) <= k_npages k).

Definition seg_entry (i : Z) : Z := u32 (Z.lor (Z.lor (pa + i) PTE_P) perm).

(** After the pages before [i]. *)
Record seg_inv (i : Z) (k' : kernel) (f' : Z) : Prop := SegInv {
  si_index : 0 <= i < size + PGSIZE /\ i mod PGSIZE = 0;
  si_ok : boot_ok k' f';
  si_only : boot_only k k';
  si_next : f <= f' <= f + (if i =? 0 then 0 else PDX (la + i - PGSIZE) - PDX la + 1);
  si_present : 0 < i -> present k' (PDX (la + i - PGSIZE)) = true;
  si_entries : forall j, 0 <= j < i -> j mod PGSIZE = 0 -> pte k' (la + j) = Some (seg_entry j);
  si_pde : forall n, 0 <= n < 1024 -> n < PDX la \/ last_pde < n -> pde k' n = pde k n;
  si_pte : forall la', PDX la' <> vpt_slot -> PDX la' < PDX la \/ last_pde < PDX la' -> pte k' la' = pte k la';
}.

Lemma seg_inv_step i k1 f1 (Q : () -> kernel -> Prop) :
  seg_inv i k1 f1 -> i < size ->
  (forall k2 f2, seg_inv (i + PGSIZE) k2 f2 -> Q tt k2) ->
  wp (boot_pgdir_walk kend (u32 (la + i)) (Z.lor PTE_P perm)) (fun p => wp (st p (Z.lor (Z.lor (u32 (pa + i)) PTE_P) perm)) Q) k1.
Proof using All.
  intros [[Hi Hmod] Hok1 Hon1 Hf1 Hpr1 He1 Hd1 Hp1] Hlt HQ. unfold PGSIZE in *. rewrite (u32_small (la + i)), (u32_small (pa + i)) by lia.
  destruct (perm_bits perm Hperm) as [Hc Hcb]. assert (Hi4 : i <> 0 -> 4096 <= i) by divmod.
  assert (Hrange : PDX la <= PDX (la + i) <= last_pde) by (split; apply PDX_mono; lia).
  apply (wp_map_one k1 f1); [done|lia|done|done| |].
  - intros Hnp. rewrite (boot_only_npages _ _ Hon1). destruct (bo_pages _ _ Hok) as (? & ? & ?).
    assert (f1 + 1 <= k_npages k); [|lia]. destruct (Z.eqb_spec i 0) as [->|Hi0]; [rewrite Z.add_0_r in Hrange; lia|].
    assert (Hne : PDX (la + i) <> PDX (la + i - 4096)) by (intros E; rewrite E, Hpr1 in Hnp by lia; done).
    pose proof (PDX_mono (la + i - 4096) (la + i) ltac:(lia) ltac:(lia) ltac:(lia)). lia.
  - intros k2 Hok2 [Hon2 He2 Hpr2 Hd2 Hk2].
    apply (HQ k2 (if present k1 (PDX (la + i)) then f1 else f1 + 1)). split; unfold PGSIZE.
    + split; [lia|divmod].
    + exact Hok2.
    + by eapply boot_only_trans.
    + replace (i + 4096 =? 0) with false by lia. replace (la + (i + 4096) - 4096) with (la + i) by lia.
      destruct (present k1 (PDX (la + i))) eqn:Ep.
      * destruct (Z.eqb_spec i 0); [lia|]. pose proof (PDX_mono (la + i - 4096) (la + i) ltac:(lia) ltac:(lia) ltac:(lia)). lia.
      * destruct (Z.eqb_spec i 0); [lia|]. assert (Hne : PDX (la + i) <> PDX (la + i - 4096)) by (intros E; rewrite E, Hpr1 in Ep by lia; done).
        pose proof (PDX_mono (la + i - 4096) (la + i) ltac:(lia) ltac:(lia) ltac:(lia)). lia.
    + intros _. by replace (la + (i + 4096) - 4096) with (la + i) by lia.
    + intros j Hj Hjm. destruct (decide (j = i)) as [->|Hne]; [exact He2|].
      assert (Hji : j < i) by divmod. rewrite Hk2; [by apply He1; [lia|]| | |].
      * assert (PDX la <= PDX (la + j) <= last_pde) by (split; apply PDX_mono; lia). lia.
      * rewrite !PGNUM_div, !u32_small by lia. divmod.
      * destruct (decide (PDX (la + j) = PDX (la + i))) as [E|]; [left|by right].
        assert (Hi0 : 0 < i) by lia. specialize (Hpr1 Hi0). rewrite <- Hpr1. f_equal.
        assert (j <= i - 4096) by divmod.
        pose proof (PDX_mono (la + j) (la + i - 4096) ltac:(lia) ltac:(lia) ltac:(lia)).
        pose proof (PDX_mono (la + i - 4096) (la + i) ltac:(lia) ltac:(lia) ltac:(lia)). lia.
    + intros n Hn Hout. rewrite Hd2 by lia. by apply Hd1.
    + intros la' Hv' Hout. rewrite Hk2; [by apply Hp1|done| |right; lia]. intros E%same_page. lia.
Qed.

Lemma wp_boot_map_segment (Q : () -> kernel -> Prop) :
  (forall k' f', boot_ok k' f' -> boot_only k k' -> f <= f' <= f + (last_pde - PDX la + 1) ->
    (forall i, 0 <= i < size -> i mod PGSIZE = 0 -> pte k' (la + i) = Some (seg_entry i)) ->
    (forall n, 0 <= n < 1024 -> n < PDX la \/ last_pde < n -> pde k' n = pde k n) ->
    (forall la', PDX la' <> vpt_slot -> PDX la' < PDX la \/ last_pde < PDX la' -> pte k' la' = pte k la') -> Q tt k') ->
  wp (boot_map_segment kend la size pa perm) Q k.
Proof using All.
  intros HQ. unfold boot_map_segment. wp_go.
  apply wp_while with (Inv := fun i k' => exists f', seg_inv i k' f') (mu := fun i => Z.to_nat ((size - i + 4095) / PGSIZE)).
  - exists f. split; [split; [unfold PGSIZE; lia|reflexivity]|done|apply boot_only_refl|rewrite Z.eqb_refl; lia|lia|lia|done|done].
  - unfold PGSIZE. rewrite Z.sub_0_r. apply Z2Nat.inj_lt; divmod.
  - intros i k1 [f1 Hinv]. wp_go. destruct (Z.ltb_spec i size) as [Hlt|Hge]; wp_go.
    + eapply wp_mono; [apply (seg_inv_step i k1 f1 (fun _ k2 => exists f2, seg_inv (i + PGSIZE) k2 f2)); [done|done|by eauto]|].
      intros p k2 H. wp_go. eapply wp_mono; [exact H|]. intros [] k3 [f2 Hinv2]. wp_go.
      destruct (si_index _ _ _ Hinv2) as [Hi2 _].
      destruct (si_index _ _ _ Hinv) as [Hi1 _]. rewrite u32_small by (unfold PGSIZE in *; lia).
      split; [by exists f2|]. unfold PGSIZE in *. apply Z2Nat.inj_lt; divmod.
    + destruct Hinv as [[Hi Hm] Hok1 Hon1 Hf1 Hpr1 He1 Hd1 Hp1]. unfold PGSIZE in *. apply (HQ k1 f1); try done.
      * destruct (Z.eqb_spec i 0); [lia|]. assert (PDX (la + i - 4096) <= last_pde) by (apply PDX_mono; divmod). lia.
      * intros j Hj Hjm. apply He1; [lia|done].
Qed.
End segment.
End boot_map.

(** ** Printing and detecting memory *)

Lemma for_each_kputchar l : forall k, for_each kputchar l k = Ret tt (set_out (k_out k ++ l) k).
Proof.
  induction l as [|c l IH]; intros k; cbn [for_each]; [rewrite app_nil_r; by destruct k|].
  erewrite bind_eq by reflexivity. rewrite IH. cbn. by rewrite <- app_assoc.
Qed.

Lemma wp_kprintf ps fmt args (Q : Z -> kernel -> Prop) k :
  unparse ps = fmt -> forallb piece_okb ps = true -> Forall va_ok args -> is_Some (render ps args) ->
  (forall out, Q 0 (set_out (k_out k ++ out) k)) -> wp (kprintf fmt args) Q k.
Proof.
  intros <- Hp Ha [[out rest] Hr] HQ. unfold wp, kprintf.
  rewrite (cprintf_run kputchar ps args out rest k) by (done || by apply pieces_okb_sound).
  rewrite (bind_eq _ _ _ _ _ (for_each_kputchar out k)). apply HQ.
Qed.

(** A format that is only text. *)
Lemma wp_kprint t (Q : Z -> kernel -> Prop) k :
  piece_okb (Text t) = true -> Q 0 (set_out (k_out k ++ t) k) -> wp (kprintf t []) Q k.
Proof.
  intros Ht HQ. unfold wp, kprintf.
  assert (Hu : t = unparse [Text t]) by (cbn; by rewrite app_nil_r).
  rewrite Hu. rewrite (cprintf_run kputchar [Text t] [] t [] k).
  - by rewrite (bind_eq _ _ _ _ _ (for_each_kputchar t k)).
  - apply pieces_okb_sound. cbn [forallb]. by rewrite Ht.
  - done.
  - cbn. by rewrite app_nil_r.
Qed.

(** "%d" *)
Definition plain_d : piece := Directive (Dir [] false None None 0 ConvD).

Lemma render_text s ps args : is_Some (render ps args) -> is_Some (render (Text s :: ps) args).
Proof. intros [[out rest] E]. cbn [render render_piece]. unfold mbind, option_bind. rewrite E. by eexists. Qed.

Lemma render_plain_d z ps args : is_Some (render ps args) -> is_Some (render (plain_d :: ps) (Word z :: args)).
Proof.
  intros [[out rest] E]. assert (H : exists o, render_piece plain_d (Word z :: args) = Some (o, args)).
  { unfold plain_d, render_piece, render_directive. cbn [d_conv d_long arg_int Nat.ltb Nat.leb]. unfold mbind, option_bind.
    pose proof (i32_range z). replace (i32 z =? - 2 ^ 63) with false by lia. by eexists. }
  destruct H as [o H]. cbn [render]. rewrite H. unfold mbind, option_bind. rewrite E. by eexists.
Qed.

Definition nvram_word (lo hi : Z) : Z := Z.lor (u8 lo) (Z.shiftl (u8 hi) 8).

Lemma wp_nvram_read r lo hi rest (Q : Z -> kernel -> Prop) k :
  io_in (k_io k) = lo :: hi :: rest ->
  (forall log, Q (nvram_word lo hi) (set_io (Io rest log) k)) -> wp (nvram_read r) Q k.
Proof.
  intros Hin HQ. unfold nvram_read. wp_go. unfold wp at 1. rewrite (mc146818_read_eq r lo (hi :: rest)) by done. wp_go.
  unfold wp at 1. rewrite (mc146818_read_eq _ hi rest) by done. wp_go. apply HQ.
Qed.

(** The size of memory that the clock's NVRAM reports, in pages. *)
Definition detected_pages (base ext : Z) : Z :=
  if negb (ext * 1024 / PGSIZE =? 0) then u32 (EXTPHYSMEM / PGSIZE + ext * 1024 / PGSIZE) else base * 1024 / PGSIZE.

Lemma nvram_word_range lo hi : 0 <= nvram_word lo hi < 65536.
Proof.
  pose proof (u8_range lo). pose proof (u8_range hi). unfold nvram_word. rewrite Z.lor_comm, Z.shiftl_mul_pow2 by lia.
  rewrite (lor_low_add _ _ 8) by (lia || divmod). lia.
Qed.

Lemma detected_range base ext : 0 <= base < 65536 -> 0 <= ext < 65536 -> 0 <= detected_pages base ext <= 16640.
Proof.
  intros. unfold detected_pages, EXTPHYSMEM, PGSIZE. destruct (negb _); [rewrite u32_small|]; divmod.
Qed.

Lemma wp_i386_mem_detect b0 b1 e0 e1 rest (Q : () -> kernel -> Prop) k :
  io_in (k_io k) = b0 :: b1 :: e0 :: e1 :: rest ->
  let base := nvram_word b0 b1 in
  let ext := nvram_word e0 e1 in
  (forall log out, Q tt (set_out out (set_io (Io rest log) (set_npages (detected_pages base ext) (set_n_base_pages (base * 1024 / PGSIZE) k))))) ->
  wp i386_mem_detect Q k.
Proof.
  intros Hin base ext HQ. unfold i386_mem_detect. wp_go. eapply wp_nvram_read; [exact Hin|]. intros log1. wp_go.
  eapply wp_nvram_read; [reflexivity|]. intros log2. fold ext base. wp_go.
  set (ps1 := [Text (bytes "Physical memory: "); plain_d; Text (bytes "K available, ")]).
  set (ps2 := [Text (bytes "base = "); plain_d; Text (bytes "K, extended = "); plain_d; Text (bytes "K" ++ [10])]).
  assert (H1 : forall z, is_Some (render ps1 [Word z])) by (intros z; do 3 (apply render_text || apply render_plain_d); by eexists).
  assert (H2 : forall z y, is_Some (render ps2 [Word z; Word y]))
    by (intros z y; do 5 (apply render_text || apply render_plain_d); by eexists).
  assert (Hrest : forall k1, k1 = set_io (Io rest log2) (set_npages (detected_pages base ext) (set_n_base_pages (base * 1024 / PGSIZE) k)) ->
    wp (k ← gets id;
        kprintf (bytes "Physical memory: %dK available, ") [Word (u32 (k_npages k * PGSIZE) / 1024)];;
        kprintf (bytes "base = %dK, extended = %dK" ++ [10])
          [Word (u32 (k_n_base_pages k * PGSIZE) / 1024); Word (u32 (ext * 1024 / PGSIZE * PGSIZE) / 1024)];;
        mret tt) Q k1).
  { intros k1 ->. wp_go. eapply (wp_kprintf ps1); [reflexivity|reflexivity|by repeat constructor|apply H1|]. intros out1. wp_go.
    eapply (wp_kprintf ps2); [reflexivity|reflexivity|by repeat constructor|apply H2|]. intros out2. wp_go. apply HQ. }
  unfold detected_pages in Hrest. destruct (negb (ext * 1024 / PGSIZE =? 0)).
  - apply wp_modify. apply Hrest. reflexivity.
  - apply wp_bind, wp_gets, wp_modify. apply Hrest. reflexivity.
Qed.

(** ** The checks *)

Section check.
Context (kend bootstack d : Z).

(** The kernel's part of the address space: all physical memory from KERNBASE on,
    the stack below KSTACKTOP, the recursive entry, and no other page tables. *)
Record kernel_space (k : kernel) : Prop := KernelSpace {
  ks_phys : forall i, 0 <= i < 2 ^ 28 -> i mod PGSIZE = 0 -> pte d k (KERNBASE + i) = Some (seg_entry 0 PTE_W i);
  ks_stack : forall i, 0 <= i < KSTKSIZE -> i mod PGSIZE = 0 ->
    pte d k (KSTACKTOP - KSTKSIZE + i) = Some (seg_entry (bootstack - KERNBASE) PTE_W i);
  ks_vpt : pde d k vpt_slot = d * PGSIZE + Z.lor PTE_W PTE_P;
  ks_none : forall n, 0 <= n < PDX KERNBASE -> n <> vpt_slot -> n <> PDX (KSTACKTOP - 1) -> pde d k n = 0;
}.

Lemma seg_entry_W pa i : 0 <= pa + i < 2 ^ 28 -> (pa + i) mod PGSIZE = 0 ->
  PTE_ADDR (seg_entry pa PTE_W i) = pa + i /\ Z.testbit (seg_entry pa PTE_W i) 0 = true /\ 0 <= seg_entry pa PTE_W i < 2 ^ 32.
Proof.
  intros Hr Hm. unfold seg_entry. set (p := (pa + i) / PGSIZE). assert (E : pa + i = p * PGSIZE) by (unfold p, PGSIZE in *; divmod). rewrite E.
  rewrite <- Z.lor_assoc. change (Z.lor PTE_P PTE_W) with (Z.lor PTE_P 3). rewrite Z.lor_assoc.
  destruct (entry_value p 3) as (E1 & E2 & E3 & E4); [unfold PGSIZE in *; lia|unfold PGSIZE; lia|done|].
  rewrite E2. split_and!; [|done|rewrite <- E2; apply u32_range..].
  rewrite PTE_ADDR_div. rewrite PGNUM_div in E3. by rewrite E3.
Qed.

Lemma wp_check_va2pa k f la e (Q : Z -> kernel -> Prop) :
  dir_ok d k f -> PDX la <> vpt_slot -> pte d k la = Some e -> Z.testbit e 0 = true -> Q (PTE_ADDR e) k ->
  wp (check_va2pa (k_pgdir k) la) Q k.
Proof.
  intros Hok Hv He Hb HQ. unfold pte in He. destruct (present d k (PDX la)) eqn:Hp; [|done]. injection He as He.
  pose proof (bo_tables _ _ _ Hok _ (PDX_range la) Hv Hp) as Ht. destruct (bo_pages _ _ _ Hok) as (? & ? & ?).
  assert (Hram : in_ram k (KERNBASE + table d k (PDX la) * PGSIZE + 4 * PTX la) = true)
    by (apply page_in_ram_word; [split; lia|apply PTX_range]).
  assert (Hw : word k (KERNBASE + table d k (PDX la) * PGSIZE + 4 * PTX la - KERNBASE) = e) by (rewrite <- He; f_equal; lia).
  assert (Hnz : forall x, Z.testbit x 0 = true -> (Z.land x PTE_P =? 0) = false).
  { intros x Hx. apply Z.eqb_neq. rewrite land_P. by rewrite Hx. }
  unfold check_va2pa. wp_go. apply wp_ld; [by eapply pde_in_ram|]. rewrite (word_pde d) by apply Hok. rewrite Hnz by exact Hp. wp_go.
  replace (PTE_ADDR (pde d k (PDX la))) with (table d k (PDX la) * PGSIZE + 0) by (unfold table; rewrite PTE_ADDR_div, PGNUM_div; unfold PGSIZE; lia).
  apply wp_KADDR_page; [split; lia|unfold PGSIZE; lia|]. rewrite Z.add_0_r. wp_go.
  apply wp_ld; [exact Hram|]. rewrite Hw, Hnz by done. wp_go. apply wp_ld; [exact Hram|]. rewrite Hw. by wp_go.
Qed.

Context (k : kernel) (f : Z) (Hok : dir_ok d k f) (Hks : kernel_space k).

Lemma wp_check_phys_mem (Q : () -> kernel -> Prop) : Q tt k -> wp check_phys_mem Q k.
Proof using All.
  intros HQ. unfold check_phys_mem. wp_go.
  apply wp_while with (Inv := fun i k' => k' = k /\ 0 <= i <= 2 ^ 28 /\ i mod PGSIZE = 0) (mu := fun i => Z.to_nat ((2 ^ 28 - i) / PGSIZE)).
  - done.
  - apply Nat.ltb_lt. vm_compute. reflexivity.
  - intros i k' (-> & Hi & Hm). wp_go. unfold KERNBASE at 1. destruct (decide (i = 2 ^ 28)) as [->|Hne].
    + cbn. wp_go. exact HQ.
    + assert (Hi' : 0 <= i < 2 ^ 28) by lia. rewrite u32_small by lia. replace (_ =? 0) with false by lia. cbn [negb]. wp_go.
      destruct (seg_entry_W 0 i) as (E1 & E2 & _); [lia|done|]. rewrite u32_small by (unfold KERNBASE; lia).
      eapply wp_check_va2pa; [exact Hok| |by apply ks_phys|done|].
      { rewrite PDX_div. unfold KERNBASE, vpt_slot, PGSIZE in *. rewrite u32_small by lia. change (PDX VPT) with 959. divmod. }
      rewrite E1. wp_go; [lia|]. unfold PGSIZE in *. rewrite u32_small by lia. split; [split_and!; [done|divmod..]|].
      apply Z2Nat.inj_lt; divmod.
Qed.

Lemma wp_check_kernel_stack (Q : () -> kernel -> Prop) :
  KERNBASE <= bootstack -> bootstack + KSTKSIZE <= 2 ^ 32 -> bootstack mod PGSIZE = 0 -> Q tt k -> wp (check_kernel_stack bootstack) Q k.
Proof using All.
  intros Hb1 Hb2 Hb3 HQ. unfold check_kernel_stack. wp_go.
  apply wp_while with (Inv := fun i k' => k' = k /\ 0 <= i <= KSTKSIZE /\ i mod PGSIZE = 0) (mu := fun i => Z.to_nat ((KSTKSIZE - i) / PGSIZE)).
  - done.
  - apply Nat.ltb_lt. vm_compute. reflexivity.
  - intros i k' (-> & Hi & Hm). wp_go. destruct (Z.ltb_spec i KSTKSIZE) as [Hlt|Hge]; wp_go; [|exact HQ].
    assert (Hr : 0 <= bootstack - KERNBASE + i < 2 ^ 28) by (unfold KERNBASE in *; lia).
    destruct (seg_entry_W (bootstack - KERNBASE) i) as (E1 & E2 & _); [done|unfold KERNBASE, PGSIZE in *; divmod|].
    eapply wp_check_va2pa; [exact Hok| |apply ks_stack; [done|lia|done]|done|].
    { rewrite PDX_div. unfold KSTACKTOP, VPT, KSTKSIZE, KERNBASE, PTSIZE, NPTENTRIES, PGSIZE, vpt_slot in *. rewrite u32_small by lia. change (PDX VPT) with 959. divmod. }
    rewrite E1. wp_go. unfold PADDR. wp_go. rewrite (u32_small bootstack) by (unfold KERNBASE, KSTKSIZE, PGSIZE in *; lia).
    replace (bootstack <? KERNBASE) with false by lia. wp_go; [rewrite u32_small by lia; lia|].
    unfold KSTKSIZE, PGSIZE in *. split; [split_and!; [done|divmod..]|]. apply Z2Nat.inj_lt; divmod.
Qed.

Lemma pte_present la e : pte d k la = Some e -> pde d k (PDX la) <> 0.
Proof using Type. unfold pte, present. intros H E. by rewrite E in H. Qed.

Lemma wp_check_pdes (Q : () -> kernel -> Prop) : Q tt k -> wp check_pdes Q k.
Proof using All.
  intros HQ. unfold check_pdes. wp_go.
  apply wp_while with (Inv := fun i k' => k' = k /\ 0 <= i <= NPDENTRIES) (mu := fun i => Z.to_nat (NPDENTRIES - i)).
  - done.
  - apply Nat.ltb_lt. vm_compute. reflexivity.
  - intros i k' (-> & Hi). wp_go. destruct (Z.ltb_spec i NPDENTRIES) as [Hlt|Hge]; wp_go; [|exact HQ]. unfold NPDENTRIES in *.
    assert (Hram : in_ram k (k_pgdir k + 4 * i) = true).
    { rewrite (bo_pgdir _ _ _ Hok). destruct (bo_pages _ _ _ Hok). apply page_in_ram_word; [split|]; lia. }
    apply wp_ld; [exact Hram|]. rewrite (bo_pgdir _ _ _ Hok). replace (KERNBASE + d * PGSIZE + 4 * i - KERNBASE) with (d * PGSIZE + 4 * i) by lia.
    fold (pde d k i). wp_go.
    assert (Hend : forall b : bool, b = true -> wp (kassert b) (fun _ s' => wp (mret (i + 1)) (fun i' s'' => (s'' = k /\ 0 <= i' <= 1024) /\
      (Z.to_nat (1024 - i') < Z.to_nat (1024 - i))%nat) s') k).
    { intros b Hbt. apply wp_kassert; [done|]. wp_go. split; [split; [done|lia]|lia]. }
    destruct (i =? PDX VPT) eqn:E1; cbn [orb].
    { apply Hend. apply Z.eqb_eq in E1 as ->. fold vpt_slot. rewrite (ks_vpt _ Hks). destruct (bo_pages _ _ _ Hok).
      change (Z.lor PTE_W PTE_P) with 3. unfold PGSIZE. by replace (_ =? 0) with false by lia. }
    destruct (i =? PDX (KSTACKTOP - 1)) eqn:E2.
    { apply Hend. apply Z.eqb_eq in E2 as ->. pose proof (pte_present _ _ (ks_stack _ Hks 0 ltac:(unfold KSTKSIZE, PGSIZE; lia) eq_refl)) as Hn.
      change (PDX (KSTACKTOP - KSTKSIZE + 0)) with (PDX (KSTACKTOP - 1)) in Hn. by apply Z.eqb_neq in Hn as ->. }
    destruct (PDX KERNBASE <=? i) eqn:E3.
    { apply Hend. apply Z.leb_le in E3. change (PDX KERNBASE) with 960 in E3.
      assert (Hp : pde d k (PDX (KERNBASE + (i - 960) * 2 ^ 22)) <> 0).
      { eapply pte_present, ks_phys; [done|lia|]. unfold PGSIZE. divmod. }
      rewrite PDX_div in Hp. unfold KERNBASE in Hp. rewrite u32_small in Hp by lia.
      replace ((4026531840 + (i - 960) * 2 ^ 22) / 2 ^ 22) with i in Hp by divmod. by apply Z.eqb_neq in Hp as ->. }
    apply Hend. apply Z.eqb_neq in E1, E2. apply Z.leb_gt in E3. by rewrite (ks_none _ Hks) by (done || lia).
Qed.
End check.

(** ** boot_mem_init *)

(** What the hardware does with a linear address. *)
Definition translate (d : Z) (k : kernel) (la : Z) : option Z :=
  match pte d k la with
  | Some e => if Z.testbit e 0 then Some (PTE_ADDR e + PGOFF la) else None
  | None => None
  end.

Lemma pte_page d k la la' : PGNUM la = PGNUM la' -> pte d k la = pte d k la'.
Proof. intros [Hd Hx]%same_page. unfold pte. by rewrite Hd, Hx. Qed.

Lemma pte_ext d k k' la : (forall pa, word k' pa = word k pa) -> pte d k' la = pte d k la.
Proof.
  intros H. unfold pte. assert (E : pde d k' (PDX la) = pde d k (PDX la)) by apply H.
  unfold present, table. rewrite E. by rewrite H.
Qed.

Lemma kernel_space_ext bootstack d k k' : (forall pa, word k' pa = word k pa) -> kernel_space bootstack d k -> kernel_space bootstack d k'.
Proof.
  intros H [H1 H2 H3 H4]. split.
  - intros i Hi Hm. rewrite (pte_ext d k) by done. by apply H1.
  - intros i Hi Hm. rewrite (pte_ext d k) by done. by apply H2.
  - unfold pde in *. by rewrite H.
  - intros n Hn Hv Hs. unfold pde in *. rewrite H. by apply H4.
Qed.

Lemma translate_page d k la p e : pte d k (la - PGOFF la) = Some e -> Z.testbit e 0 = true -> PTE_ADDR e = p ->
  0 <= la < 2 ^ 32 -> translate d k la = Some (p + PGOFF la).
Proof.
  intros He Hb Hp Hla. unfold translate. rewrite (pte_page _ _ _ (la - PGOFF la)).
  - by rewrite He, Hb, Hp.
  - rewrite PGOFF_mod, !PGNUM_div. rewrite (u32_small la), u32_small by divmod. divmod.
Qed.

Section space.
Context (bootstack d : Z) (k : kernel) (Hks : kernel_space bootstack d k).

Lemma translate_phys x : 0 <= x < 2 ^ 28 -> translate d k (KERNBASE + x) = Some x.
Proof using Hks.
  intros Hx. assert (Ho : PGOFF (KERNBASE + x) = x mod 4096) by (rewrite PGOFF_mod; unfold KERNBASE; rewrite u32_small by lia; divmod).
  destruct (seg_entry_W 0 (x - x mod 4096)) as (E1 & E2 & _); [divmod|unfold PGSIZE; divmod|].
  rewrite (translate_page d k _ (x - x mod 4096) (seg_entry 0 PTE_W (x - x mod 4096))); rewrite ?Ho.
  - f_equal. lia.
  - replace (KERNBASE + x - x mod 4096) with (KERNBASE + (x - x mod 4096)) by lia. apply (ks_phys _ _ _ Hks); [divmod|unfold PGSIZE; divmod].
  - done.
  - rewrite E1. lia.
  - unfold KERNBASE. lia.
Qed.

Lemma translate_stack x :
  KERNBASE <= bootstack -> bootstack + KSTKSIZE <= 2 ^ 32 -> bootstack mod PGSIZE = 0 ->
  0 <= x < KSTKSIZE -> translate d k (KSTACKTOP - KSTKSIZE + x) = Some (bootstack - KERNBASE + x).
Proof using Hks.
  intros H1 H2 H3 Hx. assert (Hs : KSTACKTOP - KSTKSIZE = 4022304768) by reflexivity.
  assert (Ho : PGOFF (KSTACKTOP - KSTKSIZE + x) = x mod 4096).
  { rewrite PGOFF_mod, Hs. unfold KSTKSIZE, PGSIZE in *. rewrite u32_small by lia. divmod. }
  destruct (seg_entry_W (bootstack - KERNBASE) (x - x mod 4096)) as (E1 & E2 & _);
    [unfold KERNBASE, KSTKSIZE, PGSIZE in *; divmod|unfold KERNBASE, PGSIZE in *; divmod|].
  rewrite (translate_page d k _ (bootstack - KERNBASE + (x - x mod 4096)) (seg_entry (bootstack - KERNBASE) PTE_W (x - x mod 4096))); rewrite ?Ho.
  - f_equal. lia.
  - replace (KSTACKTOP - KSTKSIZE + x - x mod 4096) with (KSTACKTOP - KSTKSIZE + (x - x mod 4096)) by lia.
    apply (ks_stack _ _ _ Hks); [unfold KSTKSIZE in *; divmod|unfold PGSIZE; divmod].
  - done.
  - rewrite E1. lia.
  - rewrite Hs. unfold KSTKSIZE, PGSIZE in *. lia.
Qed.

Lemma translate_none la : 0 <= la < KSTACKTOP - PTSIZE -> translate d k la = None.
Proof using Hks.
  intros Hla. assert (Hs : KSTACKTOP - PTSIZE = 958 * 2 ^ 22) by reflexivity. unfold translate, pte, present.
  rewrite (ks_none _ _ _ Hks); [done| | |]; rewrite PDX_div, u32_small by lia.
  - change (PDX KERNBASE) with 960. divmod.
  - change vpt_slot with 959. divmod.
  - change (PDX (KSTACKTOP - 1)) with 958. divmod.
Qed.
End space.

Section init.
Context (kend bootstack : Z).
Context (Hkend : KERNBASE <= kend) (Hstack : KERNBASE <= bootstack).
Context (Hstack_end : bootstack + KSTKSIZE <= 2 ^ 32) (Hstack_page : bootstack mod PGSIZE = 0).

(** The page of the directory: the first one behind the kernel. *)
Definition dir_page : Z := (kend - KERNBASE + 4095) / 4096.
Local Abbreviation d := dir_page.

(** The machine has room for the directory, the 65 page tables and the array of pages. *)
Definition pages_fit (np : Z) : Prop := (d + 66) * PGSIZE + np * sizeof_Page <= np * PGSIZE.

Lemma wp_boot_alloc_first k (Q : Z -> kernel -> Prop) :
  k_nextfree k = 0 -> d + 1 < 65536 ->
  Q (KERNBASE + d * PGSIZE) (set_nextfree (KERNBASE + (d + 1) * PGSIZE) k) -> wp (boot_alloc kend PGSIZE) Q k.
Proof using All.
  intros Hn Hd HQ. unfold dir_page, KERNBASE, PGSIZE in *. unfold boot_alloc. wp_go. unfold id. rewrite Hn. cbn [Z.eqb]. unfold when. wp_go.
  cbn [k_nextfree set_nextfree]. rewrite (ROUNDUP_page kend) by (unfold PGSIZE; divmod).
  set (a := (kend + 4095) / 4096 * 4096). assert (Ha : a = 4026531840 + (kend - 4026531840 + 4095) / 4096 * 4096) by (unfold a; divmod).
  rewrite ROUNDUP_page by (unfold PGSIZE; divmod). replace ((a + 4095) / 4096 * 4096) with a by divmod.
  rewrite u32_small by divmod. rewrite Ha. replace (_ + 4096) with (4026531840 + ((kend - 4026531840 + 4095) / 4096 + 1) * 4096) by lia. exact HQ.
Qed.

(** After the directory has been cleared and has its recursive entry. *)
Lemma empty_dir_ok k :
  k_pgdir k = KERNBASE + d * PGSIZE -> k_nextfree k = KERNBASE + (d + 1) * PGSIZE -> 0 <= d -> d + 1 <= k_npages k < 65536 ->
  (forall n, 0 <= n < 1024 -> n <> vpt_slot -> pde d k n = 0) -> boot_ok d k (d + 1).
Proof using All.
  intros Hg Hn Hd Hk Hz. split; [|done]. split; [done|lia| |].
  - intros n Hr Hv Hp. unfold present in Hp. by rewrite Hz in Hp.
  - intros n m Hr _ Hv _ Hp. unfold present in Hp. by rewrite Hz in Hp.
Qed.

(** The two calls of [boot_map_segment]. *)
Lemma wp_map_segments {A} k (R : M kernel A) (Q : A -> kernel -> Prop) :
  boot_ok d k (d + 1) -> (forall n, 0 <= n < 1024 -> n <> vpt_slot -> pde d k n = 0) -> pde d k vpt_slot = d * PGSIZE + Z.lor PTE_W PTE_P ->
  d + 66 <= k_npages k ->
  (forall k' f, boot_ok d k' f -> boot_only d k k' -> kernel_space bootstack d k' -> d + 1 <= f <= d + 66 -> wp R Q k') ->
  wp (boot_map_segment kend (KSTACKTOP - KSTKSIZE) KSTKSIZE (bootstack - KERNBASE) PTE_W;;
      boot_map_segment kend KERNBASE (u32 (0xffffffff - KERNBASE)) 0 PTE_W;; R) Q k.
Proof using All.
  intros Hok Hz Hv Hroom HQ. wp_go.
  eapply (wp_boot_map_segment kend bootstack d k (d + 1) (KSTACKTOP - KSTKSIZE) KSTKSIZE (bootstack - KERNBASE) PTE_W); try done;
    try (unfold KSTACKTOP, VPT, KSTKSIZE, KERNBASE, PTSIZE, NPTENTRIES, PGSIZE, PTE_W in *; lia).
  { right. reflexivity. }
  { change (last_pde _ _) with 958. change (PDX (KSTACKTOP - KSTKSIZE)) with 958. lia. }
  change (last_pde _ _) with 958. change (PDX (KSTACKTOP - KSTKSIZE)) with 958.
  intros k1 f1 Hok1 Hon1 Hf1 He1 Hd1 Hp1. wp_go. change (u32 (0xffffffff - KERNBASE)) with 0x0fffffff.
  eapply (wp_boot_map_segment kend bootstack d k1 f1 KERNBASE 0x0fffffff 0 PTE_W); try done; try (unfold PGSIZE, KERNBASE, PTE_W; lia).
  { by left. }
  { change (last_pde _ _) with 1023. change (PDX KERNBASE) with 960. rewrite (boot_only_npages _ _ _ Hon1). lia. }
  change (last_pde _ _) with 1023. change (PDX KERNBASE) with 960.
  intros k2 f2 Hok2 Hon2 Hf2 He2 Hd2 Hp2. wp_go. apply (HQ k2 f2); [done|by eapply boot_only_trans| |lia].
  split.
  - intros i Hi Hm. apply He2; [unfold PGSIZE in *; divmod|done].
  - intros i Hi Hm. assert (Hx : PDX (KSTACKTOP - KSTKSIZE + i) = 958).
    { rewrite PDX_div. unfold KSTACKTOP, VPT, KSTKSIZE, KERNBASE, PTSIZE, NPTENTRIES, PGSIZE in *. rewrite u32_small by lia. divmod. }
    rewrite Hp2; [by apply He1|rewrite Hx; discriminate|rewrite Hx; lia].
  - rewrite Hd2, Hd1; [done|by split|by right|by split|by left].
  - intros n Hn Hnv Hns. change (PDX (KSTACKTOP - 1)) with 958 in Hns. change (PDX KERNBASE) with 960 in *.
    change vpt_slot with 959 in Hnv. rewrite Hd2, Hd1 by lia. apply Hz; [lia|done].
Qed.

(** Clearing the directory and storing its recursive entry. *)
Lemma wp_clear_dir {A} k (R : M kernel A) (Q : A -> kernel -> Prop) :
  page_in_ram k d ->
  (forall k', ram_only k k' -> (forall n, 0 <= n < 1024 -> n <> vpt_slot -> pde d k' n = 0) -> pde d k' vpt_slot = d * PGSIZE + Z.lor PTE_W PTE_P ->
     (forall pa, pa < d * PGSIZE -> word k' pa = word k pa) -> wp R Q k') ->
  wp (kmemset (KERNBASE + d * PGSIZE) 0 PGSIZE;;
      pd ← PADDR (KERNBASE + d * PGSIZE);
      st (KERNBASE + d * PGSIZE + 4 * PDX VPT) (Z.lor (Z.lor pd PTE_W) PTE_P);; R) Q k.
Proof using All.
  intros Hd HQ. pose proof Hd as [Hd1 Hd2]. wp_go. apply wp_kmemset_page; [done|]. intros k1 Hro Hw. change (u32 (u8 0 * 0x01010101)) with 0 in Hw.
  wp_go. unfold PADDR. wp_go. rewrite u32_small by (unfold KERNBASE, PGSIZE; lia). replace (_ <? KERNBASE) with false by (unfold PGSIZE; lia). wp_go.
  assert (Hd1' : page_in_ram k1 d) by (rewrite Hro; exact Hd).
  apply wp_st; [apply page_in_ram_word; [done|by split]|]. replace (KERNBASE + d * PGSIZE - KERNBASE) with (d * PGSIZE) by lia.
  fold vpt_slot. replace (KERNBASE + d * PGSIZE + 4 * vpt_slot - KERNBASE) with (d * PGSIZE + 4 * vpt_slot) by lia.
  assert (E : Z.lor (Z.lor (d * PGSIZE) PTE_W) PTE_P = d * PGSIZE + 3).
  { rewrite <- Z.lor_assoc. unfold PGSIZE. by rewrite (lor_low_add _ _ 12) by (done || divmod). }
  wp_go. apply HQ.
  - eapply ram_only_trans; [exact Hro|done].
  - intros n Hn Hv. unfold pde. rewrite word_set_word, decide_False by lia. rewrite Hw, decide_True; [done|]. unfold PGSIZE. divmod.
  - unfold pde. rewrite word_set_word, decide_True by done. rewrite E. change (Z.lor PTE_W PTE_P) with 3. rewrite u32_small; unfold PGSIZE; lia.
  - intros pa Hpa. rewrite word_set_word, decide_False, Hw, decide_False; [done|lia|]. change vpt_slot with 959. lia.
Qed.

Definition switched (k k' : kernel) : Prop :=
  (forall pa, word k' pa = word k pa) /\ k_pgdir k' = k_pgdir k /\ k_npages k' = k_npages k /\ k_pages k' = k_pages k /\ k_pages_va k' = k_pages_va k /\
  k_nextfree k' = k_nextfree k /\ k_cr3 k' = d * PGSIZE /\ k_tlb k' = ∅ /\ Z.testbit (k_cr0 k') 0 = true /\ Z.testbit (k_cr0 k') 31 = true /\
  k_cr0 k' = u32 (Z.lor (k_cr0 k) (Z.lor CR0_PE CR0_PG)).

Lemma wp_switch_over k (Q : () -> kernel -> Prop) :
  page_in_ram k d -> word k (d * PGSIZE) = 0 -> (forall k', switched k k' -> Q tt k') -> wp (switch_over (KERNBASE + d * PGSIZE)) Q k.
Proof using All.
  intros Hd H0 HQ. pose proof Hd as [Hd1 Hd2]. unfold switch_over. wp_go.
  apply wp_ld; [apply page_in_ram_word; [done|by split]|]. wp_go.
  assert (Hpa : forall k, PADDR (KERNBASE + d * PGSIZE) k = Ret (d * PGSIZE) k).
  { intros k1. unfold PADDR. rewrite u32_small by (unfold KERNBASE, PGSIZE; lia). replace (_ <? KERNBASE) with false by (unfold PGSIZE; lia).
    unfold mret, M_ret. f_equal. lia. }
  assert (Hram : forall k1, page_in_ram k1 d -> in_ram k1 (KERNBASE + d * PGSIZE) = true).
  { intros k1 H. rewrite <- (page_in_ram_word k1 d 0 H) by lia. f_equal. lia. }
  apply wp_st; [by apply Hram|]. wp_go. unfold wp at 1. rewrite Hpa. unfold lcr3, rcr0, lcr0, load_seg. wp_go.
  apply wp_st; [by apply Hram|]. wp_go. unfold wp at 1. rewrite Hpa. wp_go.
  apply HQ. assert (Hu : u32 (d * PGSIZE) = d * PGSIZE) by (rewrite u32_small; unfold PGSIZE; lia).
  assert (Hbit : forall i, 0 <= i < 32 -> Z.testbit (Z.lor CR0_PE CR0_PG) i = true -> forall x, Z.testbit (u32 (Z.lor x (Z.lor CR0_PE CR0_PG))) i = true).
  { intros i Hi Hb x. unfold u32. rewrite Z.mod_pow2_bits_low, Z.lor_spec, Hb by lia. apply orb_true_r. }
  split; [|split_and!; try done].
  - intros pa. replace (KERNBASE + d * PGSIZE - KERNBASE) with (d * PGSIZE) by lia.
    change (word (set_word (d * PGSIZE) 0 (set_word (d * PGSIZE) (word k (KERNBASE + d * PGSIZE + 4 * PDX KERNBASE - KERNBASE)) k)) pa = word k pa).
    rewrite !word_set_word. case_decide as E; [subst pa; by rewrite H0|done].
  - by apply Hbit.
  - by apply Hbit.
Qed.

(** Only the list of pages, its address and [nextfree] change between the mapping and the switch-over. *)
Lemma wp_boot_pages {A} k f (R : M kernel A) (Q : A -> kernel -> Prop) :
  boot_ok d k f -> f <= d + 66 -> pages_fit (k_npages k) -> k_npages k <= 16640 -> 0 <= d < 65000 ->
  (let k' := set_nextfree (KERNBASE + f * PGSIZE + k_npages k * sizeof_Page) k in
   wp R Q (set_pages (replicate (Z.to_nat (k_npages k)) zero_page) (set_pages_va (KERNBASE + f * PGSIZE) k'))) ->
  wp (npages ← gets k_npages;
      pages ← boot_alloc kend (u32 (npages * sizeof_Page));
      modify (set_pages_va pages);;
      clear_pages (u32 (npages * sizeof_Page));; R) Q k.
Proof using All.
  intros Hok Hf Hfit Hnp Hd HQ. destruct (bo_pages _ _ _ Hok) as (? & ? & ?). unfold pages_fit, sizeof_Page in *. wp_go. rewrite (u32_small (k_npages k * 12)) by lia.
  unfold boot_alloc. wp_go. unfold id. rewrite (bo_next _ _ _ Hok). unfold KERNBASE, PGSIZE in *. replace (_ =? 0) with false by lia.
  unfold when. wp_go. cbn [k_nextfree set_nextfree]. rewrite (bo_next _ _ _ Hok). rewrite ROUNDUP_page by (unfold KERNBASE, PGSIZE; lia).
  unfold KERNBASE, PGSIZE. replace ((4026531840 + f * 4096 + 4095) / 4096 * 4096) with (4026531840 + f * 4096) by divmod.
  rewrite u32_small by lia. unfold clear_pages, sizeof_Page. wp_go. unfold id.
  rewrite (proj2 (range_in_ram_iff _ _ _)) by (cbn [k_pages_va k_npages set_pages_va set_nextfree]; unfold KERNBASE, PGSIZE in *; lia).
  wp_go. rewrite Z.div_mul by lia. exact HQ.
Qed.

(** What [map_kernel] leaves: the kernel's address space in a directory that is not in
    use, the tables in pages [d] to [f] and the array of pages behind them. *)
Record space_built (k k' : kernel) (np f : Z) : Prop := SpaceBuilt {
  sb_dir : dir_ok d k' f;
  sb_space : kernel_space bootstack d k';
  sb_cr0 : k_cr0 k' = k_cr0 k;
  sb_npages : k_npages k' = np;
  sb_pages : k_pages k' = replicate (Z.to_nat np) zero_page;
  sb_tables : d + 1 <= f <= d + 66;
  sb_pages_va : k_pages_va k' = KERNBASE + f * PGSIZE;
  sb_nextfree : k_nextfree k' = KERNBASE + f * PGSIZE + np * sizeof_Page;
  sb_low : forall pa, pa < d * PGSIZE -> word k' pa = word k pa;
}.

Lemma wp_map_kernel k b0 b1 e0 e1 rest (Q : Z -> kernel -> Prop) :
  io_in (k_io k) = b0 :: b1 :: e0 :: e1 :: rest -> k_nextfree k = 0 ->
  let np := detected_pages (nvram_word b0 b1) (nvram_word e0 e1) in
  pages_fit np -> (forall k' f, space_built k k' np f -> Q (KERNBASE + d * PGSIZE) k') -> wp (map_kernel kend bootstack) Q k.
Proof using All.
  intros Hin Hnf np Hroom HQ. assert (Hnp : 0 <= np <= 16640) by (apply detected_range; apply nvram_word_range).
  assert (Hd0 : 0 <= d) by (apply Z.div_pos; lia).
  assert (Hnp0 : d + 66 <= np) by (unfold pages_fit, PGSIZE, sizeof_Page in Hroom; lia).
  unfold map_kernel. wp_go. eapply wp_i386_mem_detect; [exact Hin|]. fold np. intros log out. set (k1 := set_out _ _).
  apply wp_bind, wp_boot_alloc_first; [exact Hnf|lia|]. apply wp_bind, wp_modify. set (k2 := set_pgdir _ _).
  apply wp_clear_dir; [split; cbn; lia|]. intros k3 Hro3 Hz3 Hv3 Hlow3.
  assert (Hnp3 : k_npages k3 = np) by (by rewrite Hro3).
  assert (Hpadd : forall k, PADDR bootstack k = Ret (bootstack - KERNBASE) k).
  { intros k'. unfold PADDR. rewrite u32_small by (unfold KERNBASE, KSTKSIZE, PGSIZE in *; lia). by replace (bootstack <? KERNBASE) with false by lia. }
  apply wp_bind. unfold wp at 1. rewrite Hpadd. apply wp_map_segments; [|done|done|by rewrite Hnp3|].
  { apply empty_dir_ok; [by rewrite Hro3|by rewrite Hro3|done|lia|done]. }
  intros k4 f Hok4 Hon4 Hks4 Hf4. assert (Hnp4 : k_npages k4 = np) by (by rewrite (boot_only_npages _ _ _ Hon4)).
  apply (wp_boot_pages k4 f); [done|lia|by rewrite Hnp4|lia|lia|]. cbv zeta. rewrite Hnp4. set (k5 := set_pages _ _).
  assert (Hok5 : dir_ok d k5 f) by (destruct Hok4 as [[? ? ? ?] ?]; by split).
  assert (Hks5 : kernel_space bootstack d k5) by (by apply (kernel_space_ext _ _ k4)).
  unfold boot_mem_check. wp_go. eapply wp_check_phys_mem; [done..|]. wp_go. eapply wp_check_kernel_stack; [done..|]. wp_go.
  eapply wp_check_pdes; [done..|]. wp_go.
  eapply (wp_kprintf [Text (bytes "boot_mem_check() succeeded!" ++ [10])]); [reflexivity|reflexivity|by constructor|by eexists|].
  intros out5. apply wp_ret. apply (HQ _ f). split; try done.
  - destruct Hok5 as [? ? ? ?]. by split.
  - by apply (kernel_space_ext _ _ k5).
  - change (k_cr0 k4 = k_cr0 k). rewrite (proj1 Hon4). change (k_cr0 k3 = k_cr0 k). by rewrite Hro3.
  - intros pa Hpa. transitivity (word k4 pa); [done|]. rewrite (proj2 Hon4) by done. by rewrite Hlow3.
Qed.

(** What [boot_mem_init] leaves: paging is on with that address space. *)
Record booted (k k' : kernel) (np f : Z) : Prop := Booted {
  bt_dir : dir_ok d k' f;
  bt_space : kernel_space bootstack d k';
  bt_cr3 : k_cr3 k' = d * PGSIZE;
  bt_tlb : k_tlb k' = ∅;
  bt_cr0 : Z.testbit (k_cr0 k') 0 = true /\ Z.testbit (k_cr0 k') 31 = true;
  bt_npages : k_npages k' = np;
  bt_pages : k_pages k' = replicate (Z.to_nat np) zero_page;
  bt_tables : d + 1 <= f <= d + 66;
  bt_pages_va : k_pages_va k' = KERNBASE + f * PGSIZE;
  bt_nextfree : k_nextfree k' = KERNBASE + f * PGSIZE + np * sizeof_Page;
  bt_low : forall pa, pa < d * PGSIZE -> word k' pa = word k pa;
}.

(** Linear address 0 has no directory entry yet. *)
Lemma space_built_zero k k' np f : space_built k k' np f -> word k' (d * PGSIZE) = 0.
Proof.
  intros Hb. pose proof (ks_none _ _ _ (sb_space _ _ _ _ Hb) 0 ltac:(by split) ltac:(done) ltac:(done)) as H.
  unfold pde in H. by rewrite Z.add_0_r in H.
Qed.

Lemma wp_boot_mem_init k b0 b1 e0 e1 rest (Q : () -> kernel -> Prop) :
  io_in (k_io k) = b0 :: b1 :: e0 :: e1 :: rest -> k_nextfree k = 0 ->
  let np := detected_pages (nvram_word b0 b1) (nvram_word e0 e1) in
  pages_fit np -> (forall k' f, booted k k' np f -> Q tt k') -> wp (boot_mem_init kend bootstack) Q k.
Proof using All.
  intros Hin Hnf np Hroom HQ. unfold boot_mem_init. apply wp_bind. eapply wp_map_kernel; [done..|].
  intros k6 f Hb. pose proof Hb as [[D1 D2 D3 D4] Hks6 _ Enp Hpg Hf Hva Hnx Hlow].
  apply wp_switch_over; [split; lia|by eapply space_built_zero|]. intros k7 (Hw7 & E0 & E1 & E2 & E3 & E4 & E5 & E6 & E7 & E8 & _).
  assert (Hks7 : kernel_space bootstack d k7) by (apply (kernel_space_ext _ _ k6); [exact Hw7|done]).
  assert (Hp : forall n, pde d k7 n = pde d k6 n) by (intros n; unfold pde; by rewrite Hw7).
  apply (HQ k7 f). split; [|done|done|done|done|by rewrite E1|by rewrite E2|done|by rewrite E3|by rewrite E4|].
  - split; [by rewrite E0|by rewrite E1| |]; intros n; unfold present, table; rewrite Hp; [apply D3|].
    intros m. rewrite Hp. apply D4.
  - intros pa Hpa. rewrite Hw7. by apply Hlow.
Qed.

End init.

(** A machine with 16MB, whose RAM holds ones when it starts. *)
Definition dirty_ex : kernel :=
  Kernel 0 0 0 [] 0 None 0 ∅ (fun _ => 0xFFFFFFFF) ∅ 0 0 (Io [0x80; 0x02; 0x00; 0x3C] []) [] [].


(** The same machine after [boot_map_segment] has mapped the stack. *)
Definition stack_mapped : option kernel :=
  match (boot_map_segment (KERNBASE + 0x100004) (KSTACKTOP - KSTKSIZE) KSTKSIZE 0x110000 PTE_W)
      (set_ram (list_to_map ((fun i => (257 * PGSIZE + 4 * i, 0)) <$> seqZ 0 1024))
        (set_pgdir (KERNBASE + 257 * PGSIZE) (set_nextfree (KERNBASE + 258 * PGSIZE) (set_npages 4096 dirty_ex)))) with
  | Ret _ k => Some k
  | _ => None
  end.

(** The page under the kernel stack, which the comment in [boot_mem_init] says is
    "not present" so that an overflow faults, has whatever entry the memory of the
    new page table held: [boot_pgdir_walk] does not clear it. *)
Theorem boot_stack_guard_missing :
  (k ← stack_mapped; translate 257 k (KSTACKTOP - KSTKSIZE)) = Some 0x110000 /\
  (k ← stack_mapped; translate 257 k (KSTACKTOP - KSTKSIZE - PGSIZE)) = Some 0xFFFFF000.
Proof. split; vm_compute; reflexivity. Qed.
