(* ===== verification/PageCheck.v ===== *)
(** * PageCheck: page_check succeeds (kern/pmap.c)

    [page_check] exercises the allocator and the page tables with three pages and
    asserts what it finds.  From every state that satisfies [vm_ok] with three
    free pages and nothing mapped in the first 8MB, all its assertions hold, it
    returns, and it leaves mappings, counts and free pages as they were. *)

From S2P Require Import Prelude Layout Printfmt FormatSpec Printf Ports Queue Kernel Pgdir BootMem BootMap.
Open Scope Z_scope.

Section page_check.
Context (pd : nat) (res : list nat) (p0 p1 p2 : nat).
Abbreviation W := [p0; p1; p2].

(** ** The states in between *)

(** The entry of a page table at [p], and of a page mapped with permissions 0. *)
Definition table_entry (t : option nat) : Z := match t with Some p => Z.of_nat p * PGSIZE + 7 | None => 0 end.
Definition page_entry (a : option nat) : Z := match a with Some p => Z.of_nat p * PGSIZE + 1 | None => 0 end.
Definition uses (o : option nat) (p : nat) : Z := Z.b2z (bool_decide (o = Some p)).

Lemma uses_None p : uses None p = 0.
Proof. reflexivity. Qed.
Lemma uses_Some q p : uses (Some q) p = if decide (q = p) then 1 else 0.
Proof. unfold uses. case_decide as E; [by rewrite bool_decide_true by congruence|by rewrite bool_decide_false by congruence]. Qed.

Section from_base.
(** [k0]: the three pages are taken and the rest of the free list is set aside. *)
Context (k0 : kernel).

(** The slots with page table [t] in directory entry 0, and pages [a] and [b] at
    addresses 0 and PGSIZE. *)
Definition shape (t a b : option nat) (s : slot) : Z :=
  if decide (s = SDir 0) then table_entry t
  else if decide (s = SPage 0) then page_entry a
  else if decide (s = SPage 1) then page_entry b
  else content pd k0 s.

Record checking (k : kernel) (l : list nat) (t a b : option nat) : Prop := Checking {
  ch_ok : vm_ok pd (fun _ => 0) res k l;
  ch_mm : mm_only k0 k;
  ch_frame : pages_frame W k0 k;
  ch_reserved : reserved_kept pd res k0 k;
  ch_tlb : k_tlb k ⊆ k_tlb k0;
  ch_content : forall s, s ∈ slots -> content pd k s = shape t a b s;
  ch_refs : forall p, Z.of_nat p < k_npages k0 -> ref_of k p = ref_of k0 p + uses t p + uses a p + uses b p;
}.

(** The pages are different pages outside the reserved ones, unused in [k0], where
    nothing is mapped in the first 8MB. *)
Record base : Prop := Base {
  ba_ok : vm_ok pd (fun _ => 0) res k0 [];
  ba_pgdir : k_pgdir k0 = pgdir_of pd;
  ba_pages : forall p, p ∈ W -> Z.of_nat p < k_npages k0 /\ (p ∉ res) /\ ref_of k0 p = 0;
  ba_nodup : NoDup W;
  ba_empty : dir pd k0 0 = 0 /\ dir pd k0 1 = 0;
}.
Hypothesis Hbase : base.

Lemma base_page p : p ∈ W -> Z.of_nat p < 65536.
Proof using Hbase. intros Hp. destruct (ba_pages Hbase p Hp) as [? _]. pose proof (vm_np _ _ _ _ _ (ba_ok Hbase)). lia. Qed.

Lemma entry_fields_at q f : q ∈ W -> 0 <= f < PGSIZE -> f mod 2 = 1 ->
  let e := Z.of_nat q * PGSIZE + f in
  e <> 0 /\ Z.to_nat (PGNUM e) = q /\ PTE_ADDR e = Z.of_nat q * PGSIZE /\ e mod PGSIZE = f /\ (forall p, hit e p = bool_decide (Some q = Some p)).
Proof using Hbase.
  intros Hq Hf Ho e. pose proof (base_page q Hq). destruct (entry_fields (Z.of_nat q) f) as (Hg & Ha & Hm); [lia|done|].
  fold e in Hg, Ha, Hm.
  assert (He : e <> 0) by (intros E; rewrite E in Hm; change (0 mod PGSIZE) with 0 in Hm; subst f; done).
  split_and!; [done|by rewrite Hg, Nat2Z.id|done|done|].
  intros p. unfold hit, target. replace (e =? 0) with false by lia. by rewrite Hg, Nat2Z.id.
Qed.

Lemma hit_table t p : (forall q, t = Some q -> q ∈ W) -> Z.b2z (hit (table_entry t) p) = uses t p.
Proof using Hbase.
  intros Ht. destruct t as [q|]; [|done]. unfold uses, table_entry.
  destruct (entry_fields_at q 7) as (_ & _ & _ & _ & ->); [by apply Ht|unfold PGSIZE; lia|done|done].
Qed.
Lemma hit_page a p : (forall q, a = Some q -> q ∈ W) -> Z.b2z (hit (page_entry a) p) = uses a p.
Proof using Hbase.
  intros Ha. destruct a as [q|]; [|done]. unfold uses, page_entry.
  destruct (entry_fields_at q 1) as (_ & _ & _ & _ & ->); [by apply Ha|unfold PGSIZE; lia|done|done].
Qed.

Lemma checking_npages k l t a b : checking k l t a b -> k_npages k = k_npages k0.
Proof using Type. intros H. apply mm_only_npages, H. Qed.

Lemma checking_base : checking k0 [] None None None.
Proof using Hbase.
  destruct (ba_empty Hbase) as [Hd0 Hd1]. constructor.
  - apply Hbase.
  - apply mm_only_refl.
  - apply pages_frame_refl.
  - by intros ? ? ? ? ?.
  - done.
  - intros s Hs. unfold shape. case_decide as E; [subst; exact Hd0|].
    case_decide as E1; [subst; cbn [content]; change (0 / 1024) with 0; by rewrite Hd0|]. case_decide as E2; [subst; cbn [content]; change (1 / 1024) with 0; by rewrite Hd0|]. done.
  - intros p Hp. rewrite uses_None. lia.
Qed.

(** What is mapped, read off the shape. *)
Definition at_page (a b : option nat) (n : Z) : option nat := if decide (n = 0) then a else b.

Lemma shape_page t a b n : n = 0 \/ n = 1 -> shape t a b (SPage n) = page_entry (at_page a b n).
Proof using Type. by intros [-> | ->]. Qed.

Lemma low_slot n : n = 0 \/ n = 1 -> SPage n ∈ slots /\ 0 <= n < NUSER * 1024 /\ n / 1024 = 0.
Proof using Type. intros Hn. rewrite slots_page, NUSER_eq. destruct Hn as [-> | ->]; by split_and!. Qed.

Lemma checking_mapping k l t a b n :
  checking k l t a b -> n = 0 \/ n = 1 -> (forall q, at_page a b n = Some q -> q ∈ W) ->
  mapping pd k n = (fun q => (q, 1)) <$> at_page a b n.
Proof using Hbase.
  intros Hch Hn Hq. destruct (low_slot n Hn) as (Hs & _ & _). unfold mapping. rewrite (ch_content _ _ _ _ _ Hch _ Hs), shape_page by done.
  destruct (at_page a b n) as [q|]; [|done]. unfold page_entry.
  destruct (entry_fields_at q 1) as (He & -> & _ & -> & _); [by apply Hq|unfold PGSIZE; lia|done|].
  by apply Z.eqb_neq in He as ->.
Qed.

(** ** Steps *)

Lemma reserved_kept_trans k1 k2 k3 : reserved_kept pd res k1 k2 -> reserved_kept pd res k2 k3 -> reserved_kept pd res k1 k3.
Proof using Type. intros H1 H2 p j Hp Hj Ho. by rewrite H2, H1. Qed.
Lemma reserved_kept_words k k' : (forall pa, word k' pa = word k pa) -> reserved_kept pd res k k'.
Proof using Type. by intros H p j _ _ _. Qed.

(** One slot changes from what [t], [a], [b] say to [v], which is what [t'], [a'],
    [b'] say. *)
Lemma checking_step k k' l l' t a b t' a' b' s0 v :
  checking k l t a b -> vm_ok pd (fun _ => 0) res k' l' -> mm_only k k' -> pages_frame W k k' -> reserved_kept pd res k k' -> k_tlb k' ⊆ k_tlb k ->
  s0 ∈ slots -> (forall s, s ∈ slots -> content pd k' s = if decide (s = s0) then v else content pd k s) ->
  (forall s, shape t' a' b' s = if decide (s = s0) then v else shape t a b s) ->
  (forall p, uses t' p + uses a' p + uses b' p =
     uses t p + uses a p + uses b p - Z.b2z (hit (shape t a b s0) p) + Z.b2z (hit v p)) ->
  checking k' l' t' a' b'.
Proof using Hbase.
  intros Hch Hok' Hmm Hfr Hres Htl Hs0 Hc Hsh Huse. pose proof (checking_npages _ _ _ _ _ Hch) as Hnp. constructor.
  - done.
  - eapply mm_only_trans; [apply Hch|done].
  - eapply pages_frame_trans; [apply Hch|done].
  - eapply reserved_kept_trans; [apply Hch|done].
  - etrans; [exact Htl|apply Hch].
  - intros s Hs. rewrite (Hc s Hs), Hsh, (ch_content _ _ _ _ _ Hch s Hs). done.
  - intros p Hp. destruct (vm_refs _ _ _ _ _ Hok' p) as [-> _]; [by rewrite (mm_only_npages _ _ Hmm), Hnp|].
    rewrite (refs_update pd k k' p s0 v Hs0 Hc), (ch_content _ _ _ _ _ Hch s0 Hs0).
    destruct (vm_refs _ _ _ _ _ (ch_ok _ _ _ _ _ Hch) p) as [Hr _]; [by rewrite Hnp|].
    pose proof (ch_refs _ _ _ _ _ Hch p Hp). specialize (Huse p). lia.
Qed.

(** No slot changes. *)
Lemma checking_same k k' l l' t a b :
  checking k l t a b -> pages_only k k' -> is_list k' l' -> pages_frame W k k' -> l' ⊆ W ->
  (forall p, ref_of k' p = ref_of k p) -> (forall p, p ∈ l' -> uses t p + uses a p + uses b p = 0) ->
  checking k' l' t a b.
Proof using Hbase.
  intros Hch Hp Hl Hfr HW Hr Huse. pose proof (checking_npages _ _ _ _ _ Hch) as Hnp.
  assert (Hw : forall pa, word k' pa = word k pa) by (intros; by apply pages_only_word).
  assert (Hcs : forall s, content pd k' s = content pd k s) by (intros [i|m]; cbn; unfold pte_addr, dir; by rewrite !Hw).
  constructor.
  - eapply (vm_same pd (fun _ => 0)); [apply Hch|by destruct Hp as [-> _]|apply Hp|done| |done|].
    + intros p Hpl. destruct (ba_pages Hbase p) as (Hlt & Hres & H0); [by apply HW|]. split; [|done].
      rewrite Hr, (ch_refs _ _ _ _ _ Hch p Hlt), H0. specialize (Huse p Hpl). lia.
    + intros p Hpl. rewrite Hr. split; [|done]. apply (vm_refs _ _ _ _ _ (ch_ok _ _ _ _ _ Hch) p Hpl).
  - eapply mm_only_trans; [apply Hch|by apply mm_only_pages].
  - eapply pages_frame_trans; [apply Hch|done].
  - eapply reserved_kept_trans; [apply Hch|by apply reserved_kept_words].
  - destruct Hp as [-> _]. apply Hch.
  - intros s Hs. rewrite Hcs. by apply (ch_content _ _ _ _ _ Hch).
  - intros p Hlt. rewrite Hr. by apply (ch_refs _ _ _ _ _ Hch).
Qed.

Lemma wp_alloc_ok k p l t a b (Q : nat -> kernel -> Prop) :
  checking k (p :: l) t a b -> p :: l ⊆ W -> (forall q, q ∈ l -> uses t q + uses a q + uses b q = 0) ->
  (forall k', checking k' l t a b -> Q p k') -> wp alloc_ok Q k.
Proof using Hbase.
  intros Hch HW Hu HQ. unfold alloc_ok. wp_go. eapply wp_page_alloc_cons; [apply Hch|].
  intros k' Hp Hl H0 Ho Hfr. change (0 =? 0) with true. wp_go; [done|]. apply (wp_deref _ p); [done|]. wp_go. apply HQ.
  eapply checking_same; [exact Hch|done|done|by eapply pages_frame_mono|set_solver| |done].
  intros q. destruct (decide (q = p)) as [->|]; [|by apply Ho]. rewrite H0. symmetry.
  apply (vm_free _ _ _ _ _ (ch_ok _ _ _ _ _ Hch)). set_solver.
Qed.

Lemma wp_alloc_fails k t a b (Q : () -> kernel -> Prop) : checking k [] t a b -> Q tt k -> wp alloc_fails Q k.
Proof using Hbase.
  intros Hch HQ. unfold alloc_fails. wp_go. eapply wp_page_alloc_nil; [apply Hch|]. by apply wp_kassert.
Qed.

Lemma wp_free_page k p l t a b (Q : () -> kernel -> Prop) :
  checking k l t a b -> p :: l ⊆ W -> p ∉ l -> (forall q, q ∈ p :: l -> uses t q + uses a q + uses b q = 0) ->
  (forall k', checking k' (p :: l) t a b -> Q tt k') -> wp (page_free p) Q k.
Proof using Hbase.
  intros Hch HW Hp Hu HQ. eapply wp_page_free; [apply Hch|done| |].
  - pose proof (vm_len _ _ _ _ _ (ch_ok _ _ _ _ _ Hch)). destruct (ba_pages Hbase p) as [? _]; [set_solver|].
    rewrite (checking_npages _ _ _ _ _ Hch) in *. lia.
  - intros k' Hlk Hl Hfr. apply HQ. eapply checking_same; [exact Hch|by apply links_pages_only|done|by eapply pages_frame_mono|done| |done].
    intros q. by apply links_only_ref.
Qed.

Lemma low_va n : n = 0 \/ n = 1 -> user (n * PGSIZE) /\ PGNUM (n * PGSIZE) = n /\ PDX (n * PGSIZE) = 0.
Proof using Type. unfold user. change UTOP with (955 * 2 ^ 22). by intros [-> | ->]. Qed.

Lemma checking_dir k l t a b i : checking k l t a b -> i = 0 \/ i = 1 -> dir pd k i = if decide (i = 0) then table_entry t else 0.
Proof using Hbase.
  intros Hch Hi. assert (Hs : SDir i ∈ slots) by (apply slots_dir; rewrite NUSER_eq; lia).
  change (dir pd k i) with (content pd k (SDir i)). rewrite (ch_content _ _ _ _ _ Hch _ Hs). unfold shape.
  destruct Hi as [-> | ->]; [done|]. apply (ba_empty Hbase).
Qed.

Lemma table_entry_ne r : table_entry (Some r) <> 0.
Proof using Type. unfold table_entry, PGSIZE. lia. Qed.

Lemma checking_pgdir k l t a b : checking k l t a b -> k_pgdir k = pgdir_of pd.
Proof using Hbase. intros Hch. rewrite (proj1 (ch_mm _ _ _ _ _ Hch)). exact (ba_pgdir Hbase). Qed.

(** The counts that [checking] gives. *)
Lemma checking_ref k l t a b p : checking k l t a b -> p ∈ W -> ref_of k p = uses t p + uses a p + uses b p.
Proof using Hbase.
  intros Hch Hp. destruct (ba_pages Hbase p Hp) as (Hlt & _ & H0). rewrite (ch_refs _ _ _ _ _ Hch p Hlt), H0. lia.
Qed.

Definition set_page_at (n : Z) (x : option nat) (ab : option nat * option nat) : option nat * option nat :=
  if decide (n = 0) then (x, ab.2) else (ab.1, x).

Lemma shape_set t a b n x s : n = 0 \/ n = 1 ->
  shape t (set_page_at n x (a, b)).1 (set_page_at n x (a, b)).2 s = if decide (s = SPage n) then page_entry x else shape t a b s.
Proof using Type. unfold shape, set_page_at. intros [-> | ->]; cbn; repeat case_decide; by simplify_eq. Qed.

Lemma uses_set a b n x p : n = 0 \/ n = 1 ->
  uses (set_page_at n x (a, b)).1 p + uses (set_page_at n x (a, b)).2 p = uses a p + uses b p - uses (at_page a b n) p + uses x p.
Proof using Type. unfold set_page_at, at_page. intros [-> | ->]; [rewrite !decide_True by done|rewrite !decide_False by done]; cbn [fst snd]; lia. Qed.

(** A change of the entry of page [n] to [x], of which the rest is known. *)
Lemma checking_set k k' l l' t a b n x :
  checking k l t a b -> n = 0 \/ n = 1 -> (forall q, at_page a b n = Some q -> q ∈ W) -> (forall q, x = Some q -> q ∈ W) ->
  vm_ok pd (fun _ => 0) res k' l' -> mm_only k k' -> pages_frame W k k' -> k_tlb k' ⊆ k_tlb k -> t <> None ->
  pte_written pd k k' n (page_entry x) -> checking k' l' t (set_page_at n x (a, b)).1 (set_page_at n x (a, b)).2.
Proof using Hbase.
  intros Hch Hn Hq Hx Hok' Hmm Hfr Htl Ht Hpw. destruct (low_slot n Hn) as (Hs & Hr & Hd).
  eapply (checking_step k k' l l' t a b _ _ _ (SPage n) (page_entry x)); [done..| |done|done|apply Hpw| |].
  - eapply reserved_kept_pte; [apply Hch|exact Hr| |exact Hpw]. rewrite Hd, (checking_dir _ _ _ _ _ 0 Hch) by tauto.
    rewrite decide_True by done. destruct t; [apply table_entry_ne|done].
  - intros s. by apply shape_set.
  - intros p. pose proof (uses_set a b n x p Hn). rewrite shape_page, hit_page, hit_page by done. lia.
Qed.

Lemma inserted_checking k k' l t a b n pp :
  checking k l t a b -> n = 0 \/ n = 1 -> (forall q, at_page a b n = Some q -> q ∈ W) -> pp ∈ W -> l ⊆ W -> t <> None ->
  inserted pd (fun _ => 0) res k k' l n pp 0 ->
  checking k' (match at_page a b n with
               | Some q => if bool_decide (q <> pp) && (uses t q + uses a q + uses b q =? 1) then q :: l else l
               | None => l
               end) t (set_page_at n (Some pp) (a, b)).1 (set_page_at n (Some pp) (a, b)).2.
Proof using Hbase.
  intros Hch Hn Hq Hpp Hl Ht Hins. pose proof (checking_mapping _ _ _ _ _ n Hch Hn Hq) as Hmap.
  eapply checking_set; [exact Hch|done|done|by intros ? [= <-]| |apply Hins| | |done|apply (ins_written _ _ _ _ _ _ _ _ _ Hins)].
  - pose proof (ins_ok _ _ _ _ _ _ _ _ _ Hins) as Hok. unfold freed in Hok. rewrite Hmap in Hok.
    destruct (at_page a b n) as [q|]; [|exact Hok]. cbn in Hok.
    rewrite (checking_ref _ _ _ _ _ q Hch) in Hok by (by apply Hq). exact Hok.
  - eapply pages_frame_mono; [|apply (ins_pages _ _ _ _ _ _ _ _ _ Hins)]. unfold replaced. rewrite Hmap.
    destruct (at_page a b n) as [q|]; cbn; [|set_solver]. specialize (Hq q eq_refl). set_solver.
  - apply map_subseteq_spec. intros m e. rewrite (ins_tlb _ _ _ _ _ _ _ _ _ Hins). repeat case_match; done.
Qed.

(** ** The calls of page_check *)

Lemma ref_small k l t a b p : checking k l t a b -> p ∈ W -> ref_of k p < 2 ^ 16 - 1.
Proof using Hbase.
  intros Hch Hp. rewrite (checking_ref _ _ _ _ _ p Hch Hp). unfold uses. destruct (bool_decide _), (bool_decide _), (bool_decide _); cbn; lia.
Qed.

Lemma page_below k l t a b p : checking k l t a b -> p ∈ W -> Z.of_nat p < k_npages k.
Proof using Hbase. intros Hch Hp. rewrite (checking_npages _ _ _ _ _ Hch). apply (ba_pages Hbase p Hp). Qed.

(** Into an existing page table. *)
Lemma wp_insert_mapped k l r a b n pp (Q : () -> kernel -> Prop) :
  checking k l (Some r) a b -> n = 0 \/ n = 1 -> (forall q, at_page a b n = Some q -> q ∈ W) -> pp ∈ W -> pp ∉ l -> l ⊆ W ->
  (forall k', checking k' (match at_page a b n with
               | Some q => if bool_decide (q <> pp) && (uses (Some r) q + uses a q + uses b q =? 1) then q :: l else l
               | None => l
               end) (Some r) (set_page_at n (Some pp) (a, b)).1 (set_page_at n (Some pp) (a, b)).2 -> Q tt k') ->
  wp (check_insert pp (n * PGSIZE) true) Q k.
Proof using Hbase.
  intros Hch Hn Hq Hpp Hpl Hl HQ. destruct (low_va n Hn) as (Hva & Hpg & Hdx).
  unfold check_insert. wp_go. rewrite (checking_pgdir _ _ _ _ _ Hch).
  assert (Hd : dir pd k (PDX (n * PGSIZE)) <> 0).
  { rewrite Hdx, (checking_dir _ _ _ _ _ 0 Hch) by tauto. rewrite decide_True by done. apply table_entry_ne. }
  eapply (wp_page_insert pd); [apply Hch|done|done|by eapply page_below|done|apply (ba_pages Hbase pp Hpp)|by unfold PGSIZE|by eapply ref_small| | |].
  - done.
  - intros _ k' Hins. apply wp_kassert; [done|]. rewrite Hpg in Hins. apply HQ. by eapply inserted_checking.
  - done.
Qed.

(** With the last free page as the page table. *)
Lemma wp_insert_table k p pp (Q : () -> kernel -> Prop) :
  checking k [p] None None None -> p ∈ W -> pp ∈ W -> p <> pp ->
  (forall k', checking k' [] (Some p) (Some pp) None -> Q tt k') -> wp (check_insert pp 0 true) Q k.
Proof using Hbase.
  intros Hch Hp Hpp Hne HQ. destruct (low_va 0 ltac:(tauto)) as (Hva & Hpg & Hdx). change (0 * PGSIZE) with 0 in *.
  unfold check_insert. wp_go. rewrite (checking_pgdir _ _ _ _ _ Hch).
  assert (Hs0 : SDir 0 ∈ slots) by (apply slots_dir; by rewrite NUSER_eq).
  assert (Hd : dir pd k 0 = 0) by (by rewrite (checking_dir _ _ _ _ _ 0 Hch) by tauto).
  eapply (wp_page_insert pd); [apply Hch|done|done|by eapply page_below|set_solver|apply (ba_pages Hbase pp Hpp)|by unfold PGSIZE|by eapply ref_small| | |];
    rewrite Hdx; [done..|].
  intros _ p' l' k1 k' [= <- <-] Hta Hfr Hok1 _ Hins. apply wp_kassert; [done|]. rewrite Hpg in Hins. apply HQ.
  assert (Hch1 : checking k1 [] (Some p) None None).
  { eapply (checking_step k k1 [p] [] None None None (Some p) None None (SDir 0) (table_entry (Some p)));
      [done|done|apply Hta|eapply pages_frame_mono; [|exact Hfr]; set_solver| |by rewrite (ta_tlb _ _ _ _ _ Hta)|done|apply Hta| |].
    - eapply reserved_kept_table; [apply Hch| | |exact Hta]; [set_solver|by rewrite NUSER_eq].
    - intros s. unfold shape. repeat case_decide; by simplify_eq.
    - intros q. rewrite hit_table by (by intros ? [= <-]). change (shape None None None (SDir 0)) with 0. rewrite hit_0, !uses_None. cbn. lia. }
  assert (Hch2 : checking k' [] (Some p) (Some pp) None); [|exact Hch2].
  eapply (inserted_checking k1 k' [] (Some p) None None 0 pp Hch1); [by left|by intros ? [=]|done|set_solver|done|exact Hins].
Qed.

(** Where a page table is missing and no page is free. *)
Lemma wp_insert_fails k t a b pp va (Q : () -> kernel -> Prop) :
  checking k [] t a b -> pp ∈ W -> user va -> dir pd k (PDX va) = 0 -> Q tt k -> wp (check_insert pp va false) Q k.
Proof using Hbase.
  intros Hch Hpp Hva Hd HQ. unfold check_insert. wp_go. rewrite (checking_pgdir _ _ _ _ _ Hch).
  eapply (wp_page_insert pd); [apply Hch|done|done|by eapply page_below|set_solver|apply (ba_pages Hbase pp Hpp)|by unfold PGSIZE|by eapply ref_small| | |]; [|done..].
  intros _ _. by apply wp_kassert.
Qed.

Lemma wp_remove_mapped k l r a b n q (Q : () -> kernel -> Prop) :
  checking k l (Some r) a b -> n = 0 \/ n = 1 -> at_page a b n = Some q -> q ∈ W -> l ⊆ W ->
  (forall k', checking k' (if uses (Some r) q + uses a q + uses b q =? 1 then q :: l else l) (Some r)
                (set_page_at n None (a, b)).1 (set_page_at n None (a, b)).2 -> Q tt k') ->
  wp (page_remove (pgdir_of pd) (n * PGSIZE)) Q k.
Proof using Hbase.
  intros Hch Hn Hat Hq Hl HQ. destruct (low_va n Hn) as (Hva & Hpg & Hdx). destruct (low_slot n Hn) as (Hs & _).
  assert (Hc : content pd k (SPage n) = page_entry (Some q)) by (by rewrite (ch_content _ _ _ _ _ Hch _ Hs), shape_page, Hat).
  destruct (entry_fields_at q 1) as (He & Hg & _); [done|unfold PGSIZE; lia|done|].
  eapply (wp_page_remove pd); [apply Hch|done|done|rewrite Hpg, Hc; exact He|]. rewrite Hpg, Hc.
  intros k' Hok Hmm Hpw Htl _ Hfr. unfold page_entry in Hok, Hfr. rewrite Hg in Hok, Hfr. rewrite (checking_ref _ _ _ _ _ q Hch Hq) in Hok. apply HQ.
  eapply (checking_set k k' _ _ _ a b n None Hch); [done|by intros ? E; rewrite Hat in E; injection E as <-|done|exact Hok|done| |rewrite Htl; apply delete_subseteq|done|exact Hpw].
  eapply pages_frame_mono; [|exact Hfr]. set_solver.
Qed.

Lemma wp_check_maps k l t a b n x (Q : () -> kernel -> Prop) :
  checking k l t a b -> n = 0 \/ n = 1 -> (forall q, at_page a b n = Some q -> q ∈ W) ->
  x = match at_page a b n with Some q => page2pa q | None => u32 (Z.lnot 0) end ->
  Q tt k -> wp (check_maps (n * PGSIZE) x) Q k.
Proof using Hbase.
  intros Hch Hn Hq Hx HQ. destruct (low_va n Hn) as (Hva & Hpg & _). unfold check_maps. wp_go. rewrite (checking_pgdir _ _ _ _ _ Hch).
  eapply wp_run; [apply (check_va2pa_run pd _ _ _ _ _ (ch_ok _ _ _ _ _ Hch) Hva)|].
  rewrite Hpg, (checking_mapping _ _ _ _ _ n Hch Hn Hq). apply wp_kassert; [|done]. apply Z.eqb_eq. subst x.
  destruct (at_page a b n) as [q|]; [|done]. symmetry. apply (page2pa_eq k).
  pose proof (page_below _ _ _ _ _ q Hch (Hq q eq_refl)). split; [lia|apply Hch].
Qed.

Lemma wp_check_ref k l t a b p n (Q : () -> kernel -> Prop) :
  checking k l t a b -> p ∈ W -> n = uses t p + uses a p + uses b p -> Q tt k -> wp (check_ref p n) Q k.
Proof using Hbase.
  intros Hch Hp -> HQ. unfold check_ref. wp_go. apply wp_get_ref.
  - pose proof (page_below _ _ _ _ _ p Hch Hp). pose proof (vm_len _ _ _ _ _ (ch_ok _ _ _ _ _ Hch)). lia.
  - apply wp_kassert; [|done]. rewrite (checking_ref _ _ _ _ _ p Hch Hp). apply Z.eqb_refl.
Qed.

Lemma wp_check_pde0 k l r a b (Q : () -> kernel -> Prop) :
  checking k l (Some r) a b -> r ∈ W -> Q tt k -> wp (check_pde0 r) Q k.
Proof using Hbase.
  intros Hch Hr HQ. unfold check_pde0. wp_go. rewrite (checking_pgdir _ _ _ _ _ Hch).
  rewrite <- (Z.add_0_r (pgdir_of pd)). change 0 with (4 * 0) at 1. eapply (wp_ld_dir pd); [apply Hch|by rewrite NUSER_eq|].
  rewrite (checking_dir _ _ _ _ _ 0 Hch), decide_True by tauto. apply wp_kassert; [|done]. apply Z.eqb_eq. unfold table_entry.
  destruct (entry_fields_at r 7) as (_ & _ & -> & _); [done|unfold PGSIZE; lia|done|]. symmetry. apply (page2pa_eq k).
  pose proof (page_below _ _ _ _ _ r Hch Hr). split; [lia|apply Hch].
Qed.

(** ** The two halves *)

Lemma pages_differ : p0 <> p1 /\ p0 <> p2 /\ p1 <> p2.
Proof using Hbase.
  pose proof (ba_nodup Hbase) as H. apply NoDup_cons in H as [H0 H]. apply NoDup_cons in H as [H1 _]. set_solver.
Qed.

Ltac uses_go :=
  destruct pages_differ as (? & ? & ?); rewrite ?uses_None, ?uses_Some; repeat case_decide; congruence || lia.
Ltac in_W := let E := fresh in intros ? E; first [injection E as <-; set_solver | discriminate E].

Lemma wp_page_check_map (Q : () -> kernel -> Prop) :
  (forall k', checking k' [p2] (Some p0) (Some p1) (Some p1) -> Q tt k') -> wp (page_check_map p0 p1 p2) Q k0.
Proof using Hbase.
  intros HQ. destruct pages_differ as (H01 & H02 & H12). pose proof checking_base as Hch.
  destruct (low_va 0 ltac:(tauto)) as (Hu0 & _ & Hd0). destruct (low_va 1 ltac:(tauto)) as (Hu1 & _ & Hd1).
  destruct (ba_empty Hbase) as [He0 He1]. change (0 * PGSIZE) with 0 in Hu0, Hd0.
  unfold page_check_map. wp_go. rewrite (ba_pgdir Hbase).
  (* nothing is mapped, and nothing can be *)
  unfold page_lookup. wp_go. eapply (wp_pgdir_walk pd); [apply Hch|done|done| | |done]; rewrite Hd0; [done|].
  intros _ _. change (0 =? 0) with true. wp_go; [done|].
  eapply wp_insert_fails; [exact Hch|set_solver|done|by rewrite Hd0|]. wp_go.
  (* p0 becomes the page table *)
  eapply wp_free_page; [exact Hch|set_solver|set_solver|intros; rewrite !uses_None; lia|]. clear Hch. intros k1 Hch. wp_go.
  eapply wp_insert_table; [exact Hch|set_solver|set_solver|done|]. clear Hch. intros k2 Hch. wp_go.
  eapply wp_check_pde0; [exact Hch|set_solver|]. wp_go.
  change 0 with (0 * PGSIZE) at 1. eapply wp_check_maps; [exact Hch|tauto|in_W|done|]. wp_go.
  eapply wp_check_ref; [exact Hch|set_solver|uses_go|]. wp_go. eapply wp_check_ref; [exact Hch|set_solver|uses_go|]. wp_go.
  (* p2 at PGSIZE, twice *)
  change PGSIZE with (1 * PGSIZE).
  eapply wp_insert_mapped; [exact Hch|tauto|in_W|set_solver|set_solver|set_solver|]. clear Hch.
  intros k3 Hch. change (checking k3 [] (Some p0) (Some p1) (Some p2)) in Hch. wp_go.
  eapply (wp_check_maps _ _ _ _ _ 1); [exact Hch|tauto|in_W|done|]. wp_go. eapply wp_check_ref; [exact Hch|set_solver|uses_go|]. wp_go.
  eapply wp_alloc_fails; [exact Hch|]. wp_go.
  eapply (wp_insert_mapped _ _ _ _ _ 1); [exact Hch|tauto|in_W|set_solver|set_solver|set_solver|]. clear Hch.
  change (at_page (Some p1) (Some p2) 1) with (Some p2). cbv iota. rewrite (bool_decide_false (p2 <> p2)) by tauto.
  intros k4 Hch. change (checking k4 [] (Some p0) (Some p1) (Some p2)) in Hch. wp_go.
  eapply (wp_check_maps _ _ _ _ _ 1); [exact Hch|tauto|in_W|done|]. wp_go. eapply wp_check_ref; [exact Hch|set_solver|uses_go|]. wp_go.
  eapply wp_alloc_fails; [exact Hch|]. wp_go.
  (* no page table for PTSIZE; p1 replaces p2 *)
  eapply wp_insert_fails; [exact Hch|set_solver|by unfold user; vm_compute|change (PDX PTSIZE) with 1; by rewrite (checking_dir _ _ _ _ _ 1 Hch) by tauto|].
  wp_go. eapply (wp_insert_mapped _ _ _ _ _ 1); [exact Hch|tauto|in_W|set_solver|set_solver|set_solver|]. clear Hch.
  change (at_page (Some p1) (Some p2) 1) with (Some p2). cbv iota. rewrite (bool_decide_true (p2 <> p1)) by done.
  replace (_ =? 1) with true by (symmetry; apply Z.eqb_eq; uses_go).
  intros k5 Hch. change (checking k5 [p2] (Some p0) (Some p1) (Some p1)) in Hch. wp_go.
  change 0 with (0 * PGSIZE) at 1. eapply wp_check_maps; [exact Hch|tauto|in_W|done|]. wp_go.
  eapply (wp_check_maps _ _ _ _ _ 1); [exact Hch|tauto|in_W|done|]. wp_go.
  eapply wp_check_ref; [exact Hch|set_solver|uses_go|]. wp_go. eapply wp_check_ref; [exact Hch|set_solver|uses_go|]. by apply HQ.
Qed.

Lemma wp_page_check_unmap k (Q : () -> kernel -> Prop) :
  checking k [p2] (Some p0) (Some p1) (Some p1) ->
  (forall k', checking k' [] (Some p0) None None -> Q tt k') -> wp (page_check_unmap p0 p1 p2) Q k.
Proof using Hbase.
  intros Hch HQ. destruct pages_differ as (H01 & H02 & H12).
  unfold page_check_unmap. wp_go. rewrite (checking_pgdir _ _ _ _ _ Hch).
  eapply wp_alloc_ok; [exact Hch|set_solver|set_solver|]. clear k Hch. intros k1 Hch. wp_go; [by apply bool_decide_eq_true|].
  change 0 with (0 * PGSIZE) at 1. eapply wp_remove_mapped; [exact Hch|tauto|done|set_solver|set_solver|]. clear Hch.
  replace (_ =? 1) with false by (symmetry; apply Z.eqb_neq; uses_go).
  intros k2 Hch. change (checking k2 [] (Some p0) None (Some p1)) in Hch. wp_go.
  change 0 with (0 * PGSIZE) at 1. eapply wp_check_maps; [exact Hch|tauto|in_W|done|]. wp_go.
  change PGSIZE with (1 * PGSIZE). eapply (wp_check_maps _ _ _ _ _ 1); [exact Hch|tauto|in_W|done|]. wp_go.
  eapply wp_check_ref; [exact Hch|set_solver|uses_go|]. wp_go. eapply wp_check_ref; [exact Hch|set_solver|uses_go|]. wp_go.
  eapply (wp_remove_mapped _ _ _ _ _ 1); [exact Hch|tauto|done|set_solver|set_solver|]. clear Hch.
  replace (_ =? 1) with true by (symmetry; apply Z.eqb_eq; uses_go).
  intros k3 Hch. change (checking k3 [p1] (Some p0) None None) in Hch. wp_go.
  change 0 with (0 * PGSIZE) at 1. eapply wp_check_maps; [exact Hch|tauto|in_W|done|]. wp_go.
  eapply (wp_check_maps _ _ _ _ _ 1); [exact Hch|tauto|in_W|done|]. wp_go.
  eapply wp_check_ref; [exact Hch|set_solver|uses_go|]. wp_go. eapply wp_check_ref; [exact Hch|set_solver|uses_go|]. wp_go.
  eapply wp_alloc_ok; [exact Hch|set_solver|set_solver|]. clear Hch. intros k4 Hch. wp_go; [by apply bool_decide_eq_true|].
  eapply wp_alloc_fails; [exact Hch|]. by apply HQ.
Qed.

(** ** Giving the pages back *)

Lemma content_clear_dir ext k l i :
  vm_ok pd ext res k l -> 0 <= i < NUSER ->
  (forall n, 0 <= n < NUSER * 1024 -> n / 1024 = i -> content pd k (SPage n) = 0) ->
  forall s, s ∈ slots -> content pd (set_word (dir_addr pd i) 0 k) s = if decide (s = SDir i) then 0 else content pd k s.
Proof using Type.
  intros Hok Hi H0 s Hs. set (k' := set_word _ _ k).
  assert (Hdir : forall j, 0 <= j < NUSER -> dir pd k' j = if decide (j = i) then 0 else dir pd k j).
  { intros j Hj. unfold dir at 1, k'. rewrite word_set_word. unfold dir_addr. repeat case_decide; try (exfalso; lia); done. }
  destruct s as [j|n]; cbn [content].
  - apply slots_dir in Hs. rewrite (Hdir j Hs). repeat case_decide; by simplify_eq.
  - apply slots_page in Hs. rewrite decide_False by done. assert (Hj : 0 <= n / 1024 < NUSER) by (rewrite NUSER_eq in *; divmod).
    pose proof (Hdir _ Hj) as Hdj. destruct (decide (n / 1024 = i)) as [E|E].
    + rewrite Hdj. specialize (H0 n Hs E). cbn [content] in H0. by rewrite H0.
    + unfold pte_addr. rewrite Hdj. destruct (Z.eqb_spec (dir pd k (n / 1024)) 0) as [|Hd]; [done|].
      destruct (table_in_ram pd _ _ _ _ _ Hok Hs Hd) as (t & -> & Htr & Htn & _).
      unfold k'. rewrite word_set_word, decide_False; [done|]. unfold dir_addr, PGSIZE. intros Ea.
      assert (0 <= n mod 1024 < 1024) by divmod. rewrite NUSER_eq in *. assert (t = Z.of_nat pd) as -> by lia.
      rewrite Nat2Z.id in Htn. by destruct (vm_pd _ _ _ _ _ Hok).
Qed.

(** Directory entry 0 is cleared: the page table has a reference that is in no slot. *)
Lemma wp_drop_table k l r (Q : () -> kernel -> Prop) :
  checking k l (Some r) None None -> r ∈ W ->
  (forall k', vm_ok pd (fun p => uses (Some r) p) res k' l -> mm_only k k' -> k_pages k' = k_pages k -> k_tlb k' = k_tlb k ->
     reserved_kept pd res k k' -> (forall s, s ∈ slots -> content pd k' s = content pd k0 s) -> Q tt k') ->
  wp (st (pgdir_of pd) 0) Q k.
Proof using Hbase.
  intros Hch Hr HQ. pose proof (ch_ok _ _ _ _ _ Hch) as Hok. destruct (ba_empty Hbase) as [Hd0 _].
  assert (Hs0 : SDir 0 ∈ slots) by (apply slots_dir; by rewrite NUSER_eq).
  assert (Hpd : pgdir_of pd = pgdir_of pd + 4 * 0) by lia. rewrite Hpd.
  apply wp_st; [eapply (dir_in_ram pd); [exact Hok|by rewrite NUSER_eq]|]. rewrite dir_va.
  assert (Hz : forall n, 0 <= n < NUSER * 1024 -> n / 1024 = 0 -> content pd k (SPage n) = 0).
  { intros n Hn E. rewrite (ch_content _ _ _ _ _ Hch) by (by apply slots_page). unfold shape. rewrite decide_False by done.
    case_decide; [done|]. case_decide; [done|]. cbn [content]. by rewrite E, Hd0. }
  pose proof (content_clear_dir _ _ _ 0 Hok ltac:(by rewrite NUSER_eq) Hz) as Hc. set (k' := set_word _ _ k) in *.
  apply HQ; [|done|done|done| |].
  - eapply (vm_update pd (fun _ => 0) _ res k k' l l (SDir 0) 0); try done.
    + apply (is_list_same k); [done|done|apply Hok].
    + intros p Hp. apply (vm_free _ _ _ _ _ Hok p Hp).
    + intros p Hp. destruct (vm_refs _ _ _ _ _ Hok p Hp) as [_ Hb]. split; [exact Hb|].
      rewrite (ch_content _ _ _ _ _ Hch _ Hs0). change (shape (Some r) None None (SDir 0)) with (table_entry (Some r)).
      rewrite hit_table by (by intros ? [= <-]). rewrite hit_0. change (ref_of k' p) with (ref_of k p). cbn. lia.
  - intros p j Hp Hj Hor. unfold k'. rewrite word_set_word, decide_False; [done|]. unfold dir_addr, PGSIZE. rewrite NUSER_eq in Hor. lia.
  - intros s Hs. rewrite (Hc s Hs), (ch_content _ _ _ _ _ Hch s Hs). unfold shape.
    case_decide; [subst; symmetry; exact Hd0|]. case_decide; [subst; cbn [content]; change (0 / 1024) with 0; by rewrite Hd0|].
    case_decide; [subst; cbn [content]; change (1 / 1024) with 0; by rewrite Hd0|done].
Qed.
End from_base.

(** ** Taking and giving back the free list *)

Lemma pages_content k k' s : pages_only k k' -> content pd k' s = content pd k s.
Proof using Type. intros H. destruct s; cbn; unfold pte_addr, dir; by rewrite !(pages_only_word _ _ _ H). Qed.

(** Allocating changes no count, and freeing an unused page neither. *)
Lemma wp_take k p l (Q : nat -> kernel -> Prop) :
  vm_ok pd (fun _ => 0) res k (p :: l) ->
  (forall k', vm_ok pd (fun _ => 0) res k' l -> pages_only k k' -> (forall q, ref_of k' q = ref_of k q) -> Q p k') ->
  wp alloc_ok Q k.
Proof using Type.
  intros Hok HQ. unfold alloc_ok. wp_go. eapply wp_page_alloc_cons; [apply Hok|].
  intros k' Hp Hl H0 Ho _. change (0 =? 0) with true. wp_go; [done|]. apply (wp_deref _ p); [done|]. wp_go.
  assert (Hr : forall q, ref_of k' q = ref_of k q).
  { intros q. destruct (decide (q = p)) as [->|]; [|by apply Ho]. rewrite H0. symmetry. apply (vm_free _ _ _ _ _ Hok). set_solver. }
  apply HQ; [|done|done]. eapply (vm_same pd (fun _ => 0)); [exact Hok|by destruct Hp as [-> _]|apply Hp|done| | |].
  - intros q Hq. rewrite Hr. apply (vm_free _ _ _ _ _ Hok). set_solver.
  - intros pa. by apply pages_only_word.
  - intros q Hq. rewrite Hr. split; [apply (vm_refs _ _ _ _ _ Hok q Hq)|lia].
Qed.

Lemma wp_give k p l (Q : () -> kernel -> Prop) :
  vm_ok pd (fun _ => 0) res k l -> p ∉ l -> Z.of_nat p < k_npages k -> p ∉ res -> ref_of k p = 0 ->
  (forall k', vm_ok pd (fun _ => 0) res k' (p :: l) -> pages_only k k' -> (forall q, ref_of k' q = ref_of k q) -> Q tt k') ->
  wp (page_free p) Q k.
Proof using Type.
  intros Hok Hn Hlt Hres H0 HQ. pose proof (vm_len _ _ _ _ _ Hok).
  eapply wp_page_free; [apply Hok|done|lia|]. intros k' Hlk Hl _.
  assert (Hp : pages_only k k') by (by apply links_pages_only).
  assert (Hr : forall q, ref_of k' q = ref_of k q) by (intros; by apply links_only_ref).
  apply HQ; [|done|done]. eapply (vm_same pd (fun _ => 0)); [exact Hok|by destruct Hp as [-> _]|apply Hp|done| | |].
  - intros q [-> | Hq]%elem_of_cons; rewrite Hr; [done|by apply (vm_free _ _ _ _ _ Hok)].
  - intros pa. by apply pages_only_word.
  - intros q Hq. rewrite Hr. split; [apply (vm_refs _ _ _ _ _ Hok q Hq)|lia].
Qed.

(** The rest of the free list while it is set aside. *)
Definition aside (k : kernel) (l : list nat) : Prop := chain k PHead l /\ NoDup l.

Lemma is_list_aside k l : is_list k l -> aside (set_free None k) l.
Proof using Type. intros (_ & Hc & Hn). split; [|done]. eapply chain_ext; [|exact Hc]. done. Qed.

Lemma aside_is_list k k' l : aside k l -> (forall p, p ∈ l -> k_pages k' !! p = k_pages k !! p) -> is_list (set_free (head l) k') l.
Proof using Type.
  intros [Hc Hn] Hp. split_and!; [done| |done]. eapply chain_ext; [|exact Hc]. intros j Hj. cbn. by rewrite Hp.
Qed.

Lemma wp_page_check_steal k rest (Q : nat * nat * nat * option nat -> kernel -> Prop) :
  vm_ok pd (fun _ => 0) res k (p0 :: p1 :: p2 :: rest) -> k_pgdir k = pgdir_of pd -> dir pd k 0 = 0 -> dir pd k 1 = 0 ->
  (forall k', base k' -> aside k' rest -> pages_only k k' -> (forall q, ref_of k' q = ref_of k q) -> Q (p0, p1, p2, head rest) k') ->
  wp page_check_steal Q k.
Proof using Type.
  intros Hok Hpd Hd0 Hd1 HQ. destruct (vm_list _ _ _ _ _ Hok) as (_ & _ & Hnd).
  assert (Hfree : forall p, p ∈ W ++ rest -> Z.of_nat p < k_npages k /\ (p ∉ res) /\ ref_of k p = 0).
  { intros p Hp. destruct (vm_list _ _ _ _ _ Hok) as (_ & Hc & _). destruct (vm_free _ _ _ _ _ Hok p Hp) as [H0 Hr].
    pose proof (chain_lookup _ _ _ _ Hc Hp). pose proof (vm_len _ _ _ _ _ Hok). split_and!; [lia|done|done]. }
  assert (Hnd3 : p0 <> p1 /\ p0 <> p2 /\ p1 <> p2).
  { apply NoDup_cons in Hnd as [H0 H]. apply NoDup_cons in H as [H1 _]. set_solver. }
  unfold page_check_steal. wp_go. eapply wp_take; [exact Hok|]. intros k1 Hok1 Hp1 Hr1. wp_go.
  eapply wp_take; [exact Hok1|]. intros k2 Hok2 Hp2 Hr2. wp_go. eapply wp_take; [exact Hok2|]. intros k3 Hok3 Hp3 Hr3.
  wp_go; [rewrite bool_decide_false by (intros ->; tauto); done|rewrite !bool_decide_false by (intros ->; tauto); done|].
  unfold LIST_INIT. wp_go. cbn [q_set_first kernel_queue]. set (k4 := set_free None k3).
  assert (Hp : pages_only k k3) by (eapply pages_only_trans; [exact Hp1|eapply pages_only_trans; [exact Hp2|exact Hp3]]).
  assert (Hp4 : pages_only k k4) by (eapply pages_only_trans; [exact Hp|by split]).
  assert (Hr : forall q, ref_of k4 q = ref_of k q) by (intros q; change (ref_of k4 q) with (ref_of k3 q); by rewrite Hr3, Hr2, Hr1).
  assert (Hl4 : is_list k4 []) by (split_and!; [done|done|constructor]).
  unfold alloc_fails. wp_go. eapply wp_page_alloc_nil; [exact Hl4|]. wp_go; [done|].
  pose proof (proj1 (vm_list _ _ _ _ _ Hok3)) as Hf. cbn in Hf. rewrite Hf. apply HQ; [|apply is_list_aside, Hok3|done|done].
  assert (Hnp : k_npages k4 = k_npages k) by (by destruct Hp4 as [-> _]).
  constructor.
  - eapply (vm_same pd (fun _ => 0)); [exact Hok|done|apply Hp4|exact Hl4|intros p Hp0; set_solver|by intros; apply pages_only_word|].
    intros q Hq. rewrite Hr. split; [apply (vm_refs _ _ _ _ _ Hok q Hq)|lia].
  - by destruct Hp4 as [-> _].
  - intros p Hpw. rewrite Hnp, Hr. apply Hfree. set_solver.
  - by apply (NoDup_app W rest) in Hnd as [? _].
  - change (dir pd k4 0) with (content pd k4 (SDir 0)). change (dir pd k4 1) with (content pd k4 (SDir 1)).
    by rewrite !(pages_content k k4) by done.
Qed.

(** What [page_check] leaves: nothing mapped that was not, the counts, the kernel's
    pages and everything outside memory management as before. *)
Record restored (k k' : kernel) : Prop := Restored {
  rs_mm : mm_only k k';
  rs_content : forall s, s ∈ slots -> content pd k' s = content pd k s;
  rs_refs : forall p, Z.of_nat p < k_npages k -> ref_of k' p = ref_of k p;
  rs_reserved : reserved_kept pd res k k';
  rs_tlb : k_tlb k' ⊆ k_tlb k;
}.

Lemma restored_trans k1 k2 k3 : restored k1 k2 -> restored k2 k3 -> restored k1 k3.
Proof using Type.
  intros [Hm1 Hc1 Hr1 Hk1 Ht1] [Hm2 Hc2 Hr2 Hk2 Ht2]. split.
  - by eapply mm_only_trans.
  - intros s Hs. by rewrite Hc2, Hc1.
  - intros p Hp. rewrite Hr2 by (by rewrite (mm_only_npages _ _ Hm1)). by apply Hr1.
  - by eapply reserved_kept_trans.
  - by etrans.
Qed.
Lemma restored_pages k k' : pages_only k k' -> (forall q, ref_of k' q = ref_of k q) -> restored k k'.
Proof using Type.
  intros Hp Hr. split; [by apply mm_only_pages|intros; by apply pages_content|done| |by destruct Hp as [-> _]].
  apply reserved_kept_words. intros pa. by apply pages_only_word.
Qed.

(** The page table is dropped and the old free list is put back. *)
Lemma wp_give_list k0 k rest (R : M kernel ()) (Q : () -> kernel -> Prop) :
  base k0 -> aside k0 rest -> (forall q, q ∈ rest -> ref_of k0 q = 0 /\ (q ∉ res) /\ q ∉ W) ->
  checking k0 k [] (Some p0) None None ->
  (forall k', vm_ok pd (fun _ => 0) res k' rest -> restored k0 k' -> wp R Q k') ->
  wp (st (pgdir_of pd) 0;; check_ref p0 1;; set_ref p0 0;; modify (set_free (head rest));; R) Q k.
Proof using Type.
  intros Hbase Hrest Hfree Hch HQ. wp_go. eapply (wp_drop_table k0); [done|exact Hch|set_solver|].
  intros k1 Hok1 Hmm1 Hpg1 Htl1 Hres1 Hc1. wp_go.
  assert (Hr1 : forall p, ref_of k1 p = ref_of k p) by (intros p; unfold ref_of; by rewrite Hpg1).
  assert (Hnp1 : k_npages k1 = k_npages k0) by (rewrite (mm_only_npages _ _ Hmm1); by eapply checking_npages).
  assert (Hlen : (p0 < length (k_pages k1))%nat).
  { pose proof (vm_len _ _ _ _ _ Hok1). destruct (ba_pages _ Hbase p0) as [? _]; [set_solver|]. lia. }
  unfold check_ref. wp_go. apply wp_get_ref; [done|]. rewrite Hr1, (checking_ref k0 Hbase _ _ _ _ _ p0 Hch) by set_solver.
  rewrite uses_None, uses_Some, decide_True by done. change (1 + 0 + 0 =? 1) with true. wp_go; [done|].
  apply wp_set_ref; [done|]. intros k2 (Hp2 & Hr2 & Ho2 & _ & Hf2). change (u16 0) with 0 in Hr2. wp_go.
  assert (Hrefs : forall p, Z.of_nat p < k_npages k0 -> ref_of k2 p = ref_of k0 p).
  { intros p Hp. destruct (decide (p = p0)) as [->|Hne].
    - rewrite Hr2. symmetry. apply (ba_pages _ Hbase). set_solver.
    - rewrite Ho2, Hr1, (ch_refs _ _ _ _ _ _ Hch p Hp), uses_None, uses_Some, decide_False by done. lia. }
  assert (Hfr : pages_frame W k0 k2).
  { eapply pages_frame_trans; [apply Hch|]. eapply pages_frame_trans; [by apply (pages_frame_same W k k1)|].
    eapply pages_frame_mono; [|exact Hf2]. set_solver. }
  set (k3 := set_free (head rest) k2).
  assert (Hl3 : is_list k3 rest) by (apply (aside_is_list k0); [done|]; intros p Hp; apply Hfr, Hfree, Hp).
  apply HQ.
  - eapply (vm_same pd (fun p => uses (Some p0) p)); [exact Hok1|change (k_npages k3) with (k_npages k2); by destruct Hp2 as [-> _]|apply Hp2|exact Hl3| | |].
    + intros p Hp. change (ref_of k3 p) with (ref_of k2 p). destruct (Hfree p Hp) as (H0 & Hres & Hw). split; [|done].
      rewrite Ho2, Hr1 by set_solver. pose proof (chain_lookup _ _ _ _ (proj1 Hrest) Hp). pose proof (vm_len _ _ _ _ _ (ba_ok _ Hbase)).
      rewrite (ch_refs _ _ _ _ _ _ Hch p) by lia. rewrite uses_None, uses_Some, decide_False by set_solver. lia.
    + intros pa. change (word k3 pa) with (word k2 pa). by apply pages_only_word.
    + intros p Hp. change (ref_of k3 p) with (ref_of k2 p). rewrite Hnp1 in Hp. destruct (vm_refs _ _ _ _ _ (ba_ok _ Hbase) p Hp) as [_ Hb].
      rewrite (Hrefs p Hp). split; [exact Hb|]. rewrite Hr1, (ch_refs _ _ _ _ _ _ Hch p Hp), uses_None. lia.
  - split.
    + eapply mm_only_trans; [apply Hch|]. eapply mm_only_trans; [exact Hmm1|]. eapply mm_only_trans; [by apply mm_only_pages|]. by split.
    + intros s Hs. change (content pd k3 s) with (content pd k2 s). rewrite (pages_content k1 k2) by done. by apply Hc1.
    + done.
    + eapply reserved_kept_trans; [apply Hch|]. eapply reserved_kept_trans; [exact Hres1|]. apply reserved_kept_words.
      intros pa. change (word k3 pa) with (word k2 pa). by apply pages_only_word.
    + change (k_tlb k3) with (k_tlb k2). destruct Hp2 as [-> _]. cbn. rewrite Htl1. apply Hch.
Qed.

Definition page_check_message : list Z := bytes "page_check() succeeded!" ++ [10].

Lemma page_check_run k rest :
  vm_ok pd (fun _ => 0) res k (p0 :: p1 :: p2 :: rest) -> k_pgdir k = pgdir_of pd -> dir pd k 0 = 0 -> dir pd k 1 = 0 ->
  wp page_check (fun _ k' => exists k1, k' = set_out (k_out k ++ page_check_message) k1 /\
    vm_ok pd (fun _ => 0) res k1 (p2 :: p1 :: p0 :: rest) /\ restored k k1) k.
Proof using Type.
  intros Hok Hpd Hd0 Hd1. unfold page_check. wp_go. eapply wp_page_check_steal; [exact Hok|done..|].
  intros k0 Hbase Haside Hp0 Hr0. assert (Hrs0 : restored k k0) by (by apply restored_pages).
  assert (Hfree : forall q, q ∈ rest -> ref_of k0 q = 0 /\ (q ∉ res) /\ q ∉ W).
  { intros q Hq. destruct (vm_free _ _ _ _ _ Hok q) as [H0 Hres]; [set_solver|]. rewrite Hr0. split_and!; [done|done|].
    destruct (vm_list _ _ _ _ _ Hok) as (_ & _ & Hnd). apply (NoDup_app W rest) in Hnd as (_ & Hd & _). intros Hw. by apply (Hd q). }
  assert (Hnp0 : k_npages k0 = k_npages k) by (apply mm_only_npages, Hrs0).
  cbv beta iota. wp_go. apply (wp_page_check_map _ Hbase). intros k1 Hch1. wp_go. apply (wp_page_check_unmap _ Hbase _ _ Hch1). intros k2 Hch2. wp_go.
  eapply wp_check_pde0; [exact Hbase|exact Hch2|set_solver|]. apply wp_bind, wp_gets. rewrite (checking_pgdir _ Hbase _ _ _ _ _ Hch2).
  eapply wp_give_list; [exact Hbase|exact Haside|exact Hfree|exact Hch2|]. intros k3 Hok3 Hrs3. wp_go.
  assert (Hnp3 : k_npages k3 = k_npages k0) by (apply mm_only_npages, Hrs3).
  assert (Hpage : forall p, p ∈ W -> Z.of_nat p < k_npages k3 /\ (p ∉ res) /\ ref_of k3 p = 0 /\ (p ∉ rest)).
  { intros p Hp. destruct (ba_pages _ Hbase p Hp) as (Hlt & Hres & H0). rewrite Hnp3, (rs_refs _ _ Hrs3 p Hlt). split_and!; [done..|].
    intros Hq. by destruct (Hfree p Hq) as (_ & _ & []). }
  destruct (pages_differ _ Hbase) as (H01 & H02 & H12).
  destruct (Hpage p0) as (A0 & B0 & C0 & D0), (Hpage p1) as (A1 & B1 & C1 & D1), (Hpage p2) as (A2 & B2 & C2 & D2); [set_solver..|].
  eapply wp_give; [exact Hok3|done..|]. intros k4 Hok4 Hp4 Hr4. wp_go.
  eapply wp_give; [exact Hok4|set_solver|by destruct Hp4 as [-> _]|done|by rewrite Hr4|]. intros k5 Hok5 Hp5 Hr5. wp_go.
  assert (Hp45 : pages_only k3 k5) by (by eapply pages_only_trans).
  eapply wp_give; [exact Hok5|set_solver|by destruct Hp45 as [-> _]|done|by rewrite Hr5, Hr4|]. intros k6 Hok6 Hp6 Hr6. wp_go.
  assert (Hrs : restored k k6).
  { eapply restored_trans; [exact Hrs0|]. eapply restored_trans; [exact Hrs3|]. apply restored_pages; [by eapply pages_only_trans|].
    intros q. by rewrite Hr6, Hr5, Hr4. }
  apply wp_kprint; [reflexivity|]. wp_go. exists k6. split_and!; [|done|done].
  assert (k_out k6 = k_out k) as ->; [|done]. by rewrite (proj1 (rs_mm _ _ Hrs)).
Qed.
End page_check.

(** C11: From every state in which the invariant of the address space holds, three
    pages are free and nothing is mapped in the first 8MB, [page_check] returns:
    none of its 41 assertions fails.  Afterwards the address space, the reference
    counts, the kernel's pages and the free pages are as before, the invariant
    holds, and the message has been printed. *)
Theorem page_check_succeeds pd res k p0 p1 p2 rest :
  vm_ok pd (fun _ => 0) res k (p0 :: p1 :: p2 :: rest) -> k_pgdir k = pgdir_of pd -> dir pd k 0 = 0 -> dir pd k 1 = 0 ->
  wp page_check (fun _ k' => exists k1, k' = set_out (k_out k ++ page_check_message) k1 /\
    vm_ok pd (fun _ => 0) res k1 (p2 :: p1 :: p0 :: rest) /\ restored pd res k k1) k.
Proof. apply page_check_run. Qed.

(** Six pages: the directory and five free ones. *)
Definition check_ex : kernel :=
  Kernel 6 6 (pgdir_of 0)
    (zero_page :: MkPage (Entry (Some 2%nat) (Some PHead)) 0 ::
     ((fun i => MkPage (Entry (if (i =? 5)%nat then None else Some (S i)) (Some (PNext (i - 1)))) 0) <$> [2; 3; 4; 5]%nat))
    0 (Some 1%nat) 0 ∅ (fun _ => 0) ∅ 0 0 (Io [] []) [] [].

Lemma page_check_succeeds_witness :
  wp page_check (fun _ k' => k_out k' = page_check_message /\ k_free k' = Some 3%nat) check_ex.
Proof.
  eapply wp_mono; [apply (page_check_succeeds 0 [0%nat] check_ex 1 2 3 [4; 5]%nat); [|done|done|done]|].
  - apply vm_ok_empty; [done|done|set_solver|done| |set_solver| |done].
    + repeat split; try reflexivity. repeat constructor; set_solver.
    + intros p. do 6 (destruct p as [|p]; [done|]). done.
  - intros [] k' (k1 & -> & Hok & _). split; [done|]. by destruct (vm_list _ _ _ _ _ Hok) as [? _].
Defined.
