(* ===== verification/MemStart.v ===== *)
(** * MemStart: memory management from power-on to page_insert (kern/init.c)

    The three calls of [i386_init] that start memory management, one after the
    other.  What each leaves is what the next needs, and in the end the invariant
    [vm_ok] holds, from which the theorems of Pgdir.v take over. *)

From S2P Require Import Prelude Layout Printfmt FormatSpec Printf Ports Queue Kernel Pgdir BootMem BootMap PageCheck.
Open Scope Z_scope.

Section start.
Context (kend bootstack : Z).
Local Abbreviation d := (dir_page kend).

Definition mem_start : M kernel () := boot_mem_init kend bootstack;; page_init kend;; page_check.

(** The directory's page, as an index into [pages]. *)
Definition dir_index : nat := Z.to_nat d.

(** The kernel's part of the address space lies in the directory above UTOP and in
    the page tables, which are reserved pages. *)
Lemma kernel_space_kept F f k k' :
  dir_ok d k f -> f <= F -> 0 <= d -> kernel_space bootstack d k ->
  reserved_kept dir_index (seq 0 (Z.to_nat F)) k k' -> (forall n, 0 <= n < NUSER -> pde d k' n = pde d k n) ->
  kernel_space bootstack d k'.
Proof using Type.
  intros Hok HF Hd [H1 H2 H3 H4] Hkept Hlow. destruct (bo_pages _ _ _ Hok) as (? & ? & ?).
  assert (Hpde : forall n, 0 <= n < 1024 -> pde d k' n = pde d k n).
  { intros n Hn. destruct (Z.lt_ge_cases n NUSER); [apply Hlow; lia|]. unfold pde.
    specialize (Hkept dir_index n). unfold dir_index in Hkept. rewrite Z2Nat.id in Hkept by lia. apply Hkept; [|lia|by right].
    apply elem_of_seq. lia. }
  assert (Hpte : forall la, PDX la <> vpt_slot -> pte d k la <> None -> pte d k' la = pte d k la).
  { intros la Hv. unfold pte, present, table. rewrite Hpde by apply PDX_range.
    destruct (Z.testbit (pde d k (PDX la)) 0) eqn:Hp; [|done]. intros _. f_equal.
    pose proof (bo_tables _ _ _ Hok (PDX la) (PDX_range la) Hv Hp) as Ht. unfold table in Ht.
    specialize (Hkept (Z.to_nat (PGNUM (pde d k (PDX la)))) (PTX la)). unfold dir_index in Hkept. rewrite Z2Nat.id in Hkept by lia.
    apply Hkept; [apply elem_of_seq; lia|apply PTX_range|left; lia]. }
  split.
  - intros i Hi Hm. rewrite Hpte; [by apply H1| |by rewrite H1].
    rewrite PDX_div. unfold KERNBASE. rewrite u32_small by lia. change vpt_slot with 959. divmod.
  - intros i Hi Hm. rewrite Hpte; [by apply H2| |by rewrite H2].
    rewrite PDX_div. change (KSTACKTOP - KSTKSIZE) with 4022304768. unfold KSTKSIZE, PGSIZE in *. rewrite u32_small by lia.
    change vpt_slot with 959. divmod.
  - rewrite Hpde; [done|by split].
  - intros n Hn Hv Hs. rewrite Hpde by (unfold KERNBASE in Hn; change (PDX 4026531840) with 960 in Hn; lia). by apply H4.
Qed.

(** The page directory is [pgdir_of dir_index], and its entries below UTOP. *)
Lemma dir_pde k n : 0 <= d -> dir dir_index k n = pde d k n.
Proof using Type. intros Hd. unfold dir, dir_addr, pde, dir_index. by rewrite Z2Nat.id. Qed.

(** What is true when memory management has started.  [F] is the first page that is
    free; everything before it - the kernel, the directory, its tables, the array of
    pages - is reserved. *)
Record started (k : kernel) (F : Z) (l : list nat) : Prop := Started {
  sd_vm : vm_ok dir_index (fun _ => 0) (seq 0 (Z.to_nat F)) k l;
  sd_tlb : k_tlb k = ∅;
  sd_free : l ≡ₚ seq (Z.to_nat F) (Z.to_nat (k_npages k - F));
  sd_user : forall n, 0 <= n < NUSER -> dir dir_index k n = 0;
  sd_space : kernel_space bootstack d k;
  sd_cr3 : k_cr3 k = d * PGSIZE;
  sd_paging : Z.testbit (k_cr0 k) 0 = true /\ Z.testbit (k_cr0 k) 31 = true;
}.

Lemma page_init_started k k1 k2 np f :
  0 <= d -> booted kend bootstack k k1 np f -> d + 118 <= np <= 16640 ->
  let F := next_page k1 - KERNBASE / 4096 in
  init_only k1 k2 -> is_list k2 (rev (seq (Z.to_nat F) (Z.to_nat (np - F)))) ->
  (forall p, Z.of_nat p < np -> ref_of k2 p = 0) ->
  f <= F <= f + 49 /\ F + 3 <= np /\ started k2 F (rev (seq (Z.to_nat F) (Z.to_nat (np - F)))).
Proof using Type.
  intros Hd [Hdir Hks Hcr3 Htlb Hcr0 Hnp Hpg Hf Hva Hnext _] Hroom F [Hk2 Hlen2] Hl Hr.
  assert (HF : f <= F <= f + 49) by (unfold F, next_page; rewrite Hnext; unfold KERNBASE, PGSIZE, sizeof_Page; divmod).
  split; [lia|]. split; [lia|]. assert (Hnp2 : k_npages k2 = np) by (by rewrite Hk2).
  assert (Hw : forall pa, word k2 pa = word k1 pa) by (intros pa; by rewrite Hk2).
  assert (Hdirs : forall n, 0 <= n < NUSER -> dir dir_index k2 n = 0).
  { intros n Hn. rewrite dir_pde by done. rewrite NUSER_eq in Hn. unfold pde. rewrite Hw. apply (ks_none _ _ _ Hks).
    - change (PDX KERNBASE) with 960. lia.
    - change vpt_slot with 959. lia.
    - change (PDX (KSTACKTOP - 1)) with 958. lia. }
  assert (Hlen : Z.of_nat (length (k_pages k2)) = np) by (rewrite Hlen2, Hpg, length_replicate; lia).
  split.
  - apply vm_ok_empty; [lia|lia| | |done| | |done].
    + apply elem_of_seq. unfold dir_index. lia.
    + unfold dir_index. rewrite Z2Nat.id; lia.
    + intros p. rewrite list_elem_of_In, <- in_rev, in_seq, elem_of_seq. lia.
    + intros p. destruct (Z.lt_ge_cases (Z.of_nat p) np); [by apply Hr|]. unfold ref_of. by rewrite lookup_ge_None_2 by lia.
  - by rewrite Hk2.
  - rewrite Hnp2. symmetry. apply Permutation_rev.
  - done.
  - by apply (kernel_space_ext _ _ k1).
  - by rewrite Hk2.
  - by rewrite Hk2.
Qed.

(** [page_check] keeps all of it. *)
Lemma started_checked k1 k2 k3 F f l l' out :
  started k2 F l -> dir_ok d k1 f -> f <= F -> 0 <= d -> kernel_space bootstack d k1 -> (forall pa, word k2 pa = word k1 pa) ->
  restored dir_index (seq 0 (Z.to_nat F)) k2 k3 -> vm_ok dir_index (fun _ => 0) (seq 0 (Z.to_nat F)) k3 l' -> l' ≡ₚ l ->
  started (set_out out k3) F l'.
Proof using Type.
  intros [Hvm Htlb Hfree Huser Hks2 Hcr3 Hpg] Hdir HF Hd Hks Hw [Hmm Hc _ Hkept Ht] Hok3 Hp.
  assert (Hnp : k_npages k3 = k_npages k2) by (by apply mm_only_npages).
  assert (Hdirs : forall n, 0 <= n < NUSER -> dir dir_index k3 n = 0).
  { intros n Hn. change (dir dir_index k3 n) with (content dir_index k3 (SDir n)). rewrite Hc by (by apply slots_dir). by apply Huser. }
  split.
  - eapply (vm_same dir_index (fun _ => 0)); [exact Hok3|done|done| | |done|].
    + apply (is_list_same k3); [done|done|apply Hok3].
    + apply (vm_free _ _ _ _ _ Hok3).
    + intros p Hlt. split; [apply (vm_refs _ _ _ _ _ Hok3 p Hlt)|done].
  - change (k_tlb k3 = ∅). rewrite Htlb in Ht. apply (anti_symm (⊆)); [done|apply map_empty_subseteq].
  - change (l' ≡ₚ seq (Z.to_nat F) (Z.to_nat (k_npages k3 - F))). by rewrite Hnp, Hp.
  - done.
  - apply (kernel_space_kept F f k1); [done|done|done|done| |].
    + intros p j Hin Hj Hor. change (word (set_out out k3)) with (word k3). rewrite Hkept by done. apply Hw.
    + intros n Hn. rewrite <- (dir_pde k1), <- dir_pde by done. change (dir dir_index (set_out out k3) n) with (dir dir_index k3 n).
      rewrite Hdirs by done. unfold dir. rewrite <- Hw. symmetry. by apply Huser.
  - change (k_cr3 k3 = d * PGSIZE). by rewrite (proj1 Hmm).
  - change (Z.testbit (k_cr0 k3) 0 = true /\ Z.testbit (k_cr0 k3) 31 = true). by rewrite (proj1 Hmm).
Qed.

(** ** The three calls *)

Context (Hkend : KERNBASE + EXTPHYSMEM <= kend) (Hstack : KERNBASE <= bootstack).
Context (Hstack_end : bootstack + KSTKSIZE <= 2 ^ 32) (Hstack_page : bootstack mod PGSIZE = 0).

Lemma mem_start_run k b0 b1 e0 e1 rest :
  io_in (k_io k) = b0 :: b1 :: e0 :: e1 :: rest -> k_nextfree k = 0 ->
  let np := detected_pages (nvram_word b0 b1) (nvram_word e0 e1) in
  d + 118 <= np ->
  wp mem_start (fun _ k' => exists F l, d < F <= d + 115 /\ started k' F l /\ k_npages k' = np /\
    (exists out, k_out k' = out ++ page_check_message)) k.
Proof using All.
  intros Hin Hnf np Hroom. assert (Hnp : 0 <= np <= 16640) by (apply detected_range; apply nvram_word_range).
  assert (Hd : 256 <= d) by (unfold dir_page, KERNBASE, EXTPHYSMEM in *; divmod).
  assert (Hk : KERNBASE <= kend) by (unfold EXTPHYSMEM in *; lia).
  unfold mem_start. wp_go. eapply (wp_boot_mem_init kend bootstack Hk); [done..|unfold pages_fit, PGSIZE, sizeof_Page; lia|]. fold np. intros k1 f Hbt. wp_go.
  pose proof Hbt as [Hdir Hks _ _ _ Hnp1 Hpg1 Hf _ Hnext _].
  eapply wp_mono; [apply page_init_run|].
  { rewrite Hpg1, length_replicate. lia. } { lia. }
  { rewrite Hnext. unfold KERNBASE, EXTPHYSMEM, PGSIZE, sizeof_Page in *. lia. }
  intros [] k2 (Hl2 & Hr2 & Hio2 & _). rewrite Hnp1 in *. set (F := next_page k1 - KERNBASE / 4096) in *.
  destruct (page_init_started k k1 k2 np f ltac:(lia) Hbt ltac:(lia) Hio2 Hl2 Hr2) as (HfF & HF & Hst). fold F in HfF, HF, Hst.
  destruct (rev (seq (Z.to_nat F) (Z.to_nat (np - F)))) as [|p0 [|p1 [|p2 tl]]] eqn:El;
    try (apply (f_equal length) in El; rewrite length_rev, length_seq in El; cbn in El; lia).
  assert (Hg2 : k_pgdir k2 = pgdir_of dir_index).
  { rewrite (proj1 Hio2). cbn. rewrite (bo_pgdir _ _ _ Hdir). unfold pgdir_of, dir_index. by rewrite Z2Nat.id by lia. }
  eapply wp_mono; [apply (page_check_run dir_index (seq 0 (Z.to_nat F)) p0 p1 p2 k2 tl);
    [apply Hst|done|apply (sd_user _ _ _ Hst); by rewrite NUSER_eq..]|].
  intros [] k' (k3 & -> & Hok3 & Hrs). exists F, (p2 :: p1 :: p0 :: tl). split; [lia|]. split.
  - eapply started_checked; [exact Hst|exact Hdir|apply HfF|lia|exact Hks| |exact Hrs|exact Hok3|].
    + intros pa. by rewrite (proj1 Hio2).
    + apply Permutation_sym. etrans; [apply perm_swap|]. etrans; [apply perm_skip, perm_swap|apply perm_swap].
  - split; [|by eexists]. change (k_npages k3 = np). by rewrite (mm_only_npages _ _ (rs_mm _ _ _ _ Hrs)), (proj1 Hio2).
Qed.

(** C3: On a machine whose NVRAM reports [np] pages, at least 118 more than the kernel
    takes, the three calls return: no assertion of [boot_mem_check] or
    [page_check] fails.  Then paging is on with the kernel's address space, no user
    page is mapped, the TLB is clean, the free list holds exactly the pages from [F]
    to the end of memory, and the invariant [vm_ok] of [page_insert] and
    [page_remove] holds with everything before [F] reserved. *)
Theorem mem_start_correct k b0 b1 e0 e1 rest :
  io_in (k_io k) = b0 :: b1 :: e0 :: e1 :: rest -> k_nextfree k = 0 ->
  let np := detected_pages (nvram_word b0 b1) (nvram_word e0 e1) in
  d + 118 <= np ->
  wp mem_start (fun _ k' => exists F l, d < F <= d + 115 /\
    vm_ok dir_index (fun _ => 0) (seq 0 (Z.to_nat F)) k' l /\ l ≡ₚ seq (Z.to_nat F) (Z.to_nat (np - F)) /\
    (forall n, 0 <= n < NUSER * 1024 -> mapping dir_index k' n = None) /\ tlb_ok dir_index k' /\
    (forall x, 0 <= x < 2 ^ 28 -> translate d k' (KERNBASE + x) = Some x) /\
    (forall x, 0 <= x < KSTKSIZE -> translate d k' (KSTACKTOP - KSTKSIZE + x) = Some (bootstack - KERNBASE + x)) /\
    k_cr3 k' = d * PGSIZE /\ Z.testbit (k_cr0 k') 31 = true) k.
Proof using All.
  intros Hin Hnf np Hroom. eapply wp_mono; [by eapply mem_start_run|].
  intros [] k' (F & l & HF & [Hvm Htlb Hfree Huser Hks Hcr3 [_ Hpg]] & Hnp & _). exists F, l. rewrite Hnp in Hfree.
  split_and!; [lia|lia|done|done| | |by apply (translate_phys bootstack)|intros; by apply (translate_stack bootstack)|done|done].
  - intros n Hn. apply mapping_None. cbn [content]. by rewrite Huser by divmod.
  - intros n e _ He. by rewrite Htlb in He.
Qed.
End start.

(** The machine of 16MB of BootMap.v, with a kernel that ends just behind 1MB. *)
Lemma mem_start_correct_witness :
  wp (mem_start (KERNBASE + 0x100004) (KERNBASE + 0x110000)) (fun _ k' =>
    mapping 257 k' 0 = None /\ translate 257 k' (KERNBASE + 0x12345) = Some 0x12345) dirty_ex.
Proof.
  eapply wp_mono; [apply (mem_start_correct (KERNBASE + 0x100004) (KERNBASE + 0x110000)) with (b0 := 0x80) (b1 := 0x02) (e0 := 0x00) (e1 := 0x3C) (rest := [])|].
  - discriminate.
  - discriminate.
  - discriminate.
  - reflexivity.
  - reflexivity.
  - reflexivity.
  - vm_compute. discriminate.
  - intros _ k' (F & l & _ & _ & _ & Hm & _ & Ht & _). change (dir_page (KERNBASE + 0x100004)) with 257 in *.
    change (dir_index (KERNBASE + 0x100004)) with 257%nat in *.
    split; [apply Hm; rewrite NUSER_eq; lia|apply Ht; split; [discriminate|reflexivity]].
Defined.
