(* ===== verification/Segment.v ===== *)
(** * Segment: descriptors and gates (inc/mmu.h part 2 and 3, inc/desc.h)

    A C structure of bit-fields is a record; [pack] lays a list of fields out
    from the lowest bit, as the compiler does, and gives the 64-bit number the
    processor reads. *)

From S2P Require Import Prelude Layout.
Open Scope Z_scope.

(** ** Bit-fields *)

(** Fields as (width, value) pairs; a value is truncated to its width. *)
Fixpoint pack (fs : list (Z * Z)) : Z :=
  match fs with
  | [] => 0
  | (w, v) :: fs' => v mod 2 ^ w + 2 ^ w * pack fs'
  end.

Fixpoint unpack (ws : list Z) (x : Z) : list Z :=
  match ws with
  | [] => []
  | w :: ws' => x mod 2 ^ w :: unpack ws' (x / 2 ^ w)
  end.

Lemma unpack_pack fs :
  Forall (fun f => 0 <= f.1) fs -> unpack (fs.*1) (pack fs) = (fun f => f.2 mod 2 ^ f.1) <$> fs.
Proof.
  induction 1 as [|[w v] fs Hw Hfs IH]; [done|]. cbn [fmap list_fmap pack unpack fst snd] in *.
  assert (0 < 2 ^ w) by (apply Z.pow_pos_nonneg; lia).
  pose proof (Z.mod_pos_bound v (2 ^ w) ltac:(lia)).
  rewrite (Z.mul_comm (2 ^ w)), Z.mod_add, Z.div_add, Z.mod_mod, Z.div_small by lia.
  by rewrite Z.add_0_l, <- IH.
Qed.

(** The number that bytes in memory are, lowest first. *)
Definition le (l : list Z) : Z := foldr (fun c r => c + 256 * r) 0 l.

(** ** Segment descriptors *)

Record Segdesc : Type := MkSegdesc {
  sd_lim_15_0 : Z; sd_base_15_0 : Z; sd_base_23_16 : Z; sd_type : Z; sd_s : Z; sd_dpl : Z; sd_p : Z;
  sd_lim_19_16 : Z; sd_avl : Z; sd_rsv1 : Z; sd_db : Z; sd_g : Z; sd_base_31_24 : Z;
}.

Definition segdesc_widths : list Z := [16; 16; 8; 4; 1; 2; 1; 4; 1; 1; 1; 1; 8].
Definition segdesc_fields (d : Segdesc) : list Z :=
  [sd_lim_15_0 d; sd_base_15_0 d; sd_base_23_16 d; sd_type d; sd_s d; sd_dpl d; sd_p d;
   sd_lim_19_16 d; sd_avl d; sd_rsv1 d; sd_db d; sd_g d; sd_base_31_24 d].
Definition segdesc_encode (d : Segdesc) : Z := pack (zip segdesc_widths (segdesc_fields d)).
(** The eight bytes read back as a [struct segdesc]. *)
Definition segdesc_decode (x : Z) : Segdesc :=
  match unpack segdesc_widths x with
  | [a; b; c; d; e; f; g; h; i; j; k; l; m] => MkSegdesc a b c d e f g h i j k l m
  | _ => MkSegdesc 0 0 0 0 0 0 0 0 0 0 0 0 0
  end.

Definition SEG_NULL : Segdesc := MkSegdesc 0 0 0 0 0 0 0 0 0 0 0 0 0.
Definition SEG_FAULT : Segdesc := MkSegdesc 0 0 0 0 1 0 1 0 0 0 1 0 0.
Definition SEG (type base lim dpl : Z) : Segdesc :=
  MkSegdesc (Z.land (Z.shiftr lim 12) 0xffff) (Z.land base 0xffff) (Z.land (Z.shiftr base 16) 0xff)
    type 1 dpl 1 (Z.shiftr (u32 lim) 28) 0 0 1 1 (Z.shiftr (u32 base) 24).
Definition SEG16 (type base lim dpl : Z) : Segdesc :=
  MkSegdesc (Z.land lim 0xffff) (Z.land base 0xffff) (Z.land (Z.shiftr base 16) 0xff)
    type 1 dpl 1 (Z.shiftr (u32 lim) 16) 0 0 1 0 (Z.shiftr (u32 base) 24).

(** SEGDESC_BASE of inc/desc.h *)
Definition SEGDESC_BASE (d : Segdesc) : Z :=
  u32 (Z.lor (Z.lor (Z.shiftl (sd_base_31_24 d) 24) (Z.shiftl (sd_base_23_16 d) 16)) (sd_base_15_0 d)).

(** The limit the processor uses: in bytes, or in 4K units when G is set. *)
Definition segment_limit (d : Segdesc) : Z :=
  let lim := sd_lim_15_0 d + 2 ^ 16 * sd_lim_19_16 d in
  if sd_g d =? 0 then lim else lim * 4096 + 4095.

(** inc/mmu.h: segment types *)
Definition STA_X : Z := 0x8.
Definition STA_W : Z := 0x2.
Definition STA_R : Z := 0x2.
Definition STS_T32A : Z := 0x9.
Definition STS_CG32 : Z := 0xC.
Definition STS_IG32 : Z := 0xE.
Definition STS_TG32 : Z := 0xF.

(** ** Gates *)

Record Gatedesc : Type := MkGatedesc {
  gd_off_15_0 : Z; gd_ss : Z; gd_args : Z; gd_rsv1 : Z; gd_type : Z; gd_s : Z; gd_dpl : Z; gd_p : Z;
  gd_off_31_16 : Z;
}.

Definition gate_widths : list Z := [16; 16; 5; 3; 4; 1; 2; 1; 16].
Definition gate_fields (g : Gatedesc) : list Z :=
  [gd_off_15_0 g; gd_ss g; gd_args g; gd_rsv1 g; gd_type g; gd_s g; gd_dpl g; gd_p g; gd_off_31_16 g].
Definition gate_encode (g : Gatedesc) : Z := pack (zip gate_widths (gate_fields g)).
Definition gate_decode (x : Z) : Gatedesc :=
  match unpack gate_widths x with
  | [a; b; c; d; e; f; g; h; i] => MkGatedesc a b c d e f g h i
  | _ => MkGatedesc 0 0 0 0 0 0 0 0 0
  end.

Definition SETGATE (istrap sel off dpl : Z) : Gatedesc :=
  MkGatedesc (Z.land (u32 off) 0xffff) sel 0 0 (if istrap =? 0 then STS_IG32 else STS_TG32) 0 dpl 1
    (Z.shiftr (u32 off) 16).
Definition SETCALLGATE (ss off dpl : Z) : Gatedesc :=
  MkGatedesc (Z.land (u32 off) 0xffff) ss 0 0 STS_CG32 0 dpl 1 (Z.shiftr (u32 off) 16).

(** The address the processor jumps to through a gate. *)
Definition gate_offset (g : Gatedesc) : Z := gd_off_15_0 g + 2 ^ 16 * gd_off_31_16 g.

(** ** Properties *)

Lemma segdesc_decode_encode d :
  segdesc_decode (segdesc_encode d) =
  MkSegdesc (sd_lim_15_0 d mod 2 ^ 16) (sd_base_15_0 d mod 2 ^ 16) (sd_base_23_16 d mod 2 ^ 8) (sd_type d mod 2 ^ 4)
    (sd_s d mod 2 ^ 1) (sd_dpl d mod 2 ^ 2) (sd_p d mod 2 ^ 1) (sd_lim_19_16 d mod 2 ^ 4) (sd_avl d mod 2 ^ 1)
    (sd_rsv1 d mod 2 ^ 1) (sd_db d mod 2 ^ 1) (sd_g d mod 2 ^ 1) (sd_base_31_24 d mod 2 ^ 8).
Proof.
  unfold segdesc_decode, segdesc_encode.
  pose proof (unpack_pack (zip segdesc_widths (segdesc_fields d))) as H.
  change ((zip segdesc_widths (segdesc_fields d)).*1) with segdesc_widths in H.
  rewrite H by (repeat constructor; cbn; lia). reflexivity.
Qed.

Lemma gate_decode_encode g :
  gate_decode (gate_encode g) =
  MkGatedesc (gd_off_15_0 g mod 2 ^ 16) (gd_ss g mod 2 ^ 16) (gd_args g mod 2 ^ 5) (gd_rsv1 g mod 2 ^ 3)
    (gd_type g mod 2 ^ 4) (gd_s g mod 2 ^ 1) (gd_dpl g mod 2 ^ 2) (gd_p g mod 2 ^ 1) (gd_off_31_16 g mod 2 ^ 16).
Proof.
  unfold gate_decode, gate_encode.
  pose proof (unpack_pack (zip gate_widths (gate_fields g))) as H.
  change ((zip gate_widths (gate_fields g)).*1) with gate_widths in H.
  rewrite H by (repeat constructor; cbn; lia). reflexivity.
Qed.

(** The three parts of a base address. *)
Lemma base_parts b : 0 <= b < 2 ^ 32 ->
  u32 (Z.lor (Z.lor (Z.shiftl (Z.shiftr b 24 mod 2 ^ 8) 24) (Z.shiftl (Z.land (Z.shiftr b 16) 0xff mod 2 ^ 8) 16))
         (Z.land b 0xffff mod 2 ^ 16)) = b.
Proof.
  intros Hb. change 0xff with (2 ^ 8 - 1). change 0xffff with (2 ^ 16 - 1).
  rewrite !land_ones_mod, !Z.shiftl_mul_pow2, !Z.shiftr_div_pow2 by lia.
  rewrite (lor_low_add _ (b / 2 ^ 16 mod 2 ^ 8 mod 2 ^ 8 * 2 ^ 16) 24) by (lia || divmod).
  rewrite (lor_low_add _ (b mod 2 ^ 16 mod 2 ^ 16) 16) by (lia || divmod).
  divmod.
Qed.

(** C34: A descriptor built by [SEG] or [SEG16] and read back from memory has the
    base, privilege and type it was given; its limit is the one asked for, for
    [SEG] rounded up to the end of a 4K unit. *)
Theorem segment_roundtrip type base lim dpl :
  0 <= type < 16 -> 0 <= base < 2 ^ 32 -> 0 <= dpl < 4 ->
  (0 <= lim < 2 ^ 32 ->
     let d := segdesc_decode (segdesc_encode (SEG type base lim dpl)) in
     SEGDESC_BASE d = base /\ segment_limit d = lim / 4096 * 4096 + 4095 /\
     sd_type d = type /\ sd_dpl d = dpl /\ sd_p d = 1 /\ sd_db d = 1) /\
  (0 <= lim < 2 ^ 20 ->
     let d := segdesc_decode (segdesc_encode (SEG16 type base lim dpl)) in
     SEGDESC_BASE d = base /\ segment_limit d = lim /\ sd_type d = type /\ sd_dpl d = dpl /\ sd_p d = 1).
Proof.
  intros Ht Hb Hd. split; intros Hl d; subst d; rewrite segdesc_decode_encode; assert (0 <= lim < 2 ^ 32) by lia;
    unfold SEGDESC_BASE, segment_limit, SEG, SEG16; cbn [sd_lim_15_0 sd_base_15_0 sd_base_23_16 sd_type sd_s sd_dpl sd_p
      sd_lim_19_16 sd_avl sd_rsv1 sd_db sd_g sd_base_31_24]; rewrite (u32_small base), (u32_small lim) by lia;
    rewrite base_parts by lia; change 0xffff with (2 ^ 16 - 1); rewrite land_ones_mod, !Z.shiftr_div_pow2 by lia.
  - change (1 mod 2 ^ 1 =? 0) with false. cbv iota. split_and!; try done; try (apply Z.mod_small; lia).
    clear -Hl. divmod.
  - change (0 mod 2 ^ 1 =? 0) with true. cbv iota. split_and!; try done; try (apply Z.mod_small; lia).
    clear -Hl. divmod.
Qed.

Lemma segment_roundtrip_witness :
  SEGDESC_BASE (segdesc_decode (segdesc_encode (SEG (STA_X + STA_R) 0xF0001000 0xffffffff 3))) = 0xF0001000.
Proof.
  destruct (segment_roundtrip (STA_X + STA_R) 0xF0001000 0xffffffff 3) as [H _];
    [unfold STA_X, STA_R; lia | lia | lia |]. apply H. lia.
Defined.
