(* ===== verification/Structs.v ===== *)
(** * Structs: the layout of the structures that the hardware and the loader read

    inc/desc.h, the structures of inc/elf.h, and those of inc/mmu.h that are not
    descriptors.  inc/desc.h, which the virtual-machine monitor uses, and
    inc/mmu.h, which the kernel uses, describe the same tables of the processor
    by different structures. *)

From S2P Require Import Prelude Layout Segment.
Open Scope Z_scope.
Local Open Scope string_scope.

(** ** Layouts

    A packed structure as the names of its fields with their widths in bits, in
    the order of the declaration. *)

Definition layout : Type := list (string * Z).

Definition sizeof (l : layout) : Z := foldr (fun f n => f.2 + n) 0 l / 8.

(** The bit a field starts at. *)
Fixpoint position (l : layout) (f : string) : option Z :=
  match l with
  | [] => None
  | (g, w) :: l' => if String.eqb f g then Some 0 else (fun n => w + n) <$> position l' f
  end.
Definition offsetof (l : layout) (f : string) : option Z := (fun n => n / 8) <$> position l f.

(** The structure held in the number [x]; the value of one of its fields. *)
Fixpoint fields (l : layout) (x : Z) : list (string * Z) :=
  match l with
  | [] => []
  | (f, w) :: l' => (f, x mod 2 ^ w) :: fields l' (x / 2 ^ w)
  end.
Fixpoint member (l : list (string * Z)) (f : string) : Z :=
  match l with
  | [] => 0
  | (g, v) :: l' => if String.eqb f g then v else member l' f
  end.

(** ** inc/desc.h *)

Definition SEGDESC_TYPE_RDONLY_DATA : Z := 0x0.
Definition SEGDESC_TYPE_RDONLY_DATA_A : Z := 0x1.
Definition SEGDESC_TYPE_RDWR_DATA : Z := 0x2.
Definition SEGDESC_TYPE_RDWR_DATA_A : Z := 0x3.
Definition SEGDESC_TYPE_RDONLY_EXPANDDOWN_DATA : Z := 0x4.
Definition SEGDESC_TYPE_RDONLY_EXPANDDOWN_DATA_A : Z := 0x5.
Definition SEGDESC_TYPE_RDWR_EXPANDDOWN_DATA : Z := 0x6.
Definition SEGDESC_TYPE_RDWR_EXPANDDOWN_DATA_A : Z := 0x7.
Definition SEGDESC_TYPE_EXECONLY_CODE : Z := 0x8.
Definition SEGDESC_TYPE_EXECONLY_CODE_A : Z := 0x9.
Definition SEGDESC_TYPE_EXECREAD_CODE : Z := 0xA.
Definition SEGDESC_TYPE_EXECREAD_CODE_A : Z := 0xB.
Definition SEGDESC_TYPE_EXECONLY_CONFORMING_CODE : Z := 0xC.
Definition SEGDESC_TYPE_EXECONLY_CONFORMING_CODE_A : Z := 0xD.
Definition SEGDESC_TYPE_EXECREAD_CONFORMING_CODE : Z := 0xE.
Definition SEGDESC_TYPE_EXECREAD_CONFORMING_CODE_A : Z := 0xF.
Definition SEGDESC_TYPE_16BIT_TSS_AVAILABLE : Z := 0x1.
Definition SEGDESC_TYPE_LDT : Z := 0x2.
Definition SEGDESC_TYPE_16BIT_TSS_BUSY : Z := 0x3.
Definition SEGDESC_TYPE_16BIT_CALLGATE : Z := 0x4.
Definition SEGDESC_TYPE_TASKGATE : Z := 0x5.
Definition SEGDESC_TYPE_16BIT_INTRGATE : Z := 0x6.
Definition SEGDESC_TYPE_16BIT_TRAPGATE : Z := 0x7.
Definition SEGDESC_TYPE_32BIT_TSS_AVAILABLE : Z := 0x9.
Definition SEGDESC_TYPE_32BIT_TSS_BUSY : Z := 0xB.
Definition SEGDESC_TYPE_32BIT_CALLGATE : Z := 0xC.
Definition SEGDESC_TYPE_32BIT_INTRGATE : Z := 0xE.
Definition SEGDESC_TYPE_32BIT_TRAPGATE : Z := 0xF.
Definition SEGDESC_TYPE_64BIT_TSS_AVAILABLE : Z := 0x9.
Definition SEGDESC_TYPE_64BIT_TSS_BUSY : Z := 0xB.
Definition SEGDESC_TYPE_64BIT_CALLGATE : Z := 0xC.
Definition SEGDESC_TYPE_64BIT_INTRGATE : Z := 0xE.
Definition SEGDESC_TYPE_64BIT_TRAPGATE : Z := 0xF.

Definition SEGDESC_S_SYSTEM_SEGMENT : Z := 0.
Definition SEGDESC_S_CODE_OR_DATA_SEGMENT : Z := 1.

Definition SEGDESC_L_16_OR_32 : Z := 0.
Definition SEGDESC_L_64 : Z := 1.

Definition SEGDESC_D_B_16 : Z := 0.
Definition SEGDESC_D_B_32 : Z := 1.
Definition SEGDESC_D_B_64 : Z := 0.

Definition GATEDESC_TYPE_16BIT_CALL : Z := 0x4.
Definition GATEDESC_TYPE_TASK : Z := 0x5.
Definition GATEDESC_TYPE_16BIT_INTR : Z := 0x6.
Definition GATEDESC_TYPE_16BIT_TRAP : Z := 0x7.
Definition GATEDESC_TYPE_32BIT_CALL : Z := 0xC.
Definition GATEDESC_TYPE_32BIT_INTR : Z := 0xE.
Definition GATEDESC_TYPE_32BIT_TRAP : Z := 0xF.
Definition GATEDESC_TYPE_64BIT_CALL : Z := 0xC.
Definition GATEDESC_TYPE_64BIT_INTR : Z := 0xE.
Definition GATEDESC_TYPE_64BIT_TRAP : Z := 0xF.

Definition segdesc : layout :=
  [("limit_15_0", 16); ("base_15_0", 16); ("base_23_16", 8); ("type", 4); ("s", 1); ("dpl", 2); ("p", 1);
   ("limit_19_16", 4); ("avl", 1); ("l", 1); ("d_b", 1); ("g", 1); ("base_31_24", 8)].
Definition syssegdesc64 : layout :=
  [("limit_15_0", 16); ("base_15_0", 16); ("base_23_16", 8); ("type", 4); ("zero1", 1); ("dpl", 2); ("p", 1);
   ("limit_19_16", 4); ("avl", 1); ("reserved1", 2); ("g", 1); ("base_31_24", 8); ("base_63_32", 32);
   ("reserved2", 8); ("zero2", 5); ("reserved3", 19)].
Definition gatedesc32 : layout :=
  [("offset_15_0", 16); ("sel", 16); ("param_count", 5); ("zero1", 3); ("type", 4); ("zero2", 1); ("dpl", 2);
   ("p", 1); ("offset_31_16", 16)].
Definition gatedesc64 : layout :=
  [("offset_15_0", 16); ("sel", 16); ("ist", 3); ("reserved1", 5); ("type", 4); ("zero", 1); ("dpl", 2); ("p", 1);
   ("offset_31_16", 16); ("offset_63_32", 32); ("reserved2", 32)].
Definition descreg : layout :=
  [("limit", 16); ("base", 32)].
Definition tss32 : layout :=
  [("link", 16); ("reserved1", 16); ("esp0", 32); ("ss0", 16); ("reserved2", 16); ("esp1", 32); ("ss1", 16);
   ("reserved3", 16); ("esp2", 32); ("ss2", 16); ("reserved4", 16); ("cr3", 32); ("eip", 32); ("eflags", 32);
   ("eax", 32); ("ecx", 32); ("edx", 32); ("ebx", 32); ("esp", 32); ("ebp", 32); ("esi", 32); ("edi", 32);
   ("es", 16); ("reserved5", 16); ("cs", 16); ("reserved6", 16); ("ss", 16); ("reserved7", 16); ("ds", 16);
   ("reserved8", 16); ("fs", 16); ("reserved9", 16); ("gs", 16); ("reserved10", 16); ("ldt", 16); ("reserved11", 16);
   ("t", 1); ("reserved12", 15); ("iomap", 16)].
Definition tss64 : layout :=
  [("reserved1", 32); ("rsp0", 64); ("rsp1", 64); ("rsp2", 64); ("reserved2", 64); ("ist1", 64); ("ist2", 64);
   ("ist3", 64); ("ist4", 64); ("ist5", 64); ("ist6", 64); ("ist7", 64); ("reserved3", 64); ("reserved4", 16);
   ("iomap", 16)].

(** [SEGDESC_BASE], of the descriptor at [x] *)
Definition DESC_SEGDESC_BASE (x : Z) : Z :=
  let desc := fields segdesc x in
  u32 (Z.lor (Z.lor (Z.shiftl (member desc "base_31_24") 24) (Z.shiftl (member desc "base_23_16") 16)) (member desc "base_15_0")).

(** ** inc/mmu.h *)

Definition Taskstate : layout :=
  [("ts_link", 32); ("ts_esp0", 32); ("ts_ss0", 16); ("ts_padding1", 16); ("ts_esp1", 32); ("ts_ss1", 16);
   ("ts_padding2", 16); ("ts_esp2", 32); ("ts_ss2", 16); ("ts_padding3", 16); ("ts_cr3", 32); ("ts_eip", 32);
   ("ts_eflags", 32); ("ts_eax", 32); ("ts_ecx", 32); ("ts_edx", 32); ("ts_ebx", 32); ("ts_esp", 32); ("ts_ebp", 32);
   ("ts_esi", 32); ("ts_edi", 32); ("ts_es", 16); ("ts_padding4", 16); ("ts_cs", 16); ("ts_padding5", 16);
   ("ts_ss", 16); ("ts_padding6", 16); ("ts_ds", 16); ("ts_padding7", 16); ("ts_fs", 16); ("ts_padding8", 16);
   ("ts_gs", 16); ("ts_padding9", 16); ("ts_ldt", 16); ("ts_padding10", 16); ("ts_t", 16); ("ts_iomb", 16)].
Definition Pseudodesc : layout :=
  [("pd_lim", 16); ("pd_base", 32)].

(** The assembler's SEG_NULL and SEG, which boot.S and entry.S use: two words and
    four bytes. *)
Definition word_bytes (w : Z) : list Z := [w mod 256; w / 256 mod 256].
Definition ASM_SEG_NULL : list Z := word_bytes 0 ++ word_bytes 0 ++ [0; 0; 0; 0].
Definition ASM_SEG (type base lim : Z) : list Z :=
  word_bytes (Z.land (Z.shiftr lim 12) 0xffff) ++ word_bytes (Z.land base 0xffff) ++
  [Z.land (Z.shiftr base 16) 0xff; Z.lor 0x90 type;
   Z.lor 0xC0 (Z.land (Z.shiftr lim 28) 0xf); Z.land (Z.shiftr base 24) 0xff].

(** inc/mmu.h: the other types of system segments *)
Definition STA_E : Z := 0x4.
Definition STA_C : Z := 0x4.
Definition STA_A : Z := 0x1.
Definition STS_T16A : Z := 0x1.
Definition STS_LDT : Z := 0x2.
Definition STS_T16B : Z := 0x3.
Definition STS_CG16 : Z := 0x4.
Definition STS_TG : Z := 0x5.
Definition STS_IG16 : Z := 0x6.
Definition STS_TG16 : Z := 0x7.
Definition STS_T32B : Z := 0xB.

(** ** inc/elf.h *)

Definition Elf : layout :=
  [("e_magic", 32); ("e_elf", 96); ("e_type", 16); ("e_machine", 16); ("e_version", 32); ("e_entry", 32);
   ("e_phoff", 32); ("e_shoff", 32); ("e_flags", 32); ("e_ehsize", 16); ("e_phentsize", 16); ("e_phnum", 16);
   ("e_shentsize", 16); ("e_shnum", 16); ("e_shstrndx", 16)].
Definition Proghdr_struct : layout :=
  [("p_type", 32); ("p_offset", 32); ("p_va", 32); ("p_pa", 32); ("p_filesz", 32); ("p_memsz", 32); ("p_flags", 32);
   ("p_align", 32)].
Definition Secthdr : layout :=
  [("sh_name", 32); ("sh_type", 32); ("sh_flags", 32); ("sh_addr", 32); ("sh_offset", 32); ("sh_size", 32);
   ("sh_link", 32); ("sh_info", 32); ("sh_addralign", 32); ("sh_entsize", 32)].

(** ** Properties *)

Lemma fields_unpack l x : (fields l x).*2 = unpack l.*2 x.
Proof. revert x. induction l as [|[f w] l IH]; intros x; [done|]. cbn. by rewrite <- IH. Qed.

Lemma position_nonneg l f n : Forall (fun g => 0 <= g.2) l -> position l f = Some n -> 0 <= n.
Proof.
  intros Hw. revert n. induction Hw as [|[g v] l Hv Hw IH]; intros n; cbn; [done|].
  destruct (String.eqb f g); [by intros [= <-]|]. intros (m & Hm & ->)%fmap_Some. cbn in Hv. specialize (IH m Hm). lia.
Qed.

(** A field is the bits from its position on. *)
Lemma member_position l x f n w :
  Forall (fun g => 0 <= g.2) l -> NoDup l.*1 -> position l f = Some n -> (f, w) ∈ l ->
  member (fields l x) f = x / 2 ^ n mod 2 ^ w.
Proof.
  revert x n. induction l as [|[g v] l IH]; intros x n Hw Hnd Hp Hf; [done|]. cbn in *.
  apply NoDup_cons in Hnd as [Hg Hnd]. apply Forall_cons in Hw as [Hv Hw]. cbn in Hv.
  assert (Hin : (f, w) ∈ l -> f ∈ l.*1) by (intros H; by apply list_elem_of_fmap_2 with (f := fst) in H).
  destruct (String.eqb_spec f g) as [->|Hne].
  - injection Hp as <-. rewrite Z.div_1_r. apply elem_of_cons in Hf as [[= ->]|Hf]; [done|]. by apply Hin in Hf.
  - apply fmap_Some in Hp as (m & Hm & ->). pose proof (position_nonneg _ _ _ Hw Hm).
    apply elem_of_cons in Hf as [[= ]|Hf]; [done|].
    rewrite (IH _ m) by done. by rewrite Z.div_div, <- Z.pow_add_r by lia.
Qed.

Lemma asm_seg_encode type base lim :
  0 <= type < 16 -> le (ASM_SEG type base lim) = segdesc_encode (SEG type base lim 0).
Proof.
  intros Ht. unfold ASM_SEG, SEG, segdesc_encode, segdesc_widths, segdesc_fields, word_bytes.
  cbn [zip_with app pack sd_lim_15_0 sd_base_15_0 sd_base_23_16 sd_type sd_s sd_dpl sd_p sd_lim_19_16 sd_avl sd_rsv1 sd_db sd_g sd_base_31_24 le foldr].
  rewrite (lor_low_add 0x90 type 4) by (lia || reflexivity).
  change 0xffff with (2 ^ 16 - 1). change 0xff with (2 ^ 8 - 1). change 0xf with (2 ^ 4 - 1).
  rewrite !land_ones_mod, !Z.shiftr_div_pow2 by lia.
  rewrite (lor_low_add 0xC0 _ 4) by (lia || reflexivity || divmod).
  divmod.
Qed.


(** The bytes of the assembler's SEG are the descriptor of the C one, with
    privilege level 0; those of SEG_NULL are SEG_NULL. *)
Theorem asm_seg_correct type base lim :
  0 <= type < 16 ->
  length (ASM_SEG type base lim) = 8%nat /\ Forall (fun c => 0 <= c < 256) (ASM_SEG type base lim) /\
  segdesc_decode (le (ASM_SEG type base lim)) = segdesc_decode (segdesc_encode (SEG type base lim 0)) /\
  segdesc_decode (le ASM_SEG_NULL) = SEG_NULL.
Proof.
  intros Ht. split; [done|]. split; [|split; [by rewrite asm_seg_encode|reflexivity]].
  unfold ASM_SEG, word_bytes. rewrite (lor_low_add 0x90 type 4) by (lia || reflexivity).
  change 0xff with (2 ^ 8 - 1). change 0xf with (2 ^ 4 - 1). rewrite !land_ones_mod by lia.
  rewrite (lor_low_add 0xC0 _ 4) by (lia || reflexivity || divmod).
  repeat constructor; divmod.
Qed.

(** The code segment of entry.S, which maps KERNBASE to address 0. *)
Lemma asm_seg_correct_witness :
  segdesc_decode (le (ASM_SEG 0xA (- KERNBASE) 0xffffffff)) = segdesc_decode (segdesc_encode (SEG 0xA (- KERNBASE) 0xffffffff 0)) /\
  SEGDESC_BASE (segdesc_decode (le (ASM_SEG 0xA (- KERNBASE) 0xffffffff))) = 0x10000000.
Proof.
  destruct (asm_seg_correct 0xA (- KERNBASE) 0xffffffff) as (_ & _ & H & _); [lia|].
  split; [exact H|vm_compute; reflexivity].
Defined.

Lemma segdesc_snd : segdesc.*2 = segdesc_widths.
Proof. done. Qed.
Lemma gatedesc32_snd : gatedesc32.*2 = gate_widths.
Proof. done. Qed.

(** The two headers describe the same structures: a segment descriptor, a gate
    or a task state read through the structures of inc/desc.h has the fields, and a
    descriptor the base, that inc/mmu.h gives it, and equal types have equal codes;
    each structure has the size the processor expects. *)
Theorem desc_h_agrees x :
  (fields segdesc x).*2 = segdesc_fields (segdesc_decode x) /\
  (fields gatedesc32 x).*2 = gate_fields (gate_decode x) /\
  DESC_SEGDESC_BASE x = SEGDESC_BASE (segdesc_decode x) /\
  position tss32 <$> ["link"; "esp0"; "ss0"; "esp1"; "ss1"; "esp2"; "ss2"; "cr3"; "eip"; "eflags"; "eax"; "ecx"; "edx"; "ebx";
    "esp"; "ebp"; "esi"; "edi"; "es"; "cs"; "ss"; "ds"; "fs"; "gs"; "ldt"; "t"; "iomap"] =
  position Taskstate <$> ["ts_link"; "ts_esp0"; "ts_ss0"; "ts_esp1"; "ts_ss1"; "ts_esp2"; "ts_ss2"; "ts_cr3"; "ts_eip";
    "ts_eflags"; "ts_eax"; "ts_ecx"; "ts_edx"; "ts_ebx"; "ts_esp"; "ts_ebp"; "ts_esi"; "ts_edi"; "ts_es"; "ts_cs"; "ts_ss";
    "ts_ds"; "ts_fs"; "ts_gs"; "ts_ldt"; "ts_t"; "ts_iomb"] /\
  [SEGDESC_TYPE_32BIT_TSS_AVAILABLE; SEGDESC_TYPE_32BIT_TSS_BUSY; SEGDESC_TYPE_LDT; SEGDESC_TYPE_TASKGATE;
   SEGDESC_TYPE_16BIT_TSS_AVAILABLE; SEGDESC_TYPE_16BIT_TSS_BUSY; SEGDESC_TYPE_16BIT_CALLGATE; SEGDESC_TYPE_16BIT_INTRGATE;
   SEGDESC_TYPE_16BIT_TRAPGATE; GATEDESC_TYPE_32BIT_CALL; GATEDESC_TYPE_32BIT_INTR; GATEDESC_TYPE_32BIT_TRAP] =
  [STS_T32A; STS_T32B; STS_LDT; STS_TG; STS_T16A; STS_T16B; STS_CG16; STS_IG16; STS_TG16; STS_CG32; STS_IG32; STS_TG32] /\
  sizeof <$> [segdesc; gatedesc32; syssegdesc64; gatedesc64; descreg; Pseudodesc; tss32; Taskstate; tss64] =
    [8; 8; 16; 16; 6; 6; 104; 104; 104].
Proof.
  rewrite !fields_unpack. split; [|split; [|split]].
  - rewrite segdesc_snd. unfold segdesc_decode. cbn [segdesc_widths unpack].
    cbv beta iota delta [segdesc_fields sd_lim_15_0 sd_base_15_0 sd_base_23_16 sd_type sd_s sd_dpl sd_p sd_lim_19_16 sd_avl
      sd_rsv1 sd_db sd_g sd_base_31_24]. reflexivity.
  - rewrite gatedesc32_snd. unfold gate_decode. cbn [gate_widths unpack]. reflexivity.
  - unfold DESC_SEGDESC_BASE, SEGDESC_BASE, segdesc_decode.
    cbn [segdesc fields member String.eqb Ascii.eqb Bool.eqb segdesc_widths unpack sd_base_31_24 sd_base_23_16 sd_base_15_0].
    reflexivity.
  - split_and!; vm_compute; reflexivity.
Qed.

(** The offsets that the loader of boot/main.c uses. *)
Lemma elf_offsets :
  offsetof Elf <$> ["e_magic"; "e_entry"; "e_phoff"; "e_phnum"] = Some <$> [0; 24; 28; 44] /\
  offsetof Proghdr_struct <$> ["p_offset"; "p_va"; "p_filesz"; "p_memsz"] = Some <$> [4; 8; 16; 20] /\
  sizeof <$> [Elf; Proghdr_struct; Secthdr] = [52; 32; 40].
Proof. by vm_compute. Qed.
