(* ===== verification/StartAsm.v ===== *)
(** * StartAsm: boot/boot.S and kern/entry.S, from the BIOS to C

    The two pieces of assembly that run before any C code, as lists of
    instructions on a model of the parts of the processor they set up: the segment
    registers with their hidden descriptors, CR0, the GDT register and the stack
    pointer.  Memory is physical, by bytes; paging is off.  A [code] directive of
    the assembler checks that the processor decodes instructions of that size
    there. *)

From S2P Require Import Prelude Layout CString Ports Segment Structs.
Open Scope Z_scope.

(** ** The processor *)

Inductive sreg : Type := CS | DS | ES | SS | FS | GS.
#[export] Instance sreg_eq : EqDecision sreg.
Proof. solve_decision. Defined.

(** A segment register: its selector, and the base, limit and operand size the
    processor keeps with it. *)
Record seg : Type := MkSegment { seg_sel : Z; seg_base : Z; seg_limit : Z; seg_big : bool }.

Inductive reg32 : Type := AX | SP | BP.

Record cpu : Type := MkCpu {
  c_ip : nat;
  c_ax : Z; c_sp : Z; c_bp : Z;         (* %eax, %esp, %ebp *)
  c_zf : bool; c_if : bool; c_df : bool;
  c_cr0 : Z;
  c_gdtr : Z * Z;                       (* base, limit *)
  c_seg : sreg -> seg;
  c_ram : gmap Z Z;
  c_ports : io
}.
Definition set_ip v c := MkCpu v (c_ax c) (c_sp c) (c_bp c) (c_zf c) (c_if c) (c_df c) (c_cr0 c) (c_gdtr c) (c_seg c) (c_ram c) (c_ports c).
Definition set_ax v c := MkCpu (c_ip c) v (c_sp c) (c_bp c) (c_zf c) (c_if c) (c_df c) (c_cr0 c) (c_gdtr c) (c_seg c) (c_ram c) (c_ports c).
Definition set_sp v c := MkCpu (c_ip c) (c_ax c) v (c_bp c) (c_zf c) (c_if c) (c_df c) (c_cr0 c) (c_gdtr c) (c_seg c) (c_ram c) (c_ports c).
Definition set_bp v c := MkCpu (c_ip c) (c_ax c) (c_sp c) v (c_zf c) (c_if c) (c_df c) (c_cr0 c) (c_gdtr c) (c_seg c) (c_ram c) (c_ports c).
Definition set_zf v c := MkCpu (c_ip c) (c_ax c) (c_sp c) (c_bp c) v (c_if c) (c_df c) (c_cr0 c) (c_gdtr c) (c_seg c) (c_ram c) (c_ports c).
Definition set_if v c := MkCpu (c_ip c) (c_ax c) (c_sp c) (c_bp c) (c_zf c) v (c_df c) (c_cr0 c) (c_gdtr c) (c_seg c) (c_ram c) (c_ports c).
Definition set_df v c := MkCpu (c_ip c) (c_ax c) (c_sp c) (c_bp c) (c_zf c) (c_if c) v (c_cr0 c) (c_gdtr c) (c_seg c) (c_ram c) (c_ports c).
Definition set_c_cr0 v c := MkCpu (c_ip c) (c_ax c) (c_sp c) (c_bp c) (c_zf c) (c_if c) (c_df c) v (c_gdtr c) (c_seg c) (c_ram c) (c_ports c).
Definition set_gdtr v c := MkCpu (c_ip c) (c_ax c) (c_sp c) (c_bp c) (c_zf c) (c_if c) (c_df c) (c_cr0 c) v (c_seg c) (c_ram c) (c_ports c).
Definition set_segment r v c := MkCpu (c_ip c) (c_ax c) (c_sp c) (c_bp c) (c_zf c) (c_if c) (c_df c) (c_cr0 c) (c_gdtr c)
  (fun q => if decide (q = r) then v else c_seg c q) (c_ram c) (c_ports c).
Definition set_c_ram v c := MkCpu (c_ip c) (c_ax c) (c_sp c) (c_bp c) (c_zf c) (c_if c) (c_df c) (c_cr0 c) (c_gdtr c) (c_seg c) v (c_ports c).
Definition set_ports v c := MkCpu (c_ip c) (c_ax c) (c_sp c) (c_bp c) (c_zf c) (c_if c) (c_df c) (c_cr0 c) (c_gdtr c) (c_seg c) (c_ram c) v.

#[export, refine] Instance cpu_has_io : HasIO cpu := {| io_of := c_ports; with_io := set_ports |}.
Proof. all: by intros; destruct_and?; try destruct s. Defined.

Definition get_reg (r : reg32) : M cpu Z := gets (match r with AX => c_ax | SP => c_sp | BP => c_bp end).
(** A write to the low [w] bits of a register leaves the others. *)
Definition set_reg (w : Z) (r : reg32) (v : Z) : M cpu () :=
  old ← get_reg r;
  let new := u32 (old / 2 ^ w * 2 ^ w + v mod 2 ^ w) in
  modify (match r with AX => set_ax new | SP => set_sp new | BP => set_bp new end).

(** [n] bytes at a segmented address, lowest first. *)
Definition linear (s : seg) (off : Z) : Z := u32 (seg_base s + off).
Definition access (r : sreg) (off n : Z) : M cpu Z :=
  c ← gets id;
  let s := c_seg c r in
  if off + n - 1 <=? seg_limit s then mret (linear s off) else fault.
Definition bytes_at (m : gmap Z Z) (a : Z) (n : nat) : option (list Z) := mapM (fun i => m !! (a + Z.of_nat i)) (seq 0 n).
Definition load (a : Z) (n : nat) : M cpu Z := c ← gets id; l ← deref (bytes_at (c_ram c) a n); mret (le l).
Definition little_endian (v : Z) (n : nat) : list Z := (fun i => v / 2 ^ (8 * Z.of_nat i) mod 256) <$> seq 0 n.
Definition store (a v : Z) (n : nat) : M cpu () :=
  c ← gets id;
  deref (bytes_at (c_ram c) a n);;
  modify (set_c_ram (write (c_ram c) a (little_endian v n))).

(** Loading a segment register.  In real mode the selector is the address in units
    of 16.  In protected mode the descriptor comes from the GDT; it has to be present
    and of a type and privilege that fit the register, and the processor marks it
    accessed.  A null selector may be loaded into DS, ES, FS and GS, and no access
    through it succeeds.  There is no LDT and no change of privilege here. *)
Definition fits (r : sreg) (rpl : Z) (d : Segdesc) : bool :=
  let is_code := Z.testbit (sd_type d) 3 in
  negb (sd_p d =? 0) && negb (sd_s d =? 0) &&
  match r with
  | CS => is_code && (rpl =? 0) && (sd_dpl d =? 0)
  | SS => negb is_code && Z.testbit (sd_type d) 1 && (rpl =? 0) && (sd_dpl d =? 0)
  | _ => (negb is_code || Z.testbit (sd_type d) 1) && (is_code && Z.testbit (sd_type d) 2 || (rpl <=? sd_dpl d))
  end.
Definition null_seg (sel : Z) : seg := MkSegment sel 0 (-1) false.
Definition accessed (a : Z) (m : gmap Z Z) : gmap Z Z := alter (fun b => Z.lor b STA_A) (a + 5) m.
Definition load_segment_reg (r : sreg) (sel : Z) : M cpu () :=
  c ← gets id;
  if Z.testbit (c_cr0 c) 0 then
    let '(base, limit) := c_gdtr c in
    let index := Z.land sel 0xfff8 in
    if Z.testbit sel 2 then fault
    else if index =? 0 then
      match r with CS | SS => fault | _ => modify (set_segment r (null_seg sel)) end
    else if limit <? index + 7 then fault
    else
      let a := u32 (base + index) in
      x ← load a 8;
      let d := segdesc_decode x in
      if fits r (Z.land sel 3) d then
        modify (set_c_ram (accessed a (c_ram c)));;
        modify (set_segment r (MkSegment sel (SEGDESC_BASE d) (segment_limit d) (negb (sd_db d =? 0))))
      else fault
  else modify (set_segment r (MkSegment sel (16 * sel) (seg_limit (c_seg c r)) (seg_big (c_seg c r)))).

(** ** Instructions *)

Inductive instr : Type :=
  | cli
  | cld
  | xor_self (w : Z) (r : reg32)            (* xorw %ax,%ax *)
  | mov_imm (w n : Z) (r : reg32)           (* movb, movw, movl $n,%r *)
  | mov_to_seg (r : sreg)                   (* movw %ax,%r *)
  | mov_to_mem (n a : Z)                    (* movw $n,a *)
  | inb_al (port : Z)
  | outb_al (port : Z)
  | testb_al (n : Z)
  | jnz (l : string)
  | jmp (l : string)
  | lgdt (a : Z)
  | mov_from_cr0
  | or_imm (n : Z)                          (* orl $n,%eax *)
  | mov_to_cr0
  | ljmp (sel : Z) (l : string)
  | call (f : string)
  | label (l : string)
  | code (bits : Z).                        (* .code16, .code32 *)

Section run.
Context (addr : nat -> Z) (prog : list instr).

Definition is_label (l : string) (i : instr) : bool := match i with label k => String.eqb k l | _ => false end.
Definition find_label (l : string) : option nat := fst <$> list_find (is_label l) prog.

(** One instruction, [c_ip] being behind it: the function it calls, if any.  In
    16-bit code [lgdt] takes 24 bits of the base. *)
Definition exec (i : instr) : M cpu (option string) :=
  match i with
  | cli => modify (set_if false);; mret None
  | cld => modify (set_df false);; mret None
  | xor_self w r => set_reg w r 0;; mret None
  | mov_imm w n r => set_reg w r n;; mret None
  | mov_to_seg r => v ← get_reg AX; load_segment_reg r (u16 v);; mret None
  | mov_to_mem n a => x ← access DS a 2; store x n 2;; mret None
  | inb_al port => v ← inb port; set_reg 8 AX v;; mret None
  | outb_al port => v ← get_reg AX; outb port (u8 v);; mret None
  | testb_al n => v ← get_reg AX; modify (set_zf (Z.land (u8 v) n =? 0));; mret None
  | jnz l => c ← gets id; (if c_zf c then mret tt else n ← deref (find_label l); modify (set_ip n));; mret None
  | jmp l => n ← deref (find_label l); modify (set_ip n);; mret None
  | lgdt a =>
      x ← access DS a 6;
      limit ← load x 2;
      base ← load (u32 (x + 2)) 4;
      c ← gets id;
      modify (set_gdtr (if seg_big (c_seg c CS) then base else base mod 2 ^ 24, limit));; mret None
  | mov_from_cr0 => c ← gets id; set_reg 32 AX (c_cr0 c);; mret None
  | or_imm n => v ← get_reg AX; set_reg 32 AX (Z.lor v n);; mret None
  | mov_to_cr0 => v ← get_reg AX; modify (set_c_cr0 v);; mret None
  | ljmp sel l =>
      load_segment_reg CS sel;;
      n ← deref (find_label l);
      c ← gets id;
      (if addr n <=? seg_limit (c_seg c CS) then modify (set_ip n) else fault);; mret None
  | call f =>
      c ← gets id;
      (if seg_big (c_seg c SS) then mret tt else fault);;
      let sp := u32 (c_sp c - 4) in
      x ← access SS sp 4;
      store x (addr (c_ip c)) 4;;
      modify (set_sp sp);; mret (Some f)
  | label _ => mret None
  | code bits => c ← gets id; if Bool.eqb (bits =? 32) (seg_big (c_seg c CS)) then mret None else fault
  end.

Definition step : M cpu (option string) :=
  c ← gets id;
  i ← deref (prog !! c_ip c);
  modify (set_ip (S (c_ip c)));;
  exec i.

(** To the first call of a C function. *)
Fixpoint run (fuel : nat) : M cpu string :=
  match fuel with
  | O => spin
  | S fuel' => o ← step; match o with Some f => mret f | None => run fuel' end
  end.
End run.

(** ** boot/boot.S *)

Definition PROT_MODE_CSEG : Z := 0x8.
Definition PROT_MODE_DSEG : Z := 0x10.
Definition CR0_PE_ON : Z := 0x1.

Definition boot_S (start gdtdesc : Z) : list instr := [
  code 16;
  cli;
  cld;
  xor_self 16 AX;
  mov_to_seg DS;
  mov_to_seg ES;
  mov_to_seg SS;
  mov_imm 16 start SP;
  label "seta20.1";
  inb_al 0x64;
  testb_al 0x2;
  jnz "seta20.1";
  mov_imm 8 0xd1 AX;
  outb_al 0x64;
  label "seta20.2";
  inb_al 0x64;
  testb_al 0x2;
  jnz "seta20.2";
  mov_imm 8 0xdf AX;
  outb_al 0x60;
  label "real_to_prot";
  cli;
  lgdt gdtdesc;
  mov_from_cr0;
  or_imm CR0_PE_ON;
  mov_to_cr0;
  ljmp PROT_MODE_CSEG "protcseg";
  label "protcseg";
  code 32;
  mov_imm 16 PROT_MODE_DSEG AX;
  mov_to_seg DS;
  mov_to_seg ES;
  mov_to_seg FS;
  mov_to_seg GS;
  mov_to_seg SS;
  call "bootmain";
  label "spin";
  jmp "spin"].

(** The table at [gdt] and what [gdtdesc] says of it. *)
Definition boot_gdt : list Z := ASM_SEG_NULL ++ ASM_SEG (Z.lor STA_X STA_R) 0x0 0xffffffff ++ ASM_SEG STA_W 0x0 0xffffffff.
Definition boot_gdtdesc (gdt : Z) : list Z := little_endian 0x17 2 ++ little_endian gdt 4.

(** ** kern/entry.S *)

Definition RELOC (x : Z) : Z := u32 (x - KERNBASE).
Definition CODE_SEL : Z := 0x8.
Definition DATA_SEL : Z := 0x10.
Definition SRL (val shamt : Z) : Z := Z.land (Z.shiftr val shamt) (Z.lnot (Z.shiftl (-1) (32 - shamt))).

Definition MULTIBOOT_PAGE_ALIGN : Z := Z.shiftl 1 0.
Definition MULTIBOOT_MEMORY_INFO : Z := Z.shiftl 1 1.
Definition MULTIBOOT_HEADER_MAGIC : Z := 0x1BADB002.
Definition MULTIBOOT_HEADER_FLAGS : Z := Z.lor MULTIBOOT_MEMORY_INFO MULTIBOOT_PAGE_ALIGN.
Definition CHECKSUM : Z := u32 (- (MULTIBOOT_HEADER_MAGIC + MULTIBOOT_HEADER_FLAGS)).

Definition entry_S (mygdtdesc bootstacktop : Z) : list instr := [
  mov_to_mem 0x1234 0x472;
  lgdt (RELOC mygdtdesc);
  mov_imm 32 DATA_SEL AX;
  mov_to_seg DS;
  mov_to_seg ES;
  mov_to_seg SS;
  ljmp CODE_SEL "relocated";
  label "relocated";
  mov_imm 32 0x0 BP;
  mov_imm 32 bootstacktop SP;
  call "i386_init";
  label "spin";
  jmp "spin"].

Definition vpt : Z := VPT.
Definition vpd : Z := VPT + SRL VPT 10.

Definition mygdt_bytes : list Z :=
  ASM_SEG_NULL ++ ASM_SEG (Z.lor STA_X STA_R) (- KERNBASE) 0xffffffff ++ ASM_SEG STA_W (- KERNBASE) 0xffffffff.
Definition mygdtdesc_bytes (mygdt : Z) : list Z := little_endian 0x17 2 ++ little_endian (RELOC mygdt) 4.

(** ** Memory *)

Lemma bytes_at_array m a l : array m a l -> bytes_at m a (length l) = Some l.
Proof.
  intros H. unfold bytes_at. apply mapM_Some. apply Forall2_same_length_lookup. rewrite length_seq. split; [done|].
  intros i j c Hj Hc. apply lookup_seq in Hj as [-> _]. by apply H.
Qed.

Lemma wp_load a n l (Q : Z -> cpu -> Prop) c : array (c_ram c) a l -> length l = n -> Q (le l) c -> wp (load a n) Q c.
Proof. intros Ha <- HQ. unfold load. wp_go. eapply wp_deref; [by apply bytes_at_array|]. by wp_go. Qed.

Lemma wp_store a v n (Q : () -> cpu -> Prop) c :
  mapped (c_ram c) a (Z.of_nat n) -> Q tt (set_c_ram (write (c_ram c) a (little_endian v n)) c) ->
  wp (store a v n) Q c.
Proof.
  intros Hm HQ. unfold store. wp_go. destruct (bytes_at (c_ram c) a n) as [l|] eqn:E; [by eapply wp_deref; [done|wp_go]|].
  exfalso. unfold bytes_at in E. apply mapM_None in E. apply Exists_exists in E as (i & Hi & E). apply elem_of_seq in Hi.
  destruct (Hm (a + Z.of_nat i) ltac:(lia)) as [x Hx]. congruence.
Qed.

Lemma array_write m a l b d : array m b d -> b + Z.of_nat (length d) <= a \/ a + Z.of_nat (length l) <= b -> array (write m a l) b d.
Proof.
  intros H Hd i c Hi. pose proof (lookup_lt_Some _ _ _ Hi). rewrite write_out by lia. by apply H.
Qed.

Lemma array_part m a d l1 l2 l3 : array m a (l1 ++ l2 ++ l3) -> d = Z.of_nat (length l1) -> array m (a + d) l2.
Proof.
  intros H -> i c Hi. replace (a + Z.of_nat (length l1) + Z.of_nat i) with (a + Z.of_nat (length l1 + i)) by lia.
  apply H. rewrite lookup_app_r by lia. replace (length l1 + i - length l1)%nat with i by lia.
  rewrite lookup_app_l; [done|]. by eapply lookup_lt_Some.
Qed.

Lemma write_part m p d l l1 l2 l3 : l = l1 ++ l2 ++ l3 -> d = Z.of_nat (length l1) -> array (write m p l) (p + d) l2.
Proof. intros -> Hd. apply (array_part _ _ _ l1 l2 l3); [apply write_array|done]. Qed.

(** ** What a loaded segment is *)

(** The segment that the assembler's SEG describes. *)
Definition loaded_seg (sel base : Z) : seg := MkSegment sel base 0xffffffff true.

(** [l] in the GDT is the descriptor of [sel], of a segment of base [b]. *)
Definition describes (c : cpu) (r : sreg) (sel b : Z) (l : list Z) : Prop :=
  Z.testbit (c_cr0 c) 0 = true /\ Z.testbit sel 2 = false /\ Z.land sel 3 = 0 /\ Z.land sel 0xfff8 = sel /\ 0 < sel /\
  sel + 7 <= (c_gdtr c).2 /\ array (c_ram c) (u32 ((c_gdtr c).1 + sel)) l /\ length l = 8%nat /\
  let d := segdesc_decode (le l) in
  fits r 0 d = true /\ SEGDESC_BASE d = b /\ segment_limit d = 0xffffffff /\ negb (sd_db d =? 0) = true.

(** The state behind the load. *)
Definition with_segment (r : sreg) (sel b : Z) (c : cpu) : cpu :=
  set_segment r (loaded_seg sel b) (set_c_ram (accessed (u32 ((c_gdtr c).1 + sel)) (c_ram c)) c).

(** ** Stepping *)

Ltac cpu_norm :=
  cbv beta iota delta [set_ip set_ax set_sp set_bp set_zf set_if set_df set_c_cr0 set_gdtr with_segment set_segment set_c_ram set_ports
    c_ip c_ax c_sp c_bp c_zf c_if c_df c_cr0 c_gdtr c_seg c_ram c_ports id after_in after_out io_of with_io cpu_has_io io_in io_log tail].
Ltac cpu_go :=
  repeat (cpu_norm;
    lazymatch goal with
    | |- wp (get_reg _) _ _ => unfold get_reg
    | |- wp (set_reg _ _ _) _ _ => unfold set_reg
    | |- wp (deref (Some _)) _ _ => eapply wp_deref; [reflexivity|]
    | _ => wp_step
    end); cpu_norm.

Lemma u8_idem v : u8 (u8 v) = u8 v.
Proof. divmod. Qed.
Lemma low_u8 a v : u8 (u32 (a / 2 ^ 8 * 2 ^ 8 + v mod 2 ^ 8)) = u8 v.
Proof. divmod. Qed.
Lemma low_u16 a v : u16 (u32 (a / 2 ^ 16 * 2 ^ 16 + v mod 2 ^ 16)) = u16 v.
Proof. divmod. Qed.
Lemma all_u32 a v : u32 (a / 2 ^ 32 * 2 ^ 32 + v mod 2 ^ 32) = u32 v.
Proof. divmod. Qed.

Section steps.
Context (addr : nat -> Z) (prog : list instr).
Implicit Types (Q : string -> cpu -> Prop) (c : cpu).

Lemma wp_run_step fuel i Q c :
  prog !! c_ip c = Some i ->
  wp (exec addr prog i) (fun o c' => match o with Some f => Q f c' | None => wp (run addr prog fuel) Q c' end) (set_ip (S (c_ip c)) c) ->
  wp (run addr prog (S fuel)) Q c.
Proof.
  intros Hi H. cbn [run]. apply wp_bind. unfold step. wp_go. eapply wp_deref; [exact Hi|]. wp_go.
  eapply wp_mono; [exact H|]. by intros [f|] c'.
Qed.

Lemma wp_run_more f f' Q c : wp (run addr prog f) Q c -> (f <= f')%nat -> wp (run addr prog f') Q c.
Proof.
  revert f' c. induction f as [|f IH]; intros f' c H Hle; [done|]. destruct f' as [|f']; [lia|].
  apply wp_iff in H as (u & b & H & HQ). cbn [run] in *. apply bind_ret_iff in H as (o & c1 & Hs & Hr).
  apply wp_bind. apply (wp_run _ _ _ _ _ Hs). destruct o; [by injection Hr as <- <-|].
  apply IH; [|lia]. by apply (wp_run _ _ _ _ _ Hr).
Qed.

(** A run that gets to its call gets there with any more fuel. *)
Lemma wp_run_enough f Q c :
  wp (run addr prog f) Q c -> exists g c', (forall fuel, (f <= fuel)%nat -> run addr prog fuel c = Ret g c') /\ Q g c'.
Proof.
  intros (g & c' & Hrun & HQ)%wp_iff. exists g, c'. split; [|done]. intros fuel Hf.
  assert (He : wp (run addr prog f) (fun b t => b = g /\ t = c') c) by (by apply wp_eq).
  apply (wp_run_more _ fuel) in He; [|done]. by apply wp_eq.
Qed.

(** A loop that waits for bit 1 of the keyboard controller's status to clear:
    one round, and all of them. *)
Section poll.
Context (k : nat) (l : string) (sp bp : Z) (ifl df : bool) (cr0 : Z) (gd : Z * Z) (sg : sreg -> seg) (ram : gmap Z Z).
Context (H0 : prog !! k = Some (label l)) (H1 : prog !! S k = Some (inb_al 0x64)).
Context (H2 : prog !! S (S k) = Some (testb_al 0x2)) (H3 : prog !! S (S (S k)) = Some (jnz l)).
Context (Hl : find_label prog l = Some k).
Local Abbreviation at_poll ip ax zf i := (MkCpu ip ax sp bp zf ifl df cr0 gd sg ram i).
Definition status_read (v : Z) : port_event := In 8 0x64 (u8 v).

Lemma poll_round v script fuel Q ax zf g :
  (forall ax', wp (run addr prog fuel) Q
     (at_poll (if Z.testbit v 1 then k else 4 + k)%nat ax' (negb (Z.testbit v 1)) (Io script (g ++ [status_read v])))) ->
  wp (run addr prog (4 + fuel)) Q (at_poll k ax zf (Io (v :: script) g)).
Proof.
  intros HQ. assert (Hbit : (Z.land (u8 v) 0x2 =? 0) = negb (Z.testbit v 1)).
  { change 0x2 with (2 ^ 1). rewrite land_bit by lia. unfold u8. by rewrite Z.mod_pow2_bits_low by lia. }
  cbn [Nat.add]. eapply wp_run_step; [exact H0|]. cbn [exec]. cpu_go.
  eapply wp_run_step; [exact H1|]. cbn [exec]. apply wp_bind. eapply wp_inb; [reflexivity|]. cpu_go.
  eapply wp_run_step; [exact H2|]. cbn [exec]. cpu_go. rewrite low_u8, u8_idem, Hbit.
  eapply wp_run_step; [exact H3|]. cbn [exec]. cpu_go. specialize (HQ (u32 (ax / 2 ^ 8 * 2 ^ 8 + u8 v mod 2 ^ 8))).
  destruct (Z.testbit v 1); cbn [negb] in *; cpu_go; [|exact HQ].
  rewrite Hl. cpu_go. exact HQ.
Qed.

Lemma poll_loop busy ready rest fuel Q ax zf g :
  Forall (fun v => Z.testbit v 1 = true) busy -> Z.testbit ready 1 = false ->
  (forall ax', wp (run addr prog fuel) Q (at_poll (4 + k)%nat ax' true (Io rest (g ++ (status_read <$> busy ++ [ready]))))) ->
  wp (run addr prog (4 * (length busy + 1) + fuel)) Q (at_poll k ax zf (Io (busy ++ ready :: rest) g)).
Proof.
  intros Hb Hr. revert ax zf g. induction Hb as [|v busy Hv Hb IH]; intros ax zf g HQ.
  - apply poll_round. rewrite Hr. exact HQ.
  - replace (4 * (length (v :: busy) + 1) + fuel)%nat with (4 + (4 * (length busy + 1) + fuel))%nat by (cbn; lia).
    apply poll_round. intros ax'. rewrite Hv. apply IH. intros ax2. cbn [app fmap list_fmap] in HQ.
    rewrite <- app_assoc. exact (HQ ax2).
Qed.
End poll.
End steps.

(** ** Segments *)

Lemma le_word v : 0 <= v < 2 ^ 32 -> le (little_endian v 4) = v.
Proof.
  intros Hv. unfold little_endian, le. cbn [seq fmap list_fmap foldr Z.of_nat Pos.of_succ_nat Pos.succ Z.mul Pos.mul]. divmod.
Qed.

Lemma wp_lgdt addr prog a b (Q : option string -> cpu -> Prop) c :
  seg_base (c_seg c DS) = 0 -> a + 5 <= seg_limit (c_seg c DS) -> 0 <= a < 2 ^ 32 - 2 ->
  array (c_ram c) a (little_endian 0x17 2 ++ little_endian b 4) -> 0 <= b < 2 ^ 32 -> seg_big (c_seg c CS) = true \/ b < 2 ^ 24 ->
  Q None (set_gdtr (b, 0x17) c) -> wp (exec addr prog (lgdt a)) Q c.
Proof.
  intros Hb Hl Ha Hm Hr Hbig HQ. cbn [exec]. unfold access, linear. wp_go. unfold id.
  replace (a + 6 - 1 <=? seg_limit (c_seg c DS)) with true by lia. wp_go. rewrite Hb, Z.add_0_l, (u32_small a) by lia.
  eapply (wp_load _ _ (little_endian 0x17 2)); [|done|].
  { rewrite <- (Z.add_0_r a). by apply (array_part _ _ _ [] _ (little_endian b 4)). }
  wp_go. rewrite u32_small by lia. eapply (wp_load _ _ (little_endian b 4)); [|done|].
  { apply (array_part _ _ _ (little_endian 0x17 2) _ []); [|done]. by rewrite app_nil_r. }
  rewrite le_word by lia. wp_go. unfold id. change (le (little_endian 0x17 2)) with 0x17.
  destruct Hbig as [-> |Hs]; [exact HQ|]. destruct (seg_big (c_seg c CS)); [exact HQ|]. by rewrite Z.mod_small by lia.
Qed.

Lemma wp_mov_to_mem addr prog n a (Q : option string -> cpu -> Prop) c :
  seg_base (c_seg c DS) = 0 -> a + 1 <= seg_limit (c_seg c DS) -> 0 <= a < 2 ^ 32 -> mapped (c_ram c) a 2 ->
  Q None (set_c_ram (write (c_ram c) a (little_endian n 2)) c) -> wp (exec addr prog (mov_to_mem n a)) Q c.
Proof.
  intros Hb Hl Ha Hm HQ. cbn [exec]. unfold access, linear. wp_go. unfold id.
  replace (a + 2 - 1 <=? seg_limit (c_seg c DS)) with true by lia. wp_go. rewrite Hb, Z.add_0_l, (u32_small a) by lia.
  by apply wp_store.
Qed.

Lemma wp_load_segment r sel b l (Q : () -> cpu -> Prop) c :
  describes c r sel b l -> Q tt (with_segment r sel b c) -> wp (load_segment_reg r sel) Q c.
Proof.
  intros (Hpe & Ht & Hr & Hi & Hs & Hl & Ha & Hlen & Hf & Hb & Hlim & Hdb) HQ. unfold load_segment_reg. wp_go. unfold id. rewrite Hpe.
  unfold with_segment in HQ. destruct (c_gdtr c) as [gb gl] eqn:Eg. cbn [fst snd] in *. rewrite Hi, Ht, Hr.
  replace (sel =? 0) with false by lia. replace (gl <? sel + 7) with false by lia.
  wp_go. eapply wp_load; [exact Ha|exact Hlen|]. rewrite Hf, Hb, Hlim, Hdb. wp_go. exact HQ.
Qed.

(** The bytes of a descriptor that has been loaded. *)
Definition mark (l : list Z) : list Z := alter (fun b => Z.lor b STA_A) 5%nat l.

Lemma array_alter5 (f : Z -> Z) m a l : array m a l -> array (alter f (a + 5) m) a (alter f 5%nat l).
Proof.
  intros H i c Hi. destruct (decide (i = 5%nat)) as [->|Hne].
  - rewrite list_lookup_alter in Hi. apply fmap_Some in Hi as (b & Hb & ->). change (Z.of_nat 5) with 5. rewrite lookup_alter_eq.
    by rewrite (H _ _ Hb : m !! (a + 5) = Some b).
  - rewrite list_lookup_alter_ne in Hi by done. rewrite lookup_alter_ne by lia. by apply H.
Qed.

Lemma array_accessed m a l : array m a l -> array (accessed a m) a (mark l).
Proof. apply array_alter5. Qed.

Lemma array_accessed_ne m a b l : array m b l -> a + 5 < b \/ b + Z.of_nat (length l) <= a + 5 -> array (accessed a m) b l.
Proof. intros H Hne i c Hi. pose proof (lookup_lt_Some _ _ _ Hi). unfold accessed. rewrite lookup_alter_ne by lia. by apply H. Qed.

Lemma accessed_twice a m : accessed a (accessed a m) = accessed a m.
Proof.
  apply map_eq. intros i. unfold accessed. destruct (decide (a + 5 = i)) as [<-|Hne].
  - rewrite !lookup_alter_eq. destruct (m !! (a + 5)) as [b|]; [|done]. cbn. f_equal. by rewrite <- Z.lor_assoc, Z.lor_diag.
  - by rewrite !lookup_alter_ne by done.
Qed.

Lemma mapped_accessed a m p n : mapped m p n -> mapped (accessed a m) p n.
Proof.
  intros H x Hx. unfold accessed. destruct (decide (a + 5 = x)) as [<-|Hne];
    [rewrite lookup_alter_eq; apply fmap_is_Some|rewrite lookup_alter_ne by done]; by apply H.
Qed.

Lemma wp_ljmp addr prog sel l n b d (Q : option string -> cpu -> Prop) c :
  describes c CS sel b d -> find_label prog l = Some n -> 0 <= addr n < 2 ^ 32 ->
  Q None (set_ip n (with_segment CS sel b c)) -> wp (exec addr prog (ljmp sel l)) Q c.
Proof.
  intros Hd Hl Ha HQ. cbn [exec]. wp_go. eapply wp_load_segment; [exact Hd|]. wp_go. eapply wp_deref; [exact Hl|]. wp_go.
  unfold id. change (seg_limit (c_seg (with_segment CS sel b c) CS)) with (2 ^ 32 - 1).
  replace (addr n <=? 2 ^ 32 - 1) with true by lia. exact HQ.
Qed.

Lemma wp_mov_to_seg addr prog r b l (Q : option string -> cpu -> Prop) c :
  describes c r (u16 (c_ax c)) b l -> Q None (with_segment r (u16 (c_ax c)) b c) -> wp (exec addr prog (mov_to_seg r)) Q c.
Proof. intros Hd HQ. cbn [exec]. unfold get_reg. wp_go. eapply wp_load_segment; [exact Hd|]. exact HQ. Qed.

Lemma wp_call addr prog f sel b (Q : option string -> cpu -> Prop) c :
  c_seg c SS = loaded_seg sel b -> 4 <= c_sp c < 2 ^ 32 ->
  mapped (c_ram c) (u32 (b + (c_sp c - 4))) 4 ->
  Q (Some f) (set_sp (c_sp c - 4) (set_c_ram (write (c_ram c) (u32 (b + (c_sp c - 4))) (little_endian (addr (c_ip c)) 4)) c)) ->
  wp (exec addr prog (call f)) Q c.
Proof.
  intros Hs Hsp Hm HQ. cbn [exec]. wp_go. unfold id, access, linear.
  assert (Hb : seg_big (c_seg c SS) = true) by (by rewrite Hs). assert (Hl : seg_limit (c_seg c SS) = 2 ^ 32 - 1) by (by rewrite Hs).
  assert (Hbase : seg_base (c_seg c SS) = b) by (by rewrite Hs). rewrite Hb, u32_small by lia. wp_go. unfold id. rewrite Hl, Hbase.
  replace (c_sp c - 4 + 4 - 1 <=? 2 ^ 32 - 1) with true by lia. wp_go. apply wp_store; [done|]. exact HQ.
Qed.

Lemma wp_load_real r sel (Q : () -> cpu -> Prop) c :
  Z.testbit (c_cr0 c) 0 = false ->
  Q tt (set_segment r (MkSegment sel (16 * sel) (seg_limit (c_seg c r)) (seg_big (c_seg c r))) c) -> wp (load_segment_reg r sel) Q c.
Proof. intros Hre HQ. unfold load_segment_reg. wp_go. unfold id. rewrite Hre. exact HQ. Qed.

(** The goal that a selector is described, [E] being the address of its descriptor. *)
Ltac describe E :=
  unfold describes; cpu_norm; cbn [fst snd];
  change PROT_MODE_CSEG with 8; change CODE_SEL with 8; change (u16 PROT_MODE_DSEG) with 16; change (u16 16) with 16;
  rewrite E; split_and!; try done; cbv zeta; split_and!; reflexivity.

(** ** boot/boot.S *)

Lemma lor_1_range v : 0 <= v < 2 ^ 32 -> 0 <= Z.lor v 1 < 2 ^ 32.
Proof.
  intros Hv. assert (0 <= Z.lor v 1) by (apply Z.lor_nonneg; lia). split; [done|]. apply Z.log2_lt_cancel.
  rewrite Z.log2_lor by lia. assert (Z.log2 v <= 31) by (apply (Z.log2_le_mono _ (2 ^ 32 - 1)); lia).
  change (Z.log2 1) with 0. change (Z.log2 (2 ^ 32)) with 32. lia.
Qed.

Section boot.
Context (addr : nat -> Z) (start gdt gdtdesc : Z).
Local Abbreviation prog := (boot_S start gdtdesc).

(** What the BIOS leaves: real mode, segments as after reset but for their
    selectors, and the upper half of ESP clear; the boot sector is in memory. *)
Record bios (c : cpu) : Prop := Bios {
  bios_ip : c_ip c = 0%nat;
  bios_addr : forall n, 0 <= addr n < 2 ^ 32;
  bios_cr0 : 0 <= c_cr0 c < 2 ^ 32;
  bios_real : Z.testbit (c_cr0 c) 0 = false;
  bios_cs : seg_big (c_seg c CS) = false;
  bios_ds : 0xffff <= seg_limit (c_seg c DS);
  bios_sp : 0 <= c_sp c < 2 ^ 16;
  bios_start : 4 <= start < 2 ^ 16;
  bios_gdt : 0 <= gdt < 2 ^ 24 /\ array (c_ram c) gdt boot_gdt;
  bios_gdtdesc : 0 <= gdtdesc <= 0xffff - 5 /\ array (c_ram c) gdtdesc (boot_gdtdesc gdt);
  bios_stack : mapped (c_ram c) (start - 4) 4
}.

(** The descriptors of boot.S, accessed. *)
Definition boot_ram (m : mem) : mem := accessed (gdt + 16) (accessed (gdt + 8) m).
Definition flat (sel : Z) : seg := loaded_seg sel 0.
Definition protected_segs (r : sreg) : seg := match r with CS => flat PROT_MODE_CSEG | _ => flat PROT_MODE_DSEG end.
Lemma boot_to_a20 fuel Q c :
  bios c ->
  (forall ax sg, seg_base (sg DS) = 0 -> seg_limit (sg DS) = seg_limit (c_seg c DS) -> sg CS = c_seg c CS ->
     wp (run addr prog fuel) Q (MkCpu 8 ax start (c_bp c) (c_zf c) false false (c_cr0 c) (c_gdtr c) sg (c_ram c) (c_ports c))) ->
  wp (run addr prog (8 + fuel)) Q c.
Proof.
  intros [Hip _ _ Hre Hcs Hds Hsp Hst _ _ _] HQ. destruct c as [ip ax sp bp zf ifl df cr0 gd sg ram i].
  cbn [c_ip c_cr0 c_seg c_sp c_ax c_bp c_zf c_gdtr c_ram c_ports] in *. subst ip. cbn [Nat.add].
  do 4 (eapply wp_run_step; [reflexivity|]; cbn [exec]; cpu_go; rewrite ?Hcs; cpu_go).
  do 3 (eapply wp_run_step; [reflexivity|]; cbn [exec]; cpu_go; rewrite low_u16; apply wp_load_real; [exact Hre|]; cpu_go).
  eapply wp_run_step; [reflexivity|]; cbn [exec]; cpu_go.
  replace (u32 (sp / 2 ^ 16 * 2 ^ 16 + start mod 2 ^ 16)) with start by divmod.
  apply HQ; reflexivity.
Qed.

Lemma boot_from_a20 c ax zf sg i :
  bios c -> seg_base (sg DS) = 0 -> seg_limit (sg DS) = seg_limit (c_seg c DS) -> sg CS = c_seg c CS ->
  wp (run addr prog 16) (fun f c' => f = "bootmain"%string /\ exists ax' sg',
      (forall r, sg' r = protected_segs r) /\
      c' = MkCpu 36 ax' (start - 4) (c_bp c) zf false false (Z.lor (c_cr0 c) CR0_PE_ON) (gdt, 0x17) sg'
             (write (boot_ram (c_ram c)) (start - 4) (little_endian (addr 36) 4)) i)
    (MkCpu 20 ax start (c_bp c) zf false false (c_cr0 c) (c_gdtr c) sg (c_ram c) i).
Proof.
  intros [Hip Haddr Hcr Hre Hcs Hds Hsp Hst [Hgr Hg] [Hdr Hd] Hstk] Hb Hl Hc. destruct c as [ip ax0 sp bp zf0 ifl df cr0 gd sg0 ram i0].
  cbn [c_ip c_cr0 c_seg c_sp c_ax c_bp c_zf c_gdtr c_ram c_ports] in *.
  assert (Hpe : Z.testbit (Z.lor cr0 CR0_PE_ON) 0 = true) by (rewrite Z.lor_spec; apply orb_true_r).
  do 2 (eapply wp_run_step; [reflexivity|]; cbn [exec]; cpu_go).
  eapply wp_run_step; [reflexivity|]. cpu_norm; apply (wp_lgdt _ _ _ gdt); cpu_norm; [done|lia|lia|done|lia|right; lia|]. cpu_go.
  do 3 (eapply wp_run_step; [reflexivity|]; cbn [exec]; cpu_go).
  rewrite !all_u32, (u32_small cr0), (u32_small (Z.lor cr0 CR0_PE_ON)) by (done || by apply lor_1_range).
  assert (Hcode : array ram (gdt + 8) (ASM_SEG (Z.lor STA_X STA_R) 0x0 0xffffffff)).
  { by apply (array_part _ _ _ ASM_SEG_NULL _ (ASM_SEG STA_W 0x0 0xffffffff)). }
  assert (Hdata : array ram (gdt + 16) (ASM_SEG STA_W 0x0 0xffffffff)).
  { apply (array_part _ _ _ (ASM_SEG_NULL ++ ASM_SEG (Z.lor STA_X STA_R) 0x0 0xffffffff) _ []); [|done]. by rewrite app_nil_r. }
  assert (Ea : u32 (gdt + 8) = gdt + 8 /\ u32 (gdt + 16) = gdt + 16) by (by rewrite !u32_small by lia). destruct Ea as [E8 E16].
  eapply wp_run_step; [reflexivity|]. apply (wp_ljmp _ _ _ _ 27 0 (ASM_SEG (Z.lor STA_X STA_R) 0x0 0xffffffff)); [|reflexivity|apply Haddr|].
  { describe E8. }
  cpu_norm. cbn [fst]. change (gdt + PROT_MODE_CSEG) with (gdt + 8). rewrite E8. set (ram1 := accessed (gdt + 8) ram).
  assert (Hdata1 : array ram1 (gdt + 16) (ASM_SEG STA_W 0x0 0xffffffff)) by (apply array_accessed_ne; [done|lia]).
  do 3 (eapply wp_run_step; [reflexivity|]; cbn [exec]; cpu_go).
  eapply wp_run_step; [reflexivity|]. apply (wp_mov_to_seg _ _ _ 0 (ASM_SEG STA_W 0x0 0xffffffff)); cpu_norm; rewrite low_u16; cbn [fst].
  { describe E16. }
  change (u16 PROT_MODE_DSEG) with 16. rewrite E16. pose proof (array_accessed _ _ _ Hdata1) as Hdata2.
  set (ram2 := accessed (gdt + 16) ram1) in *.
  assert (E2 : accessed (gdt + 16) ram2 = ram2) by apply accessed_twice.
  do 4 (eapply wp_run_step; [reflexivity|]; apply (wp_mov_to_seg _ _ _ 0 (mark (ASM_SEG STA_W 0x0 0xffffffff))); cpu_norm; rewrite low_u16; cbn [fst];
    [describe E16|change (u16 PROT_MODE_DSEG) with 16; rewrite E16, E2]).
  eapply wp_run_step; [reflexivity|]. eapply wp_call; cpu_norm; [reflexivity|lia| |].
  { rewrite u32_small by lia. by do 2 apply mapped_accessed. }
  rewrite (u32_small (0 + (start - 4))) by lia. split; [done|]. eexists _, _. split; [|reflexivity]. intros r. by destruct r.
Qed.

(** The commands that open the A20 gate, each after the polls it had to wait for. *)
Definition a20_log (polls1 polls2 : list Z) : list port_event :=
  (status_read <$> polls1) ++ [Out 8 0x64 0xd1] ++ (status_read <$> polls2) ++ [Out 8 0x60 0xdf].

Lemma boot_a20 busy1 ready1 busy2 ready2 rest fuel (Q : string -> cpu -> Prop) ax bp zf cr0 gd sg ram g :
  Forall (fun v => Z.testbit v 1 = true) (busy1 ++ busy2) -> Z.testbit ready1 1 = false -> Z.testbit ready2 1 = false ->
  (forall ax', wp (run addr prog fuel) Q
     (MkCpu 20 ax' start bp true false false cr0 gd sg ram (Io rest (g ++ a20_log (busy1 ++ [ready1]) (busy2 ++ [ready2]))))) ->
  wp (run addr prog (4 * (length busy1 + 1) + (2 + (4 * (length busy2 + 1) + (2 + fuel))))) Q
    (MkCpu 8 ax start bp zf false false cr0 gd sg ram (Io (busy1 ++ ready1 :: busy2 ++ ready2 :: rest) g)).
Proof.
  intros [Hb1 Hb2]%Forall_app Hr1 Hr2 HQ.
  apply (poll_loop addr prog 8 "seta20.1"); [reflexivity..|done|done|]. intros ax1.
  eapply wp_run_step; [reflexivity|]. cbn [exec]. cpu_go.
  eapply wp_run_step; [reflexivity|]. cbn [exec]. cpu_go. rewrite low_u8. apply wp_outb. cpu_go.
  apply (poll_loop addr prog 14 "seta20.2"); [reflexivity..|done|done|]. intros ax2.
  eapply wp_run_step; [reflexivity|]. cbn [exec]. cpu_go.
  eapply wp_run_step; [reflexivity|]. cbn [exec]. cpu_go. rewrite low_u8. apply wp_outb. cpu_go.
  lazymatch goal with
  | |- context [Io rest ?l] =>
      replace l with (g ++ a20_log (busy1 ++ [ready1]) (busy2 ++ [ready2])) by (unfold a20_log; rewrite <- !app_assoc; reflexivity)
  end.
  apply HQ.
Qed.

Lemma boot_run c busy1 ready1 busy2 ready2 rest :
  bios c -> io_in (c_ports c) = busy1 ++ ready1 :: busy2 ++ ready2 :: rest ->
  Forall (fun v => Z.testbit v 1 = true) (busy1 ++ busy2) -> Z.testbit ready1 1 = false -> Z.testbit ready2 1 = false ->
  wp (run addr prog (36 + 4 * (length busy1 + length busy2))) (fun f c' => f = "bootmain"%string /\
    c_cr0 c' = Z.lor (c_cr0 c) CR0_PE_ON /\ c_if c' = false /\ c_sp c' = start - 4 /\
    (forall r, c_seg c' r = protected_segs r) /\ c_ram c' = write (boot_ram (c_ram c)) (start - 4) (little_endian (addr 36) 4) /\
    c_ports c' = Io rest (io_log (c_ports c) ++ a20_log (busy1 ++ [ready1]) (busy2 ++ [ready2]))) c.
Proof.
  intros Hbios Hin [Hb1 Hb2]%Forall_app Hr1 Hr2.
  replace (36 + 4 * (length busy1 + length busy2))%nat
    with (8 + (4 * (length busy1 + 1) + (2 + (4 * (length busy2 + 1) + (2 + 16)))))%nat by lia.
  apply boot_to_a20; [done|]. intros ax sg Hb Hl Hc.
  destruct (c_ports c) as [i g]. cbn [io_in io_log] in *. subst i.
  apply boot_a20; [by apply Forall_app|done|done|]. intros ax'.
  eapply wp_mono; [by apply boot_from_a20|]. intros f c' (-> & ax2 & sg' & Hsg & ->). by repeat split.
Qed.

(** C7: However long the keyboard controller is busy, boot.S gets to [bootmain], in
    protected mode: the A20 gate is open, with no command given while the
    controller was busy; interrupts are off; every segment register covers all of
    memory from address 0; the stack begins at [start] and holds the return address,
    and the processor has marked the two descriptors accessed; nothing else in memory
    has changed. *)
Theorem boot_S_correct c busy1 ready1 busy2 ready2 rest :
  bios c -> io_in (c_ports c) = busy1 ++ ready1 :: busy2 ++ ready2 :: rest ->
  Forall (fun v => Z.testbit v 1 = true) (busy1 ++ busy2) -> Z.testbit ready1 1 = false -> Z.testbit ready2 1 = false ->
  let steps := (36 + 4 * (length busy1 + length busy2))%nat in
  exists c', (forall fuel, (steps <= fuel)%nat -> run addr prog fuel c = Ret "bootmain"%string c') /\
    c_cr0 c' = Z.lor (c_cr0 c) CR0_PE_ON /\ c_if c' = false /\ c_sp c' = start - 4 /\
    (forall r, c_seg c' r = protected_segs r) /\ c_ram c' = write (boot_ram (c_ram c)) (start - 4) (little_endian (addr 36) 4) /\
    c_ports c' = Io rest (io_log (c_ports c) ++ a20_log (busy1 ++ [ready1]) (busy2 ++ [ready2])).
Proof.
  intros Hbios Hin Hb Hr1 Hr2 steps.
  destruct (wp_run_enough _ _ _ _ _ (boot_run c busy1 ready1 busy2 ready2 rest Hbios Hin Hb Hr1 Hr2)) as (f & c' & Hrun & -> & Hc').
  by exists c'.
Qed.
End boot.

(** ** kern/entry.S *)

(** The three words of the Multiboot header add up to 0. *)
Lemma multiboot_header_sums : u32 (MULTIBOOT_HEADER_MAGIC + MULTIBOOT_HEADER_FLAGS + CHECKSUM) = 0.
Proof. reflexivity. Qed.

(** With the directory as its own table at VPT, [vpt] is the array of all page table
    entries and [vpd] is the entry of the page that [vpt] starts with: the directory. *)
Lemma vpd_in_vpt : vpd = vpt + 4 * (vpt / PGSIZE) /\ vpd mod PGSIZE = 0.
Proof. split; reflexivity. Qed.

Lemma RELOC_high x : KERNBASE <= x < 2 ^ 32 -> RELOC x = x - KERNBASE.
Proof. unfold RELOC. change KERNBASE with 0xf0000000. intros. by rewrite u32_small by lia. Qed.

Section entry.
Context (addr : nat -> Z) (mygdt mygdtdesc bootstacktop : Z).
Local Abbreviation prog := (entry_S mygdtdesc bootstacktop).

(** What the boot loader leaves: the segments of boot.S, and the kernel loaded at its
    link addresses less KERNBASE, above the BIOS data area. *)
Record kernel_loaded (c : cpu) : Prop := KernelLoaded {
  kl_ip : c_ip c = 0%nat;
  kl_addr : forall n, 0 <= addr n < 2 ^ 32;
  kl_protected : Z.testbit (c_cr0 c) 0 = true;
  kl_segs : forall r, c_seg c r = protected_segs r;
  kl_bda : mapped (c_ram c) 0x472 2;
  kl_mygdt : KERNBASE + 0x474 <= mygdt < 2 ^ 32 - 24 /\ array (c_ram c) (mygdt - KERNBASE) mygdt_bytes;
  kl_gdtdesc : KERNBASE + 0x474 <= mygdtdesc < 2 ^ 32 - 6 /\ array (c_ram c) (mygdtdesc - KERNBASE) (mygdtdesc_bytes mygdt);
  kl_stack : KERNBASE + 0x478 <= bootstacktop < 2 ^ 32 /\ mapped (c_ram c) (bootstacktop - KERNBASE - 4) 4
}.

(** The segments of [mygdt] take a link address to its load address. *)
Definition relocated_segs (r : sreg) : seg :=
  match r with
  | CS => loaded_seg CODE_SEL (2 ^ 32 - KERNBASE)
  | DS | ES | SS => loaded_seg DATA_SEL (2 ^ 32 - KERNBASE)
  | FS | GS => protected_segs r
  end.

Lemma relocated_linear r x : r <> FS -> r <> GS -> KERNBASE <= x < 2 ^ 32 -> linear (relocated_segs r) x = x - KERNBASE.
Proof.
  intros Hf Hg Hx. unfold linear. replace (seg_base (relocated_segs r)) with (2 ^ 32 - KERNBASE) by (by destruct r).
  change KERNBASE with 0xf0000000 in *. unfold u32. replace (2 ^ 32 - 0xf0000000 + x) with (x - 0xf0000000 + 1 * 2 ^ 32) by lia.
  rewrite Z.mod_add by lia. by apply Z.mod_small; lia.
Qed.

Lemma RELOC_range lo x : KERNBASE + lo <= x < 2 ^ 32 -> 0 <= lo -> RELOC x = x - KERNBASE /\ lo <= x - KERNBASE < 2 ^ 28.
Proof. intros. split; [apply RELOC_high; lia|]. change KERNBASE with 0xf0000000 in *. lia. Qed.

(** The BIOS is told of a warm boot; the descriptors of [mygdt] are accessed. *)
Definition entry_ram (m : mem) : mem := accessed (mygdt - KERNBASE + 8) (accessed (mygdt - KERNBASE + 16) (write m 0x472 [0x34; 0x12])).

Lemma entry_run c (Q : string -> cpu -> Prop) :
  kernel_loaded c ->
  (forall ax sg, (forall r, sg r = relocated_segs r) ->
     Q "i386_init"%string (MkCpu 11 ax (bootstacktop - 4) 0 (c_zf c) (c_if c) (c_df c) (c_cr0 c) (mygdt - KERNBASE, 0x17) sg
       (write (entry_ram (c_ram c)) (RELOC (bootstacktop - 4)) (little_endian (addr 11) 4)) (c_ports c))) ->
  wp (run addr prog 11) Q c.
Proof.
  intros [Hip Haddr Hpe Hsg Hbda [Hgr Hg] [Hdr Hd] [Hsr Hs]] HQ. destruct c as [ip ax sp bp zf ifl df cr0 gd sg ram i].
  cbn [c_ip c_cr0 c_seg c_sp c_ax c_bp c_zf c_gdtr c_ram c_ports c_if c_df] in *. subst ip.
  destruct (RELOC_range 0x474 mygdt) as [Er Hr]; [lia..|]. destruct (RELOC_range 0x474 mygdtdesc) as [Er2 Hr2]; [lia..|].
  set (ram1 := write ram 0x472 [0x34; 0x12]) in *.
  assert (Hg1 : array ram1 (mygdt - KERNBASE) mygdt_bytes) by (apply array_write; [done|cbn; lia]).
  assert (Hd1 : array ram1 (mygdtdesc - KERNBASE) (mygdtdesc_bytes mygdt)) by (apply array_write; [done|cbn; lia]).
  assert (Hds : seg_base (sg DS) = 0 /\ seg_limit (sg DS) = 2 ^ 32 - 1) by (by rewrite Hsg). destruct Hds as [Hb Hl].
  eapply wp_run_step; [reflexivity|]. apply wp_mov_to_mem; cpu_norm; [done|lia|lia|done|].
  change (write ram 1138 (little_endian 4660 2)) with ram1.
  eapply wp_run_step; [reflexivity|]. rewrite Er2.
  apply (wp_lgdt _ _ _ (mygdt - KERNBASE)); cpu_norm; [done|lia|lia| |lia|left; by rewrite Hsg|].
  { unfold mygdtdesc_bytes in Hd1. by rewrite Er in Hd1. }
  set (g0 := mygdt - KERNBASE) in *.
  assert (Hcode : array ram1 (g0 + 8) (ASM_SEG (Z.lor STA_X STA_R) (- KERNBASE) 0xffffffff)).
  { by apply (array_part _ _ _ ASM_SEG_NULL _ (ASM_SEG STA_W (- KERNBASE) 0xffffffff)). }
  assert (Hdata : array ram1 (g0 + 16) (ASM_SEG STA_W (- KERNBASE) 0xffffffff)).
  { apply (array_part _ _ _ (ASM_SEG_NULL ++ ASM_SEG (Z.lor STA_X STA_R) (- KERNBASE) 0xffffffff) _ []); [|done]. by rewrite app_nil_r. }
  assert (Ea : u32 (g0 + 8) = g0 + 8 /\ u32 (g0 + 16) = g0 + 16) by (by rewrite !u32_small by lia). destruct Ea as [E8 E16].
  eapply wp_run_step; [reflexivity|]. cbn [exec]. cpu_go. rewrite all_u32. change (u32 DATA_SEL) with 16.
  eapply wp_run_step; [reflexivity|]. apply (wp_mov_to_seg _ _ _ (2 ^ 32 - KERNBASE) (ASM_SEG STA_W (- KERNBASE) 0xffffffff));
    cpu_norm; change (u16 16) with 16; cbn [fst].
  { describe E16. }
  rewrite E16. pose proof (array_accessed _ _ _ Hdata) as Hdata2. set (ram2 := accessed (g0 + 16) ram1) in *.
  assert (Hcode2 : array ram2 (g0 + 8) (ASM_SEG (Z.lor STA_X STA_R) (- KERNBASE) 0xffffffff)) by (apply array_accessed_ne; [done|cbn; lia]).
  assert (E2 : accessed (g0 + 16) ram2 = ram2) by apply accessed_twice.
  do 2 (eapply wp_run_step; [reflexivity|]; apply (wp_mov_to_seg _ _ _ (2 ^ 32 - KERNBASE) (mark (ASM_SEG STA_W (- KERNBASE) 0xffffffff)));
    cpu_norm; cbn [fst]; [describe E16|change (u16 16) with 16; rewrite E16, E2]).
  eapply wp_run_step; [reflexivity|].
  apply (wp_ljmp _ _ _ _ 7 (2 ^ 32 - KERNBASE) (ASM_SEG (Z.lor STA_X STA_R) (- KERNBASE) 0xffffffff)); [|reflexivity|apply Haddr|].
  { describe E8. }
  cpu_norm. cbn [fst]. change (g0 + CODE_SEL) with (g0 + 8). rewrite E8.
  do 3 (eapply wp_run_step; [reflexivity|]; cbn [exec]; cpu_go).
  assert (Ht : 4 <= bootstacktop < 2 ^ 32) by (change KERNBASE with 0xf0000000 in Hsr; lia).
  assert (Et : u32 (2 ^ 32 - KERNBASE + (bootstacktop - 4)) = RELOC (bootstacktop - 4)).
  { unfold RELOC, u32. replace (2 ^ 32 - KERNBASE + (bootstacktop - 4)) with (bootstacktop - 4 - KERNBASE + 1 * 2 ^ 32) by lia.
    by rewrite Z.mod_add. }
  rewrite !all_u32, (u32_small bootstacktop) by lia.
  eapply wp_run_step; [reflexivity|]. apply (wp_call _ _ _ DATA_SEL (2 ^ 32 - KERNBASE)); cpu_norm; [done|done| |].
  { rewrite Et, RELOC_high by lia. unfold ram2, ram1. do 2 apply mapped_accessed. apply mapped_write. replace (bootstacktop - 4 - KERNBASE) with (bootstacktop - KERNBASE - 4) by lia. done. }
  rewrite Et. apply HQ. intros r. destruct r; (reflexivity || apply Hsg).
Qed.

(** entry.S gets from the boot loader to [i386_init], in 11 steps: the code and data
    segments take every address from KERNBASE on to where the kernel is loaded, so
    that C code runs at its link addresses with no page table; the stack is
    [bootstack], empty but for the return address, and the frame pointer is 0; the
    BIOS is told of a warm boot, and nothing else in memory has changed but the marks in
    the GDT. *)
Theorem entry_S_correct c :
  kernel_loaded c ->
  exists c', (forall fuel, (11 <= fuel)%nat -> run addr prog fuel c = Ret "i386_init"%string c') /\
    (forall r, c_seg c' r = relocated_segs r) /\
    (forall r x, r <> FS -> r <> GS -> KERNBASE <= x < 2 ^ 32 -> linear (c_seg c' r) x = x - KERNBASE) /\
    c_gdtr c' = (mygdt - KERNBASE, 0x17) /\ c_bp c' = 0 /\ c_sp c' = bootstacktop - 4 /\
    c_ram c' = write (entry_ram (c_ram c)) (RELOC (c_sp c')) (little_endian (addr 11) 4) /\
    c_ports c' = c_ports c.
Proof.
  intros Hk.
  enough (H : wp (run addr prog 11) (fun f c' => f = "i386_init"%string /\ (forall r, c_seg c' r = relocated_segs r) /\
    c_gdtr c' = (mygdt - KERNBASE, 0x17) /\ c_bp c' = 0 /\ c_sp c' = bootstacktop - 4 /\
    c_ram c' = write (entry_ram (c_ram c)) (RELOC (c_sp c')) (little_endian (addr 11) 4) /\ c_ports c' = c_ports c) c).
  { apply wp_run_enough in H as (f & c' & Hrun & -> & Hsg' & Hc'). exists c'. split; [exact Hrun|]. split; [exact Hsg'|]. split; [|exact Hc'].
    intros r x ???. rewrite Hsg'. by apply relocated_linear. }
  apply entry_run; [done|]. intros ax sg Hsg. split_and!; done.
Qed.
End entry.

(** The boot sector at 0x7c00, with a controller that is busy twice and then once. *)
Module BootSector.
Definition addr (n : nat) : Z := 0x7c00 + 2 * Z.of_nat n mod 0x60.
Definition real (r : sreg) : seg := MkSegment 0 0 0xffff false.
Definition ram : mem := mem_of 0x7bfc (replicate 100 0 ++ boot_gdt ++ boot_gdtdesc 0x7c60).
Definition start_state : cpu := MkCpu 0 0xaa55 0x6f00 0 false true true 0x60000010 (0, 0xffff) real ram (Io [2; 3; 0x1c; 2; 0x18; 7] []).

Lemma bios_start : bios addr 0x7c00 0x7c60 0x7c78 start_state.
Proof.
  split; cbn [start_state c_ip c_cr0 c_seg c_sp c_ram real seg_big seg_limit]; try done.
  - intros n. unfold addr. pose proof (Z.mod_pos_bound (2 * Z.of_nat n) 0x60). lia.
  - split; [done|]. by apply (write_part ∅ 0x7bfc 100 _ (replicate 100 0) _ (boot_gdtdesc 0x7c60)).
  - split; [done|]. by apply (write_part ∅ 0x7bfc 124 _ (replicate 100 0 ++ boot_gdt) _ []).
  - apply (array_mapped _ _ [0; 0; 0; 0]). by apply (write_part ∅ 0x7bfc 0 _ [] _ (replicate 96 0 ++ boot_gdt ++ boot_gdtdesc 0x7c60)).
Qed.

Lemma boot_S_correct_witness :
  exists c', (forall fuel, (48 <= fuel)%nat -> run addr (boot_S 0x7c00 0x7c78) fuel start_state = Ret "bootmain"%string c') /\
    c_cr0 c' = 0x60000011 /\ c_if c' = false /\ c_sp c' = 0x7bfc /\
    (forall r, c_seg c' r = protected_segs r) /\ c_ram c' = write (boot_ram 0x7c60 ram) 0x7bfc (little_endian (addr 36) 4) /\
    c_ports c' = Io [7] (a20_log [2; 3; 0x1c] [2; 0x18]).
Proof.
  apply (boot_S_correct addr 0x7c00 0x7c60 0x7c78 start_state [2; 3] 0x1c [2] 0x18 [7]).
  - apply bios_start.
  - reflexivity.
  - repeat constructor.
  - reflexivity.
  - reflexivity.
Defined.
End BootSector.

(** A kernel at 1 MB whose data starts at 0xf0110000. *)
Module LoadedKernel.
Definition addr (n : nat) : Z := 0xf010000c + 4 * Z.of_nat n mod 0x60.
Definition ram : mem := write (mem_of 0x472 [0; 0]) 0x10fff8 (replicate 8 0 ++ mygdt_bytes ++ mygdtdesc_bytes 0xf0110000).
Definition start_state : cpu := MkCpu 0 0 0x7bec 0x7bf8 true false false 0x11 (0x7c4c, 0x17) protected_segs ram (Io [] []).

Lemma loaded_start : kernel_loaded addr 0xf0110000 0xf0110018 0xf0110000 start_state.
Proof.
  split; cbn [start_state c_ip c_cr0 c_seg c_ram]; try done.
  - intros n. unfold addr. pose proof (Z.mod_pos_bound (4 * Z.of_nat n) 0x60). lia.
  - apply mapped_write. apply (array_mapped _ _ [0; 0]). apply write_array.
  - split; [done|]. by apply (write_part _ 0x10fff8 8 _ (replicate 8 0) _ (mygdtdesc_bytes 0xf0110000)).
  - split; [done|]. by apply (write_part _ 0x10fff8 32 _ (replicate 8 0 ++ mygdt_bytes) _ []).
  - split; [done|]. apply (array_mapped _ _ [0; 0; 0; 0]).
    by apply (write_part _ 0x10fff8 4 _ [0; 0; 0; 0] _ (mygdt_bytes ++ mygdtdesc_bytes 0xf0110000)).
Qed.

Lemma entry_S_correct_witness :
  exists c', (forall fuel, (11 <= fuel)%nat -> run addr (entry_S 0xf0110018 0xf0110000) fuel start_state = Ret "i386_init"%string c') /\
    (forall r, c_seg c' r = relocated_segs r) /\
    (forall r x, r <> FS -> r <> GS -> KERNBASE <= x < 2 ^ 32 -> linear (c_seg c' r) x = x - KERNBASE) /\
    c_gdtr c' = (0x110000, 0x17) /\ c_bp c' = 0 /\ c_sp c' = 0xf010fffc /\
    c_ram c' = write (entry_ram 0xf0110000 ram) (RELOC (c_sp c')) (little_endian (addr 11) 4) /\ c_ports c' = Io [] [].
Proof. apply (entry_S_correct addr 0xf0110000 0xf0110018 0xf0110000 start_state), loaded_start. Defined.
End LoadedKernel.
