(* ===== verification/Trap.v ===== *)
(** * Trap: interrupt entry and dispatch (kern/trap.c, kern/trapentry.S)

    The interrupt descriptor table that [idt_init] builds, the stubs of
    trapentry.S that complete the frame the processor pushes, and the dispatch in
    [trap].  The console and the kernel monitor are parameters. *)

From S2P Require Import Prelude Layout Printfmt FormatSpec Printf BootMem Segment.
Open Scope Z_scope.

(** ** inc/trap.h *)

Definition T_BRKPT : Z := 3.
Definition T_SYSCALL : Z := 48.

Record Registers : Type := MkRegisters {
  reg_edi : Z; reg_esi : Z; reg_ebp : Z; reg_oesp : Z; reg_ebx : Z; reg_edx : Z; reg_ecx : Z; reg_eax : Z }.

Record Trapframe : Type := MkTrapframe {
  tf_regs : Registers; tf_es : Z; tf_ds : Z; tf_trapno : Z;
  tf_err : Z; tf_eip : Z; tf_cs : Z; tf_eflags : Z; tf_esp : Z; tf_ss : Z }.

Definition SIZEOF_STRUCT_TRAPFRAME : Z := 0x44.

Definition excnames : list (list Z) :=
  [bytes "Divide error"; bytes "Debug"; bytes "Non-Maskable Interrupt"; bytes "Breakpoint"; bytes "Overflow";
   bytes "BOUND Range Exceeded"; bytes "Invalid Opcode"; bytes "Device Not Available"; bytes "Double Falt";
   bytes "Coprocessor Segment Overrun"; bytes "Invalid TSS"; bytes "Segment Not Present"; bytes "Stack Fault";
   bytes "General Protection"; bytes "Page Fault"; bytes "(unknown trap)"; bytes "x87 FPU Floating-Point Error";
   bytes "Alignment Check"; bytes "Machine-Check"; bytes "SIMD Floating-Point Exception"].

(** [trapno] is an [int], compared with an unsigned length. *)
Definition trapname (trapno : Z) : list Z :=
  if u32 trapno <? Z.of_nat (length excnames) then default [] (excnames !! Z.to_nat (u32 trapno))
  else if trapno =? T_SYSCALL then bytes "System call"
  else bytes "(unknown trap)".

(** ** idt_init *)

Definition gdt : list Segdesc :=
  [SEG_NULL; SEG (Z.lor STA_X STA_R) 0 0xffffffff 0; SEG STA_W 0 0xffffffff 0;
   SEG (Z.lor STA_X STA_R) 0 0xffffffff 3; SEG STA_W 0 0xffffffff 3; SEG_NULL].

(** The globals of kern/trap.c, the task register and the loaded IDT. *)
Record traps : Type := Traps {
  t_idt : list Gatedesc; t_gdt : list Segdesc; t_esp0 : Z; t_ss0 : Z; t_tr : Z; t_idtr : option (list Gatedesc) }.

Definition no_gate : Gatedesc := MkGatedesc 0 0 0 0 0 0 0 0 0.
Definition traps0 : traps := Traps (replicate 256 no_gate) gdt 0 0 0 None.

Definition sizeof_Taskstate : Z := 104.

Definition put_gate (n : Z) (g : Gatedesc) (s : traps) : traps :=
  Traps (<[Z.to_nat n := g]> (t_idt s)) (t_gdt s) (t_esp0 s) (t_ss0 s) (t_tr s) (t_idtr s).
Definition set_gate (n istrap sel off dpl : Z) : M traps () := modify (put_gate n (SETGATE istrap sel off dpl)).
Definition put_stack (esp0 ss0 : Z) (s : traps) : traps := Traps (t_idt s) (t_gdt s) esp0 ss0 (t_tr s) (t_idtr s).
Definition put_desc (n : Z) (d : Segdesc) (s : traps) : traps :=
  Traps (t_idt s) (<[Z.to_nat n := d]> (t_gdt s)) (t_esp0 s) (t_ss0 s) (t_tr s) (t_idtr s).
Definition ltr (sel : Z) : M traps () :=
  modify (fun s => Traps (t_idt s) (t_gdt s) (t_esp0 s) (t_ss0 s) (u16 sel) (t_idtr s)).
Definition put_idtr (s : traps) : traps :=
  Traps (t_idt s) (t_gdt s) (t_esp0 s) (t_ss0 s) (t_tr s) (Some (t_idt s)).

(** [sd_s] is cleared in the descriptor built by [SEG16]. *)
Definition tss_desc (ts : Z) : Segdesc :=
  let d := SEG16 STS_T32A ts sizeof_Taskstate 0 in
  MkSegdesc (sd_lim_15_0 d) (sd_base_15_0 d) (sd_base_23_16 d) (sd_type d) 0 (sd_dpl d) (sd_p d)
    (sd_lim_19_16 d) (sd_avl d) (sd_rsv1 d) (sd_db d) (sd_g d) (sd_base_31_24 d).

(** [handler n] is the address of the stub, [ts] that of the task state. *)
Definition idt_init (handler : Z -> Z) (ts : Z) : M traps () :=
  set_gate 1 1 GD_KT (handler 1) 0;;
  set_gate 2 1 GD_KT (handler 2) 0;;
  set_gate 3 1 GD_KT (handler 3) 3;;
  set_gate 4 1 GD_KT (handler 4) 0;;
  set_gate 5 1 GD_KT (handler 5) 0;;
  set_gate 6 1 GD_KT (handler 6) 0;;
  set_gate 7 1 GD_KT (handler 7) 0;;
  set_gate 8 1 GD_KT (handler 8) 0;;
  set_gate 9 1 GD_KT (handler 9) 0;;
  set_gate 10 1 GD_KT (handler 10) 0;;
  set_gate 11 1 GD_KT (handler 11) 0;;
  set_gate 12 1 GD_KT (handler 12) 0;;
  set_gate 13 1 GD_KT (handler 13) 0;;
  set_gate 14 1 GD_KT (handler 14) 0;;
  set_gate 15 1 GD_KT (handler 15) 0;;
  set_gate 16 1 GD_KT (handler 16) 0;;
  set_gate 17 1 GD_KT (handler 17) 0;;
  set_gate 18 1 GD_KT (handler 18) 0;;
  set_gate 19 1 GD_KT (handler 19) 0;;
  set_gate 48 0 GD_KT (handler 48) 3;;
  modify (put_stack KSTACKTOP GD_KD);;
  modify (put_desc (Z.shiftr GD_TSS 3) (tss_desc ts));;
  ltr GD_TSS;;
  modify put_idtr.

(** ** trapentry.S

    A stack is the list of its words, top first. *)

(** TRAPHANDLER and TRAPHANDLER_NOEC: does the stub push a zero error code? *)
Definition stub_pushes_zero (n : Z) : bool :=
  negb ((n =? 8) || ((10 <=? n) && (n <=? 15))).
Definition stub (n : Z) (stack : list Z) : list Z :=
  n :: (if stub_pushes_zero n then [0] else []) ++ stack.

(** [_alltraps]: pushl %ds, pushl %es, pushal. *)
Definition alltraps (ds es : Z) (r : Registers) (stack : list Z) : list Z :=
  [reg_edi r; reg_esi r; reg_ebp r; reg_oesp r; reg_ebx r; reg_edx r; reg_ecx r; reg_eax r; es; ds] ++ stack.

(** The stack read as a [struct Trapframe]. *)
Definition trapframe_of (stack : list Z) : option Trapframe :=
  match stack with
  | edi :: esi :: ebp :: oesp :: ebx :: edx :: ecx :: eax :: es :: ds :: no :: err :: eip :: cs :: fl :: esp :: ss :: _ =>
      Some (MkTrapframe (MkRegisters edi esi ebp oesp ebx edx ecx eax) (u16 es) (u16 ds) no err eip (u16 cs) fl esp (u16 ss))
  | _ => None
  end.

(** ** trap *)

Section dispatch.
Context {P : Type} (cputchar : Z -> M P ()) (monitor : Trapframe -> M P ()).

Definition reg_line (name : string) (v : Z) : M P () :=
  cprintf cputchar (bytes name ++ [10]) [Word v];; mret tt.

Definition print_regs (r : Registers) : M P () :=
  reg_line "  edi  0x%08x" (reg_edi r);;
  reg_line "  esi  0x%08x" (reg_esi r);;
  reg_line "  ebp  0x%08x" (reg_ebp r);;
  reg_line "  oesp 0x%08x" (reg_oesp r);;
  reg_line "  ebx  0x%08x" (reg_ebx r);;
  reg_line "  edx  0x%08x" (reg_edx r);;
  reg_line "  ecx  0x%08x" (reg_ecx r);;
  reg_line "  eax  0x%08x" (reg_eax r).

(** [at_] is the address of the frame. *)
Definition print_trapframe (at_ : Z) (tf : Trapframe) : M P () :=
  reg_line "TRAP frame at %p" at_;;
  print_regs (tf_regs tf);;
  reg_line "  es   0x----%04x" (tf_es tf);;
  reg_line "  ds   0x----%04x" (tf_ds tf);;
  cprintf cputchar (bytes "  trap 0x%08x %s" ++ [10]) [Word (tf_trapno tf); Str (Some (trapname (i32 (tf_trapno tf))))];;
  reg_line "  err  0x%08x" (tf_err tf);;
  reg_line "  eip  0x%08x" (tf_eip tf);;
  reg_line "  cs   0x----%04x" (tf_cs tf);;
  reg_line "  flag 0x%08x" (tf_eflags tf);;
  reg_line "  esp  0x%08x" (tf_esp tf);;
  reg_line "  ss   0x----%04x" (tf_ss tf).

Definition trap (at_ : Z) (tf : Trapframe) : M P () :=
  if tf_trapno tf =? T_BRKPT then monitor tf
  else
    print_trapframe at_ tf;;
    if tf_cs tf =? GD_KT then panic "unhandled trap in kernel"
    else panic "unhandled trap in user mode".
End dispatch.

(** ** Properties *)

(** The gates [idt_init] installs. *)
Definition has_gate (n : Z) : bool := ((1 <=? n) && (n <=? 19)) || (n =? 48).

(** C32: After [idt_init] the gate of vector [n], read from memory, is present for
    1..19 and 48 exactly: it then leads to the stub of [n] in the kernel's code
    segment, is callable from user mode only for breakpoints and system calls, and
    is an interrupt gate for system calls and a trap gate otherwise.  Vector 0,
    the divide error, has no gate.  The processor uses this table, and the kernel
    stack on a trap from user mode. *)
Theorem idt_init_correct handler ts :
  (forall n, 0 <= handler n < 2 ^ 32) -> 0 <= ts < 2 ^ 32 ->
  wp (idt_init handler ts) (fun _ s =>
    (forall n, 0 <= n < 256 -> exists g, t_idt s !! Z.to_nat n = Some g /\
       let g := gate_decode (gate_encode g) in
       if has_gate n then
         gd_p g = 1 /\ gate_offset g = handler n /\ gd_ss g = GD_KT /\ gd_s g = 0 /\
         gd_dpl g = (if (n =? 3) || (n =? 48) then 3 else 0) /\
         gd_type g = (if n =? 48 then STS_IG32 else STS_TG32)
       else gd_p g = 0) /\
    t_idtr s = Some (t_idt s) /\ t_esp0 s = KSTACKTOP /\ t_ss0 s = GD_KD /\ t_tr s = GD_TSS /\
    exists d, t_gdt s !! Z.to_nat (GD_TSS / 8) = Some d /\ SEGDESC_BASE (segdesc_decode (segdesc_encode d)) = ts) traps0.
Proof.
  intros Hh Hts. unfold idt_init, set_gate, ltr. wp_go.
  cbn [t_idt t_gdt t_esp0 t_ss0 t_tr t_idtr put_gate put_stack put_desc put_idtr].
  split; [|split_and!; [reflexivity..|]].
  - assert (Hg : forall sel dpl istrap h, 0 <= h < 2 ^ 32 -> 0 <= sel < 2 ^ 16 -> 0 <= dpl < 4 -> 0 <= istrap < 2 ->
      let g := gate_decode (gate_encode (SETGATE istrap sel h dpl)) in
      gd_p g = 1 /\ gate_offset g = h /\ gd_ss g = sel /\ gd_s g = 0 /\ gd_dpl g = dpl /\
      gd_type g = (if istrap =? 0 then STS_IG32 else STS_TG32)).
    { intros sel dpl istrap h Hhr Hsel Hdpl Hi g. subst g. rewrite gate_decode_encode. unfold gate_offset, SETGATE.
      cbn [gd_off_15_0 gd_ss gd_args gd_rsv1 gd_type gd_s gd_dpl gd_p gd_off_31_16].
      rewrite (u32_small h) by lia. change 0xffff with (2 ^ 16 - 1). rewrite land_ones_mod, Z.shiftr_div_pow2 by lia.
      split_and!; try done; try (apply Z.mod_small; lia); [clear -Hhr; divmod|]. by destruct (istrap =? 0). }
    intros n Hn. assert (Hn' : (Z.to_nat n < 256)%nat) by lia.
    replace n with (Z.of_nat (Z.to_nat n)) by lia. revert Hn'. generalize (Z.to_nat n). clear n Hn. intros n Hn.
    rewrite Nat2Z.id.
    do 20 (destruct n as [|n]; [eexists; split; [reflexivity|];
      first [reflexivity | apply Hg; [apply Hh|unfold GD_KT; lia|lia|lia]]|]).
    do 28 (destruct n as [|n]; [eexists; split; [reflexivity|]; reflexivity|]).
    destruct n as [|n]; [eexists; split; [reflexivity|]; apply Hg; [apply Hh|unfold GD_KT; lia|lia|lia]|].
    exists no_gate. split.
    + rewrite !list_lookup_insert_ne by (apply Nat.lt_neq, (Nat.lt_le_trans _ 49); [apply Nat.ltb_lt; reflexivity | lia]).
      apply lookup_replicate_2. lia.
    + assert (Hf : forall m, 49 <= m -> has_gate m = false) by (intros; unfold has_gate; lia).
      rewrite Hf by lia. reflexivity.
  - eexists. split; [reflexivity|]. rewrite segdesc_decode_encode. unfold tss_desc, SEG16, SEGDESC_BASE.
    cbn [sd_lim_15_0 sd_base_15_0 sd_base_23_16 sd_type sd_s sd_dpl sd_p sd_lim_19_16 sd_avl sd_rsv1 sd_db sd_g sd_base_31_24].
    rewrite (u32_small ts) by lia. by apply base_parts.
Qed.

Lemma idt_init_correct_witness :
  wp (idt_init (fun n => 0xF0100000 + 16 * (n mod 256)) 0xF0120000) (fun _ s => t_esp0 s = KSTACKTOP) traps0.
Proof.
  eapply wp_mono; [apply (idt_init_correct (fun n => 0xF0100000 + 16 * (n mod 256)) 0xF0120000)|].
  - intros n. pose proof (Z.mod_pos_bound n 256). lia.
  - lia.
  - intros _ s (_ & _ & H & _). exact H.
Defined.

(** The words the processor pushes on a trap, top first: the error code for the
    vectors that have one (8, 10 to 14 and 17 in the processor's manual), then
    eip, cs, eflags and, from user mode, esp and ss. *)
Definition has_error_code (n : Z) : bool := (n =? 8) || ((10 <=? n) && (n <=? 14)) || (n =? 17).

(** C33: The stub of vector [n] and [_alltraps] build a [struct Trapframe] that says
    what happened for every vector except 17, the alignment check, where the
    stub pushes a zero on top of the processor's error code, and 15, which no
    processor generates, where it pushes none: for 17 every later field is off by
    one word, so that [tf_eip] is the error code. *)
Theorem trapframe_built n r ds es err eip cs eflags esp ss rest :
  0 <= ds < 2 ^ 16 -> 0 <= es < 2 ^ 16 -> 0 <= cs < 2 ^ 16 -> 0 <= ss < 2 ^ 16 ->
  let pushed := (if has_error_code n then [err] else []) ++ [eip; cs; eflags; esp; ss] ++ rest in
  let frame := trapframe_of (alltraps ds es r (stub n pushed)) in
  (n <> 15 -> n <> 17 ->
     frame = Some (MkTrapframe r es ds n (if has_error_code n then err else 0) eip cs eflags esp ss)) /\
  (n = 17 -> exists tf, frame = Some tf /\ tf_trapno tf = 17 /\ tf_err tf = 0 /\ tf_eip tf = err).
Proof.
  intros Hds Hes Hcs Hss pushed frame. subst pushed frame. destruct r. unfold stub, alltraps.
  split.
  - intros H15 H17. assert (stub_pushes_zero n = negb (has_error_code n)) as ->
      by (unfold stub_pushes_zero, has_error_code; lia).
    by destruct (has_error_code n); cbn; rewrite !u16_small by lia.
  - intros ->. by eexists.
Qed.

Lemma trapframe_built_witness :
  exists tf, trapframe_of (alltraps 16 16 (MkRegisters 0 0 0 0 0 0 0 0) (stub 14 [2; 0x800020; 0x1b; 0; 0; 0x23])) = Some tf /\
    tf_err tf = 2 /\ tf_eip tf = 0x800020.
Proof.
  eexists. split; [|split].
  - apply (trapframe_built 14 (MkRegisters 0 0 0 0 0 0 0 0) 16 16 2 0x800020 0x1b 0 0 0x23 []); lia.
  - reflexivity.
  - reflexivity.
Defined.

(** ** Dispatch *)

Lemma length_trapname n : forallb va_okb [Str (Some (trapname n))] = true.
Proof.
  unfold trapname. destruct (Z.ltb_spec (u32 n) (Z.of_nat (length excnames))) as [H|].
  - pose proof (u32_range n) as Hr. change (Z.of_nat (length excnames)) with 20 in H.
    assert (Hn : (Z.to_nat (u32 n) < 20)%nat) by lia. revert Hn. generalize (Z.to_nat (u32 n)). intros k Hk.
    do 20 (destruct k as [|k]; [reflexivity|]). lia.
  - by destruct (n =? T_SYSCALL).
Qed.

(** The two shapes of lines: [text%0wx] and [text%p]. *)
Definition hex_pieces (text : string) (w : Z) : list piece :=
  [Text (bytes text); Directive (Dir [Zero] false (Some w) None 0 ConvX); Text [10]].

(** [m] prints something and returns. *)
Definition says {A} (m : M (list Z) A) : Prop := forall t, exists a out, m t = Ret a (t ++ out).

Lemma says_bind {A B} (m1 : M (list Z) A) (m2 : M (list Z) B) : says m1 -> says m2 -> says (m1;; m2).
Proof.
  intros H1 H2 t. destruct (H1 t) as (a & o1 & E1). rewrite (bind_eq _ _ _ _ _ E1).
  destruct (H2 (t ++ o1)) as (b & o2 & E2). exists b, (o1 ++ o2). by rewrite E2, app_assoc.
Qed.

Lemma says_cprintf ps fmt args :
  unparse ps = fmt -> forallb piece_okb ps = true -> forallb va_okb args = true -> is_Some (render ps args) ->
  says (cprintf emit fmt args).
Proof. intros Hu Hp Ha [[out rest] Hr] t. exists 0, out. by apply (cprintf_emit ps fmt args out rest). Qed.

Lemma says_line name ps v :
  unparse ps = bytes name ++ [10] -> forallb piece_okb ps = true -> is_Some (render ps [Word v]) -> says (reg_line emit name v).
Proof.
  intros Hu Hp Hr. apply says_bind; [by apply (says_cprintf ps)|]. intros t. exists tt, []. by rewrite app_nil_r.
Qed.

Lemma says_hex8 text v : unparse (hex_pieces text 8) = bytes (text +:+ "%08x") ++ [10] ->
  forallb piece_okb (hex_pieces text 8) = true -> says (reg_line emit (text +:+ "%08x") v).
Proof. intros Hu Hp. by eapply says_line; [exact Hu|exact Hp|eexists]. Qed.
Lemma says_hex4 text v : unparse (hex_pieces text 4) = bytes (text +:+ "%04x") ++ [10] ->
  forallb piece_okb (hex_pieces text 4) = true -> says (reg_line emit (text +:+ "%04x") v).
Proof. intros Hu Hp. by eapply says_line; [exact Hu|exact Hp|eexists]. Qed.

Lemma says_print_regs r : says (print_regs emit r).
Proof.
  unfold print_regs.
  apply says_bind; [by apply (says_hex8 "  edi  0x")|].
  apply says_bind; [by apply (says_hex8 "  esi  0x")|].
  apply says_bind; [by apply (says_hex8 "  ebp  0x")|].
  apply says_bind; [by apply (says_hex8 "  oesp 0x")|].
  apply says_bind; [by apply (says_hex8 "  ebx  0x")|].
  apply says_bind; [by apply (says_hex8 "  edx  0x")|].
  apply says_bind; [by apply (says_hex8 "  ecx  0x")|].
  by apply (says_hex8 "  eax  0x").
Qed.

Lemma says_print_trapframe at_ tf : says (print_trapframe emit at_ tf).
Proof.
  unfold print_trapframe. apply says_bind.
  { eapply (says_line _ [Text (bytes "TRAP frame at "); Directive (Dir [] false None None 0 ConvP); Text [10]]); [done|done|by eexists]. }
  apply says_bind; [apply says_print_regs|].
  apply says_bind; [by apply (says_hex4 "  es   0x----")|].
  apply says_bind; [by apply (says_hex4 "  ds   0x----")|].
  apply says_bind.
  { apply (says_cprintf [Text (bytes "  trap 0x"); Directive (Dir [Zero] false (Some 8) None 0 ConvX); Text [32];
      Directive (Dir [] false None None 0 ConvS); Text [10]]); [reflexivity|reflexivity|apply length_trapname|by eexists]. }
  apply says_bind; [by apply (says_hex8 "  err  0x")|].
  apply says_bind; [by apply (says_hex8 "  eip  0x")|].
  apply says_bind; [by apply (says_hex4 "  cs   0x----")|].
  apply says_bind; [by apply (says_hex8 "  flag 0x")|].
  apply says_bind; [by apply (says_hex8 "  esp  0x")|].
  by apply (says_hex4 "  ss   0x----").
Qed.

(** A breakpoint enters the kernel monitor and returns when it does; any other
    trap prints the frame and panics, with a message that depends on the code
    segment that was interrupted. *)
Theorem trap_dispatch monitor at_ tf t :
  (tf_trapno tf = T_BRKPT -> trap emit monitor at_ tf t = monitor tf t) /\
  (tf_trapno tf <> T_BRKPT -> exists out, trap emit monitor at_ tf t =
     Panic (if tf_cs tf =? GD_KT then "unhandled trap in kernel" else "unhandled trap in user mode") (t ++ out)).
Proof.
  unfold trap. split.
  - intros ->. by rewrite Z.eqb_refl.
  - intros Hne. replace (tf_trapno tf =? T_BRKPT) with false by lia.
    destruct (says_print_trapframe at_ tf t) as ([] & out & E). exists out.
    rewrite (bind_eq _ _ _ _ _ E). by destruct (tf_cs tf =? GD_KT).
Qed.

Lemma trap_dispatch_witness :
  let tf := MkTrapframe (MkRegisters 0 0 0 0 0 0 0 0) 16 16 14 2 0xF0100000 8 0 0 0 in
  exists out, trap emit (fun _ => mret tt) 0xF010FF00 tf [] = Panic "unhandled trap in kernel" ([] ++ out).
Proof. intros tf. apply (trap_dispatch (fun _ => mret tt) 0xF010FF00 tf []). done. Defined.
