(* ===== verification/SwitchOver.v ===== *)
(** * SwitchOver: how boot_mem_init hands addressing from segments to pages

    The end of [boot_mem_init] (kern/pmap.c) on a processor that segments and pages
    its own accesses: from the segments of entry.S with paging off, through paging
    on with those segments, to flat segments.  The other files reach RAM at
    KERNBASE + x; here this is what the instructions do, fetches, descriptor loads and
    TLB included. *)

From stdpp Require Import relations.
From S2P Require Import Prelude Layout Ports Kernel BootMem BootMap Segment Structs StartAsm Trap.
Open Scope Z_scope.

(** ** The processor *)

Record machine : Type := Machine { m_seg : sreg -> seg; m_gdtr : Z * Z; m_ldtr : seg; m_k : kernel }.
Definition with_seg (r : sreg) (v : seg) (m : machine) : machine :=
  Machine (fun q => if decide (q = r) then v else m_seg m q) (m_gdtr m) (m_ldtr m) (m_k m).
Definition with_gdtr v m := Machine (m_seg m) v (m_ldtr m) (m_k m).
Definition with_ldtr v m := Machine (m_seg m) (m_gdtr m) v (m_k m).
Definition with_k (f : kernel -> kernel) m := Machine (m_seg m) (m_gdtr m) (m_ldtr m) (f (m_k m)).

(** Bytes of the words that RAM is made of. *)
Definition byte (k : kernel) (pa : Z) : Z := word k (pa / 4 * 4) / 2 ^ (8 * (pa mod 4)) mod 256.
Definition set_byte (pa v : Z) (k : kernel) : kernel :=
  set_word (pa / 4 * 4) (word k (pa / 4 * 4) + (v mod 256 - byte k pa) * 2 ^ (8 * (pa mod 4))) k.

(** The physical addresses a linear address may reach: with paging, by an entry of the
    TLB or by the tables.  Everything runs at privilege 0 with CR0.WP clear, so the
    other permission bits do not matter. *)
Definition walk (k : kernel) (la : Z) : option Z := pte (PGNUM (k_cr3 k)) k la.
Definition paging (k : kernel) : bool := Z.testbit (k_cr0 k) 31.
Definition resolves (k : kernel) (la pa : Z) : Prop :=
  if paging k then
    exists e, (k_tlb k !! PGNUM la = Some e \/ walk k la = Some e) /\ Z.testbit e 0 = true /\ pa = PTE_ADDR e + PGOFF la
  else pa = la.

(** [n] bytes at an offset in a segment. *)
Definition within (s : seg) (off n : Z) : Prop := off + n - 1 <= seg_limit s.
Definition reads (k : kernel) (la : Z) (l : list Z) : Prop :=
  forall i b, l !! i = Some b -> exists pa, resolves k (u32 (la + Z.of_nat i)) pa /\ b = byte k pa.

(** ** The instructions *)

Inductive op : Type :=
  | Copy (src dst : Z)          (* *dst = *src, words in DS *)
  | Store (dst v : Z)           (* *dst = v *)
  | Lcr3 (v : Z)
  | Or_cr0 (v : Z)
  | Lgdt (a : Z)
  | Mov_seg (r : sreg) (sel : Z)
  | Ljmp (sel : Z)              (* to the next instruction *)
  | Lldt (sel : Z).

(** A descriptor of the GDT goes to a segment register, and is marked. *)
Definition loads_segment (r : sreg) (sel : Z) (m m' : machine) : Prop :=
  let k := m_k m in
  let '(base, limit) := m_gdtr m in
  let index := Z.land sel 0xfff8 in
  Z.testbit (k_cr0 k) 0 = true /\ Z.testbit sel 2 = false /\ index <> 0 /\ index + 7 <= limit /\
  exists l pa, length l = 8%nat /\ reads k (base + index) l /\ resolves k (u32 (base + index + 5)) pa /\
    let d := segdesc_decode (le l) in
    fits r (Z.land sel 3) d = true /\
    m' = with_seg r (MkSegment sel (SEGDESC_BASE d) (segment_limit d) (negb (sd_db d =? 0)))
           (with_k (set_byte pa (Z.lor (default 0 (l !! 5%nat)) STA_A)) m).

Definition exec_op (o : op) (m m' : machine) : Prop :=
  let k := m_k m in
  match o with
  | Copy src dst =>
      exists p q, within (m_seg m DS) src 4 /\ within (m_seg m DS) dst 4 /\ src mod 4 = 0 /\ dst mod 4 = 0 /\
        resolves k (linear (m_seg m DS) src) p /\ resolves k (linear (m_seg m DS) dst) q /\
        m' = with_k (set_word q (word k p)) m
  | Store dst v =>
      exists q, within (m_seg m DS) dst 4 /\ dst mod 4 = 0 /\ resolves k (linear (m_seg m DS) dst) q /\ m' = with_k (set_word q v) m
  | Lcr3 v => m' = with_k (fun k => set_tlb ∅ (set_cr3 (u32 v) k)) m
  | Or_cr0 v => m' = with_k (fun k => set_cr0 (u32 (Z.lor (k_cr0 k) v)) k) m
  | Lgdt a =>
      exists l, length l = 6%nat /\ within (m_seg m DS) a 6 /\ reads k (linear (m_seg m DS) a) l /\
        m' = with_gdtr (le (drop 2 l), le (take 2 l)) m
  | Mov_seg r sel => loads_segment r sel m m'
  | Ljmp sel => loads_segment CS sel m m'
  | Lldt sel => Z.land sel 0xfffc = 0 /\ m' = with_ldtr (null_seg sel) m
  end.

(** pmap.c from the copy of the directory entry on; gdt_pd is at [gdt_pd]. *)
Definition switch_ops (kern_pgdir gdt_pd : Z) : list op := [
  Copy (kern_pgdir + 4 * PDX KERNBASE) kern_pgdir;
  Lcr3 (kern_pgdir - KERNBASE);
  Or_cr0 (Z.lor CR0_PE CR0_PG);
  Lgdt gdt_pd;
  Mov_seg GS GD_KD;
  Mov_seg FS GD_KD;
  Mov_seg ES GD_KD;
  Mov_seg DS GD_KD;
  Mov_seg SS GD_KD;
  Ljmp GD_KT;
  Lldt 0;
  Store kern_pgdir 0;
  Lcr3 (kern_pgdir - KERNBASE)].

(** What gdt and gdt_pd hold. *)
Definition gdt_bytes : list Z := flat_map (fun d => little_endian (segdesc_encode d) 8) gdt.
Definition gdt_pd_bytes (gdt_va : Z) : list Z := little_endian (Z.of_nat (length gdt_bytes) - 1) 2 ++ little_endian gdt_va 4.

(** ** Runs *)

Section run.
Context (ip : nat -> Z) (ops : list op).

(** [Lost] is a processor that has fetched something else than its next
    instruction, which takes the bytes from [ip i] to [ip (S i)]. *)
Inductive state : Type := At (i : nat) (m : machine) | Lost.

Definition fetches (m : machine) (a pa : Z) : Prop :=
  within (m_seg m CS) a 1 /\ resolves (m_k m) (linear (m_seg m CS) a) pa.

(** Besides the instructions, the TLB may take in the entry of any page, and drop one,
    at any time. *)
Inductive machine_step : state -> state -> Prop :=
  | step_op i m o m' :
      ops !! i = Some o -> (forall a, ip i <= a < ip (S i) -> fetches m a (a - KERNBASE)) ->
      exec_op o m m' -> machine_step (At i m) (At (S i) m')
  | step_lost i m a pa :
      (i < length ops)%nat -> ip i <= a < ip (S i) -> fetches m a pa -> pa <> a - KERNBASE -> machine_step (At i m) Lost
  | step_fill i m la e :
      0 <= la < 2 ^ 32 -> paging (m_k m) = true -> walk (m_k m) la = Some e -> Z.testbit e 0 = true ->
      machine_step (At i m) (At i (with_k (fun k => set_tlb (<[PGNUM la := e]> (k_tlb k)) k) m))
  | step_evict i m n :
      machine_step (At i m) (At i (with_k (fun k => set_tlb (delete n (k_tlb k)) k) m)).
End run.

(** ** Bytes and tables *)

Lemma byte_word k k' pa : word k' (pa / 4 * 4) = word k (pa / 4 * 4) -> byte k' pa = byte k pa.
Proof. unfold byte. by intros ->. Qed.

Lemma word_set_byte k pa v a : a <> pa / 4 * 4 -> word (set_byte pa v k) a = word k a.
Proof. intros Ha. unfold set_byte. by rewrite word_set_word, decide_False by done. Qed.

(** A word by its bytes; the fourth may be anything. *)
Lemma word_digits w : exists b0 b1 b2 b3, 0 <= b0 < 256 /\ 0 <= b1 < 256 /\ 0 <= b2 < 256 /\
  w = b0 + 256 * b1 + 65536 * b2 + 16777216 * b3.
Proof. exists (w mod 256), (w / 256 mod 256), (w / 65536 mod 256), (w / 16777216). split_and!; divmod. Qed.

Lemma digit_of b0 b1 b2 b3 : 0 <= b0 < 256 -> 0 <= b1 < 256 -> 0 <= b2 < 256 ->
  let w := b0 + 256 * b1 + 65536 * b2 + 16777216 * b3 in
  w / 1 mod 256 = b0 /\ w / 256 mod 256 = b1 /\ w / 65536 mod 256 = b2 /\ w / 16777216 mod 256 = b3 mod 256.
Proof. intros H0 H1 H2 w. unfold w. split_and!; divmod. Qed.

Lemma digit_set w v j i : 0 <= v < 256 -> 0 <= j < 4 -> 0 <= i < 4 ->
  u32 (w + (v - w / 2 ^ (8 * j) mod 256) * 2 ^ (8 * j)) / 2 ^ (8 * i) mod 256 = if decide (i = j) then v else w / 2 ^ (8 * i) mod 256.
Proof.
  intros Hv Hj Hi. destruct (word_digits w) as (b0 & b1 & b2 & b3 & H0 & H1 & H2 & ->).
  destruct (digit_of b0 b1 b2 b3 H0 H1 H2) as (D0 & D1 & D2 & D3).
  assert (j = 0 \/ j = 1 \/ j = 2 \/ j = 3) as [-> | [-> | [-> | ->]]] by lia;
    assert (i = 0 \/ i = 1 \/ i = 2 \/ i = 3) as [-> | [-> | [-> | ->]]] by lia;
    cbn [Z.mul Pos.mul Z.pow Z.pow_pos Pos.iter]; rewrite ?D0, ?D1, ?D2, ?D3;
    case_decide; try lia; unfold u32; clear D0 D1 D2 D3; divmod.
Qed.

Lemma byte_set_byte k pa v pa' : 0 <= v < 256 -> byte (set_byte pa v k) pa' = if decide (pa' = pa) then v else byte k pa'.
Proof.
  intros Hv. destruct (decide (pa' / 4 = pa / 4)) as [E|Hne].
  - unfold set_byte, byte. rewrite word_set_word, decide_True, E, (Z.mod_small v), digit_set by (done || lia || apply Z.mod_pos_bound; lia).
    repeat case_decide; try done; divmod.
  - rewrite decide_False by congruence. apply byte_word, word_set_byte. lia.
Qed.

(** ** The tables during the switch *)

Section tables.
Context (bootstack d f : Z) (k0 : kernel) (Hdir : dir_ok d k0 f) (Hspace : kernel_space bootstack d k0).

(** Only directory entry 0 may change at or behind the directory. *)
Definition high_same (k : kernel) : Prop := forall pa, d * PGSIZE < pa -> word k pa = word k0 pa.

(** The entry of physical page x / 4096, at KERNBASE + x. *)
Lemma phys_entry x : 0 <= x < 2 ^ 28 -> exists e, pte d k0 (KERNBASE + x) = Some e /\ Z.testbit e 0 = true /\ PTE_ADDR e = x / 4096 * 4096.
Proof using Hspace.
  intros Hx. destruct (seg_entry_W 0 (x / 4096 * 4096)) as (E1 & E2 & _); [divmod|unfold PGSIZE; divmod|].
  exists (seg_entry 0 PTE_W (x / 4096 * 4096)). split; [|split; [done|by rewrite E1, Z.add_0_l]].
  rewrite (pte_page _ _ _ (KERNBASE + x / 4096 * 4096)); [apply (ks_phys _ _ _ Hspace); [divmod|unfold PGSIZE; divmod]|].
  rewrite !PGNUM_div. unfold KERNBASE. rewrite !u32_small by divmod. divmod.
Qed.

Lemma high_slot x : 0 <= x < 2 ^ 28 -> PDX (KERNBASE + x) = 960 + x / 2 ^ 22 /\ present d k0 (PDX (KERNBASE + x)) = true /\
  d < table d k0 (PDX (KERNBASE + x)).
Proof using Hspace Hdir.
  intros Hx. assert (E : PDX (KERNBASE + x) = 960 + x / 2 ^ 22) by (rewrite PDX_div; unfold KERNBASE; rewrite u32_small by lia; divmod).
  assert (Hp : present d k0 (PDX (KERNBASE + x)) = true).
  { destruct (phys_entry x Hx) as (e & He & _). unfold pte in He. by destruct (present d k0 (PDX (KERNBASE + x))). }
  split; [done|]. split; [done|]. apply (bo_tables _ _ _ Hdir); [apply PDX_range| |done]. rewrite E. change vpt_slot with 959. divmod.
Qed.

Lemma pte_high k x : high_same k -> 0 <= x < 2 ^ 28 -> pte d k (KERNBASE + x) = pte d k0 (KERNBASE + x).
Proof using Hspace Hdir.
  intros Hs Hx. destruct (high_slot x Hx) as (E & Hp & Ht). pose proof (PTX_range (KERNBASE + x)).
  assert (Hpde : pde d k (PDX (KERNBASE + x)) = pde d k0 (PDX (KERNBASE + x))) by (apply Hs; rewrite E; divmod).
  unfold pte, present, table in *. rewrite Hpde, Hp, Hs; [done|]. unfold PGSIZE in *. lia.
Qed.

(** With entry 960 of the directory copied to entry 0, linear address x is like KERNBASE + x. *)
Lemma pte_low k x : high_same k -> word k (d * PGSIZE) = u32 (pde d k0 960) -> 0 <= x < 2 ^ 22 -> pte d k x = pte d k0 (KERNBASE + x).
Proof using Hspace Hdir.
  intros Hs H0 Hx. destruct (high_slot x ltac:(lia)) as (E & Hp & Ht). rewrite Z.div_small in E by lia. rewrite Z.add_0_r in E.
  pose proof (PTX_range x). assert (Ex : PDX x = 0) by (rewrite PDX_div, u32_small by lia; divmod).
  assert (Et : PTX (KERNBASE + x) = PTX x) by (rewrite !PTX_div; unfold KERNBASE; rewrite !u32_small by lia; divmod).
  assert (Hpde : pde d k 0 = u32 (pde d k0 960)) by (unfold pde; by rewrite Z.mul_0_r, Z.add_0_r).
  unfold pte, present, table in *. rewrite Ex, E, Et in *. rewrite Hpde. unfold u32 at 1. rewrite Z.mod_pow2_bits_low, Hp by lia.
  assert (En : PGNUM (u32 (pde d k0 960)) = PGNUM (pde d k0 960)) by (rewrite !PGNUM_div, (u32_small (u32 _)) by apply u32_range; done).
  rewrite En, Hs; [done|]. unfold PGSIZE in *. lia.
Qed.

(** Without it there is nothing. *)
Lemma pte_low_none k x : word k (d * PGSIZE) = 0 -> 0 <= x < 2 ^ 22 -> pte d k x = None.
Proof.
  intros H0 Hx. assert (Ex : PDX x = 0) by (rewrite PDX_div, u32_small by lia; divmod).
  unfold pte, present, pde. by rewrite Ex, Z.mul_0_r, Z.add_0_r, H0.
Qed.

(** Tables that are the same translate every address the same way. *)
Lemma pte_same k la : (forall pa, d * PGSIZE <= pa -> word k pa = word k0 pa) -> pte d k la = pte d k0 la.
Proof using Hspace Hdir.
  intros Hs. pose proof (PDX_range la). pose proof (PTX_range la).
  assert (Hpde : pde d k (PDX la) = pde d k0 (PDX la)) by (apply Hs; lia).
  unfold pte, present, table. rewrite Hpde. destruct (Z.testbit (pde d k0 (PDX la)) 0) eqn:Hp; [|done].
  rewrite Hs; [done|]. destruct (decide (PDX la = vpt_slot)) as [->|Hn].
  - rewrite (ks_vpt _ _ _ Hspace), PGNUM_div. change (Z.lor PTE_W PTE_P) with 3. destruct (bo_pages _ _ _ Hdir) as (? & ? & ?).
    unfold PGSIZE in *. rewrite u32_small by lia. divmod.
  - pose proof (bo_tables _ _ _ Hdir (PDX la) ltac:(done) Hn Hp). unfold table, PGSIZE in *. lia.
Qed.
End tables.

(** ** What addresses reach *)

Section switch.
Context (bootstack d f gdt_va gdt_pd : Z) (ip : nat -> Z) (k0 : kernel).
Local Abbreviation ops := (switch_ops (KERNBASE + d * PGSIZE) gdt_pd).
Local Abbreviation step := (machine_step ip ops).

Definition holds (k : kernel) (pa : Z) (l : list Z) : Prop := forall i b, l !! i = Some b -> byte k (pa + Z.of_nat i) = b.

(** The state [map_kernel] leaves, in protected mode without paging; the kernel's code
    and gdt_pd lie below 4MB, and the data before the page directory. *)
Record switchable : Prop := Switchable {
  sw_dir : dir_ok d k0 f;
  sw_space : kernel_space bootstack d k0;
  sw_protected : Z.testbit (k_cr0 k0) 0 = true;
  sw_no_paging : paging k0 = false;
  sw_code : forall i, (i <= length ops)%nat -> KERNBASE <= ip i <= KERNBASE + PTSIZE;
  sw_gdt : KERNBASE <= gdt_va /\ gdt_va + Z.of_nat (length gdt_bytes) <= KERNBASE + d * PGSIZE;
  sw_gdt_bytes : holds k0 (gdt_va - KERNBASE) gdt_bytes;
  sw_pd : KERNBASE <= gdt_pd /\ gdt_pd + 6 <= KERNBASE + d * PGSIZE /\ gdt_pd + 6 <= KERNBASE + PTSIZE;
  sw_apart : gdt_pd + 6 <= gdt_va \/ gdt_va + Z.of_nat (length gdt_bytes) <= gdt_pd;
  sw_pd_bytes : holds k0 (gdt_pd - KERNBASE) (gdt_pd_bytes gdt_va)
}.

(** The TLB may hold the tables of before or after; for these two ranges of pages they
    say the same or nothing. *)
Definition tlb_ok (k : kernel) : Prop := forall n e, k_tlb k !! n = Some e -> Z.testbit e 0 = true /\
  (forall x, 0 <= x < 2 ^ 28 -> n = PGNUM (KERNBASE + x) -> PTE_ADDR e = x / 4096 * 4096) /\
  (forall x, 0 <= x < 2 ^ 22 -> n = PGNUM x -> PTE_ADDR e = x / 4096 * 4096).
Definition tlb_exact (k : kernel) : Prop :=
  forall la e, 0 <= la < 2 ^ 32 -> k_tlb k !! PGNUM la = Some e -> walk k la = Some e.

Context (Hsw : switchable).

Lemma dir_below : 0 <= d /\ (d + 1) * PGSIZE <= 2 ^ 28.
Proof using Hsw. destruct (bo_pages _ _ _ (sw_dir Hsw)) as (? & ? & ?). unfold PGSIZE. lia. Qed.

Lemma dir_zero : word k0 (d * PGSIZE) = 0.
Proof using Hsw.
  pose proof (ks_none _ _ _ (sw_space Hsw) 0 ltac:(by split) ltac:(done) ltac:(done)) as H. unfold pde in H. by rewrite Z.add_0_r in H.
Qed.

Lemma resolves_page k x off p pa :
  paging k = true -> PGOFF off = x mod 4096 -> p = x / 4096 * 4096 -> (exists e, walk k off = Some e /\ Z.testbit e 0 = true) ->
  (forall e, k_tlb k !! PGNUM off = Some e \/ walk k off = Some e -> PTE_ADDR e = p) ->
  resolves k off pa <-> pa = x.
Proof.
  intros Hp Ho -> (e0 & He0 & Hb0) He. unfold resolves. rewrite Hp, Ho. split.
  - intros (e & Ht & _ & ->). rewrite (He e Ht). divmod.
  - intros ->. exists e0. split; [by right|]. split; [done|]. rewrite (He e0) by (by right). divmod.
Qed.

Lemma resolves_high k x pa :
  paging k = true -> PGNUM (k_cr3 k) = d -> high_same d k0 k -> tlb_ok k -> 0 <= x < 2 ^ 28 -> resolves k (KERNBASE + x) pa <-> pa = x.
Proof using Hsw.
  intros Hp Hc Hs Ht Hx. destruct (phys_entry bootstack d k0 (sw_space Hsw) x Hx) as (e0 & He0 & Hb0 & Ha0).
  assert (Hw : walk k (KERNBASE + x) = Some e0) by (unfold walk; rewrite Hc, (pte_high bootstack d f k0 (sw_dir Hsw) (sw_space Hsw)) by done; exact He0).
  apply (resolves_page k x _ (x / 4096 * 4096)); [done| |done|by exists e0|].
  - rewrite PGOFF_mod. unfold KERNBASE. rewrite u32_small by lia. divmod.
  - intros e [He|He]; [|congruence]. destruct (Ht _ _ He) as (_ & H & _). by apply H.
Qed.

Lemma resolves_low k x pa :
  paging k = true -> PGNUM (k_cr3 k) = d -> high_same d k0 k -> tlb_ok k -> word k (d * PGSIZE) = u32 (pde d k0 960) ->
  0 <= x < 2 ^ 22 -> resolves k x pa <-> pa = x.
Proof using Hsw.
  intros Hp Hc Hs Ht H0 Hx. destruct (phys_entry bootstack d k0 (sw_space Hsw) x ltac:(lia)) as (e0 & He0 & Hb0 & Ha0).
  assert (Hw : walk k x = Some e0) by (unfold walk; rewrite Hc, (pte_low bootstack d f k0 (sw_dir Hsw) (sw_space Hsw)) by done; exact He0).
  apply (resolves_page k x _ (x / 4096 * 4096)); [done| |done|by exists e0|].
  - rewrite PGOFF_mod, u32_small by lia. done.
  - intros e [He|He]; [|congruence]. destruct (Ht _ _ He) as (_ & _ & H). by apply H.
Qed.

(** An entry that the tables give at any time during the switch may go to the TLB. *)
Lemma tlb_ok_fill k la e :
  PGNUM (k_cr3 k) = d -> high_same d k0 k -> word k (d * PGSIZE) = u32 (pde d k0 960) \/ word k (d * PGSIZE) = 0 ->
  0 <= la < 2 ^ 32 -> walk k la = Some e -> Z.testbit e 0 = true -> tlb_ok k -> tlb_ok (set_tlb (<[PGNUM la := e]> (k_tlb k)) k).
Proof using Hsw.
  intros Hc Hs H0 Hla He Hb Ht n e' Hn. cbn [k_tlb set_tlb] in Hn. destruct (decide (n = PGNUM la)) as [->|Hne].
  2:{ rewrite lookup_insert_ne in Hn by done. by apply Ht. }
  rewrite lookup_insert_eq in Hn. injection Hn as <-. split; [done|]. unfold walk in He. rewrite Hc in He.
  split; intros x Hx E; rewrite (pte_page _ _ _ _ E) in He;
    destruct (phys_entry bootstack d k0 (sw_space Hsw) x ltac:(lia)) as (e0 & He0 & _ & Ha0).
  - rewrite (pte_high bootstack d f k0 (sw_dir Hsw) (sw_space Hsw)), He0 in He by done. by injection He as <-.
  - destruct H0 as [H0|H0]; [|by rewrite pte_low_none in He].
    rewrite (pte_low bootstack d f k0 (sw_dir Hsw) (sw_space Hsw)), He0 in He by done. by injection He as <-.
Qed.

(** ** The invariant *)

(** When each segment register is reloaded, and with what. *)
Definition turn (r : sreg) : nat := match r with GS => 4 | FS => 5 | ES => 6 | DS => 7 | SS => 8 | CS => 9 end.
Definition final_seg (r : sreg) : seg := loaded_seg (match r with CS => GD_KT | _ => GD_KD end) 0.

(** The kernel's code and data are as they were but for the marks in the GDT. *)
Definition marked (k : kernel) : Prop := forall pa, 0 <= pa < d * PGSIZE -> byte k pa = byte k0 pa \/
  (pa = gdt_va - KERNBASE + GD_KT + 5 \/ pa = gdt_va - KERNBASE + GD_KD + 5) /\ byte k pa = Z.lor (byte k0 pa) STA_A.

(** The state before instruction [i]. *)
Record inv (i : nat) (m : machine) : Prop := Inv {
  iv_length : (i <= length ops)%nat;
  iv_high : high_same d k0 (m_k m);
  iv_marked : marked (m_k m);
  iv_copied : (1 <= i <= 11)%nat -> word (m_k m) (d * PGSIZE) = u32 (pde d k0 960);
  iv_zero : i = 0%nat \/ (12 <= i)%nat -> word (m_k m) (d * PGSIZE) = 0;
  iv_rest : m_k m = set_tlb (k_tlb (m_k m)) (set_cr0 (k_cr0 (m_k m)) (set_cr3 (k_cr3 (m_k m)) (set_ram (k_ram (m_k m)) k0)));
  iv_cr3 : (2 <= i)%nat -> k_cr3 (m_k m) = d * PGSIZE;
  iv_cr0 : k_cr0 (m_k m) = if decide (i <= 2)%nat then k_cr0 k0 else u32 (Z.lor (k_cr0 k0) (Z.lor CR0_PE CR0_PG));
  iv_gdtr : (4 <= i)%nat -> m_gdtr m = (gdt_va, 47);
  iv_tlb : (2 <= i)%nat -> tlb_ok (m_k m);
  iv_tlb_exact : i = 13%nat -> tlb_exact (m_k m);
  iv_seg : forall r, m_seg m r = if decide (i <= turn r)%nat then relocated_segs r else final_seg r
}.

Lemma iv_paging i m : inv i m -> paging (m_k m) = bool_decide (3 <= i)%nat.
Proof using Hsw.
  intros Hi. unfold paging. rewrite (iv_cr0 _ _ Hi). case_decide.
  - rewrite bool_decide_eq_false_2 by lia. apply (sw_no_paging Hsw).
  - rewrite bool_decide_eq_true_2 by lia. unfold u32. rewrite Z.mod_pow2_bits_low, Z.lor_spec by lia. by rewrite orb_true_r.
Qed.

Lemma iv_dir i m : inv i m -> (2 <= i)%nat -> PGNUM (k_cr3 (m_k m)) = d.
Proof using Hsw.
  intros Hi Hle. pose proof dir_below. rewrite (iv_cr3 _ _ Hi Hle), PGNUM_div. unfold PGSIZE in *. rewrite u32_small by lia. divmod.
Qed.

Lemma final_linear r x : 0 <= x < 2 ^ 28 -> linear (final_seg r) (KERNBASE + x) = KERNBASE + x.
Proof. intros Hx. unfold linear, final_seg, loaded_seg, KERNBASE. cbn [seg_base]. rewrite Z.add_0_l, u32_small by lia. done. Qed.

Lemma iv_limit i m r : inv i m -> seg_limit (m_seg m r) = 2 ^ 32 - 1.
Proof. intros Hi. rewrite (iv_seg _ _ Hi). case_decide; by destruct r. Qed.

(** KERNBASE + x is physical x for all of physical memory, except between paging and
    the register's turn; *)
Lemma iv_mapped_far i m r x pa :
  inv i m -> r <> FS -> r <> GS -> (i <= 2)%nat \/ (turn r < i)%nat -> 0 <= x < 2 ^ 28 ->
  resolves (m_k m) (linear (m_seg m r) (KERNBASE + x)) pa <-> pa = x.
Proof using Hsw.
  intros Hi Hf Hg Ht Hx. rewrite (iv_seg _ _ Hi). case_decide.
  - rewrite relocated_linear by (done || (unfold KERNBASE; lia)). replace (KERNBASE + x - KERNBASE) with x by lia.
    unfold resolves. rewrite (iv_paging i) by done. rewrite bool_decide_eq_false_2 by (destruct r; cbn in *; lia). done.
  - assert (3 <= i)%nat by (destruct r; cbn in *; lia). rewrite final_linear by done. apply resolves_high; [|apply (iv_dir i)|..|done]; try apply Hi; try lia; [|done..].
    rewrite (iv_paging i) by done. by rewrite bool_decide_eq_true_2 by lia.
Qed.

(** and for the first 4MB always. *)
Lemma iv_mapped i m r x pa :
  inv i m -> r <> FS -> r <> GS -> 0 <= x < 2 ^ 22 -> resolves (m_k m) (linear (m_seg m r) (KERNBASE + x)) pa <-> pa = x.
Proof using Hsw.
  intros Hi Hf Hg Hx. destruct (decide (i <= 2 \/ turn r < i)%nat) as [Ht|Ht]; [apply (iv_mapped_far i); done || lia|].
  rewrite (iv_seg _ _ Hi). rewrite decide_True by lia. rewrite relocated_linear by (done || (unfold KERNBASE; lia)).
  replace (KERNBASE + x - KERNBASE) with x by lia. assert (i <= 9)%nat by (destruct r; cbn in *; lia).
  apply resolves_low; [|apply (iv_dir i)|..|done]; try apply Hi; try lia; [|done..].
  rewrite (iv_paging i) by done. by rewrite bool_decide_eq_true_2 by lia.
Qed.

(** ** The steps keep it *)

(** What the processor does to its TLB. *)
Lemma inv_tlb i m t :
  inv i m -> ((2 <= i)%nat -> tlb_ok (set_tlb t (m_k m))) -> (i = 13%nat -> tlb_exact (set_tlb t (m_k m))) ->
  inv i (with_k (set_tlb t) m).
Proof.
  intros [H1 H2 H3 H4 H5 H6 H7 H8 H9 _ _ H10] Ht Hx. split; try done. cbn [m_k with_k]. rewrite H6. reflexivity.
Qed.

Lemma inv_fill i m la e :
  inv i m -> 0 <= la < 2 ^ 32 -> paging (m_k m) = true -> walk (m_k m) la = Some e -> Z.testbit e 0 = true ->
  inv i (with_k (fun k => set_tlb (<[PGNUM la := e]> (k_tlb k)) k) m).
Proof using Hsw.
  intros Hi Hla Hp He Hb. rewrite (iv_paging i) in Hp by done. apply bool_decide_eq_true in Hp.
  apply (inv_tlb i m (<[PGNUM la := e]> (k_tlb (m_k m))) Hi).
  - intros _. apply tlb_ok_fill; try done; [by apply (iv_dir i); [|lia]|apply Hi| |apply Hi; lia].
    destruct (decide (i <= 11)%nat); [left; apply (iv_copied i); [done|lia]|right; apply (iv_zero i); [done|lia]].
  - intros ->. intros la' e' Hla' Hl. cbn [k_tlb set_tlb] in Hl. change (walk (m_k m) la' = Some e').
    destruct (decide (PGNUM la' = PGNUM la)) as [E|Hne].
    + rewrite E, lookup_insert_eq in Hl. injection Hl as <-. unfold walk. by rewrite (pte_page _ _ _ _ E).
    + rewrite lookup_insert_ne in Hl by done. by apply (iv_tlb_exact 13 m Hi).
Qed.

Lemma inv_evict i m n : inv i m -> inv i (with_k (fun k => set_tlb (delete n (k_tlb k)) k) m).
Proof.
  intros Hi. apply (inv_tlb i m (delete n (k_tlb (m_k m))) Hi).
  - intros Hle n' e Hl. cbn [k_tlb set_tlb] in Hl. apply lookup_delete_Some in Hl as [_ Hl]. by apply (iv_tlb _ _ Hi Hle).
  - intros E la e Hla Hl. cbn [k_tlb set_tlb] in Hl. apply lookup_delete_Some in Hl as [_ Hl]. by apply (iv_tlb_exact _ _ Hi E).
Qed.

(** A word stored in directory entry 0. *)
Lemma dir_word k v : high_same d k0 k -> marked k ->
  high_same d k0 (set_word (d * PGSIZE) v k) /\ marked (set_word (d * PGSIZE) v k) /\ word (set_word (d * PGSIZE) v k) (d * PGSIZE) = u32 v.
Proof.
  intros Hh Hm. split_and!.
  - intros pa Hpa. rewrite word_set_word, decide_False by lia. by apply Hh.
  - intros pa Hpa. assert (E : byte (set_word (d * PGSIZE) v k) pa = byte k pa).
    { apply byte_word. rewrite word_set_word, decide_False; [done|]. unfold PGSIZE in *. divmod. }
    rewrite E. by apply Hm.
  - by rewrite word_set_word, decide_True.
Qed.

(** Instructions in the order of [ops]. *)
Definition executes (i : nat) (o : op) (m : machine) : Prop :=
  (exists m', exec_op o m m') /\ forall m', exec_op o m m' -> inv (S i) m'.

Lemma inv_copy m : inv 0 m -> executes 0 (Copy (KERNBASE + d * PGSIZE + 4 * PDX KERNBASE) (KERNBASE + d * PGSIZE)) m.
Proof using Hsw.
  intros Hi. pose proof dir_below as [Hd0 Hd1]. change (PDX KERNBASE) with 960. unfold PGSIZE in Hd1.
  assert (Hl : seg_limit (m_seg m DS) = 2 ^ 32 - 1) by (by apply (iv_limit 0)).
  assert (Hr : forall x pa, 0 <= x < 2 ^ 28 -> resolves (m_k m) (linear (m_seg m DS) (KERNBASE + x)) pa <-> pa = x)
    by (intros; apply (iv_mapped_far 0); done || lia).
  assert (Hs : forall q, resolves (m_k m) (linear (m_seg m DS) (KERNBASE + d * PGSIZE + 4 * 960)) q <-> q = d * PGSIZE + 4 * 960)
    by (intros q; rewrite <- Z.add_assoc; apply Hr; unfold PGSIZE; lia).
  assert (Hq : forall q, resolves (m_k m) (linear (m_seg m DS) (KERNBASE + d * PGSIZE)) q <-> q = d * PGSIZE)
    by (intros q; apply Hr; unfold PGSIZE; lia).
  split.
  - eexists _, _, _. unfold within. rewrite Hl, Hs, Hq. split_and!; try reflexivity; unfold KERNBASE, PGSIZE; try lia; divmod.
  - intros m' (p & q & _ & _ & _ & _ & Hp & Hq' & ->). apply Hs in Hp as ->. apply Hq in Hq' as ->.
    destruct (dir_word (m_k m) (word (m_k m) (d * PGSIZE + 4 * 960)) (iv_high _ _ Hi) (iv_marked _ _ Hi)) as (H1 & H2 & H3).
    destruct Hi as [G1 G2 G3 G4 G5 G6 G7 G8 G9 G10 G11 G12]. split; try done; try lia; cbn [m_k with_k m_seg m_gdtr].
    + cbn. lia.
    + intros _. rewrite H3. unfold pde. by rewrite G2 by lia.
    + rewrite G6. reflexivity.
    + intros r. rewrite G12. by destruct r.
Qed.

Lemma inv_lcr3_on m : inv 1 m -> executes 1 (Lcr3 (KERNBASE + d * PGSIZE - KERNBASE)) m.
Proof using Hsw.
  intros Hi. pose proof dir_below as [Hd0 Hd1]. split; [by eexists|]. intros m' ->. replace (KERNBASE + d * PGSIZE - KERNBASE) with (d * PGSIZE) by lia.
  destruct Hi as [G1 G2 G3 G4 G5 G6 G7 G8 G9 G10 G11 G12]. split; try done; try lia; cbn [m_k with_k m_seg m_gdtr].
  - cbn. lia.
  - intros _. apply G4. lia.
  - rewrite G6. reflexivity.
  - intros _. cbn. rewrite u32_small; unfold PGSIZE in *; lia.
  - intros r. rewrite G12. by destruct r.
Qed.

Lemma inv_or_cr0 m : inv 2 m -> executes 2 (Or_cr0 (Z.lor CR0_PE CR0_PG)) m.
Proof.
  intros Hi. split; [by eexists|]. intros m' ->.
  destruct Hi as [G1 G2 G3 G4 G5 G6 G7 G8 G9 G10 G11 G12]. split; try done; try lia; cbn [m_k with_k m_seg m_gdtr].
  - cbn. lia.
  - intros _. apply G4. lia.
  - rewrite G6. reflexivity.
  - intros _. apply G7. lia.
  - cbn. by rewrite G8.
  - intros _. apply G10. lia.
  - intros r. rewrite G12. by destruct r.
Qed.

(** Bytes at addresses that each reach one place. *)
Definition bytes_of (k : kernel) (pa : Z) (n : nat) : list Z := (fun i => byte k (pa + Z.of_nat i)) <$> seq 0 n.

Lemma reads_exact k la pa n l :
  (forall i q, 0 <= i < Z.of_nat n -> resolves k (u32 (la + i)) q <-> q = pa + i) -> length l = n ->
  reads k la l <-> l = bytes_of k pa n.
Proof.
  intros Hr Hl. split.
  - intros Hb. apply list_eq. intros i. unfold bytes_of. rewrite list_lookup_fmap. destruct (l !! i) as [b|] eqn:E.
    + pose proof (lookup_lt_Some _ _ _ E). rewrite lookup_seq_lt by lia. destruct (Hb i b E) as (q & Hq & ->).
      apply Hr in Hq as ->; [done|lia].
    + apply lookup_ge_None in E. by rewrite lookup_seq_ge by lia.
  - intros -> i b Hb. unfold bytes_of in Hb. rewrite list_lookup_fmap in Hb. destruct (seq 0 n !! i) as [j|] eqn:E; [|done].
    apply lookup_seq in E as [-> Hi]. injection Hb as <-. exists (pa + Z.of_nat i). split; [|done]. apply Hr; [lia|done].
Qed.

Lemma bytes_of_length k pa n : length (bytes_of k pa n) = n.
Proof. unfold bytes_of. by rewrite length_fmap, length_seq. Qed.

Lemma bytes_of_holds k pa l : holds k pa l -> bytes_of k pa (length l) = l.
Proof.
  intros H. apply list_eq. intros i. unfold bytes_of. rewrite list_lookup_fmap. destruct (l !! i) as [b|] eqn:E.
  - pose proof (lookup_lt_Some _ _ _ E). rewrite lookup_seq_lt by done. cbn. by rewrite (H i b E).
  - apply lookup_ge_None in E. by rewrite lookup_seq_ge.
Qed.

Lemma inv_lgdt m : inv 3 m -> executes 3 (Lgdt gdt_pd) m.
Proof using Hsw.
  intros Hi. pose proof dir_below as [Hd0 Hd1]. destruct (sw_pd Hsw) as (Hp1 & Hp2 & Hp3). unfold PTSIZE, NPTENTRIES in *.
  destruct (sw_gdt Hsw) as (Hg1 & Hg2).
  assert (Hlin : forall x, 0 <= x < 2 ^ 28 -> linear (m_seg m DS) (KERNBASE + x) = x).
  { intros x Hx. rewrite (iv_seg _ _ Hi). rewrite decide_True by (cbn; lia). rewrite relocated_linear by (done || (unfold KERNBASE; lia)). lia. }
  assert (Hr : forall i q, 0 <= i < Z.of_nat 6 -> resolves (m_k m) (u32 (linear (m_seg m DS) gdt_pd + i)) q <-> q = gdt_pd - KERNBASE + i).
  { intros i q Hi'. unfold PGSIZE in *. replace gdt_pd with (KERNBASE + (gdt_pd - KERNBASE)) at 1 by lia. rewrite Hlin by lia. rewrite u32_small by lia.
    rewrite <- (Hlin (gdt_pd - KERNBASE + i)) at 1 by lia. apply (iv_mapped 3); done || lia. }
  assert (Hb : bytes_of (m_k m) (gdt_pd - KERNBASE) 6 = gdt_pd_bytes gdt_va).
  { apply (bytes_of_holds _ _ (gdt_pd_bytes gdt_va)). intros i b Hb. rewrite <- (sw_pd_bytes Hsw i b Hb). pose proof (lookup_lt_Some _ _ _ Hb) as Hlt.
    change (i < 6)%nat in Hlt. destruct (iv_marked _ _ Hi (gdt_pd - KERNBASE + Z.of_nat i)) as [E|[E _]]; [lia|done|exfalso].
    pose proof (sw_apart Hsw) as Ha. change (Z.of_nat (length gdt_bytes)) with 48 in *. unfold GD_KT, GD_KD in E. lia. }
  split.
  - eexists _, (bytes_of (m_k m) (gdt_pd - KERNBASE) 6). split; [apply bytes_of_length|]. split.
    + unfold within. rewrite (iv_limit 3) by done. change KERNBASE with 0xf0000000 in *. lia.
    + split; [|reflexivity]. apply (reads_exact _ _ (gdt_pd - KERNBASE) 6); [exact Hr|apply bytes_of_length|done].
  - intros m' (l & Hl & _ & Hrd & ->). apply (reads_exact _ _ (gdt_pd - KERNBASE) 6) in Hrd; [|exact Hr|exact Hl]. rewrite Hb in Hrd. subst l.
    destruct Hi as [G1 G2 G3 G4 G5 G6 G7 G8 G9 G10 G11 G12]. split; try done; try lia; cbn [m_k with_gdtr m_seg m_gdtr].
    + cbn. lia.
    + intros _. apply G4. lia.
    + intros _. apply G7. lia.
    + intros _. unfold gdt_pd_bytes. rewrite drop_app_length' by done. rewrite take_app_length' by done. f_equal.
      apply le_word. change (Z.of_nat (length gdt_bytes)) with 48 in *. unfold PGSIZE in *. change KERNBASE with 0xf0000000 in *. lia.
    + intros _. apply G10. lia.
    + intros r. rewrite G12. by destruct r.
Qed.

(** The kernel's descriptors, as gdt has them. *)
Definition kernel_desc (sel : Z) : list Z := take 8 (drop (Z.to_nat sel) gdt_bytes).
Definition sel_of (r : sreg) : Z := match r with CS => GD_KT | _ => GD_KD end.

Lemma kernel_desc_value r l : l = kernel_desc (sel_of r) \/ l = mark (kernel_desc (sel_of r)) ->
  let d := segdesc_decode (le l) in
  fits r (Z.land (sel_of r) 3) d = true /\
  MkSegment (sel_of r) (SEGDESC_BASE d) (segment_limit d) (negb (sd_db d =? 0)) = final_seg r /\
  Z.lor (default 0 (l !! 5%nat)) STA_A = Z.lor (default 0 (kernel_desc (sel_of r) !! 5%nat)) STA_A /\
  0 <= Z.lor (default 0 (l !! 5%nat)) STA_A < 256.
Proof. intros [-> | ->]; destruct r; vm_compute; repeat split; try reflexivity; discriminate. Qed.

Lemma kernel_desc_byte r i : (i < 8)%nat -> kernel_desc (sel_of r) !! i = Some (byte k0 (gdt_va - KERNBASE + sel_of r + Z.of_nat i)).
Proof using Hsw.
  intros Hi. assert (Hl : (Z.to_nat (sel_of r) + i < length gdt_bytes)%nat) by (change (length gdt_bytes) with 48%nat; destruct r; cbn [sel_of]; unfold GD_KT, GD_KD; lia).
  unfold kernel_desc. rewrite lookup_take_lt, lookup_drop by done. destruct (lookup_lt_is_Some_2 gdt_bytes _ Hl) as [b Hb].
  rewrite Hb. rewrite <- (sw_gdt_bytes Hsw _ _ Hb). do 2 f_equal. destruct r; cbn [sel_of]; unfold GD_KT, GD_KD; lia.
Qed.

Lemma kernel_desc_read k r : marked k ->
  let l := bytes_of k (gdt_va - KERNBASE + sel_of r) 8 in l = kernel_desc (sel_of r) \/ l = mark (kernel_desc (sel_of r)).
Proof using Hsw.
  intros Hm l. destruct (sw_gdt Hsw) as [Hg1 Hg2]. change (Z.of_nat (length gdt_bytes)) with 48 in Hg2.
  assert (Hsel : sel_of r = 8 \/ sel_of r = 16) by (destruct r; cbn; auto).
  assert (Hl : forall i, (i < 8)%nat -> l !! i = Some (byte k (gdt_va - KERNBASE + sel_of r + Z.of_nat i)))
    by (intros i Hi; unfold l, bytes_of; by rewrite list_lookup_fmap, lookup_seq_lt).
  assert (Hend : forall l', length l' = 8%nat -> (forall i, (i < 8)%nat -> l !! i = l' !! i) -> l = l').
  { intros l' Hl' He. apply list_eq. intros i. destruct (decide (i < 8)%nat); [by apply He|].
    rewrite !lookup_ge_None_2; [done|lia|unfold l; rewrite bytes_of_length; lia]. }
  assert (H8 : length (kernel_desc (sel_of r)) = 8%nat) by (by destruct r).
  assert (Hne : forall i, (i < 8)%nat -> i <> 5%nat -> l !! i = kernel_desc (sel_of r) !! i).
  { intros i Hi Hi5. rewrite Hl, kernel_desc_byte by done. f_equal.
    destruct (Hm (gdt_va - KERNBASE + sel_of r + Z.of_nat i)) as [E|[E _]]; [lia|done|exfalso]. unfold GD_KT, GD_KD in E. lia. }
  assert (H5 : (5 < 8)%nat) by lia.
  destruct (Hm (gdt_va - KERNBASE + sel_of r + 5)) as [E|[_ E]]; [lia|left|right].
  - apply Hend; [done|]. intros i Hi. destruct (decide (i = 5%nat)) as [->|]; [|by apply Hne].
    rewrite Hl, kernel_desc_byte by done. change (Z.of_nat 5) with 5. by rewrite E.
  - apply Hend; [unfold mark; by rewrite length_alter|]. intros i Hi. unfold mark. destruct (decide (i = 5%nat)) as [->|].
    + rewrite list_lookup_alter_eq, Hl, kernel_desc_byte by done. change (Z.of_nat 5) with 5. by rewrite E.
    + rewrite list_lookup_alter_ne by done. by apply Hne.
Qed.

(** A descriptor's byte is marked. *)
Lemma mark_byte k r v : high_same d k0 k -> marked k -> v = Z.lor (default 0 (kernel_desc (sel_of r) !! 5%nat)) STA_A -> 0 <= v < 256 ->
  let pa := gdt_va - KERNBASE + sel_of r + 5 in
  high_same d k0 (set_byte pa v k) /\ marked (set_byte pa v k) /\ word (set_byte pa v k) (d * PGSIZE) = word k (d * PGSIZE).
Proof using Hsw.
  intros Hh Hm -> Hv pa. destruct (sw_gdt Hsw) as [Hg1 Hg2]. change (Z.of_nat (length gdt_bytes)) with 48 in Hg2.
  assert (Hsel : sel_of r = 8 \/ sel_of r = 16) by (destruct r; cbn; auto).
  assert (Hpa : 0 <= pa < d * PGSIZE) by (unfold pa; lia).
  split_and!.
  - intros a Ha. rewrite word_set_byte by (divmod). by apply Hh.
  - intros a Ha. rewrite byte_set_byte by done. case_decide as E; [|by apply Hm]. right. subst a. split.
    + unfold pa, GD_KT, GD_KD. lia.
    + by rewrite kernel_desc_byte by lia.
  - rewrite word_set_byte; [done|]. unfold PGSIZE in *. divmod.
Qed.

Lemma inv_load r i m : turn r = i -> inv i m ->
  (exists m', loads_segment r (sel_of r) m m') /\ forall m', loads_segment r (sel_of r) m m' -> inv (S i) m'.
Proof using Hsw.
  intros Ht Hi. assert (Hi4 : (4 <= i <= 9)%nat) by (subst i; destruct r; cbn; lia).
  destruct (sw_gdt Hsw) as [Hg1 Hg2]. change (Z.of_nat (length gdt_bytes)) with 48 in Hg2. pose proof dir_below as [Hd0 Hd1].
  assert (Hsel : sel_of r = 8 \/ sel_of r = 16) by (destruct r; cbn; auto).
  assert (Hx : Z.land (sel_of r) 0xfff8 = sel_of r /\ Z.testbit (sel_of r) 2 = false) by (by destruct r). destruct Hx as [Hx Hti].
  assert (Hpe : Z.testbit (k_cr0 (m_k m)) 0 = true).
  { rewrite (iv_cr0 _ _ Hi), decide_False by lia. unfold u32. rewrite Z.mod_pow2_bits_low, Z.lor_spec by lia. by rewrite (sw_protected Hsw). }
  assert (Hr : forall j q, 0 <= j < Z.of_nat 8 -> resolves (m_k m) (u32 (gdt_va + sel_of r + j)) q <-> q = gdt_va - KERNBASE + sel_of r + j).
  { intros j q Hj. unfold PGSIZE in *. rewrite u32_small by (change KERNBASE with 0xf0000000 in *; lia).
    replace (gdt_va + sel_of r + j) with (KERNBASE + (gdt_va - KERNBASE + sel_of r + j)) by lia.
    apply resolves_high; [rewrite (iv_paging i) by done; apply bool_decide_eq_true_2; lia|apply (iv_dir i); [done|lia]|apply Hi|apply Hi; lia|lia]. }
  unfold loads_segment. rewrite (iv_gdtr _ _ Hi) by lia. rewrite Hx.
  set (l0 := bytes_of (m_k m) (gdt_va - KERNBASE + sel_of r) 8).
  destruct (kernel_desc_value r l0 (kernel_desc_read (m_k m) r (iv_marked _ _ Hi))) as (Hf & Hv & Ha & Hb).
  split.
  - eexists. split; [done|]. split; [done|]. split; [lia|]. split; [lia|]. exists l0, (gdt_va - KERNBASE + sel_of r + 5).
    split; [apply bytes_of_length|]. split; [by apply (reads_exact _ _ (gdt_va - KERNBASE + sel_of r) 8); [exact Hr|apply bytes_of_length|]|].
    split; [by apply Hr|]. split; [exact Hf|reflexivity].
  - intros m' (_ & _ & _ & _ & l & pa & Hl & Hrd & Hpa & _ & ->).
    apply (reads_exact _ _ (gdt_va - KERNBASE + sel_of r) 8) in Hrd; [|exact Hr|exact Hl]. fold l0 in Hrd. subst l.
    apply Hr in Hpa as ->; [|lia]. rewrite Hv.
    destruct (mark_byte (m_k m) r _ (iv_high _ _ Hi) (iv_marked _ _ Hi) Ha Hb) as (M1 & M2 & M3).
    destruct Hi as [G1 G2 G3 G4 G5 G6 G7 G8 G9 G10 G11 G12]. split; try done; try lia; cbn [m_k with_seg with_k m_seg m_gdtr].
    + cbn in *. lia.
    + intros _. rewrite M3. apply G4. lia.
    + rewrite G6. reflexivity.
    + intros _. cbn. apply G7. lia.
    + cbn. rewrite G8. by rewrite !decide_False by lia.
    + intros _. apply G9. lia.
    + intros _. apply G10. lia.
    + intros q. destruct (decide (q = r)) as [->|Hne]; [by rewrite decide_False by lia|]. rewrite G12.
      assert (turn q <> turn r) by (destruct q, r; done). by repeat case_decide; try lia.
Qed.

Lemma inv_lldt m : inv 10 m -> executes 10 (Lldt 0) m.
Proof.
  intros Hi. split; [by eexists|]. intros m' [_ ->].
  destruct Hi as [G1 G2 G3 G4 G5 G6 G7 G8 G9 G10 G11 G12]. split; try done; try lia; cbn [m_k with_ldtr m_seg m_gdtr].
  - cbn. lia.
  - intros _. apply G4. lia.
  - intros _. apply G7. lia.
  - intros _. apply G9. lia.
  - intros _. apply G10. lia.
  - intros r. rewrite G12. by destruct r.
Qed.

Lemma inv_store m : inv 11 m -> executes 11 (Store (KERNBASE + d * PGSIZE) 0) m.
Proof using Hsw.
  intros Hi. pose proof dir_below as [Hd0 Hd1]. unfold PGSIZE in Hd1.
  assert (Hq : forall q, resolves (m_k m) (linear (m_seg m DS) (KERNBASE + d * PGSIZE)) q <-> q = d * PGSIZE)
    by (intros q; apply (iv_mapped_far 11); try done; [cbn; lia|unfold PGSIZE; lia]).
  split.
  - eexists _, _. unfold within. rewrite (iv_limit 11) by done. rewrite Hq. split_and!; try reflexivity; unfold KERNBASE, PGSIZE; [lia|divmod].
  - intros m' (q & _ & _ & Hq' & ->). apply Hq in Hq' as ->.
    destruct (dir_word (m_k m) 0 (iv_high _ _ Hi) (iv_marked _ _ Hi)) as (H1 & H2 & H3).
    destruct Hi as [G1 G2 G3 G4 G5 G6 G7 G8 G9 G10 G11 G12]. split; try done; try lia; cbn [m_k with_k m_seg m_gdtr].
    + cbn. lia.
    + rewrite G6. reflexivity.
    + intros _. apply G7. lia.
    + intros _. apply G9. lia.
    + intros _. apply G10. lia.
    + intros r. rewrite G12. by destruct r.
Qed.

Lemma inv_lcr3_off m : inv 12 m -> executes 12 (Lcr3 (KERNBASE + d * PGSIZE - KERNBASE)) m.
Proof using Hsw.
  intros Hi. pose proof dir_below as [Hd0 Hd1]. split; [by eexists|]. intros m' ->. replace (KERNBASE + d * PGSIZE - KERNBASE) with (d * PGSIZE) by lia.
  destruct Hi as [G1 G2 G3 G4 G5 G6 G7 G8 G9 G10 G11 G12]. split; try done; try lia; cbn [m_k with_k m_seg m_gdtr].
  - intros _. apply G5. lia.
  - rewrite G6. reflexivity.
  - intros _. cbn. rewrite u32_small; unfold PGSIZE in *; lia.
  - intros _. apply G9. lia.
  - intros r. rewrite G12. by destruct r.
Qed.

(** Every instruction can be executed, and leads on. *)
Lemma inv_op i m o : inv i m -> ops !! i = Some o -> executes i o m.
Proof using Hsw.
  intros Hi Ho. pose proof (lookup_lt_Some _ _ _ Ho) as Hlt. change (i < 13)%nat in Hlt.
  destruct i as [|[|[|[|[|[|[|[|[|[|[|[|[|i]]]]]]]]]]]]]; [injection Ho as <-..|lia].
  - by apply inv_copy.
  - by apply inv_lcr3_on.
  - by apply inv_or_cr0.
  - by apply inv_lgdt.
  - by apply (inv_load GS).
  - by apply (inv_load FS).
  - by apply (inv_load ES).
  - by apply (inv_load DS).
  - by apply (inv_load SS).
  - by apply (inv_load CS).
  - by apply inv_lldt.
  - by apply inv_store.
  - by apply inv_lcr3_off.
Qed.

Lemma inv_start sg gdtr ldtr : (forall r, sg r = relocated_segs r) -> inv 0 (Machine sg gdtr ldtr k0).
Proof using Hsw.
  intros Hsg. split; try done; try lia; cbn [m_k m_seg].
  - intros pa _. by left.
  - intros _. apply dir_zero.
  - by destruct k0.
Qed.

Lemma inv_fetches i m a pa : inv i m -> (i < length ops)%nat -> ip i <= a < ip (S i) -> fetches m a pa <-> pa = a - KERNBASE.
Proof using Hsw.
  intros Hi Hlt Ha. pose proof (sw_code Hsw i ltac:(lia)). pose proof (sw_code Hsw (S i) ltac:(lia)). change PTSIZE with (2 ^ 22) in *.
  unfold fetches, within. rewrite (iv_limit i) by done. replace a with (KERNBASE + (a - KERNBASE)) at 2 by lia.
  rewrite (iv_mapped i m CS) by (done || lia). change KERNBASE with 0xf0000000 in *. split; [by intros [_ ->]|]. intros ->. split; [lia|done].
Qed.

Lemma inv_reach m0 s : inv 0 m0 -> rtc step (At 0 m0) s -> exists i m, s = At i m /\ inv i m.
Proof using Hsw.
  intros H0. revert s. apply (rtc_ind_r _ (At 0 m0)); [by exists 0%nat, m0|].
  intros s s' _ Hst (i & m & -> & Hi). inversion Hst as [? ? o m' Ho _ Hx|? ? a pa Hlt Ha Hf Hne|? ? la e Hla Hp He Hb|]; subst.
  - exists (S i), m'. split; [done|]. by apply (inv_op i m o Hi Ho).
  - by apply (inv_fetches i m) in Hf.
  - eexists _, _. split; [done|]. by apply inv_fill.
  - eexists _, _. split; [done|]. by apply inv_evict.
Qed.

Lemma inv_progress i m : inv i m -> (i < length ops)%nat -> exists m', step (At i m) (At (S i) m').
Proof using Hsw.
  intros Hi Hlt. destruct (lookup_lt_is_Some_2 ops i Hlt) as [o Ho]. destruct (inv_op i m o Hi Ho) as [[m' Hx] _].
  exists m'. eapply step_op; [exact Ho| |exact Hx]. intros a Ha. by apply (inv_fetches i m).
Qed.

(** At the end every address goes where the tables say, in memory and in the TLB. *)
Lemma inv_end m la pa : inv 13 m -> 0 <= la < 2 ^ 32 -> resolves (m_k m) la pa <-> translate d k0 la = Some pa.
Proof using Hsw.
  intros Hi Hla. unfold resolves. rewrite (iv_paging 13), bool_decide_eq_true_2 by (done || lia).
  pose proof dir_zero as H0.
  assert (Hw : walk (m_k m) la = pte d k0 la).
  { unfold walk. rewrite (iv_dir 13) by (done || lia). apply (pte_same bootstack d f); [apply Hsw|apply Hsw|]. intros a Ha.
    destruct (decide (a = d * PGSIZE)) as [->|]; [|apply Hi; lia]. by rewrite (iv_zero 13 m Hi), H0 by lia. }
  unfold translate. rewrite Hw. split.
  - intros (e & [He|He] & Hb & ->); [apply (iv_tlb_exact 13 m Hi) in He; [|done..]; rewrite Hw in He|]; rewrite He, Hb; done.
  - destruct (pte d k0 la) as [e|]; [|done]. destruct (Z.testbit e 0) eqn:Hb; [|done]. intros [= <-]. exists e. split_and!; [by right|done..].
Qed.
End switch.

(** ** boot_mem_init *)

Section boot.
Context (kend bootstack gdt_va gdt_pd : Z) (ip : nat -> Z).
Context (Hkend : KERNBASE <= kend) (Hstack : KERNBASE <= bootstack).
Context (Hstack_end : bootstack + KSTKSIZE <= 2 ^ 32) (Hstack_page : bootstack mod PGSIZE = 0).
Local Abbreviation d := (dir_page kend).
Local Abbreviation ops := (switch_ops (KERNBASE + d * PGSIZE) gdt_pd).

(** The machine entry.S hands over: protected mode without paging, gdt and gdt_pd
    in the kernel's memory, the code of the switch and gdt_pd below 4MB. *)
Record in_place (k : kernel) : Prop := InPlace {
  ip_protected : Z.testbit (k_cr0 k) 0 = true;
  ip_no_paging : paging k = false;
  ip_code : forall i, (i <= length ops)%nat -> KERNBASE <= ip i <= KERNBASE + PTSIZE;
  ip_gdt : KERNBASE <= gdt_va /\ gdt_va + Z.of_nat (length gdt_bytes) <= kend;
  ip_gdt_bytes : holds k (gdt_va - KERNBASE) gdt_bytes;
  ip_pd : KERNBASE <= gdt_pd /\ gdt_pd + 6 <= kend /\ gdt_pd + 6 <= KERNBASE + PTSIZE;
  ip_apart : gdt_pd + 6 <= gdt_va \/ gdt_va + Z.of_nat (length gdt_bytes) <= gdt_pd;
  ip_pd_bytes : holds k (gdt_pd - KERNBASE) (gdt_pd_bytes gdt_va)
}.

Lemma holds_low k k' a l : (forall pa, pa < d * PGSIZE -> word k' pa = word k pa) -> a + Z.of_nat (length l) <= d * PGSIZE ->
  holds k a l -> holds k' a l.
Proof.
  intros Hw Ha Hh i b Hb. rewrite <- (Hh i b Hb). pose proof (lookup_lt_Some _ _ _ Hb). apply byte_word, Hw. divmod.
Qed.

Lemma built_switchable k k' np f : in_place k -> space_built kend bootstack k k' np f -> switchable bootstack d f gdt_va gdt_pd ip k'.
Proof using All.
  intros [P1 P2 P3 P4 P5 P6 P7 P8] Hb. pose proof (sb_low _ _ _ _ _ _ Hb) as Hlow.
  assert (Hd : kend <= KERNBASE + d * PGSIZE) by (unfold dir_page, PGSIZE; divmod).
  split; try done; try apply Hb; try lia.
  - by rewrite (sb_cr0 _ _ _ _ _ _ Hb).
  - unfold paging. by rewrite (sb_cr0 _ _ _ _ _ _ Hb).
  - apply (holds_low k); [done|lia|done].
  - apply (holds_low k); [done| |done]. change (Z.of_nat (length (gdt_pd_bytes gdt_va))) with 6. lia.
Qed.

(** C5: The switch from segments to pages.  When [boot_mem_init] runs on a machine with
    enough memory, its kernel mapped by the segments of entry.S, then whatever the
    processor does to its TLB in the meantime: the code, data and stack segments take
    KERNBASE + x to physical x for the first 4MB, at every step; so every
    instruction is the one that is meant, none faults, and each leads to the next.  At
    the end the segments are flat, every address goes where the page tables of
    [boot_mem_init] say, with nothing stale in the TLB, and memory is as the model of
    [boot_mem_init] leaves it but for the marks in the GDT. *)
Theorem switch_over_correct k b0 b1 e0 e1 rest sg gdtr ldtr :
  io_in (k_io k) = b0 :: b1 :: e0 :: e1 :: rest -> k_nextfree k = 0 ->
  pages_fit kend (detected_pages (nvram_word b0 b1) (nvram_word e0 e1)) -> in_place k -> (forall r, sg r = relocated_segs r) ->
  wp (boot_mem_init kend bootstack) (fun _ k' => exists k0, map_kernel kend bootstack k = Ret (KERNBASE + d * PGSIZE) k0 /\
    forall s, rtc (machine_step ip ops) (At 0 (Machine sg gdtr ldtr k0)) s -> exists i m, s = At i m /\
      (forall r x pa, r <> FS -> r <> GS -> 0 <= x < PTSIZE -> resolves (m_k m) (linear (m_seg m r) (KERNBASE + x)) pa <-> pa = x) /\
      ((i < length ops)%nat -> exists m', machine_step ip ops (At i m) (At (S i) m')) /\
      (i = length ops -> (forall r, m_seg m r = final_seg r) /\
         (forall la pa, 0 <= la < 2 ^ 32 -> resolves (m_k m) la pa <-> translate d k' la = Some pa) /\
         k_cr3 (m_k m) = k_cr3 k' /\ k_cr0 (m_k m) = k_cr0 k' /\
         (forall pa, d * PGSIZE <= pa -> word (m_k m) pa = word k' pa) /\
         (forall pa, 0 <= pa < d * PGSIZE -> byte (m_k m) pa = byte k' pa \/
            (pa = gdt_va - KERNBASE + GD_KT + 5 \/ pa = gdt_va - KERNBASE + GD_KD + 5) /\ byte (m_k m) pa = Z.lor (byte k' pa) STA_A))) k.
Proof using All.
  intros Hin Hnf Hroom Hpl Hsg. set (np := detected_pages _ _) in *.
  destruct (proj1 (wp_iff _ _ _) (wp_map_kernel kend bootstack Hkend Hstack Hstack_end Hstack_page k b0 b1 e0 e1 rest
    (fun a k0 => a = KERNBASE + d * PGSIZE /\ exists f, space_built kend bootstack k k0 np f) Hin Hnf Hroom
    (fun k0 f Hb => conj eq_refl (ex_intro _ f Hb)))) as (a & k0 & Hmap & -> & f & Hb).
  assert (Hnp : 0 <= np <= 16640) by (apply detected_range; apply nvram_word_range).
  assert (Hd0 : 0 <= d) by (apply Z.div_pos; lia).
  assert (Hd : d < np) by (unfold pages_fit, PGSIZE, sizeof_Page in Hroom; lia).
  unfold boot_mem_init. apply wp_bind, wp_iff. exists (KERNBASE + d * PGSIZE), k0. split; [exact Hmap|].
  assert (Hram : page_in_ram k0 d) by (pose proof (sb_npages _ _ _ _ _ _ Hb) as E; split; lia).
  pose proof (built_switchable k k0 np f Hpl Hb) as Hsw. pose proof (dir_zero bootstack d f gdt_va gdt_pd ip k0 Hsw) as H0.
  refine (wp_switch_over kend bootstack Hkend Hstack Hstack_end Hstack_page k0 _ Hram H0 _).
  intros k' (Hw & _ & _ & _ & _ & _ & Hcr3 & _ & _ & _ & Hcr0). exists k0. split; [exact Hmap|]. intros s Hs.
  destruct (inv_reach bootstack d f gdt_va gdt_pd ip k0 Hsw _ s (inv_start bootstack d f gdt_va gdt_pd ip k0 Hsw sg gdtr ldtr Hsg) Hs) as (i & m & -> & Hi).
  exists i, m. split; [done|]. split; [|split].
  - intros r x pa Hf Hg Hx. by apply (iv_mapped bootstack d f gdt_va gdt_pd ip k0 Hsw i).
  - by apply (inv_progress bootstack d f gdt_va gdt_pd ip k0 Hsw).
  - intros ->. split_and!.
    + intros r. rewrite (iv_seg _ _ _ _ _ _ Hi). rewrite decide_False; [done|]. destruct r; cbn; lia.
    + intros la pa Hla. rewrite (inv_end bootstack d f gdt_va gdt_pd ip k0 Hsw) by done. unfold translate. by rewrite (pte_ext d k0 k').
    + rewrite Hcr3. apply Hi. cbn. lia.
    + rewrite Hcr0. apply (iv_cr0 _ _ _ _ _ _ Hi).
    + intros pa Hpa. rewrite Hw. destruct (decide (pa = d * PGSIZE)) as [->|]; [|apply Hi; lia].
      rewrite (iv_zero _ _ _ _ _ _ Hi) by (cbn; lia). exact (eq_sym H0).
    + intros pa Hpa. rewrite (byte_word k0 k') by apply Hw. by apply (iv_marked _ _ _ _ _ _ Hi).
Qed.
End boot.

(** A machine with 16MB whose kernel ends at 0xf0110900, with gdt and gdt_pd in its last
    bytes. *)
Module Machine16.
Fixpoint words_of (l : list Z) : list Z :=
  match l with b0 :: b1 :: b2 :: b3 :: l' => le [b0; b1; b2; b3] :: words_of l' | _ => [] end.
Definition kend : Z := 0xf0110900.
Definition bootstack : Z := 0xf0108000.
Definition gdt_va : Z := 0xf0110800.
Definition gdt_pd : Z := 0xf0110830.
Definition ip (i : nat) : Z := 0xf0100400 + 7 * Z.of_nat i.
Definition ram : gmap Z Z :=
  list_to_map (imap (fun i w => (0x110800 + 4 * Z.of_nat i, w)) (words_of (gdt_bytes ++ gdt_pd_bytes gdt_va ++ [0; 0]))).
Definition k_ex : kernel :=
  Kernel 0 0 0 [] 0 None 0 ram (fun _ => 0xFFFFFFFF) ∅ 0x11 0 (Io [0x80; 0x02; 0x00; 0x3C] []) [] [].

Lemma bytes_holds k pa l : bytes_of k pa (length l) = l -> holds k pa l.
Proof.
  intros E i b Hb. rewrite <- E in Hb. unfold bytes_of in Hb. rewrite list_lookup_fmap in Hb.
  destruct (seq 0 (length l) !! i) as [j|] eqn:Ej; [|done]. apply lookup_seq in Ej as [-> _]. by injection Hb.
Qed.

Lemma ex_in_place : in_place kend gdt_va gdt_pd ip k_ex.
Proof.
  split; try done.
  - intros i Hi. change (i <= 13)%nat in Hi. change PTSIZE with 0x400000. unfold ip, KERNBASE. lia.
  - apply bytes_holds. vm_compute. reflexivity.
  - right. done.
  - apply bytes_holds. vm_compute. reflexivity.
Qed.

Lemma switch_over_correct_witness :
  wp (boot_mem_init kend bootstack) (fun _ k' => exists k0, map_kernel kend bootstack k_ex = Ret 0xf0111000 k0 /\
    exists m, machine_step ip (switch_ops 0xf0111000 gdt_pd) (At 0 (Machine relocated_segs (0, 0) (null_seg 0) k0)) (At 1 m)) k_ex.
Proof.
  eapply wp_mono; [apply (switch_over_correct kend bootstack gdt_va gdt_pd ip) with
    (b0 := 0x80) (b1 := 0x02) (e0 := 0x00) (e1 := 0x3C) (rest := []) (sg := relocated_segs) (gdtr := (0, 0)) (ldtr := null_seg 0)|].
  - discriminate.
  - discriminate.
  - discriminate.
  - reflexivity.
  - reflexivity.
  - reflexivity.
  - vm_compute. discriminate.
  - exact ex_in_place.
  - done.
  - intros _ k' (k0 & E & H). exists k0. split; [exact E|]. destruct (H _ (rtc_refl _ _)) as (i & m & [= <- <-] & _ & Hp & _).
    apply Hp. apply (bool_decide_unpack _). vm_compute. exact I.
Defined.
End Machine16.
