(* ===== verification/Console.v ===== *)
(** * Console: kern/console.c and lib/readline.c

    The serial port, the CGA display, the keyboard, the input ring buffer that
    both input devices feed, and [readline].  The devices are reached through the
    ports of Ports.v; the display memory is a list of 16-bit cells for each of the
    two adapters. *)

From S2P Require Import Prelude Layout Printfmt FormatSpec Printf Ports.
Open Scope Z_scope.

(** ** Constants *)

Definition COM1 : Z := 0x3F8.
Definition COM_RX : Z := 0.
Definition COM_DLL : Z := 0.
Definition COM_DLM : Z := 1.
Definition COM_IER : Z := 1.
Definition COM_IER_RDI : Z := 0x01.
Definition COM_IIR : Z := 2.
Definition COM_FCR : Z := 2.
Definition COM_LCR : Z := 3.
Definition COM_LCR_DLAB : Z := 0x80.
Definition COM_LCR_WLEN8 : Z := 0x03.
Definition COM_MCR : Z := 4.
Definition COM_LSR : Z := 5.
Definition COM_LSR_DATA : Z := 0x01.

Definition MONO_BASE : Z := 0x3B4.
Definition CGA_BASE : Z := 0x3D4.
Definition CRT_ROWS : Z := 25.
Definition CRT_COLS : Z := 80.
Definition CRT_SIZE : Z := CRT_ROWS * CRT_COLS.

Definition KEY_HOME : Z := 0xE0.
Definition KEY_END : Z := 0xE1.
Definition KEY_UP : Z := 0xE2.
Definition KEY_DN : Z := 0xE3.
Definition KEY_LF : Z := 0xE4.
Definition KEY_RT : Z := 0xE5.
Definition KEY_PGUP : Z := 0xE6.
Definition KEY_PGDN : Z := 0xE7.
Definition KEY_INS : Z := 0xE8.
Definition KEY_DEL : Z := 0xE9.
Definition KBSTATP : Z := 0x64.
Definition KBS_DIB : Z := 0x01.
Definition KBDATAP : Z := 0x60.

Definition NO : Z := 0.
Definition SHIFT : Z := Z.shiftl 1 0.
Definition CTL : Z := Z.shiftl 1 1.
Definition ALT : Z := Z.shiftl 1 2.
Definition CAPSLOCK : Z := Z.shiftl 1 3.
Definition NUMLOCK : Z := Z.shiftl 1 4.
Definition SCROLLLOCK : Z := Z.shiftl 1 5.
Definition E0ESC : Z := Z.shiftl 1 6.

Definition CONSBUFSIZE : Z := 512.
Definition BUFLEN : Z := 1024.

(** ** State *)

Inductive adapter : Type := Color | Mono.

Record console : Type := MkConsole {
  c_io : io;
  c_color : option (list Z);     (* display memory at CGA_BUF, if there is any *)
  c_mono : list Z;               (* display memory at MONO_BUF *)
  serial_exists : bool;
  addr_6845 : Z;
  crt_buf : option adapter;      (* None: NULL *)
  crt_pos : Z;
  kbd_shift : Z;                 (* kbd_proc_data's shift *)
  cons_buf : list Z;             (* cons.buf, cons.rpos, cons.wpos *)
  cons_rpos : Z;
  cons_wpos : Z;
  line_buf : list Z;             (* readline's buf *)
  readline_hack : bool;
}.

Definition set_c_io v s := MkConsole v (c_color s) (c_mono s) (serial_exists s) (addr_6845 s) (crt_buf s) (crt_pos s) (kbd_shift s) (cons_buf s) (cons_rpos s) (cons_wpos s) (line_buf s) (readline_hack s).
Definition set_c_color v s := MkConsole (c_io s) v (c_mono s) (serial_exists s) (addr_6845 s) (crt_buf s) (crt_pos s) (kbd_shift s) (cons_buf s) (cons_rpos s) (cons_wpos s) (line_buf s) (readline_hack s).
Definition set_c_mono v s := MkConsole (c_io s) (c_color s) v (serial_exists s) (addr_6845 s) (crt_buf s) (crt_pos s) (kbd_shift s) (cons_buf s) (cons_rpos s) (cons_wpos s) (line_buf s) (readline_hack s).
Definition set_serial_exists v s := MkConsole (c_io s) (c_color s) (c_mono s) v (addr_6845 s) (crt_buf s) (crt_pos s) (kbd_shift s) (cons_buf s) (cons_rpos s) (cons_wpos s) (line_buf s) (readline_hack s).
Definition set_addr_6845 v s := MkConsole (c_io s) (c_color s) (c_mono s) (serial_exists s) v (crt_buf s) (crt_pos s) (kbd_shift s) (cons_buf s) (cons_rpos s) (cons_wpos s) (line_buf s) (readline_hack s).
Definition set_crt_buf v s := MkConsole (c_io s) (c_color s) (c_mono s) (serial_exists s) (addr_6845 s) v (crt_pos s) (kbd_shift s) (cons_buf s) (cons_rpos s) (cons_wpos s) (line_buf s) (readline_hack s).
Definition set_crt_pos v s := MkConsole (c_io s) (c_color s) (c_mono s) (serial_exists s) (addr_6845 s) (crt_buf s) (u16 v) (kbd_shift s) (cons_buf s) (cons_rpos s) (cons_wpos s) (line_buf s) (readline_hack s).
Definition set_kbd_shift v s := MkConsole (c_io s) (c_color s) (c_mono s) (serial_exists s) (addr_6845 s) (crt_buf s) (crt_pos s) v (cons_buf s) (cons_rpos s) (cons_wpos s) (line_buf s) (readline_hack s).
Definition set_cons b r w s := MkConsole (c_io s) (c_color s) (c_mono s) (serial_exists s) (addr_6845 s) (crt_buf s) (crt_pos s) (kbd_shift s) b r w (line_buf s) (readline_hack s).
Definition set_line_buf v s := MkConsole (c_io s) (c_color s) (c_mono s) (serial_exists s) (addr_6845 s) (crt_buf s) (crt_pos s) (kbd_shift s) (cons_buf s) (cons_rpos s) (cons_wpos s) v (readline_hack s).

#[export, refine] Instance console_has_io : HasIO console := {| io_of := c_io; with_io := set_c_io |}.
Proof. - done. - by intros []. - done. Defined.

(** An array element, read or written; outside the array is undefined. *)
Definition array_get (l : list Z) (i : Z) : M console Z :=
  if i <? 0 then fault else deref (l !! Z.to_nat i).
Definition array_set (l : list Z) (i v : Z) : M console (list Z) :=
  if (0 <=? i) && (i <? Z.of_nat (length l)) then mret (<[Z.to_nat i := v]> l) else fault.

(** ** Serial port *)

Definition serial_proc_data : M console Z :=
  lsr ← inb (COM1 + COM_LSR);
  if Z.land lsr COM_LSR_DATA =? 0 then mret (-1) else inb (COM1 + COM_RX).

Definition serial_init : M console () :=
  outb (COM1 + COM_FCR) 0;;
  outb (COM1 + COM_LCR) COM_LCR_DLAB;;
  outb (COM1 + COM_DLL) (u8 (115200 / 9600));;
  outb (COM1 + COM_DLM) 0;;
  outb (COM1 + COM_LCR) (Z.land COM_LCR_WLEN8 (Z.lnot COM_LCR_DLAB));;
  outb (COM1 + COM_MCR) 0;;
  outb (COM1 + COM_IER) COM_IER_RDI;;
  lsr ← inb (COM1 + COM_LSR);
  modify (set_serial_exists (negb (lsr =? 0xFF)));;
  inb (COM1 + COM_IIR);;
  inb (COM1 + COM_RX);;
  mret tt.

(** ** Parallel port *)

Definition delay : M console () := inb 0x84;; inb 0x84;; inb 0x84;; inb 0x84;; mret tt.

Definition lpt_putc (c : Z) : M console () :=
  while (Z.to_nat 12801)
    (fun i => s ← inb (0x378 + 1); mret ((Z.land s 0x80 =? 0) && (i <? 12800)))
    (fun i => delay;; mret (i + 1)) 0;;
  outb (0x378 + 0) c;;
  outb (0x378 + 2) (Z.lor (Z.lor 0x08 0x04) 0x01);;
  outb (0x378 + 2) 0x08.

(** ** Display *)

(** The cells [crt_buf] points to. *)
Definition get_cells : M console (list Z) :=
  s ← gets id;
  match crt_buf s with
  | None => fault
  | Some Color => deref (c_color s)
  | Some Mono => mret (c_mono s)
  end.
Definition put_cells (l : list Z) : M console () :=
  s ← gets id;
  match crt_buf s with
  | None => fault
  | Some Color => modify (set_c_color (Some l))
  | Some Mono => modify (set_c_mono l)
  end.
(** [crt_buf[i] = v] *)
Definition set_cell (i v : Z) : M console () := l ← get_cells; l' ← array_set l i (u16 v); put_cells l'.

Definition cursor_pos (addr : Z) : M console Z :=
  outb addr 14;;
  hi ← inb (addr + 1);
  outb addr 15;;
  lo ← inb (addr + 1);
  mret (Z.lor (Z.shiftl hi 8) lo).

(** The probe writes 0xA55A to the first cell at CGA_BUF and reads it back:
    memory that is there holds the value. *)
Definition cga_init : M console () :=
  s ← gets id;
  match c_color s with
  | None =>
      modify (set_addr_6845 MONO_BASE);;
      pos ← cursor_pos MONO_BASE;
      modify (set_crt_buf (Some Mono));;
      modify (set_crt_pos pos)
  | Some cells =>
      was ← array_get cells 0;
      l ← array_set cells 0 0xA55A;
      l ← array_set l 0 was;
      modify (set_c_color (Some l));;
      modify (set_addr_6845 CGA_BASE);;
      pos ← cursor_pos CGA_BASE;
      modify (set_crt_buf (Some Color));;
      modify (set_crt_pos pos)
  end.

(** The [memcpy] and the loop that move the screen up by one row. *)
Definition scroll : M console () :=
  while (S (Z.to_nat (CRT_SIZE - CRT_COLS))) (fun i => mret (i <? CRT_SIZE - CRT_COLS))
    (fun i => l ← get_cells; v ← array_get l (i + CRT_COLS); set_cell i v;; mret (i + 1)) 0;;
  while (S (Z.to_nat CRT_COLS)) (fun i => mret (i <? CRT_SIZE))
    (fun i => set_cell i (Z.lor 0x0700 (chr " "));; mret (i + 1)) (CRT_SIZE - CRT_COLS);;
  s ← gets id;
  modify (set_crt_pos (crt_pos s - CRT_COLS)).

Definition move_cursor : M console () :=
  s ← gets id;
  outb (addr_6845 s) 14;;
  outb (addr_6845 s + 1) (Z.shiftr (crt_pos s) 8);;
  outb (addr_6845 s) 15;;
  outb (addr_6845 s + 1) (crt_pos s).

Definition advance (n : Z) : M console () := s ← gets id; modify (set_crt_pos (crt_pos s + n)).
Definition carriage_return : M console () :=
  s ← gets id; modify (set_crt_pos (crt_pos s - crt_pos s mod CRT_COLS)).

(** [cga_putc] calls itself, through [cons_putc], for the blanks of a tab only,
    so a [depth] of two is enough. *)
Fixpoint cga_putc_rec (depth : nat) (c : Z) : M console () :=
  match depth with
  | O => spin
  | S depth' =>
      let c := if Z.land c (Z.lnot 0xFF) =? 0 then Z.lor c 0x0700 else c in
      let ch := Z.land c 0xff in
      (if ch =? 8 then
         s ← gets id;
         when (0 <? crt_pos s)
           (advance (-1);;
            s ← gets id;
            set_cell (crt_pos s) (Z.lor (Z.land c (Z.lnot 0xff)) (chr " ")))
       else if ch =? 10 then advance CRT_COLS;; carriage_return
       else if ch =? 13 then carriage_return
       else if ch =? 9 then for_each (cga_putc_rec depth') (replicate 5 (chr " "))
       else s ← gets id; set_cell (crt_pos s) c;; advance 1);;
      s ← gets id;
      when (CRT_SIZE <=? crt_pos s) scroll;;
      move_cursor
  end.

Definition cga_putc (c : Z) : M console () := cga_putc_rec 2 c.
Definition cons_putc (c : Z) : M console () := cga_putc c.
Definition cputchar (c : Z) : M console () := cons_putc c.
Definition console_printf (fmt : list Z) (args : list va) : M console Z := cprintf cputchar fmt args.

Definition get_cursor_loc : M console () :=
  s ← gets id;
  outb (addr_6845 s) 14;;
  hi ← inb (addr_6845 s + 1);
  modify (set_crt_pos (Z.shiftl hi 8));;
  outb (addr_6845 s) 15;;
  lo ← inb (addr_6845 s + 1);
  s ← gets id;
  modify (set_crt_pos (Z.lor (crt_pos s) lo)).

(** ** Keyboard *)

(** An array of 256 bytes from a C initialiser: the elements given in order,
    then the designated ones; the others are 0. *)
Definition byte_table (l : list Z) (des : list (nat * Z)) : list Z :=
  foldr (fun '(i, v) t => <[i := v]> t) (u8 <$> (l ++ replicate (256 - length l) 0)) (prod_map id u8 <$> des).

Definition key_table : list (nat * Z) :=
  [(0xC8%nat, KEY_UP); (0xC9%nat, KEY_PGUP); (0xCB%nat, KEY_LF); (0xCD%nat, KEY_RT); (0xCF%nat, KEY_END);
   (0xD0%nat, KEY_DN); (0xD1%nat, KEY_PGDN); (0xD2%nat, KEY_INS); (0xD3%nat, KEY_DEL)].

Definition shiftcode : list Z := Eval vm_compute in byte_table []
  [(0x1D%nat, CTL); (0x2A%nat, SHIFT); (0x36%nat, SHIFT); (0x38%nat, ALT); (0x9D%nat, CTL); (0xB8%nat, ALT)].
Definition togglecode : list Z := Eval vm_compute in byte_table []
  [(0x3A%nat, CAPSLOCK); (0x45%nat, NUMLOCK); (0x46%nat, SCROLLLOCK)].

Definition normalmap : list Z := Eval vm_compute in byte_table
  ([NO; 0x1B] ++ bytes "1234567890-=" ++ [8; 9] ++ bytes "qwertyuiop[]" ++ [10; NO]
   ++ bytes "asdfghjkl;'`" ++ [NO] ++ bytes "\zxcvbnm,./" ++ [NO] ++ bytes "*" ++ [NO] ++ bytes " "
   ++ replicate 13 NO ++ bytes "789-456+1230." ++ replicate 4 NO)
  ([(0x97%nat, KEY_HOME); (0x9C%nat, 10); (0xB5%nat, chr "/")] ++ key_table).

Definition shiftmap : list Z := Eval vm_compute in byte_table
  ([NO; 27] ++ bytes "!@#$%^&*()_+" ++ [8; 9] ++ bytes "QWERTYUIOP{}" ++ [10; NO]
   ++ bytes "ASDFGHJKL:" ++ [34] ++ bytes "~" ++ [NO] ++ bytes "|ZXCVBNM<>?" ++ [NO] ++ bytes "*" ++ [NO] ++ bytes " "
   ++ replicate 13 NO ++ bytes "789-456+1230." ++ replicate 4 NO)
  ([(0x97%nat, KEY_HOME); (0x9C%nat, 10); (0xB5%nat, chr "/")] ++ key_table).

(** The macro [C(x)]. *)
Definition ctl_of (x : Z) : Z := x - chr "@".

Definition ctlmap : list Z := Eval vm_compute in byte_table
  (replicate 16 NO ++ (ctl_of <$> bytes "QWERTYUIOP") ++ [NO; NO; 13; NO]
   ++ (ctl_of <$> bytes "ASDFGHJKL") ++ replicate 4 NO ++ (ctl_of <$> bytes "\ZXCVBNM") ++ [NO; NO; ctl_of (chr "/"); NO; NO])
  ([(0x97%nat, KEY_HOME); (0xB5%nat, ctl_of (chr "/"))] ++ key_table).

Definition charcode : list (list Z) := [normalmap; shiftmap; ctlmap; ctlmap].

(** A byte of one of the tables. *)
Definition table_byte (t : list Z) (i : Z) : M console Z := array_get t i.

(** The lower or upper case counterpart of a letter, when caps lock is on. *)
Definition caps (shift c : Z) : Z :=
  if negb (Z.land shift CAPSLOCK =? 0) then
    if (chr "a" <=? c) && (c <=? chr "z") then c + (chr "A" - chr "a")
    else if (chr "A" <=? c) && (c <=? chr "Z") then c + (chr "a" - chr "A")
    else c
  else c.

Definition key_pressed (data shift : Z) : M console Z :=
  sc ← table_byte shiftcode data;
  tc ← table_byte togglecode data;
  let shift := Z.lxor (Z.lor shift sc) tc in
  modify (set_kbd_shift shift);;
  map ← deref (charcode !! Z.to_nat (Z.land shift (Z.lor CTL SHIFT)));
  c ← table_byte map data;
  let c := caps shift c in
  when ((Z.land (Z.lnot shift) (Z.lor CTL ALT) =? 0) && (c =? KEY_DEL))
    (console_printf (bytes "Rebooting!" ++ [10]) [];; outb 0x92 0x3);;
  mret c.

Definition kbd_proc_data : M console Z :=
  st ← inb KBSTATP;
  if Z.land st KBS_DIB =? 0 then mret (-1)
  else
    data ← inb KBDATAP;
    shift ← gets kbd_shift;
    if data =? 0xE0 then
      modify (set_kbd_shift (Z.lor shift E0ESC));; mret 0
    else if negb (Z.land data 0x80 =? 0) then
      let data := if negb (Z.land shift E0ESC =? 0) then data else Z.land data 0x7F in
      sc ← table_byte shiftcode data;
      modify (set_kbd_shift (Z.land shift (Z.lnot (Z.lor sc E0ESC))));;
      mret 0
    else if negb (Z.land shift E0ESC =? 0) then
      let shift := Z.land shift (Z.lnot E0ESC) in
      modify (set_kbd_shift shift);;
      key_pressed (Z.lor data 0x80) shift
    else key_pressed data shift.

(** ** The input ring buffer *)

(** One character into the ring. *)
Definition cons_put (c : Z) : M console () :=
  s ← gets id;
  b ← array_set (cons_buf s) (cons_wpos s) (u8 c);
  let w := u32 (cons_wpos s + 1) in
  modify (set_cons b (cons_rpos s) (if w =? CONSBUFSIZE then 0 else w)).

(** [cons_intr] with [fuel] calls of [proc]. *)
Fixpoint cons_intr_rec (fuel : nat) (proc : M console Z) : M console () :=
  match fuel with
  | O => spin
  | S fuel' =>
      c ← proc;
      if c =? -1 then mret tt
      else if c =? 0 then cons_intr_rec fuel' proc
      else cons_put c;; cons_intr_rec fuel' proc
  end.

(** Every call of [proc] reads at least one value from a port. *)
Definition cons_intr (proc : M console Z) : M console () := fun s =>
  cons_intr_rec (S (length (io_in (c_io s)))) proc s.

Definition serial_intr : M console () :=
  e ← gets serial_exists; when e (cons_intr serial_proc_data).
Definition kbd_intr : M console () := cons_intr kbd_proc_data.
Definition kbd_init : M console () := mret tt.

(** One character out of the ring, 0 if there is none. *)
Definition cons_get : M console Z :=
  s ← gets id;
  if cons_rpos s =? cons_wpos s then mret 0
  else
    c ← array_get (cons_buf s) (cons_rpos s);
    let r := u32 (cons_rpos s + 1) in
    modify (set_cons (cons_buf s) (if r =? CONSBUFSIZE then 0 else r) (cons_wpos s));;
    mret c.

Definition cons_getc : M console Z := serial_intr;; kbd_intr;; cons_get.

Definition cons_init : M console () :=
  cga_init;; kbd_init;; serial_init;;
  e ← gets serial_exists;
  when (negb e) (console_printf (bytes "Serial port does not exist!" ++ [10]) [];; mret tt).

(** Every round of the loop of [getchar] reads the ports. *)
Fixpoint getchar_rec (fuel : nat) : M console Z :=
  match fuel with
  | O => spin
  | S fuel' => c ← cons_getc; if c =? 0 then getchar_rec fuel' else mret c
  end.
Definition getchar : M console Z := fun s => getchar_rec (S (length (io_in (c_io s)))) s.

Definition iscons (fdnum : Z) : Z := 1.

(** ** lib/readline.c *)

(** [buf[i] = v] *)
Definition set_line (i v : Z) : M console () :=
  l ← gets line_buf; l' ← array_set l i (u8 v); modify (set_line_buf l').

(** [buf[i..] = l] *)
Fixpoint set_lines (i : Z) (l : list Z) : M console () :=
  match l with
  | [] => mret tt
  | v :: l' => set_line i v;; set_lines (i + 1) l'
  end.

(** One round of the loop: the new [i], or the end of the loop with NULL
    ([false]) or [buf] ([true]). *)
Definition readline_step (echoing : Z) (i : Z) : M console (Z + bool) :=
  c ← getchar;
  let echo := when (negb (echoing =? 0)) (cputchar c) in
  if c <? 0 then console_printf (bytes "read error: %e" ++ [10]) [Word c];; mret (inr false)
  else if (chr " " <=? c) && (i <? BUFLEN - 1) then echo;; set_line i c;; mret (Datatypes.inl (i + 1))
  else if (c =? 8) && (0 <? i) then echo;; mret (Datatypes.inl (i - 1))
  else if (c =? 10) || (c =? 13) then echo;; set_line i 0;; mret (inr true)
  else mret (Datatypes.inl i).

Fixpoint readline_rec (fuel : nat) (echoing i : Z) : M console bool :=
  match fuel with
  | O => spin
  | S fuel' =>
      r ← readline_step echoing i;
      match r with Datatypes.inl i => readline_rec fuel' echoing i | inr b => mret b end
  end.

(** The result: [false] for NULL, [true] for [buf].  [prompt] is [None] for
    NULL. *)
Definition readline (prompt : option (list Z)) : M console bool := fun s =>
  (if readline_hack s then set_lines 0 (bytes "exit" ++ [0]);; mret true
   else
     (match prompt with Some p => console_printf (bytes "%s") [Str (Some p)];; mret tt | None => mret tt end);;
     readline_rec (S (length (io_in (c_io s)))) (iscons 0) 0) s.

(** ** The display *)

(** The cells on display. *)
Definition cells (s : console) : option (list Z) :=
  match crt_buf s with None => None | Some Color => c_color s | Some Mono => Some (c_mono s) end.

Definition put (l : list Z) (s : console) : console :=
  match crt_buf s with None => s | Some Color => set_c_color (Some l) s | Some Mono => set_c_mono l s end.

(** [s] with the cells [l], the cursor at [p] and the port log [g]. *)
Definition show (l : list Z) (p : Z) (g : list port_event) (s : console) : console :=
  set_c_io (Io (io_in (c_io s)) g) (set_crt_pos p (put l s)).

Definition screen_ok (sc : list Z * Z) : Prop := Z.of_nat (length sc.1) = CRT_SIZE /\ 0 <= sc.2 < CRT_SIZE.

(** What a character does to the cells and the cursor. *)
Definition blank : Z := 0x0720.
Definition with_attr (c : Z) : Z := if Z.land c (Z.lnot 0xFF) =? 0 then Z.lor c 0x0700 else c.
Definition scrolled (sc : list Z * Z) : list Z * Z :=
  if CRT_SIZE <=? sc.2 then (drop 80 sc.1 ++ replicate 80 blank, sc.2 - CRT_COLS) else sc.
Definition put_glyph (c : Z) (sc : list Z * Z) : list Z * Z :=
  (<[Z.to_nat sc.2 := u16 c]> sc.1, sc.2 + 1).
Definition start_of_row (p : Z) : Z := p / CRT_COLS * CRT_COLS.
Definition typed_on (c : Z) (sc : list Z * Z) : list Z * Z :=
  let c := with_attr c in
  let ch := Z.land c 0xff in
  if ch =? 8 then
    if 0 <? sc.2 then (<[Z.to_nat (sc.2 - 1) := u16 (Z.lor (Z.land c (Z.lnot 0xff)) (chr " "))]> sc.1, sc.2 - 1) else sc
  else if ch =? 10 then scrolled (sc.1, start_of_row sc.2 + CRT_COLS)
  else if ch =? 13 then (sc.1, start_of_row sc.2)
  else if ch =? 9 then Nat.iter 5 (fun sc => scrolled (put_glyph blank sc)) sc
  else scrolled (put_glyph c sc).

Section display.
Context (s : console) (Hbuf : is_Some (crt_buf s)).
Implicit Types (l : list Z) (p : Z) (g : list port_event).

Lemma show_show l p g l' p' g' : show l' p' g' (show l p g s) = show l' p' g' s.
Proof. destruct s; unfold show, put; cbn in *. by destruct Hbuf as [[|] ->]. Qed.
Lemma cells_show l p g : cells (show l p g s) = Some l.
Proof. destruct s; unfold show, put, cells; cbn in *. by destruct Hbuf as [[|] ->]. Qed.
Lemma crt_buf_show l p g : crt_buf (show l p g s) = crt_buf s.
Proof. destruct s; unfold show, put; cbn in *. by destruct Hbuf as [[|] ->]. Qed.
Lemma crt_pos_show l p g : 0 <= p < 2 ^ 16 -> crt_pos (show l p g s) = p.
Proof. intros. destruct s; unfold show, put; cbn in *. destruct Hbuf as [[|] ->]; cbn; by apply u16_small. Qed.

Lemma wp_show_out a d (Q : () -> console -> Prop) l p g :
  (forall g', Q tt (show l p g' s)) -> wp (outb a d) Q (show l p g s).
Proof. intros HQ. unfold wp, outb. rewrite port_out_eq. exact (HQ (g ++ [Out 8 (u16 a) (d mod 2 ^ 8)])). Qed.

Lemma wp_show_pos p' (Q : () -> console -> Prop) l p g :
  Q tt (show l p' g s) -> wp (modify (set_crt_pos p')) Q (show l p g s).
Proof.
  intros HQ. apply wp_modify. destruct s; unfold show, put in *; cbn in *.
  by destruct Hbuf as [[|] ->].
Qed.

Lemma wp_show_get (Q : list Z -> console -> Prop) l p g :
  Q l (show l p g s) -> wp get_cells Q (show l p g s).
Proof.
  intros HQ. unfold get_cells. apply wp_bind, wp_gets. unfold id.
  pose proof (cells_show l p g) as Hc. unfold cells in Hc.
  destruct (crt_buf (show l p g s)) as [[|]|]; [| |done].
  - exact (wp_deref _ l _ _ Hc HQ).
  - apply wp_ret. by replace (c_mono (show l p g s)) with l by congruence.
Qed.

Lemma wp_set_cell i v (Q : () -> console -> Prop) l p g :
  0 <= i < Z.of_nat (length l) -> Q tt (show (<[Z.to_nat i := u16 v]> l) p g s) ->
  wp (set_cell i v) Q (show l p g s).
Proof.
  intros Hi HQ. unfold set_cell. wp_step. apply wp_show_get. wp_step. unfold array_set.
  replace ((0 <=? i) && (i <? Z.of_nat (length l))) with true by lia. wp_go.
  unfold put_cells, gets, id. apply wp_bind, wp_gets. unfold id. rewrite crt_buf_show.
  destruct s; unfold show, put in *; cbn in *. by destruct Hbuf as [[|] ->].
Qed.

Lemma wp_advance n (Q : () -> console -> Prop) l p g :
  0 <= p < 2 ^ 16 -> Q tt (show l (p + n) g s) -> wp (advance n) Q (show l p g s).
Proof. intros Hp HQ. unfold advance. do 2 wp_step. unfold id. rewrite crt_pos_show by done. by apply wp_show_pos. Qed.

Lemma wp_carriage_return (Q : () -> console -> Prop) l p g :
  0 <= p < 2 ^ 16 -> Q tt (show l (start_of_row p) g s) -> wp carriage_return Q (show l p g s).
Proof.
  intros Hp HQ. unfold carriage_return. do 2 wp_step. unfold id. rewrite crt_pos_show by done. apply wp_show_pos.
  by replace (p - p mod CRT_COLS) with (start_of_row p) by (unfold start_of_row, CRT_COLS; Z.div_mod_to_equations; lia).
Qed.

Lemma wp_move_cursor (Q : () -> console -> Prop) l p g :
  (forall g', Q tt (show l p g' s)) -> wp move_cursor Q (show l p g s).
Proof. intros HQ. unfold move_cursor. do 2 wp_step. do 3 (wp_step; apply wp_show_out; intros ?). by apply wp_show_out. Qed.
End display.

Lemma wp_array_get (l : list Z) i v (Q : Z -> console -> Prop) s :
  0 <= i -> l !! Z.to_nat i = Some v -> Q v s -> wp (array_get l i) Q s.
Proof. intros Hi Hl HQ. unfold array_get. replace (i <? 0) with false by lia. exact (wp_deref _ v _ _ Hl HQ). Qed.

Lemma wp_array_set (l : list Z) i v (Q : list Z -> console -> Prop) s :
  0 <= i < Z.of_nat (length l) -> Q (<[Z.to_nat i := v]> l) s -> wp (array_set l i v) Q s.
Proof.
  intros Hi HQ. unfold array_set. by replace ((0 <=? i) && (i <? Z.of_nat (length l))) with true by lia.
Qed.

Section scroll.
Context (s : console) (Hbuf : is_Some (crt_buf s)).

(** The cells after [i] rounds of the copying loop. *)
Definition copied (l : list Z) (i : nat) : list Z := take i (drop 80 l) ++ drop i l.

Lemma copied_lookup l i j :
  (i + 80 <= length l)%nat -> copied l i !! j = if decide (j < i)%nat then l !! (j + 80)%nat else l !! j.
Proof.
  intros Hi. unfold copied. rewrite lookup_app. assert (length (take i (drop 80 l)) = i) as Hlen
    by (rewrite length_take, length_drop; lia). destruct (decide (j < i)%nat).
  - rewrite lookup_take_lt, lookup_drop by done. rewrite (Nat.add_comm 80).
    destruct (lookup_lt_is_Some_2 l (j + 80)%nat) as [v ->]; [lia | done].
  - rewrite lookup_take_ge by lia. rewrite Hlen, lookup_drop. f_equal. lia.
Qed.

Lemma copied_step l i v :
  (i + 80 < length l)%nat -> l !! (i + 80)%nat = Some v -> <[i := v]> (copied l i) = copied l (S i).
Proof.
  intros Hi Hv. assert (Hlen : length (copied l i) = length l).
  { unfold copied. rewrite length_app, length_take, !length_drop. lia. }
  apply list_eq. intros j. rewrite copied_lookup by lia. destruct (decide (i = j)) as [<-|Hne].
  - rewrite list_lookup_insert_eq by lia. by rewrite decide_True by lia.
  - rewrite list_lookup_insert_ne, copied_lookup by lia.
    destruct (decide (j < i)%nat), (decide (j < S i)%nat); done || lia.
Qed.

Lemma wp_scroll (Q : () -> console -> Prop) l p g :
  Z.of_nat (length l) = CRT_SIZE -> 0 <= p < 2 ^ 16 -> Forall (fun v => 0 <= v < 2 ^ 16) l ->
  Q tt (show (drop 80 l ++ replicate 80 blank) (p - CRT_COLS) g s) -> wp scroll Q (show l p g s).
Proof.
  intros Hl Hp Hw HQ. unfold CRT_SIZE, CRT_ROWS, CRT_COLS in *. unfold scroll. wp_step.
  apply (wp_while (fun i t => 0 <= i <= 1920 /\ t = show (copied l (Z.to_nat i)) p g s) (fun i => Z.to_nat (1920 - i))).
  { split; [lia|]. unfold copied. by rewrite drop_0. } { vm_compute; lia. }
  intros i t [Hi ->]. wp_step. unfold CRT_SIZE, CRT_ROWS, CRT_COLS.
  destruct (Z.ltb_spec i (25 * 80 - 80)).
  { destruct (lookup_lt_is_Some_2 l (Z.to_nat i + 80)%nat) as [v Hv]; [lia|]. wp_step. apply wp_show_get; [done|].
    wp_step. apply wp_array_get with v; [lia| |].
    { rewrite copied_lookup by lia. rewrite decide_False by lia. rewrite <- Hv. f_equal. lia. }
    wp_step. apply wp_set_cell; [done| |].
    { unfold copied. rewrite length_app, length_take, !length_drop. lia. }
    wp_step. split; [|lia]. split; [lia|]. rewrite u16_small.
    - rewrite (copied_step l _ v) by (done || lia). repeat f_equal. lia.
    - rewrite Forall_forall in Hw. apply Hw. by eapply list_elem_of_lookup_2. }
  replace i with 1920 by lia. wp_step.
  apply (wp_while (fun i t => 1920 <= i <= 2000 /\
    t = show (drop 80 l ++ replicate (Z.to_nat (i - 1920)) blank ++ drop (Z.to_nat i) l) p g s) (fun i => Z.to_nat (2000 - i))).
  { split; [lia|]. unfold copied. rewrite take_ge by (rewrite length_drop; lia). done. } { vm_compute; lia. }
  clear i Hi H. intros i t [Hi ->]. wp_step. destruct (Z.ltb_spec i (25 * 80)).
  { wp_step. apply wp_set_cell; [done| |].
    { rewrite !length_app, length_replicate, !length_drop. lia. }
    wp_step. split; [|lia]. split; [lia|]. f_equal.
    rewrite insert_app_r_alt by (rewrite length_drop; lia). rewrite length_drop. f_equal.
    rewrite insert_app_r_alt by (rewrite length_replicate; lia). rewrite length_replicate.
    replace (Z.to_nat i - (length l - 80) - Z.to_nat (i - 1920))%nat with 0%nat by lia.
    destruct (drop (Z.to_nat i) l) as [|v r] eqn:E.
    { apply (f_equal length) in E. rewrite length_drop in E. simpl in E. lia. }
    replace (Z.to_nat (i + 1)) with (S (Z.to_nat i)) by lia.
    replace (Z.to_nat (i + 1 - 1920)) with (S (Z.to_nat (i - 1920))) by lia.
    rewrite replicate_S_end, <- app_assoc. do 2 f_equal. cbn [insert list_insert].
    replace (drop (S (Z.to_nat i)) l) with r; [done|].
    replace (S (Z.to_nat i)) with (Z.to_nat i + 1)%nat by lia. by rewrite <- drop_drop, E. }
  replace i with 2000 by lia. rewrite (drop_ge l (Z.to_nat 2000)), app_nil_r by lia.
  do 2 wp_step. unfold id. rewrite crt_pos_show by done. by apply wp_show_pos.
Qed.
End scroll.

(** ** [cga_putc] *)

Definition words16 (l : list Z) : Prop := Forall (fun v => 0 <= v < 2 ^ 16) l.

Lemma words16_insert l i v : words16 l -> words16 (<[i := u16 v]> l).
Proof. intros Hl. apply Forall_insert; [done | apply u16_range]. Qed.

Section cga_putc.
Context (s : console) (Hbuf : is_Some (crt_buf s)).

Definition drawn (sc : list Z * Z) (g : list port_event) : console := show sc.1 sc.2 g s.

(** The end of [cga_putc]. *)
Lemma wp_finish (Q : () -> console -> Prop) sc g :
  Z.of_nat (length sc.1) = CRT_SIZE -> 0 <= sc.2 < 2 ^ 16 -> words16 sc.1 ->
  (forall g', Q tt (drawn (scrolled sc) g')) ->
  wp (t ← gets id; when (CRT_SIZE <=? crt_pos t) scroll;; move_cursor) Q (drawn sc g).
Proof.
  intros Hl Hp Hw HQ. do 2 wp_step. unfold id, drawn in *. rewrite crt_pos_show by done. unfold scrolled in HQ.
  wp_step. destruct (CRT_SIZE <=? sc.2); cbn [when].
  - apply wp_scroll; [done..|]. by apply wp_move_cursor.
  - wp_step. by apply wp_move_cursor.
Qed.

Ltac redraw :=
  match goal with |- wp _ _ (show ?l ?p ?g s) => change (show l p g s) with (drawn (l, p) g) end.

(** The characters other than a tab. *)
Lemma wp_putc_plain depth c (Q : () -> console -> Prop) sc g :
  screen_ok sc -> words16 sc.1 -> Z.land (with_attr c) 0xff <> 9 ->
  (forall g', Q tt (drawn (typed_on c sc) g')) -> wp (cga_putc_rec (S depth) c) Q (drawn sc g).
Proof.
  intros [Hl Hp] Hw Hc HQ. cbn [cga_putc_rec]. fold (with_attr c). unfold typed_on in HQ. unfold CRT_SIZE, CRT_ROWS in *.
  replace (Z.land (with_attr c) 255 =? 9) with false in * by lia.
  set (ch := Z.land (with_attr c) 255) in *.
  assert (Hrow : 0 <= start_of_row (sc.2) <= sc.2) by (unfold start_of_row, CRT_COLS; Z.div_mod_to_equations; lia).
  unfold CRT_COLS in *. wp_step. destruct (ch =? 8); [|destruct (ch =? 10); [|destruct (ch =? 13)]].
  - do 2 wp_step. unfold drawn, id in *. rewrite crt_pos_show by (done || lia).
    destruct (Z.ltb_spec 0 sc.2); cbn [when].
    + wp_step. apply wp_advance; [done|lia|]. do 2 wp_step. unfold id. rewrite crt_pos_show by (done || lia).
      apply wp_set_cell; [done|lia|]. redraw; apply wp_finish; cbn [fst snd]; [by rewrite length_insert|lia|by apply words16_insert|].
      intros g'. specialize (HQ g'). unfold drawn, scrolled in *. cbn [fst snd] in *.
      unfold CRT_SIZE, CRT_ROWS, CRT_COLS. by replace (25 * 80 <=? sc.2 + -1) with false by lia.
    + wp_step. apply wp_finish; [done|lia|done|].
      intros g'. specialize (HQ g'). unfold drawn, scrolled in *. cbn [fst snd] in *.
      unfold CRT_SIZE, CRT_ROWS, CRT_COLS. by replace (25 * 80 <=? sc.2) with false by lia.
  - wp_step. apply wp_advance; [done|lia|]. unfold drawn in *. apply wp_carriage_return; [done|lia|].
    redraw; apply wp_finish; cbn [fst snd]; [done|unfold start_of_row, CRT_COLS; Z.div_mod_to_equations; lia|done|].
    intros g'. specialize (HQ g'). unfold drawn.
    replace (start_of_row (sc.2 + 80)) with (start_of_row (sc.2) + 80); [done|].
    unfold start_of_row, CRT_COLS. Z.div_mod_to_equations. lia.
  - apply wp_carriage_return; [done|lia|]. redraw; apply wp_finish; cbn [fst snd]; [done|lia|done|].
    intros g'. specialize (HQ g'). unfold drawn, scrolled in *. cbn [fst snd] in *.
    unfold CRT_SIZE, CRT_ROWS, CRT_COLS. by replace (25 * 80 <=? start_of_row (sc.2)) with false by lia.
  - do 2 wp_step. unfold drawn, id in *. rewrite crt_pos_show by (done || lia). wp_step.
    apply wp_set_cell; [done|lia|]. apply wp_advance; [done|lia|].
    redraw; apply wp_finish; cbn [fst snd]; [by rewrite length_insert|lia|by apply words16_insert|]. exact HQ.
Qed.
End cga_putc.


(** Every character leaves a screen of 2000 words with the cursor on it. *)
Definition display_ok (sc : list Z * Z) : Prop := screen_ok sc /\ words16 sc.1.

Lemma scrolled_ok sc :
  Z.of_nat (length sc.1) = CRT_SIZE -> 0 <= sc.2 < CRT_SIZE + CRT_COLS -> words16 sc.1 -> display_ok (scrolled sc).
Proof.
  destruct sc as [l p]. unfold display_ok, screen_ok, scrolled, CRT_SIZE, CRT_ROWS, CRT_COLS. cbn [fst snd].
  intros Hl Hp Hw. destruct (Z.leb_spec (25 * 80) p); cbn [fst snd]; [|split; [lia|done]].
  split; [split; [|lia]|].
  - rewrite length_app, length_drop, length_replicate. lia.
  - apply Forall_app. split; [by apply Forall_drop|]. apply Forall_replicate. unfold blank. lia.
Qed.

Lemma typed_ok c sc : display_ok sc -> display_ok (typed_on c sc).
Proof.
  intros [[Hl Hp] Hw]. unfold typed_on. assert (0 <= start_of_row (sc.2) <= sc.2)
    by (unfold start_of_row, CRT_COLS; Z.div_mod_to_equations; lia).
  assert (Hg : forall c sc, display_ok sc -> display_ok (scrolled (put_glyph c sc))).
  { clear. intros c sc [[Hl Hp] Hw]. unfold CRT_SIZE, CRT_ROWS, CRT_COLS in *.
    apply scrolled_ok; unfold put_glyph; cbn [fst snd]; [by rewrite length_insert| |by apply words16_insert].
    unfold CRT_SIZE, CRT_ROWS, CRT_COLS. lia. }
  repeat case_match; unfold CRT_SIZE, CRT_ROWS, CRT_COLS in *.
  - split; [split|]; cbn [fst snd]; [by rewrite length_insert|unfold CRT_SIZE, CRT_ROWS, CRT_COLS; lia|by apply words16_insert].
  - done.
  - apply scrolled_ok; cbn [fst snd]; [done|unfold CRT_SIZE, CRT_ROWS, CRT_COLS; lia|done].
  - split; [split|]; cbn [fst snd]; [done|unfold CRT_SIZE, CRT_ROWS, CRT_COLS; lia|done].
  - apply Nat.iter_invariant; [|done]. intros. by apply Hg.
  - by apply Hg.
Qed.

Lemma wp_putc s c (Q : () -> console -> Prop) sc g :
  is_Some (crt_buf s) -> display_ok sc ->
  (forall g', Q tt (drawn s (typed_on c sc) g')) -> wp (cga_putc c) Q (drawn s sc g).
Proof.
  intros Hbuf [Hsc Hw] HQ. destruct (decide (Z.land (with_attr c) 0xff = 9)) as [E|E].
  2: { apply wp_putc_plain; done. }
  assert (Hsp : with_attr (chr " ") = blank) by (vm_compute; reflexivity).
  assert (Hn : typed_on (chr " ") = fun sc => scrolled (put_glyph blank sc)) by (unfold typed_on; rewrite Hsp; reflexivity).
  unfold cga_putc. cbn [cga_putc_rec]. fold (with_attr c). rewrite E. cbn [Z.eqb Pos.eqb].
  wp_step. unfold typed_on in HQ. rewrite E in HQ. cbn [Z.eqb Pos.eqb] in HQ. rewrite <- Hn in HQ.
  assert (Hiter : forall n sc g (R : () -> console -> Prop), display_ok sc ->
    (forall g', R tt (drawn s (Nat.iter n (typed_on (chr " ")) sc) g')) ->
    wp (for_each (cga_putc_rec 1) (replicate n (chr " "))) R (drawn s sc g)).
  { clear - Hbuf. assert (Hne : Z.land (with_attr (chr " ")) 0xff <> 9) by (vm_compute; done).
    induction n as [|n IH]; intros sc g R [Hsc Hw] HR; cbn [replicate for_each]; [wp_step; apply HR|].
    wp_step. apply wp_putc_plain; [done..|]. intros g1. apply IH; [by apply typed_ok|].
    intros g2. specialize (HR g2). by rewrite Nat.iter_succ_r in HR. }
  apply (Hiter 5%nat); [done|]. intros g1.
  destruct (Nat.iter_invariant 5 _ (typed_on (chr " ")) display_ok (fun sc => typed_ok _ sc) sc (conj Hsc Hw)) as [[Hl Hp] Hw'].
  set (sc' := Nat.iter 5 (typed_on (chr " ")) sc) in *.
  assert (Hs : scrolled sc' = sc').
  { unfold scrolled. by replace (CRT_SIZE <=? sc'.2) with false by (unfold CRT_SIZE in *; lia). }
  apply wp_finish; [done..|unfold CRT_SIZE, CRT_ROWS, CRT_COLS in *; lia|done|]. by rewrite Hs.
Qed.

Lemma show_self s l :
  cells s = Some l -> 0 <= crt_pos s < 2 ^ 16 -> show l (crt_pos s) (io_log (c_io s)) s = s.
Proof.
  destruct s as [[i o] ? ? ? ? b p]. unfold show, put, cells, set_crt_pos, set_c_io. cbn. intros Hc Hp.
  rewrite u16_small by lia. destruct b as [[|]|]; by simplify_eq/=.
Qed.

Lemma cells_some s l : cells s = Some l -> is_Some (crt_buf s).
Proof. unfold cells. by destruct (crt_buf s). Qed.

(** C23: [cga_putc] updates the display as [typed_on] says, the cursor stays on the
    screen, and besides the display it only writes to ports. *)
Theorem cga_putc_correct s l c :
  cells s = Some l -> display_ok (l, crt_pos s) ->
  let sc := typed_on c (l, crt_pos s) in
  display_ok sc /\ exists g, cga_putc c s = Ret tt (show sc.1 sc.2 g s).
Proof.
  intros Hc Hok sc. split; [by apply typed_ok|].
  assert (H : wp (cga_putc c) (fun _ t => exists g, t = drawn s sc g) (drawn s (l, crt_pos s) (io_log (c_io s)))).
  { apply wp_putc; [by eapply cells_some|done|]. intros g'. by exists g'. }
  unfold drawn in H. cbn [fst snd] in H.
  rewrite show_self in H; [|done|destruct Hok as [[_ Hp] _]; unfold CRT_SIZE, CRT_ROWS, CRT_COLS in Hp; cbn in Hp; lia].
  apply (wp_iff (cga_putc c)) in H as ([] & t & Ht & g & ->). by exists g.
Qed.

(** A colour display after [cga_init], and its cells. *)
Definition demo_console (script : list Z) : console :=
  MkConsole (Io script []) (Some (replicate 2000 blank)) [] true CGA_BASE (Some Color) 0 0 (replicate 512 0) 0 0
    (replicate 1024 0) false.

Lemma demo_display_ok p : 0 <= p < CRT_SIZE -> display_ok (replicate 2000 blank, p).
Proof.
  intros Hp. split; [split; [vm_compute; reflexivity | done]|]. apply Forall_replicate. unfold blank. lia.
Qed.

Lemma cga_putc_correct_witness :
  exists g, cga_putc (chr "A") (demo_console []) = Ret tt (show (<[0%nat := 0x0741]> (replicate 2000 blank)) 1 g (demo_console [])).
Proof.
  destruct (cga_putc_correct (demo_console []) (replicate 2000 blank) (chr "A")) as [_ H]; [reflexivity | | exact H].
  apply demo_display_ok. vm_compute. split; [discriminate | reflexivity].
Defined.

(** Text on the display. *)
Lemma for_each_cputchar s l out sc g :
  cells s = Some l -> display_ok sc ->
  exists g', for_each cputchar out (drawn s sc g) = Ret tt (drawn s (foldl (fun sc c => typed_on c sc) sc out) g').
Proof.
  intros Hc. revert sc g. induction out as [|c out IH]; intros sc g Hok; cbn [for_each foldl]; [by exists g|].
  assert (H : wp (cga_putc c) (fun _ t => exists g, t = drawn s (typed_on c sc) g) (drawn s sc g)).
  { apply wp_putc; [by eapply cells_some|done|]. intros g'. by exists g'. }
  apply (wp_iff (cga_putc c)) in H as ([] & t & Ht & g1 & ->).
  destruct (IH (typed_on c sc) g1) as [g2 H2]; [by apply typed_ok|]. exists g2.
  by rewrite (bind_eq _ _ _ tt _ Ht).
Qed.

Lemma for_each_cputchar_run s l out :
  cells s = Some l -> display_ok (l, crt_pos s) ->
  let sc := foldl (fun sc c => typed_on c sc) (l, crt_pos s) out in
  exists g, for_each cputchar out s = Ret tt (show sc.1 sc.2 g s).
Proof.
  intros Hc Hok sc. destruct (for_each_cputchar s l out (l, crt_pos s) (io_log (c_io s))) as [g Hg]; [done..|].
  exists g. unfold drawn in Hg. cbn [fst snd] in Hg.
  rewrite show_self in Hg; [done|done|]. destruct Hok as [[_ Hp] _]; unfold CRT_SIZE, CRT_ROWS, CRT_COLS in Hp; cbn in Hp; lia.
Qed.

Lemma console_printf_run s l ps args out rest :
  cells s = Some l -> display_ok (l, crt_pos s) ->
  Forall piece_ok ps -> Forall va_ok args -> render ps args = Some (out, rest) ->
  let sc := foldl (fun sc c => typed_on c sc) (l, crt_pos s) out in
  exists g, console_printf (unparse ps) args s = Ret 0 (show sc.1 sc.2 g s).
Proof.
  intros Hc Hok Hps Hva Hr sc. unfold console_printf. rewrite (cprintf_run cputchar ps args out rest s) by done.
  destruct (for_each_cputchar_run s l out Hc Hok) as [g Hg]. exists g. by rewrite (bind_eq _ _ _ tt _ Hg).
Qed.

(** Text after text. *)
Lemma typed_all_ok out sc : display_ok sc -> display_ok (foldl (fun sc c => typed_on c sc) sc out).
Proof. revert sc. induction out as [|c out IH]; intros sc Hok; [done|]. cbn. by apply IH, typed_ok. Qed.

(** The console's [cprintf] displays the formatted text. *)
Theorem console_printf_correct s l ps args out rest :
  cells s = Some l -> display_ok (l, crt_pos s) ->
  Forall piece_ok ps -> Forall va_ok args -> render ps args = Some (out, rest) ->
  let sc := foldl (fun sc c => typed_on c sc) (l, crt_pos s) out in
  exists g, console_printf (unparse ps) args s = Ret 0 (show sc.1 sc.2 g s).
Proof. apply console_printf_run. Qed.

Lemma console_printf_correct_witness :
  exists g, console_printf (unparse [Text (bytes "ok")]) [] (demo_console []) =
    Ret 0 (show (<[1%nat := 0x076B]> (<[0%nat := 0x076F]> (replicate 2000 blank))) 2 g (demo_console [])).
Proof.
  refine (console_printf_correct (demo_console []) (replicate 2000 blank) _ [] (bytes "ok") [] _ _ _ _ _).
  - reflexivity.
  - apply demo_display_ok. vm_compute. split; [discriminate | reflexivity].
  - apply pieces_okb_sound. vm_compute. reflexivity.
  - constructor.
  - reflexivity.
Defined.

(** ** The ring buffer as a queue *)

Definition ring_ok (s : console) : Prop :=
  Z.of_nat (length (cons_buf s)) = CONSBUFSIZE /\ 0 <= cons_rpos s < CONSBUFSIZE /\ 0 <= cons_wpos s < CONSBUFSIZE.

Definition ring_count (s : console) : nat := Z.to_nat ((cons_wpos s - cons_rpos s) mod CONSBUFSIZE).

(** The characters waiting to be read, oldest first. *)
Definition waiting (s : console) : list Z :=
  let r := Z.to_nat (cons_rpos s) in take (ring_count s) (drop r (cons_buf s) ++ take r (cons_buf s)).

Lemma waiting_length s : ring_ok s -> length (waiting s) = ring_count s.
Proof.
  intros (Hl & Hr & Hw). unfold waiting. rewrite length_take, length_app, length_drop, length_take.
  unfold ring_count, CONSBUFSIZE in *. pose proof (Z.mod_pos_bound (cons_wpos s - cons_rpos s) 512). lia.
Qed.

Lemma waiting_lookup s k :
  ring_ok s -> (k < ring_count s)%nat ->
  waiting s !! k = cons_buf s !! Z.to_nat ((cons_rpos s + Z.of_nat k) mod CONSBUFSIZE).
Proof.
  intros (Hl & Hr & Hw) Hk. unfold waiting. rewrite lookup_take_lt by done.
  unfold ring_count, CONSBUFSIZE in *. pose proof (Z.mod_pos_bound (cons_wpos s - cons_rpos s) 512).
  destruct (decide (cons_rpos s + Z.of_nat k < 512)).
  - rewrite lookup_app_l by (rewrite length_drop; lia). rewrite lookup_drop, Z.mod_small by lia. f_equal. lia.
  - rewrite lookup_app_r by (rewrite length_drop; lia). rewrite length_drop.
    replace ((cons_rpos s + Z.of_nat k) mod 512) with (cons_rpos s + Z.of_nat k - 512)
      by (rewrite <- (Z.mod_small (cons_rpos s + Z.of_nat k - 512) 512) by lia; Z.div_mod_to_equations; lia).
    rewrite lookup_take_lt by lia. f_equal. lia.
Qed.

(** The ring after a character is put in. *)
Definition ring_put (c : Z) (s : console) : console :=
  set_cons (<[Z.to_nat (cons_wpos s) := u8 c]> (cons_buf s)) (cons_rpos s)
    (if cons_wpos s + 1 =? CONSBUFSIZE then 0 else cons_wpos s + 1) s.
Definition ring_drop (s : console) : console :=
  set_cons (cons_buf s) (if cons_rpos s + 1 =? CONSBUFSIZE then 0 else cons_rpos s + 1) (cons_wpos s) s.

Lemma cons_put_eq c s : ring_ok s -> cons_put c s = Ret tt (ring_put c s).
Proof.
  intros (Hl & Hr & Hw). unfold cons_put. apply wp_eq. unfold CONSBUFSIZE in *. wp_go. unfold id.
  apply wp_array_set; [lia|]. wp_go. split; [done|]. rewrite u32_small by lia. reflexivity.
Qed.

Lemma ring_put_ok c s : ring_ok s -> ring_ok (ring_put c s).
Proof.
  intros (Hl & Hr & Hw). unfold ring_ok, ring_put, CONSBUFSIZE in *. cbn. rewrite length_insert.
  split_and!; try lia; destruct (Z.eqb_spec (cons_wpos s + 1) 512); lia.
Qed.

Lemma ring_put_count c s :
  ring_ok s -> ring_count (ring_put c s) = (if decide (ring_count s < 511)%nat then S (ring_count s) else 0)%nat.
Proof.
  intros (Hl & Hr & Hw). unfold ring_count, ring_put, CONSBUFSIZE in *. cbn.
  pose proof (Z.mod_pos_bound (cons_wpos s - cons_rpos s) 512).
  set (w' := if cons_wpos s + 1 =? 512 then 0 else cons_wpos s + 1).
  assert (E : (w' - cons_rpos s) mod 512 = ((cons_wpos s - cons_rpos s) mod 512 + 1) mod 512).
  { rewrite Zplus_mod_idemp_l. unfold w'. destruct (Z.eqb_spec (cons_wpos s + 1) 512).
    - replace (cons_wpos s - cons_rpos s + 1) with (0 - cons_rpos s + 1 * 512) by lia. by rewrite Z_mod_plus_full.
    - f_equal. lia. }
  rewrite E. destruct (decide _).
  - rewrite Z.mod_small by lia. lia.
  - replace ((cons_wpos s - cons_rpos s) mod 512 + 1) with 512 by lia. reflexivity.
Qed.

(** A character put in goes to the end; with 511 waiting, all are lost. *)
Lemma ring_put_waiting c s :
  ring_ok s -> waiting (ring_put c s) = if decide (length (waiting s) < 511)%nat then waiting s ++ [u8 c] else [].
Proof.
  intros Hok. pose proof (ring_put_ok c s Hok) as Hok'. pose proof (ring_put_count c s Hok) as Hn.
  pose proof (waiting_length s Hok) as Hl. pose proof (waiting_length _ Hok') as Hl'. rewrite Hl.
  destruct (decide _); [|by apply length_zero_iff_nil; rewrite Hl'].
  apply list_eq_same_length with (n := S (ring_count s)); [rewrite length_app, Hl; simpl; lia|lia|].
  intros k x y Hk. rewrite waiting_lookup by (done || lia). destruct Hok as (Hb & Hr & Hw). unfold CONSBUFSIZE in *.
  pose proof (Z.mod_pos_bound (cons_rpos s + Z.of_nat k) 512 ltac:(lia)).
  change (cons_buf (ring_put c s)) with (<[Z.to_nat (cons_wpos s) := u8 c]> (cons_buf s)).
  change (cons_rpos (ring_put c s)) with (cons_rpos s). 
  assert (Hrc : (cons_rpos s + Z.of_nat (ring_count s)) mod 512 = cons_wpos s).
  { unfold ring_count, CONSBUFSIZE. rewrite Z2Nat.id by (apply Z.mod_pos_bound; lia).
    rewrite Zplus_mod_idemp_r. rewrite <- (Z.mod_small (cons_wpos s) 512) at 2 by lia. f_equal. lia. }
  destruct (decide (k = ring_count s)) as [->|Hne].
  - rewrite Hrc, list_lookup_insert_eq by lia. rewrite lookup_app_r, Hl, Nat.sub_diag by lia. naive_solver.
  - rewrite list_lookup_insert_ne.
    + rewrite lookup_app_l by lia. rewrite waiting_lookup by (done || lia). unfold CONSBUFSIZE. congruence.
    + intros E. apply Z2Nat.inj in E; [|lia..]. rewrite <- Hrc in E.
      assert (ring_count s < 512)%nat by lia. Z.div_mod_to_equations. lia.
Qed.

Lemma cons_get_eq s :
  ring_ok s ->
  cons_get s = match waiting s with [] => Ret 0 s | c :: _ => Ret c (ring_drop s) end.
Proof.
  intros Hok. pose proof (waiting_length s Hok) as Hl. destruct Hok as (Hb & Hr & Hw).
  unfold cons_get, gets, id. erewrite bind_eq by reflexivity. unfold ring_count, CONSBUFSIZE in *.
  destruct (Z.eqb_spec (cons_rpos s) (cons_wpos s)) as [E|E].
  { rewrite E, Z.sub_diag in Hl. by destruct (waiting s). }
  destruct (waiting s) as [|c l] eqn:Ew.
  { cbn in Hl. pose proof (Z.mod_pos_bound (cons_wpos s - cons_rpos s) 512). exfalso. Z.div_mod_to_equations. lia. }
  assert (Hc : cons_buf s !! Z.to_nat (cons_rpos s) = Some c).
  { pose proof (waiting_lookup s 0%nat ltac:(done)) as H. unfold ring_count, CONSBUFSIZE in H.
    change (Z.of_nat 0) with 0 in H. rewrite Ew, Z.add_0_r, (Z.mod_small (cons_rpos s)) in H by lia.
    symmetry. apply H. simpl in Hl. lia. }
  apply wp_eq. wp_step. apply wp_array_get with c; [lia|done|]. wp_go. split; [done|].
  by rewrite u32_small by lia.
Qed.

Lemma ring_drop_ok s : ring_ok s -> ring_ok (ring_drop s).
Proof.
  intros (Hl & Hr & Hw). unfold ring_ok, ring_drop, CONSBUFSIZE in *. cbn.
  split_and!; try lia; destruct (Z.eqb_spec (cons_rpos s + 1) 512); lia.
Qed.

Lemma ring_drop_waiting s c l : ring_ok s -> waiting s = c :: l -> waiting (ring_drop s) = l.
Proof.
  intros Hok Hw. pose proof (ring_drop_ok s Hok) as Hok'.
  pose proof (waiting_length s Hok) as Hl. pose proof (waiting_length _ Hok') as Hl'. rewrite Hw in Hl. cbn [length] in Hl.
  assert (Hn : ring_count (ring_drop s) = length l /\ forall k, 0 <= k < Z.of_nat (length l) ->
    (cons_rpos (ring_drop s) + k) mod 512 = (cons_rpos s + (k + 1)) mod 512).
  { destruct Hok as (Hb & Hr & Hw'). unfold ring_count, ring_drop, CONSBUFSIZE in *. cbn in *.
    pose proof (Z.mod_pos_bound (cons_wpos s - cons_rpos s) 512).
    destruct (Z.eqb_spec (cons_rpos s + 1) 512); split; intros; Z.div_mod_to_equations; lia. }
  destruct Hn as [Hn Hk]. apply list_eq_same_length with (n := length l); [done|lia|].
  intros k x y Hlt. rewrite waiting_lookup by (done || lia). unfold CONSBUFSIZE. rewrite Hk by lia.
  change (cons_buf (ring_drop s)) with (cons_buf s). intros Hx Hy.
  assert (H : waiting s !! S k = Some y) by (by rewrite Hw).
  rewrite waiting_lookup in H by (done || lia). unfold CONSBUFSIZE in H.
  replace (Z.of_nat (S k)) with (Z.of_nat k + 1) in H by lia. congruence.
Qed.

(** A character put into the ring comes after those that wait, until 511 of
    them do; the 512th makes the ring look empty, so all of them are lost. *)
Theorem cons_put_correct c s :
  ring_ok s ->
  exists t, cons_put c s = Ret tt t /\ ring_ok t /\
    waiting t = (if (length (waiting s) <? 511)%nat then waiting s ++ [u8 c] else []).
Proof.
  intros Hok. exists (ring_put c s). split_and!; [by apply cons_put_eq|by apply ring_put_ok|].
  rewrite ring_put_waiting by done. destruct (Nat.ltb_spec (length (waiting s)) 511), (decide _); done || lia.
Qed.

Lemma cons_put_correct_witness : ring_ok (demo_console []) /\
  exists t, cons_put 65 (demo_console []) = Ret tt t /\ ring_ok t /\ waiting t = [65].
Proof.
  assert (H : ring_ok (demo_console [])) by (vm_compute; intuition discriminate).
  split; [exact H|]. exact (cons_put_correct 65 (demo_console []) H).
Defined.

(** ** Input from the serial port *)

(** [t] differs from [s] in the ring and the ports only. *)
Definition input_only (s t : console) : Prop :=
  exists i b r w, t = set_cons b r w (set_c_io i s).

Lemma input_only_refl s : input_only s s.
Proof. by exists (c_io s), (cons_buf s), (cons_rpos s), (cons_wpos s); destruct s. Qed.
Lemma input_only_trans s t u : input_only s t -> input_only t u -> input_only s u.
Proof. intros (i & b & r & w & ->) (i' & b' & r' & w' & ->). by exists i', b', r', w'. Qed.
Lemma input_only_io i s : input_only s (set_c_io i s).
Proof. by exists i, (cons_buf s), (cons_rpos s), (cons_wpos s); destruct s. Qed.
Lemma input_only_ring b r w s : input_only s (set_cons b r w s).
Proof. by exists (c_io s), b, r, w; destruct s. Qed.

Definition input (s : console) : list Z := io_in (c_io s).

Lemma inb_eq p v rest s :
  input s = v :: rest ->
  exists g, inb p s = Ret (u8 v) (set_c_io (Io rest g) s).
Proof.
  intros E. unfold inb. rewrite (port_in_eq _ _ v rest) by done. unfold after_in. cbn.
  change (io_in (c_io s)) with (input s). rewrite E. by eexists.
Qed.

Lemma serial_idle s v rest :
  input s = v :: rest -> Z.land (u8 v) COM_LSR_DATA = 0 ->
  exists g, serial_proc_data s = Ret (-1) (set_c_io (Io rest g) s).
Proof.
  intros E Hv. destruct (inb_eq (COM1 + COM_LSR) v rest s E) as [g Hg]. exists g.
  unfold serial_proc_data. by rewrite (bind_eq _ _ _ _ _ Hg), Hv.
Qed.

Lemma serial_data s v c rest :
  input s = v :: c :: rest -> Z.land (u8 v) COM_LSR_DATA <> 0 ->
  exists g, serial_proc_data s = Ret (u8 c) (set_c_io (Io rest g) s).
Proof.
  intros E Hv. destruct (inb_eq (COM1 + COM_LSR) v (c :: rest) s E) as [g Hg].
  destruct (inb_eq (COM1 + COM_RX) c rest (set_c_io (Io (c :: rest) g) s)) as [g' Hg']; [done|]. exists g'.
  unfold serial_proc_data. rewrite (bind_eq _ _ _ _ _ Hg). apply Z.eqb_neq in Hv as ->. exact Hg'.
Qed.

Lemma kbd_idle s v rest :
  input s = v :: rest -> Z.land (u8 v) KBS_DIB = 0 ->
  exists g, kbd_proc_data s = Ret (-1) (set_c_io (Io rest g) s).
Proof.
  intros E Hv. destruct (inb_eq KBSTATP v rest s E) as [g Hg]. exists g.
  unfold kbd_proc_data. by rewrite (bind_eq _ _ _ _ _ Hg), Hv.
Qed.

Lemma cons_intr_idle f proc s i :
  proc s = Ret (-1) (set_c_io i s) -> cons_intr_rec (S f) proc s = Ret tt (set_c_io i s).
Proof. intros H. cbn [cons_intr_rec]. by rewrite (bind_eq _ _ _ _ _ H). Qed.

(** What the line status register and the data register deliver, poll by poll:
    each of [polls] has its ready bit set and brings a character. *)
Definition ready_poll (p : Z * Z) : Prop := Z.land (u8 p.1) COM_LSR_DATA <> 0 /\ 0 < p.2 < 256.
Definition poll_script (polls : list (Z * Z)) : list Z := flat_map (fun p => [p.1; p.2]) polls.

Lemma serial_run polls f s lsr rest :
  ring_ok s -> Forall ready_poll polls -> Z.land (u8 lsr) COM_LSR_DATA = 0 ->
  input s = poll_script polls ++ lsr :: rest -> (length (waiting s) + length polls <= 511)%nat ->
  (length polls < f)%nat ->
  exists t, cons_intr_rec f serial_proc_data s = Ret tt t /\ ring_ok t /\ input_only s t /\
    waiting t = waiting s ++ (snd <$> polls) /\ input t = rest.
Proof.
  revert f s. induction polls as [|[b c] polls IH]; intros f s Hok Hp Hlsr Hin Hlen Hf;
    (destruct f as [|f]; [simpl in Hf; lia|]).
  - destruct (serial_idle s lsr rest Hin Hlsr) as [g Hg].
    exists (set_c_io (Io rest g) s). split; [by apply cons_intr_idle|]. split; [done|]. split; [apply input_only_io|].
    cbn. by rewrite app_nil_r.
  - apply Forall_cons in Hp as [[Hb Hc] Hp]. cbn in Hb, Hc, Hin. cbn [length] in Hlen, Hf.
    destruct (serial_data s b c _ Hin Hb) as [g Hg]. set (s1 := set_c_io (Io (poll_script polls ++ lsr :: rest) g) s) in *.
    cbn [cons_intr_rec]. rewrite (bind_eq _ _ _ _ _ Hg), u8_small by lia.
    replace (c =? -1) with false by lia. replace (c =? 0) with false by lia.
    assert (Hok1 : ring_ok s1) by exact Hok.
    rewrite (bind_eq _ _ _ _ _ (cons_put_eq c s1 Hok1)).
    assert (Hw1 : waiting (ring_put c s1) = waiting s ++ [c]).
    { rewrite ring_put_waiting by done. change (waiting s1) with (waiting s).
      rewrite decide_True, u8_small by lia. done. }
    destruct (IH f (ring_put c s1)) as (t & Ht & Htok & Hio & Hwt & Hint); [by apply ring_put_ok|done|done|done| |lia|].
    { rewrite Hw1, length_app. simpl. lia. }
    exists t. split_and!; [done|done| |by rewrite Hwt, Hw1, <- app_assoc|done].
    eapply input_only_trans; [apply input_only_io|]. eapply input_only_trans; [apply input_only_ring|exact Hio].
Qed.

Lemma serial_intr_run polls s lsr rest :
  ring_ok s -> serial_exists s = true -> Forall ready_poll polls -> Z.land (u8 lsr) COM_LSR_DATA = 0 ->
  input s = poll_script polls ++ lsr :: rest -> (length (waiting s) + length polls <= 511)%nat ->
  exists t, serial_intr s = Ret tt t /\ ring_ok t /\ input_only s t /\
    waiting t = waiting s ++ (snd <$> polls) /\ input t = rest.
Proof.
  intros Hok Hex Hp Hlsr Hin Hlen. unfold serial_intr, gets. erewrite bind_eq by reflexivity.
  rewrite Hex. cbn [when]. unfold cons_intr. apply (serial_run polls _ s lsr rest); [done..|].
  change (io_in (c_io s)) with (input s). rewrite Hin, length_app. cbn [length].
  assert (length polls <= length (poll_script polls))%nat.
  { clear. unfold poll_script. induction polls as [|p polls IH]; cbn [length flat_map app]; lia. }
  lia.
Qed.

Lemma cons_getc_run polls s lsr st rest :
  ring_ok s -> serial_exists s = true -> Forall ready_poll polls ->
  Z.land (u8 lsr) COM_LSR_DATA = 0 -> Z.land (u8 st) KBS_DIB = 0 ->
  input s = poll_script polls ++ lsr :: st :: rest -> (length (waiting s) + length polls <= 511)%nat ->
  exists t, cons_getc s = Ret (hd 0 (waiting s ++ (snd <$> polls))) t /\ ring_ok t /\ input_only s t /\
    waiting t = tl (waiting s ++ (snd <$> polls)) /\ input t = rest.
Proof.
  intros Hok Hex Hp Hlsr Hst Hin Hlen.
  destruct (serial_intr_run polls s lsr (st :: rest)) as (t & Ht & Htok & Hio & Hw & Hint); [done..|].
  unfold cons_getc. rewrite (bind_eq _ _ _ _ _ Ht).
  destruct (kbd_idle t st rest Hint Hst) as [g Hg]. set (t1 := set_c_io (Io rest g) t) in *.
  rewrite (bind_eq _ _ _ tt t1).
  2: { unfold kbd_intr, cons_intr. by apply cons_intr_idle. }
  rewrite cons_get_eq by exact Htok. change (waiting t1) with (waiting t).
  assert (Hio1 : input_only s t1) by (eapply input_only_trans; [exact Hio | apply input_only_io]).
  rewrite <- Hw. destruct (waiting t) as [|c l] eqn:E.
  - exists t1. split_and!; [done|exact Htok|done|exact E|done].
  - exists (ring_drop t1). split_and!; [done|by apply ring_drop_ok| |by apply ring_drop_waiting with c|done].
    eapply input_only_trans; [exact Hio1|]. apply input_only_ring.
Qed.

(** C22: Characters that arrive on the serial line come out of [cons_getc] in the
    order of arrival, after those already waiting. *)
Theorem cons_getc_fifo polls s lsr st rest :
  ring_ok s -> serial_exists s = true -> Forall ready_poll polls ->
  Z.land (u8 lsr) COM_LSR_DATA = 0 -> Z.land (u8 st) KBS_DIB = 0 ->
  input s = poll_script polls ++ lsr :: st :: rest -> (length (waiting s) + length polls <= 511)%nat ->
  exists t, cons_getc s = Ret (hd 0 (waiting s ++ (snd <$> polls))) t /\ ring_ok t /\ input_only s t /\
    waiting t = tl (waiting s ++ (snd <$> polls)) /\ input t = rest.
Proof. apply cons_getc_run. Qed.

Lemma cons_getc_fifo_witness :
  exists t, cons_getc (demo_console [1; 104; 1; 105; 0; 0]) = Ret 104 t /\ ring_ok t /\
    input_only (demo_console [1; 104; 1; 105; 0; 0]) t /\ waiting t = [105] /\ input t = [].
Proof.
  assert (Hw : waiting (demo_console [1; 104; 1; 105; 0; 0]) = []) by (vm_compute; reflexivity).
  pose proof (cons_getc_fifo [(1, 104); (1, 105)] (demo_console [1; 104; 1; 105; 0; 0]) 0 0 []) as H.
  rewrite Hw in H. apply H.
  - vm_compute. intuition discriminate.
  - reflexivity.
  - repeat constructor; vm_compute; congruence.
  - reflexivity.
  - reflexivity.
  - reflexivity.
  - apply Nat.leb_le. reflexivity.
Defined.
