(* ===== verification/Keyboard.v ===== *)
(** * Keyboard: what the keyboard driver and readline compute

    The specification of [kbd_proc_data] (a machine of seven modifier flags), of the
    ring that both devices fill, and of [readline] (a line editor), and the proofs that
    the code of Console.v implements them. *)

From S2P Require Import Prelude Layout Printfmt FormatSpec Printf Ports Console.
Open Scope Z_scope.

(** ** The keyboard *)

Record modifiers : Type := Modifiers {
  shifted : bool; ctl : bool; alt : bool; capslock : bool; numlock : bool; scrolllock : bool; escaped : bool
}.

(** The word [shift] that stands for the modifiers. *)
Definition word_of (m : modifiers) : Z :=
  Z.b2z (shifted m) + 2 * Z.b2z (ctl m) + 4 * Z.b2z (alt m) + 8 * Z.b2z (capslock m)
  + 16 * Z.b2z (numlock m) + 32 * Z.b2z (scrolllock m) + 64 * Z.b2z (escaped m).

(** Holding or releasing the key [code], which may be a modifier. *)
Definition hold (code : Z) (down : bool) (m : modifiers) : modifiers :=
  let '(Modifiers s c a k n l e) := m in
  if (code =? 0x2A) || (code =? 0x36) then Modifiers down c a k n l e
  else if (code =? 0x1D) || (code =? 0x9D) then Modifiers s down a k n l e
  else if (code =? 0x38) || (code =? 0xB8) then Modifiers s c down k n l e
  else m.
Definition toggle (code : Z) (m : modifiers) : modifiers :=
  let '(Modifiers s c a k n l e) := m in
  Modifiers s c a (xorb k (code =? 0x3A)) (xorb n (code =? 0x45)) (xorb l (code =? 0x46)) e.
Definition escape (e : bool) (m : modifiers) : modifiers :=
  let '(Modifiers s c a k n l _) := m in Modifiers s c a k n l e.

Definition byte_at (t : list Z) (i : Z) : Z := default 0 (t !! Z.to_nat i).
Definition is_lower (c : Z) : bool := (chr "a" <=? c) && (c <=? chr "z").
Definition is_upper (c : Z) : bool := (chr "A" <=? c) && (c <=? chr "Z").
Definition swap_case (c : Z) : Z := if is_lower c then c - 32 else if is_upper c then c + 32 else c.

(** The character of the key [code]. *)
Definition key_char (m : modifiers) (code : Z) : Z :=
  let c := byte_at (if ctl m then ctlmap else if shifted m then shiftmap else normalmap) code in
  if capslock m then swap_case c else c.

(** What a byte from the keyboard means: the character, or 0, and the new
    modifiers. *)
Definition key (m : modifiers) (data : Z) : Z * modifiers :=
  let code := if escaped m then data mod 128 + 128 else data mod 128 in
  if data =? 0xE0 then (0, escape true m)
  else if data <? 128 then
    let m := toggle code (hold code true (escape false m)) in (key_char m code, m)
  else (0, escape false (hold code false m)).

(** The same, as the code computes it. *)
Definition key_word (shift data : Z) : Z * Z :=
  if data =? 0xE0 then (0, Z.lor shift E0ESC)
  else if negb (Z.land data 0x80 =? 0) then
    let data := if negb (Z.land shift E0ESC =? 0) then data else Z.land data 0x7F in
    (0, Z.land shift (Z.lnot (Z.lor (byte_at shiftcode data) E0ESC)))
  else
    let '(data, shift) :=
      if negb (Z.land shift E0ESC =? 0) then (Z.lor data 0x80, Z.land shift (Z.lnot E0ESC)) else (data, shift) in
    let shift := Z.lxor (Z.lor shift (byte_at shiftcode data)) (byte_at togglecode data) in
    (caps shift (byte_at (default [] (charcode !! Z.to_nat (Z.land shift (Z.lor CTL SHIFT)))) data), shift).

Definition of_word (w : Z) : modifiers :=
  Modifiers (Z.testbit w 0) (Z.testbit w 1) (Z.testbit w 2) (Z.testbit w 3) (Z.testbit w 4) (Z.testbit w 5) (Z.testbit w 6).

Lemma of_word_of m : of_word (word_of m) = m.
Proof. destruct m as [[|] [|] [|] [|] [|] [|] [|]]; reflexivity. Qed.

Lemma word_of_range m : 0 <= word_of m < 128.
Proof. destruct m as [[|] [|] [|] [|] [|] [|] [|]]; vm_compute; (split; [discriminate | reflexivity]). Qed.

Definition all_modifiers : list modifiers := of_word <$> (Z.of_nat <$> seq 0 128).

Lemma byte_below n d : 0 <= d < Z.of_nat n -> List.In d (Z.of_nat <$> seq 0 n).
Proof.
  intros Hd. apply list_elem_of_In, list_elem_of_fmap. exists (Z.to_nat d). rewrite Z2Nat.id by lia.
  split; [done|]. apply elem_of_seq. lia.
Qed.

Lemma all_modifiers_in m : List.In m all_modifiers.
Proof.
  apply list_elem_of_In, list_elem_of_fmap. exists (word_of m). split; [by rewrite of_word_of|].
  apply list_elem_of_In, byte_below, word_of_range.
Qed.

Lemma key_word_key m d :
  0 <= d < 256 -> key_word (word_of m) d = ((key m d).1, word_of (key m d).2).
Proof.
  intros Hd.
  assert (H : forallb (fun m => forallb (fun d =>
      let '(c, w) := key_word (word_of m) d in let '(c', m') := key m d in (c =? c') && (w =? word_of m'))
      (Z.of_nat <$> seq 0 256)) all_modifiers = true) by (vm_compute; reflexivity).
  rewrite forallb_forall in H. specialize (H m (all_modifiers_in m)). rewrite forallb_forall in H.
  specialize (H d (byte_below 256 d Hd)). destruct (key_word (word_of m) d) as [c w], (key m d) as [c' m'].
  apply andb_prop in H as [H1%Z.eqb_eq H2%Z.eqb_eq]. by subst.
Qed.

Lemma wp_byte_at (t : list Z) i (Q : Z -> console -> Prop) s :
  0 <= i -> (Z.to_nat i < length t)%nat -> Q (byte_at t i) s -> wp (table_byte t i) Q s.
Proof.
  intros Hi Hl HQ. destruct (lookup_lt_is_Some_2 t (Z.to_nat i) Hl) as [v Hv]. unfold byte_at in HQ. rewrite Hv in HQ.
  by apply wp_array_get with v.
Qed.

Lemma charcode_map k : exists t, charcode !! Z.to_nat (Z.land k (Z.lor CTL SHIFT)) = Some t /\ length t = 256%nat.
Proof.
  assert (Hk : 0 <= Z.land k (Z.lor CTL SHIFT) < 4).
  { change (Z.lor CTL SHIFT) with (Z.ones 2). rewrite Z.land_ones by lia. apply Z.mod_pos_bound. lia. }
  assert (Hc : Forall (fun t => length t = 256%nat) charcode) by (repeat constructor).
  destruct (lookup_lt_is_Some_2 charcode (Z.to_nat (Z.land k (Z.lor CTL SHIFT)))) as [t Ht]; [cbn; lia|].
  exists t. split; [done|]. rewrite Forall_forall in Hc. apply Hc. by eapply list_elem_of_lookup_2.
Qed.

Definition has_display (s : console) : Prop := exists l, cells s = Some l /\ display_ok (l, crt_pos s).

(** [t] differs from [s] in the display, the ports' log and the keyboard's
    modifiers only. *)
Definition same_input (s t : console) : Prop :=
  input t = input s /\ cons_buf t = cons_buf s /\ cons_rpos t = cons_rpos s /\ cons_wpos t = cons_wpos s /\
  serial_exists t = serial_exists s /\ line_buf t = line_buf s /\ readline_hack t = readline_hack s.

Lemma same_input_trans s t u : same_input s t -> same_input t u -> same_input s u.
Proof. unfold same_input. intuition congruence. Qed.

Lemma show_same l p g s : same_input s (show l p g s) /\ kbd_shift (show l p g s) = kbd_shift s.
Proof. destruct s as [[i o] ? ? ? ? [[|]|] ? ? ? ? ? ? ?]; unfold same_input, show, put; cbn; done. Qed.

Lemma show_display s l p g :
  is_Some (crt_buf s) -> display_ok (l, p) -> has_display (show l p g s).
Proof.
  intros Hbuf Hok. exists l. split; [by apply cells_show|]. rewrite crt_pos_show; [done|done|].
  destruct Hok as [[_ Hp] _]. unfold CRT_SIZE, CRT_ROWS, CRT_COLS in Hp. cbn in Hp. lia.
Qed.

(** Whatever is printed, only the display and the log change. *)
Lemma printf_same s ps args out rest :
  has_display s -> Forall piece_ok ps -> Forall va_ok args -> render ps args = Some (out, rest) ->
  exists t, console_printf (unparse ps) args s = Ret 0 t /\ has_display t /\ same_input s t /\ kbd_shift t = kbd_shift s.
Proof.
  intros (l & Hl & Hok) Hps Hva Hr. destruct (console_printf_run s l ps args out rest Hl Hok Hps Hva Hr) as [g Hg].
  eexists. split; [exact Hg|]. split; [|apply show_same].
  apply show_display; [by eapply cells_some|]. rewrite <- surjective_pairing. by apply typed_all_ok.
Qed.

Lemma cputchar_same s c :
  has_display s -> exists t, cputchar c s = Ret tt t /\ has_display t /\ same_input s t /\ kbd_shift t = kbd_shift s.
Proof.
  intros (l & Hl & Hok). destruct (for_each_cputchar s l [c] (l, crt_pos s) (io_log (c_io s)) Hl Hok) as [g Hg].
  unfold drawn in Hg. cbn [fst snd foldl for_each] in Hg. pose proof Hok as [[_ Hp] _].
  unfold CRT_SIZE, CRT_ROWS, CRT_COLS in Hp. cbn in Hp.
  rewrite show_self in Hg by (done || lia).
  eexists. split.
  - unfold mbind, M_bind in Hg. destruct (cputchar c s) as [[] t|? ?| |]; [|done..]. exact Hg.
  - split; [|apply show_same]. apply show_display; [by eapply cells_some|].
    rewrite <- surjective_pairing. by apply (typed_all_ok [c]).
Qed.

Lemma wp_console_outb p d (Q : () -> console -> Prop) s :
  (forall g, Q tt (set_c_io (Io (input s) g) s)) -> wp (outb p d) Q s.
Proof. intros HQ. exact (HQ (io_log (c_io s) ++ [Out 8 (u16 p) (d mod 2 ^ 8)])). Qed.

Lemma byte_table_pressed s shift d :
  0 <= d < 256 -> has_display s ->
  let sh := Z.lxor (Z.lor shift (byte_at shiftcode d)) (byte_at togglecode d) in
  exists t, key_pressed d shift s =
    Ret (caps sh (byte_at (default [] (charcode !! Z.to_nat (Z.land sh (Z.lor CTL SHIFT)))) d)) t /\
    kbd_shift t = sh /\ has_display t /\ same_input s t.
Proof.
  intros Hd Hdisp sh.
  enough (H : wp (key_pressed d shift) (fun c t =>
    c = caps sh (byte_at (default [] (charcode !! Z.to_nat (Z.land sh (Z.lor CTL SHIFT)))) d) /\
    kbd_shift t = sh /\ has_display t /\ same_input s t) s).
  { apply (wp_iff (key_pressed d shift)) in H as (c & t & Ht & -> & Hrest). by exists t. }
  unfold key_pressed. wp_step. apply wp_byte_at; [lia|change (length shiftcode) with 256%nat; lia|].
  wp_step. apply wp_byte_at; [lia|change (length togglecode) with 256%nat; lia|]. fold sh.
  do 2 wp_step. destruct (charcode_map sh) as (tb & Htb & Hlen). rewrite Htb. cbn [deref default].
  do 3 wp_step. apply wp_byte_at; [lia|lia|].
  assert (Hs1 : has_display (set_kbd_shift sh s)) by exact Hdisp.
  wp_step. match goal with |- wp (when ?b _) _ _ => destruct b end; unfold when.
  - wp_step. destruct (printf_same (set_kbd_shift sh s) [Text (bytes "Rebooting!" ++ [10])] [] (bytes "Rebooting!" ++ [10]) [] Hs1)
      as (t & Ht & Hdt & Hst & Hk); [by apply pieces_okb_sound; vm_compute|constructor|vm_compute; reflexivity|].
    change (unparse [Text (bytes "Rebooting!" ++ [10])]) with (bytes "Rebooting!" ++ [10]) in Ht.
    eapply wp_mono; [exact (proj2 (wp_eq _ _ _ t) Ht)|]. intros ? ? [-> <-].
    apply wp_console_outb. intros g. wp_step.
    split; [done|]. split; [exact Hk|]. split; [exact Hdt|]. exact Hst.
  - do 2 wp_step. split; [done|]. split; [done|]. split; [exact Hs1|]. done.
Qed.

(** [t] is [s] after reading the input down to [rest], apart from the display
    and the keyboard's modifiers. *)
Definition after_input (rest : list Z) (s t : console) : Prop :=
  input t = rest /\ cons_buf t = cons_buf s /\ cons_rpos t = cons_rpos s /\ cons_wpos t = cons_wpos s /\
  serial_exists t = serial_exists s /\ line_buf t = line_buf s /\ readline_hack t = readline_hack s.

Lemma kbd_proc_data_run s m st data rest :
  has_display s -> kbd_shift s = word_of m -> input s = st :: data :: rest ->
  Z.land (u8 st) KBS_DIB <> 0 -> 0 <= data < 256 ->
  exists t, kbd_proc_data s = Ret (key m data).1 t /\ kbd_shift t = word_of (key m data).2 /\
    has_display t /\ after_input rest s t.
Proof.
  intros Hdisp Hm Hin Hst Hd.
  destruct (inb_eq KBSTATP st (data :: rest) s Hin) as [g Hg].
  destruct (inb_eq KBDATAP data rest (set_c_io (Io (data :: rest) g) s)) as [g' Hg']; [done|].
  set (s1 := set_c_io (Io rest g') (set_c_io (Io (data :: rest) g) s)) in *.
  assert (Hd1 : has_display s1) by exact Hdisp.
  pose proof (key_word_key m data Hd) as Hkw. rewrite <- Hm in Hkw. unfold key_word in Hkw.
  unfold kbd_proc_data. rewrite (bind_eq _ _ _ _ _ Hg). apply Z.eqb_neq in Hst as ->.
  rewrite (bind_eq _ _ _ _ _ Hg'), u8_small by lia. unfold gets. erewrite bind_eq by reflexivity.
  change (kbd_shift s1) with (kbd_shift s). revert Hkw.
  destruct (data =? 0xE0); [|destruct (negb (Z.land data 0x80 =? 0))].
  - intros [= <- <-]. exists (set_kbd_shift (Z.lor (kbd_shift s) E0ESC) s1). done.
  - set (d := if negb (Z.land (kbd_shift s) E0ESC =? 0) then data else Z.land data 0x7F).
    intros [= <- <-]. assert (Hdr : 0 <= d < 256).
    { unfold d. destruct (negb _); [lia|]. change 0x7F with (Z.ones 7). rewrite Z.land_ones by lia.
      pose proof (Z.mod_pos_bound data (2 ^ 7)). lia. }
    rewrite (bind_eq _ _ _ (byte_at shiftcode d) s1).
    2: { apply wp_eq. apply wp_byte_at; [lia|change (length shiftcode) with 256%nat; lia|done]. }
    exists (set_kbd_shift (Z.land (kbd_shift s) (Z.lnot (Z.lor (byte_at shiftcode d) E0ESC))) s1). done.
  - destruct (negb (Z.land (kbd_shift s) E0ESC =? 0)); intros [= <- <-].
    + set (sh := Z.land (kbd_shift s) (Z.lnot E0ESC)).
      destruct (byte_table_pressed (set_kbd_shift sh s1) sh (Z.lor data 0x80)) as (t & Ht & Hkt & Hdt & Hst);
        [|exact Hd1|].
      { split; [apply Z.lor_nonneg; lia|]. change 256 with (2 ^ 8). apply (Z.log2_lt_cancel _ (2 ^ 8)).
        rewrite Z.log2_lor by lia. assert (Z.log2 data <= 7) by (apply (Z.log2_le_mono _ 255); lia).
        change (Z.log2 128) with 7. change (Z.log2 (2 ^ 8)) with 8. lia. }
      unfold modify. erewrite bind_eq by reflexivity. rewrite Ht. exists t. done.
    + destruct (byte_table_pressed s1 (kbd_shift s) data) as (t & Ht & Hkt & Hdt & Hst); [lia|exact Hd1|].
      rewrite Ht. exists t. done.
Qed.

(** C24: A byte from the keyboard acts as [key] says: the character it completes, if
    any, and the modifiers that are held or locked. *)
Theorem kbd_proc_data_correct s m st data rest :
  has_display s -> kbd_shift s = word_of m -> input s = st :: data :: rest ->
  Z.land (u8 st) KBS_DIB <> 0 -> 0 <= data < 256 ->
  exists t, kbd_proc_data s = Ret (key m data).1 t /\ kbd_shift t = word_of (key m data).2 /\
    has_display t /\ after_input rest s t.
Proof. apply kbd_proc_data_run. Qed.

Lemma kbd_proc_data_correct_witness :
  exists t, kbd_proc_data (demo_console [1; 0x2A]) = Ret 0 t /\ kbd_shift t = 1 /\
    has_display t /\ after_input [] (demo_console [1; 0x2A]) t.
Proof.
  apply (kbd_proc_data_correct (demo_console [1; 0x2A]) (Modifiers false false false false false false false) 1 0x2A []).
  - exists (replicate 2000 blank). split; [reflexivity|]. apply demo_display_ok. vm_compute. split; [discriminate|reflexivity].
  - reflexivity.
  - reflexivity.
  - vm_compute. discriminate.
  - vm_compute. split; [discriminate|reflexivity].
Defined.

(** The letter keys: with control the control code; otherwise a capital when
    exactly one of shift and caps lock is on. *)
Theorem letter_keys m code c :
  escaped m = false -> 0 <= code < 128 -> byte_at normalmap code = c -> is_lower c = true ->
  key m code = ((if ctl m then c - 96 else if xorb (shifted m) (capslock m) then c - 32 else c), m).
Proof.
  intros He Hcode Hc Hlow.
  assert (H : forallb (fun m => forallb (fun d => let c := byte_at normalmap d in
      negb (is_lower c) || escaped m ||
      let '(c', m') := key m d in
      (c' =? (if ctl m then c - 96 else if xorb (shifted m) (capslock m) then c - 32 else c)) && (word_of m =? word_of m'))
      (Z.of_nat <$> seq 0 128)) all_modifiers = true) by (vm_compute; reflexivity).
  rewrite forallb_forall in H. specialize (H m (all_modifiers_in m)). rewrite forallb_forall in H.
  specialize (H code (byte_below 128 code Hcode)). cbv zeta in H. rewrite Hc, Hlow, He in H. cbn [negb orb] in H. destruct (key m code) as [c' m'].
  apply andb_prop in H as [H1%Z.eqb_eq H2%Z.eqb_eq]. subst c'. f_equal.
  rewrite <- (of_word_of m), <- (of_word_of m'). by rewrite H2.
Qed.

Lemma letter_keys_witness :
  key (Modifiers true false false false false false false) 0x1E = (65, Modifiers true false false false false false false).
Proof. apply (letter_keys (Modifiers true false false false false false false) 0x1E 97); [reflexivity|lia|reflexivity|reflexivity]. Defined.

(** ** Characters from both devices *)

Lemma key_char_range m d : 0 <= d < 256 -> 0 <= (key m d).1 < 256.
Proof.
  intros Hd.
  assert (H : forallb (fun m => forallb (fun d => (0 <=? (key m d).1) && ((key m d).1 <? 256)) (Z.of_nat <$> seq 0 256)) all_modifiers = true)
    by (vm_compute; reflexivity).
  rewrite forallb_forall in H. specialize (H m (all_modifiers_in m)). rewrite forallb_forall in H.
  specialize (H d (byte_below 256 d Hd)). lia.
Qed.

(** What one call of [cons_getc] reads from the ports: the bytes of the serial line, each
    behind a status that announces it, and a status that ends them; and the same from
    the keyboard. *)
Record round : Type := Round { r_serial : list (Z * Z); r_lsr : Z; r_keys : list (Z * Z); r_kbs : Z }.
Definition round_ok (r : round) : Prop :=
  Forall (fun p => Z.land (u8 p.1) COM_LSR_DATA <> 0 /\ 0 <= p.2 < 256) (r_serial r) /\ Z.land (u8 (r_lsr r)) COM_LSR_DATA = 0 /\
  Forall (fun p => Z.land (u8 p.1) KBS_DIB <> 0 /\ 0 <= p.2 < 256) (r_keys r) /\ Z.land (u8 (r_kbs r)) KBS_DIB = 0.

(** [e]: there is a serial port. *)
Definition round_script (e : bool) (r : round) : list Z :=
  (if e then poll_script (r_serial r) ++ [r_lsr r] else []) ++ poll_script (r_keys r) ++ [r_kbs r].

(** A character arrives: a zero is dropped, and the 512th that waits takes all others
    with it. *)
Definition push (q : list Z) (c : Z) : list Z :=
  if c =? 0 then q else if (length q <? 511)%nat then q ++ [c] else [].
Definition press (qm : list Z * modifiers) (d : Z) : list Z * modifiers :=
  let '(q, m) := qm in let '(c, m') := key m d in (push q c, m').
Definition arrive (e : bool) (qm : list Z * modifiers) (r : round) : list Z * modifiers :=
  foldl press (if e then foldl push qm.1 (snd <$> r_serial r) else qm.1, qm.2) (snd <$> r_keys r).

(** What the calls of [cons_getc] return, 0 when nothing waits; then what still waits,
    and the keyboard's modifiers. *)
Fixpoint received (e : bool) (rs : list round) (qm : list Z * modifiers) : list Z * (list Z * modifiers) :=
  match rs with
  | [] => ([], qm)
  | r :: rs' =>
      let '(q, m) := arrive e qm r in
      let '(cs, last) := received e rs' (tl q, m) in (hd 0 q :: cs, last)
  end.

(** One character typed, other than a newline: a line of at most 1023 characters. *)
Definition newline (c : Z) : bool := (c =? 10) || (c =? 13).
Definition edit (line : list Z) (c : Z) : list Z :=
  if (32 <=? c) && (Z.of_nat (length line) <? 1023) then line ++ [c]
  else if c =? 8 then removelast line
  else line.

(** The console while [readline] runs: [q] waits, the modifiers are [m], the line so far
    is in [buf], and the ports are going to deliver [rest]. *)
Record console_at (e : bool) (q : list Z) (m : modifiers) (line rest : list Z) (s : console) : Prop := ConsoleAt {
  ca_ring : ring_ok s /\ waiting s = q;
  ca_bytes : Forall (fun c => 0 <= c < 256) q;
  ca_shift : kbd_shift s = word_of m;
  ca_serial : serial_exists s = e;
  ca_display : has_display s;
  ca_line : Z.of_nat (length (line_buf s)) = BUFLEN /\ Z.of_nat (length line) < BUFLEN /\ take (length line) (line_buf s) = line;
  ca_input : input s = rest
}.

Section console_at.
Context (e : bool).

Lemma console_at_same q m line rest s t :
  console_at e q m line rest s -> has_display t -> same_input s t -> kbd_shift t = kbd_shift s -> console_at e q m line rest t.
Proof.
  intros [[H1 H2] H3 H4 H5 _ H7 H8] Hd (E1 & E2 & E3 & E4 & E5 & E6 & _) E7.
  split; [|done|congruence|congruence|done|by rewrite E6|congruence]. unfold ring_ok, waiting, ring_count in *. by rewrite E2, E3, E4.
Qed.

Lemma console_at_io q m line rest s rest' g :
  console_at e q m line rest s -> console_at e q m line rest' (set_c_io (Io rest' g) s).
Proof. by intros [? ? ? ? ? ? ?]; split. Qed.

Lemma push_bytes q c : Forall (fun c => 0 <= c < 256) q -> 0 <= c < 256 -> Forall (fun c => 0 <= c < 256) (push q c).
Proof.
  intros Hq Hc. unfold push. destruct (c =? 0); [done|]. destruct (length q <? 511)%nat; [|done]. apply Forall_app_2; [done|by constructor].
Qed.

(** One byte that a device's routine delivers. *)
Lemma intr_at (proc : M console Z) c q m line rest f s t :
  proc s = Ret c t -> 0 <= c < 256 -> console_at e q m line rest t ->
  exists u, cons_intr_rec (S f) proc s = cons_intr_rec f proc u /\ console_at e (push q c) m line rest u.
Proof.
  intros Hp Hc Hat. cbn [cons_intr_rec]. rewrite (bind_eq _ _ _ _ _ Hp). replace (c =? -1) with false by lia.
  pose proof (push_bytes q c (ca_bytes _ _ _ _ _ _ Hat) Hc) as Hb. unfold push in *.
  destruct (Z.eqb_spec c 0); [by exists t|]. destruct Hat as [[H1 H2] H3 H4 H5 H6 H7 H8].
  rewrite (bind_eq _ _ _ _ _ (cons_put_eq c t H1)). exists (ring_put c t). split; [done|].
  split; try done. split; [by apply ring_put_ok|]. rewrite ring_put_waiting, H2, u8_small by (done || lia).
  destruct (Nat.ltb_spec (length q) 511), (decide (length q < 511)%nat); (done || lia).
Qed.

Lemma serial_at ps : forall q m line lsr rest f s,
  console_at e q m line (poll_script ps ++ lsr :: rest) s -> (length ps < f)%nat ->
  Forall (fun p => Z.land (u8 p.1) COM_LSR_DATA <> 0 /\ 0 <= p.2 < 256) ps -> Z.land (u8 lsr) COM_LSR_DATA = 0 ->
  exists t, cons_intr_rec f serial_proc_data s = Ret tt t /\ console_at e (foldl push q (snd <$> ps)) m line rest t.
Proof.
  induction ps as [|[st c] ps IH]; intros q m line lsr rest f s Hat Hf Hps Hlsr; (destruct f as [|f]; [cbn in Hf; lia|]);
    pose proof (ca_input _ _ _ _ _ _ Hat) as Hin.
  - destruct (serial_idle s lsr rest Hin Hlsr) as [g Hg]. exists (set_c_io (Io rest g) s).
    split; [by apply cons_intr_idle|by eapply console_at_io].
  - apply Forall_cons in Hps as [[Hst Hc] Hps]. cbn [poll_script flat_map app fst snd] in *.
    destruct (serial_data s st c _ Hin Hst) as [g Hg]. rewrite u8_small in Hg by lia.
    destruct (intr_at serial_proc_data c q m line (poll_script ps ++ lsr :: rest) f s _ Hg Hc) as (u & Hu & Hau); [by eapply console_at_io|].
    rewrite Hu. apply (IH (push q c) m line lsr rest f u Hau); [cbn in Hf; lia|done|done].
Qed.

Lemma kbd_at ps : forall q m line st0 rest f s,
  console_at e q m line (poll_script ps ++ st0 :: rest) s -> (length ps < f)%nat ->
  Forall (fun p => Z.land (u8 p.1) KBS_DIB <> 0 /\ 0 <= p.2 < 256) ps -> Z.land (u8 st0) KBS_DIB = 0 ->
  let qm := foldl press (q, m) (snd <$> ps) in
  exists t, cons_intr_rec f kbd_proc_data s = Ret tt t /\ console_at e qm.1 qm.2 line rest t.
Proof.
  induction ps as [|[st d] ps IH]; intros q m line st0 rest f s Hat Hf Hps Hst0; (destruct f as [|f]; [cbn in Hf; lia|]);
    pose proof (ca_input _ _ _ _ _ _ Hat) as Hin.
  - destruct (kbd_idle s st0 rest Hin Hst0) as [g Hg]. exists (set_c_io (Io rest g) s).
    split; [by apply cons_intr_idle|by eapply console_at_io].
  - apply Forall_cons in Hps as [[Hst Hd] Hps]. cbn [poll_script flat_map app fst snd] in *.
    pose proof Hat as [[H1 H2] H3 H4 H5 H6 H7 _].
    destruct (kbd_proc_data_run s m st d (poll_script ps ++ st0 :: rest) H6 H4 Hin Hst Hd) as (t & Ht & Htk & Htd & (E1 & E2 & E3 & E4 & E5 & E6 & _)).
    pose proof (key_char_range m d Hd) as Hk. destruct (key m d) as [c m'] eqn:Ek. cbn [fst snd] in *.
    destruct (intr_at kbd_proc_data c q m' line (poll_script ps ++ st0 :: rest) f s t Ht Hk) as (u & Hu & Hau).
    { split; [|done|done|congruence|done|by rewrite E6|done]. unfold ring_ok, waiting, ring_count in *. by rewrite E2, E3, E4. }
    rewrite Hu. destruct (IH (push q c) m' line st0 rest f u Hau) as (v & Hv & Hav); [cbn in Hf; lia|done|done|].
    exists v. split; [exact Hv|]. cbn [fmap list_fmap foldl press snd]. by rewrite Ek.
Qed.

Lemma poll_script_length ps : (length ps <= length (poll_script ps))%nat.
Proof. unfold poll_script. induction ps as [|p ps IH]; [done|]. cbn [length flat_map app]. lia. Qed.

End console_at.

Lemma cons_getc_at e r q m line rest s :
  console_at e q m line (round_script e r ++ rest) s -> round_ok r ->
  let qm := arrive e (q, m) r in
  exists t, cons_getc s = Ret (hd 0 qm.1) t /\ console_at e (tl qm.1) qm.2 line rest t /\ 0 <= hd 0 qm.1 < 256.
Proof.
  intros Hat (Hs & Hl & Hk & Hb) qm. unfold round_script in Hat. rewrite <- app_assoc in Hat.
  assert (H1 : exists t, serial_intr s = Ret tt t /\
    console_at e (if e then foldl push q (snd <$> r_serial r) else q) m line (poll_script (r_keys r) ++ r_kbs r :: rest) t).
  { unfold serial_intr, gets. erewrite bind_eq by reflexivity. rewrite (ca_serial _ _ _ _ _ _ Hat).
    revert Hat. destruct e; intros Hat; cbn [when]; [|exists s; split; [done|]; by rewrite <- app_assoc in Hat].
    unfold cons_intr. rewrite <- !app_assoc in Hat. cbn [app] in Hat.
    eapply (serial_at true); [exact Hat| |done|done]. change (io_in (c_io s)) with (input s). rewrite (ca_input _ _ _ _ _ _ Hat), length_app.
    pose proof (poll_script_length (r_serial r)). lia. }
  destruct H1 as (t & Ht & Hat1). unfold cons_getc. rewrite (bind_eq _ _ _ _ _ Ht).
  unfold arrive in qm. cbn [fst snd] in qm.
  destruct (kbd_at e (r_keys r) _ m line (r_kbs r) rest (S (length (io_in (c_io t)))) t Hat1) as (u & Hu & Hat2); [|done|done|].
  { change (io_in (c_io t)) with (input t). rewrite (ca_input _ _ _ _ _ _ Hat1), length_app.
    pose proof (poll_script_length (r_keys r)). lia. }
  rewrite (bind_eq kbd_intr _ _ tt u Hu). fold qm in Hat2. destruct Hat2 as [[R1 R2] R3 R4 R5 R6 R7 R8].
  rewrite cons_get_eq, R2 by done. destruct qm.1 as [|c l] eqn:E.
  - exists u. by split_and!.
  - exists (ring_drop u). split; [done|]. cbn [tl hd]. apply Forall_cons in R3 as [Rc R3].
    split; [|done]. split; try done. split; [by apply ring_drop_ok|by apply ring_drop_waiting with c].
Qed.

(** Where the ports deliver nothing more, the code waits for ever. *)
Lemma cons_getc_waits e q m line s : console_at e q m line [] s -> cons_getc s = Spin.
Proof.
  intros Hat. pose proof (ca_input _ _ _ _ _ _ Hat) as Hin. pose proof (ca_serial _ _ _ _ _ _ Hat) as Hse.
  assert (Hb : forall p, inb p s = Spin).
  { intros p. unfold inb, port_in, gets. erewrite bind_eq by reflexivity. change (io_in (io_of s)) with (input s). by rewrite Hin. }
  assert (Hi : forall (A B : Type) (m : M console A) (k : A -> M console B), m s = Spin -> (x ← m; k x) s = Spin)
    by (intros A B m0 k E; unfold mbind, M_bind; by rewrite E).
  unfold cons_getc. destruct e.
  - apply Hi. unfold serial_intr, gets. erewrite bind_eq by reflexivity. rewrite Hse. cbn [when]. unfold cons_intr. cbn [cons_intr_rec].
    apply Hi. unfold serial_proc_data. apply Hi, Hb.
  - rewrite (bind_eq _ _ _ tt s).
    2: { unfold serial_intr, gets. erewrite bind_eq by reflexivity. by rewrite Hse. }
    apply Hi. unfold kbd_intr, cons_intr. cbn [cons_intr_rec]. apply Hi. unfold kbd_proc_data. apply Hi, Hb.
Qed.

(** ** getchar *)

Section getchar.
Context (e : bool).

(** The first character that is not 0, and what is left then. *)
Fixpoint next (rs : list round) (qm : list Z * modifiers) : option (Z * list round * (list Z * modifiers)) :=
  match rs with
  | [] => None
  | r :: rs' =>
      let '(q, m) := arrive e qm r in
      if hd 0 q =? 0 then next rs' (tl q, m) else Some (hd 0 q, rs', (tl q, m))
  end.

Lemma received_length rs : forall qm, length (received e rs qm).1 = length rs.
Proof.
  induction rs as [|r rs IH]; intros qm; [done|]. cbn [received]. destruct (arrive e qm r) as [q m].
  specialize (IH (tl q, m)). destruct (received e rs (tl q, m)) as [cs last]. cbn in *. lia.
Qed.

(** [next] in terms of [received]. *)
Lemma next_received rs : forall qm,
  match next rs qm with
  | None => (received e rs qm).1 = replicate (length rs) 0
  | Some (c, rs', qm') => c <> 0 /\ (length rs' < length rs)%nat /\ (exists rs0, rs = rs0 ++ rs') /\
      exists n, (received e rs qm).1 = replicate n 0 ++ c :: (received e rs' qm').1 /\ (received e rs qm).2 = (received e rs' qm').2
  end.
Proof.
  induction rs as [|r rs IH]; intros qm; [done|]. cbn [next received]. destruct (arrive e qm r) as [q m].
  specialize (IH (tl q, m)). destruct (Z.eqb_spec (hd 0 q) 0) as [E|E].
  - destruct (received e rs (tl q, m)) as [cs last] eqn:Er. cbn [fst snd] in *.
    destruct (next rs (tl q, m)) as [[[c rs'] qm']|].
    + destruct IH as (Hc & Hl & (rs0 & ->) & n & -> & ->). split; [done|]. split; [cbn; lia|]. split; [by exists (r :: rs0)|].
      exists (S n). by rewrite E.
    + by rewrite E, IH.
  - split; [done|]. split; [cbn; lia|]. split; [by exists [r]|]. exists 0%nat. by destruct (received e rs (tl q, m)).
Qed.

Definition scripts (rs : list round) : list Z := flat_map (round_script e) rs.

Lemma getchar_rec_at rs : forall f q m line rest s,
  console_at e q m line (scripts rs ++ rest) s -> Forall round_ok rs -> (length rs < f)%nat ->
  match next rs (q, m) with
  | None => rest = [] -> getchar_rec f s = Spin
  | Some (c, rs', qm') => exists t, getchar_rec f s = Ret c t /\ 0 <= c < 256 /\ console_at e qm'.1 qm'.2 line (scripts rs' ++ rest) t
  end.
Proof.
  induction rs as [|r rs IH]; intros f q m line rest s Hat Hok Hf; (destruct f as [|f]; [lia|]); cbn [getchar_rec next].
  - intros ->. pose proof (cons_getc_waits _ _ _ _ _ Hat) as E. unfold mbind, M_bind. by rewrite E.
  - apply Forall_cons in Hok as [Hr Hok]. cbn [scripts flat_map] in Hat. rewrite <- app_assoc in Hat.
    destruct (cons_getc_at e r q m line (scripts rs ++ rest) s Hat Hr) as (t & Ht & Hat' & Hb).
    rewrite (bind_eq _ _ _ _ _ Ht). destruct (arrive e (q, m) r) as [q' m']. cbn [fst snd] in *.
    destruct (hd 0 q' =? 0); [|by exists t]. cbn [length] in Hf. apply IH; [done|done|lia].
Qed.
End getchar.

(** ** The line editor *)

Section readline.
Context (e : bool).

Lemma scripts_length rs : (length rs <= length (scripts e rs))%nat.
Proof.
  unfold scripts. induction rs as [|r rs IH]; [done|]. cbn [length flat_map]. rewrite length_app. unfold round_script at 1.
  rewrite !length_app. cbn [length]. lia.
Qed.

Lemma getchar_at rs q m line rest s :
  console_at e q m line (scripts e rs ++ rest) s -> Forall round_ok rs ->
  match next e rs (q, m) with
  | None => rest = [] -> getchar s = Spin
  | Some (c, rs', qm') => exists t, getchar s = Ret c t /\ 0 <= c < 256 /\ console_at e qm'.1 qm'.2 line (scripts e rs' ++ rest) t
  end.
Proof.
  intros Hat Hok. unfold getchar. apply getchar_rec_at; [done|done|]. change (io_in (c_io s)) with (input s).
  rewrite (ca_input _ _ _ _ _ _ Hat), length_app. pose proof (scripts_length rs). lia.
Qed.

Lemma echo_at c q m line rest s :
  console_at e q m line rest s -> exists t, when (negb (1 =? 0)) (cputchar c) s = Ret tt t /\ console_at e q m line rest t /\ line_buf t = line_buf s.
Proof.
  intros Hat. destruct (cputchar_same s c (ca_display _ _ _ _ _ _ Hat)) as (t & Ht & Hd & Hs & Hk). exists t. split; [exact Ht|].
  split; [by eapply console_at_same|apply Hs].
Qed.

Lemma set_line_at v q m line rest s :
  console_at e q m line rest s ->
  set_line (Z.of_nat (length line)) v s = Ret tt (set_line_buf (<[length line := u8 v]> (line_buf s)) s) /\
  take (S (length line)) (<[length line := u8 v]> (line_buf s)) = line ++ [u8 v].
Proof.
  intros [? ? ? ? ? (Hb & Hlen & Hl) ?]. unfold BUFLEN in *. split.
  - apply wp_eq. unfold set_line. do 3 wp_step. apply wp_array_set; [lia|]. wp_step. by rewrite Nat2Z.id.
  - erewrite take_S_r by (apply list_lookup_insert_eq; lia). by rewrite take_insert_ge, Hl by lia.
Qed.

Lemma console_at_line q m line line' b rest s :
  console_at e q m line rest s -> length b = length (line_buf s) -> Z.of_nat (length line') < BUFLEN -> take (length line') b = line' ->
  console_at e q m line' rest (set_line_buf b s).
Proof. intros [? ? ? ? ? (? & ? & ?) ?] Hb Hl Ht. split; try done. cbn. by rewrite Hb. Qed.

Lemma step_edit c q m line rest s t :
  getchar s = Ret c t -> 0 <= c < 256 -> newline c = false -> console_at e q m line rest t ->
  exists u, readline_step 1 (Z.of_nat (length line)) s = Ret (Datatypes.inl (Z.of_nat (length (edit line c)))) u /\
    console_at e q m (edit line c) rest u.
Proof.
  intros Ht Hc Hnl Hat. unfold newline in Hnl. unfold readline_step. rewrite (bind_eq _ _ _ _ _ Ht).
  replace (c <? 0) with false by lia. unfold edit. change (chr " ") with 32. change (BUFLEN - 1) with 1023.
  destruct (echo_at c _ _ _ _ _ Hat) as (u & Hu & Hau & _). pose proof (ca_line _ _ _ _ _ _ Hau) as (Hb & Hlen & Hl). unfold BUFLEN in *.
  destruct ((32 <=? c) && (Z.of_nat (length line) <? 1023)) eqn:E1; [|destruct (Z.eqb_spec c 8) as [->|E8]; cbn [andb]].
  - rewrite (bind_eq _ _ _ _ _ Hu). destruct (set_line_at c _ _ _ _ _ Hau) as [Hs Htk]. rewrite (bind_eq _ _ _ _ _ Hs).
    rewrite (u8_small c) in * by lia. eexists. split; [unfold mret, M_ret; rewrite length_app; cbn [length]; do 2 f_equal; lia|].
    eapply console_at_line; [exact Hau|by rewrite length_insert|rewrite length_app; cbn; unfold BUFLEN; lia|].
    rewrite length_app, Nat.add_1_r. exact Htk.
  - destruct line as [|x line _] using rev_ind; [by exists t|]. rewrite removelast_last, length_app in *. cbn [length] in *.
    rewrite (proj2 (Z.ltb_lt 0 (Z.of_nat (length line + 1)))) by lia. rewrite (bind_eq _ _ _ _ _ Hu). exists (set_line_buf (line_buf u) u).
    split; [unfold mret, M_ret; destruct u; cbn; do 2 f_equal; lia|].
    eapply console_at_line; [exact Hau|done|unfold BUFLEN; lia|].
    rewrite Nat.add_1_r in Hl. apply (f_equal (take (length line))) in Hl. rewrite take_take, take_app_length in Hl.
    rewrite Nat.min_l in Hl by lia. exact Hl.
  - rewrite Hnl. by exists t.
Qed.

Lemma step_newline c q m line rest s t :
  getchar s = Ret c t -> newline c = true -> console_at e q m line rest t ->
  exists u, readline_step 1 (Z.of_nat (length line)) s = Ret (inr true) u /\
    console_at e q m line rest u /\ take (S (length line)) (line_buf u) = line ++ [0].
Proof.
  intros Ht Hnl Hat. unfold newline in Hnl. unfold readline_step. rewrite (bind_eq _ _ _ _ _ Ht). change (chr " ") with 32.
  replace (c <? 0) with false by lia. replace (32 <=? c) with false by lia. replace (c =? 8) with false by lia. cbn [andb]. rewrite Hnl.
  destruct (echo_at c _ _ _ _ _ Hat) as (u & Hu & Hau & _). rewrite (bind_eq _ _ _ _ _ Hu).
  destruct (set_line_at 0 _ _ _ _ _ Hau) as [Hs Htk]. rewrite (bind_eq _ _ _ _ _ Hs). eexists. split; [done|].
  split; [|exact Htk]. pose proof (ca_line _ _ _ _ _ _ Hau) as (Hb & Hlen & Hl). eapply console_at_line; [exact Hau|by rewrite length_insert|done|].
  by rewrite take_insert_ge by lia.
Qed.

Lemma edit_zeros n : forall line, foldl edit line (replicate n 0) = line.
Proof. induction n as [|n IH]; intros line; [done|]. cbn [replicate foldl]. apply IH. Qed.

Lemma last_of {A} (l1 l2 cs : list A) c nl :
  l1 ++ c :: l2 = cs ++ [nl] -> l2 = [] /\ cs = l1 /\ nl = c \/ exists l, l2 = l ++ [nl] /\ cs = l1 ++ c :: l.
Proof using Type.
  destruct l2 as [|y l _] using rev_ind; intros H.
  - left. by apply app_inj_tail in H as [-> ->].
  - right. rewrite app_comm_cons, app_assoc in H. apply app_inj_tail in H as [<- <-]. by exists l.
Qed.

(** The prompt. *)
Lemma prompt_at prompt q m line rest s :
  match prompt with Some p => va_ok (Str (Some p)) | None => True end -> console_at e q m line rest s ->
  exists t, (match prompt with Some p => console_printf (bytes "%s") [Str (Some p)];; mret tt | None => mret tt end) s = Ret tt t /\
    console_at e q m line rest t.
Proof using Type.
  intros Hp Hat. destruct prompt as [p|]; [|by exists s].
  destruct (printf_same s [Directive (Dir [] false None None 0 ConvS)] [Str (Some p)]
    (string_field (chr " ") (-1) (shown false (-1) p) ++ []) []) as (u & Hu & Hud & Hus & Hk);
    [apply Hat|by apply pieces_okb_sound; vm_compute|by constructor|reflexivity|].
  change (unparse [_]) with (bytes "%s") in Hu. exists u. rewrite (bind_eq _ _ _ _ _ Hu). split; [done|by eapply console_at_same].
Qed.

(** The whole loop, on rounds [rs]: it ends with the first newline, and not before. *)
Definition line_read (rs : list round) (f : nat) (qm : list Z * modifiers) (line rest : list Z) (s : console) : Prop :=
  (forall cs nl, (received e rs qm).1 = cs ++ [nl] -> newline nl = true -> Forall (fun c => newline c = false) cs ->
     exists t, readline_rec f 1 (Z.of_nat (length line)) s = Ret true t /\
       console_at e (received e rs qm).2.1 (received e rs qm).2.2 (foldl edit line cs) rest t /\
       take (S (length (foldl edit line cs))) (line_buf t) = foldl edit line cs ++ [0]) /\
  (Forall (fun c => newline c = false) (received e rs qm).1 -> rest = [] -> readline_rec f 1 (Z.of_nat (length line)) s = Spin).

Lemma nothing_read rs f q m line rest s :
  (received e rs (q, m)).1 = replicate (length rs) 0 -> (rest = [] -> getchar s = Spin) -> line_read rs (S f) (q, m) line rest s.
Proof using Type.
  intros Hz Hg. split.
  - intros cs nl E Hnl _. rewrite Hz in E. assert (Hin : nl ∈ replicate (length rs) 0) by (rewrite E; set_solver).
    apply elem_of_replicate in Hin as [-> _]. done.
  - intros _ Hrest. cbn [readline_rec]. unfold readline_step, mbind, M_bind. by rewrite Hg.
Qed.

Lemma readline_rec_at n : forall rs f q m line rest s,
  (length rs <= n)%nat -> (length rs < f)%nat -> console_at e q m line (scripts e rs ++ rest) s -> Forall round_ok rs ->
  line_read rs f (q, m) line rest s.
Proof.
  induction n as [|n IH]; intros rs f q m line rest s Hn Hf Hat Hok; (destruct f as [|f]; [lia|]);
    pose proof (getchar_at rs q m line rest s Hat Hok) as Hg; pose proof (next_received e rs (q, m)) as Hr;
    destruct (next e rs (q, m)) as [[[c rs'] [q' m']]|]; unfold line_read; cbn [readline_rec].
  1, 3: destruct Hg as (t & Ht & Hc & Hat'), Hr as (Hc0 & Hlen & (rs0 & ->) & n0 & E1 & E2); rewrite E1, E2; clear E1 E2.
  1: lia.
  1: apply Forall_app in Hok as [_ Hok]; destruct (newline c) eqn:Enl.
  1: split; [intros cs nl E Hnl Hcs|intros Hall; apply Forall_app in Hall as [_ Hall]; apply Forall_cons in Hall as [Hall _]; congruence].
  - apply last_of in E as [(E & -> & ->)|(l & E & ->)].
    2: { apply Forall_app in Hcs as [_ Hcs]. apply Forall_cons in Hcs as [Hcs _]. congruence. }
    destruct (step_newline c q' m' line (scripts e rs' ++ rest) s t Ht Enl Hat') as (u & Hu & Hau & Htk).
    exists u. rewrite (bind_eq _ _ _ _ _ Hu), edit_zeros. split; [done|]. split; [|done].
    pose proof (received_length e rs' (q', m')) as Hl. rewrite E in Hl. by destruct rs'.
  - destruct (step_edit c q' m' line (scripts e rs' ++ rest) s t Ht Hc Enl Hat') as (u & Hu & Hau).
    destruct (IH rs' f q' m' (edit line c) rest u ltac:(lia) ltac:(lia) Hau Hok) as [H1 H2].
    rewrite (bind_eq _ _ _ _ _ Hu). split.
    + intros cs nl E Hnl Hcs. apply last_of in E as [(_ & _ & ->)|(l & E & ->)]; [congruence|].
      apply Forall_app in Hcs as [_ Hcs]. apply Forall_cons in Hcs as [_ Hcs].
      rewrite foldl_app, edit_zeros. exact (H1 l nl E Hnl Hcs).
    + intros Hall. apply Forall_app in Hall as [_ Hall]. apply Forall_cons in Hall as [_ Hall]. by apply H2.
  - by apply nothing_read.
  - by apply nothing_read.
Qed.
End readline.

(** C21: [readline] on a working console, with a serial port or without, whatever already
    waits in the ring and however the bytes of the serial line and of the keyboard
    arrive in rounds [rs] of polling: if the characters they make, in the order of
    the ring, end with the first newline, it returns with the line that the editor of
    [edit] makes of them in the buffer, ended by a NUL, and with everything behind
    the newline still waiting.  If they have no newline, it waits for ever. *)
Theorem readline_correct s m prompt rs rest :
  ring_ok s -> Forall (fun c => 0 <= c < 256) (waiting s) -> kbd_shift s = word_of m -> has_display s ->
  Z.of_nat (length (line_buf s)) = BUFLEN -> readline_hack s = false ->
  match prompt with Some p => va_ok (Str (Some p)) | None => True end ->
  Forall round_ok rs -> input s = scripts (serial_exists s) rs ++ rest ->
  let '(chars, (q, m')) := received (serial_exists s) rs (waiting s, m) in
  (forall cs nl, chars = cs ++ [nl] -> newline nl = true -> Forall (fun c => newline c = false) cs ->
     let line := foldl edit [] cs in
     exists t, readline prompt s = Ret true t /\ take (S (length line)) (line_buf t) = line ++ [0] /\ (length line < 1024)%nat /\
       ring_ok t /\ waiting t = q /\ kbd_shift t = word_of m' /\ has_display t /\ input t = rest) /\
  (Forall (fun c => newline c = false) chars -> rest = [] -> readline prompt s = Spin).
Proof.
  intros Hr Hb Hm Hd Hlen Hh Hprompt Hrs Hin. set (e := serial_exists s) in *.
  assert (Hat : console_at e (waiting s) m [] (scripts e rs ++ rest) s) by (by split).
  destruct (prompt_at e prompt _ _ _ _ _ Hprompt Hat) as (u & Hu & Hau).
  destruct (readline_rec_at e (length rs) rs (S (length (input s))) (waiting s) m [] rest u) as [H1 H2]; [done| |done|done|].
  { rewrite Hin, length_app. pose proof (scripts_length e rs). lia. }
  assert (E : readline prompt s = readline_rec (S (length (input s))) 1 0 u).
  { unfold readline. rewrite Hh. by rewrite (bind_eq _ _ _ _ _ Hu). }
  rewrite E. destruct (received e rs (waiting s, m)) as [chars [q m']]. split; [|exact H2].
  intros cs nl Ecs Hnl Hcs line. destruct (H1 cs nl Ecs Hnl Hcs) as (t & Ht & [[? ?] ? ? ? ? (? & Hl & _) ?] & Htk).
  exists t. unfold BUFLEN in Hl. split_and!; try done. fold line in Hl. lia.
Qed.

(** "h", "i" and a backspace from the serial line, in two bursts; then Enter on the
    keyboard, the release of that key, and one character more. *)
Definition demo_rounds : list round :=
  [Round [(1, 104)] 0 [] 0; Round [] 0 [] 0; Round [(1, 105); (1, 8)] 0 [] 0; Round [] 0 [] 0; Round [] 0 [(1, 0x1C); (1, 0x9C); (1, 0x1E)] 0].
Definition demo_line : console := demo_console (scripts true demo_rounds ++ [7]).

Lemma readline_correct_witness :
  exists t, readline (Some (bytes "K> ")) demo_line = Ret true t /\ take 2 (line_buf t) = [104; 0] /\ waiting t = [97] /\ input t = [7].
Proof.
  pose proof (readline_correct demo_line (of_word 0) (Some (bytes "K> ")) demo_rounds [7]) as H.
  assert (E : received (serial_exists demo_line) demo_rounds (waiting demo_line, of_word 0) = ([104; 0; 105; 8; 10], ([97], of_word 0)))
    by (vm_compute; reflexivity).
  rewrite E in H. destruct H as [H _].
  - vm_compute. intuition discriminate.
  - vm_compute. constructor.
  - reflexivity.
  - exists (replicate 2000 blank). split; [reflexivity|]. apply demo_display_ok. vm_compute. split; [discriminate|reflexivity].
  - reflexivity.
  - reflexivity.
  - apply (Forall_inv (va_okb_sound [Str (Some (bytes "K> "))] eq_refl)).
  - repeat constructor; vm_compute; congruence.
  - reflexivity.
  - destruct (H [104; 0; 105; 8] 10) as (t & Ht & Hl & _ & _ & Hw & _ & _ & Hi);
      [reflexivity|reflexivity|repeat constructor|]. exists t. split; [exact Ht|]. split; [exact Hl|]. split; [exact Hw|exact Hi].
Defined.
