(* ===== verification/Kdebug.v ===== *)
(** * Kdebug: kern/kdebug.c and inc/stab.h

    The lookup of an instruction address in the STABS debugging tables.  The
    table of stabs is a list of entries; the string table is in memory, from
    [stabstr] to [stabstr_end]. *)

From S2P Require Import Prelude Layout Printfmt CString.
Open Scope Z_scope.

Definition N_FUN : Z := 0x24.
Definition N_SLINE : Z := 0x44.
Definition N_SO : Z := 0x64.
Definition N_SOL : Z := 0x84.
Definition N_PSYM : Z := 0xa0.

Record Stab : Type := MkStab { n_strx : Z; n_type : Z; n_other : Z; n_desc : Z; n_value : Z }.

Record Eipdebuginfo : Type := MkEip {
  eip_file : Z; eip_line : Z; eip_fn_name : Z; eip_fn_namelen : Z; eip_fn_addr : Z; eip_fn_narg : Z
}.

Section kdebug.
Context {S : Type} (stabs : list Stab).

(** [stabs[i]] *)
Definition stab_at (i : Z) : M S Stab := if i <? 0 then fault else deref (stabs !! Z.to_nat i).

(** [while (m >= l && stabs[m].n_type != type) m--], and the loop
    [for (l = right; l > left && ...; l--)], which is the same with
    [l = left + 1]. *)
Definition find_back (type lo m : Z) : M S Z :=
  while (Datatypes.S (Z.to_nat (m - lo + 1)))
    (fun m => if lo <=? m then x ← stab_at m; mret (negb (n_type x =? type)) else mret false)
    (fun m => mret (m - 1)) m.

(** The variables of [stab_binsearch]; [b_left] and [b_right] are
    [*region_left] and [*region_right]. *)
Record search : Type := Search { b_l : Z; b_r : Z; b_left : Z; b_right : Z; b_any : bool; b_addr : Z }.

Definition binsearch_step (type : Z) (b : search) : M S search :=
  let '(Search l r lo hi any addr) := b in
  sum ← int_op (l + r);
  let true_m := Z.quot sum 2 in
  m ← find_back type l true_m;
  if m <? l then mret (Search (true_m + 1) r lo hi any addr)
  else
    x ← stab_at m;
    if n_value x <? addr then mret (Search (true_m + 1) r m hi true addr)
    else if addr <? n_value x then mret (Search l (m - 1) lo (m - 1) true addr)
    else mret (Search m r m hi true (u32 (addr + 1))).

(** Two rounds for each index, since a round that finds the address itself
    is followed by one that moves. *)
Definition stab_binsearch (region_left region_right type addr : Z) : M S (Z * Z) :=
  b ← while (Z.to_nat (2 * (region_right - region_left + 1) + 2)) (fun b => mret (b_l b <=? b_r b)) (binsearch_step type)
        (Search region_left region_right region_left region_right false addr);
  if negb (b_any b) then mret (b_left b, b_left b - 1)
  else l ← find_back type (b_left b + 1) (b_right b); mret (l, b_right b).
End kdebug.

Section debuginfo.
Context (stabs : list Stab) (stabstr stabstr_end : Z) (unknown : Z).

(** The file and line part: [while (lline >= lfile && ...) lline--]. *)
Definition find_file (lfile lline : Z) : M mem Z :=
  while (Datatypes.S (Z.to_nat (lline - lfile + 1)))
    (fun l => if lfile <=? l then
                x ← stab_at stabs l;
                mret (negb (n_type x =? N_SOL) && (negb (n_type x =? N_SO) || (n_value x =? 0)))
              else mret false)
    (fun l => mret (l - 1)) lline.

Definition count_args (lfun : Z) : M mem Z :=
  while (length stabs + 2) (fun n => x ← stab_at stabs (lfun + n + 1); mret (n_type x =? N_PSYM))
    (fun n => mret (n + 1)) 0.

(** [unknown] is the address of the literal "<unknown>". *)
Definition debuginfo_eip (addr : Z) : M mem (Z * Eipdebuginfo) :=
  let info := MkEip unknown 0 unknown 9 addr 0 in
  if addr <? ULIM then panic "User address"
  else
    bad ← (if stabstr_end <=? stabstr then mret true else c ← load8 (stabstr_end - 1); mret (negb (c =? 0)));
    if bad : bool then mret (-1, info)
    else
      '(lfile, rfile) ← stab_binsearch stabs 0 (Z.of_nat (length stabs) - 1) N_SO addr;
      if lfile =? 0 then mret (-1, info)
      else
        '(lfun, rfun) ← stab_binsearch stabs lfile rfile N_FUN addr;
        '(name, fn_addr, addr, lline, rline) ←
          (if lfun <=? rfun then
             x ← stab_at stabs lfun;
             let name := if n_strx x <? stabstr_end - stabstr then stabstr + n_strx x else unknown in
             mret (name, n_value x, u32 (addr - n_value x), lfun, rfun)
           else mret (unknown, addr, addr, lfile, rfile));
        colon ← strfind name (chr ":");
        let info := MkEip unknown 0 name (colon - name) fn_addr 0 in
        '(lline, rline) ← stab_binsearch stabs lline rline N_SLINE addr;
        if rline <? lline then mret (-1, info)
        else
          x ← stab_at stabs lline;
          let line := n_desc x in
          lline ← find_file lfile lline;
          file ← (if lfile <=? lline then
                    x ← stab_at stabs lline;
                    mret (if n_strx x <? stabstr_end - stabstr then stabstr + n_strx x else unknown)
                  else mret unknown);
          narg ← count_args lfun;
          mret (0, MkEip file line name (colon - name) fn_addr narg).
End debuginfo.

(** ** The search *)

Section search.
Context {S : Type} (stabs : list Stab) (type : Z).
Implicit Types (i j l r : Z).

Definition matches (i : Z) (v : Z) : Prop :=
  0 <= i /\ exists x, stabs !! Z.to_nat i = Some x /\ n_type x = type /\ n_value x = v.
Definition no_match (lo hi : Z) : Prop := forall i v, lo <= i < hi -> ~ matches i v.

(** What the search returns for [addr] within [L..R]: an empty range when no
    stab there has the type; the stab that contains [addr] and the last index
    before the next one; or, when [addr] is before the first stab [F], the
    indices before [F]. *)
Inductive bracket (L R addr : Z) : Z -> Z -> Prop :=
  | no_stab : no_match L (R + 1) -> bracket L R addr L (L - 1)
  | contains l r v :
      L <= l <= r -> r <= R -> matches l v -> v <= addr -> no_match (l + 1) (r + 1) ->
      (r = R \/ exists v', matches (r + 1) v' /\ addr < v') -> bracket L R addr l r
  | before F v :
      L <= F <= R -> matches F v -> addr < v -> no_match L F ->
      bracket L R addr (Z.min L (F - 1)) (F - 1).

Lemma stab_at_ok i (Q : Stab -> S -> Prop) s :
  0 <= i < Z.of_nat (length stabs) -> (forall x, stabs !! Z.to_nat i = Some x -> Q x s) -> wp (stab_at stabs i) Q s.
Proof.
  intros Hi HQ. unfold stab_at. replace (i <? 0) with false by lia.
  destruct (lookup_lt_is_Some_2 stabs (Z.to_nat i)) as [x Hx]; [lia|]. rewrite Hx. by apply HQ.
Qed.

Lemma stab_at_match i v (Q : Stab -> S -> Prop) s :
  matches i v -> (forall x, n_value x = v -> Q x s) -> wp (stab_at stabs i) Q s.
Proof.
  intros [Hi (x & Hx & _ & Hv)] HQ. unfold stab_at. replace (i <? 0) with false by lia. rewrite Hx. by apply HQ.
Qed.

Lemma matches_fun i v w : matches i v -> matches i w -> v = w.
Proof. intros [_ (x & Hx & _ & <-)] [_ (y & Hy & _ & <-)]. congruence. Qed.

Lemma no_match_app a b c : no_match a b -> no_match b c -> no_match a c.
Proof. intros H1 H2 i v Hi. destruct (decide (i < b)); [apply H1|apply H2]; lia. Qed.

(** [find_back] returns the last stab of the type, or [lo - 1]. *)
Lemma find_back_ok lo m (Q : Z -> S -> Prop) s :
  0 <= lo -> m < Z.of_nat (length stabs) ->
  (forall k, k <= m -> no_match (k + 1) (m + 1) -> (k = m /\ m < lo) \/ (lo <= k /\ exists v, matches k v) \/ (k = lo - 1 /\ lo <= m) -> Q k s) ->
  wp (find_back stabs type lo m) Q s.
Proof.
  intros Hlo Hm HQ. unfold find_back.
  apply (wp_while (fun k t => t = s /\ k <= m /\ (lo - 1 <= k \/ k = m) /\ no_match (k + 1) (m + 1)) (fun k => Z.to_nat (k - lo + 1))).
  { split_and!; [done|lia|lia|]. intros i v Hi. lia. } { lia. }
  intros k t (-> & Hk & Hlok & Hnm). destruct (Z.leb_spec lo k).
  2: { apply wp_ret, HQ; [done|done|]. destruct Hlok; lia. }
  wp_step. apply stab_at_ok; [lia|]. intros x Hx. wp_step. destruct (Z.eqb_spec (n_type x) type) as [E|E]; cbn [negb].
  - apply HQ; [done|done|]. right. left. split; [done|]. exists (n_value x). split; [lia|]. by exists x.
  - wp_step. split; [|lia]. split_and!; [done|lia|lia|].
    intros i v Hi [Hi0 (y & Hy & Ht & Hv)]. destruct (decide (i = k)) as [->|].
    + congruence.
    + apply (Hnm i v); [lia|]. split; [done|]. by exists y.
Qed.

(** The hypotheses on the stabs of the type between [L] and [R]: their
    addresses do not decrease, and no stab is at the address right after the
    one looked up when that one is there too. *)
Definition ordered (L R : Z) : Prop :=
  forall i j v w, L <= i <= j -> j <= R -> matches i v -> matches j w -> v <= w.
Definition no_adjacent (L R addr : Z) : Prop :=
  forall i j, L <= i <= R -> L <= j <= R -> matches i addr -> ~ matches j (addr + 1).

(** What holds before every round; the last field says whether and where
    [*region_left] has been set. *)
Record search_inv (L R a0 : Z) (b : search) : Prop := SearchInv {
  si_range : L <= b_l b <= b_r b + 1 /\ b_r b <= R;
  si_right : b_right b = b_r b;
  si_addr : b_addr b = a0 \/ b_addr b = a0 + 1 /\ exists i, L <= i <= R /\ matches i a0;
  si_below : forall i v, L <= i < b_l b -> matches i v -> v <= a0;
  si_above : forall i v, b_r b < i <= R -> matches i v -> a0 < v;
  si_next : b_r b = R \/ exists v, matches (b_r b + 1) v /\ a0 < v;
  si_any : b_any b = false -> b_r b = R;
  si_left :
    b_left b = L /\ no_match L (b_l b) /\ b_addr b = a0 /\ (b_any b = true -> b_r b < R) \/
    b_any b = true /\ L <= b_left b <= b_r b /\ b_left b <= b_l b /\ no_match (b_left b + 1) (b_l b) /\
      (exists v, matches (b_left b) v /\ v <= a0) /\ (b_left b = b_l b -> b_addr b = a0 + 1)
}.

Definition search_measure (a0 : Z) (b : search) : nat :=
  Z.to_nat (2 * (b_r b - b_l b + 1) + (if b_addr b =? a0 then 1 else 0)).

Lemma binsearch_step_ok L R a0 b (Q : search -> S -> Prop) s :
  0 <= L -> R < Z.of_nat (length stabs) -> R < 2 ^ 30 -> 0 <= a0 < 2 ^ 32 - 1 ->
  ordered L R -> no_adjacent L R a0 -> search_inv L R a0 b -> b_l b <= b_r b ->
  (forall b', search_inv L R a0 b' -> (search_measure a0 b' < search_measure a0 b)%nat -> Q b' s) ->
  wp (binsearch_step stabs type b) Q s.
Proof.
  intros HL HR HR30 Ha0 Hord Hadj Hinv Hlr HQ. destruct b as [l r lo hi any a]. cbn [b_l b_r] in Hlr.
  destruct Hinv as [[Hl Hr] Hhi Ha Hbelow Habove Hnext Hany Hlo]. cbn [b_l b_r b_left b_right b_any b_addr] in *. subst hi.
  unfold binsearch_step. wp_step. apply wp_int_op; [lia|].
  assert (Hq : Z.quot (l + r) 2 = (l + r) / 2) by (apply Z.quot_div_nonneg; lia). rewrite Hq.
  set (t := (l + r) / 2). assert (Ht : l <= t <= r) by (unfold t; Z.div_mod_to_equations; lia).
  wp_step. apply find_back_ok; [lia|lia|]. intros m Hm Hnm Hcase.
  destruct (Z.ltb_spec m l) as [Hml|Hml].
  { wp_step. assert (Hno : no_match l (t + 1)) by (intros i v Hi; apply Hnm; lia).
    apply HQ; [|unfold search_measure; cbn [b_l b_r b_addr]; destruct (a =? a0); lia].
    constructor; cbn [b_l b_r b_left b_right b_any b_addr]; try done; [lia| |].
    - intros i v Hi Hmi. destruct (decide (i < l)); [by apply (Hbelow i v); [lia|]|]. exfalso. by apply (Hno i v); [lia|].
    - destruct Hlo as [(-> & Hn & -> & Hr2)|(-> & Hlo & Hlol & Hn & Hv & He)]; [left|right].
      + split; [done|]. split; [|done]. eapply no_match_app; [exact Hn|exact Hno].
      + split; [done|]. split; [lia|]. split; [lia|]. split; [|split; [done|lia]].
        destruct (decide (lo = l)) as [->|]; [|by eapply no_match_app].
        intros i v Hi. apply Hno. lia. }
  destruct Hcase as [[? ?]|[(_ & v & Hmv)|[? ?]]]; [lia| |lia].
  wp_step. apply (stab_at_match _ v); [done|]. intros x Hx.
  assert (Hno : no_match (m + 1) (t + 1)) by done. rewrite Hx.
  destruct (Z.ltb_spec v a) as [Hva|Hva].
  { wp_step. assert (Hv0 : v <= a0) by lia.
    apply HQ; [|unfold search_measure; cbn [b_l b_r b_addr]; destruct (a =? a0); lia].
    constructor; cbn [b_l b_r b_left b_right b_any b_addr]; try done; [lia| |].
    - intros i w Hi Hmi. destruct (decide (i <= m)).
      + pose proof (Hord i m w v ltac:(lia) ltac:(lia) Hmi Hmv). lia.
      + exfalso. by apply (Hno i w); [lia|].
    - right. split; [done|]. split; [lia|]. split; [lia|]. split; [done|]. split; [by exists v|lia]. }
  destruct (Z.ltb_spec a v) as [Hav|Hav].
  { wp_step. assert (Hv0 : a0 < v) by lia.
    apply HQ; [|unfold search_measure; cbn [b_l b_r b_addr]; destruct (a =? a0); lia].
    constructor; cbn [b_l b_r b_left b_right b_any b_addr]; try done; [lia| | |].
    - intros i w Hi Hmi. pose proof (Hord m i v w ltac:(lia) ltac:(lia) Hmv Hmi). lia.
    - right. exists v. by replace (m - 1 + 1) with m by lia.
    - destruct Hlo as [(-> & Hn & -> & Hr2)|(-> & Hlo & Hlol & Hn & (w & Hw & Hwa) & He)]; [left|right].
      + split; [done|]. split; [done|]. split; [done|]. intros _. lia.
      + split; [done|]. split; [|split; [lia|split; [done|split; [by exists w|done]]]].
        split; [lia|]. destruct (decide (lo = m)) as [->|]; [|lia].
        pose proof (matches_fun m v w Hmv Hw). lia. }
  wp_step. assert (a = v) as -> by lia. destruct Ha as [->|[-> (i & Hi & Hia)]].
  - rewrite u32_small by lia. apply HQ.
    2: { unfold search_measure. cbn [b_l b_r b_addr]. rewrite Z.eqb_refl.
         replace (a0 + 1 =? a0) with false by lia. lia. }
    constructor; cbn [b_l b_r b_left b_right b_any b_addr]; try done; [lia| | |].
    + right. split; [done|]. exists m. split; [lia|done].
    + intros i w Hi Hmi. pose proof (Hord i m w a0 ltac:(lia) ltac:(lia) Hmi Hmv). lia.
    + right. split; [done|]. split; [lia|]. split; [lia|]. split; [|split; [by exists a0|done]].
      intros i w Hi. lia.
  - exfalso. by apply (Hadj i m); [done|lia| |].
Qed.

Lemma stab_binsearch_run L R addr (s : S) :
  0 <= L <= R + 1 -> R < Z.of_nat (length stabs) -> R < 2 ^ 30 -> 0 <= addr < 2 ^ 32 - 1 ->
  ordered L R -> no_adjacent L R addr ->
  exists l r, stab_binsearch stabs L R type addr s = Ret (l, r) s /\ bracket L R addr l r.
Proof.
  intros HL HR HR30 Ha Hord Hadj.
  enough (H : wp (stab_binsearch stabs L R type addr) (fun p t => t = s /\ bracket L R addr p.1 p.2) s).
  { apply (wp_iff (stab_binsearch stabs L R type addr)) in H as ([l r] & t & Ht & -> & Hb). by exists l, r. }
  unfold stab_binsearch. wp_step.
  apply (wp_while (fun b t => t = s /\ search_inv L R addr b) (search_measure addr)).
  { split; [done|]. constructor; cbn [b_l b_r b_left b_right b_any b_addr]; try done; try (by left); try (intros; lia).
    left. split; [done|]. split; [intros i v Hi; lia|]. done. }
  { unfold search_measure. cbn [b_l b_r b_addr]. rewrite Z.eqb_refl. lia. }
  intros b t [-> Hinv]. wp_step. destruct (Z.leb_spec (b_l b) (b_r b)) as [Hlr|Hlr].
  { apply (binsearch_step_ok L R addr); [lia|lia|lia|lia|done|done|done|done|]. done. }
  destruct Hinv as [[Hl Hr] Hhi Haddr Hbelow Habove Hnext Hany Hlo].
  assert (Hend : b_l b = b_r b + 1) by lia. rewrite Hend in *.
  destruct (b_any b) eqn:Eany; cbn [negb].
  2: { wp_step. split; [done|]. rewrite (Hany eq_refl) in *. destruct Hlo as [(-> & Hn & _)|[? _]]; [|done].
       by apply no_stab. }
  wp_step. rewrite Hhi. destruct Hlo as [(-> & Hn & _ & Hlt)|(_ & Hlo & _ & Hn & (v & Hv & Hva) & _)].
  - specialize (Hlt eq_refl). destruct Hnext as [?|(v & Hv & Hva)]; [lia|].
    apply find_back_ok; [lia|lia|]. intros k Hk _ Hcase. wp_step. split; [done|]. cbn [fst snd].
    assert (Ek : k = Z.min L (b_r b + 1 - 1)).
    { destruct Hcase as [[-> ?]|[[? (w & Hw)]|[-> ?]]]; [lia| |lia]. exfalso. by apply (Hn k w); [lia|]. }
    rewrite Ek. replace (b_r b) with (b_r b + 1 - 1) at 2 by lia. apply before with v; [lia|done|done|done].
  - apply find_back_ok; [lia|lia|]. intros k Hk _ Hcase. wp_step. split; [done|]. cbn [fst snd].
    assert (k = b_left b) as ->.
    { destruct Hcase as [[-> ?]|[[? (w & Hw)]|[-> ?]]]; [lia| |lia]. exfalso. by apply (Hn k w); [lia|]. }
    apply contains with v; [lia|lia|done|done|done|]. destruct Hnext as [->|Hnext]; [by left|by right].
Qed.
(** ** The search returns, whatever the table

    A round that finds [b_addr] itself may leave [l] where it is, but then the entry at
    [l] has been used: its address is the one before [b_addr], so it is not found again. *)
Definition usedb (b : search) : bool :=
  match stabs !! Z.to_nat (b_l b) with
  | Some x => (n_type x =? type) && (u32 (n_value x + 1) =? b_addr b)
  | None => false
  end.
Definition rounds_left (b : search) : nat := Z.to_nat (2 * (b_r b - b_l b + 1) + (if usedb b then 0 else 1)).

Record in_table (L R : Z) (b : search) : Prop := InTable {
  it_range : L <= b_l b <= b_r b + 1 /\ b_r b <= R;
  it_left : L <= b_left b;
  it_right : b_right b <= R;
  it_addr : 0 <= b_addr b < 2 ^ 32
}.

Lemma binsearch_step_returns L R b (Q : search -> S -> Prop) s :
  0 <= L -> R < Z.of_nat (length stabs) -> R < 2 ^ 30 -> in_table L R b -> b_l b <= b_r b ->
  (forall b', in_table L R b' -> (rounds_left b' < rounds_left b)%nat -> Q b' s) ->
  wp (binsearch_step stabs type b) Q s.
Proof.
  intros HL HR HR30 [[Hl Hr] Hlo Hhi Ha] Hlr HQ. destruct b as [l r lo hi any a].
  cbn [b_l b_r b_left b_right b_addr] in *. unfold binsearch_step. wp_step. apply wp_int_op; [lia|].
  rewrite (Z.quot_div_nonneg (l + r) 2) by lia. set (t := (l + r) / 2). assert (Ht : l <= t <= r) by (unfold t; Z.div_mod_to_equations; lia).
  wp_step. apply find_back_ok; [lia|lia|]. intros m Hm _ Hcase.
  assert (Hless : forall b', 2 * (b_r b' - b_l b' + 1) + (if usedb b' then 0 else 1) < 2 * (r - l + 1) + (if usedb (Search l r lo hi any a) then 0 else 1) ->
    0 <= b_r b' - b_l b' + 1 -> (rounds_left b' < rounds_left (Search l r lo hi any a))%nat).
  { intros b' H0 H1. unfold rounds_left. cbn [b_l b_r]. destruct (usedb b'), (usedb _); lia. }
  assert (Hflag : forall b', 0 <= (if usedb b' then 0 else 1) <= 1) by (intros b'; destruct (usedb b'); lia).
  pose proof (Hflag (Search l r lo hi any a)) as Hf0.
  destruct (Z.ltb_spec m l) as [Hml|Hml].
  { wp_step. apply HQ; [split; cbn; lia|]. apply Hless; cbn [b_l b_r]; [|lia]. pose proof (Hflag (Search (t + 1) r lo hi any a)). lia. }
  destruct Hcase as [[? ?]|[(_ & v & Hmv)|[? ?]]]; [lia| |lia].
  pose proof Hmv as [Hm0 (x & Hx & Htx & Hvx)]. wp_step. apply (stab_at_match _ v); [done|]. intros x' Hx'. rewrite Hx'.
  destruct (Z.ltb_spec v a) as [Hva|Hva]; [|destruct (Z.ltb_spec a v) as [Hav|Hav]]; wp_step.
  - apply HQ; [split; cbn; lia|]. apply Hless; cbn [b_l b_r]; [|lia]. pose proof (Hflag (Search (t + 1) r m hi true a)). lia.
  - apply HQ; [split; cbn; lia|]. apply Hless; cbn [b_l b_r]; [|lia].
    change (usedb (Search l (m - 1) lo (m - 1) true a)) with (usedb (Search l r lo hi any a)). lia.
  - apply HQ; [split; cbn; pose proof (u32_range (a + 1)); lia|]. apply Hless; cbn [b_l b_r]; [|lia]. assert (v = a) as -> by lia.
    assert (Hu : usedb (Search m r m hi true (u32 (a + 1))) = true).
    { unfold usedb. cbn [b_l b_addr]. by rewrite Hx, Htx, Hvx, !Z.eqb_refl. }
    rewrite Hu. destruct (decide (m = l)) as [->|]; [|lia].
    assert (Hu' : usedb (Search l r lo hi any a) = false).
    { unfold usedb. cbn [b_l b_addr]. rewrite Hx, Htx, Hvx, Z.eqb_refl. cbn [andb]. apply Z.eqb_neq. unfold u32. divmod. }
    rewrite Hu'. lia.
Qed.

Lemma stab_binsearch_returns L R addr (s : S) :
  0 <= L <= R + 1 -> R < Z.of_nat (length stabs) -> R < 2 ^ 30 -> 0 <= addr < 2 ^ 32 ->
  exists l r, stab_binsearch stabs L R type addr s = Ret (l, r) s.
Proof.
  intros HL HR HR30 Ha.
  enough (H : wp (stab_binsearch stabs L R type addr) (fun _ t => t = s) s).
  { apply (wp_iff (stab_binsearch stabs L R type addr)) in H as ([l r] & t & Ht & ->). by exists l, r. }
  unfold stab_binsearch. wp_step. apply (wp_while (fun b t => t = s /\ in_table L R b) rounds_left).
  { split; [done|]. split; cbn; lia. }
  { unfold rounds_left. cbn [b_l b_r]. destruct (usedb _); lia. }
  intros b t [-> Hb]. wp_step. destruct (Z.leb_spec (b_l b) (b_r b)).
  { apply (binsearch_step_returns L R); [lia|lia|lia|done|done|]. done. }
  destruct Hb as [[? ?] ? ? ?]. destruct (b_any b); cbn [negb]; [|by wp_step].
  wp_step. apply find_back_ok; [lia|lia|]. intros k _ _ _. by wp_step.
Qed.
End search.


(** The N_SO stabs of the example in the comment of kern/kdebug.c, by index. *)
Definition demo_stabs : list Stab :=
  (fun v => MkStab 0 N_SO 0 0 v) <$> [0xf0100000; 0xf0100040; 0xf0100176; 0xf0100178; 0xf0100652; 0xf0100654; 0xf0100849].

(** The hypotheses, by computation. *)
Definition orderedb (stabs : list Stab) (type : Z) : bool :=
  forallb (fun i => forallb (fun j => negb (i <=? j)%nat ||
    match stabs !! i, stabs !! j with
    | Some x, Some y => negb ((n_type x =? type) && (n_type y =? type)) || (n_value x <=? n_value y)
    | _, _ => true
    end)
    (seq 0 (length stabs))) (seq 0 (length stabs)).

Lemma orderedb_sound stabs type L R : 0 <= L -> orderedb stabs type = true -> ordered stabs type L R.
Proof.
  intros HL H i j v w Hij Hj [Hi (x & Hx & Tx & <-)] [Hj0 (y & Hy & Ty & <-)].
  unfold orderedb in H. rewrite forallb_forall in H. specialize (H (Z.to_nat i)).
  assert (Hin : forall k z, stabs !! k = Some z -> List.In k (seq 0 (length stabs))).
  { intros k z Hk. apply in_seq. apply lookup_lt_Some in Hk. lia. }
  specialize (H (Hin _ _ Hx)). rewrite forallb_forall in H. specialize (H _ (Hin _ _ Hy)). rewrite Hx, Hy in H.
  rewrite Tx, Ty, Z.eqb_refl in H. cbn in H. apply orb_prop in H as [H%negb_true_iff%Nat.leb_gt|H%Z.leb_le]; lia.
Qed.

Lemma no_adjacent_sound stabs type L R addr :
  forallb (fun x => negb (n_value x =? addr)) stabs = true -> no_adjacent stabs type L R addr.
Proof.
  intros H i j _ _ [_ (x & Hx & _ & Hv)]. rewrite forallb_forall in H.
  specialize (H x (proj1 (list_elem_of_In _ _) (list_elem_of_lookup_2 _ _ _ Hx))). lia.
Qed.


Example stab_binsearch_ex : stab_binsearch demo_stabs 0 6 N_SO 0xf0100184 () = Ret (3, 3) ().
Proof. vm_compute. reflexivity. Qed.

(** The search counts [addr] up when it finds it, and so goes on to a stab at
    [addr + 1] and takes that one: of the stabs at 100, 101 and 102, the one
    returned for 100 is the last. *)
Theorem stab_binsearch_adjacent :
  let at_ v := MkStab 0 N_SLINE 0 0 v in
  stab_binsearch (at_ <$> [90; 95; 100; 101; 102]) 0 4 N_SLINE 100 () = Ret (4, 4) () /\
  bracket (at_ <$> [90; 95; 100; 101; 102]) N_SLINE 0 4 100 2 2.
Proof.
  split; [vm_compute; reflexivity|]. apply contains with 100; [lia|lia| |lia| |].
  - split; [lia|]. eexists. split; [reflexivity|done].
  - intros i v Hi. lia.
  - right. exists 101. split; [|lia]. split; [lia|]. eexists. split; [reflexivity|done].
Qed.
