(* ===== verification/KdebugSpec.v ===== *)
(** * KdebugSpec: what debuginfo_eip finds (kern/kdebug.c)

    The stabs of a compiled program: a file's stab, the stabs of its functions
    behind it, and the line stabs of each function, relative to its address. *)

From S2P Require Import Prelude Layout Printfmt CString Kdebug.
Open Scope Z_scope.

(** [strfind] stops at the character or at the end of the string. *)
Lemma strfind_run m p s c :
  cstr m p s -> 0 < c < 256 ->
  strfind p (i8 c) m = Ret (p + Z.of_nat (default (length s) (index_of c s))) m.
Proof.
  intros Hs Hc. apply wp_eq. unfold strfind, mem_fuel. wp_go. set (res := p + _).
  apply wp_while with
    (Inv := fun q m' => m' = m /\ exists s', cstr m q s' /\ (length s' <= length s)%nat /\ q - p = Z.of_nat (length s - length s') /\
       q + Z.of_nat (default (length s') (index_of c s')) = res)
    (mu := fun q => (length s - Z.to_nat (q - p))%nat).
  - split; [done|]. exists s. split_and!; done || lia.
  - apply cstr_size in Hs. lia.
  - intros q m' (-> & s' & Hs' & Hl & Hq & Hr). wp_go.
    destruct (cstr_cases _ _ _ Hs') as [[-> H0]|(x & s2 & -> & H0 & Hx & Hs2)]; (eapply wp_load_char; [exact H0|]); wp_go.
    + cbn in Hr. split; [lia|done].
    + rewrite i8_zero by lia. replace (negb (x =? 0)) with true by lia.
      rewrite i8_inj by lia. cbn [index_of length andb] in *. destruct (x =? c); cbn [negb]; wp_go.
      * cbn in Hr. split; [lia|done].
      * split; [|lia]. split; [done|]. exists s2. split; [done|]. split; [lia|]. split; [lia|].
        rewrite <- Hr. destruct (index_of c s2); cbn; lia.
Qed.

(** ** The answer of a search *)

(** The stab at [l] is the one of the type that contains [addr], and [r] is
    the last index before the next one. *)
Definition containing (stabs : list Stab) (type L R addr l r : Z) : Prop :=
  L <= l <= r /\ r <= R /\ (exists v, matches stabs type l v /\ v <= addr) /\ no_match stabs type (l + 1) (r + 1) /\
  (r = R \/ exists v, matches stabs type (r + 1) v /\ addr < v).

(** When there is such a stab, it is what the search brackets. *)
Lemma bracket_unique stabs type L R addr l r l' r' :
  ordered stabs type L R -> containing stabs type L R addr l r -> bracket stabs type L R addr l' r' -> l' = l /\ r' = r.
Proof.
  intros Hord (Hl & Hr & (v & Hv & Hva) & Hno & Hnext) [Hnone|l2 r2 w Hl2 Hr2 Hw Hwa Hno2 Hnext2|F w HF Hw Hwa Hno2].
  - exfalso. by apply (Hnone l v); [lia|].
  - assert (Hll : l2 = l).
    { destruct (Z.lt_trichotomy l l2) as [H|[H|H]]; [|done|].
      - destruct (decide (l2 <= r)); [exfalso; by apply (Hno l2 w); [lia|]|].
        destruct Hnext as [?|(x & Hx & Hax)]; [lia|]. pose proof (Hord (r + 1) l2 x w ltac:(lia) ltac:(lia) Hx Hw). lia.
      - destruct (decide (l <= r2)); [exfalso; by apply (Hno2 l v); [lia|]|].
        destruct Hnext2 as [?|(x & Hx & Hax)]; [lia|]. pose proof (Hord (r2 + 1) l x v ltac:(lia) ltac:(lia) Hx Hv). lia. }
    subst l2. split; [done|]. destruct (Z.lt_trichotomy r r2) as [H|[H|H]]; [exfalso|done|exfalso].
    + destruct Hnext as [?|(x & Hx & _)]; [lia|]. by apply (Hno2 (r + 1) x); [lia|].
    + destruct Hnext2 as [?|(x & Hx & _)]; [lia|]. by apply (Hno (r2 + 1) x); [lia|].
  - exfalso. destruct (decide (l < F)); [by apply (Hno2 l v); [lia|]|].
    pose proof (Hord F l w v ltac:(lia) ltac:(lia) Hw Hv). lia.
Qed.

(** The stabs the search of a type reads: sorted by address, none right after
    [addr] when one is there. *)
Definition searchable (stabs : list Stab) (type L R addr : Z) : Prop :=
  ordered stabs type L R /\ no_adjacent stabs type L R addr.

Lemma stab_binsearch_finds {S} stabs type L R addr l r (s : S) :
  0 <= L -> R < Z.of_nat (length stabs) < 2 ^ 30 -> 0 <= addr < 2 ^ 32 - 1 ->
  searchable stabs type L R addr -> containing stabs type L R addr l r ->
  stab_binsearch stabs L R type addr s = Ret (l, r) s.
Proof.
  intros HL HR Ha [Hord Hadj] Hc. pose proof Hc as (Hl & Hr & _).
  destruct (stab_binsearch_run stabs type L R addr s) as (l' & r' & -> & Hb); [lia|lia|lia|lia|done|done|].
  by destruct (bracket_unique _ _ _ _ _ _ _ _ _ Hord Hc Hb) as [-> ->].
Qed.

Lemma stab_at_lookup {S} stabs i x (Q : Stab -> S -> Prop) s :
  0 <= i -> stabs !! Z.to_nat i = Some x -> Q x s -> wp (stab_at stabs i) Q s.
Proof. intros Hi Hx HQ. unfold stab_at. replace (i <? 0) with false by lia. by rewrite Hx. Qed.

(** ** The loops behind the searches *)

(** A stab that names the source file of the lines behind it. *)
Definition names_file (x : Stab) : bool := (n_type x =? N_SOL) || ((n_type x =? N_SO) && negb (n_value x =? 0)).

Lemma names_file_cond x :
  negb (n_type x =? N_SOL) && (negb (n_type x =? N_SO) || (n_value x =? 0)) = negb (names_file x).
Proof. unfold names_file. by destruct (_ =? N_SOL), (_ =? N_SO), (_ =? 0). Qed.

Lemma find_file_run stabs lfile lline src x m :
  0 <= lfile <= src -> src <= lline -> stabs !! Z.to_nat src = Some x -> names_file x = true ->
  (forall i, src < i <= lline -> exists y, stabs !! Z.to_nat i = Some y /\ names_file y = false) ->
  find_file stabs lfile lline m = Ret src m.
Proof.
  intros Hf Hs Hx Hn Hno. apply wp_eq. unfold find_file.
  apply (wp_while (fun l t => t = m /\ src <= l <= lline) (fun l => Z.to_nat (l - lfile + 1))); [split; [done|lia]|lia|].
  intros l t [-> Hl]. replace (lfile <=? l) with true by lia. wp_go. unfold stab_at. replace (l <? 0) with false by lia.
  destruct (decide (l = src)) as [->|Hne].
  - rewrite Hx. cbn [deref]. wp_go. rewrite names_file_cond, Hn. cbn. done.
  - destruct (Hno l) as (y & Hy & Hny); [lia|]. rewrite Hy. cbn [deref]. wp_go.
    rewrite names_file_cond, Hny. cbn. split; [split; [done|lia]|lia].
Qed.

Lemma count_args_run stabs lfun narg m :
  0 <= lfun -> 0 <= narg ->
  (forall i, 0 <= i < narg -> exists x, stabs !! Z.to_nat (lfun + i + 1) = Some x /\ n_type x = N_PSYM) ->
  (exists x, stabs !! Z.to_nat (lfun + narg + 1) = Some x /\ n_type x <> N_PSYM) ->
  count_args stabs lfun m = Ret narg m.
Proof.
  intros Hf Hn Hargs (x & Hx & Ht). apply wp_eq. unfold count_args.
  pose proof (lookup_lt_Some _ _ _ Hx).
  apply (wp_while (fun i t => t = m /\ 0 <= i <= narg) (fun i => Z.to_nat (narg - i))); [split; [done|lia]|cbn; lia|].
  intros i t [-> Hi]. wp_go. unfold stab_at. replace (lfun + i + 1 <? 0) with false by lia.
  destruct (decide (i = narg)) as [->|Hne].
  - rewrite Hx. cbn [deref]. wp_go. replace (n_type x =? N_PSYM) with false by lia. done.
  - destruct (Hargs i) as (y & Hy & Hty); [lia|]. rewrite Hy. cbn [deref]. wp_go. rewrite Hty. cbn.
    split; [split; [done|lia]|lia].
Qed.

(** ** The tables of a compiled program *)

(** Where the stabs describe [addr]: its file's stab and the last stab of the
    file, its function's, its line's, and the stab that names the source file
    of the line. *)
Record place : Type := Place { p_file : Z; p_file_end : Z; p_fun : Z; p_fun_end : Z; p_line : Z; p_line_end : Z; p_src : Z }.

Section described.
Context (stabs : list Stab) (stabstr stabstr_end : Z).

Record described (m : mem) (addr : Z) (p : place) (fn line src : Stab) (name : list Z) (narg : Z) : Prop := Described {
  d_kernel : ULIM <= addr < 2 ^ 32 - 1;
  d_strings : stabstr < stabstr_end /\ m !! (stabstr_end - 1) = Some 0;
  d_length : Z.of_nat (length stabs) < 2 ^ 30;
  (* the file, which is not the first stab of the table *)
  d_file : 0 < p_file p /\ containing stabs N_SO 0 (Z.of_nat (length stabs) - 1) addr (p_file p) (p_file_end p);
  d_files : searchable stabs N_SO 0 (Z.of_nat (length stabs) - 1) addr;
  (* the function in the file *)
  d_fun : stabs !! Z.to_nat (p_fun p) = Some fn /\ 0 <= n_value fn /\
    containing stabs N_FUN (p_file p) (p_file_end p) addr (p_fun p) (p_fun_end p);
  d_funs : searchable stabs N_FUN (p_file p) (p_file_end p) addr;
  d_name : n_strx fn < stabstr_end - stabstr /\ cstr m (stabstr + n_strx fn) name;
  (* the line in the function, whose stabs have addresses relative to it *)
  d_line : stabs !! Z.to_nat (p_line p) = Some line /\
    containing stabs N_SLINE (p_fun p) (p_fun_end p) (addr - n_value fn) (p_line p) (p_line_end p);
  d_lines : searchable stabs N_SLINE (p_fun p) (p_fun_end p) (addr - n_value fn);
  (* the last stab before the line that names a file *)
  d_src : p_file p <= p_src p <= p_line p /\ stabs !! Z.to_nat (p_src p) = Some src /\ names_file src = true /\
    n_strx src < stabstr_end - stabstr;
  d_src_last : forall i, p_src p < i <= p_line p -> exists y, stabs !! Z.to_nat i = Some y /\ names_file y = false;
  (* the parameters, right behind the function *)
  d_args : 0 <= narg /\
    forall i, 0 <= i < narg -> exists x, stabs !! Z.to_nat (p_fun p + i + 1) = Some x /\ n_type x = N_PSYM;
  d_args_end : exists x, stabs !! Z.to_nat (p_fun p + narg + 1) = Some x /\ n_type x <> N_PSYM
}.
End described.

(** C20: In tables that describe [addr], [debuginfo_eip] returns 0 with the line of
    the code at [addr], the file that line is from, the function it is in,
    whose name ends before the colon of its string, the function's address
    and the number of its parameters. *)
Theorem debuginfo_eip_correct stabs stabstr stabstr_end unknown m addr p fn line src name narg :
  described stabs stabstr stabstr_end m addr p fn line src name narg ->
  debuginfo_eip stabs stabstr stabstr_end unknown addr m =
    Ret (0, MkEip (stabstr + n_strx src) (n_desc line) (stabstr + n_strx fn)
                  (Z.of_nat (default (length name) (index_of (chr ":") name))) (n_value fn) narg) m.
Proof.
  intros [Ha [Hstr H0] Hlen [Hf0 Hf] Hfs (Hfn & Hv & Hfun) Hfuns [Hstrx Hname] (Hln & Hline) Hlines
    (Hsrc & Hsx & Hnf & Hsstr) Hlast [Hn Hargs] Hend].
  pose proof Hf as (Hf1 & Hf2 & _). pose proof Hfun as (Hfun1 & Hfun2 & (v & Hmv & Hva) & _).
  pose proof Hline as (Hl1 & Hl2 & _).
  assert (v = n_value fn) as ->. { destruct Hmv as [_ (x & Hx & _ & <-)]. congruence. }
  apply wp_eq. unfold debuginfo_eip. cbv zeta.
  replace (addr <? ULIM) with false by lia. replace (stabstr_end <=? stabstr) with false by lia.
  wp_go. eapply wp_load8; [exact H0|]. wp_go. change (negb (0 =? 0)) with false. wp_go.
  eapply wp_run; [apply (stab_binsearch_finds stabs N_SO); [lia|lia|lia|done|done]|]. cbv beta iota.
  replace (p_file p =? 0) with false by lia. wp_go.
  eapply wp_run; [apply (stab_binsearch_finds stabs N_FUN); [lia|lia|lia|done|done]|]. cbv beta iota. wp_go.
  replace (p_fun p <=? p_fun_end p) with true by lia. wp_go. apply (stab_at_lookup _ _ fn); [lia|done|].
  replace (n_strx fn <? stabstr_end - stabstr) with true by lia. wp_go. cbv beta iota. wp_go.
  eapply wp_run; [apply (strfind_run _ _ _ (chr ":") Hname); by cbn|]. wp_go. rewrite u32_small by lia.
  eapply wp_run; [apply (stab_binsearch_finds stabs N_SLINE); [lia|lia|lia|done|done]|]. cbv beta iota. wp_go.
  replace (p_line_end p <? p_line p) with false by lia. wp_go. apply (stab_at_lookup _ _ line); [lia|done|]. wp_go.
  eapply wp_run; [apply (find_file_run stabs (p_file p) (p_line p) (p_src p) src); done || lia|]. cbv beta iota. wp_go.
  replace (p_file p <=? p_src p) with true by lia. wp_go. apply (stab_at_lookup _ _ src); [lia|done|]. wp_go.
  replace (n_strx src <? stabstr_end - stabstr) with true by lia.
  eapply wp_run; [apply (count_args_run stabs (p_fun p) narg); done || lia|]. wp_go.
  split; [|done]. do 2 f_equal. lia.
Qed.

(** ** A small kernel *)

Lemma no_match_sound stabs type lo hi :
  0 <= lo ->
  forallb (fun i => match stabs !! i with Some x => negb (n_type x =? type) | None => true end)
    (seq (Z.to_nat lo) (Z.to_nat (hi - lo))) = true ->
  no_match stabs type lo hi.
Proof.
  intros Hlo H i v Hi [_ (x & Hx & Ht & _)]. rewrite forallb_forall in H. specialize (H (Z.to_nat i)).
  rewrite Hx, Ht, Z.eqb_refl in H. discriminate H. apply in_seq. lia.
Qed.

(** [containing], by computation. *)
Definition containsb (stabs : list Stab) (type L R addr l r : Z) : bool :=
  (L <=? l) && (l <=? r) && (r <=? R) &&
  match stabs !! Z.to_nat l with Some x => (n_type x =? type) && (n_value x <=? addr) | None => false end &&
  forallb (fun i => match stabs !! i with Some x => negb (n_type x =? type) | None => true end)
    (seq (Z.to_nat (l + 1)) (Z.to_nat (r + 1 - (l + 1)))) &&
  ((r =? R) ||
   match stabs !! Z.to_nat (r + 1) with Some x => (n_type x =? type) && (addr <? n_value x) | None => false end).

Lemma containsb_sound stabs type L R addr l r :
  0 <= L -> containsb stabs type L R addr l r = true -> containing stabs type L R addr l r.
Proof.
  intros HL H. unfold containsb in H. rewrite !andb_true_iff in H. destruct H as [[[[[H1 H2] H3] H4] H5] H6].
  split; [lia|]. split; [lia|]. split; [|split].
  - destruct (stabs !! Z.to_nat l) as [x|] eqn:Hx; [|done]. exists (n_value x). split; [|lia].
    split; [lia|]. exists x. split_and!; [done|lia|done].
  - apply no_match_sound; [lia|done].
  - destruct (Z.eqb_spec r R); [by left|right]. destruct (stabs !! Z.to_nat (r + 1)) as [x|] eqn:Hx; [|done].
    exists (n_value x). split; [|cbn in H6; lia]. split; [lia|]. exists x. split_and!; [done|cbn in H6; lia|done].
Qed.

Module SmallKernel.
(** Two functions of one file, the first with a line from a header. *)
Definition stabs : list Stab :=
  [MkStab 0 0 0 0 0; MkStab 1 N_SO 0 0 0xf0100000; MkStab 10 N_FUN 0 0 0xf0100010; MkStab 19 N_PSYM 0 0 8;
   MkStab 0 N_SLINE 0 10 0; MkStab 15 N_SOL 0 0 0xf0100018; MkStab 0 N_SLINE 0 11 8; MkStab 10 N_FUN 0 0 0xf0100030;
   MkStab 1 N_SO 0 0 0xf0100040].
Definition strings : list Z := [0] ++ bytes "kern/a.c" ++ [0] ++ bytes "f:F1" ++ [0] ++ bytes "b.h" ++ [0] ++ bytes "x:p1" ++ [0].

Lemma debuginfo_eip_correct_witness :
  debuginfo_eip stabs 0x1000 0x1018 0 0xf010001a (mem_of 0x1000 strings) =
    Ret (0, MkEip 0x100f 11 0x100a 1 0xf0100010 1) (mem_of 0x1000 strings).
Proof.
  apply (debuginfo_eip_correct stabs 0x1000 0x1018 0 (mem_of 0x1000 strings) 0xf010001a (Place 1 7 2 6 6 6 5)
    (MkStab 10 N_FUN 0 0 0xf0100010) (MkStab 0 N_SLINE 0 11 8) (MkStab 15 N_SOL 0 0 0xf0100018) (bytes "f:F1") 1).
  assert (Hord : forall type L R addr, 0 <= L -> orderedb stabs type = true ->
    forallb (fun x => negb (n_value x =? addr)) stabs = true -> searchable stabs type L R addr).
  { intros type L R addr HL Ho Ha. split; [by apply orderedb_sound|by apply no_adjacent_sound]. }
  constructor; cbn [p_file p_file_end p_fun p_fun_end p_line p_line_end p_src].
  - done.
  - split; [done|vm_compute; reflexivity].
  - done.
  - split; [done|]. apply containsb_sound; [lia|vm_compute; reflexivity].
  - apply Hord; [lia|vm_compute; reflexivity..].
  - split; [done|]. split; [done|]. apply containsb_sound; [lia|vm_compute; reflexivity].
  - apply Hord; [lia|vm_compute; reflexivity..].
  - split; [done|]. split; [|by repeat constructor].
    cbn [app bytes]. repeat (apply array_cons; split; [vm_compute; reflexivity|]). apply array_nil.
  - split; [done|]. apply containsb_sound; [lia|vm_compute; reflexivity].
  - apply Hord; [lia|vm_compute; reflexivity..].
  - done.
  - intros i Hi. assert (i = 6) as -> by lia. by eexists.
  - split; [done|]. intros i Hi. assert (i = 0) as -> by lia. by eexists.
  - by eexists.
Defined.
End SmallKernel.
