(* ===== verification/Monitor.v ===== *)
(** * Monitor: kern/monitor.c, and the panic and start-up code of kern/init.c

    The kernel monitor: splitting a line into arguments, the table of commands
    and the commands themselves.  The state is the memory, where the line, the
    arguments and the string literals are, and the rest of the machine, reached
    through [cputchar].  Code that another component or the linker provides is a
    parameter: the addresses of literals and symbols, the register [ebp], the
    [cpuid] instruction and [vt_main]. *)

From S2P Require Import Prelude Layout Printfmt FormatSpec CString Printf Trap Kdebug.
Open Scope Z_scope.

Definition CMDBUF_SIZE : Z := 80.
Definition MAXARGS : Z := 16.
Definition WHITESPACE : list Z := [9; 13; 10; 32].

Section monitor.
Context {P : Type} (cputchar : Z -> M P ()).

Definition machine : Type := mem * P.
Definition in_mem {A} (m : M mem A) : M machine A := zoom fst (fun x s => (x, s.2)) m.
Definition in_dev {A} (m : M P A) : M machine A := zoom snd (fun x s => (s.1, x)) m.

Definition say (fmt : list Z) (args : list va) : M machine () := in_dev (cprintf cputchar fmt args);; mret tt.

(** The string at [p], to be printed with %s. *)
Definition string_at (p : Z) : M mem va :=
  fuel ← mem_fuel;
  '(_, l) ← while fuel (fun '(q, _) => c ← load8 q; mret (negb (c =? 0)))
              (fun '(q, l) => c ← load8 q; mret (q + 1, l ++ [c])) (p, []);
  mret (Str (Some l)).

(** ** The command interpreter *)

(** [*buf && strchr(WHITESPACE, *buf)], with the literal at [white]. *)
Definition at_white (white buf : Z) : M mem bool :=
  c ← load_char buf;
  if c =? 0 then mret false else p ← strchr white c; mret (negb (p =? 0)).
(** [*buf && !strchr(WHITESPACE, *buf)] *)
Definition at_word (white buf : Z) : M mem bool :=
  c ← load_char buf;
  if c =? 0 then mret false else p ← strchr white c; mret (p =? 0).

Definition gobble (white buf : Z) : M mem Z :=
  fuel ← mem_fuel; while fuel (at_white white) (fun b => store8 b 0;; mret (b + 1)) buf.
Definition scan_word (white buf : Z) : M mem Z :=
  fuel ← mem_fuel; while fuel (at_word white) (fun b => mret (b + 1)) buf.

(** The arguments of a line; [None] when there are too many. *)
Fixpoint parse_rec (fuel : nat) (white buf : Z) (argv : list Z) : M mem (option (list Z)) :=
  match fuel with
  | O => spin
  | S fuel' =>
      buf ← gobble white buf;
      c ← load_char buf;
      if c =? 0 then mret (Some argv)
      else if Z.of_nat (length argv) =? MAXARGS - 1 then mret None
      else
        next ← scan_word white buf;
        parse_rec fuel' white next (argv ++ [buf])
  end.

(** At most 16 rounds: each adds an argument. *)
Definition parse (white buf : Z) : M mem (option (list Z)) := parse_rec 17 white buf [].

Record Command : Type := MkCommand {
  c_name : Z;
  c_desc : Z;
  func : Z -> list Z -> option Trapframe -> M machine Z;
}.

(** The loop over the table, from entry [cmds]. *)
Fixpoint invoke (cmds : list Command) (argv : list Z) (argv0 : Z) (tf : option Trapframe) : M machine Z :=
  match cmds with
  | [] =>
      name ← in_mem (string_at argv0);
      say (bytes "Unknown command '%s'" ++ [10]) [name];; mret 0
  | c :: cmds' =>
      d ← in_mem (strcmp argv0 (c_name c));
      if d =? 0 then func c (Z.of_nat (length argv)) (argv ++ [0]) tf else invoke cmds' argv argv0 tf
  end.

Definition runcmd (white : Z) (commands : list Command) (buf : Z) (tf : option Trapframe) : M machine Z :=
  args ← in_mem (parse white buf);
  match args with
  | None => say (bytes "Too many arguments (max %d)" ++ [10]) [Word MAXARGS];; mret 0
  | Some [] => mret 0
  | Some ((argv0 :: _) as argv) => invoke commands argv argv0 tf
  end.

(** ** The commands *)

Fixpoint mon_help (commands : list (Z * Z)) (argc : Z) (argv : list Z) (tf : option Trapframe) : M machine Z :=
  match commands with
  | [] => mret 0
  | (name, desc) :: commands' =>
      n ← in_mem (string_at name);
      d ← in_mem (string_at desc);
      say (bytes "%s - %s" ++ [10]) [n; d];;
      mon_help commands' argc argv tf
  end.

(** The linker's symbols. *)
Context (start etext edata end_ : Z).

Definition mon_kerninfo (argc : Z) (argv : list Z) (tf : option Trapframe) : M machine Z :=
  say (bytes "Special kernel symbols:" ++ [10]) [];;
  say (bytes "  _start %08x (virt)  %08x (phys)" ++ [10]) [Word start; Word (u32 (start - KERNBASE))];;
  say (bytes "  etext  %08x (virt)  %08x (phys)" ++ [10]) [Word etext; Word (u32 (etext - KERNBASE))];;
  say (bytes "  edata  %08x (virt)  %08x (phys)" ++ [10]) [Word edata; Word (u32 (edata - KERNBASE))];;
  say (bytes "  end    %08x (virt)  %08x (phys)" ++ [10]) [Word end_; Word (u32 (end_ - KERNBASE))];;
  say (bytes "Kernel executable memory footprint: %dKB" ++ [10]) [Word (Z.quot (end_ - start + 1023) 1024)];;
  mret 0.

Definition load32 (a : Z) : M mem Z :=
  b0 ← load8 a; b1 ← load8 (a + 1); b2 ← load8 (a + 2); b3 ← load8 (a + 3);
  mret (b0 + 2 ^ 8 * b1 + 2 ^ 16 * b2 + 2 ^ 24 * b3).

(** The debugging tables, and [%ebp]. *)
Context (debuginfo : Z -> M mem (Z * Eipdebuginfo)) (read_ebp : Z).

Definition backtrace_name (info : Eipdebuginfo) : M machine () :=
  for_each (fun i => c ← in_mem (load_char (eip_fn_name info + i)); say (bytes "%c") [Word c])
    (Z.of_nat <$> seq 0 (Z.to_nat (eip_fn_namelen info))).

Definition backtrace_frame (index ebp : Z) : M machine () :=
  eip ← in_mem (load32 (ebp + 4));
  '(_, info) ← in_mem (debuginfo eip);
  a2 ← in_mem (load32 (ebp + 8)); a3 ← in_mem (load32 (ebp + 12));
  a4 ← in_mem (load32 (ebp + 16)); a5 ← in_mem (load32 (ebp + 20));
  say (bytes "%d: ebp %08x  eip %08x  args %08x %08x %08x %08x" ++ [10])
    [Word index; Word ebp; Word eip; Word a2; Word a3; Word a4; Word a5];;
  file ← in_mem (string_at (eip_file info));
  say (bytes "%s:%d: ") [file; Word (eip_line info)];;
  backtrace_name info;;
  say (bytes "+%x ") [Word (u32 (eip - eip_fn_addr info))];;
  say (bytes "(%d arg)" ++ [10]) [Word (eip_fn_narg info)].

(** A chain of frames that ends visits no address twice, so the size of the
    memory bounds its length. *)
Definition mon_backtrace (argc : Z) (argv : list Z) (tf : option Trapframe) : M machine Z :=
  say (bytes "Stack backtrace:" ++ [10]) [];;
  fuel ← in_mem mem_fuel;
  while fuel (fun '(_, ebp) => mret (negb (ebp =? 0)))
    (fun '(index, ebp) =>
       backtrace_frame index ebp;; next ← in_mem (load32 ebp); mret (index + 1, next)) (0, read_ebp);;
  mret 0.

Definition mon_exit (argc : Z) (argv : list Z) (tf : option Trapframe) : M machine Z :=
  match tf with
  | None => mret 0
  | Some tf => if tf_trapno tf =? T_BRKPT then mret (-1) else mret 0
  end.

Context (vt_main : M machine ()) (cpuid : Z -> Z * Z * Z * Z).

Definition mon_matrix (argc : Z) (argv : list Z) (tf : option Trapframe) : M machine Z := vt_main;; mret 0.

Definition mon_cpuid (argc : Z) (argv : list Z) (tf : option Trapframe) : M machine Z :=
  let '(oa, _, _, _) := cpuid 0xFeedCafe in
  say (bytes "%#x" ++ [10]) [Word oa];; mret 0.

(** The table: the addresses of the names and descriptions, in order. *)
Definition commands (strings : list (Z * Z)) : list Command :=
  zip_with (fun '(name, desc) f => MkCommand name desc f) strings
    [mon_help strings; mon_kerninfo; mon_backtrace; mon_exit; mon_matrix; mon_cpuid].

(** ** The monitor, panics and start-up *)

Context (readline : list Z -> M machine Z) (white : Z) (strings : list (Z * Z)).

(** [rounds] bounds the number of lines read; [None]: [tf] is NULL. *)
Definition monitor (rounds : nat) (at_ : Z) (tf : option Trapframe) : M machine () :=
  say (bytes "Welcome to the JOS kernel monitor!" ++ [10]) [];;
  say (bytes "Type 'help' for a list of commands." ++ [10]) [];;
  match tf with Some f => in_dev (print_trapframe cputchar at_ f) | None => mret tt end;;
  while rounds (fun go => mret go)
    (fun _ =>
       buf ← readline (bytes "K> ");
       if buf =? 0 then mret true
       else r ← runcmd white (commands strings) buf tf; mret (negb (r <? 0))) true;;
  mret tt.
End monitor.

(** [_warn] and [_panic]: [panicstr] says whether the kernel has panicked
    before; after printing, [_panic] stays in the monitor for ever. *)
Section init.
Context {P : Type} (cputchar : Z -> M P ()).

Definition _warn (file : list Z) (line : Z) (fmt : list Z) (args : list va) : M P () :=
  cprintf cputchar (bytes "kernel warning at %s:%d: ") [Str (Some file); Word line];;
  vcprintf cputchar fmt args;;
  cprintf cputchar [10] [];;
  mret tt.

Definition _panic (panicstr : bool) (file : list Z) (line : Z) (fmt : list Z) (args : list va) : M P () :=
  when (negb panicstr)
    (cprintf cputchar (bytes "kernel panic at %s:%d: ") [Str (Some file); Word line];;
     vcprintf cputchar fmt args;;
     cprintf cputchar [10] [];; mret tt).
End init.
