(* ===== verification/MonitorSpec.v ===== *)
(** * MonitorSpec: what the command interpreter of Monitor.v computes

    The words of a line, as a function on lists, and the proof that [runcmd]
    splits the line in place into exactly those words and calls the command the
    first one names. *)

From S2P Require Import Prelude Layout Printfmt FormatSpec CString Printf Trap Kdebug Monitor.
Open Scope Z_scope.

Definition whiteb (c : Z) : bool := existsb (Z.eqb c) WHITESPACE.

(** [l] split at its first character that does not satisfy [p]. *)
Fixpoint span (p : Z -> bool) (l : list Z) : list Z * list Z :=
  match l with
  | c :: l' => if p c then (c :: (span p l').1, (span p l').2) else ([], l)
  | [] => ([], [])
  end.

(** The words of [l]; [w] is the word being read. *)
Fixpoint words_from (w : list Z) (l : list Z) : list (list Z) :=
  match l with
  | [] => if w is [] then [] else [w]
  | c :: l' =>
      if whiteb c then (if w is [] then [] else [w]) ++ words_from [] l'
      else words_from (w ++ [c]) l'
  end.
Definition words (l : list Z) : list (list Z) := words_from [] l.

Example words_ex : words (bytes "  help  me ") = [bytes "help"; bytes "me"].
Proof. vm_compute. reflexivity. Qed.

(** ** Lemmas on words *)

Lemma span_app p l : (span p l).1 ++ (span p l).2 = l.
Proof. induction l as [|c l IH]; [done|]. cbn [span]. destruct (p c); [|done]. cbn [fst snd app]. by rewrite IH. Qed.

Lemma span_all p l : Forall (fun c => p c = true) (span p l).1.
Proof. induction l as [|c l IH]; [constructor|]. cbn [span]. destruct (p c) eqn:E; [by constructor|constructor]. Qed.

Lemma span_stop p l c r : (span p l).2 = c :: r -> p c = false.
Proof. induction l as [|x l IH]; [done|]. cbn [span]. destruct (p x) eqn:E; cbn [snd]; [done|]. by intros [= -> ->]. Qed.

Lemma words_skip l : words l = words (span whiteb l).2.
Proof.
  induction l as [|c l IH]; [done|]. cbn [span]. unfold words in *. cbn [words_from].
  destruct (whiteb c) eqn:E; cbn [app snd]; [done|]. cbn [words_from]. by rewrite E.
Qed.

Lemma words_word w c l :
  whiteb c = false ->
  words_from w (c :: l) =
    (w ++ (span (fun c => negb (whiteb c)) (c :: l)).1) :: words (span (fun c => negb (whiteb c)) (c :: l)).2.
Proof.
  intros Hc. revert w c Hc. induction l as [|d l IH]; intros w c Hc; cbn [words_from span]; rewrite Hc; cbn [negb fst snd].
  - destruct (w ++ [c]) eqn:E; [by apply app_nil in E as [_ [=]]|]. by rewrite <- E.
  - destruct (whiteb d) eqn:Ed; cbn [negb fst snd].
    + destruct (w ++ [c]) eqn:E; [by apply app_nil in E as [_ [=]]|]. rewrite <- E. cbn [words_from app].
      unfold words. cbn [words_from]. by rewrite Ed.
    + specialize (IH (w ++ [c]) d Ed). cbn [words_from span] in IH. rewrite Ed in IH. cbn [negb fst snd] in IH.
      rewrite IH, <- app_assoc. done.
Qed.

(** ** Memory *)

(** The memories agree outside [b..e). *)
Definition agree (b e : Z) (m m' : mem) : Prop := forall a, a < b \/ e <= a -> m' !! a = m !! a.

Lemma agree_refl b e m : agree b e m m.
Proof. by intros a _. Qed.
Lemma agree_trans b e m1 m2 m3 : agree b e m1 m2 -> agree b e m2 m3 -> agree b e m1 m3.
Proof. intros H1 H2 a Ha. by rewrite H2, H1. Qed.
Lemma agree_weaken b e b' e' m m' : agree b' e' m m' -> b <= b' -> e' <= e -> agree b e m m'.
Proof. intros H Hb He a Ha. apply H. lia. Qed.

Lemma agree_array b e m m' p l :
  agree b e m m' -> p + Z.of_nat (length l) <= b \/ e <= p -> array m p l -> array m' p l.
Proof. intros H Hp Ha i c Hc. pose proof (lookup_lt_Some _ _ _ Hc). rewrite H by lia. by apply Ha. Qed.

(** The string [t] at [q] lies outside [b..e). *)
Definition apart (b e q : Z) (t : list Z) : Prop := q + Z.of_nat (length t) < b \/ e <= q.

Lemma agree_cstr b e m m' q t : agree b e m m' -> apart b e q t -> cstr m q t -> cstr m' q t.
Proof.
  intros H Ha [Hc Ht]. split; [|done]. eapply agree_array; [exact H| |exact Hc].
  unfold apart in Ha. rewrite length_app. simpl. lia.
Qed.

Lemma cstr_app m p w l : cstr m p (w ++ l) -> array m p w /\ cstr m (p + Z.of_nat (length w)) l.
Proof.
  intros [Ha Hf]. rewrite <- app_assoc in Ha. apply array_app in Ha as [Hw Hl].
  apply Forall_app in Hf as [_ Hf]. split; [done|by split].
Qed.

Section parse.
Context (white : Z) (Hwhite : 0 < white).

Lemma white_strchr m c :
  cstr m white WHITESPACE -> 0 < c < 256 ->
  exists p, strchr white (i8 c) m = Ret p m /\ (p =? 0) = negb (whiteb c).
Proof.
  intros Hw Hc. eexists. split; [by apply (strchr_run m white WHITESPACE)|]. unfold whiteb, WHITESPACE. cbn [index_of existsb]. cbv beta.
  rewrite (Z.eqb_sym 9), (Z.eqb_sym 13), (Z.eqb_sym 10), (Z.eqb_sym 32).
  repeat (match goal with |- context [c =? ?x] => destruct (c =? x) end; cbn [from_option orb negb fmap option_fmap option_map]; [apply Z.eqb_neq; lia|]). done.
Qed.

Lemma at_white_ok m b l (Q : bool -> mem -> Prop) :
  cstr m white WHITESPACE -> cstr m b l ->
  Q (match l with [] => false | c :: _ => whiteb c end) m -> wp (at_white white b) Q m.
Proof.
  intros Hw Hb HQ. unfold at_white. wp_step. destruct (cstr_cases _ _ _ Hb) as [[-> H0]|(c & r & -> & H0 & Hc & _)];
    (eapply wp_load_char; [exact H0|]); rewrite i8_zero by lia; [done|].
  replace (c =? 0) with false by lia. destruct (white_strchr m c Hw Hc) as (p & Hp & E).
  wp_step. apply wp_iff. exists p, m. split; [done|]. wp_step. rewrite E, negb_involutive. done.
Qed.

Lemma at_word_ok m b l (Q : bool -> mem -> Prop) :
  cstr m white WHITESPACE -> cstr m b l ->
  Q (match l with [] => false | c :: _ => negb (whiteb c) end) m -> wp (at_word white b) Q m.
Proof.
  intros Hw Hb HQ. unfold at_word. wp_step. destruct (cstr_cases _ _ _ Hb) as [[-> H0]|(c & r & -> & H0 & Hc & _)];
    (eapply wp_load_char; [exact H0|]); rewrite i8_zero by lia; [done|].
  replace (c =? 0) with false by lia. destruct (white_strchr m c Hw Hc) as (p & Hp & E).
  wp_step. apply wp_iff. exists p, m. split; [done|]. wp_step. rewrite E. done.
Qed.

(** Gobbling overwrites the blanks with NULs. *)
Lemma gobble_ok m b l (Q : Z -> mem -> Prop) :
  cstr m white WHITESPACE -> cstr m b l -> apart b (b + Z.of_nat (length l)) white WHITESPACE ->
  let n := Z.of_nat (length (span whiteb l).1) in
  (forall m', agree b (b + n) m m' -> cstr m' (b + n) (span whiteb l).2 ->
     (0 < n -> m' !! b = Some 0) -> Q (b + n) m') ->
  wp (gobble white b) Q m.
Proof.
  intros Hw Hb Hap n HQ. unfold gobble, mem_fuel. do 2 wp_step.
  apply (wp_while (fun b' m' => exists r, cstr m' b' r /\ cstr m' white WHITESPACE /\ b <= b' /\ b' + Z.of_nat (length r) = b + Z.of_nat (length l) /\
      b' + Z.of_nat (length (span whiteb r).1) = b + n /\ (span whiteb r).2 = (span whiteb l).2 /\ agree b b' m m' /\
      (b < b' -> m' !! b = Some 0)) (fun b' => Z.to_nat (b + Z.of_nat (length l) - b'))).
  { exists l. split_and!; try done; lia. } { apply cstr_size in Hb. lia. }
  intros b' m' (r & Hr & Hw' & Hbb & Hlen & Hn & Hrest & Hag & Hz).
  apply at_white_ok with r; [done|done|].
  destruct (cstr_cases _ _ _ Hr) as [[-> H0]|(c & r' & -> & H0 & Hc & Hr')].
  { cbn [span fst snd length] in *. replace b' with (b + n) in * by lia. apply HQ; [done|by rewrite <- Hrest|]. intros. apply Hz. lia. }
  cbn [span length] in *. destruct (whiteb c); cbn [fst snd length] in *.
  2: { replace b' with (b + n) in * by lia. apply HQ; [done|by rewrite <- Hrest|]. intros. apply Hz. lia. }
  wp_step. apply wp_store8; [by eexists|]. wp_step. split; [|lia]. exists r'. change (u8 0) with 0.
  assert (Hag1 : agree b' (b' + 1) m' (<[b' := 0]> m')) by (intros a Ha; rewrite lookup_insert_ne; [done|lia]).
  split; [|split; [|split; [lia|split; [lia|split; [lia|split; [done|split]]]]]].
  - eapply agree_cstr; [exact Hag1|right; lia|exact Hr'].
  - eapply agree_cstr; [exact Hag1| |exact Hw']. unfold apart in *. lia.
  - eapply agree_trans; [eapply agree_weaken; [exact Hag|lia|lia]|]. eapply agree_weaken; [exact Hag1|lia|lia].
  - intros _. destruct (decide (b = b')) as [->|]; [apply lookup_insert_eq|]. rewrite lookup_insert_ne by done. apply Hz. lia.
Qed.

Lemma scan_word_ok m b l (Q : Z -> mem -> Prop) :
  cstr m white WHITESPACE -> cstr m b l ->
  Q (b + Z.of_nat (length (span (fun c => negb (whiteb c)) l).1)) m -> wp (scan_word white b) Q m.
Proof.
  intros Hw Hb HQ. unfold scan_word, mem_fuel. do 2 wp_step. set (p := fun c => negb (whiteb c)) in *.
  apply (wp_while (fun b' m' => m' = m /\ exists r, cstr m b' r /\ b' + Z.of_nat (length r) = b + Z.of_nat (length l) /\
      b' + Z.of_nat (length (span p r).1) = b + Z.of_nat (length (span p l).1)) (fun b' => Z.to_nat (b + Z.of_nat (length l) - b'))).
  { split; [done|]. exists l. split_and!; done. } { apply cstr_size in Hb. lia. }
  intros b' m' (-> & r & Hr & Hlen & Hn). apply at_word_ok with r; [done|done|].
  destruct (cstr_cases _ _ _ Hr) as [[-> H0]|(c & r' & -> & H0 & Hc & Hr')]; cbn [span] in Hn.
  { cbn [fst length] in Hn. by replace b' with (b + Z.of_nat (length (span p l).1)) by lia. }
  unfold p at 1 in Hn. cbn [length] in Hlen. destruct (negb (whiteb c)); cbn [fst length] in Hn.
  - wp_step. split; [|lia]. split; [done|]. exists r'. split_and!; [done|lia|lia].
  - by replace b' with (b + Z.of_nat (length (span p l).1)) by lia.
Qed.

(** An argument found so far: the word [w] at [p], before [b], where what is
    left of the line, [l], begins.  Its NUL is still missing if it ends at
    [b]. *)
Definition stops (l : list Z) : Prop := match l with [] => True | c :: _ => whiteb c = true end.
Definition arg_ok (b : Z) (l : list Z) (m : mem) (p : Z) (w : list Z) : Prop :=
  array m p w /\ Forall (fun c => 0 < c < 256) w /\ p + Z.of_nat (length w) <= b /\
  (p + Z.of_nat (length w) < b /\ m !! (p + Z.of_nat (length w)) = Some 0 \/ p + Z.of_nat (length w) = b /\ stops l).

Lemma arg_ok_gobbled b l m m' n p w :
  arg_ok b l m p w -> n = Z.of_nat (length (span whiteb l).1) -> agree b (b + n) m m' ->
  cstr m' (b + n) (span whiteb l).2 -> (0 < n -> m' !! b = Some 0) -> cstr m' p w.
Proof.
  intros (Ha & Hf & Hle & Hend) Hn Hag Hc Hz. split; [|done]. apply array_app. split.
  { eapply agree_array; [exact Hag|lia|done]. }
  apply array_cons. split; [|apply array_nil]. destruct Hend as [[Hlt Hend]|[Hend Hs]].
  - rewrite Hag by lia. done.
  - rewrite Hend. destruct (decide (0 < n)) as [|]; [by apply Hz|]. destruct l as [|c l].
    + cbn in Hn, Hc. subst n. rewrite Z.add_0_r in Hc. by apply cstr_cases in Hc as [[_ ?]|(? & ? & [=] & _)].
    + cbn [stops] in Hs. cbn [span] in Hn. rewrite Hs in Hn. cbn [fst length] in Hn. lia.
Qed.

Lemma parse_rec_run fuel : forall m b l argv ws,
  cstr m white WHITESPACE -> cstr m b l -> apart b (b + Z.of_nat (length l)) white WHITESPACE ->
  Forall2 (arg_ok b l m) argv ws -> (length ws <= 15 -> 16 <= length ws + fuel -> exists m',
  agree b (b + Z.of_nat (length l)) m m' /\
  if decide (length (ws ++ words l) <= 15)
  then exists argv', parse_rec fuel white b argv m = Ret (Some argv') m' /\ Forall2 (cstr m') argv' (ws ++ words l)
  else parse_rec fuel white b argv m = Ret None m')%nat.
Proof.
  induction fuel as [|fuel IH]; intros m b l argv ws Hlit Hb Hap Hargs Hlen Hfuel; [lia|].
  pose proof (Forall2_length _ _ _ Hargs) as Hal.
  destruct (proj1 (wp_iff (gobble white b) (fun v m' => v = b + Z.of_nat (length (span whiteb l).1) /\
    agree b v m m' /\ cstr m' v (span whiteb l).2 /\ (b < v -> m' !! b = Some 0)) m)) as (b1 & m1 & Hg & Hb1 & Hag & Hc & Hz).
  { eapply gobble_ok; [done..|]. intros m' H1 H2 H3. split; [done|]. split; [done|]. split; [done|]. intros. apply H3. lia. }
  pose proof (span_app whiteb l) as Hspan. apply (f_equal length) in Hspan. rewrite length_app in Hspan.
  set (n := Z.of_nat (length (span whiteb l).1)) in *.
  assert (Hargs1 : Forall2 (fun p w => cstr m1 p w /\ p + Z.of_nat (length w) <= b) argv ws).
  { eapply Forall2_impl; [exact Hargs|]. intros p w Hpw. split; [|apply Hpw]. subst b1.
    eapply arg_ok_gobbled; [done..|]. intros. apply Hz. lia. }
  cbn [parse_rec]. rewrite (bind_eq _ _ _ _ _ Hg). rewrite words_skip.
  destruct (span whiteb l).2 as [|c r] eqn:Er.
  - exists m1. split; [eapply agree_weaken; [exact Hag|lia|lia]|]. rewrite app_nil_r, decide_True by done.
    exists argv. split; [|eapply Forall2_impl; [exact Hargs1|]; by intros p w []].
    destruct (cstr_cases _ _ _ Hc) as [[_ H0]|(? & ? & [=] & _)].
    rewrite (bind_eq _ _ _ 0 m1); [done|]. apply wp_eq. eapply wp_load_char; [exact H0|done].
  - pose proof (span_stop _ _ _ _ Er) as Hcw. unfold words. rewrite (words_word [] c r Hcw). cbn [app].
    destruct (cstr_cases _ _ _ Hc) as [[[=] _]|(c' & r' & [= <- <-] & H0 & Hcr & _)].
    rewrite (bind_eq _ _ _ (i8 c) m1) by (apply wp_eq; by eapply wp_load_char).
    rewrite i8_zero by lia. replace (c =? 0) with false by lia. rewrite Hal. change (MAXARGS - 1) with 15.
    destruct (Z.eqb_spec (Z.of_nat (length ws)) 15) as [E15|E15].
    { exists m1. split; [eapply agree_weaken; [exact Hag|lia|lia]|]. rewrite decide_False; [done|].
      rewrite length_app. cbn [length]. lia. }
    set (nw := fun c => negb (whiteb c)) in *. pose proof (span_app nw (c :: r)) as Hsp.
    pose proof (span_stop nw (c :: r)) as Hst. set (w := (span nw (c :: r)).1) in *. set (l2 := (span nw (c :: r)).2) in *.
    assert (Hlit1 : cstr m1 white WHITESPACE).
    { eapply agree_cstr; [exact Hag| |exact Hlit]. unfold apart in *. lia. }
    rewrite (bind_eq _ _ _ (b1 + Z.of_nat (length w)) m1) by (apply wp_eq; by apply scan_word_ok with (l := c :: r)).
    rewrite <- Hsp in Hc. pose proof (proj2 (proj1 (Forall_app _ _ _) (proj2 Hc))) as Hf2.
    pose proof (proj1 (proj1 (Forall_app _ _ _) (proj2 Hc))) as Hf1. apply cstr_app in Hc as [Hw Hl2].
    pose proof (f_equal length Hsp) as Hlsp. rewrite length_app in Hlsp. cbn [length] in Hlsp, Hspan.
    assert (Hwpos : (0 < length w)%nat).
    { unfold w. cbn [span]. unfold nw at 1. rewrite Hcw. cbn [negb fst length]. lia. }
    destruct (IH m1 (b1 + Z.of_nat (length w)) l2 (argv ++ [b1]) (ws ++ [w])) as (m2 & Hag2 & Hres).
    + done.
    + done.
    + unfold apart in *. lia.
    + apply Forall2_app.
      * eapply Forall2_impl; [exact Hargs1|]. intros p v [[Hpv Hv] Hle]. apply array_app in Hpv as [Hpv Hnul].
        apply array_cons in Hnul as [Hnul _]. split; [done|]. split; [done|]. split; [lia|]. left. split; [lia|done].
      * constructor; [|constructor]. split; [done|]. split; [done|]. split; [lia|]. right. split; [done|].
        unfold stops. destruct l2 as [|d l3] eqn:E2; [done|]. specialize (Hst d l3 eq_refl). unfold nw in Hst.
        by destruct (whiteb d).
    + rewrite length_app. cbn [length]. lia.
    + rewrite length_app. cbn [length]. lia.
    + exists m2. rewrite <- !app_assoc in Hres. split; [|exact Hres].
      eapply agree_trans; [eapply agree_weaken; [exact Hag|lia|lia]|]. eapply agree_weaken; [exact Hag2|lia|lia].
Qed.
End parse.

(** ** The interpreter *)

Lemma string_at_run m p s : cstr m p s -> string_at p m = Ret (Str (Some s)) m.
Proof.
  intros Hs. apply wp_eq. unfold string_at, mem_fuel. do 3 wp_step.
  apply (wp_while (fun '(q, l) m' => m' = m /\ exists r, cstr m q r /\ l ++ r = s) (fun '(q, l) => length s - length l)%nat).
  { split; [done|]. by exists s. } { apply cstr_size in Hs. lia. }
  intros [q l] m' (-> & r & Hr & Hl). wp_step.
  destruct (cstr_cases _ _ _ Hr) as [[-> H0]|(c & r' & -> & H0 & Hc & Hr')]; (eapply wp_load8; [exact H0|]); wp_step.
  - rewrite app_nil_r in Hl. subst l. cbn [Z.eqb negb]. by wp_step.
  - replace (c =? 0) with false by lia. cbn [negb]. wp_step. eapply wp_load8; [exact H0|]. wp_step. subst s.
    rewrite !length_app. cbn [length]. split; [|lia]. split; [done|]. exists r'. split; [done|]. by rewrite <- app_assoc.
Qed.

Section interpreter.
Context {P : Type} (cputchar : Z -> M P ()).

(** The first command called [w]; [texts] are the names in the table. *)
Fixpoint command_named (w : list Z) (texts : list (list Z)) (cmds : list (Command (P := P))) : option Command :=
  match texts, cmds with
  | t :: texts, c :: cmds => if decide (t = w) then Some c else command_named w texts cmds
  | _, _ => None
  end.

Lemma in_mem_eq {A} (f : M mem A) a m m' (d : P) : f m = Ret a m' -> in_mem f (m, d) = Ret a (m', d).
Proof. intros H. unfold in_mem, zoom. cbn [fst snd]. by rewrite H. Qed.

Lemma invoke_run cmds texts argv argv0 w tf m d :
  cstr m argv0 w -> Forall2 (fun c t => cstr m (c_name c) t) cmds texts ->
  invoke cputchar cmds argv argv0 tf (m, d) =
  match command_named w texts cmds with
  | Some c => func c (Z.of_nat (length argv)) (argv ++ [0]) tf (m, d)
  | None => (say cputchar (bytes "Unknown command '%s'" ++ [10]) [Str (Some w)];; mret 0) (m, d)
  end.
Proof.
  intros Hw Hcmds. induction Hcmds as [|c t cmds texts Ht Hcmds IH]; cbn [invoke command_named].
  - by rewrite (bind_eq _ _ _ _ _ (in_mem_eq _ _ _ _ d (string_at_run m argv0 w Hw))).
  - destruct (strcmp_run m argv0 (c_name c) w t Hw Ht) as [E Hz].
    rewrite (bind_eq _ _ _ _ _ (in_mem_eq _ _ _ _ d E)).
    destruct (decide (t = w)) as [->|Hne].
    + by rewrite (proj2 Hz eq_refl).
    + destruct (Z.eqb_spec (first_diff w t) 0) as [E0|]; [|exact IH]. apply Hz in E0. congruence.
Qed.

(** C18: [runcmd] splits the line, in place, into its words; at most 15 of them,
    or it prints a message.  The first word selects the command, which gets the
    words as C strings, ended by a NULL; memory outside the line does not
    change. *)
Theorem runcmd_correct white cmds texts buf line tf m d :
  0 < white -> cstr m white WHITESPACE -> cstr m buf line ->
  Forall2 (fun c t => cstr m (c_name c) t) cmds texts ->
  apart buf (buf + Z.of_nat (length line)) white WHITESPACE ->
  Forall2 (fun c t => apart buf (buf + Z.of_nat (length line)) (c_name c) t) cmds texts ->
  exists m' argv, agree buf (buf + Z.of_nat (length line)) m m' /\
    ((length (words line) <= 15)%nat -> Forall2 (cstr m') argv (words line)) /\
    runcmd cputchar white cmds buf tf (m, d) =
    if decide (length (words line) <= 15)%nat then
      match words line with
      | [] => Ret 0 (m', d)
      | w :: _ =>
          match command_named w texts cmds with
          | Some c => func c (Z.of_nat (length argv)) (argv ++ [0]) tf (m', d)
          | None => (say cputchar (bytes "Unknown command '%s'" ++ [10]) [Str (Some w)];; mret 0) (m', d)
          end
      end
    else (say cputchar (bytes "Too many arguments (max %d)" ++ [10]) [Word 16];; mret 0) (m', d).
Proof.
  intros Hpos Hlit Hline Hcmds Hap Haps.
  destruct (parse_rec_run white Hpos 17 m buf line [] []) as (m' & Hag & Hp); [done|done|done|constructor|simpl; lia|simpl; lia|].
  cbn [app] in Hp. exists m'. unfold runcmd, parse. destruct (decide (length (words line) <= 15)%nat) as [Hle|Hgt].
  - destruct Hp as (argv & Hp & Hargv). exists argv. split; [done|]. split; [done|].
    rewrite (bind_eq _ _ _ _ _ (in_mem_eq _ _ _ _ d Hp)). destruct Hargv as [|p w argv ws Hpw Hargv]; [done|].
    apply invoke_run; [done|]. clear -Hcmds Haps Hag. revert Haps. induction Hcmds as [|c t cmds texts Ht Hc IH]; intros Haps; [constructor|].
    apply Forall2_cons in Haps as [Ha Haps]. constructor; [|by apply IH]. by eapply agree_cstr.
  - exists []. split; [done|]. split; [done|]. by rewrite (bind_eq _ _ _ _ _ (in_mem_eq _ _ _ _ d Hp)).
Qed.
End interpreter.

(** The line "exit now " at 16, the blanks at 64 and the name "exit" at 80. *)
Definition demo_line_mem : mem :=
  write (write (mem_of 16 (bytes "exit now " ++ [0])) 64 (WHITESPACE ++ [0])) 80 (bytes "exit" ++ [0]).

Lemma array_check m p l : forallb (fun i => bool_decide (m !! (p + Z.of_nat i) = l !! i)) (seq 0 (length l)) = true -> array m p l.
Proof.
  rewrite forallb_forall. intros H i c Hi. specialize (H i). rewrite Hi in H. apply bool_decide_eq_true in H; [done|].
  apply in_seq. apply lookup_lt_Some in Hi. lia.
Qed.

Lemma cstr_check m p s :
  forallb (fun i => bool_decide (m !! (p + Z.of_nat i) = (s ++ [0]) !! i)) (seq 0 (length (s ++ [0]))) = true ->
  forallb (fun c => (0 <? c) && (c <? 256)) s = true -> cstr m p s.
Proof.
  intros Ha Hs. split; [by apply array_check|]. apply Forall_forall. intros c Hc. rewrite forallb_forall in Hs.
  apply list_elem_of_In in Hc. specialize (Hs c Hc). lia.
Qed.

Lemma runcmd_correct_witness :
  exists m' argv, agree 16 25 demo_line_mem m' /\
    ((2 <= 15)%nat -> Forall2 (cstr m') argv [bytes "exit"; bytes "now"]) /\
    runcmd emit 64 [MkCommand 80 0 mon_exit] 16 None (demo_line_mem, []) = Ret 0 (m', []).
Proof.
  apply (runcmd_correct emit 64 [MkCommand 80 0 mon_exit] [bytes "exit"] 16 (bytes "exit now ") None demo_line_mem []).
  - lia.
  - apply cstr_check; vm_compute; reflexivity.
  - apply cstr_check; vm_compute; reflexivity.
  - constructor; [|constructor]. apply cstr_check; vm_compute; reflexivity.
  - right. cbn. lia.
  - constructor; [|constructor]. right. cbn. lia.
Defined.
