(* ===== verification/Vmcs.v ===== *)
(** * Vmcs: the constants of inc/hvm/constants.h

    The numbers by which the VMX code names the fields of the virtual-machine
    control structure, the reasons of VM exits, the model-specific registers and
    the bits it tests, as the header has them, and a check of the field numbers
    against the format of Intel's encoding: bit 0 selects the high half of a
    64-bit field, bits 10-11 the kind of field and bits 13-14 its width. *)

From S2P Require Import Prelude.
Open Scope Z_scope.

(** 16-Bit Guest-State Fields *)
Definition VMCS_GUEST_ES_SEL : Z := 0x800.
Definition VMCS_GUEST_CS_SEL : Z := 0x802.
Definition VMCS_GUEST_SS_SEL : Z := 0x804.
Definition VMCS_GUEST_DS_SEL : Z := 0x806.
Definition VMCS_GUEST_FS_SEL : Z := 0x808.
Definition VMCS_GUEST_GS_SEL : Z := 0x80a.
Definition VMCS_GUEST_LDTR_SEL : Z := 0x80c.
Definition VMCS_GUEST_TR_SEL : Z := 0x80e.

(** 16-Bit Host-State Fields *)
Definition VMCS_HOST_ES_SEL : Z := 0xc00.
Definition VMCS_HOST_CS_SEL : Z := 0xc02.
Definition VMCS_HOST_SS_SEL : Z := 0xc04.
Definition VMCS_HOST_DS_SEL : Z := 0xc06.
Definition VMCS_HOST_FS_SEL : Z := 0xc08.
Definition VMCS_HOST_GS_SEL : Z := 0xc0a.
Definition VMCS_HOST_TR_SEL : Z := 0xc0c.

(** 64-Bit Control Fields *)
Definition VMCS_ADDR_IOBMP_A : Z := 0x2000.
Definition VMCS_ADDR_IOBMP_A_HIGH : Z := 0x2001.
Definition VMCS_ADDR_IOBMP_B : Z := 0x2002.
Definition VMCS_ADDR_IOBMP_B_HIGH : Z := 0x2003.
Definition VMCS_ADDR_MSRBMP : Z := 0x2004.
Definition VMCS_ADDR_MSRBMP_HIGH : Z := 0x2005.
Definition VMCS_VMEXIT_MSRSTORE_ADDR : Z := 0x2006.
Definition VMCS_VMEXIT_MSRSTORE_ADDR_HIGH : Z := 0x2007.
Definition VMCS_VMEXIT_MSRLOAD_ADDR : Z := 0x2008.
Definition VMCS_VMEXIT_MSRLOAD_ADDR_HIGH : Z := 0x2009.
Definition VMCS_VMENTRY_MSRLOAD_ADDR : Z := 0x200a.
Definition VMCS_VMENTRY_MSRLOAD_ADDR_HIGH : Z := 0x200b.
Definition VMCS_EXEC_VMCS_POINTER : Z := 0x200c.
Definition VMCS_EXEC_VMCS_POINTER_HIGH : Z := 0x200d.
Definition VMCS_TSC_OFFSET : Z := 0x2010.
Definition VMCS_TSC_OFFSET_HIGH : Z := 0x2011.
Definition VMCS_VIRT_APIC_PAGE_ADDR : Z := 0x2012.
Definition VMCS_VIRT_APIC_PAGE_ADDR_HIGH : Z := 0x2013.
Definition VMCS_EPT_POINTER : Z := 0x201a.
Definition VMCS_EPT_POINTER_HIGH : Z := 0x201b.

(** 65-Bit Read-Only Data Field *)
Definition VMCS_GUEST_PHYSICAL_ADDR : Z := 0x2400.
Definition VMCS_GUEST_PHYSICAL_ADDR_HIGH : Z := 0x2401.

(** 64-Bit Guest-State Fields *)
Definition VMCS_VMCS_LINK_POINTER : Z := 0x2800.
Definition VMCS_VMCS_LINK_POINTER_HIGH : Z := 0x2801.
Definition VMCS_GUEST_IA32_DEBUGCTL : Z := 0x2802.
Definition VMCS_GUEST_IA32_DEBUGCTL_HIGH : Z := 0x2803.

(** 32-Bit Control Fields *)
Definition VMCS_PIN_BASED_VMEXEC_CTL : Z := 0x4000.
Definition VMCS_PROC_BASED_VMEXEC_CTL : Z := 0x4002.
Definition VMCS_EXCEPTION_BMP : Z := 0x4004.
Definition VMCS_PAGEFAULT_ERRCODE_MASK : Z := 0x4006.
Definition VMCS_PAGEFAULT_ERRCODE_MATCH : Z := 0x4008.
Definition VMCS_CR3_TARGET_COUNT : Z := 0x400a.
Definition VMCS_VMEXIT_CTL : Z := 0x400c.
Definition VMCS_VMEXIT_CTL_HOST_ADDRESS_SPACE_SIZE_BIT : Z := 0x200.
Definition VMCS_VMEXIT_MSR_STORE_COUNT : Z := 0x400e.
Definition VMCS_VMEXIT_MSR_LOAD_COUNT : Z := 0x4010.
Definition VMCS_VMENTRY_CTL : Z := 0x4012.
Definition VMCS_VMENTRY_CTL_64_GUEST_BIT : Z := 0x200.
Definition VMCS_VMENTRY_MSR_LOAD_COUNT : Z := 0x4014.
Definition VMCS_VMENTRY_INTR_INFO_FIELD : Z := 0x4016.
Definition VMCS_VMENTRY_EXCEPTION_ERRCODE : Z := 0x4018.
Definition VMCS_VMENTRY_INSTRUCTION_LEN : Z := 0x401a.
Definition VMCS_TPR_THRESHOLD : Z := 0x401c.
Definition VMCS_SECONDARY_VM_EXEC_CONTROL : Z := 0x401e.
Definition VMCS_VM_INSTRUCTION_ERR : Z := 0x4400.
Definition VMCS_EXIT_REASON : Z := 0x4402.
Definition VMCS_VMEXIT_INTR_INFO : Z := 0x4404.
Definition VMCS_VMEXIT_INTR_ERRCODE : Z := 0x4406.
Definition VMCS_IDT_VECTORING_INFO_FIELD : Z := 0x4408.
Definition VMCS_IDT_VECTORING_ERRCODE : Z := 0x440a.
Definition VMCS_VMEXIT_INSTRUCTION_LEN : Z := 0x440c.
Definition VMCS_VMX_INSTRUCTION_INFO : Z := 0x440e.

(** 32-Bit Guest-State Fields *)
Definition VMCS_GUEST_ES_LIMIT : Z := 0x4800.
Definition VMCS_GUEST_CS_LIMIT : Z := 0x4802.
Definition VMCS_GUEST_SS_LIMIT : Z := 0x4804.
Definition VMCS_GUEST_DS_LIMIT : Z := 0x4806.
Definition VMCS_GUEST_FS_LIMIT : Z := 0x4808.
Definition VMCS_GUEST_GS_LIMIT : Z := 0x480a.
Definition VMCS_GUEST_LDTR_LIMIT : Z := 0x480c.
Definition VMCS_GUEST_TR_LIMIT : Z := 0x480e.
Definition VMCS_GUEST_GDTR_LIMIT : Z := 0x4810.
Definition VMCS_GUEST_IDTR_LIMIT : Z := 0x4812.
Definition VMCS_GUEST_ES_ACCESS_RIGHTS : Z := 0x4814.
Definition VMCS_GUEST_CS_ACCESS_RIGHTS : Z := 0x4816.
Definition VMCS_GUEST_SS_ACCESS_RIGHTS : Z := 0x4818.
Definition VMCS_GUEST_DS_ACCESS_RIGHTS : Z := 0x481a.
Definition VMCS_GUEST_FS_ACCESS_RIGHTS : Z := 0x481c.
Definition VMCS_GUEST_GS_ACCESS_RIGHTS : Z := 0x481e.
Definition VMCS_GUEST_LDTR_ACCESS_RIGHTS : Z := 0x4820.
Definition VMCS_GUEST_TR_ACCESS_RIGHTS : Z := 0x4822.
Definition VMCS_GUEST_INTERRUPTIBILITY_STATE : Z := 0x4824.
Definition VMCS_GUEST_ACTIVITY_STATE : Z := 0x4826.
Definition VMCS_GUEST_SMBASE : Z := 0x4828.
Definition VMCS_GUEST_IA32_SYSENTER_CS : Z := 0x482a.

(** 32-Bit Host-State Field *)
Definition VMCS_HOST_IA32_SYSENTER_CS : Z := 0x4c00.

(** Natural-Width Control Fields *)
Definition VMCS_CR0_GUESTHOST_MASK : Z := 0x6000.
Definition VMCS_CR4_GUESTHOST_MASK : Z := 0x6002.
Definition VMCS_CR0_READ_SHADOW : Z := 0x6004.
Definition VMCS_CR4_READ_SHADOW : Z := 0x6006.
Definition VMCS_CR3_TARGET_VALUE_0 : Z := 0x6008.
Definition VMCS_CR3_TARGET_VALUE_1 : Z := 0x600a.
Definition VMCS_CR3_TARGET_VALUE_2 : Z := 0x600c.
Definition VMCS_CR3_TARGET_VALUE_3 : Z := 0x600e.

(** Natural-Width Read-Only Data Fields *)
Definition VMCS_EXIT_QUALIFICATION : Z := 0x6400.
Definition VMCS_IO_RCX : Z := 0x6402.
Definition VMCS_IO_RSI : Z := 0x6404.
Definition VMCS_IO_RDI : Z := 0x6406.
Definition VMCS_IO_RIP : Z := 0x6408.
Definition VMCS_GUEST_LINEAR_ADDR : Z := 0x640a.

(** Natural-Width Guest-State Fields *)
Definition VMCS_GUEST_CR0 : Z := 0x6800.
Definition VMCS_GUEST_CR3 : Z := 0x6802.
Definition VMCS_GUEST_CR4 : Z := 0x6804.
Definition VMCS_GUEST_ES_BASE : Z := 0x6806.
Definition VMCS_GUEST_CS_BASE : Z := 0x6808.
Definition VMCS_GUEST_SS_BASE : Z := 0x680a.
Definition VMCS_GUEST_DS_BASE : Z := 0x680c.
Definition VMCS_GUEST_FS_BASE : Z := 0x680e.
Definition VMCS_GUEST_GS_BASE : Z := 0x6810.
Definition VMCS_GUEST_LDTR_BASE : Z := 0x6812.
Definition VMCS_GUEST_TR_BASE : Z := 0x6814.
Definition VMCS_GUEST_GDTR_BASE : Z := 0x6816.
Definition VMCS_GUEST_IDTR_BASE : Z := 0x6818.
Definition VMCS_GUEST_DR7 : Z := 0x681a.
Definition VMCS_GUEST_RSP : Z := 0x681c.
Definition VMCS_GUEST_RIP : Z := 0x681e.
Definition VMCS_GUEST_RFLAGS : Z := 0x6820.
Definition VMCS_GUEST_PENDING_DEBUG_EXCEPTIONS : Z := 0x6822.
Definition VMCS_GUEST_IA32_SYSENTER_ESP : Z := 0x6824.
Definition VMCS_GUEST_IA32_SYSENTER_EIP : Z := 0x6826.

(** Natural-Width Host-State Fields *)
Definition VMCS_HOST_CR0 : Z := 0x6c00.
Definition VMCS_HOST_CR3 : Z := 0x6c02.
Definition VMCS_HOST_CR4 : Z := 0x6c04.
Definition VMCS_HOST_FS_BASE : Z := 0x6c06.
Definition VMCS_HOST_GS_BASE : Z := 0x6c08.
Definition VMCS_HOST_TR_BASE : Z := 0x6c0a.
Definition VMCS_HOST_GDTR_BASE : Z := 0x6c0c.
Definition VMCS_HOST_IDTR_BASE : Z := 0x6c0e.
Definition VMCS_HOST_IA32_SYSENTER_ESP : Z := 0x6c10.
Definition VMCS_HOST_IA32_SYSENTER_EIP : Z := 0x6c12.
Definition VMCS_HOST_RSP : Z := 0x6c14.
Definition VMCS_HOST_RIP : Z := 0x6c16.

(** Bits of the controls *)
Definition VMCS_PIN_BASED_VMEXEC_CTL_EXINTEXIT_BIT : Z := 0x1.
Definition VMCS_PIN_BASED_VMEXEC_CTL_NMIEXIT_BIT : Z := 0x8.
Definition VMCS_PIN_BASED_VMEXEC_CTL_VIRTNMIS_BIT : Z := 0x20.
Definition VMCS_PROC_BASED_VMEXEC_CTL_INTRWINEXIT_BIT : Z := 0x4.
Definition VMCS_PROC_BASED_VMEXEC_CTL_USETSCOFF_BIT : Z := 0x8.
Definition VMCS_PROC_BASED_VMEXEC_CTL_HLTEXIT_BIT : Z := 0x80.
Definition VMCS_PROC_BASED_VMEXEC_CTL_INVLPGEXIT_BIT : Z := 0x200.
Definition VMCS_PROC_BASED_VMEXEC_CTL_MWAITEXIT_BIT : Z := 0x400.
Definition VMCS_PROC_BASED_VMEXEC_CTL_RDPMCEXIT_BIT : Z := 0x800.
Definition VMCS_PROC_BASED_VMEXEC_CTL_RDTSCEXIT_BIT : Z := 0x1000.
Definition VMCS_PROC_BASED_VMEXEC_CTL_CR3LOADEXIT_BIT : Z := 0x8000.
Definition VMCS_PROC_BASED_VMEXEC_CTL_CR3STOREXIT_BIT : Z := 0x10000.
Definition VMCS_PROC_BASED_VMEXEC_CTL_CR8LOADEXIT_BIT : Z := 0x80000.
Definition VMCS_PROC_BASED_VMEXEC_CTL_CR8STOREEXIT_BIT : Z := 0x100000.
Definition VMCS_PROC_BASED_VMEXEC_CTL_USETPRSHADOW_BIT : Z := 0x200000.
Definition VMCS_PROC_BASED_VMEXEC_CTL_NMIWINEXIT_BIT : Z := 0x400000.
Definition VMCS_PROC_BASED_VMEXEC_CTL_MOVDREXIT_BIT : Z := 0x800000.
Definition VMCS_PROC_BASED_VMEXEC_CTL_UNCONDIOEXIT_BIT : Z := 0x1000000.
Definition VMCS_PROC_BASED_VMEXEC_CTL_USEIOBMP_BIT : Z := 0x2000000.
Definition VMCS_PROC_BASED_VMEXEC_CTL_MTF_BIT : Z := 0x8000000.
Definition VMCS_PROC_BASED_VMEXEC_CTL_USEMSRBMP_BIT : Z := 0x10000000.
Definition VMCS_PROC_BASED_VMEXEC_CTL_MONITOREXIT_BIT : Z := 0x20000000.
Definition VMCS_PROC_BASED_VMEXEC_CTL_PAUSEEXIT_BIT : Z := 0x40000000.
Definition VMCS_PROC_BASED_VMEXEC_CTL_ACTIVESECCTL_BIT : Z := 0x80000000.
Definition SECONDARY_EXEC_ENABLE_EPT : Z := 0x00000002.
Definition SECONDARY_EXEC_UNRESTRICTED_GUEST : Z := 0x00000080.

(** Exit reasons *)
Definition EXIT_REASON_MASK : Z := 0xffff.
Definition EXIT_REASON_EXCEPTION_OR_NMI : Z := 0x0.
Definition EXIT_REASON_EXTERNAL_INT : Z := 0x1.
Definition EXIT_REASON_TRIPLE_FAULT : Z := 0x2.
Definition EXIT_REASON_INIT_SIGNAL : Z := 0x3.
Definition EXIT_REASON_STARTUP_IPI : Z := 0x4.
Definition EXIT_REASON_IO_SMI : Z := 0x5.
Definition EXIT_REASON_OTHER_SMI : Z := 0x6.
Definition EXIT_REASON_INTERRUPT_WINDOW : Z := 0x7.
Definition EXIT_REASON_TASK_SWITCH : Z := 0x9.
Definition EXIT_REASON_CPUID : Z := 0xa.
Definition EXIT_REASON_HLT : Z := 0xc.
Definition EXIT_REASON_INVD : Z := 0xd.
Definition EXIT_REASON_INVLPG : Z := 0xe.
Definition EXIT_REASON_RDPMC : Z := 0xf.
Definition EXIT_REASON_RDTSC : Z := 0x10.
Definition EXIT_REASON_RSM : Z := 0x11.
Definition EXIT_REASON_VMCALL : Z := 0x12.
Definition EXIT_REASON_VMCLEAR : Z := 0x13.
Definition EXIT_REASON_VMLAUNCH : Z := 0x14.
Definition EXIT_REASON_VMPTRLD : Z := 0x15.
Definition EXIT_REASON_VMPTRST : Z := 0x16.
Definition EXIT_REASON_VMREAD : Z := 0x17.
Definition EXIT_REASON_VMRESUME : Z := 0x18.
Definition EXIT_REASON_VMWRITE : Z := 0x19.
Definition EXIT_REASON_VMXOFF : Z := 0x1a.
Definition EXIT_REASON_VMXON : Z := 0x1b.
Definition EXIT_REASON_MOV_CR : Z := 0x1c.
Definition EXIT_REASON_MOV_DR : Z := 0x1d.
Definition EXIT_REASON_IO_INSTRUCTION : Z := 0x1e.
Definition EXIT_REASON_RDMSR : Z := 0x1f.
Definition EXIT_REASON_WRMSR : Z := 0x20.
Definition EXIT_REASON_ENTFAIL_GUEST_STATE : Z := 0x21.
Definition EXIT_REASON_ENTFAIL_MSR_LOADING : Z := 0x22.
Definition EXIT_REASON_MWAIT : Z := 0x24.
Definition EXIT_REASON_MTF : Z := 0x25.
Definition EXIT_REASON_MONITOR : Z := 0x27.
Definition EXIT_REASON_PAUSE : Z := 0x28.
Definition EXIT_REASON_ENTFAIL_MACHINE_CHK : Z := 0x29.
Definition EXIT_REASON_TPR_BELOW_THRESHOLD : Z := 0x2b.
Definition EXIT_REASON_VMEXIT_FROM_VMX_ROOT_OPERATION_BIT : Z := 0x20000000.
Definition EXIT_REASON_VMENTRY_FAILURE_BIT : Z := 0x80000000.
Definition EXIT_REASON_APIC_ACCESS : Z := 0x2c.
Definition EXIT_REASON_ACCESS_GDTR_OR_IDTR : Z := 0x2e.
Definition EXIT_REASON_ACCESS_LDTR_OR_TR : Z := 0x2f.
Definition EXIT_REASON_EPT_VIOLATION : Z := 0x30.
Definition EXIT_REASON_EPT_MISCONFIG : Z := 0x31.
Definition EXIT_REASON_INVEPT : Z := 0x32.
Definition EXIT_REASON_RDTSCP : Z := 0x33.
Definition EXIT_REASON_VMX_PREEMPT_TIMER : Z := 0x34.
Definition EXIT_REASON_INVVPID : Z := 0x35.
Definition EXIT_REASON_WBINVD : Z := 0x36.
Definition EXIT_REASON_XSETBV : Z := 0x37.

(** Registers and processor features *)
Definition MSR_IA32_FEATURE_CONTROL : Z := 0x3a.
Definition MSR_IA32_FEATURE_CONTROL_LOCK_BIT : Z := 0x1.
Definition MSR_IA32_FEATURE_CONTROL_VMXON_BIT : Z := 0x4.
Definition MSR_IA32_VMX_BASIC : Z := 0x480.
Definition MSR_IA32_VMX_PINBASED_CTLS : Z := 0x481.
Definition MSR_IA32_VMX_PROCBASED_CTLS : Z := 0x482.
Definition MSR_IA32_VMX_PROCBASED_CTLS2 : Z := 0x48b.
Definition MSR_IA32_VMX_EXIT_CTLS : Z := 0x483.
Definition MSR_IA32_VMX_ENTRY_CTLS : Z := 0x484.
Definition MSR_IA32_VMX_MISC : Z := 0x485.
Definition MSR_IA32_VMX_CR0_FIXED0 : Z := 0x486.
Definition MSR_IA32_VMX_CR0_FIXED1 : Z := 0x487.
Definition MSR_IA32_VMX_CR4_FIXED0 : Z := 0x488.
Definition MSR_IA32_VMX_CR4_FIXED1 : Z := 0x489.
Definition CPUID_1 : Z := 0x1.
Definition CPUID_1_ECX_VMX_BIT : Z := 0x20.
Definition ACCESS_RIGHTS_MASK : Z := 0xf0ff.
Definition ACCESS_RIGHTS_UNUSABLE_BIT : Z := 0x10000.
Definition ACCESS_RIGHTS_P_BIT : Z := 0x80.
Definition SEL_PRIV_MASK : Z := 0x3.
Definition SEL_LDT_BIT : Z := 0x4.
Definition SEL_MASK : Z := 0xfff8.
Definition RFLAGS_ALWAYS1_BIT : Z := 0x2.
Definition CR0_NE_BIT : Z := 0x20.
Definition CR4_VMXE_BIT : Z := 0x2000.
Definition PAGESIZE : Z := 0x1000.
Definition PAGESIZE_SHIFT : Z := 12.
Definition VMXON_REGION_SIZE : Z := 0x1000.
Definition VMCS_REGION_SIZE : Z := 0x1000.

(** ** The encoding *)

Inductive width : Type := W16 | W64 | W32 | WNat.
Inductive kind : Type := Control | ReadOnly | Guest | Host.

#[export] Instance width_eq_dec : EqDecision width.
Proof. solve_decision. Defined.
#[export] Instance kind_eq_dec : EqDecision kind.
Proof. solve_decision. Defined.

Definition field_high (f : Z) : bool := Z.testbit f 0.
Definition field_index (f : Z) : Z := Z.land (Z.shiftr f 1) 0x1FF.
Definition field_kind (f : Z) : kind :=
  match Z.land (Z.shiftr f 10) 3 with 0 => Control | 1 => ReadOnly | 2 => Guest | _ => Host end.
Definition field_width (f : Z) : width :=
  match Z.land (Z.shiftr f 13) 3 with 0 => W16 | 1 => W64 | 2 => W32 | _ => WNat end.

(** The fields of the header, section by section. *)
Definition vmcs_sections : list (width * kind * list Z) :=
  [
   (W16, Guest, [
     VMCS_GUEST_ES_SEL; VMCS_GUEST_CS_SEL; VMCS_GUEST_SS_SEL; VMCS_GUEST_DS_SEL; VMCS_GUEST_FS_SEL;
     VMCS_GUEST_GS_SEL; VMCS_GUEST_LDTR_SEL; VMCS_GUEST_TR_SEL]);
   (W16, Host, [
     VMCS_HOST_ES_SEL; VMCS_HOST_CS_SEL; VMCS_HOST_SS_SEL; VMCS_HOST_DS_SEL; VMCS_HOST_FS_SEL;
     VMCS_HOST_GS_SEL; VMCS_HOST_TR_SEL]);
   (W64, Control, [
     VMCS_ADDR_IOBMP_A; VMCS_ADDR_IOBMP_A_HIGH; VMCS_ADDR_IOBMP_B; VMCS_ADDR_IOBMP_B_HIGH; VMCS_ADDR_MSRBMP;
     VMCS_ADDR_MSRBMP_HIGH; VMCS_VMEXIT_MSRSTORE_ADDR; VMCS_VMEXIT_MSRSTORE_ADDR_HIGH;
     VMCS_VMEXIT_MSRLOAD_ADDR; VMCS_VMEXIT_MSRLOAD_ADDR_HIGH; VMCS_VMENTRY_MSRLOAD_ADDR;
     VMCS_VMENTRY_MSRLOAD_ADDR_HIGH; VMCS_EXEC_VMCS_POINTER; VMCS_EXEC_VMCS_POINTER_HIGH; VMCS_TSC_OFFSET;
     VMCS_TSC_OFFSET_HIGH; VMCS_VIRT_APIC_PAGE_ADDR; VMCS_VIRT_APIC_PAGE_ADDR_HIGH; VMCS_EPT_POINTER;
     VMCS_EPT_POINTER_HIGH]);
   (W64, ReadOnly, [
     VMCS_GUEST_PHYSICAL_ADDR; VMCS_GUEST_PHYSICAL_ADDR_HIGH]);
   (W64, Guest, [
     VMCS_VMCS_LINK_POINTER; VMCS_VMCS_LINK_POINTER_HIGH; VMCS_GUEST_IA32_DEBUGCTL;
     VMCS_GUEST_IA32_DEBUGCTL_HIGH]);
   (W32, Control, [
     VMCS_PIN_BASED_VMEXEC_CTL; VMCS_PROC_BASED_VMEXEC_CTL; VMCS_EXCEPTION_BMP; VMCS_PAGEFAULT_ERRCODE_MASK;
     VMCS_PAGEFAULT_ERRCODE_MATCH; VMCS_CR3_TARGET_COUNT; VMCS_VMEXIT_CTL; VMCS_VMEXIT_MSR_STORE_COUNT;
     VMCS_VMEXIT_MSR_LOAD_COUNT; VMCS_VMENTRY_CTL; VMCS_VMENTRY_MSR_LOAD_COUNT; VMCS_VMENTRY_INTR_INFO_FIELD;
     VMCS_VMENTRY_EXCEPTION_ERRCODE; VMCS_VMENTRY_INSTRUCTION_LEN; VMCS_TPR_THRESHOLD;
     VMCS_SECONDARY_VM_EXEC_CONTROL]);
   (W32, ReadOnly, [
     VMCS_VM_INSTRUCTION_ERR; VMCS_EXIT_REASON; VMCS_VMEXIT_INTR_INFO; VMCS_VMEXIT_INTR_ERRCODE;
     VMCS_IDT_VECTORING_INFO_FIELD; VMCS_IDT_VECTORING_ERRCODE; VMCS_VMEXIT_INSTRUCTION_LEN;
     VMCS_VMX_INSTRUCTION_INFO]);
   (W32, Guest, [
     VMCS_GUEST_ES_LIMIT; VMCS_GUEST_CS_LIMIT; VMCS_GUEST_SS_LIMIT; VMCS_GUEST_DS_LIMIT; VMCS_GUEST_FS_LIMIT;
     VMCS_GUEST_GS_LIMIT; VMCS_GUEST_LDTR_LIMIT; VMCS_GUEST_TR_LIMIT; VMCS_GUEST_GDTR_LIMIT;
     VMCS_GUEST_IDTR_LIMIT; VMCS_GUEST_ES_ACCESS_RIGHTS; VMCS_GUEST_CS_ACCESS_RIGHTS;
     VMCS_GUEST_SS_ACCESS_RIGHTS; VMCS_GUEST_DS_ACCESS_RIGHTS; VMCS_GUEST_FS_ACCESS_RIGHTS;
     VMCS_GUEST_GS_ACCESS_RIGHTS; VMCS_GUEST_LDTR_ACCESS_RIGHTS; VMCS_GUEST_TR_ACCESS_RIGHTS;
     VMCS_GUEST_INTERRUPTIBILITY_STATE; VMCS_GUEST_ACTIVITY_STATE; VMCS_GUEST_SMBASE;
     VMCS_GUEST_IA32_SYSENTER_CS]);
   (W32, Host, [
     VMCS_HOST_IA32_SYSENTER_CS]);
   (WNat, Control, [
     VMCS_CR0_GUESTHOST_MASK; VMCS_CR4_GUESTHOST_MASK; VMCS_CR0_READ_SHADOW; VMCS_CR4_READ_SHADOW;
     VMCS_CR3_TARGET_VALUE_0; VMCS_CR3_TARGET_VALUE_1; VMCS_CR3_TARGET_VALUE_2; VMCS_CR3_TARGET_VALUE_3]);
   (WNat, ReadOnly, [
     VMCS_EXIT_QUALIFICATION; VMCS_IO_RCX; VMCS_IO_RSI; VMCS_IO_RDI; VMCS_IO_RIP; VMCS_GUEST_LINEAR_ADDR]);
   (WNat, Guest, [
     VMCS_GUEST_CR0; VMCS_GUEST_CR3; VMCS_GUEST_CR4; VMCS_GUEST_ES_BASE; VMCS_GUEST_CS_BASE;
     VMCS_GUEST_SS_BASE; VMCS_GUEST_DS_BASE; VMCS_GUEST_FS_BASE; VMCS_GUEST_GS_BASE; VMCS_GUEST_LDTR_BASE;
     VMCS_GUEST_TR_BASE; VMCS_GUEST_GDTR_BASE; VMCS_GUEST_IDTR_BASE; VMCS_GUEST_DR7; VMCS_GUEST_RSP;
     VMCS_GUEST_RIP; VMCS_GUEST_RFLAGS; VMCS_GUEST_PENDING_DEBUG_EXCEPTIONS; VMCS_GUEST_IA32_SYSENTER_ESP;
     VMCS_GUEST_IA32_SYSENTER_EIP]);
   (WNat, Host, [
     VMCS_HOST_CR0; VMCS_HOST_CR3; VMCS_HOST_CR4; VMCS_HOST_FS_BASE; VMCS_HOST_GS_BASE; VMCS_HOST_TR_BASE;
     VMCS_HOST_GDTR_BASE; VMCS_HOST_IDTR_BASE; VMCS_HOST_IA32_SYSENTER_ESP; VMCS_HOST_IA32_SYSENTER_EIP;
     VMCS_HOST_RSP; VMCS_HOST_RIP])].

Definition vmcs_fields : list Z := concat (snd <$> vmcs_sections).

Definition exit_reasons : list Z :=
  [
     EXIT_REASON_EXCEPTION_OR_NMI; EXIT_REASON_EXTERNAL_INT; EXIT_REASON_TRIPLE_FAULT;
     EXIT_REASON_INIT_SIGNAL; EXIT_REASON_STARTUP_IPI; EXIT_REASON_IO_SMI; EXIT_REASON_OTHER_SMI;
     EXIT_REASON_INTERRUPT_WINDOW; EXIT_REASON_TASK_SWITCH; EXIT_REASON_CPUID; EXIT_REASON_HLT;
     EXIT_REASON_INVD; EXIT_REASON_INVLPG; EXIT_REASON_RDPMC; EXIT_REASON_RDTSC; EXIT_REASON_RSM;
     EXIT_REASON_VMCALL; EXIT_REASON_VMCLEAR; EXIT_REASON_VMLAUNCH; EXIT_REASON_VMPTRLD; EXIT_REASON_VMPTRST;
     EXIT_REASON_VMREAD; EXIT_REASON_VMRESUME; EXIT_REASON_VMWRITE; EXIT_REASON_VMXOFF; EXIT_REASON_VMXON;
     EXIT_REASON_MOV_CR; EXIT_REASON_MOV_DR; EXIT_REASON_IO_INSTRUCTION; EXIT_REASON_RDMSR;
     EXIT_REASON_WRMSR; EXIT_REASON_ENTFAIL_GUEST_STATE; EXIT_REASON_ENTFAIL_MSR_LOADING; EXIT_REASON_MWAIT;
     EXIT_REASON_MTF; EXIT_REASON_MONITOR; EXIT_REASON_PAUSE; EXIT_REASON_ENTFAIL_MACHINE_CHK;
     EXIT_REASON_TPR_BELOW_THRESHOLD; EXIT_REASON_APIC_ACCESS; EXIT_REASON_ACCESS_GDTR_OR_IDTR;
     EXIT_REASON_ACCESS_LDTR_OR_TR; EXIT_REASON_EPT_VIOLATION; EXIT_REASON_EPT_MISCONFIG; EXIT_REASON_INVEPT;
     EXIT_REASON_RDTSCP; EXIT_REASON_VMX_PREEMPT_TIMER; EXIT_REASON_INVVPID; EXIT_REASON_WBINVD;
     EXIT_REASON_XSETBV].

(** Every field number has the width and the kind of its section, the numbers
    are pairwise distinct, and where a number is that of a high half, the number
    before it is there too: it is the 64-bit field. *)
Theorem vmcs_fields_encoded :
  Forall (fun '(w, k, fs) => Forall (fun f => field_width f = w /\ field_kind f = k) fs) vmcs_sections /\
  NoDup vmcs_fields /\
  Forall (fun f => field_high f = true -> f - 1 ∈ vmcs_fields /\ field_width f = W64) vmcs_fields.
Proof.
  split; [|split].
  - repeat first [apply Forall_cons; split | apply Forall_nil; exact I]; vm_compute; split; reflexivity.
  - apply (bool_decide_eq_true (NoDup vmcs_fields)). vm_compute. reflexivity.
  - apply (bool_decide_eq_true (Forall _ vmcs_fields)). vm_compute. reflexivity.
Qed.

(** The basic exit reasons are pairwise distinct and fit EXIT_REASON_MASK, so
    the [switch] of [vt_exit_reason] tells them apart. *)
Theorem exit_reasons_distinct :
  NoDup exit_reasons /\ Forall (fun r => Z.land r EXIT_REASON_MASK = r) exit_reasons.
Proof.
  split.
  - apply (bool_decide_eq_true (NoDup exit_reasons)). vm_compute. reflexivity.
  - apply (bool_decide_eq_true (Forall _ exit_reasons)). vm_compute. reflexivity.
Qed.
