(* ===== verification/Ept.v ===== *)
(** * Ept: hvm/vt_ept.c and inc/hvm/vt_ept.h

    The extended page tables of the guest: their root page, the EPT pointer, and
    the walk that is to fill them, which the source leaves as an exercise and
    which panics where it would allocate a table or write a mapping. *)

From S2P Require Import Prelude Layout Printfmt FormatSpec Printf Ports Queue Kernel Vmcs.
Open Scope Z_scope.

Definition EPT_DEFAULT_MT : Z := 0.
Definition EPT_DEFAULT_WL : nat := 3.
Definition EPT_TABLE_ORDER : Z := 9.
Definition EPT_EACHTABLE_ENTRIES : Z := 512.
Definition P2M_FULL_ACCESS : Z := 0x07.
Definition P2M_UPDATE_ALL : Z := 0x07.
Definition GFN (addr : Z) : Z := u32 (Z.shiftr addr PAGESIZE_SHIFT).

(** A bit field of a 64-bit word: [width] bits from [pos]. *)
Definition field (pos width v : Z) : Z := Z.land (Z.shiftr v pos) (Z.ones width).
Definition set_field (pos width x v : Z) : Z :=
  Z.lor (Z.ldiff v (Z.shiftl (Z.ones width) pos)) (Z.shiftl (Z.land x (Z.ones width)) pos).

(** union ept_control and union ept_entry_t. *)
Definition ept_mt : Z -> Z := field 0 3.
Definition ept_wl : Z -> Z := field 3 3.
Definition ept_rsvd : Z -> Z := field 6 6.
Definition ept_asr : Z -> Z := field 12 52.
Definition mfn : Z -> Z := field 12 40.

(** The kernel and the variable [g_ept_ctl]. *)
Record ept : Type := MkEpt { e_kernel : kernel; g_ept_ctl : Z }.
Definition set_kernel k (e : ept) : ept := MkEpt k (g_ept_ctl e).
Definition set_ept_ctl f (e : ept) : ept := MkEpt (e_kernel e) (f (g_ept_ctl e)).
Definition on_kernel {A} (m : M kernel A) : M ept A := zoom e_kernel set_kernel m.

Definition ld64 (va : Z) : M kernel Z := lo ← ld va; hi ← ld (va + 4); mret (lo + 2 ^ 32 * hi).

(** The index of the entry for [gfn] in a table of [level]. *)
Definition ept_offset (level : nat) (gfn : Z) : Z :=
  let mask := Z.shiftl 1 ((Z.of_nat level + 1) * EPT_TABLE_ORDER) - 1 in
  Z.shiftr (Z.land gfn mask) (Z.of_nat level * EPT_TABLE_ORDER).

(** Of a 52-bit physical address [KADDR] uses the low 32 bits. *)
Fixpoint ept_update_identity_table (pt : Z) (level : nat) (gfn p2m_type op_type : Z) : M ept Z :=
  kassert (Z.land gfn (EPT_EACHTABLE_ENTRIES - 1) =? 0);;
  match level with
  | O => panic "ept_update_identity_table not implemented"
  | S level' =>
      epte ← on_kernel (ld64 (pt + 8 * ept_offset level gfn));
      if epte =? 0 then panic "ept_update_identity_table not implemented"
      else
        sub_pt ← on_kernel (KADDR (u64 (Z.shiftl (mfn epte) PAGESIZE_SHIFT)));
        ept_update_identity_table sub_pt level' gfn p2m_type op_type
  end.

Definition ept_create_table (ept_pml4_page : nat) : M ept () :=
  pt ← on_kernel (page2kva ept_pml4_page);
  while 2049 (fun gfn => mret (gfn <? GFN 0xFFFFFFFF))
    (fun gfn =>
       r ← ept_update_identity_table pt EPT_DEFAULT_WL gfn P2M_FULL_ACCESS P2M_UPDATE_ALL;
       if r =? 0 then panic "In ept_create_table gfn:%#08x" else mret (u32 (gfn + EPT_EACHTABLE_ENTRIES))) 0;;
  mret tt.

Definition ept_setup : M ept () :=
  '(error, page) ← on_kernel page_alloc;
  kassert (u32 error =? 0);;
  pp ← deref page;
  va ← on_kernel (page2kva pp);
  on_kernel (kmemset va 0 PAGESIZE);;
  modify (set_ept_ctl (set_field 0 3 EPT_DEFAULT_MT));;
  modify (set_ept_ctl (set_field 3 3 (Z.of_nat EPT_DEFAULT_WL)));;
  modify (set_ept_ctl (set_field 12 52 (GFN (page2pa pp))));;
  ept_create_table pp.

(** ** Bit fields *)

Lemma field_bit pos width v i : 0 <= pos -> 0 <= width -> 0 <= i ->
  Z.testbit (field pos width v) i = Z.testbit v (i + pos) && (i <? width).
Proof. intros. unfold field. by rewrite Z.land_spec, Z.shiftr_spec, Z.testbit_ones_nonneg. Qed.

Lemma set_field_bit pos width x v i : 0 <= pos -> 0 <= width -> 0 <= i ->
  Z.testbit (set_field pos width x v) i =
  if (pos <=? i) && (i <? pos + width) then Z.testbit x (i - pos) else Z.testbit v i.
Proof.
  intros Hp Hw Hi. unfold set_field. rewrite Z.lor_spec, Z.ldiff_spec, !Z.shiftl_spec, Z.land_spec by done.
  destruct (Z.leb_spec pos i); cbn [andb].
  - rewrite !Z.testbit_ones_nonneg by lia. replace (i - pos <? width) with (i <? pos + width) by lia.
    destruct (i <? pos + width), (Z.testbit v i), (Z.testbit x (i - pos)); reflexivity.
  - rewrite !(Z.testbit_neg_r _ (i - pos)) by lia. by destruct (Z.testbit v i).
Qed.

(** A field holds what was stored in it, and stores to other fields leave it. *)
Lemma field_set_same pos width x v : 0 <= pos -> 0 <= width -> 0 <= x < 2 ^ width ->
  field pos width (set_field pos width x v) = x.
Proof.
  intros Hp Hw Hx. apply Z.bits_inj'. intros i Hi. rewrite field_bit, set_field_bit by lia.
  replace (i + pos - pos) with i by lia. replace (pos <=? i + pos) with true by lia.
  replace (i + pos <? pos + width) with (i <? width) by lia. cbn [andb].
  destruct (Z.ltb_spec i width); [apply andb_true_r|]. rewrite andb_false_r. symmetry.
  rewrite <- (Z.mod_small x (2 ^ width)) by done. by apply Z.mod_pow2_bits_high; lia.
Qed.

Lemma field_set_other p w pos width x v : 0 <= p -> 0 <= w -> 0 <= pos -> 0 <= width ->
  p + w <= pos \/ pos + width <= p -> field p w (set_field pos width x v) = field p w v.
Proof.
  intros ? ? ? ? Hd. apply Z.bits_inj'. intros i Hi. rewrite !field_bit, set_field_bit by lia.
  destruct (Z.ltb_spec i w); [|by rewrite !andb_false_r]. f_equal.
  destruct (Z.leb_spec pos (i + p)); cbn [andb]; [|done]. by replace (i + p <? pos + width) with false by lia.
Qed.

Lemma wp_ex {S A} (m : M S A) (Q : A -> S -> Prop) s a :
  wp m (fun b s' => b = a /\ Q b s') s -> exists s', m s = Ret a s' /\ Q a s'.
Proof. intros (b & s' & E & -> & HQ)%wp_iff. eauto. Qed.

Lemma on_kernel_ret {A} (m : M kernel A) a k' (e : ept) :
  m (e_kernel e) = Ret a k' -> on_kernel m e = Ret a (set_kernel k' e).
Proof. unfold on_kernel, zoom. by intros ->. Qed.

(** ** The set-up of the root *)

Lemma ept_offset_index level gfn : ept_offset level gfn = gfn / 512 ^ Z.of_nat level mod 512.
Proof.
  unfold ept_offset, EPT_TABLE_ORDER. rewrite Z.shiftl_1_l, land_ones_mod, Z.shiftr_div_pow2 by lia.
  change 512 with (2 ^ 9). rewrite <- Z.pow_mul_r by lia. rewrite (Z.mul_comm 9).
  set (n := Z.of_nat level * 9). replace ((Z.of_nat level + 1) * 9) with (n + 9) by lia.
  rewrite Z.pow_add_r by lia. rewrite Z.rem_mul_r by (apply Z.pow_nonzero || apply Z.pow_pos_nonneg; lia).
  rewrite Z.mul_comm, Z.div_add by (apply Z.pow_nonzero; lia).
  rewrite (Z.div_small (gfn mod _)) by (apply Z.mod_pos_bound, Z.pow_pos_nonneg; lia). lia.
Qed.

(** In a cleared table the walk stops at the first entry. *)
Lemma cleared_table_panics (e : ept) n level gfn t o :
  page_in_ram (e_kernel e) n -> 0 <= gfn -> gfn mod 512 = 0 ->
  (forall pa, n * PGSIZE <= pa < (n + 1) * PGSIZE -> pa mod 4 = 0 -> word (e_kernel e) pa = 0) ->
  ept_update_identity_table (KERNBASE + n * PGSIZE) level gfn t o e = Panic "ept_update_identity_table not implemented" e.
Proof.
  intros Hn Hg Hm Hz. destruct level as [|level]; cbn [ept_update_identity_table]; unfold EPT_EACHTABLE_ENTRIES;
    change (512 - 1) with (2 ^ 9 - 1); rewrite land_ones_mod by lia; change (2 ^ 9) with 512; rewrite Hm; [done|].
  rewrite ept_offset_index. set (x := gfn / _ mod 512).
  assert (Hx : 0 <= x < 512) by (apply Z.mod_pos_bound; lia).
  assert (E : ld64 (KERNBASE + n * PGSIZE + 8 * x) (e_kernel e) = Ret 0 (e_kernel e)).
  { apply wp_eq. unfold ld64. wp_go. unfold PGSIZE in *.
    apply wp_ld; [rewrite <- (page_in_ram_word (e_kernel e) n (2 * x)) by (done || lia); f_equal; unfold PGSIZE; lia|]. wp_go.
    apply wp_ld; [rewrite <- (page_in_ram_word (e_kernel e) n (2 * x + 1)) by (done || lia); f_equal; unfold PGSIZE; lia|]. wp_go.
    unfold KERNBASE. rewrite !Hz; [done|lia|divmod|lia|divmod]. }
  unfold kassert. cbn [Z.eqb]. unfold mbind at 1, M_bind at 1, mret at 1, M_ret at 1.
  rewrite (bind_eq _ _ _ _ _ (on_kernel_ret _ _ _ _ E)). by destruct e.
Qed.

(** C38: [ept_setup] takes the first free page as the root table, clears exactly that
    page, and makes the EPT pointer name it, with a page walk of length 4 and the
    memory type uncacheable, leaving the reserved bits; it then panics, in the
    part that is not written, and before it has changed anything else.  Without a free
    page its assertion fails and nothing is changed. *)
Theorem ept_setup_correct e l :
  is_list (e_kernel e) l ->
  (forall pp l', l = pp :: l' -> page_in_ram (e_kernel e) (Z.of_nat pp) -> exists e',
     ept_setup e = Panic "ept_update_identity_table not implemented" e' /\
     is_list (e_kernel e') l' /\ (exists k, pages_only (e_kernel e) k /\ ram_only k (e_kernel e')) /\
     (forall pa, word (e_kernel e') pa =
        if decide (page2pa pp <= pa < page2pa pp + PGSIZE /\ pa mod 4 = 0) then 0 else word (e_kernel e) pa) /\
     ept_mt (g_ept_ctl e') = 0 /\ ept_wl (g_ept_ctl e') = 3 /\ ept_asr (g_ept_ctl e') * PGSIZE = page2pa pp /\
     ept_rsvd (g_ept_ctl e') = ept_rsvd (g_ept_ctl e)) /\
  (l = [] -> ept_setup e = Panic "assertion failed: %s" e).
Proof.
  intros Hl. split.
  - intros pp l' -> Hpp. set (n := Z.of_nat pp) in *. set (k := e_kernel e) in *.
    assert (exists k1, page_alloc k = Ret (0, Some pp) k1 /\ pages_only k k1 /\ is_list k1 l') as (k1 & E1 & Hp1 & Hl1).
    { apply (wp_ex page_alloc (fun _ k1 => pages_only k k1 /\ is_list k1 l')). eapply wp_page_alloc_cons; [exact Hl|]. by intros k1 ? ? _ _ _. }
    assert (Hpp1 : page_in_ram k1 n) by (destruct Hp1 as [-> _]; exact Hpp).
    pose proof (page2pa_eq _ _ Hpp) as Hpa. fold n in Hpa.
    assert (Ekva : forall k', page_in_ram k' n -> page2kva pp k' = Ret (KERNBASE + n * PGSIZE) k').
    { intros k' Hk'. apply wp_eq. unfold page2kva. rewrite Hpa, <- (Z.add_0_r (n * PGSIZE)), <- (Z.add_0_r (KERNBASE + _)).
      replace (KERNBASE + (n * PGSIZE + 0) + 0) with (KERNBASE + n * PGSIZE + 0) by lia.
      apply wp_KADDR_page; [done | unfold PGSIZE; lia | done]. }
    assert (exists k2, kmemset (KERNBASE + n * PGSIZE) 0 PGSIZE k1 = Ret tt k2 /\ ram_only k1 k2 /\
      forall pa, word k2 pa = if decide (n * PGSIZE <= pa < (n + 1) * PGSIZE /\ pa mod 4 = 0) then 0 else word k1 pa) as (k2 & E2 & Hr2 & Hw2).
    { apply (wp_ex (kmemset _ _ _) (fun _ k2 => ram_only k1 k2 /\ forall pa, word k2 pa =
        if decide (n * PGSIZE <= pa < (n + 1) * PGSIZE /\ pa mod 4 = 0) then 0 else word k1 pa)). apply wp_kmemset_page; [done|]. intros k2 H H'. split; [done|]. split; [done|]. exact H'. }
    assert (Hpp2 : page_in_ram k2 n) by (rewrite Hr2; exact Hpp1).
    set (v := set_field 12 52 (GFN (page2pa pp)) (set_field 3 3 3 (set_field 0 3 0 (g_ept_ctl e)))).
    exists (MkEpt k2 v).
    assert (Hgfn : GFN (page2pa pp) = n).
    { unfold GFN, PAGESIZE_SHIFT. rewrite Hpa, Z.shiftr_div_pow2 by lia. unfold PGSIZE. change (2 ^ 12) with 4096.
      rewrite Z.div_mul by lia. destruct Hpp. rewrite u32_small; lia. }
    split; [|split_and!]; cbn [e_kernel g_ept_ctl].
    + unfold ept_setup. rewrite (bind_eq _ _ _ _ _ (on_kernel_ret _ _ _ _ E1)). cbv beta iota.
      change (u32 0 =? 0) with true. unfold kassert, deref. rewrite !bind_ret.
      rewrite (bind_eq _ _ _ _ _ (on_kernel_ret (page2kva pp) _ _ (set_kernel k1 e) (Ekva k1 Hpp1))).
      rewrite (bind_eq _ _ _ _ _ (on_kernel_ret (kmemset _ _ PAGESIZE) _ _ (set_kernel k1 e) E2)).
      do 3 (erewrite bind_eq by reflexivity). unfold ept_create_table.
      rewrite (bind_eq _ _ _ _ _ (on_kernel_ret (page2kva pp) _ _ (set_kernel k2 (MkEpt k1 v)) (Ekva k2 Hpp2))).
      rewrite while_S. unfold mbind, M_bind, mret, M_ret. change (0 <? GFN 0xFFFFFFFF) with true. cbv beta iota.
      rewrite (cleared_table_panics _ n); [done|done|lia|done|].
      intros pa Hin Hal. cbn [e_kernel set_kernel]. rewrite Hw2. by rewrite decide_True.
    + eapply is_list_same; [..|exact Hl1]; by rewrite Hr2.
    + by exists k1.
    + intros pa. rewrite Hw2, (pages_only_word _ _ pa Hp1). unfold PGSIZE. rewrite Hpa. unfold PGSIZE.
      destruct (decide _), (decide _); done || lia.
    + unfold v, ept_mt. rewrite !field_set_other by lia. by rewrite field_set_same by lia.
    + unfold v, ept_wl. rewrite field_set_other by lia. by rewrite field_set_same by lia.
    + unfold v, ept_asr. destruct Hpp. by rewrite Hgfn, field_set_same by lia.
    + unfold v, ept_rsvd. by rewrite !field_set_other by lia.
  - intros ->. unfold ept_setup. assert (E : page_alloc (e_kernel e) = Ret (- E_NO_MEM, None) (e_kernel e)).
    { apply wp_eq. by apply wp_page_alloc_nil. }
    rewrite (bind_eq _ _ _ _ _ (on_kernel_ret _ _ _ _ E)). by destruct e.
Qed.

Lemma ept_setup_correct_witness :
  exists e', ept_setup (MkEpt kernel_ex 0xFC0) = Panic "ept_update_identity_table not implemented" e' /\
    is_list (e_kernel e') [2%nat] /\ ept_asr (g_ept_ctl e') = 1 /\ ept_rsvd (g_ept_ctl e') = 63.
Proof.
  destruct (ept_setup_correct (MkEpt kernel_ex 0xFC0) [1; 2]%nat kernel_ex_is_list) as [H _].
  destruct (H 1%nat [2%nat] eq_refl) as (e' & E & Hl & _ & _ & _ & _ & Ha & Hr); [unfold page_in_ram; cbn; lia|].
  exists e'. split; [exact E|]. split; [exact Hl|]. split; [|exact Hr].
  change (page2pa 1) with 4096 in Ha. unfold PGSIZE in Ha. lia.
Defined.
