(* ===== verification/Constants.v ===== *)
(** * Constants: the tables of processor and device constants

    The numbers of inc/hvm/constants.h that are not in Vmcs.v, and those of
    inc/mmu.h, inc/trap.h, inc/hvm/vt_ept.h, inc/kbdreg.h, inc/stab.h and inc/elf.h
    that no other file has.  Three headers name the same bits of the processor; the
    theorems check them against each other, and the tables for what makes their
    numbers usable: one bit for each flag of a register, codes without gaps or
    repetitions, masks that split a word. *)

From S2P Require Import Prelude Layout Trap Console Vmcs Structs Ept.
Open Scope Z_scope.
Local Open Scope string_scope.

(** ** inc/mmu.h and inc/trap.h *)

Definition CR0_MP : Z := 0x00000002.
Definition CR0_EM : Z := 0x00000004.
Definition CR0_TS : Z := 0x00000008.
Definition CR0_ET : Z := 0x00000010.
Definition CR0_NE : Z := 0x00000020.
Definition CR0_WP : Z := 0x00010000.
Definition CR0_AM : Z := 0x00040000.
Definition CR0_NW : Z := 0x20000000.
Definition CR0_CD : Z := 0x40000000.
Definition CR4_PCE : Z := 0x00000100.
Definition CR4_MCE : Z := 0x00000040.
Definition CR4_PSE : Z := 0x00000010.
Definition CR4_DE : Z := 0x00000008.
Definition CR4_TSD : Z := 0x00000004.
Definition CR4_PVI : Z := 0x00000002.
Definition CR4_VME : Z := 0x00000001.
Definition FL_CF : Z := 0x00000001.
Definition FL_PF : Z := 0x00000004.
Definition FL_AF : Z := 0x00000010.
Definition FL_ZF : Z := 0x00000040.
Definition FL_SF : Z := 0x00000080.
Definition FL_TF : Z := 0x00000100.
Definition FL_IF : Z := 0x00000200.
Definition FL_DF : Z := 0x00000400.
Definition FL_OF : Z := 0x00000800.
Definition FL_IOPL_MASK : Z := 0x00003000.
Definition FL_IOPL_0 : Z := 0x00000000.
Definition FL_IOPL_1 : Z := 0x00001000.
Definition FL_IOPL_2 : Z := 0x00002000.
Definition FL_IOPL_3 : Z := 0x00003000.
Definition FL_NT : Z := 0x00004000.
Definition FL_RF : Z := 0x00010000.
Definition FL_VM : Z := 0x00020000.
Definition FL_AC : Z := 0x00040000.
Definition FL_VIF : Z := 0x00080000.
Definition FL_VIP : Z := 0x00100000.
Definition FL_ID : Z := 0x00200000.
Definition FEC_PR : Z := 0x1.
Definition FEC_WR : Z := 0x2.
Definition FEC_U : Z := 0x4.

Definition T_DIVIDE : Z := 0.
Definition T_DEBUG : Z := 1.
Definition T_NMI : Z := 2.
Definition T_OFLOW : Z := 4.
Definition T_BOUND : Z := 5.
Definition T_ILLOP : Z := 6.
Definition T_DEVICE : Z := 7.
Definition T_DBLFLT : Z := 8.
Definition T_TSS : Z := 10.
Definition T_SEGNP : Z := 11.
Definition T_STACK : Z := 12.
Definition T_GPFLT : Z := 13.
Definition T_PGFLT : Z := 14.
Definition T_FPERR : Z := 16.
Definition T_ALIGN : Z := 17.
Definition T_MCHK : Z := 18.
Definition T_SIMDERR : Z := 19.
Definition T_DEFAULT : Z := 500.

(** ** inc/hvm/constants.h *)

(** cpuid. *)
Definition CPUID_1_EBX_NUMOFLP_MASK : Z := 0x00ff0000.
Definition CPUID_1_EBX_NUMOFLP_1 : Z := 0x00010000.
Definition CPUID_1_EDX_PSE_BIT : Z := 0x8.
Definition CPUID_1_EDX_TSC_BIT : Z := 0x10.
Definition CPUID_1_EDX_MSR_BIT : Z := 0x20.
Definition CPUID_1_EDX_PAE_BIT : Z := 0x40.
Definition CPUID_1_EDX_APIC_BIT : Z := 0x200.
Definition CPUID_1_EDX_SEP_BIT : Z := 0x800.
Definition CPUID_4_EAX_NUMOFTHREADS_MASK : Z := 0x03ffc000.
Definition CPUID_4_EAX_NUMOFCORES_MASK : Z := 0xfc000000.
Definition CPUID_EXT_0 : Z := 0x80000000.
Definition CPUID_EXT_1 : Z := 0x80000001.
Definition CPUID_EXT_1_ECX_SVM_BIT : Z := 0x4.
Definition CPUID_EXT_A : Z := 0x8000000a.
Definition CPUID_EXT_A_EDX_NP_BIT : Z := 0x1.
Definition CPUID_EXT_A_EDX_SVM_LOCK_BIT : Z := 0x4.

(** Model-specific registers. *)
Definition MSR_IA32_TIME_STAMP_COUNTER : Z := 0x10.
Definition MSR_IA32_APIC_BASE_MSR : Z := 0x1b.
Definition MSR_IA32_APIC_BASE_MSR_APIC_GLOBAL_ENABLE_BIT : Z := 0x800.
Definition MSR_IA32_APIC_BASE_MSR_APIC_BASE_MASK : Z := 0xffffff000.
Definition MSR_IA32_BIOS_UPDT_TRIG : Z := 0x79.
Definition MSR_IA32_SYSENTER_CS : Z := 0x174.
Definition MSR_IA32_SYSENTER_ESP : Z := 0x175.
Definition MSR_IA32_SYSENTER_EIP : Z := 0x176.
Definition MSR_IA32_EFER : Z := 0xc0000080.
Definition MSR_IA32_EFER_SCE_BIT : Z := 0x1.
Definition MSR_IA32_EFER_LME_BIT : Z := 0x100.
Definition MSR_IA32_EFER_LMA_BIT : Z := 0x400.
Definition MSR_IA32_EFER_NXE_BIT : Z := 0x800.
Definition MSR_IA32_EFER_SVME_BIT : Z := 0x1000.
Definition MSR_IA32_EFER_FFXSR_BIT : Z := 0x4000.
Definition MSR_IA32_STAR : Z := 0xc0000081.
Definition MSR_IA32_LSTAR : Z := 0xc0000082.
Definition MSR_AMD_CSTAR : Z := 0xc0000083.
Definition MSR_IA32_FMASK : Z := 0xc0000084.
Definition MSR_IA32_FS_BASE : Z := 0xc0000100.
Definition MSR_IA32_GS_BASE : Z := 0xc0000101.
Definition MSR_IA32_KERNEL_GS_BASE : Z := 0xc0000102.
Definition MSR_AMD_VM_CR : Z := 0xc0010114.
Definition MSR_AMD_VM_CR_DIS_A20M_BIT : Z := 0x4.
Definition MSR_AMD_VM_CR_SVMDIS_BIT : Z := 0x10.

(** Guest state in the VMCS. *)
Definition VMCS_GUEST_INTERRUPTIBILITY_STATE_BLOCKING_BY_STI_BIT : Z := 0x1.
Definition VMCS_GUEST_INTERRUPTIBILITY_STATE_BLOCKING_BY_MOV_SS_BIT : Z := 0x2.
Definition VMCS_GUEST_INTERRUPTIBILITY_STATE_BLOCKING_BY_SMI_BIT : Z := 0x4.
Definition VMCS_GUEST_INTERRUPTIBILITY_STATE_BLOCKING_BY_NMI_BIT : Z := 0x8.
Definition VMCS_GUEST_ACTIVITY_STATE_ACTIVE : Z := 0x0.
Definition VMCS_GUEST_ACTIVITY_STATE_HLT : Z := 0x1.
Definition VMCS_GUEST_ACTIVITY_STATE_SHUTDOWN : Z := 0x2.
Definition VMCS_GUEST_ACTIVITY_STATE_WAIT_FOR_SIPI : Z := 0x3.
Definition ACCESS_RIGHTS_L_BIT : Z := 0x2000.
Definition ACCESS_RIGHTS_D_B_BIT : Z := 0x4000.

(** Reasons of an exit on AMD. *)
Definition VMEXIT_CR0_READ : Z := 0x0.
Definition VMEXIT_CR1_READ : Z := 0x1.
Definition VMEXIT_CR2_READ : Z := 0x2.
Definition VMEXIT_CR3_READ : Z := 0x3.
Definition VMEXIT_CR4_READ : Z := 0x4.
Definition VMEXIT_CR5_READ : Z := 0x5.
Definition VMEXIT_CR6_READ : Z := 0x6.
Definition VMEXIT_CR7_READ : Z := 0x7.
Definition VMEXIT_CR8_READ : Z := 0x8.
Definition VMEXIT_CR9_READ : Z := 0x9.
Definition VMEXIT_CR10_READ : Z := 0xa.
Definition VMEXIT_CR11_READ : Z := 0xb.
Definition VMEXIT_CR12_READ : Z := 0xc.
Definition VMEXIT_CR13_READ : Z := 0xd.
Definition VMEXIT_CR14_READ : Z := 0xe.
Definition VMEXIT_CR15_READ : Z := 0xf.
Definition VMEXIT_CR0_WRITE : Z := 0x10.
Definition VMEXIT_CR1_WRITE : Z := 0x11.
Definition VMEXIT_CR2_WRITE : Z := 0x12.
Definition VMEXIT_CR3_WRITE : Z := 0x13.
Definition VMEXIT_CR4_WRITE : Z := 0x14.
Definition VMEXIT_CR5_WRITE : Z := 0x15.
Definition VMEXIT_CR6_WRITE : Z := 0x16.
Definition VMEXIT_CR7_WRITE : Z := 0x17.
Definition VMEXIT_CR8_WRITE : Z := 0x18.
Definition VMEXIT_CR9_WRITE : Z := 0x19.
Definition VMEXIT_CR10_WRITE : Z := 0x1a.
Definition VMEXIT_CR11_WRITE : Z := 0x1b.
Definition VMEXIT_CR12_WRITE : Z := 0x1c.
Definition VMEXIT_CR13_WRITE : Z := 0x1d.
Definition VMEXIT_CR14_WRITE : Z := 0x1e.
Definition VMEXIT_CR15_WRITE : Z := 0x1f.
Definition VMEXIT_DR0_READ : Z := 0x20.
Definition VMEXIT_DR1_READ : Z := 0x21.
Definition VMEXIT_DR2_READ : Z := 0x22.
Definition VMEXIT_DR3_READ : Z := 0x23.
Definition VMEXIT_DR4_READ : Z := 0x24.
Definition VMEXIT_DR5_READ : Z := 0x25.
Definition VMEXIT_DR6_READ : Z := 0x26.
Definition VMEXIT_DR7_READ : Z := 0x27.
Definition VMEXIT_DR8_READ : Z := 0x28.
Definition VMEXIT_DR9_READ : Z := 0x29.
Definition VMEXIT_DR10_READ : Z := 0x2a.
Definition VMEXIT_DR11_READ : Z := 0x2b.
Definition VMEXIT_DR12_READ : Z := 0x2c.
Definition VMEXIT_DR13_READ : Z := 0x2d.
Definition VMEXIT_DR14_READ : Z := 0x2e.
Definition VMEXIT_DR15_READ : Z := 0x2f.
Definition VMEXIT_DR0_WRITE : Z := 0x30.
Definition VMEXIT_DR1_WRITE : Z := 0x31.
Definition VMEXIT_DR2_WRITE : Z := 0x32.
Definition VMEXIT_DR3_WRITE : Z := 0x33.
Definition VMEXIT_DR4_WRITE : Z := 0x34.
Definition VMEXIT_DR5_WRITE : Z := 0x35.
Definition VMEXIT_DR6_WRITE : Z := 0x36.
Definition VMEXIT_DR7_WRITE : Z := 0x37.
Definition VMEXIT_DR8_WRITE : Z := 0x38.
Definition VMEXIT_DR9_WRITE : Z := 0x39.
Definition VMEXIT_DR10_WRITE : Z := 0x3a.
Definition VMEXIT_DR11_WRITE : Z := 0x3b.
Definition VMEXIT_DR12_WRITE : Z := 0x3c.
Definition VMEXIT_DR13_WRITE : Z := 0x3d.
Definition VMEXIT_DR14_WRITE : Z := 0x3e.
Definition VMEXIT_DR15_WRITE : Z := 0x3f.
Definition VMEXIT_EXCP0 : Z := 0x40.
Definition VMEXIT_EXCP1 : Z := 0x41.
Definition VMEXIT_EXCP2 : Z := 0x42.
Definition VMEXIT_EXCP3 : Z := 0x43.
Definition VMEXIT_EXCP4 : Z := 0x44.
Definition VMEXIT_EXCP5 : Z := 0x45.
Definition VMEXIT_EXCP6 : Z := 0x46.
Definition VMEXIT_EXCP7 : Z := 0x47.
Definition VMEXIT_EXCP8 : Z := 0x48.
Definition VMEXIT_EXCP9 : Z := 0x49.
Definition VMEXIT_EXCP10 : Z := 0x4a.
Definition VMEXIT_EXCP11 : Z := 0x4b.
Definition VMEXIT_EXCP12 : Z := 0x4c.
Definition VMEXIT_EXCP13 : Z := 0x4d.
Definition VMEXIT_EXCP14 : Z := 0x4e.
Definition VMEXIT_EXCP15 : Z := 0x4f.
Definition VMEXIT_EXCP16 : Z := 0x50.
Definition VMEXIT_EXCP17 : Z := 0x51.
Definition VMEXIT_EXCP18 : Z := 0x52.
Definition VMEXIT_EXCP19 : Z := 0x53.
Definition VMEXIT_EXCP20 : Z := 0x54.
Definition VMEXIT_EXCP21 : Z := 0x55.
Definition VMEXIT_EXCP22 : Z := 0x56.
Definition VMEXIT_EXCP23 : Z := 0x57.
Definition VMEXIT_EXCP24 : Z := 0x58.
Definition VMEXIT_EXCP25 : Z := 0x59.
Definition VMEXIT_EXCP26 : Z := 0x5a.
Definition VMEXIT_EXCP27 : Z := 0x5b.
Definition VMEXIT_EXCP28 : Z := 0x5c.
Definition VMEXIT_EXCP29 : Z := 0x5d.
Definition VMEXIT_EXCP30 : Z := 0x5e.
Definition VMEXIT_EXCP31 : Z := 0x5f.
Definition VMEXIT_INTR : Z := 0x60.
Definition VMEXIT_NMI : Z := 0x61.
Definition VMEXIT_SMI : Z := 0x62.
Definition VMEXIT_INIT : Z := 0x63.
Definition VMEXIT_VINTR : Z := 0x64.
Definition VMEXIT_CR0_SEL_WRITE : Z := 0x65.
Definition VMEXIT_IDTR_READ : Z := 0x66.
Definition VMEXIT_GDTR_READ : Z := 0x67.
Definition VMEXIT_LDTR_READ : Z := 0x68.
Definition VMEXIT_TR_READ : Z := 0x69.
Definition VMEXIT_IDTR_WRITE : Z := 0x6a.
Definition VMEXIT_GDTR_WRITE : Z := 0x6b.
Definition VMEXIT_LDTR_WRITE : Z := 0x6c.
Definition VMEXIT_TR_WRITE : Z := 0x6d.
Definition VMEXIT_RDTSC : Z := 0x6e.
Definition VMEXIT_RDPMC : Z := 0x6f.
Definition VMEXIT_PUSHF : Z := 0x70.
Definition VMEXIT_POPF : Z := 0x71.
Definition VMEXIT_CPUID : Z := 0x72.
Definition VMEXIT_RSM : Z := 0x73.
Definition VMEXIT_IRET : Z := 0x74.
Definition VMEXIT_SWINT : Z := 0x75.
Definition VMEXIT_INVD : Z := 0x76.
Definition VMEXIT_PAUSE : Z := 0x77.
Definition VMEXIT_HLT : Z := 0x78.
Definition VMEXIT_INVLPG : Z := 0x79.
Definition VMEXIT_INVLPGA : Z := 0x7a.
Definition VMEXIT_IOIO : Z := 0x7b.
Definition VMEXIT_MSR : Z := 0x7c.
Definition VMEXIT_TASK_SWITCH : Z := 0x7d.
Definition VMEXIT_FERR_FREEZE : Z := 0x7e.
Definition VMEXIT_SHUTDOWN : Z := 0x7f.
Definition VMEXIT_VMRUN : Z := 0x80.
Definition VMEXIT_VMMCALL : Z := 0x81.
Definition VMEXIT_VMLOAD : Z := 0x82.
Definition VMEXIT_VMSAVE : Z := 0x83.
Definition VMEXIT_STGI : Z := 0x84.
Definition VMEXIT_CLGI : Z := 0x85.
Definition VMEXIT_SKINIT : Z := 0x86.
Definition VMEXIT_RDTSCP : Z := 0x87.
Definition VMEXIT_ICEBP : Z := 0x88.
Definition VMEXIT_WBINVD : Z := 0x89.
Definition VMEXIT_MONITOR : Z := 0x8a.
Definition VMEXIT_MWAIT : Z := 0x8b.
Definition VMEXIT_MWAIT_CONDITIONAL : Z := 0x8c.
Definition VMEXIT_NPF : Z := 0x400.
Definition VMEXIT_INVALID : Z := -1.

(** RFLAGS.  RFLAGS_SYS_MASK and RFLAGS_NONSYS_MASK are bare sums of | in the header: this is their value on their own, see [and_RFLAGS_SYS_MASK]. *)
Definition RFLAGS_CF_BIT : Z := 0x1.
Definition RFLAGS_PF_BIT : Z := 0x4.
Definition RFLAGS_AF_BIT : Z := 0x10.
Definition RFLAGS_ZF_BIT : Z := 0x40.
Definition RFLAGS_SF_BIT : Z := 0x80.
Definition RFLAGS_TF_BIT : Z := 0x100.
Definition RFLAGS_IF_BIT : Z := 0x200.
Definition RFLAGS_DF_BIT : Z := 0x400.
Definition RFLAGS_OF_BIT : Z := 0x800.
Definition RFLAGS_IOPL_MASK : Z := 0x3000.
Definition RFLAGS_IOPL_0 : Z := 0x0000.
Definition RFLAGS_IOPL_1 : Z := 0x1000.
Definition RFLAGS_IOPL_2 : Z := 0x2000.
Definition RFLAGS_IOPL_3 : Z := 0x3000.
Definition RFLAGS_NT_BIT : Z := 0x4000.
Definition RFLAGS_RF_BIT : Z := 0x10000.
Definition RFLAGS_VM_BIT : Z := 0x20000.
Definition RFLAGS_AC_BIT : Z := 0x40000.
Definition RFLAGS_VIF_BIT : Z := 0x80000.
Definition RFLAGS_VIP_BIT : Z := 0x100000.
Definition RFLAGS_ID_BIT : Z := 0x200000.
Definition RFLAGS_SYS_MASK : Z := Z.lor (Z.lor (Z.lor (Z.lor (Z.lor (Z.lor (Z.lor (Z.lor (Z.lor RFLAGS_TF_BIT RFLAGS_IF_BIT) RFLAGS_IOPL_MASK) RFLAGS_NT_BIT) RFLAGS_RF_BIT) RFLAGS_VM_BIT) RFLAGS_AC_BIT) RFLAGS_VIF_BIT) RFLAGS_VIP_BIT) RFLAGS_ID_BIT.
Definition RFLAGS_NONSYS_MASK : Z := Z.lor (Z.lor (Z.lor (Z.lor (Z.lor (Z.lor RFLAGS_CF_BIT RFLAGS_PF_BIT) RFLAGS_AF_BIT) RFLAGS_ZF_BIT) RFLAGS_SF_BIT) RFLAGS_DF_BIT) RFLAGS_OF_BIT.

(** Control registers. *)
Definition CR0_PE_BIT : Z := 0x1.
Definition CR0_MP_BIT : Z := 0x2.
Definition CR0_EM_BIT : Z := 0x4.
Definition CR0_TS_BIT : Z := 0x8.
Definition CR0_ET_BIT : Z := 0x10.
Definition CR0_WP_BIT : Z := 0x10000.
Definition CR0_AM_BIT : Z := 0x40000.
Definition CR0_NW_BIT : Z := 0x20000000.
Definition CR0_CD_BIT : Z := 0x40000000.
Definition CR0_PG_BIT : Z := 0x80000000.
Definition CR3_PWT_BIT : Z := 0x8.
Definition CR3_PCD_BIT : Z := 0x10.
Definition CR4_VME_BIT : Z := 0x1.
Definition CR4_PVI_BIT : Z := 0x2.
Definition CR4_TSD_BIT : Z := 0x4.
Definition CR4_DE_BIT : Z := 0x8.
Definition CR4_PSE_BIT : Z := 0x10.
Definition CR4_PAE_BIT : Z := 0x20.
Definition CR4_MCE_BIT : Z := 0x40.
Definition CR4_PGE_BIT : Z := 0x80.
Definition CR4_PCE_BIT : Z := 0x100.
Definition CR4_OSFXSR_BIT : Z := 0x200.
Definition CR4_OSXMMEXCPT_BIT : Z := 0x400.
Definition CR4_OSXSAVE_BIT : Z := 0x40000.
Definition XCR0_X87_STATE_BIT : Z := 0x1.
Definition XCR0_SSE_STATE_BIT : Z := 0x2.

(** Page directories and page tables. *)
Definition PDE_P_BIT : Z := 0x1.
Definition PDE_RW_BIT : Z := 0x2.
Definition PDE_US_BIT : Z := 0x4.
Definition PDE_PWT_BIT : Z := 0x8.
Definition PDE_PCD_BIT : Z := 0x10.
Definition PDE_A_BIT : Z := 0x20.
Definition PDE_D_BIT : Z := 0x40.
Definition PDE_PS_BIT : Z := 0x80.
Definition PDE_G_BIT : Z := 0x100.
Definition PDE_AVAILABLE1_BIT : Z := 0x200.
Definition PDE_AVAILABLE2_BIT : Z := 0x400.
Definition PDE_AVAILABLE3_BIT : Z := 0x800.
Definition PDE_AVAILABLE_MASK : Z := 0xe00.
Definition PDE_NX_BIT : Z := 0x8000000000000000.
Definition PDE_4K_ADDR_MASK : Z := 0xfffff000.
Definition PDE_ATTR_MASK : Z := 0xfff.
Definition PDE_PS_PAT_BIT : Z := 0x1000.
Definition PDE_4M_PAT_BIT : Z := PDE_PS_PAT_BIT.
Definition PDE_4M_OFFSET_MASK : Z := 0x003fffff.
Definition PDE_4M_ADDR_MASK : Z := Z.lnot PDE_4M_OFFSET_MASK.
Definition PDE_2M_PAT_BIT : Z := PDE_PS_PAT_BIT.
Definition PDE_2M_OFFSET_MASK : Z := 0x001fffff.
Definition PDE_2M_ADDR_MASK : Z := Z.lnot PDE_2M_OFFSET_MASK.
Definition PDE_ADDR_MASK64 : Z := 0x000000fffffff000.
Definition PTE_P_BIT : Z := 0x1.
Definition PTE_RW_BIT : Z := 0x2.
Definition PTE_US_BIT : Z := 0x4.
Definition PTE_PWT_BIT : Z := 0x8.
Definition PTE_PCD_BIT : Z := 0x10.
Definition PTE_A_BIT : Z := 0x20.
Definition PTE_D_BIT : Z := 0x40.
Definition PTE_PAT_BIT : Z := 0x80.
Definition PTE_G_BIT : Z := 0x100.
Definition PTE_AVAILABLE1_BIT : Z := 0x200.
Definition PTE_AVAILABLE2_BIT : Z := 0x400.
Definition PTE_AVAILABLE3_BIT : Z := 0x800.
Definition PTE_AVAILABLE_MASK : Z := 0xe00.
Definition PTE_NX_BIT : Z := 0x8000000000000000.
Definition PTE_ADDR_MASK : Z := 0xfffff000.
Definition PTE_ATTR_MASK : Z := 0xfff.
Definition PTE_ADDR_MASK64 : Z := 0x000000fffffff000.

(** Exceptions. *)
Definition EXCEPTION_DE : Z := 0x0.
Definition EXCEPTION_DB : Z := 0x1.
Definition EXCEPTION_NMI : Z := 0x2.
Definition EXCEPTION_BP : Z := 0x3.
Definition EXCEPTION_OF : Z := 0x4.
Definition EXCEPTION_BR : Z := 0x5.
Definition EXCEPTION_UD : Z := 0x6.
Definition EXCEPTION_NM : Z := 0x7.
Definition EXCEPTION_DF : Z := 0x8.
Definition EXCEPTION_COPROCESSOR_SEGMENT_OVERRUN : Z := 0x9.
Definition EXCEPTION_TS : Z := 0xa.
Definition EXCEPTION_NP : Z := 0xb.
Definition EXCEPTION_SS : Z := 0xc.
Definition EXCEPTION_GP : Z := 0xd.
Definition EXCEPTION_PF : Z := 0xe.
Definition EXCEPTION_MF : Z := 0x10.
Definition EXCEPTION_AC : Z := 0x11.
Definition EXCEPTION_MC : Z := 0x12.
Definition EXCEPTION_XM : Z := 0x13.
Definition NUM_OF_IOPORT : Z := 0x10000.
Definition NUM_OF_INT : Z := 0x100.
Definition PAGEFAULT_ERR_P_BIT : Z := 0x1.
Definition PAGEFAULT_ERR_WR_BIT : Z := 0x2.
Definition PAGEFAULT_ERR_US_BIT : Z := 0x4.
Definition PAGEFAULT_ERR_RSVD_BIT : Z := 0x8.
Definition PAGEFAULT_ERR_ID_BIT : Z := 0x10.
Definition EXCEPTION_ERR_EXT_BIT : Z := 0x1.
Definition EXCEPTION_ERR_IDT_BIT : Z := 0x2.
Definition EXCEPTION_ERR_TI_BIT : Z := 0x4.
Definition EXCEPTION_ERR_SEL_MASK : Z := 0xfff8.
Definition EXCEPTION_ERR_SEL_SHIFT : Z := 3.

(** Page sizes. *)
Definition PAGESIZE2M : Z := 0x200000.
Definition PAGESIZE4M : Z := 0x400000.
Definition PAGESIZE2M_SHIFT : Z := 21.
Definition PAGESIZE4M_SHIFT : Z := 22.
Definition PAGESIZE_MASK : Z := PAGESIZE - 1.
Definition PAGESIZE2M_MASK : Z := PAGESIZE2M - 1.
Definition PAGESIZE4M_MASK : Z := PAGESIZE4M - 1.

(** The interval timer. *)
Definition PIT_COUNTER0 : Z := 0x40.
Definition PIT_COUNTER1 : Z := 0x41.
Definition PIT_COUNTER2 : Z := 0x42.
Definition PIT_CONTROL : Z := 0x43.
Definition PIT_CONTROL_BINARY : Z := 0x0.
Definition PIT_CONTROL_BCD : Z := 0x1.
Definition PIT_CONTROL_MODE0 : Z := 0x0.
Definition PIT_CONTROL_MODE1 : Z := 0x2.
Definition PIT_CONTROL_MODE2 : Z := 0x4.
Definition PIT_CONTROL_MODE3 : Z := 0x6.
Definition PIT_CONTROL_MODE4 : Z := 0x8.
Definition PIT_CONTROL_MODE5 : Z := 0xa.
Definition PIT_CONTROL_LATCH : Z := 0x00.
Definition PIT_CONTROL_LOW8BIT : Z := 0x10.
Definition PIT_CONTROL_HIGH8BIT : Z := 0x20.
Definition PIT_CONTROL_16BIT : Z := 0x30.
Definition PIT_CONTROL_COUNTER0 : Z := 0x00.
Definition PIT_CONTROL_COUNTER1 : Z := 0x40.
Definition PIT_CONTROL_COUNTER2 : Z := 0x80.
Definition PIT_CONTROL_READBACK : Z := 0xc0.

(** The rest. *)
Definition VMM_MINSTACKSIZE : Z := 3072.

(** ** inc/hvm/vt_ept.h *)

Definition P2M_READABLE : Z := 0x01.
Definition P2M_WRITABLE : Z := 0x02.
Definition P2M_EXECUTABLE : Z := 0x04.
Definition P2M_UPDATE_MFN : Z := 0x01.
Definition P2M_UPDATE_REMAININGS : Z := 0x02.
Definition P2M_UPDATE_MT : Z := 0x04.
Definition MTRR_TYPE_WRBACK : Z := 6.
Definition MTRR_TYPE_UNCACHE : Z := 0.
Definition EPTE_SUPER_PAGE_MASK : Z := 0x80.
Definition EPTE_MFN_MASK : Z := 0xffffffffff000.
Definition EPTE_AVAIL1_MASK : Z := 0xF00.
Definition EPTE_EMT_MASK : Z := 0x38.
Definition EPTE_IGMT_MASK : Z := 0x40.
Definition EPTE_AVAIL1_SHIFT : Z := 8.
Definition EPTE_EMT_SHIFT : Z := 3.
Definition EPTE_IGMT_SHIFT : Z := 6.

Definition ept_entry_t : layout :=
  [("r", 1); ("w", 1); ("x", 1); ("emt", 3); ("ipat", 1); ("sp", 1); ("avail1", 4); ("mfn", 40); ("avail2", 12)].
Definition ept_control : layout := [("ept_mt", 3); ("ept_wl", 3); ("rsvd", 6); ("asr", 52)].

(** ** inc/elf.h *)

Definition ELF_PROG_LOAD : Z := 1.
Definition ELF_PROG_FLAG_EXEC : Z := 1.
Definition ELF_PROG_FLAG_WRITE : Z := 2.
Definition ELF_PROG_FLAG_READ : Z := 4.
Definition ELF_SHT_NULL : Z := 0.
Definition ELF_SHT_PROGBITS : Z := 1.
Definition ELF_SHT_SYMTAB : Z := 2.
Definition ELF_SHT_STRTAB : Z := 3.
Definition ELF_SHN_UNDEF : Z := 0.

(** ** inc/kbdreg.h and inc/stab.h *)

Definition KBS_IBF : Z := 0x02.
Definition KBS_WARM : Z := 0x04.
Definition KBS_OCMD : Z := 0x08.
Definition KBS_NOSEC : Z := 0x10.
Definition KBS_TERR : Z := 0x20.
Definition KBS_RERR : Z := 0x40.
Definition KBS_PERR : Z := 0x80.
Definition KBCMDP : Z := 0x64.
Definition KBC_RAMREAD : Z := 0x20.
Definition KBC_RAMWRITE : Z := 0x60.
Definition KBC_AUXDISABLE : Z := 0xa7.
Definition KBC_AUXENABLE : Z := 0xa8.
Definition KBC_AUXTEST : Z := 0xa9.
Definition KBC_KBDECHO : Z := 0xd2.
Definition KBC_AUXECHO : Z := 0xd3.
Definition KBC_AUXWRITE : Z := 0xd4.
Definition KBC_SELFTEST : Z := 0xaa.
Definition KBC_KBDTEST : Z := 0xab.
Definition KBC_KBDDISABLE : Z := 0xad.
Definition KBC_KBDENABLE : Z := 0xae.
Definition KBC_PULSE0 : Z := 0xfe.
Definition KBC_PULSE1 : Z := 0xfd.
Definition KBC_PULSE2 : Z := 0xfb.
Definition KBC_PULSE3 : Z := 0xf7.
Definition KBOUTP : Z := 0x60.
Definition K_RDCMDBYTE : Z := 0x20.
Definition K_LDCMDBYTE : Z := 0x60.
Definition KC8_TRANS : Z := 0x40.
Definition KC8_MDISABLE : Z := 0x20.
Definition KC8_KDISABLE : Z := 0x10.
Definition KC8_IGNSEC : Z := 0x08.
Definition KC8_CPU : Z := 0x04.
Definition KC8_MENABLE : Z := 0x02.
Definition KC8_KENABLE : Z := 0x01.
Definition CMDBYTE : Z := Z.lor (Z.lor (Z.lor KC8_TRANS KC8_CPU) KC8_MENABLE) KC8_KENABLE.
Definition KBC_RESET : Z := 0xff.
Definition KBC_RESEND : Z := 0xfe.
Definition KBC_SETDEFAULT : Z := 0xf6.
Definition KBC_DISABLE : Z := 0xf5.
Definition KBC_ENABLE : Z := 0xf4.
Definition KBC_TYPEMATIC : Z := 0xf3.
Definition KBC_SETTABLE : Z := 0xf0.
Definition KBC_MODEIND : Z := 0xed.
Definition KBC_ECHO : Z := 0xee.
Definition KBR_EXTENDED : Z := 0xe0.
Definition KBR_RESEND : Z := 0xfe.
Definition KBR_ACK : Z := 0xfa.
Definition KBR_OVERRUN : Z := 0x00.
Definition KBR_FAILURE : Z := 0xfd.
Definition KBR_BREAK : Z := 0xf0.
Definition KBR_RSTDONE : Z := 0xaa.
Definition KBR_ECHO : Z := 0xee.

Definition N_GSYM : Z := 0x20.
Definition N_FNAME : Z := 0x22.
Definition N_STSYM : Z := 0x26.
Definition N_LCSYM : Z := 0x28.
Definition N_MAIN : Z := 0x2a.
Definition N_PC : Z := 0x30.
Definition N_RSYM : Z := 0x40.
Definition N_DSLINE : Z := 0x46.
Definition N_BSLINE : Z := 0x48.
Definition N_SSYM : Z := 0x60.
Definition N_LSYM : Z := 0x80.
Definition N_BINCL : Z := 0x82.
Definition N_EINCL : Z := 0xa2.
Definition N_ENTRY : Z := 0xa4.
Definition N_LBRAC : Z := 0xc0.
Definition N_EXCL : Z := 0xc2.
Definition N_RBRAC : Z := 0xe0.
Definition N_BCOMM : Z := 0xe2.
Definition N_ECOMM : Z := 0xe4.
Definition N_ECOML : Z := 0xe8.
Definition N_LENG : Z := 0xfe.

(** ** Tables *)

(** The flags of each register, header by header, with its width. *)
Definition registers : list (string * Z * list Z) := [
   ("CR0", 32, [CR0_PE; CR0_PG; CR0_MP; CR0_EM; CR0_TS; CR0_ET; CR0_NE; CR0_WP; CR0_AM; CR0_NW; CR0_CD]);
   ("CR0", 32, [CR0_PE_BIT; CR0_MP_BIT; CR0_EM_BIT; CR0_TS_BIT; CR0_ET_BIT; CR0_WP_BIT; CR0_AM_BIT; CR0_NW_BIT;
     CR0_CD_BIT; CR0_PG_BIT; CR0_NE_BIT]);
   ("CR4", 32, [CR4_PCE; CR4_MCE; CR4_PSE; CR4_DE; CR4_TSD; CR4_PVI; CR4_VME]);
   ("CR4", 32, [CR4_VME_BIT; CR4_PVI_BIT; CR4_TSD_BIT; CR4_DE_BIT; CR4_PSE_BIT; CR4_PAE_BIT; CR4_MCE_BIT; CR4_PGE_BIT;
     CR4_PCE_BIT; CR4_OSFXSR_BIT; CR4_OSXMMEXCPT_BIT; CR4_OSXSAVE_BIT; CR4_VMXE_BIT]);
   ("XCR0", 64, [XCR0_X87_STATE_BIT; XCR0_SSE_STATE_BIT]);
   ("EFLAGS", 32, [FL_CF; FL_PF; FL_AF; FL_ZF; FL_SF; FL_TF; FL_IF; FL_DF; FL_OF; FL_NT; FL_RF; FL_VM; FL_AC; FL_VIF;
     FL_VIP; FL_ID]);
   ("RFLAGS", 32, [RFLAGS_ALWAYS1_BIT; RFLAGS_CF_BIT; RFLAGS_PF_BIT; RFLAGS_AF_BIT; RFLAGS_ZF_BIT; RFLAGS_SF_BIT;
     RFLAGS_TF_BIT; RFLAGS_IF_BIT; RFLAGS_DF_BIT; RFLAGS_OF_BIT; RFLAGS_NT_BIT; RFLAGS_RF_BIT; RFLAGS_VM_BIT;
     RFLAGS_AC_BIT; RFLAGS_VIF_BIT; RFLAGS_VIP_BIT; RFLAGS_ID_BIT]);
   ("page directory entry", 64, [PDE_P_BIT; PDE_RW_BIT; PDE_US_BIT; PDE_PWT_BIT; PDE_PCD_BIT; PDE_A_BIT; PDE_D_BIT; PDE_PS_BIT; PDE_G_BIT;
     PDE_AVAILABLE1_BIT; PDE_AVAILABLE2_BIT; PDE_AVAILABLE3_BIT; PDE_NX_BIT; PDE_PS_PAT_BIT]);
   ("page table entry", 64, [PTE_P_BIT; PTE_RW_BIT; PTE_US_BIT; PTE_PWT_BIT; PTE_PCD_BIT; PTE_A_BIT; PTE_D_BIT; PTE_PAT_BIT;
     PTE_G_BIT; PTE_AVAILABLE1_BIT; PTE_AVAILABLE2_BIT; PTE_AVAILABLE3_BIT; PTE_NX_BIT]);
   ("page table entry", 32, [PTE_P; PTE_W; PTE_U; PTE_PWT; PTE_PCD; PTE_A; PTE_D; PTE_PS]);
   ("page fault", 32, [FEC_PR; FEC_WR; FEC_U]);
   ("page fault", 32, [PAGEFAULT_ERR_P_BIT; PAGEFAULT_ERR_WR_BIT; PAGEFAULT_ERR_US_BIT; PAGEFAULT_ERR_RSVD_BIT;
     PAGEFAULT_ERR_ID_BIT]);
   ("exception error code", 32, [EXCEPTION_ERR_EXT_BIT; EXCEPTION_ERR_IDT_BIT; EXCEPTION_ERR_TI_BIT]);
   ("EDX of leaf 1", 32, [CPUID_1_EDX_PSE_BIT; CPUID_1_EDX_TSC_BIT; CPUID_1_EDX_MSR_BIT; CPUID_1_EDX_PAE_BIT; CPUID_1_EDX_APIC_BIT;
     CPUID_1_EDX_SEP_BIT]);
   ("EFER", 64, [MSR_IA32_EFER_SCE_BIT; MSR_IA32_EFER_LME_BIT; MSR_IA32_EFER_LMA_BIT; MSR_IA32_EFER_NXE_BIT;
     MSR_IA32_EFER_SVME_BIT; MSR_IA32_EFER_FFXSR_BIT]);
   ("interruptibility", 32, [VMCS_GUEST_INTERRUPTIBILITY_STATE_BLOCKING_BY_STI_BIT;
     VMCS_GUEST_INTERRUPTIBILITY_STATE_BLOCKING_BY_MOV_SS_BIT;
     VMCS_GUEST_INTERRUPTIBILITY_STATE_BLOCKING_BY_SMI_BIT;
     VMCS_GUEST_INTERRUPTIBILITY_STATE_BLOCKING_BY_NMI_BIT]);
   ("keyboard status", 8, [KBS_DIB; KBS_IBF; KBS_WARM; KBS_OCMD; KBS_NOSEC; KBS_TERR; KBS_RERR; KBS_PERR]);
   ("keyboard command byte", 8, [KC8_TRANS; KC8_MDISABLE; KC8_KDISABLE; KC8_IGNSEC; KC8_CPU; KC8_MENABLE; KC8_KENABLE])].

(** What inc/mmu.h or inc/trap.h and inc/hvm/constants.h both define. *)
Definition shared_constants : list (Z * Z) :=
  [(CR0_PE, CR0_PE_BIT); (CR0_MP, CR0_MP_BIT); (CR0_EM, CR0_EM_BIT); (CR0_TS, CR0_TS_BIT);
     (CR0_ET, CR0_ET_BIT); (CR0_NE, CR0_NE_BIT); (CR0_WP, CR0_WP_BIT); (CR0_AM, CR0_AM_BIT);
     (CR0_NW, CR0_NW_BIT); (CR0_CD, CR0_CD_BIT); (CR0_PG, CR0_PG_BIT); (CR4_PCE, CR4_PCE_BIT);
     (CR4_MCE, CR4_MCE_BIT); (CR4_PSE, CR4_PSE_BIT); (CR4_DE, CR4_DE_BIT); (CR4_TSD, CR4_TSD_BIT);
     (CR4_PVI, CR4_PVI_BIT); (CR4_VME, CR4_VME_BIT); (FL_CF, RFLAGS_CF_BIT); (FL_PF, RFLAGS_PF_BIT);
     (FL_AF, RFLAGS_AF_BIT); (FL_ZF, RFLAGS_ZF_BIT); (FL_SF, RFLAGS_SF_BIT); (FL_TF, RFLAGS_TF_BIT);
     (FL_IF, RFLAGS_IF_BIT); (FL_DF, RFLAGS_DF_BIT); (FL_OF, RFLAGS_OF_BIT); (FL_NT, RFLAGS_NT_BIT);
     (FL_RF, RFLAGS_RF_BIT); (FL_VM, RFLAGS_VM_BIT); (FL_AC, RFLAGS_AC_BIT); (FL_VIF, RFLAGS_VIF_BIT);
     (FL_VIP, RFLAGS_VIP_BIT); (FL_ID, RFLAGS_ID_BIT); (FL_IOPL_MASK, RFLAGS_IOPL_MASK);
     (FL_IOPL_0, RFLAGS_IOPL_0); (FL_IOPL_1, RFLAGS_IOPL_1); (FL_IOPL_2, RFLAGS_IOPL_2);
     (FL_IOPL_3, RFLAGS_IOPL_3); (PTE_P, PTE_P_BIT); (PTE_P, PDE_P_BIT); (PTE_W, PTE_RW_BIT);
     (PTE_W, PDE_RW_BIT); (PTE_U, PTE_US_BIT); (PTE_U, PDE_US_BIT); (PTE_PWT, PTE_PWT_BIT);
     (PTE_PWT, PDE_PWT_BIT); (PTE_PCD, PTE_PCD_BIT); (PTE_PCD, PDE_PCD_BIT); (PTE_A, PTE_A_BIT);
     (PTE_A, PDE_A_BIT); (PTE_D, PTE_D_BIT); (PTE_D, PDE_D_BIT); (PTE_PS, PDE_PS_BIT);
     (PTE_AVAIL, PTE_AVAILABLE_MASK); (PTE_AVAIL, PDE_AVAILABLE_MASK); (FEC_PR, PAGEFAULT_ERR_P_BIT);
     (FEC_WR, PAGEFAULT_ERR_WR_BIT); (FEC_U, PAGEFAULT_ERR_US_BIT); (T_DIVIDE, EXCEPTION_DE);
     (T_DEBUG, EXCEPTION_DB); (T_NMI, EXCEPTION_NMI); (T_BRKPT, EXCEPTION_BP); (T_OFLOW, EXCEPTION_OF);
     (T_BOUND, EXCEPTION_BR); (T_ILLOP, EXCEPTION_UD); (T_DEVICE, EXCEPTION_NM); (T_DBLFLT, EXCEPTION_DF);
     (T_TSS, EXCEPTION_TS); (T_SEGNP, EXCEPTION_NP); (T_STACK, EXCEPTION_SS); (T_GPFLT, EXCEPTION_GP);
     (T_PGFLT, EXCEPTION_PF); (T_FPERR, EXCEPTION_MF); (T_ALIGN, EXCEPTION_AC); (T_MCHK, EXCEPTION_MC);
     (T_SIMDERR, EXCEPTION_XM); (PGSIZE, PAGESIZE); (PGSHIFT, PAGESIZE_SHIFT); (PTSIZE, PAGESIZE4M);
     (PTSHIFT, PAGESIZE4M_SHIFT)].

(** The exit codes of AMD in the order of the header, without the last two. *)
Definition vmexit_codes : list Z :=
  [VMEXIT_CR0_READ; VMEXIT_CR1_READ; VMEXIT_CR2_READ; VMEXIT_CR3_READ; VMEXIT_CR4_READ; VMEXIT_CR5_READ;
     VMEXIT_CR6_READ; VMEXIT_CR7_READ; VMEXIT_CR8_READ; VMEXIT_CR9_READ; VMEXIT_CR10_READ; VMEXIT_CR11_READ;
     VMEXIT_CR12_READ; VMEXIT_CR13_READ; VMEXIT_CR14_READ; VMEXIT_CR15_READ; VMEXIT_CR0_WRITE;
     VMEXIT_CR1_WRITE; VMEXIT_CR2_WRITE; VMEXIT_CR3_WRITE; VMEXIT_CR4_WRITE; VMEXIT_CR5_WRITE;
     VMEXIT_CR6_WRITE; VMEXIT_CR7_WRITE; VMEXIT_CR8_WRITE; VMEXIT_CR9_WRITE; VMEXIT_CR10_WRITE;
     VMEXIT_CR11_WRITE; VMEXIT_CR12_WRITE; VMEXIT_CR13_WRITE; VMEXIT_CR14_WRITE; VMEXIT_CR15_WRITE;
     VMEXIT_DR0_READ; VMEXIT_DR1_READ; VMEXIT_DR2_READ; VMEXIT_DR3_READ; VMEXIT_DR4_READ; VMEXIT_DR5_READ;
     VMEXIT_DR6_READ; VMEXIT_DR7_READ; VMEXIT_DR8_READ; VMEXIT_DR9_READ; VMEXIT_DR10_READ; VMEXIT_DR11_READ;
     VMEXIT_DR12_READ; VMEXIT_DR13_READ; VMEXIT_DR14_READ; VMEXIT_DR15_READ; VMEXIT_DR0_WRITE;
     VMEXIT_DR1_WRITE; VMEXIT_DR2_WRITE; VMEXIT_DR3_WRITE; VMEXIT_DR4_WRITE; VMEXIT_DR5_WRITE;
     VMEXIT_DR6_WRITE; VMEXIT_DR7_WRITE; VMEXIT_DR8_WRITE; VMEXIT_DR9_WRITE; VMEXIT_DR10_WRITE;
     VMEXIT_DR11_WRITE; VMEXIT_DR12_WRITE; VMEXIT_DR13_WRITE; VMEXIT_DR14_WRITE; VMEXIT_DR15_WRITE;
     VMEXIT_EXCP0; VMEXIT_EXCP1; VMEXIT_EXCP2; VMEXIT_EXCP3; VMEXIT_EXCP4; VMEXIT_EXCP5; VMEXIT_EXCP6;
     VMEXIT_EXCP7; VMEXIT_EXCP8; VMEXIT_EXCP9; VMEXIT_EXCP10; VMEXIT_EXCP11; VMEXIT_EXCP12; VMEXIT_EXCP13;
     VMEXIT_EXCP14; VMEXIT_EXCP15; VMEXIT_EXCP16; VMEXIT_EXCP17; VMEXIT_EXCP18; VMEXIT_EXCP19; VMEXIT_EXCP20;
     VMEXIT_EXCP21; VMEXIT_EXCP22; VMEXIT_EXCP23; VMEXIT_EXCP24; VMEXIT_EXCP25; VMEXIT_EXCP26; VMEXIT_EXCP27;
     VMEXIT_EXCP28; VMEXIT_EXCP29; VMEXIT_EXCP30; VMEXIT_EXCP31; VMEXIT_INTR; VMEXIT_NMI; VMEXIT_SMI;
     VMEXIT_INIT; VMEXIT_VINTR; VMEXIT_CR0_SEL_WRITE; VMEXIT_IDTR_READ; VMEXIT_GDTR_READ; VMEXIT_LDTR_READ;
     VMEXIT_TR_READ; VMEXIT_IDTR_WRITE; VMEXIT_GDTR_WRITE; VMEXIT_LDTR_WRITE; VMEXIT_TR_WRITE; VMEXIT_RDTSC;
     VMEXIT_RDPMC; VMEXIT_PUSHF; VMEXIT_POPF; VMEXIT_CPUID; VMEXIT_RSM; VMEXIT_IRET; VMEXIT_SWINT;
     VMEXIT_INVD; VMEXIT_PAUSE; VMEXIT_HLT; VMEXIT_INVLPG; VMEXIT_INVLPGA; VMEXIT_IOIO; VMEXIT_MSR;
     VMEXIT_TASK_SWITCH; VMEXIT_FERR_FREEZE; VMEXIT_SHUTDOWN; VMEXIT_VMRUN; VMEXIT_VMMCALL; VMEXIT_VMLOAD;
     VMEXIT_VMSAVE; VMEXIT_STGI; VMEXIT_CLGI; VMEXIT_SKINIT; VMEXIT_RDTSCP; VMEXIT_ICEBP; VMEXIT_WBINVD;
     VMEXIT_MONITOR; VMEXIT_MWAIT; VMEXIT_MWAIT_CONDITIONAL].

(** The types of stabs. *)
Definition stab_types : list Z :=
  [N_GSYM; N_FNAME; N_STSYM; N_LCSYM; N_MAIN; N_PC; N_RSYM; N_DSLINE; N_BSLINE; N_SSYM; N_LSYM; N_BINCL;
     N_EINCL; N_ENTRY; N_LBRAC; N_EXCL; N_RBRAC; N_BCOMM; N_ECOMM; N_ECOML; N_LENG].

(** ** Flags *)

Local Open Scope Z_scope.

Definition distinct_bits (n : Z) (l : list Z) : bool :=
  forallb (fun b => (b =? 2 ^ Z.log2 b) && (Z.log2 b <? n)) l && bool_decide (NoDup l).

Lemma distinct_bits_spec n l :
  distinct_bits n l = true ->
  (forall b, b ∈ l -> exists i, 0 <= i < n /\ b = 2 ^ i) /\ NoDup l /\ forall a b, a ∈ l -> b ∈ l -> a <> b -> Z.land a b = 0.
Proof.
  unfold distinct_bits. intros [H1 H2%bool_decide_eq_true]%andb_prop.
  assert (Hb : forall b, b ∈ l -> exists i, 0 <= i < n /\ b = 2 ^ i).
  { intros b Hb. rewrite forallb_forall in H1. apply list_elem_of_In in Hb. apply H1 in Hb as [E%Z.eqb_eq Hlt%Z.ltb_lt]%andb_prop.
    exists (Z.log2 b). pose proof (Z.log2_nonneg b). split; [lia|done]. }
  split; [done|]. split; [done|]. intros a b Ha Hb' Hne. apply Hb in Ha as (i & Hi & ->). apply Hb in Hb' as (j & Hj & ->).
  apply Z.bits_inj'. intros k Hk. rewrite Z.land_spec, Z.bits_0, !Z.pow2_bits_eqb by lia.
  destruct (Z.eqb_spec i k), (Z.eqb_spec j k); try done. subst. done.
Qed.

(** A check of the tables: in every table of flags each flag is one bit of its register, and no two are
    the same; and the headers agree: what inc/mmu.h and inc/trap.h say of the
    control registers, EFLAGS, page table entries, page faults, trap numbers and page
    sizes is what inc/hvm/constants.h says. *)
Lemma processor_constants_agree :
  (forall r n l, (r, n, l) ∈ registers ->
     (forall b, b ∈ l -> exists i, 0 <= i < n /\ b = 2 ^ i) /\ NoDup l /\ forall a b, a ∈ l -> b ∈ l -> a <> b -> Z.land a b = 0) /\
  (forall a b, (a, b) ∈ shared_constants -> a = b).
Proof.
  split.
  - intros r n l H. apply distinct_bits_spec.
    assert (Hall : forallb (fun '(_, n, l) => distinct_bits n l) registers = true) by (vm_compute; reflexivity).
    rewrite forallb_forall in Hall. exact (Hall _ (proj1 (list_elem_of_In _ _) H)).
  - intros a b H. assert (Hall : forallb (fun '(a, b) => a =? b) shared_constants = true) by (vm_compute; reflexivity).
    rewrite forallb_forall in Hall. apply Z.eqb_eq. exact (Hall _ (proj1 (list_elem_of_In _ _) H)).
Qed.

(** The two masks split the flags of RFLAGS. *)
Lemma rflags_masks :
  Z.land RFLAGS_SYS_MASK RFLAGS_NONSYS_MASK = 0 /\
  Z.lor (Z.lor RFLAGS_SYS_MASK RFLAGS_NONSYS_MASK) RFLAGS_ALWAYS1_BIT =
    foldr Z.lor RFLAGS_IOPL_MASK [RFLAGS_ALWAYS1_BIT; RFLAGS_CF_BIT; RFLAGS_PF_BIT; RFLAGS_AF_BIT; RFLAGS_ZF_BIT; RFLAGS_SF_BIT;
     RFLAGS_TF_BIT; RFLAGS_IF_BIT; RFLAGS_DF_BIT; RFLAGS_OF_BIT; RFLAGS_NT_BIT; RFLAGS_RF_BIT; RFLAGS_VM_BIT;
     RFLAGS_AC_BIT; RFLAGS_VIF_BIT; RFLAGS_VIP_BIT; RFLAGS_ID_BIT].
Proof. split; vm_compute; reflexivity. Qed.

(** The masks have no parentheses: [x & RFLAGS_SYS_MASK] is [x & RFLAGS_TF_BIT] with
    the other flags added, whatever [x] is. *)
Definition and_RFLAGS_SYS_MASK (x : Z) : Z :=
  Z.lor (Z.lor (Z.lor (Z.lor (Z.lor (Z.lor (Z.lor (Z.lor (Z.lor (Z.land x RFLAGS_TF_BIT) RFLAGS_IF_BIT) RFLAGS_IOPL_MASK) RFLAGS_NT_BIT)
    RFLAGS_RF_BIT) RFLAGS_VM_BIT) RFLAGS_AC_BIT) RFLAGS_VIF_BIT) RFLAGS_VIP_BIT) RFLAGS_ID_BIT.

Lemma and_RFLAGS_SYS_MASK_wrong x : Z.testbit (and_RFLAGS_SYS_MASK x) 9 = true /\ and_RFLAGS_SYS_MASK 0 <> Z.land 0 RFLAGS_SYS_MASK.
Proof. split; [|by vm_compute]. unfold and_RFLAGS_SYS_MASK. rewrite !Z.lor_spec. by rewrite orb_true_r. Qed.

(** ** Codes *)

(** AMD's exit codes have no gap: the code of an access to control or debug register
    [n], or of exception [n], is its base plus [n]. *)
Lemma vmexit_codes_seq : vmexit_codes = seqZ 0 141.
Proof. vm_compute. reflexivity. Qed.

Lemma stab_types_distinct : NoDup stab_types.
Proof. apply (bool_decide_eq_true (NoDup stab_types)). vm_compute. reflexivity. Qed.

(** Section types are different from each other, and the flags of a segment are three
    different bits. *)
Lemma elf_codes :
  NoDup [ELF_SHT_NULL; ELF_SHT_PROGBITS; ELF_SHT_SYMTAB; ELF_SHT_STRTAB] /\
  Z.lor (Z.lor ELF_PROG_FLAG_EXEC ELF_PROG_FLAG_WRITE) ELF_PROG_FLAG_READ = Z.ones 3 /\
  ELF_PROG_FLAG_EXEC + ELF_PROG_FLAG_WRITE + ELF_PROG_FLAG_READ = Z.ones 3.
Proof. split; [|done]. apply (bool_decide_unpack _). vm_compute. exact I. Qed.

(** ** Masks *)

(** Pages of 4 kB, 2 MB and 4 MB: the masks split an address of 32 bits into the
    number of the page and the offset. *)
Lemma page_masks :
  (forall x, Z.land x PAGESIZE_MASK = x mod 2 ^ PAGESIZE_SHIFT) /\
  (forall x, Z.land x PAGESIZE2M_MASK = x mod 2 ^ PAGESIZE2M_SHIFT) /\
  (forall x, Z.land x PAGESIZE4M_MASK = x mod 2 ^ PAGESIZE4M_SHIFT) /\
  PDE_4M_OFFSET_MASK = PAGESIZE4M_MASK /\ PDE_2M_OFFSET_MASK = PAGESIZE2M_MASK /\ PTE_ATTR_MASK = PAGESIZE_MASK /\
  (forall x, Z.lor (Z.land x PDE_4M_ADDR_MASK) (Z.land x PDE_4M_OFFSET_MASK) = x) /\
  (forall x, Z.lor (Z.land x PDE_2M_ADDR_MASK) (Z.land x PDE_2M_OFFSET_MASK) = x) /\
  (forall x, 0 <= x < 2 ^ 32 -> Z.land x PTE_ADDR_MASK = PTE_ADDR x).
Proof.
  assert (Hsplit : forall x m, Z.lor (Z.land x (Z.lnot m)) (Z.land x m) = x).
  { intros x m. rewrite <- Z.land_lor_distr_r, Z.lor_comm, Z.lor_lnot_diag. apply Z.land_m1_r. }
  split_and!; try reflexivity; try (intros; apply Hsplit).
  - intros x. by apply (Z.land_ones x 12).
  - intros x. by apply (Z.land_ones x 21).
  - intros x. by apply (Z.land_ones x 22).
  - intros x Hx. unfold PTE_ADDR. by rewrite u32_small by lia.
Qed.

(** The masks and shifts of inc/hvm/vt_ept.h are those of the bit fields of
    ept_entry_t and ept_control, which Ept.v reads. *)
Definition field_mask (l : layout) (f : string) (w : Z) : option Z := (fun n => Z.shiftl (Z.ones w) n) <$> position l f.

Lemma ept_masks :
  sizeof ept_entry_t = 8 /\ sizeof ept_control = 8 /\
  field_mask ept_entry_t "sp" 1 = Some EPTE_SUPER_PAGE_MASK /\ field_mask ept_entry_t "mfn" 40 = Some EPTE_MFN_MASK /\
  field_mask ept_entry_t "avail1" 4 = Some EPTE_AVAIL1_MASK /\ field_mask ept_entry_t "emt" 3 = Some EPTE_EMT_MASK /\
  field_mask ept_entry_t "ipat" 1 = Some EPTE_IGMT_MASK /\ position ept_entry_t "avail1" = Some EPTE_AVAIL1_SHIFT /\
  position ept_entry_t "emt" = Some EPTE_EMT_SHIFT /\ position ept_entry_t "ipat" = Some EPTE_IGMT_SHIFT /\
  field_mask ept_entry_t "r" 1 = Some P2M_READABLE /\ field_mask ept_entry_t "w" 1 = Some P2M_WRITABLE /\
  field_mask ept_entry_t "x" 1 = Some P2M_EXECUTABLE /\
  P2M_FULL_ACCESS = Z.lor (Z.lor P2M_READABLE P2M_WRITABLE) P2M_EXECUTABLE /\
  P2M_UPDATE_ALL = Z.lor (Z.lor P2M_UPDATE_MFN P2M_UPDATE_REMAININGS) P2M_UPDATE_MT.
Proof. split_and!; vm_compute; reflexivity. Qed.

Lemma ept_fields x :
  mfn x = member (fields ept_entry_t x) "mfn" /\ ept_mt x = member (fields ept_control x) "ept_mt" /\
  ept_wl x = member (fields ept_control x) "ept_wl" /\ ept_rsvd x = member (fields ept_control x) "rsvd" /\
  ept_asr x = member (fields ept_control x) "asr".
Proof.
  unfold mfn, ept_mt, ept_wl, ept_rsvd, ept_asr, field. cbn [fields member ept_entry_t Constants.ept_control String.eqb Ascii.eqb Bool.eqb].
  rewrite !Z.land_ones, !Z.shiftr_div_pow2, !Z.div_div by lia. split_and!; try reflexivity. by rewrite Z.div_1_r.
Qed.
