(* ===== verification/SysRegs.v ===== *)
(** * SysRegs: the other instructions of inc/x86.h and inc/hvm/asm.h

    The functions around single instructions that nothing else models: writes to the
    segment and table registers, the control registers besides CR0 and CR3, EFLAGS,
    [cpuid].  They run on the processor of StartAsm.v with the registers it lacks.
    What [cpuid] and [int3] do are parameters. *)

From S2P Require Import Prelude Layout CString Ports Segment Structs Vmcs StartAsm Trap Constants.
Open Scope Z_scope.

(** ** The processor *)

(** [k_flags] is EFLAGS with the three flags that [k_cpu] keeps clear. *)
Record core : Type := MkCore {
  k_cpu : cpu;
  k_ldtr : seg; k_tr : seg; k_idtr : Z * Z;
  k_cr2 : Z; k_cr3 : Z; k_cr4 : Z;
  k_flags : Z;
  k_tsc : Z;
  k_cr8 : Z
}.
Definition set_cpu v k := MkCore v (k_ldtr k) (k_tr k) (k_idtr k) (k_cr2 k) (k_cr3 k) (k_cr4 k) (k_flags k) (k_tsc k) (k_cr8 k).
Definition set_ldtr v k := MkCore (k_cpu k) v (k_tr k) (k_idtr k) (k_cr2 k) (k_cr3 k) (k_cr4 k) (k_flags k) (k_tsc k) (k_cr8 k).
Definition set_tr v k := MkCore (k_cpu k) (k_ldtr k) v (k_idtr k) (k_cr2 k) (k_cr3 k) (k_cr4 k) (k_flags k) (k_tsc k) (k_cr8 k).
Definition set_idtr v k := MkCore (k_cpu k) (k_ldtr k) (k_tr k) v (k_cr2 k) (k_cr3 k) (k_cr4 k) (k_flags k) (k_tsc k) (k_cr8 k).
Definition set_cr2 v k := MkCore (k_cpu k) (k_ldtr k) (k_tr k) (k_idtr k) v (k_cr3 k) (k_cr4 k) (k_flags k) (k_tsc k) (k_cr8 k).
Definition set_cr3 v k := MkCore (k_cpu k) (k_ldtr k) (k_tr k) (k_idtr k) (k_cr2 k) v (k_cr4 k) (k_flags k) (k_tsc k) (k_cr8 k).
Definition set_cr4 v k := MkCore (k_cpu k) (k_ldtr k) (k_tr k) (k_idtr k) (k_cr2 k) (k_cr3 k) v (k_flags k) (k_tsc k) (k_cr8 k).
Definition set_flags v k := MkCore (k_cpu k) (k_ldtr k) (k_tr k) (k_idtr k) (k_cr2 k) (k_cr3 k) (k_cr4 k) v (k_tsc k) (k_cr8 k).
Definition set_cr8 v k := MkCore (k_cpu k) (k_ldtr k) (k_tr k) (k_idtr k) (k_cr2 k) (k_cr3 k) (k_cr4 k) (k_flags k) (k_tsc k) v.

Definition on_cpu {A} (m : M cpu A) : M core A := zoom k_cpu set_cpu m.

Definition push32 (v : Z) : M cpu () :=
  c ← gets id;
  let sp := u32 (c_sp c - 4) in
  x ← access SS sp 4; store x v 4;; modify (set_sp sp).
Definition pop32 : M cpu Z :=
  c ← gets id;
  x ← access SS (c_sp c) 4; v ← load x 4;
  modify (set_sp (u32 (c_sp c + 4)));; mret v.

(** A descriptor of the GDT that has to be a system descriptor of a type. *)
Definition system_descriptor (types : list Z) (sel : Z) : M cpu (Z * Segdesc) :=
  c ← gets id;
  let '(base, limit) := c_gdtr c in
  let index := Z.land sel 0xfff8 in
  if Z.testbit sel 2 || (index =? 0) || (limit <? index + 7) then fault
  else
    let a := u32 (base + index) in
    x ← load a 8;
    let d := segdesc_decode x in
    if negb (sd_p d =? 0) && (sd_s d =? 0) && bool_decide (sd_type d ∈ types) then mret (a, d) else fault.

(** A task may be loaded once: the processor marks its descriptor busy. *)
Definition busy (a : Z) (m : gmap Z Z) : gmap Z Z := alter (fun b => Z.lor b 2) (a + 5) m.
Definition load_ldtr (sel : Z) : M core () :=
  if Z.land sel 0xfffc =? 0 then modify (set_ldtr (null_seg sel))
  else
    '(_, d) ← on_cpu (system_descriptor [STS_LDT] sel);
    modify (set_ldtr (MkSegment sel (SEGDESC_BASE d) (segment_limit d) false)).
Definition load_tr (sel : Z) : M core () :=
  '(a, d) ← on_cpu (system_descriptor [STS_T16A; STS_T32A] sel);
  on_cpu (modify (fun c => set_c_ram (busy a (c_ram c)) c));;
  modify (set_tr (MkSegment sel (SEGDESC_BASE d) (segment_limit d) false)).

Definition put (i : Z) (b : bool) (x : Z) : Z := if b then Z.setbit x i else Z.clearbit x i.
Definition eflags (k : core) : Z := put 6 (c_zf (k_cpu k)) (put 9 (c_if (k_cpu k)) (put 10 (c_df (k_cpu k)) (k_flags k))).
Definition set_eflags (v : Z) (k : core) : core :=
  set_flags v (set_cpu (set_zf (Z.testbit v 6) (set_if (Z.testbit v 9) (set_df (Z.testbit v 10) (k_cpu k)))) k).

(** What popf may change at privilege 0 (RF is cleared), and what pushf shows. *)
Definition POPF_MASK : Z :=
  Z.ldiff (Z.lor RFLAGS_SYS_MASK RFLAGS_NONSYS_MASK) (Z.lor (Z.lor RFLAGS_VIP_BIT RFLAGS_VIF_BIT) (Z.lor RFLAGS_VM_BIT RFLAGS_RF_BIT)).
Definition popf (v : Z) (k : core) : core :=
  set_eflags (Z.lor (Z.land v POPF_MASK) (Z.ldiff (Z.ldiff (eflags k) POPF_MASK) RFLAGS_RF_BIT)) k.
Definition pushf (k : core) : Z := Z.land (eflags k) 0xfcffff.

(** ** inc/x86.h *)

Section x86.
Context (int : Z -> M core ()) (cpuid_leaf : Z -> Z * Z * Z * Z).

(** A C pointer: an offset in the data segment. *)
Definition load_at (p n : Z) : M cpu Z := x ← access DS p n; load x (Z.to_nat n).
Definition store_at (p v : Z) : M cpu () := x ← access DS p 4; store x v 4.

Definition breakpoint : M core () := int T_BRKPT.
Definition lidt (p : Z) : M core () :=
  limit ← on_cpu (load_at p 2); base ← on_cpu (load_at (u32 (p + 2)) 4); modify (set_idtr (base, limit)).
Definition lldt (sel : Z) : M core () := load_ldtr (u16 sel).
Definition rcr2 : M core Z := gets k_cr2.
Definition lcr4 (val : Z) : M core () := modify (set_cr4 (u32 val)).
Definition rcr4 : M core Z := gets k_cr4.
Definition read_eflags : M core Z := k ← gets id; on_cpu (push32 (pushf k));; on_cpu pop32.
Definition write_eflags (v : Z) : M core () := on_cpu (push32 (u32 v));; v ← on_cpu pop32; modify (popf v).
Definition read_ebp : M core Z := on_cpu (gets c_bp).
Definition read_esp : M core Z := on_cpu (gets c_sp).
Definition read_tsc : M core Z := gets (fun k => u64 (k_tsc k)).
Definition cpuid (info eaxp ebxp ecxp edxp : Z) : M core () :=
  let '(eax, ebx, ecx, edx) := cpuid_leaf (u32 info) in
  let put_at p v := if p =? 0 then mret tt else on_cpu (store_at p v) in
  put_at eaxp eax;; put_at ebxp ebx;; put_at ecxp ecx;; put_at edxp edx.
End x86.

(** ** inc/hvm/asm.h *)

Definition SW_SREG_ES_BIT : Z := Z.shiftl 1 0.
Definition SW_SREG_CS_BIT : Z := Z.shiftl 1 1.
Definition SW_SREG_SS_BIT : Z := Z.shiftl 1 2.
Definition SW_SREG_DS_BIT : Z := Z.shiftl 1 3.
Definition SW_SREG_FS_BIT : Z := Z.shiftl 1 4.
Definition SW_SREG_GS_BIT : Z := Z.shiftl 1 5.

Definition asm_rdcr2 : M core Z := gets k_cr2.
Definition asm_wrcr2 (cr2 : Z) : M core () := modify (set_cr2 (u32 cr2)).
Definition asm_wrcr3 (cr3 : Z) : M core () := modify (set_cr3 (u32 cr3)).
(** 64-bit code only.  CR8 is the task priority in four bits; to set another is a
    general protection fault. *)
Definition asm_rdcr8 : M core Z := gets k_cr8.
Definition asm_wrcr8 (cr8 : Z) : M core () := if u64 cr8 <? 16 then modify (set_cr8 (u64 cr8)) else fault.
Definition asm_wres (es : Z) : M core () := on_cpu (load_segment_reg ES (u16 es)).
Definition asm_wrss (ss : Z) : M core () := on_cpu (load_segment_reg SS (u16 ss)).
Definition asm_wrds (ds : Z) : M core () := on_cpu (load_segment_reg DS (u16 ds)).
Definition asm_wrfs (fs : Z) : M core () := on_cpu (load_segment_reg FS (u16 fs)).
Definition asm_wrgs (gs : Z) : M core () := on_cpu (load_segment_reg GS (u16 gs)).

(** The far return takes the offset of the label behind it, and then the selector,
    from the stack.  [here] is the address of that label; to go anywhere else is
    not modelled. *)
Definition asm_wrcs (here cs : Z) : M core () :=
  on_cpu (push32 (u16 cs);; push32 here;;
          ip ← pop32; sel ← pop32;
          load_segment_reg CS (u16 sel);;
          if ip =? here then mret tt else fault).
Definition asm_wrldtr (ldtr : Z) : M core () := load_ldtr (u16 ldtr).
Definition asm_wrtr (tr : Z) : M core () := load_tr (u16 tr).

(** The structure of type descreg is the operand: its base and its 16-bit limit. *)
Definition asm_wrgdtr (gdtbase gdtlimit : Z) : M core () := on_cpu (modify (set_gdtr (u32 gdtbase, u16 gdtlimit))).
Definition asm_wridtr (idtbase idtlimit : Z) : M core () := modify (set_idtr (u32 idtbase, u16 idtlimit)).

(** ** EFLAGS *)

Lemma put_spec i b x j : 0 <= i -> 0 <= j -> Z.testbit (put i b x) j = if j =? i then b else Z.testbit x j.
Proof.
  intros Hi Hj. unfold put. destruct b; [rewrite Z.setbit_eqb by done|rewrite Z.clearbit_eqb]; destruct (Z.eqb_spec i j), (Z.eqb_spec j i); try lia; cbn;
    by rewrite ?andb_false_r, ?andb_true_r.
Qed.

Lemma eflags_set v k : eflags (set_eflags v k) = v.
Proof.
  apply Z.bits_inj'. intros j Hj. unfold eflags. rewrite !put_spec by lia. cbn.
  destruct (Z.eqb_spec j 6) as [->|]; [done|]. destruct (Z.eqb_spec j 9) as [->|]; [done|]. by destruct (Z.eqb_spec j 10) as [->|].
Qed.

(** ** The stack *)

(** [n] bytes of stack below ESP, in a segment that covers all of memory. *)
Definition stack_room (n : Z) (c : cpu) : Prop :=
  seg_base (c_seg c SS) = 0 /\ seg_limit (c_seg c SS) = 2 ^ 32 - 1 /\ n <= c_sp c < 2 ^ 32 /\ mapped (c_ram c) (c_sp c - n) n.

Lemma wp_push32 v (Q : () -> cpu -> Prop) c n :
  stack_room n c -> 4 <= n -> Q tt (set_sp (c_sp c - 4) (set_c_ram (write (c_ram c) (c_sp c - 4) (little_endian v 4)) c)) -> wp (push32 v) Q c.
Proof.
  intros (Hb & Hl & Hs & Hm) Hn HQ. unfold push32, access, linear. wp_go. unfold id. rewrite (u32_small (c_sp c - 4)) by lia.
  replace (c_sp c - 4 + 4 - 1 <=? seg_limit (c_seg c SS)) with true by lia. wp_go. rewrite Hb, Z.add_0_l, u32_small by lia.
  apply wp_store; [intros a Ha; apply Hm; lia|]. wp_go. exact HQ.
Qed.

Lemma wp_pop32 l (Q : Z -> cpu -> Prop) c :
  seg_base (c_seg c SS) = 0 -> seg_limit (c_seg c SS) = 2 ^ 32 - 1 -> 0 <= c_sp c < 2 ^ 32 - 4 ->
  array (c_ram c) (c_sp c) l -> length l = 4%nat -> Q (le l) (set_sp (c_sp c + 4) c) -> wp pop32 Q c.
Proof.
  intros Hb Hl Hs Ha Hn HQ. unfold pop32, access, linear. wp_go. unfold id.
  replace (c_sp c + 4 - 1 <=? seg_limit (c_seg c SS)) with true by lia. wp_go. rewrite Hb, Z.add_0_l, u32_small by lia.
  eapply wp_load; [exact Ha|exact Hn|]. wp_go. by rewrite u32_small by lia.
Qed.

Lemma stack_room_push n c v :
  stack_room n c -> 4 <= n -> stack_room (n - 4) (set_sp (c_sp c - 4) (set_c_ram (write (c_ram c) (c_sp c - 4) v) c)).
Proof.
  intros (Hb & Hl & Hs & Hm) Hn. split; [exact Hb|]. split; [exact Hl|]. cbn. split; [lia|]. apply mapped_write.
  replace (c_sp c - 4 - (n - 4)) with (c_sp c - n) by lia. intros a Ha. apply Hm. lia.
Qed.

(** [asm_wrcs] loads the selector into CS and goes on behind itself; the stack pointer
    is as before, and memory but for the two words below it and the accessed mark. *)
Theorem asm_wrcs_correct k here cs b l :
  stack_room 8 (k_cpu k) -> c_sp (k_cpu k) < 2 ^ 32 - 4 -> 0 <= here < 2 ^ 32 -> 0 <= cs < 2 ^ 16 ->
  (let c := k_cpu k in describes c CS cs b l /\
   (u32 ((c_gdtr c).1 + cs) + 8 <= c_sp c - 8 \/ c_sp c <= u32 ((c_gdtr c).1 + cs))) ->
  exists c, asm_wrcs here cs k = Ret tt (set_cpu c k) /\ c_seg c CS = loaded_seg cs b /\ (forall r, r <> CS -> c_seg c r = c_seg (k_cpu k) r) /\
    c_sp c = c_sp (k_cpu k) /\
    c_ram c = accessed (u32 ((c_gdtr (k_cpu k)).1 + cs))
      (write (write (c_ram (k_cpu k)) (c_sp (k_cpu k) - 4) (little_endian cs 4)) (c_sp (k_cpu k) - 8) (little_endian here 4)).
Proof.
  intros Hst Hsp Hh Hcs [Hd Hap]. set (c0 := k_cpu k) in *.
  enough (H : wp (push32 (u16 cs);; push32 here;; ip ← pop32; sel ← pop32; load_segment_reg CS (u16 sel);; if ip =? here then mret tt else fault)
    (fun _ c => c_seg c CS = loaded_seg cs b /\ (forall r, r <> CS -> c_seg c r = c_seg c0 r) /\ c_sp c = c_sp c0 /\
       c_ram c = accessed (u32 ((c_gdtr c0).1 + cs)) (write (write (c_ram c0) (c_sp c0 - 4) (little_endian cs 4)) (c_sp c0 - 8) (little_endian here 4))) c0).
  { apply wp_iff in H as ([] & c & Hrun & Hc). exists c. split; [|exact Hc]. unfold asm_wrcs, on_cpu, zoom. fold c0. by rewrite Hrun. }
  assert (E16 : u16 cs = cs) by (apply u16_small; lia). rewrite !E16. wp_go. eapply (wp_push32 _ _ _ 8); [done|lia|].
  set (c1 := set_sp _ _). assert (Hst1 : stack_room 4 c1) by (apply (stack_room_push 8 c0); [done|lia]).
  wp_go. eapply (wp_push32 _ _ _ 4); [done|lia|]. destruct Hst as (Hb & Hl & Hs & _).
  replace (c_sp c1 - 4) with (c_sp c0 - 8) by (unfold c1; cbn; lia).
  wp_go. eapply (wp_pop32 (little_endian here 4)); [exact Hb|exact Hl|cbn; lia|apply write_array|done|]. rewrite le_word by lia.
  wp_go. eapply (wp_pop32 (little_endian cs 4)); [exact Hb|exact Hl|cbn; lia| |done|].
  { cbn -[write little_endian accessed]. replace (c_sp c0 - 8 + 4) with (c_sp c0 - 4) by lia. apply array_write; [apply write_array|cbn; lia]. }
  rewrite le_word by lia. rewrite E16. wp_go. eapply (wp_load_segment _ _ b l).
  { destruct Hd as (D1 & D2 & D3 & D4 & D5 & D6 & D7 & D8 & D9). split_and!; try done. cbn -[write little_endian accessed].
    apply array_write; [|cbn; rewrite D8; lia]. apply array_write; [done|cbn; rewrite D8; lia]. }
  rewrite Z.eqb_refl. wp_go. cbn -[write little_endian accessed]. split_and!; [done|by intros r Hr; rewrite decide_False|lia|done].
Qed.

Lemma push_pop c v :
  stack_room 4 c -> c_sp c < 2 ^ 32 - 4 -> 0 <= v < 2 ^ 32 ->
  (push32 v;; pop32) c = Ret v (set_c_ram (write (c_ram c) (c_sp c - 4) (little_endian v 4)) c).
Proof.
  intros Hst Hsp Hv. apply wp_eq. wp_go. eapply (wp_push32 _ _ _ 4); [done|lia|]. destruct Hst as (Hb & Hl & Hs & _).
  wp_go. eapply (wp_pop32 (little_endian v 4)); [exact Hb|exact Hl|cbn; lia|apply write_array|done|]. rewrite le_word by lia.
  split; [done|]. destruct c as [ip ax sp bp zf ifl df cr0 gd sg ram i]. unfold set_sp, set_c_ram. cbn -[write little_endian]. f_equal. lia.
Qed.

(** The bits of EFLAGS that popf writes and pushf shows. *)
Lemma flag_masks j : 0 <= j < 24 ->
  Z.testbit 0xfcffff j = negb (bool_decide (j ∈ [16; 17])) /\
  (Z.testbit POPF_MASK j = true -> Z.testbit 0xfcffff j = true) /\
  (Z.testbit 0xfcffff j = true -> Z.testbit RFLAGS_RF_BIT j = false).
Proof.
  intros Hj.
  assert (H : forallb (fun j => bool_decide (Z.testbit 0xfcffff j = negb (bool_decide (j ∈ [16; 17])) /\
    (Z.testbit POPF_MASK j = true -> Z.testbit 0xfcffff j = true) /\ (Z.testbit 0xfcffff j = true -> Z.testbit RFLAGS_RF_BIT j = false)))
    (seqZ 0 24) = true) by (vm_compute; reflexivity).
  rewrite forallb_forall in H. apply (bool_decide_eq_true _), H, list_elem_of_In, elem_of_seqZ. lia.
Qed.

(** EFLAGS read back after a write: the flags that popf may change have their new
    value, the others are as before, RF and VM read as 0. *)
Theorem write_read_eflags k v :
  stack_room 4 (k_cpu k) -> c_sp (k_cpu k) < 2 ^ 32 - 4 -> 0 <= eflags k < 2 ^ 24 ->
  exists w k', (write_eflags v;; read_eflags) k = Ret w k' /\ c_sp (k_cpu k') = c_sp (k_cpu k) /\
    forall j, 0 <= j < 24 -> Z.testbit w j =
      if Z.testbit POPF_MASK j then Z.testbit v j else negb (bool_decide (j ∈ [16; 17])) && Z.testbit (eflags k) j.
Proof.
  intros Hst Hsp Hf. set (c := k_cpu k) in *. set (c1 := set_c_ram (write (c_ram c) (c_sp c - 4) (little_endian (u32 v) 4)) c).
  assert (H1 : write_eflags v k = Ret tt (popf (u32 v) (set_cpu c1 k))).
  { pose proof (push_pop c (u32 v) Hst Hsp ltac:(unfold u32; apply Z.mod_pos_bound; lia)) as H. unfold write_eflags, on_cpu, zoom, mbind, M_bind in *. fold c.
    destruct (push32 (u32 v) c) as [? c'|? ?| |]; [|done..]. cbn [k_cpu set_cpu]. rewrite H. reflexivity. }
  set (k1 := popf (u32 v) (set_cpu c1 k)) in *.
  assert (Hst1 : stack_room 4 (k_cpu k1)).
  { destruct Hst as (Hb & Hl & Hs & Hm). split_and!; [exact Hb|exact Hl|apply Hs|apply Hs|]. by apply mapped_write. }
  assert (Hp : 0 <= pushf k1 < 2 ^ 24).
  { unfold pushf. split; [apply Z.land_nonneg; lia|]. change 0xfcffff with (Z.land 0xfcffff (Z.ones 24)).
    rewrite Z.land_assoc, Z.land_ones by lia. apply Z.mod_pos_bound. lia. }
  pose proof (push_pop (k_cpu k1) (pushf k1) Hst1 Hsp ltac:(lia)) as H2.
  exists (pushf k1), (set_cpu (set_c_ram (write (c_ram (k_cpu k1)) (c_sp (k_cpu k1) - 4) (little_endian (pushf k1) 4)) (k_cpu k1)) k1).
  split; [|split].
  { unfold mbind at 1, M_bind at 1. rewrite H1. unfold read_eflags, on_cpu, zoom, gets, mbind, M_bind in *. unfold id at 1.
    destruct (push32 (pushf k1) (k_cpu k1)) as [? c'|? ?| |]; [|done..]. cbn [k_cpu set_cpu]. rewrite H2. reflexivity. }
  { reflexivity. }
  intros j Hj. destruct (flag_masks j Hj) as (M1 & M2 & M3). unfold pushf, k1, popf. rewrite eflags_set.
  change (eflags (set_cpu c1 k)) with (eflags k).
  rewrite Z.land_spec, Z.lor_spec, Z.land_spec, !Z.ldiff_spec. rewrite M1. unfold u32. rewrite Z.mod_pow2_bits_low by lia.
  destruct (Z.testbit POPF_MASK j) eqn:EP.
  - rewrite M1 in M2. rewrite M2 by done. by destruct (Z.testbit v j), (Z.testbit (eflags k) j).
  - destruct (negb (bool_decide (j ∈ [16; 17]))) eqn:E; [|by rewrite andb_false_r].
    rewrite M3 by (rewrite M1; done). by destruct (Z.testbit v j), (Z.testbit (eflags k) j).
Qed.

(** ** The task register *)

Lemma system_descriptor_ret types sel c a d c' :
  system_descriptor types sel c = Ret (a, d) c' ->
  c' = c /\ exists l, bytes_at (c_ram c) a 8 = Some l /\ d = segdesc_decode (le l) /\ sd_type d ∈ types.
Proof.
  unfold system_descriptor, load, gets, id, deref, mbind, M_bind. destruct (c_gdtr c) as [base limit].
  destruct (_ || _ || _); [done|]. destruct (bytes_at _ _ 8) as [l|] eqn:El; [|done]. cbn. unfold mret, M_ret.
  destruct (_ && _) eqn:E; [|done]. intros [= <- <- <-]. split; [done|]. exists l. split; [exact El|]. split; [done|].
  apply andb_prop in E as [_ E]. by apply bool_decide_eq_true in E.
Qed.

(** The type of a descriptor is in its sixth byte. *)
Lemma sd_type_bytes b0 b1 b2 b3 b4 b5 b6 b7 :
  is_bytes [b0; b1; b2; b3; b4; b5; b6; b7] -> sd_type (segdesc_decode (le [b0; b1; b2; b3; b4; b5; b6; b7])) = b5 mod 16.
Proof.
  unfold is_bytes. rewrite !Forall_cons. intros (H0 & H1 & H2 & H3 & H4 & H5 & H6 & H7 & _).
  unfold segdesc_decode, le. cbn [unpack segdesc_widths foldr sd_type]. rewrite !Z.div_div by lia.
  change (2 ^ 16 * (2 ^ 16 * 2 ^ 8)) with (2 ^ 40). change (2 ^ 4) with 16.
  set (r := b6 + 256 * (b7 + 256 * 0)).
  replace (b0 + _) with (b0 + 256 * b1 + 65536 * b2 + 16777216 * b3 + 4294967296 * b4 + (b5 + 256 * r) * 2 ^ 40) by lia.
  rewrite Z.div_add, Z.div_small by lia. rewrite Z.add_0_l. replace (256 * r) with (16 * r * 16) by lia. by apply Z.mod_add.
Qed.

Lemma system_descriptor_outcome types sel c :
  match system_descriptor types sel c with Panic _ _ | Spin => False | _ => True end.
Proof.
  unfold system_descriptor, load, gets, id, deref, mbind, M_bind. destruct (c_gdtr c) as [base limit].
  destruct (_ || _ || _); [done|]. destruct (bytes_at _ _ 8) as [l|]; [|done]. cbn. unfold mret, M_ret. by destruct (_ && _).
Qed.

Lemma array_unique m a l l2 : array m a l -> array m a l2 -> length l = length l2 -> l = l2.
Proof.
  intros H H2 Hl. apply list_eq_same_length with (length l); [done|done|]. intros i x y Hi Hx Hy.
  pose proof (H _ _ Hx). pose proof (H2 _ _ Hy). congruence.
Qed.

(** Types of an available task state, and busy. *)
Lemma busy_type b : b mod 16 ∈ [STS_T16A; STS_T32A] -> Z.lor b 2 mod 16 ∉ [STS_T16A; STS_T32A].
Proof.
  change 16 with (2 ^ 4). rewrite <- !Z.land_ones, Z.land_lor_distr_l by lia. change (Z.land 2 (Z.ones 4)) with 2.
  intros Hb. assert (Hor : Z.land b (Z.ones 4) = STS_T16A \/ Z.land b (Z.ones 4) = STS_T32A) by set_solver.
  destruct Hor as [-> | ->]; apply (bool_decide_eq_false _); vm_compute; reflexivity.
Qed.

Lemma lor_2_byte b : 0 <= b < 256 -> 0 <= Z.lor b 2 < 256.
Proof.
  intros Hb. assert (E : Z.lor b 2 = Z.land (Z.lor b 2) (Z.ones 8)).
  { rewrite Z.land_lor_distr_l, Z.land_ones by lia. rewrite Z.mod_small by lia. done. }
  rewrite E, Z.land_ones by lia. apply Z.mod_pos_bound. lia.
Qed.

Lemma bytes_at_lookup m a n l : bytes_at m a n = Some l -> length l = n /\ array m a l.
Proof.
  unfold bytes_at. intros H%mapM_Some. pose proof (Forall2_length _ _ _ H) as Hl. rewrite length_seq in Hl. split; [done|].
  intros i c Hi. destruct (Forall2_lookup_r _ _ _ _ _ H Hi) as (j & Hj & E). apply lookup_seq in Hj as [-> _]. exact E.
Qed.

(** A task register can be loaded once: the descriptor is busy then, and a second
    load of the same selector is undefined. *)
Theorem ltr_once k tr k1 :
  map_Forall (fun _ b => 0 <= b < 256) (c_ram (k_cpu k)) -> asm_wrtr tr k = Ret tt k1 -> asm_wrtr tr k1 = Fault.
Proof.
  intros Hbytes. unfold asm_wrtr, load_tr. set (sel := u16 tr). set (c := k_cpu k) in *.
  intros H. unfold mbind at 1, M_bind at 1, on_cpu at 1, zoom at 1 in H. fold c in H.
  destruct (system_descriptor [STS_T16A; STS_T32A] sel c) as [[a d] c'|? ?| |] eqn:E; try done.
  pose proof (system_descriptor_ret _ _ _ _ _ _ E) as (-> & l & Hl & -> & Ht). injection H as <-.
  unfold mbind at 1, M_bind at 1, on_cpu at 1, zoom at 1. cbn [k_cpu set_cpu set_tr].
  set (c2 := set_c_ram (busy a (c_ram c)) c).
  destruct (system_descriptor [STS_T16A; STS_T32A] sel c2) as [[a2 d2] c3|w c3| |] eqn:E2; try done.
  - exfalso. pose proof (system_descriptor_ret _ _ _ _ _ _ E2) as (-> & l2 & Hl2 & -> & Ht2).
    assert (a2 = a) as ->.
    { revert E E2. unfold system_descriptor, gets, id, mbind, M_bind. cbn [c_gdtr c2 set_c_ram]. destruct (c_gdtr c) as [base limit].
      destruct (_ || _ || _); [done|]. destruct (load _ 8 c); [|done..]. destruct (load _ 8 c2); [|done..].
      repeat destruct (_ && _); try done. unfold mret, M_ret. congruence. }
    apply bytes_at_lookup in Hl as [Hn Ha], Hl2 as [Hn2 Ha2].
    assert (Hb : is_bytes l).
    { apply Forall_lookup. intros i x Hi. eapply Hbytes. exact (Ha _ _ Hi). }
    assert (E5 : l2 = alter (fun b => Z.lor b 2) 5%nat l).
    { apply (array_unique _ a _ _ Ha2); [by apply array_alter5|by rewrite length_alter, Hn]. }
    destruct l as [|b0 [|b1 [|b2 [|b3 [|b4 [|b5 [|b6 [|b7 [|? ?]]]]]]]]]; try done. cbn in E5. subst l2.
    rewrite sd_type_bytes in Ht by done. rewrite sd_type_bytes in Ht2; [exact (busy_type _ Ht Ht2)|].
    unfold is_bytes in *. rewrite !Forall_cons in *. destruct_and!. split_and!; try done; by apply lor_2_byte.
  - pose proof (system_descriptor_outcome [STS_T16A; STS_T32A] sel c2) as Ho. by rewrite E2 in Ho.
  - pose proof (system_descriptor_outcome [STS_T16A; STS_T32A] sel c2) as Ho. by rewrite E2 in Ho.
Qed.
