(* ===== verification/Vmx.v ===== *)
(** * Vmx: hvm/vt.c, hvm/vt_regs.c and hvm/vt_init.c

    The virtual-machine monitor: the registers of the guest, the fields of the
    VMCS, the handling of VM exits, and the set-up code, most of which is still
    an exercise in the source and panics.  The processor is a parameter: what
    [cpuid], [lsl] and [lar] return, the host's registers, and what running the
    guest does to the state, which VmAsm.v supplies (the assembly of
    hvm/asm_vmop.S); so is the part of the machine behind [cputchar]. *)

From S2P Require Import Prelude Layout Printfmt FormatSpec CString Printf Segment Vmcs.
Open Scope Z_scope.

Record vt_vmentry_regs : Type := MkVr { rax : Z; rcx : Z; rdx : Z; rbx : Z; cr2 : Z; rbp : Z; rsi : Z; rdi : Z }.

(** enum general_reg; RSP, which lives in the VMCS, is 4. *)
Definition GENERAL_REG_RAX : Z := 0.
Definition GENERAL_REG_RCX : Z := 1.
Definition GENERAL_REG_RDX : Z := 2.
Definition GENERAL_REG_RBX : Z := 3.
Definition GENERAL_REG_RSP : Z := 4.
Definition GENERAL_REG_RBP : Z := 5.
Definition GENERAL_REG_RSI : Z := 6.
Definition GENERAL_REG_RDI : Z := 7.

Inductive vt_status : Type := VT_VMENTRY_SUCCESS | VT_VMENTRY_FAILED | VT_VMEXIT.

Record regs_in_vmcs_sreg : Type := MkSreg { s_sel : Z; s_limit : Z; s_acr : Z; s_base : Z }.
Record regs_in_vmcs_desc : Type := MkDesc { d_base : Z; d_limit : Z }.
Record regs_in_vmcs : Type := MkRegs {
  r_es : regs_in_vmcs_sreg; r_cs : regs_in_vmcs_sreg; r_ss : regs_in_vmcs_sreg; r_ds : regs_in_vmcs_sreg;
  r_fs : regs_in_vmcs_sreg; r_gs : regs_in_vmcs_sreg; r_ldtr : regs_in_vmcs_sreg; r_tr : regs_in_vmcs_sreg;
  r_gdtr : regs_in_vmcs_desc; r_idtr : regs_in_vmcs_desc;
  r_cr0 : Z; r_cr3 : Z; r_cr4 : Z; r_dr7 : Z; r_rflags : Z
}.

(** The processor, as the code can ask it. *)
Record processor : Type := Processor {
  cpuid : Z -> Z * Z * Z * Z;                  (* eax, ebx, ecx, edx *)
  lsl : Z -> Z;
  lar : Z -> Z;
  sel_es : Z; sel_cs : Z; sel_ss : Z; sel_ds : Z; sel_fs : Z; sel_gs : Z; sel_ldtr : Z; sel_tr : Z;
  gdtr : Z * Z; idtr : Z * Z;                  (* base, limit *)
  host_cr3 : Z; host_dr7 : Z; host_rflags : Z
}.

Section vmx.
Context {P : Type} (cputchar : Z -> M P ()).

Record vm : Type := MkVm {
  vr : vt_vmentry_regs;
  vmcs : Z -> Z;
  msr : Z -> Z;               (* 64 bits *)
  cr0 : Z;
  cr4 : Z;
  v_mem : mem;
  dev : P
}.
Definition set_vr v (s : vm) : vm := MkVm v (vmcs s) (msr s) (cr0 s) (cr4 s) (v_mem s) (dev s).
Definition set_vmcs f v (s : vm) : vm :=
  MkVm (vr s) (fun g => if g =? f then v else vmcs s g) (msr s) (cr0 s) (cr4 s) (v_mem s) (dev s).
Definition set_msr f v (s : vm) : vm :=
  MkVm (vr s) (vmcs s) (fun g => if g =? f then v else msr s g) (cr0 s) (cr4 s) (v_mem s) (dev s).
Definition set_cr0 v (s : vm) : vm := MkVm (vr s) (vmcs s) (msr s) v (cr4 s) (v_mem s) (dev s).
Definition set_cr4 v (s : vm) : vm := MkVm (vr s) (vmcs s) (msr s) (cr0 s) v (v_mem s) (dev s).
Definition set_v_mem v (s : vm) : vm := MkVm (vr s) (vmcs s) (msr s) (cr0 s) (cr4 s) v (dev s).
Definition set_dev v (s : vm) : vm := MkVm (vr s) (vmcs s) (msr s) (cr0 s) (cr4 s) (v_mem s) v.

Definition on_dev {A} (m : M P A) : M vm A := zoom dev set_dev m.
Definition vprint (fmt : list Z) (args : list va) : M vm () := on_dev (cprintf cputchar fmt args);; mret tt.

Definition asm_vmread (f : Z) : M vm Z := gets (fun s => vmcs s f).
Definition asm_vmwrite (f v : Z) : M vm () := modify (set_vmcs f (u32 v)).
Definition asm_rdmsr32 (n : Z) : M vm (Z * Z) := gets (fun s => (u32 (msr s n), u32 (Z.shiftr (msr s n) 32))).
Definition asm_rdmsr (n : Z) : M vm Z := '(a, _) ← asm_rdmsr32 n; mret a.
Definition asm_rdmsr64 (n : Z) : M vm Z := '(a, d) ← asm_rdmsr32 n; mret (Z.lor a (Z.shiftl d 32)).
Definition asm_wrmsr32 (n a d : Z) : M vm () := modify (set_msr n (Z.lor a (Z.shiftl d 32))).
Definition asm_wrmsr64 (n v : Z) : M vm () := let a := u32 v in let d := u32 (Z.shiftr v 32) in asm_wrmsr32 n a d.
Definition asm_wrmsr (n v : Z) : M vm () := asm_wrmsr32 n (u32 v) 0.
Definition asm_rdcr0 : M vm Z := gets cr0.
Definition asm_wrcr0 (v : Z) : M vm () := modify (set_cr0 v).
Definition asm_rdcr4 : M vm Z := gets cr4.
Definition asm_wrcr4 (v : Z) : M vm () := modify (set_cr4 v).

(** ** hvm/vt_regs.c *)

(** The descriptor at [a], eight bytes. *)
Definition load_segdesc (a : Z) : M vm Segdesc := fun s =>
  match (fix bytes_at n a := match n with
                             | O => mret 0
                             | S n' => c ← load8 a; r ← bytes_at n' (a + 1); mret (c + 256 * r)
                             end) 8%nat a (v_mem s) with
  | Ret x m => Ret (segdesc_decode x) (set_v_mem m s)
  | Panic w m => Panic w (set_v_mem m s)
  | Fault => Fault
  | Spin => Spin
  end.

Definition seg_base_err : M vm Z := vprint (bytes "ERROR: get_seg_base failed!" ++ [10]) [];; mret 0.

Definition get_seg_base (gdtbase ldtr sel : Z) : M vm Z :=
  if sel =? 0 then mret 0
  else if negb (Z.land sel SEL_LDT_BIT =? 0) then
    p ← load_segdesc (u32 (gdtbase + Z.land ldtr SEL_MASK));
    if sd_p p =? 0 then seg_base_err
    else
      let ldtbase := SEGDESC_BASE p in
      p ← load_segdesc (u32 (ldtbase + Z.land sel SEL_MASK));
      if sd_p p =? 0 then seg_base_err else mret (SEGDESC_BASE p)
  else
    p ← load_segdesc (u32 (gdtbase + Z.land sel SEL_MASK));
    if sd_p p =? 0 then seg_base_err else mret (SEGDESC_BASE p).

Context (cpu : processor).

Definition asm_rdes : M vm Z := mret (u16 (sel_es cpu)).
Definition asm_rdcs : M vm Z := mret (u16 (sel_cs cpu)).
Definition asm_rdss : M vm Z := mret (u16 (sel_ss cpu)).
Definition asm_rdds : M vm Z := mret (u16 (sel_ds cpu)).
Definition asm_rdfs : M vm Z := mret (u16 (sel_fs cpu)).
Definition asm_rdgs : M vm Z := mret (u16 (sel_gs cpu)).
Definition asm_rdldtr : M vm Z := mret (u16 (sel_ldtr cpu)).
Definition asm_rdtr : M vm Z := mret (u16 (sel_tr cpu)).
Definition asm_rdcr3 : M vm Z := mret (host_cr3 cpu).
Definition asm_lsl (sel : Z) : M vm Z := mret (lsl cpu sel).
Definition asm_lar (sel : Z) : M vm Z := mret (lar cpu sel).
Definition asm_rdgdtr : M vm (Z * Z) := let '(base, limit) := gdtr cpu in mret (base, u16 limit).
Definition asm_rdidtr : M vm (Z * Z) := let '(base, limit) := idtr cpu in mret (base, u16 limit).
Definition asm_rddr7 : M vm Z := mret (host_dr7 cpu).
Definition asm_rdrflags : M vm Z := mret (host_rflags cpu).

Definition get_seg_access_rights (sel : Z) : M vm Z :=
  if negb (sel =? 0) then
    tmp ← asm_lar sel;
    mret (Z.land (Z.shiftr tmp 8) ACCESS_RIGHTS_MASK)
  else mret ACCESS_RIGHTS_UNUSABLE_BIT.

Definition vt_get_current_regs_host : M vm regs_in_vmcs :=
  es ← asm_rdes; cs ← asm_rdcs; ss ← asm_rdss; ds ← asm_rdds;
  fs ← asm_rdfs; gs ← asm_rdgs; ldtr ← asm_rdldtr; tr ← asm_rdtr;
  p_cr0 ← asm_rdcr0; p_cr3 ← asm_rdcr3; p_cr4 ← asm_rdcr4;
  es_limit ← asm_lsl es; cs_limit ← asm_lsl cs; ss_limit ← asm_lsl ss; ds_limit ← asm_lsl ds;
  fs_limit ← asm_lsl fs; gs_limit ← asm_lsl gs; ldtr_limit ← asm_lsl ldtr; tr_limit ← asm_lsl tr;
  es_acr ← get_seg_access_rights es; cs_acr ← get_seg_access_rights cs;
  ss_acr ← get_seg_access_rights ss; ds_acr ← get_seg_access_rights ds;
  fs_acr ← get_seg_access_rights fs; gs_acr ← get_seg_access_rights gs;
  ldtr_acr ← get_seg_access_rights ldtr; tr_acr ← get_seg_access_rights tr;
  '(gdt_base, gdt_limit) ← asm_rdgdtr;
  '(idt_base, idt_limit) ← asm_rdidtr;
  es_base ← get_seg_base gdt_base ldtr es; cs_base ← get_seg_base gdt_base ldtr cs;
  ss_base ← get_seg_base gdt_base ldtr ss; ds_base ← get_seg_base gdt_base ldtr ds;
  fs_base ← get_seg_base gdt_base ldtr fs; gs_base ← get_seg_base gdt_base ldtr gs;
  ldtr_base ← get_seg_base gdt_base ldtr ldtr; tr_base ← get_seg_base gdt_base ldtr tr;
  p_dr7 ← asm_rddr7;
  p_rflags ← asm_rdrflags;
  mret (MkRegs (MkSreg es es_limit es_acr es_base) (MkSreg cs cs_limit cs_acr cs_base)
    (MkSreg ss ss_limit ss_acr ss_base) (MkSreg ds ds_limit ds_acr ds_base)
    (MkSreg fs fs_limit fs_acr fs_base) (MkSreg gs gs_limit gs_acr gs_base)
    (MkSreg ldtr ldtr_limit ldtr_acr ldtr_base) (MkSreg tr tr_limit tr_acr tr_base)
    (MkDesc gdt_base gdt_limit) (MkDesc idt_base idt_limit)
    p_cr0 p_cr3 p_cr4 p_dr7 p_rflags).

Definition vt_read_general_reg (reg : Z) : M vm Z :=
  r ← gets vr;
  match reg with
  | 0 => mret (rax r)
  | 1 => mret (rcx r)
  | 2 => mret (rdx r)
  | 3 => mret (rbx r)
  | 4 => asm_vmread VMCS_GUEST_RSP
  | 5 => mret (rbp r)
  | 6 => mret (rsi r)
  | 7 => mret (rdi r)
  | _ => panic "Fatal error: unknown register."
  end.

Definition vt_write_general_reg (reg val : Z) : M vm () :=
  '(MkVr a c d b c2 bp si di) ← gets vr;
  match reg with
  | 0 => modify (set_vr (MkVr val c d b c2 bp si di))
  | 1 => modify (set_vr (MkVr a val d b c2 bp si di))
  | 2 => modify (set_vr (MkVr a c val b c2 bp si di))
  | 3 => modify (set_vr (MkVr a c d val c2 bp si di))
  | 4 => asm_vmwrite VMCS_GUEST_RSP val
  | 5 => modify (set_vr (MkVr a c d b c2 val si di))
  | 6 => modify (set_vr (MkVr a c d b c2 bp val di))
  | 7 => modify (set_vr (MkVr a c d b c2 bp si val))
  | _ => panic "Fatal error: unknown register."
  end.

(** ** hvm/vt.c: VM exits *)

Definition hex_line (s : string) (v : Z) : M vm () := vprint (bytes s ++ [10]) [Word v].

Definition do_ept_violation : M vm () :=
  error_code ← asm_vmread VMCS_EXIT_QUALIFICATION;
  linear ← asm_vmread VMCS_GUEST_LINEAR_ADDR;
  physical ← asm_vmread VMCS_GUEST_PHYSICAL_ADDR;
  physical_high ← asm_vmread VMCS_GUEST_PHYSICAL_ADDR_HIGH;
  hex_line "EPT_Violation Error code: %#08lx" error_code;;
  hex_line "EPT_Violation guest_linear_addr: %#08lx" linear;;
  hex_line "EPT_Violation guest_physical_addr: %#08lx" physical;;
  hex_line "EPT_Violation guest_physical_addr_high: %#08lx" physical_high;;
  panic "EPT_Violation".

Definition do_ept_misconfig : M vm () :=
  error_code ← asm_vmread VMCS_EXIT_QUALIFICATION;
  linear ← asm_vmread VMCS_GUEST_LINEAR_ADDR;
  physical ← asm_vmread VMCS_GUEST_PHYSICAL_ADDR;
  hex_line "EPT_Misconfig Error code: %#08lx" error_code;;
  hex_line "EPT_Misconfig guest_linear_addr: %#08lx" linear;;
  hex_line "EPT_Misconfig guest_physical_addr: %#08lx" physical;;
  panic "EPT_Misconfig".

Definition add_ip : M vm () :=
  ip ← asm_vmread VMCS_GUEST_RIP;
  len ← asm_vmread VMCS_VMEXIT_INSTRUCTION_LEN;
  asm_vmwrite VMCS_GUEST_RIP (u32 (ip + len)).

(** The branch for 0xFeedCafe is empty in the source. *)
Definition do_cpuid : M vm () :=
  la ← vt_read_general_reg GENERAL_REG_RAX;
  let ia := u32 la in
  let '(oa, ob, oc, od) := cpuid cpu ia in
  let oc := if ia =? CPUID_1 then Z.land oc (Z.lnot CPUID_1_ECX_VMX_BIT) else oc in
  vt_write_general_reg GENERAL_REG_RAX oa;;
  vt_write_general_reg GENERAL_REG_RBX ob;;
  vt_write_general_reg GENERAL_REG_RCX oc;;
  vt_write_general_reg GENERAL_REG_RDX od;;
  add_ip.

Definition vt_exit_reason : M vm bool :=
  exit_reason ← asm_vmread VMCS_EXIT_REASON;
  _ ← asm_vmread VMCS_GUEST_RIP;
  if negb (Z.land exit_reason EXIT_REASON_VMENTRY_FAILURE_BIT =? 0) then
    _ ← asm_vmread VMCS_EXIT_QUALIFICATION;
    panic "VMEntry failure(EXIT_REASON, EXIT_QUALIFICATION): %lx, %lx"
  else
    let reason := Z.land exit_reason EXIT_REASON_MASK in
    if reason =? EXIT_REASON_CPUID then do_cpuid;; mret true
    else if reason =? EXIT_REASON_EPT_VIOLATION then do_ept_violation;; mret true
    else if reason =? EXIT_REASON_EPT_MISCONFIG then do_ept_misconfig;; mret true
    else if reason =? EXIT_REASON_INIT_SIGNAL then mret false
    else
      _ ← asm_vmread VMCS_GUEST_RIP;
      panic "Fatal error: handler not implemented. code:%ld, ip:%#lx".

(** [asm_vmlaunch_regs] and [asm_vmresume_regs]: nonzero when the entry fails. *)
Context (asm_vmlaunch_regs asm_vmresume_regs : M vm Z).

Definition vt_vmlaunch : M vm vt_status :=
  r ← asm_vmlaunch_regs; mret (if negb (r =? 0) then VT_VMENTRY_FAILED else VT_VMEXIT).
Definition vt_vmresume : M vm vt_status :=
  r ← asm_vmresume_regs; mret (if negb (r =? 0) then VT_VMENTRY_FAILED else VT_VMEXIT).

Definition vt_first_run : M vm () :=
  status ← vt_vmlaunch;
  match status with
  | VT_VMEXIT => mret tt
  | VT_VMENTRY_FAILED => _ ← asm_vmread VMCS_VM_INSTRUCTION_ERR; panic "Fatal error: VM launch failed. Error Code: %ld"
  | VT_VMENTRY_SUCCESS => panic "Fatal error: Strange status."
  end.

Definition vt_run : M vm () :=
  status ← vt_vmresume;
  match status with
  | VT_VMEXIT => mret tt
  | VT_VMENTRY_FAILED => panic "Fatal error: VM resume failed."
  | VT_VMENTRY_SUCCESS => panic "Fatal error: Strange status."
  end.

(** [while (vt_exit_reason()) vt_run();], for [exits] exits. *)
Fixpoint vt_loop (exits : nat) : M vm () :=
  match exits with
  | O => spin
  | S exits' => go ← vt_exit_reason; if go : bool then vt_run;; vt_loop exits' else mret tt
  end.

(** ** hvm/vt_init.c *)

(** The code of [has_vmx] after its panic, which no run reaches yet: first the
    loop at [msr_enable_loop], 0 when it is left and -1 for its [return]. *)
Fixpoint msr_enable_loop (fuel : nat) : M vm Z :=
  match fuel with
  | O => spin
  | S fuel' =>
      tmp ← asm_rdmsr64 MSR_IA32_FEATURE_CONTROL;
      if negb (Z.land tmp MSR_IA32_FEATURE_CONTROL_LOCK_BIT =? 0) then
        if negb (Z.land tmp MSR_IA32_FEATURE_CONTROL_VMXON_BIT =? 0) then mret 0
        else vprint (bytes "VMXON is disabled." ++ [10]) [];; mret (-1)
      else
        vprint (bytes "Trying to enable VMXON." ++ [10]) [];;
        asm_wrmsr64 MSR_IA32_FEATURE_CONTROL
          (Z.lor (Z.lor tmp MSR_IA32_FEATURE_CONTROL_VMXON_BIT) MSR_IA32_FEATURE_CONTROL_LOCK_BIT);;
        msr_enable_loop fuel'
  end.

(** The rest of it: the capabilities it reports. *)
Definition has_vmx_report (fuel : nat) : M vm Z :=
  r ← msr_enable_loop fuel;
  if negb (r =? 0) then mret r
  else
    '(low, high) ← asm_rdmsr32 MSR_IA32_VMX_PROCBASED_CTLS;
    (if negb (Z.land high VMCS_PROC_BASED_VMEXEC_CTL_ACTIVESECCTL_BIT =? 0) then
       vprint (bytes "Processor-baesd Secondary Control is supported." ++ [10]) [];;
       '(low, high) ← asm_rdmsr32 MSR_IA32_VMX_PROCBASED_CTLS2;
       (if negb (Z.land high SECONDARY_EXEC_ENABLE_EPT =? 0) then vprint (bytes "EPT is supported." ++ [10]) []
        else vprint (bytes "EPT is NOT supported!" ++ [10]) []);;
       (if negb (Z.land high SECONDARY_EXEC_UNRESTRICTED_GUEST =? 0) then
          vprint (bytes "Unrestricted Guest is supported." ++ [10]) []
        else vprint (bytes "Unrestricted Guest is NOT supported!" ++ [10]) [])
     else vprint (bytes "Processor-baesd Secondary Control is NOT supported!" ++ [10]) []);;
    mret 1.

Definition has_vmx : M vm bool := panic "has_vmx not implemented!".

Definition vmx_on : M vm () :=
  cr0_0 ← asm_rdmsr MSR_IA32_VMX_CR0_FIXED0;
  cr0_1 ← asm_rdmsr MSR_IA32_VMX_CR0_FIXED1;
  cr4_0 ← asm_rdmsr MSR_IA32_VMX_CR4_FIXED0;
  cr4_1 ← asm_rdmsr MSR_IA32_VMX_CR4_FIXED1;
  cr0 ← asm_rdcr0;
  asm_wrcr0 (Z.lor (Z.land cr0 cr0_1) cr0_0);;
  cr4 ← asm_rdcr4;
  asm_wrcr4 (Z.lor (Z.land cr4 cr4_1) cr4_0);;
  panic "vmx_on not implemented".

Definition write_fields (l : list (Z * Z)) : M vm () := for_each (fun '(f, v) => asm_vmwrite f v) l.

(** The fields [set_vmcs_ctl] writes after its panic.  [procbased_ctls] and
    [procbased_ctls2] have no value in the source: giving them one is the
    exercise. *)
Definition ctl_fields (eptp pinbased_ctls_or pinbased_ctls_and procbased_ctls procbased_ctls_or procbased_ctls_and
    procbased_ctls2 procbased_ctls2_or procbased_ctls2_and exit_ctls_or exit_ctls_and
    entry_ctls_or entry_ctls_and : Z) : list (Z * Z) :=
  let procbased_ctls_or := Z.land procbased_ctls_or
    (Z.lnot (Z.lor VMCS_PROC_BASED_VMEXEC_CTL_CR3LOADEXIT_BIT VMCS_PROC_BASED_VMEXEC_CTL_CR3STOREXIT_BIT)) in
  [
   (VMCS_ADDR_IOBMP_A, 0xffffffff);
   (VMCS_ADDR_IOBMP_A_HIGH, 0xffffffff);
   (VMCS_ADDR_IOBMP_B, 0xffffffff);
   (VMCS_ADDR_IOBMP_B_HIGH, 0xffffffff);
   (VMCS_VMEXIT_MSRSTORE_ADDR, 0);
   (VMCS_VMEXIT_MSRSTORE_ADDR_HIGH, 0);
   (VMCS_VMEXIT_MSRLOAD_ADDR, 0);
   (VMCS_VMEXIT_MSRLOAD_ADDR_HIGH, 0);
   (VMCS_VMENTRY_MSRLOAD_ADDR, 0);
   (VMCS_VMENTRY_MSRLOAD_ADDR_HIGH, 0);
   (VMCS_EXEC_VMCS_POINTER, 0);
   (VMCS_EXEC_VMCS_POINTER_HIGH, 0);
   (VMCS_TSC_OFFSET, 0);
   (VMCS_TSC_OFFSET_HIGH, 0);
   (VMCS_EPT_POINTER, u32 eptp);
   (VMCS_EPT_POINTER_HIGH, u32 (Z.shiftr eptp 32));
   (VMCS_PIN_BASED_VMEXEC_CTL, Z.land pinbased_ctls_or pinbased_ctls_and);
   (VMCS_PROC_BASED_VMEXEC_CTL, Z.land (Z.lor procbased_ctls procbased_ctls_or) procbased_ctls_and);
   (VMCS_SECONDARY_VM_EXEC_CONTROL, Z.land (Z.lor procbased_ctls2 procbased_ctls2_or) procbased_ctls2_and);
   (VMCS_EXCEPTION_BMP, 0x0);
   (VMCS_PAGEFAULT_ERRCODE_MASK, 0);
   (VMCS_PAGEFAULT_ERRCODE_MATCH, 0xffffffff);
   (VMCS_CR3_TARGET_COUNT, 1);
   (VMCS_VMEXIT_CTL, Z.land exit_ctls_or exit_ctls_and);
   (VMCS_VMEXIT_MSR_STORE_COUNT, 0);
   (VMCS_VMEXIT_MSR_LOAD_COUNT, 0);
   (VMCS_VMENTRY_CTL, Z.land entry_ctls_or entry_ctls_and);
   (VMCS_VMENTRY_MSR_LOAD_COUNT, 0);
   (VMCS_VMENTRY_INTR_INFO_FIELD, 0);
   (VMCS_VMENTRY_EXCEPTION_ERRCODE, 0);
   (VMCS_VMENTRY_INSTRUCTION_LEN, 0);
   (VMCS_TPR_THRESHOLD, 0);
   (VMCS_CR0_GUESTHOST_MASK, 0);
   (VMCS_CR4_GUESTHOST_MASK, 0);
   (VMCS_CR0_READ_SHADOW, 0);
   (VMCS_CR4_READ_SHADOW, 0);
   (VMCS_CR3_TARGET_VALUE_0, 0);
   (VMCS_CR3_TARGET_VALUE_1, 0);
   (VMCS_CR3_TARGET_VALUE_2, 0);
   (VMCS_CR3_TARGET_VALUE_3, 0)].

Definition set_vmcs_ctl : M vm () :=
  asm_rdmsr32 MSR_IA32_VMX_PINBASED_CTLS;;
  asm_rdmsr32 MSR_IA32_VMX_PROCBASED_CTLS;;
  asm_rdmsr32 MSR_IA32_VMX_PROCBASED_CTLS2;;
  asm_rdmsr32 MSR_IA32_VMX_EXIT_CTLS;;
  asm_rdmsr32 MSR_IA32_VMX_ENTRY_CTLS;;
  panic "set_vmcs_ctl not implemented".

Definition host_fields (r : regs_in_vmcs) : list (Z * Z) :=
  [
   (VMCS_HOST_ES_SEL, s_sel (r_es r));
   (VMCS_HOST_CS_SEL, s_sel (r_cs r));
   (VMCS_HOST_SS_SEL, s_sel (r_ss r));
   (VMCS_HOST_DS_SEL, s_sel (r_ds r));
   (VMCS_HOST_FS_SEL, s_sel (r_fs r));
   (VMCS_HOST_GS_SEL, s_sel (r_gs r));
   (VMCS_HOST_TR_SEL, s_sel (r_tr r));
   (VMCS_HOST_CR0, r_cr0 r);
   (VMCS_HOST_CR3, r_cr3 r);
   (VMCS_HOST_CR4, r_cr4 r);
   (VMCS_HOST_FS_BASE, s_base (r_fs r));
   (VMCS_HOST_GS_BASE, s_base (r_gs r));
   (VMCS_HOST_TR_BASE, s_base (r_tr r));
   (VMCS_HOST_GDTR_BASE, d_base (r_gdtr r));
   (VMCS_HOST_IDTR_BASE, d_base (r_idtr r));
   (VMCS_HOST_RSP, 0xdeadbeef);
   (VMCS_HOST_RIP, 0xdeadbeef)].
Definition set_vmcs_host_state : M vm () := host_riv ← vt_get_current_regs_host; write_fields (host_fields host_riv).

Definition guest_fields : list (Z * Z) :=
  [
   (VMCS_GUEST_ES_SEL, 0);
   (VMCS_GUEST_CS_SEL, 0);
   (VMCS_GUEST_SS_SEL, 0);
   (VMCS_GUEST_DS_SEL, 0);
   (VMCS_GUEST_FS_SEL, 0);
   (VMCS_GUEST_GS_SEL, 0);
   (VMCS_GUEST_LDTR_SEL, 0);
   (VMCS_GUEST_TR_SEL, 0);
   (VMCS_VMCS_LINK_POINTER, 0xffffffff);
   (VMCS_VMCS_LINK_POINTER_HIGH, 0xffffffff);
   (VMCS_GUEST_IA32_DEBUGCTL, 0);
   (VMCS_GUEST_IA32_DEBUGCTL_HIGH, 0);
   (VMCS_GUEST_ES_LIMIT, 0x0000ffff);
   (VMCS_GUEST_CS_LIMIT, 0x0000ffff);
   (VMCS_GUEST_SS_LIMIT, 0x0000ffff);
   (VMCS_GUEST_DS_LIMIT, 0x0000ffff);
   (VMCS_GUEST_FS_LIMIT, 0x0000ffff);
   (VMCS_GUEST_GS_LIMIT, 0x0000ffff);
   (VMCS_GUEST_LDTR_LIMIT, 0x0000ffff);
   (VMCS_GUEST_TR_LIMIT, 0x0000ffff);
   (VMCS_GUEST_GDTR_LIMIT, 0x30);
   (VMCS_GUEST_IDTR_LIMIT, 0x3ff);
   (VMCS_GUEST_ES_ACCESS_RIGHTS, 0x93);
   (VMCS_GUEST_CS_ACCESS_RIGHTS, 0x93);
   (VMCS_GUEST_SS_ACCESS_RIGHTS, 0x93);
   (VMCS_GUEST_DS_ACCESS_RIGHTS, 0x93);
   (VMCS_GUEST_FS_ACCESS_RIGHTS, 0x93);
   (VMCS_GUEST_GS_ACCESS_RIGHTS, 0x93);
   (VMCS_GUEST_LDTR_ACCESS_RIGHTS, 0x82);
   (VMCS_GUEST_TR_ACCESS_RIGHTS, 0x8b);
   (VMCS_GUEST_INTERRUPTIBILITY_STATE, 0);
   (VMCS_GUEST_ACTIVITY_STATE, 0);
   (VMCS_GUEST_CR0, CR0_NE_BIT);
   (VMCS_GUEST_CR3, 0);
   (VMCS_GUEST_CR4, CR4_VMXE_BIT);
   (VMCS_GUEST_ES_BASE, 0);
   (VMCS_GUEST_CS_BASE, 0);
   (VMCS_GUEST_SS_BASE, 0);
   (VMCS_GUEST_DS_BASE, 0);
   (VMCS_GUEST_FS_BASE, 0);
   (VMCS_GUEST_GS_BASE, 0);
   (VMCS_GUEST_LDTR_BASE, 0);
   (VMCS_GUEST_TR_BASE, 0);
   (VMCS_GUEST_GDTR_BASE, 0);
   (VMCS_GUEST_IDTR_BASE, 0);
   (VMCS_GUEST_DR7, 0);
   (VMCS_GUEST_RSP, 0);
   (VMCS_GUEST_RIP, 0x7c00);
   (VMCS_GUEST_RFLAGS, RFLAGS_ALWAYS1_BIT);
   (VMCS_GUEST_PENDING_DEBUG_EXCEPTIONS, 0)].
Definition set_vmcs_guest_state : M vm () := write_fields guest_fields.

Definition vmcs_setup : M vm () := panic "vmcs_setup not implemented".

(** [ept_setup] is in hvm/vt_ept.c: see Ept.v; [get_cursor_loc] in Console.v. *)
Context (ept_setup get_cursor_loc : M P ()).

Definition vt_init : M vm () := vmx_on;; on_dev ept_setup;; vmcs_setup.

Definition vt_main (exits : nat) : M vm () :=
  vt_init;;
  vprint (bytes "Start VM..." ++ [10]) [];;
  vt_first_run;;
  vprint (bytes "VM launch Success" ++ [10]) [];;
  vt_loop exits;;
  on_dev get_cursor_loc;;
  vprint (bytes "VM Stopped" ++ [10]) [].
End vmx.

(** ** VM exits *)

Section exits.
Context {P : Type} (cputchar : Z -> M P ()) (cpu : processor).

(** The guest's registers and instruction pointer after an emulated [cpuid]. *)
Definition cpuid_result (s : vm (P := P)) : vm :=
  let ia := u32 (rax (vr s)) in
  let '(oa, ob, oc, od) := cpuid cpu ia in
  let oc := if ia =? CPUID_1 then Z.clearbit oc 5 else oc in
  set_vmcs VMCS_GUEST_RIP (u32 (vmcs s VMCS_GUEST_RIP + vmcs s VMCS_VMEXIT_INSTRUCTION_LEN))
    (set_vr (MkVr oa oc od ob (cr2 (vr s)) (rbp (vr s)) (rsi (vr s)) (rdi (vr s))) s).

Lemma do_cpuid_run s : do_cpuid cpu s = Ret tt (cpuid_result s).
Proof.
  unfold do_cpuid, cpuid_result. unfold vt_read_general_reg, gets. erewrite bind_eq by reflexivity.
  set (ia := u32 (rax (vr s))). destruct (cpuid cpu ia) as [[[oa ob] oc] od].
  replace (Z.land oc (Z.lnot CPUID_1_ECX_VMX_BIT)) with (Z.clearbit oc 5) by (unfold CPUID_1_ECX_VMX_BIT; by rewrite Z.clearbit_spec', <- Z.ldiff_land).
  set (oc' := if ia =? CPUID_1 then Z.clearbit oc 5 else oc).
  destruct s as [[a c d b c2 bp si di] v ms c0 c4 m dv]. unfold add_ip, asm_vmread, asm_vmwrite, vt_write_general_reg, gets, modify.
  unfold mbind, M_bind. cbn. unfold set_vmcs, set_vr. cbn. repeat f_equal. unfold u32. rewrite Z.mod_mod by lia. done.
Qed.

(** C30: [vt_exit_reason] after each kind of exit: a failed entry and an exit it
    does not know panic; [cpuid] is emulated, hiding VMX, and the guest goes on;
    EPT faults never return to the guest; an INIT signal ends the run. *)
Theorem vt_exit_reason_correct s :
  let reason := vmcs s VMCS_EXIT_REASON in
  let basic := Z.land reason EXIT_REASON_MASK in
  (Z.testbit reason 31 = true ->
     vt_exit_reason cputchar cpu s = Panic "VMEntry failure(EXIT_REASON, EXIT_QUALIFICATION): %lx, %lx" s) /\
  (Z.testbit reason 31 = false ->
     (basic = EXIT_REASON_CPUID -> vt_exit_reason cputchar cpu s = Ret true (cpuid_result s)) /\
     (basic = EXIT_REASON_INIT_SIGNAL -> vt_exit_reason cputchar cpu s = Ret false s) /\
     (basic = EXIT_REASON_EPT_VIOLATION \/ basic = EXIT_REASON_EPT_MISCONFIG ->
        forall go t, vt_exit_reason cputchar cpu s <> Ret go t) /\
     (basic <> EXIT_REASON_CPUID -> basic <> EXIT_REASON_INIT_SIGNAL -> basic <> EXIT_REASON_EPT_VIOLATION ->
      basic <> EXIT_REASON_EPT_MISCONFIG ->
        vt_exit_reason cputchar cpu s = Panic "Fatal error: handler not implemented. code:%ld, ip:%#lx" s)).
Proof.
  cbv zeta. unfold vt_exit_reason, asm_vmread, gets. erewrite !(bind_eq (fun s => Ret _ s)) by reflexivity.
  set (reason := vmcs s VMCS_EXIT_REASON). set (basic := Z.land reason EXIT_REASON_MASK).
  change EXIT_REASON_VMENTRY_FAILURE_BIT with (2 ^ 31). rewrite land_bit, negb_involutive by lia.
  split; intros ->; [reflexivity|].
  split; [|split; [|split]].
  - intros ->. cbn. unfold mbind, M_bind. by rewrite do_cpuid_run.
  - intros ->. reflexivity.
  - assert (Hp : forall (m : M vm ()) why, (forall a t, (m;; panic (A := ()) why) s <> Ret a t)).
    { intros m why a t. unfold mbind, M_bind, panic. by destruct (m s). }
    intros [-> | ->] go t; cbn.
    + unfold do_ept_violation, asm_vmread, gets, mbind, M_bind. repeat (case_match; try done).
    + unfold do_ept_misconfig, asm_vmread, gets, mbind, M_bind. repeat (case_match; try done).
  - intros H1 H2 H3 H4. apply Z.eqb_neq in H1 as ->, H2 as ->, H3 as ->, H4 as ->. reflexivity.
Qed.
End exits.

(** A processor and a machine for examples; [cpuid] reports VMX (bit 5 of ECX)
    and more. *)
Definition demo_cpu : processor :=
  Processor (fun ia => (ia + 1, 2, 0xff, 4)) (fun _ => 0xffff) (fun _ => 0x9300) 16 8 16 16 0 0 0 0 (0, 23) (0, 0) 0 0 2.
Definition demo_vm (reason : Z) : vm (P := list Z) :=
  MkVm (MkVr 1 0 0 0 0 0 0 0)
    (fun f => if f =? VMCS_EXIT_REASON then reason else if f =? VMCS_VMEXIT_INSTRUCTION_LEN then 2 else 0x7c00)
    (fun _ => 0) 0x11 0 ∅ [].

Lemma vt_exit_reason_correct_witness :
  vt_exit_reason emit demo_cpu (demo_vm EXIT_REASON_CPUID) = Ret true (cpuid_result demo_cpu (demo_vm EXIT_REASON_CPUID)) /\
  rcx (vr (cpuid_result demo_cpu (demo_vm EXIT_REASON_CPUID))) = 0xdf.
Proof.
  split; [|vm_compute; reflexivity].
  destruct (vt_exit_reason_correct emit demo_cpu (demo_vm EXIT_REASON_CPUID)) as [_ H].
  apply H; vm_compute; reflexivity.
Defined.

(** ** Setting up *)

Section setup.
Context {P : Type} (cputchar : Z -> M P ()) (cpu : processor).

Definition same_but_vmcs (s t : vm (P := P)) : Prop :=
  vr t = vr s /\ msr t = msr s /\ cr0 t = cr0 s /\ cr4 t = cr4 s /\ v_mem t = v_mem s /\ dev t = dev s.

Lemma write_fields_run l : forall s : vm (P := P), exists t, write_fields l s = Ret tt t /\ same_but_vmcs s t /\
  (forall f, f ∉ l.*1 -> vmcs t f = vmcs s f) /\ (NoDup l.*1 -> forall f v, (f, v) ∈ l -> vmcs t f = u32 v).
Proof.
  induction l as [|[g w] l IH]; intros s; unfold write_fields in *; cbn [for_each].
  { exists s. split; [done|]. split; [done|]. split; [done|]. intros _ f v H. by apply elem_of_nil in H. }
  unfold asm_vmwrite at 1, modify. erewrite bind_eq by reflexivity.
  destruct (IH (set_vmcs g (u32 w) s)) as (t & Ht & Hs & Hout & Hin). exists t. split; [exact Ht|]. split; [exact Hs|].
  cbn [fmap list_fmap fst] in *. split.
  - intros f Hf. apply not_elem_of_cons in Hf as [Hne Hf]. rewrite Hout by done. cbn. by apply Z.eqb_neq in Hne as ->.
  - intros Hnd f v Hfv. apply NoDup_cons in Hnd as [Hg Hnd]. apply elem_of_cons in Hfv as [[= -> ->]|Hfv].
    + rewrite Hout by done. cbn. by rewrite Z.eqb_refl.
    + by apply Hin.
Qed.

Lemma guest_keys : NoDup guest_fields.*1 /\ Forall (fun f => f ∈ vmcs_fields) guest_fields.*1.
Proof.
  split; [apply (bool_decide_eq_true (NoDup guest_fields.*1))|apply (bool_decide_eq_true (Forall _ guest_fields.*1))];
    vm_compute; reflexivity.
Qed.

Lemma host_keys r : NoDup (host_fields r).*1.
Proof.
  assert (H : NoDup (host_fields r).*1 <-> NoDup [VMCS_HOST_ES_SEL; VMCS_HOST_CS_SEL; VMCS_HOST_SS_SEL; VMCS_HOST_DS_SEL;
    VMCS_HOST_FS_SEL; VMCS_HOST_GS_SEL; VMCS_HOST_TR_SEL; VMCS_HOST_CR0; VMCS_HOST_CR3; VMCS_HOST_CR4; VMCS_HOST_FS_BASE;
    VMCS_HOST_GS_BASE; VMCS_HOST_TR_BASE; VMCS_HOST_GDTR_BASE; VMCS_HOST_IDTR_BASE; VMCS_HOST_RSP; VMCS_HOST_RIP]) by done.
  apply H. apply (bool_decide_eq_true (NoDup _)). vm_compute. reflexivity.
Qed.

(** [set_vmcs_guest_state] gives every guest field its value, once, and changes
    nothing else: the guest starts in real mode, at 0x7c00. *)
Theorem guest_state_correct (s : vm (P := P)) :
  exists t, set_vmcs_guest_state s = Ret tt t /\ same_but_vmcs s t /\
    (forall f, f ∉ guest_fields.*1 -> vmcs t f = vmcs s f) /\ (forall f v, (f, v) ∈ guest_fields -> vmcs t f = u32 v) /\
    Forall (fun f => f ∈ vmcs_fields) guest_fields.*1 /\
    vmcs t VMCS_GUEST_RIP = 0x7c00 /\ vmcs t VMCS_GUEST_CS_BASE = 0 /\ Z.testbit (vmcs t VMCS_GUEST_CR0) 0 = false.
Proof.
  destruct (write_fields_run guest_fields s) as (t & Ht & Hs & Hout & Hin). destruct guest_keys as [Hnd Hall].
  specialize (Hin Hnd). exists t. do 5 (split; [done|]).
  assert (Hmem : forall f v, bool_decide ((f, v) ∈ guest_fields) = true -> vmcs t f = u32 v).
  { intros f v H. apply Hin. by apply bool_decide_eq_true in H. }
  rewrite (Hmem VMCS_GUEST_RIP 0x7c00), (Hmem VMCS_GUEST_CS_BASE 0), (Hmem VMCS_GUEST_CR0 CR0_NE_BIT) by (vm_compute; reflexivity).
  vm_compute. done.
Qed.

(** [vmx_on] gives CR0 and CR4 the bits that the processor fixes. *)
Definition fixed (x f0 f1 : Z) : Z := Z.lor (Z.land x f1) f0.
Definition after_vmx_on (s : vm (P := P)) : vm :=
  set_cr4 (fixed (cr4 s) (u32 (msr s MSR_IA32_VMX_CR4_FIXED0)) (u32 (msr s MSR_IA32_VMX_CR4_FIXED1)))
    (set_cr0 (fixed (cr0 s) (u32 (msr s MSR_IA32_VMX_CR0_FIXED0)) (u32 (msr s MSR_IA32_VMX_CR0_FIXED1))) s).

(** The VMX part does not run yet: on every machine [vt_main] sets the fixed
    bits of CR0 and CR4 - each bit as FIXED0 and FIXED1 ask - and panics in
    [vmx_on], before it starts a guest. *)
Theorem vt_main_panics vmlaunch vmresume ept_setup get_cursor_loc exits (s : vm (P := P)) :
  vt_main cputchar cpu vmlaunch vmresume ept_setup get_cursor_loc exits s = Panic "vmx_on not implemented" (after_vmx_on s) /\
  forall x f0 f1 i, 0 <= i ->
    Z.testbit (fixed x f0 f1) i = (Z.testbit f0 i || Z.testbit x i && Z.testbit f1 i).
Proof.
  split; [reflexivity|]. intros x f0 f1 i Hi. unfold fixed. rewrite Z.lor_spec, Z.land_spec. apply orb_comm.
Qed.

(** [has_vmx] panics at once. *)
Lemma has_vmx_panics (s : vm (P := P)) : has_vmx s = Panic "has_vmx not implemented!" s.
Proof. reflexivity. Qed.
End setup.

Lemma vt_main_panics_witness :
  vt_main emit demo_cpu (mret 0) (mret 0) (mret tt) (mret tt) 1 (demo_vm 0) = Panic "vmx_on not implemented" (after_vmx_on (demo_vm 0)) /\
  Z.testbit (fixed 0x10 0x21 0xff) 5 = true.
Proof.
  destruct (vt_main_panics emit demo_cpu (mret 0) (mret 0) (mret tt) (mret tt) 1 (demo_vm 0)) as [H1 H2].
  split; [exact H1|]. rewrite (H2 0x10 0x21 0xff 5); [reflexivity|lia].
Defined.

(** ** The base of a segment *)

(** The descriptor [d] is in memory at [a]. *)
Definition holds {P} (s : vm (P := P)) (a : Z) (d : Segdesc) : Prop :=
  exists l, length l = 8%nat /\ array (v_mem s) a l /\ d = segdesc_decode (le l).

Lemma load_segdesc_run {P} (s : vm (P := P)) a d : holds s a d -> load_segdesc a s = Ret d s.
Proof.
  intros (l & Hl & Ha & ->). unfold load_segdesc.
  assert (H : forall n l a, length l = n -> array (v_mem s) a l ->
    (fix bytes_at n a := match n with
                         | O => mret 0
                         | S n' => c ← load8 a; r ← bytes_at n' (a + 1); mret (c + 256 * r)
                         end) n a (v_mem s) = Ret (le l) (v_mem s)).
  { clear. induction n as [|n IH]; intros l a Hl Ha; [by apply length_zero_iff_nil in Hl as ->|].
    destruct l as [|c l]; [done|]. injection Hl as Hl. apply array_cons in Ha as [Hc Ha].
    rewrite (bind_eq _ _ _ c (v_mem s)) by (apply wp_eq; by eapply wp_load8).
    by rewrite (bind_eq _ _ _ _ _ (IH l (a + 1) Hl Ha)). }
  rewrite (H 8%nat l a Hl Ha). unfold set_v_mem. by destruct s.
Qed.

Definition seg_error : list Z := bytes "ERROR: get_seg_base failed!" ++ [10].
Definition printed (s : vm (P := list Z)) (out : list Z) : vm := set_dev (dev s ++ out) s.

Lemma seg_base_err_run s : seg_base_err emit s = Ret 0 (printed s seg_error).
Proof.
  unfold seg_base_err, vprint, on_dev, zoom, mbind, M_bind.
  rewrite (cprintf_emit [Text seg_error] _ _ seg_error []); vm_compute; reflexivity.
Qed.

(** A present descriptor gives its base, any other one a message and 0. *)
Definition base_of (s : vm (P := list Z)) (d : Segdesc) : outcome vm Z :=
  if sd_p d =? 0 then Ret 0 (printed s seg_error) else Ret (SEGDESC_BASE d) s.

(** [get_seg_base] finds the base of a selector in the GDT, or, with the table
    bit, in the LDT that the GDT describes; the null selector has base 0. *)
Theorem get_seg_base_correct (s : vm (P := list Z)) gdtbase ldtr sel d :
  (sel = 0 -> get_seg_base emit gdtbase ldtr sel s = Ret 0 s) /\
  (sel <> 0 -> Z.land sel SEL_LDT_BIT = 0 -> holds s (u32 (gdtbase + Z.land sel SEL_MASK)) d ->
     get_seg_base emit gdtbase ldtr sel s = base_of s d) /\
  (Z.land sel SEL_LDT_BIT <> 0 -> forall ldt, holds s (u32 (gdtbase + Z.land ldtr SEL_MASK)) ldt ->
     (sd_p ldt = 0 -> get_seg_base emit gdtbase ldtr sel s = Ret 0 (printed s seg_error)) /\
     (sd_p ldt <> 0 -> holds s (u32 (SEGDESC_BASE ldt + Z.land sel SEL_MASK)) d ->
        get_seg_base emit gdtbase ldtr sel s = base_of s d)).
Proof.
  unfold get_seg_base, base_of. split; [by intros ->|]. split.
  - intros Hn Hg Hd. apply Z.eqb_neq in Hn as ->. rewrite Hg. cbn [Z.eqb negb].
    rewrite (bind_eq _ _ _ _ _ (load_segdesc_run s _ d Hd)). destruct (sd_p d =? 0); [apply seg_base_err_run|done].
  - intros Hl ldt Hldt. destruct (Z.eqb_spec sel 0) as [->|_]; [done|]. apply Z.eqb_neq in Hl as ->. cbn [negb].
    rewrite (bind_eq _ _ _ _ _ (load_segdesc_run s _ ldt Hldt)). split.
    + intros ->. apply seg_base_err_run.
    + intros Hp Hd. apply Z.eqb_neq in Hp as ->.
      rewrite (bind_eq _ _ _ _ _ (load_segdesc_run s _ d Hd)). destruct (sd_p d =? 0); [apply seg_base_err_run|done].
Qed.

(** The kernel's flat data segment, at index 2 of a GDT at address 0. *)
Definition demo_desc : list Z := [0xff; 0xff; 0; 0; 0; 0x92; 0xcf; 0].

Lemma get_seg_base_correct_witness :
  let s := set_v_mem (mem_of 16 demo_desc) (demo_vm 0) in
  get_seg_base emit 0 0 16 s = base_of s (segdesc_decode (le demo_desc)) /\ sd_p (segdesc_decode (le demo_desc)) = 1.
Proof.
  intros s. split; [|vm_compute; reflexivity].
  destruct (get_seg_base_correct s 0 0 16 (segdesc_decode (le demo_desc))) as (_ & H & _). apply H.
  - discriminate.
  - reflexivity.
  - exists demo_desc. split; [reflexivity|]. split; [|reflexivity]. exact (write_array ∅ 16 demo_desc).
Defined.

(** ** The host's state *)

(** The base in the eight bytes of a descriptor, and its present bit. *)
Definition bytes_base (l : list Z) : Z :=
  match l with [_; _; b0; b1; b2; _; _; b3] => b0 + 256 * b1 + 65536 * b2 + 16777216 * b3 | _ => 0 end.
Definition bytes_present (l : list Z) : bool := Z.testbit (nth 5 l 0) 7.
Lemma base_fields a b c : 0 <= a < 256 -> 0 <= b < 256 -> 0 <= c < 65536 ->
  u32 (Z.lor (Z.lor (Z.shiftl a 24) (Z.shiftl b 16)) c) = 16777216 * a + 65536 * b + c.
Proof.
  intros. rewrite !Z.shiftl_mul_pow2 by lia.
  rewrite (lor_low_add (a * 2 ^ 24) (b * 2 ^ 16) 24) by (lia || (apply Z.mod_mul; lia)).
  rewrite (lor_low_add (a * 2 ^ 24 + b * 2 ^ 16) c 16) by (lia || divmod). rewrite u32_small; lia.
Qed.
(** The fields of [struct segdesc] are those bytes. *)
Lemma decode_base l : length l = 8%nat -> Forall (fun b => 0 <= b < 256) l ->
  SEGDESC_BASE (segdesc_decode (le l)) = bytes_base l /\ 0 <= bytes_base l < 2 ^ 32 /\
  (sd_p (segdesc_decode (le l)) <> 0 <-> bytes_present l = true).
Proof.
  intros Hl Hb. do 8 (destruct l as [|? l]; [done|]). destruct l; [|done].
  repeat (apply Forall_cons in Hb as [? Hb]).
  unfold SEGDESC_BASE, segdesc_decode, bytes_present, bytes_base. 
  cbn [segdesc_widths unpack nth le foldr sd_p sd_base_31_24 sd_base_23_16 sd_base_15_0].
  split; [|split;[lia|]].
  - rewrite base_fields by (apply Z.mod_pos_bound; lia). divmod.
  - rewrite Z.testbit_true by lia. divmod.
Qed.

Section host.
Context {P : Type} (cputchar : Z -> M P ()) (cpu : processor).
Implicit Types (s : vm (P := P)) (ds : Z -> Segdesc).

Definition host_segments : list Z :=
  [sel_es cpu; sel_cs cpu; sel_ss cpu; sel_ds cpu; sel_fs cpu; sel_gs cpu; sel_ldtr cpu; sel_tr cpu].
Definition host_selectors : list Z := u16 <$> host_segments.

(** The GDT has a present descriptor [ds sel] for each selector the processor
    holds, except for null ones. *)
Definition gdt_good ds s : Prop :=
  forall sel, sel ∈ host_selectors ->
    sel = 0 \/ sel <> 0 /\ Z.land sel SEL_LDT_BIT = 0 /\ sd_p (ds sel) <> 0 /\
                 holds s (u32 ((gdtr cpu).1 + Z.land sel SEL_MASK)) (ds sel).

Definition host_sreg ds (sel : Z) : regs_in_vmcs_sreg :=
  if sel =? 0 then MkSreg sel (lsl cpu sel) ACCESS_RIGHTS_UNUSABLE_BIT 0
  else MkSreg sel (lsl cpu sel) (Z.land (Z.shiftr (lar cpu sel) 8) ACCESS_RIGHTS_MASK) (SEGDESC_BASE (ds sel)).
Definition host_regs ds s : regs_in_vmcs :=
  let sreg sel := host_sreg ds (u16 sel) in
  MkRegs (sreg (sel_es cpu)) (sreg (sel_cs cpu)) (sreg (sel_ss cpu)) (sreg (sel_ds cpu))
    (sreg (sel_fs cpu)) (sreg (sel_gs cpu)) (sreg (sel_ldtr cpu)) (sreg (sel_tr cpu))
    (MkDesc (gdtr cpu).1 (u16 (gdtr cpu).2)) (MkDesc (idtr cpu).1 (u16 (idtr cpu).2))
    (cr0 s) (host_cr3 cpu) (cr4 s) (host_dr7 cpu) (host_rflags cpu).

Lemma get_seg_base_good ds s ldtr sel :
  gdt_good ds s -> sel ∈ host_selectors ->
  get_seg_base cputchar (gdtr cpu).1 ldtr sel s = Ret (s_base (host_sreg ds sel)) s.
Proof.
  intros Hg Hs. unfold get_seg_base, host_sreg. destruct (Hg sel Hs) as [->|(Hn & Hl & Hp & Hd)]; [done|].
  apply Z.eqb_neq in Hn as ->. rewrite Hl. cbn [Z.eqb negb s_base].
  rewrite (bind_eq _ _ _ _ _ (load_segdesc_run s _ _ Hd)). by apply Z.eqb_neq in Hp as ->.
Qed.

Lemma host_sreg_eq ds sel :
  MkSreg sel (lsl cpu sel) (if negb (sel =? 0) then Z.land (Z.shiftr (lar cpu sel) 8) ACCESS_RIGHTS_MASK else ACCESS_RIGHTS_UNUSABLE_BIT)
    (s_base (host_sreg ds sel)) = host_sreg ds sel.
Proof. unfold host_sreg. by destruct (sel =? 0). Qed.

Lemma acr_run sel s : get_seg_access_rights cpu sel s =
  Ret (if negb (sel =? 0) then Z.land (Z.shiftr (lar cpu sel) 8) ACCESS_RIGHTS_MASK else ACCESS_RIGHTS_UNUSABLE_BIT) s.
Proof. unfold get_seg_access_rights. by destruct (sel =? 0). Qed.

Lemma host_regs_run ds s : gdt_good ds s -> vt_get_current_regs_host cputchar cpu s = Ret (host_regs ds s) s.
Proof.
  intros Hg. unfold vt_get_current_regs_host. do 19 (erewrite bind_eq by reflexivity).
  do 8 (rewrite (bind_eq _ _ _ _ _ (acr_run _ s))). unfold asm_rdgdtr, asm_rdidtr.
  destruct (gdtr cpu) as [gb gl] eqn:Eg, (idtr cpu) as [ib il] eqn:Ei. do 2 (erewrite bind_eq by reflexivity; cbv beta iota).
  replace gb with (gdtr cpu).1 by (by rewrite Eg).
  do 8 (erewrite bind_eq by (apply (get_seg_base_good ds); [done|unfold host_selectors, host_segments; cbn [fmap list_fmap]; set_solver])).
  do 2 (erewrite bind_eq by reflexivity). unfold mret, M_ret, host_regs. rewrite !host_sreg_eq, Eg, Ei. done.
Qed.

(** [gdt i] are the bytes of entry [i] of the GDT: it is in memory, and present,
    for every selector the processor holds, except for null ones. *)
Definition gdt_loaded (gdt : Z -> list Z) s : Prop :=
  forall sel, sel ∈ host_selectors ->
    sel = 0 \/ sel <> 0 /\ Z.testbit sel 2 = false /\ length (gdt (sel / 8)) = 8%nat /\ Forall (fun b => 0 <= b < 256) (gdt (sel / 8)) /\
                 bytes_present (gdt (sel / 8)) = true /\ array (v_mem s) (u32 ((gdtr cpu).1 + 8 * (sel / 8))) (gdt (sel / 8)).
Definition gdt_base (gdt : Z -> list Z) (sel : Z) : Z := if sel =? 0 then 0 else bytes_base (gdt (sel / 8)).

(** The same with decoded descriptors. *)
Definition decoded (gdt : Z -> list Z) (sel : Z) : Segdesc := segdesc_decode (le (gdt (sel / 8))).

Ltac segment_in := unfold host_segments; repeat (apply elem_of_cons; first [left; reflexivity|right]).

Lemma host_selectors_range sel : sel ∈ host_selectors -> 0 <= sel < 2 ^ 16.
Proof. unfold host_selectors. rewrite list_elem_of_fmap. intros (x & -> & _). apply u16_range. Qed.

Lemma gdt_loaded_good gdt s : gdt_loaded gdt s -> gdt_good (decoded gdt) s.
Proof.
  intros Hg sel Hsel. pose proof (host_selectors_range sel Hsel) as Hr.
  destruct (Hg sel Hsel) as [->|(Hn & Hti & Hl & Hb & Hp & Ha)]; [by left|right]. split; [done|].
  pose proof (land_bit sel 2 ltac:(lia)) as H2. change (2 ^ 2) with SEL_LDT_BIT in H2. rewrite Hti in H2.
  split; [by apply Z.eqb_eq|]. split; [by apply (decode_base _ Hl Hb)|].
  exists (gdt (sel / 8)). split; [done|]. split; [|done].
  replace (Z.land sel SEL_MASK) with (8 * (sel / 8)); [done|].
  change SEL_MASK with (Z.shiftl (Z.ones 13) 3). apply Z.bits_inj'. intros i Hi.
  rewrite Z.land_spec, Z.shiftl_spec, (Z.mul_comm 8), <- (Z.shiftl_mul_pow2 _ 3), Z.shiftl_spec, <- (Z.shiftr_div_pow2 _ 3) by lia.
  destruct (decide (i < 3)); [by rewrite (Z.testbit_neg_r _ (i - 3)), (Z.testbit_neg_r (Z.ones 13)), andb_false_r by lia|].
  rewrite Z.shiftr_spec, Z.testbit_ones_nonneg by lia. replace (i - 3 + 3) with i by lia.
  destruct (Z.ltb_spec (i - 3) 13); [by rewrite andb_true_r|]. rewrite andb_false_r.
  rewrite <- (Z.mod_small sel (2 ^ 16)) by lia. apply Z.mod_pow2_bits_high. lia.
Qed.

Lemma host_sreg_values gdt s sel : gdt_loaded gdt s -> sel ∈ host_selectors ->
  s_sel (host_sreg (decoded gdt) sel) = sel /\ s_base (host_sreg (decoded gdt) sel) = gdt_base gdt sel /\
  u32 sel = sel /\ u32 (gdt_base gdt sel) = gdt_base gdt sel.
Proof.
  intros Hg Hsel. pose proof (host_selectors_range sel Hsel) as Hr. unfold host_sreg, gdt_base, decoded.
  rewrite (u32_small sel) by lia.
  destruct (Hg sel Hsel) as [->|(Hn & _ & Hl & Hb & _)]; [done|]. apply Z.eqb_neq in Hn as ->.
  destruct (decode_base _ Hl Hb) as (E & Hbr & _). cbn [s_sel s_base]. by rewrite E, u32_small.
Qed.

(** What a VM exit loads, by the numbers that the processor's manual gives the fields
    of the host-state area. *)
Record host_area : Type := HostArea {
  ha_es : Z; ha_cs : Z; ha_ss : Z; ha_ds : Z; ha_fs : Z; ha_gs : Z; ha_tr : Z;
  ha_cr0 : Z; ha_cr3 : Z; ha_cr4 : Z;
  ha_fs_base : Z; ha_gs_base : Z; ha_tr_base : Z; ha_gdtr_base : Z; ha_idtr_base : Z;
  ha_rsp : Z; ha_rip : Z
}.
Definition vm_exit_loads (v : Z -> Z) : host_area := {|
  ha_es := v 0x0C00; ha_cs := v 0x0C02; ha_ss := v 0x0C04; ha_ds := v 0x0C06; ha_fs := v 0x0C08; ha_gs := v 0x0C0A; ha_tr := v 0x0C0C;
  ha_cr0 := v 0x6C00; ha_cr3 := v 0x6C02; ha_cr4 := v 0x6C04;
  ha_fs_base := v 0x6C06; ha_gs_base := v 0x6C08; ha_tr_base := v 0x6C0A; ha_gdtr_base := v 0x6C0C; ha_idtr_base := v 0x6C0E;
  ha_rsp := v 0x6C14; ha_rip := v 0x6C16
|}.
Definition host_area_numbers : list Z :=
  [0x0C00; 0x0C02; 0x0C04; 0x0C06; 0x0C08; 0x0C0A; 0x0C0C; 0x6C00; 0x6C02; 0x6C04; 0x6C06; 0x6C08; 0x6C0A; 0x6C0C; 0x6C0E; 0x6C14; 0x6C16].

(** The processor as it is, with the bases that the GDT gives FS, GS and TR; RSP and
    RIP have a value that the entry code replaces. *)
Definition current_host gdt s : host_area := {|
  ha_es := u16 (sel_es cpu); ha_cs := u16 (sel_cs cpu); ha_ss := u16 (sel_ss cpu); ha_ds := u16 (sel_ds cpu);
  ha_fs := u16 (sel_fs cpu); ha_gs := u16 (sel_gs cpu); ha_tr := u16 (sel_tr cpu);
  ha_cr0 := u32 (cr0 s); ha_cr3 := u32 (host_cr3 cpu); ha_cr4 := u32 (cr4 s);
  ha_fs_base := gdt_base gdt (u16 (sel_fs cpu)); ha_gs_base := gdt_base gdt (u16 (sel_gs cpu)); ha_tr_base := gdt_base gdt (u16 (sel_tr cpu));
  ha_gdtr_base := u32 (gdtr cpu).1; ha_idtr_base := u32 (idtr cpu).1; ha_rsp := 0xdeadbeef; ha_rip := 0xdeadbeef
|}.

(** The checks that VM entry makes on the selectors: privilege level 0 and the GDT, and
    neither CS nor TR null. *)
Definition entry_accepts (h : host_area) : bool :=
  forallb (fun sel => sel mod 8 =? 0) [ha_es h; ha_cs h; ha_ss h; ha_ds h; ha_fs h; ha_gs h; ha_tr h] &&
  negb (ha_cs h =? 0) && negb (ha_tr h =? 0).

(** C35: [set_vmcs_host_state] makes a VM exit come back to the processor as it is: what
    an exit loads, read from the fields with the numbers of the processor's manual, are
    the current selectors and control registers, the bases of FS, GS and TR from the
    bytes of the GDT, and the addresses of the GDT and the IDT.  No other field
    changes; and when the selectors are those of the kernel, VM entry accepts them. *)
Theorem host_state_correct gdt s :
  gdt_loaded gdt s ->
  exists t, set_vmcs_host_state cputchar cpu s = Ret tt t /\ same_but_vmcs s t /\
    vm_exit_loads (vmcs t) = current_host gdt s /\
    (forall f, f ∉ host_area_numbers -> vmcs t f = vmcs s f) /\
    ((forall sel, sel ∈ host_selectors -> sel mod 8 = 0) -> u16 (sel_cs cpu) <> 0 -> u16 (sel_tr cpu) <> 0 ->
       entry_accepts (vm_exit_loads (vmcs t)) = true).
Proof.
  intros Hg. pose proof (gdt_loaded_good gdt s Hg) as Hgood. set (r := host_regs (decoded gdt) s).
  destruct (write_fields_run (host_fields r) s) as (t & Ht & Hs & Hout & Hin). specialize (Hin (host_keys r)).
  assert (Hi : forall i f v, host_fields r !! i = Some (f, v) -> vmcs t f = u32 v)
    by (intros i f v H; apply Hin; by eapply list_elem_of_lookup_2).
  assert (Hv : forall x, x ∈ host_segments ->
    u32 (s_sel (host_sreg (decoded gdt) (u16 x))) = u16 x /\ u32 (s_base (host_sreg (decoded gdt) (u16 x))) = gdt_base gdt (u16 x)).
  { intros x Hx. destruct (host_sreg_values gdt s (u16 x) Hg) as (E1 & E2 & E3 & E4); [by apply list_elem_of_fmap_2|].
    by rewrite E1, E2, E3, E4. }
  assert (Hloads : vm_exit_loads (vmcs t) = current_host gdt s).
  { assert (Hsel : forall i f x, host_fields r !! i = Some (f, s_sel (host_sreg (decoded gdt) (u16 x))) ->
      x ∈ host_segments -> vmcs t f = u16 x) by (intros i f x H Hx; rewrite (Hi i f _ H); by apply Hv).
    assert (Hbase : forall i f x, host_fields r !! i = Some (f, s_base (host_sreg (decoded gdt) (u16 x))) ->
      x ∈ host_segments -> vmcs t f = gdt_base gdt (u16 x)) by (intros i f x H Hx; rewrite (Hi i f _ H); by apply Hv).
    unfold vm_exit_loads, current_host.
    rewrite (Hsel 0%nat 0x0C00 (sel_es cpu) eq_refl), (Hsel 1%nat 0x0C02 (sel_cs cpu) eq_refl), (Hsel 2%nat 0x0C04 (sel_ss cpu) eq_refl),
      (Hsel 3%nat 0x0C06 (sel_ds cpu) eq_refl), (Hsel 4%nat 0x0C08 (sel_fs cpu) eq_refl), (Hsel 5%nat 0x0C0A (sel_gs cpu) eq_refl),
      (Hsel 6%nat 0x0C0C (sel_tr cpu) eq_refl), (Hbase 10%nat 0x6C06 (sel_fs cpu) eq_refl), (Hbase 11%nat 0x6C08 (sel_gs cpu) eq_refl),
      (Hbase 12%nat 0x6C0A (sel_tr cpu) eq_refl) by segment_in.
    by rewrite (Hi 7%nat 0x6C00 _ eq_refl), (Hi 8%nat 0x6C02 _ eq_refl), (Hi 9%nat 0x6C04 _ eq_refl), (Hi 13%nat 0x6C0C _ eq_refl),
      (Hi 14%nat 0x6C0E _ eq_refl), (Hi 15%nat 0x6C14 _ eq_refl), (Hi 16%nat 0x6C16 _ eq_refl). }
  exists t. split; [unfold set_vmcs_host_state; by rewrite (bind_eq _ _ _ _ _ (host_regs_run (decoded gdt) s Hgood))|].
  split; [done|]. split; [done|]. split; [exact Hout|].
  rewrite Hloads. intros Hk Hcs Htr. unfold entry_accepts, current_host.
  cbn [forallb ha_es ha_cs ha_ss ha_ds ha_fs ha_gs ha_tr]. rewrite !andb_true_iff, !Z.eqb_eq, !negb_true_iff, !Z.eqb_neq.
  assert (Hk' : forall x, x ∈ host_segments -> u16 x mod 8 = 0) by (intros x Hx; by apply Hk, list_elem_of_fmap_2).
  split_and!; try done; apply Hk'; segment_in.
Qed.
End host.

(** The kernel's GDT with its flat code and data segments. *)
Definition demo_code_desc : list Z := [0xff; 0xff; 0; 0; 0; 0x9a; 0xcf; 0].
(** A task state at 0xf0112340, and a processor that has all three. *)
Definition demo_tss_desc : list Z := [0x67; 0; 0x40; 0x23; 0x11; 0x89; 0; 0xf0].
Definition host_cpu : processor :=
  Processor (fun ia => (ia, 2, 3, 4)) (fun _ => 0xffff) (fun _ => 0x9300) 16 8 16 16 16 16 0 24 (0, 31) (0xf0110000, 0x7ff) 0x101000 0 2.

Lemma host_state_correct_witness :
  let s := set_v_mem (mem_of 8 (demo_code_desc ++ demo_desc ++ demo_tss_desc)) (demo_vm 0) in
  exists t, set_vmcs_host_state emit host_cpu s = Ret tt t /\ ha_cs (vm_exit_loads (vmcs t)) = 8 /\
    ha_cr0 (vm_exit_loads (vmcs t)) = 0x11 /\ ha_tr_base (vm_exit_loads (vmcs t)) = 0xf0112340 /\
    entry_accepts (vm_exit_loads (vmcs t)) = true.
Proof.
  intros s. set (gdt i := if i =? 1 then demo_code_desc else if i =? 2 then demo_desc else demo_tss_desc).
  assert (Hs : host_selectors host_cpu = [16; 8; 16; 16; 16; 16; 0; 24]) by reflexivity.
  assert (Hg : gdt_loaded host_cpu gdt s).
  { intros sel Hsel. rewrite Hs in Hsel.
    repeat (apply elem_of_cons in Hsel as [->|Hsel]; [try (left; reflexivity)|]); [..|destruct (not_elem_of_nil _ Hsel)];
      right; (split; [discriminate|]); (split; [reflexivity|]); (split; [reflexivity|]);
      (split; [apply (bool_decide_unpack _); vm_compute; exact I|]); (split; [reflexivity|]).
    all: intros i c Hi; do 8 (destruct i as [|i]; [injection Hi as <-; vm_compute; reflexivity|]); discriminate Hi. }
  destruct (host_state_correct emit host_cpu gdt s Hg) as (t & Ht & _ & Hl & _ & Ha). exists t. split; [exact Ht|].
  split; [by rewrite Hl|]. split; [by rewrite Hl|]. split; [by rewrite Hl|]. apply Ha; [|discriminate|discriminate].
  intros sel Hsel. rewrite Hs in Hsel. repeat (apply elem_of_cons in Hsel as [->|Hsel]; [reflexivity|]). destruct (not_elem_of_nil _ Hsel).
Defined.

(** ** Enabling VMXON *)

Section msr_loop.
Let f : Z := MSR_IA32_FEATURE_CONTROL.
Implicit Types (s : vm (P := list Z)).

(** A 64-bit value is put together from EAX and EDX. *)
Lemma halves m : 0 <= m < 2 ^ 64 -> Z.lor (u32 m) (Z.shiftl (u32 (Z.shiftr m 32)) 32) = m.
Proof.
  intros Hm. rewrite Z.shiftl_mul_pow2, Z.shiftr_div_pow2 by lia. rewrite Z.lor_comm.
  rewrite (lor_low_add _ _ 32); [divmod|lia|apply u32_range|]. rewrite Z.mod_mul by lia. done.
Qed.

Lemma asm_rdmsr64_run s : 0 <= msr s f < 2 ^ 64 -> asm_rdmsr64 f s = Ret (msr s f) s.
Proof.
  intros Hm. unfold asm_rdmsr64, asm_rdmsr32, gets. erewrite bind_eq by reflexivity. unfold mret, M_ret. f_equal. by apply halves.
Qed.

Lemma vprint_text out s : forallb piece_okb [Text out] = true -> vprint emit out [] s = Ret tt (printed s out).
Proof.
  intros Hp. unfold vprint, on_dev, zoom, mbind, M_bind.
  rewrite (cprintf_emit [Text out] out [] out []); [done|by apply app_nil_r|done|done|]. cbn. by rewrite app_nil_r.
Qed.

(** The MSR with the bits for VMXON and for the lock set. *)
Definition enabled (m : Z) : Z := Z.lor (Z.lor m MSR_IA32_FEATURE_CONTROL_VMXON_BIT) MSR_IA32_FEATURE_CONTROL_LOCK_BIT.

Lemma enabled_range m : 0 <= m < 2 ^ 64 -> 0 <= enabled m < 2 ^ 64.
Proof.
  intros Hm. unfold enabled. change MSR_IA32_FEATURE_CONTROL_VMXON_BIT with 4. change MSR_IA32_FEATURE_CONTROL_LOCK_BIT with 1.
  assert (0 <= Z.lor (Z.lor m 4) 1) by (apply Z.lor_nonneg; split; [apply Z.lor_nonneg|]; lia). split; [done|].
  apply Z.log2_lt_cancel. rewrite !Z.log2_lor by (try apply Z.lor_nonneg; lia).
  assert (Z.log2 m <= 63) by (apply (Z.log2_le_mono _ (2 ^ 64 - 1)); lia).
  change (Z.log2 4) with 2. change (Z.log2 1) with 0. change (Z.log2 (2 ^ 64)) with 64. lia.
Qed.

Lemma enabled_bits m : Z.testbit (enabled m) 0 = true /\ Z.testbit (enabled m) 2 = true.
Proof. unfold enabled. rewrite !Z.lor_spec. split; [apply orb_true_r|]. cbn. by rewrite orb_true_r. Qed.

(** One round. *)
Lemma msr_enable_loop_step fuel s :
  0 <= msr s f < 2 ^ 64 ->
  msr_enable_loop emit (S fuel) s =
  if Z.testbit (msr s f) 0 then
    if Z.testbit (msr s f) 2 then Ret 0 s else Ret (-1) (printed s (bytes "VMXON is disabled." ++ [10]))
  else msr_enable_loop emit fuel (set_msr f (enabled (msr s f)) (printed s (bytes "Trying to enable VMXON." ++ [10]))).
Proof.
  intros Hm. cbn [msr_enable_loop]. rewrite (bind_eq _ _ _ _ _ (asm_rdmsr64_run s Hm)).
  change MSR_IA32_FEATURE_CONTROL_LOCK_BIT with (2 ^ 0) at 1. change MSR_IA32_FEATURE_CONTROL_VMXON_BIT with (2 ^ 2) at 1.
  rewrite !land_bit, !negb_involutive by lia. destruct (Z.testbit (msr s f) 0); [destruct (Z.testbit (msr s f) 2); [done|]|].
  - by rewrite (bind_eq _ _ _ _ _ (vprint_text (bytes "VMXON is disabled." ++ [10]) s eq_refl)).
  - rewrite (bind_eq _ _ _ _ _ (vprint_text (bytes "Trying to enable VMXON." ++ [10]) s eq_refl)).
    unfold asm_wrmsr64, asm_wrmsr32, modify. cbv zeta. fold (enabled (msr s f)). rewrite halves by (by apply enabled_range).
    by erewrite bind_eq by reflexivity.
Qed.

(** The loop at [msr_enable_loop] goes round twice at most: it fails only if the
    firmware has locked VMXON away, and otherwise leaves it enabled and locked. *)
Lemma msr_enable_loop_run s :
  0 <= msr s f < 2 ^ 64 ->
  exists r t, msr_enable_loop emit 2 s = Ret r t /\
    (r = 0 \/ r = -1 /\ Z.testbit (msr s f) 0 = true /\ Z.testbit (msr s f) 2 = false /\ msr t = msr s) /\
    (r = 0 -> Z.testbit (msr t f) 0 = true /\ Z.testbit (msr t f) 2 = true).
Proof.
  intros Hm. rewrite msr_enable_loop_step by done. destruct (Z.testbit (msr s f) 0) eqn:E0.
  - destruct (Z.testbit (msr s f) 2) eqn:E2; eexists _, _; (split; [reflexivity|]); [by split; [left|]|by split; [right|]].
  - destruct (enabled_bits (msr s f)) as [H0 H2]. pose proof (enabled_range _ Hm) as Hr.
    set (u := set_msr f (enabled (msr s f)) _). assert (Hu : msr u f = enabled (msr s f)) by reflexivity.
    rewrite msr_enable_loop_step by (by rewrite Hu). rewrite Hu, H0, H2. exists 0, u. split; [done|].
    split; [by left|]. by rewrite Hu.
Qed.
End msr_loop.
