(* ===== verification/Init.v ===== *)
(** * Init: the kernel's main function (kern/init.c)

    [i386_init] on the whole machine: the console, the kernel's memory, the trap
    tables and the virtual machine.  The console and the kernel share the ports.
    Memory management reads the NVRAM before it prints anything and uses no port
    afterwards, so that what it prints can be sent to the console when it is
    done. *)

From S2P Require Import Prelude Layout Printfmt FormatSpec Printf Ports Queue Kernel Pgdir BootMem BootMap PageCheck MemStart Segment Trap Console Vmcs Vmx.
Open Scope Z_scope.

Record system : Type := MkSystem { sy_console : console; sy_kernel : kernel; sy_traps : traps; sy_vm : vm (P := list Z) }.
Definition put_console c (s : system) : system := MkSystem c (sy_kernel s) (sy_traps s) (sy_vm s).
Definition put_kernel k (s : system) : system := MkSystem (sy_console s) k (sy_traps s) (sy_vm s).
Definition put_traps t (s : system) : system := MkSystem (sy_console s) (sy_kernel s) t (sy_vm s).
Definition put_vm v (s : system) : system := MkSystem (sy_console s) (sy_kernel s) (sy_traps s) v.

Definition on_console {A} (m : M console A) : M system A := zoom sy_console put_console m.
Definition on_traps {A} (m : M traps A) : M system A := zoom sy_traps put_traps m.
Definition on_vm {A} (m : M vm A) : M system A := zoom sy_vm put_vm m.

(** The ports come from the console and go back to it, then what the kernel has
    printed reaches the display. *)
Definition from_kernel (k : kernel) : M system () :=
  modify (put_kernel k);;
  on_console (modify (set_c_io (k_io k)));;
  on_console (for_each cputchar (k_out k)).
Definition on_kernel {A} (m : M kernel A) : M system A := fun s =>
  match m (set_out [] (set_io (c_io (sy_console s)) (sy_kernel s))) with
  | Ret a k => (from_kernel k;; mret a) s
  | Panic why k => (from_kernel k;; panic why) s
  | Fault => Fault
  | Spin => Spin
  end.

Section init.
Context (kend bootstack : Z) (handler : Z -> Z) (ts : Z) (monitor : M system ()).

(** [while (1) monitor(NULL);], for [n] rounds. *)
Fixpoint monitor_loop (n : nat) : M system () :=
  match n with
  | O => spin
  | S n' => monitor;; monitor_loop n'
  end.

Definition i386_init (rounds : nat) : M system () :=
  on_console cons_init;;
  on_console (console_printf (bytes "6828 decimal is %o octal!" ++ [10]) [Word 6828]);;
  on_kernel (mem_start kend bootstack);;
  on_traps (idt_init handler ts);;
  on_vm has_vmx;;
  monitor_loop rounds.
End init.

(** ** The console *)

(** A machine with a colour display and a serial port. *)
Lemma array_set_0 v w l : array_set (v :: l) 0 w = mret (w :: l).
Proof. unfold array_set. rewrite (proj2 (Z.ltb_lt 0 _)) by (cbn [length]; lia). done. Qed.

Section ports.
Context (co : option (list Z)) (mo : list Z) (se : bool) (ad : Z) (cb : option adapter) (cp ks : Z) (bu : list Z) (rp wpos : Z) (lb : list Z) (rh : bool).
Local Abbreviation at_ports i g := (MkConsole (Io i g) co mo se ad cb cp ks bu rp wpos lb rh).

Lemma wp_console_out a d (Q : () -> console -> Prop) i g : (forall g', Q tt (at_ports i g')) -> wp (outb a d) Q (at_ports i g).
Proof. intros HQ. apply wp_outb. exact (HQ (g ++ [Out 8 (u16 a) (d mod 2 ^ 8)])). Qed.

Lemma wp_console_in a v (Q : Z -> console -> Prop) i g : (forall g', Q (u8 v) (at_ports i g')) -> wp (inb a) Q (at_ports (v :: i) g).
Proof. intros HQ. eapply wp_inb; [reflexivity|]. exact (HQ (g ++ [In 8 (u16 a) (v mod 2 ^ 8)])). Qed.
End ports.

Ltac port_step :=
  cbv beta iota delta [set_c_color set_addr_6845 set_crt_buf set_crt_pos set_serial_exists c_io c_color c_mono serial_exists addr_6845
    crt_buf crt_pos kbd_shift cons_buf cons_rpos cons_wpos line_buf readline_hack];
  lazymatch goal with
  | |- wp (outb _ _) _ _ => apply wp_console_out; intros ?
  | |- wp (inb _) _ _ => apply wp_console_in; intros ?
  | _ => wp_step
  end.

Lemma cons_init_run c v cells0 hi lo lsr iir rx rest :
  c_color c = Some (v :: cells0) -> io_in (c_io c) = hi :: lo :: lsr :: iir :: rx :: rest -> u8 lsr <> 0xFF ->
  exists c', cons_init c = Ret tt c' /\ cells c' = Some (v :: cells0) /\
    crt_pos c' = u16 (Z.lor (Z.shiftl (u8 hi) 8) (u8 lo)) /\ io_in (c_io c') = rest.
Proof.
  intros Hc Hin Hlsr. destruct c as [[i o] co mo se ad cb cp ks bu rp wp_ lb rh]. cbn in Hc, Hin. subst co i.
  assert (Hw : wp cons_init (fun _ c' => cells c' = Some (v :: cells0) /\
    crt_pos c' = u16 (Z.lor (Z.shiftl (u8 hi) 8) (u8 lo)) /\ io_in (c_io c') = rest)
    (MkConsole (Io (hi :: lo :: lsr :: iir :: rx :: rest) o) (Some (v :: cells0)) mo se ad cb cp ks bu rp wp_ lb rh)).
  { unfold cons_init, cga_init, kbd_init, serial_init, cursor_pos. wp_go. unfold id. cbn [c_color].
    change (array_get (v :: cells0) 0) with (mret (M := M console) v). wp_go. rewrite !array_set_0. wp_go. rewrite array_set_0. wp_go.
    repeat port_step.
    cbn. apply Z.eqb_neq in Hlsr as ->. cbn. done. }
  apply wp_iff in Hw as ([] & c' & Hr & Hc'). by exists c'.
Qed.

(** What characters do to the display. *)
Definition typed_all (out : list Z) (sc : list Z * Z) : list Z * Z := foldl (fun sc c => typed_on c sc) sc out.
Definition display (c : console) : option (list Z * Z) := (fun l => (l, crt_pos c)) <$> cells c.

Lemma typed_all_app a b sc : typed_all (a ++ b) sc = typed_all b (typed_all a sc).
Proof. apply foldl_app. Qed.

Lemma display_some c sc : display c = Some sc -> cells c = Some sc.1 /\ crt_pos c = sc.2.
Proof. unfold display. intros (l & Hl & ->)%fmap_Some. done. Qed.

Lemma cputchar_all c sc out :
  display c = Some sc -> display_ok sc ->
  exists c', for_each cputchar out c = Ret tt c' /\ display c' = Some (typed_all out sc) /\ display_ok (typed_all out sc) /\
    io_in (c_io c') = io_in (c_io c).
Proof.
  intros [Hc Hp]%display_some Hok. destruct sc as [l p]. cbn [fst snd] in *. subst p.
  destruct (for_each_cputchar_run c l out Hc Hok) as [g Hg]. pose proof (typed_all_ok out _ Hok) as Hok'.
  fold (typed_all out (l, crt_pos c)) in Hg, Hok'. destruct (typed_all out (l, crt_pos c)) as [l' p'].
  pose proof (cells_some _ _ Hc) as Hb. destruct Hok' as [[Hl' Hp'] Hw']. cbn [fst snd] in *.
  eexists. split; [exact Hg|]. split; [|split; [by split|reflexivity]].
  assert (0 <= p' < 2 ^ 16) by (unfold CRT_SIZE, CRT_ROWS, CRT_COLS in *; lia).
  unfold display. rewrite cells_show, crt_pos_show by done. done.
Qed.

Definition banner : list Z := bytes "6828 decimal is 15254 octal!" ++ [10].

Definition banner_pieces : list piece :=
  [Text (bytes "6828 decimal is "); Directive (Dir [] false None None 0 ConvO); Text (bytes " octal!" ++ [10])].

Lemma banner_run c sc :
  display c = Some sc -> display_ok sc ->
  exists c', console_printf (bytes "6828 decimal is %o octal!" ++ [10]) [Word 6828] c = Ret 0 c' /\
    display c' = Some (typed_all banner sc) /\ display_ok (typed_all banner sc) /\ io_in (c_io c') = io_in (c_io c).
Proof.
  intros Hc Hok. destruct (cputchar_all c sc banner Hc Hok) as (c' & Hr & H). exists c'. split; [|exact H].
  change (bytes "6828 decimal is %o octal!" ++ [10]) with (unparse banner_pieces).
  unfold console_printf. rewrite (cprintf_run cputchar banner_pieces [Word 6828] banner []).
  - by rewrite (bind_eq _ _ _ _ _ Hr).
  - apply pieces_okb_sound. vm_compute. reflexivity.
  - apply va_okb_sound. vm_compute. reflexivity.
  - vm_compute. reflexivity.
Qed.

(** ** [i386_init] *)

Section start.
Context (kend bootstack : Z) (handler : Z -> Z) (ts : Z) (monitor : M system ()).
Context (Hkend : KERNBASE + EXTPHYSMEM <= kend) (Hstack : KERNBASE <= bootstack).
Context (Hstack_end : bootstack + KSTKSIZE <= 2 ^ 32) (Hstack_page : bootstack mod PGSIZE = 0).

(** Memory management on the whole machine. *)
Lemma on_kernel_start s sc b0 b1 e0 e1 rest :
  display (sy_console s) = Some sc -> display_ok sc ->
  io_in (c_io (sy_console s)) = b0 :: b1 :: e0 :: e1 :: rest -> k_nextfree (sy_kernel s) = 0 ->
  let np := detected_pages (nvram_word b0 b1) (nvram_word e0 e1) in
  dir_page kend + 118 <= np ->
  exists c k out F l, on_kernel (mem_start kend bootstack) s = Ret tt (MkSystem c k (sy_traps s) (sy_vm s)) /\
    display c = Some (typed_all (out ++ page_check_message) sc) /\
    dir_page kend < F <= dir_page kend + 115 /\ started kend bootstack k F l /\ k_npages k = np.
Proof using Hkend Hstack Hstack_end Hstack_page.
  intros Hd Hok Hin Hnf np Hroom.
  pose proof (mem_start_run kend bootstack Hkend Hstack Hstack_end Hstack_page
    (set_out [] (set_io (c_io (sy_console s)) (sy_kernel s))) b0 b1 e0 e1 rest Hin Hnf Hroom) as H.
  apply wp_iff in H as ([] & k & Hk & F & l & HF & Hst & Hnp & out & Hout).
  assert (Hd' : display (set_c_io (k_io k) (sy_console s)) = Some sc).
  { rewrite <- Hd. unfold display, cells, set_c_io. by destruct (sy_console s). }
  destruct (cputchar_all _ sc (k_out k) Hd' Hok) as (c & Hc & Hdc & _). rewrite Hout in Hdc.
  exists c, k, out, F, l. split; [|done]. unfold on_kernel. rewrite Hk. unfold from_kernel.
  apply bind_ret_iff. exists tt. eexists. split; [|reflexivity]. erewrite bind_eq by reflexivity.
  erewrite bind_eq by reflexivity. unfold on_console, zoom. cbn [sy_console put_kernel put_console]. by rewrite Hc.
Qed.

(** C4: On a machine with a colour display, a serial port and enough memory,
    [i386_init] gets through the console, memory management and the trap tables:
    the display shows the banner and what follows it, down to the message of
    [page_check]; memory management is as [mem_start_correct] says; the IDT is
    loaded with the gates and the task register set.  Then the kernel panics in
    [has_vmx], and never comes to its own loop around [monitor]. *)
Theorem i386_init_correct s v cells0 hi lo lsr iir rx b0 b1 e0 e1 rest rounds :
  c_color (sy_console s) = Some (v :: cells0) ->
  let pos := u16 (Z.lor (Z.shiftl (u8 hi) 8) (u8 lo)) in
  display_ok (v :: cells0, pos) ->
  io_in (c_io (sy_console s)) = hi :: lo :: lsr :: iir :: rx :: b0 :: b1 :: e0 :: e1 :: rest -> u8 lsr <> 0xFF ->
  k_nextfree (sy_kernel s) = 0 -> sy_traps s = traps0 ->
  let np := detected_pages (nvram_word b0 b1) (nvram_word e0 e1) in
  dir_page kend + 118 <= np ->
  exists t out F l, i386_init kend bootstack handler ts monitor rounds s = Panic "has_vmx not implemented!" t /\
    display (sy_console t) = Some (typed_all (banner ++ out ++ page_check_message) (v :: cells0, pos)) /\
    dir_page kend < F <= dir_page kend + 115 /\ started kend bootstack (sy_kernel t) F l /\ k_npages (sy_kernel t) = np /\
    idt_init handler ts traps0 = Ret tt (sy_traps t).
Proof using Hkend Hstack Hstack_end Hstack_page.
  intros Hc pos Hok Hin Hlsr Hnf Htr np Hroom.
  destruct (cons_init_run (sy_console s) v cells0 hi lo lsr iir rx _ Hc Hin Hlsr) as (c1 & Hr1 & Hc1 & Hp1 & Hi1).
  assert (Hd1 : display c1 = Some (v :: cells0, pos)) by (unfold display; by rewrite Hc1, Hp1).
  destruct (banner_run c1 _ Hd1 Hok) as (c2 & Hr2 & Hd2 & Hok2 & Hi2). rewrite Hi1 in Hi2.
  destruct (on_kernel_start (put_console c2 s) _ b0 b1 e0 e1 rest Hd2 Hok2 Hi2 Hnf Hroom) as (c & k & out & F & l & Hr3 & Hd3 & HF & Hst & Hnp).
  assert (Hw : wp (idt_init handler ts) (fun _ _ => True) traps0) by (unfold idt_init, set_gate, ltr; wp_go; exact I).
  apply wp_iff in Hw as ([] & t4 & Hr4 & _).
  exists (MkSystem c k t4 (sy_vm s)), out, F, l. split.
  - unfold i386_init.
    erewrite (bind_eq (on_console cons_init)) by (unfold on_console, zoom; by rewrite Hr1).
    erewrite bind_eq by (unfold on_console, zoom; cbn [sy_console put_console]; by rewrite Hr2).
    change (put_console c2 (put_console c1 s)) with (put_console c2 s). rewrite (bind_eq _ _ _ _ _ Hr3).
    cbn [sy_traps sy_vm put_console]. rewrite Htr.
    erewrite bind_eq by (unfold on_traps, zoom; cbn [sy_traps]; by rewrite Hr4). reflexivity.
  - cbn [sy_console sy_kernel sy_traps]. split; [|done]. rewrite typed_all_app. exact Hd3.
Qed.
End start.

(** The machine of 16MB of BootMap.v, with a blank display. *)
Definition demo_system : system :=
  MkSystem (demo_console [0; 0; 0x60; 1; 0; 0x80; 0x02; 0x00; 0x3C]) dirty_ex traps0 (demo_vm 0).

Lemma i386_init_correct_witness :
  exists t, i386_init (KERNBASE + 0x100004) (KERNBASE + 0x110000) (fun n => 0xF0100000 + 16 * n) 0xF0120000 (mret tt) 1 demo_system =
      Panic "has_vmx not implemented!" t /\
    k_npages (sy_kernel t) = 4096 /\ is_Some (t_idtr (sy_traps t)).
Proof.
  destruct (i386_init_correct (KERNBASE + 0x100004) (KERNBASE + 0x110000) (fun n => 0xF0100000 + 16 * n) 0xF0120000 (mret tt)
    ltac:(discriminate) ltac:(discriminate) ltac:(discriminate) eq_refl
    demo_system blank (replicate 1999 blank) 0 0 0x60 1 0 0x80 0x02 0x00 0x3C [] 1) as (t & out & F & l & Ht & _ & _ & _ & Hnp & Hidt).
  - reflexivity.
  - apply (demo_display_ok 0). split; [discriminate|reflexivity].
  - reflexivity.
  - discriminate.
  - reflexivity.
  - reflexivity.
  - vm_compute. discriminate.
  - exists t. split; [exact Ht|]. split; [rewrite Hnp; vm_compute; reflexivity|].
    unfold idt_init in Hidt. injection Hidt as <-. eexists. reflexivity.
Defined.
