(* ===== verification/AsmMachine.v ===== *)
(** * AsmMachine: the instructions hvm/asm_vmop.S is made of

    A machine that runs the functions of hvm/asm_vmop.S instruction by instruction,
    in 32-bit and in 64-bit mode.  Memory is its words, as every access of that code
    is an aligned word; the address of each instruction is a parameter.  What an
    instruction of the virtualization extensions does to the processor is the
    interface [Virtualization]: VmAsm.v gives it for Intel's and SvmAsm.v for AMD's. *)

From S2P Require Import Prelude.
Open Scope Z_scope.

(** ** Registers and operands *)

(** The general registers and CR2.  In 32-bit mode there are no R8 to R15. *)
Inductive reg : Type :=
  | RAX | RCX | RDX | RBX | RSP | RBP | RSI | RDI
  | R8 | R9 | R10 | R11 | R12 | R13 | R14 | R15 | CR2.

Record regs : Type := MkGr {
  r_ax : Z; r_cx : Z; r_dx : Z; r_bx : Z; r_sp : Z; r_bp : Z; r_si : Z; r_di : Z;
  r_8 : Z; r_9 : Z; r_10 : Z; r_11 : Z; r_12 : Z; r_13 : Z; r_14 : Z; r_15 : Z; r_cr2 : Z
}.
Definition getr (r : reg) (g : regs) : Z :=
  match r with
  | RAX => r_ax g | RCX => r_cx g | RDX => r_dx g | RBX => r_bx g
  | RSP => r_sp g | RBP => r_bp g | RSI => r_si g | RDI => r_di g
  | R8 => r_8 g | R9 => r_9 g | R10 => r_10 g | R11 => r_11 g
  | R12 => r_12 g | R13 => r_13 g | R14 => r_14 g | R15 => r_15 g | CR2 => r_cr2 g
  end.
Definition setr (r : reg) (v : Z) (g : regs) : regs :=
  let '(MkGr a c d b sp bp si di x8 x9 x10 x11 x12 x13 x14 x15 c2) := g in
  match r with
  | RAX => MkGr v c d b sp bp si di x8 x9 x10 x11 x12 x13 x14 x15 c2
  | RCX => MkGr a v d b sp bp si di x8 x9 x10 x11 x12 x13 x14 x15 c2
  | RDX => MkGr a c v b sp bp si di x8 x9 x10 x11 x12 x13 x14 x15 c2
  | RBX => MkGr a c d v sp bp si di x8 x9 x10 x11 x12 x13 x14 x15 c2
  | RSP => MkGr a c d b v bp si di x8 x9 x10 x11 x12 x13 x14 x15 c2
  | RBP => MkGr a c d b sp v si di x8 x9 x10 x11 x12 x13 x14 x15 c2
  | RSI => MkGr a c d b sp bp v di x8 x9 x10 x11 x12 x13 x14 x15 c2
  | RDI => MkGr a c d b sp bp si v x8 x9 x10 x11 x12 x13 x14 x15 c2
  | R8 => MkGr a c d b sp bp si di v x9 x10 x11 x12 x13 x14 x15 c2
  | R9 => MkGr a c d b sp bp si di x8 v x10 x11 x12 x13 x14 x15 c2
  | R10 => MkGr a c d b sp bp si di x8 x9 v x11 x12 x13 x14 x15 c2
  | R11 => MkGr a c d b sp bp si di x8 x9 x10 v x12 x13 x14 x15 c2
  | R12 => MkGr a c d b sp bp si di x8 x9 x10 x11 v x13 x14 x15 c2
  | R13 => MkGr a c d b sp bp si di x8 x9 x10 x11 x12 v x14 x15 c2
  | R14 => MkGr a c d b sp bp si di x8 x9 x10 x11 x12 x13 v x15 c2
  | R15 => MkGr a c d b sp bp si di x8 x9 x10 x11 x12 x13 x14 v c2
  | CR2 => MkGr a c d b sp bp si di x8 x9 x10 x11 x12 x13 x14 x15 v
  end.

(** Operands: %r, $n, $n[f], d(%r). *)
Inductive operand : Type := Reg (r : reg) | Imm (n : Z) | Forward (l : nat) | At (d : Z) (r : reg).

(** The instructions of the virtualization extensions. *)
Inductive virt_instr : Type := VMWRITE | VMLAUNCH | VMRESUME | VMLOAD | VMSAVE | VMRUN | STGI.

(** Source first, as in the file; [movl] is [mov] with a 32-bit register. *)
Inductive instr : Type :=
  | push (o : operand)
  | pop (o : operand)
  | mov (src dst : operand)
  | movl (src dst : operand)
  | xchg (a b : operand)
  | xor (src dst : operand)
  | dec (o : operand)
  | virt (i : virt_instr) (ops : list operand)
  | jmp (l : nat)
  | label (l : nat)
  | ret.
Abbreviation vmwrite v field := (virt VMWRITE [v; field]).
Abbreviation vmlaunch := (virt VMLAUNCH []).
Abbreviation vmresume := (virt VMRESUME []).
Abbreviation vmload := (virt VMLOAD [Reg RAX]).
Abbreviation vmsave := (virt VMSAVE [Reg RAX]).
Abbreviation vmrun := (virt VMRUN [Reg RAX]).
Abbreviation stgi := (virt STGI []).

(** The words of vt_vmentry_regs, in the numbering of asm_vmop.S. *)
Definition _RAX : Z := 0.
Definition _RCX : Z := 1.
Definition _RDX : Z := 2.
Definition _RBX : Z := 3.
Definition _CR2 : Z := 4.
Definition _RBP : Z := 5.
Definition _RSI : Z := 6.
Definition _RDI : Z := 7.
Definition _R8 : Z := 8.
Definition _R9 : Z := 9.
Definition _R10 : Z := 10.
Definition _R11 : Z := 11.
Definition _R12 : Z := 12.
Definition _R13 : Z := 13.
Definition _R14 : Z := 14.
Definition _R15 : Z := 15.

(** .code32 and .code64 *)
Inductive mode : Type := Code32 | Code64.
Definition word (m : mode) : Z := match m with Code32 => 4 | Code64 => 8 end.
Definition wrap (m : mode) (x : Z) : Z := match m with Code32 => u32 x | Code64 => u64 x end.

(** What an instruction of the extensions comes to: the code goes on behind it, or
    at an address.  [None] is an undefined operation. *)
Inductive effect (X : Type) : Type := Next (g : regs) (x : X) | Goto (a : Z) (g : regs) (x : X).
Arguments Next {X} g x.
Arguments Goto {X} a g x.
Class Virtualization (X : Type) := virt_step : virt_instr -> list Z -> regs -> X -> option (effect X).

(** ** The machine *)

Record machine {X : Type} : Type := MkMachine { pc : nat; gr : regs; words : gmap Z Z; ext : X }.
Arguments machine X : clear implicits.

Section machine.
Context {X : Type} `{!Virtualization X} (m : mode) (addr : nat -> Z) (code : list instr).
Local Abbreviation machine := (machine X).

Definition set_pc n (a : machine) : machine := MkMachine X n (gr a) (words a) (ext a).
Definition set_gr g (a : machine) : machine := MkMachine X (pc a) g (words a) (ext a).
Definition set_words w (a : machine) : machine := MkMachine X (pc a) (gr a) w (ext a).
Definition set_ext x (a : machine) : machine := MkMachine X (pc a) (gr a) (words a) x.

Definition load_reg (r : reg) : M machine Z := gets (fun a => getr r (gr a)).
Definition store_reg (r : reg) (v : Z) : M machine () := modify (fun a => set_gr (setr r v (gr a)) a).
Definition load_word (x : Z) : M machine Z := w ← gets words; deref (w !! x).
Definition store_word (x v : Z) : M machine () :=
  w ← gets words; deref (w !! x);; modify (set_words (<[x := v]> w)).

Definition is_label (l : nat) (i : instr) : bool := match i with label k => bool_decide (k = l) | _ => false end.
(** The first label [l] behind instruction [n]. *)
Definition forward (n l : nat) : option nat := (fun '(i, _) => (n + i)%nat) <$> list_find (is_label l) (drop n code).
(** The instruction at an address. *)
Definition at_address (x : Z) : option nat := fst <$> list_find (fun i => addr i = x) (seq 0 (length code)).

Definition load_operand (o : operand) : M machine Z :=
  match o with
  | Reg r => load_reg r
  | Imm n => mret n
  | Forward l => n ← gets pc; i ← deref (forward n l); mret (addr i)
  | At d r => b ← load_reg r; load_word (wrap m (b + d))
  end.
Definition store_operand (o : operand) (v : Z) : M machine () :=
  match o with
  | Reg r => store_reg r v
  | At d r => b ← load_reg r; store_word (wrap m (b + d)) v
  | _ => fault
  end.
Fixpoint load_operands (l : list operand) : M machine (list Z) :=
  match l with
  | [] => mret []
  | o :: l' => v ← load_operand o; vs ← load_operands l'; mret (v :: vs)
  end.

Definition virtualize (i : virt_instr) (vs : list Z) : M machine () :=
  g ← gets gr;
  x ← gets ext;
  e ← deref (virt_step i vs g x);
  match e with
  | Next g' x' => modify (set_ext x');; modify (set_gr g')
  | Goto a g' x' => n ← deref (at_address a); modify (set_ext x');; modify (set_gr g');; modify (set_pc n)
  end.

(** One instruction; [pc] is already behind it.  A return gives the address it
    returns to. *)
Definition exec (i : instr) : M machine (option Z) :=
  match i with
  | push o =>
      v ← load_operand o; sp ← load_reg RSP;
      store_reg RSP (wrap m (sp - word m));; store_word (wrap m (sp - word m)) v;; mret None
  | pop o =>
      sp ← load_reg RSP; v ← load_word sp;
      store_reg RSP (wrap m (sp + word m));; store_operand o v;; mret None
  | mov src dst => v ← load_operand src; store_operand dst v;; mret None
  | movl src dst => v ← load_operand src; store_operand dst (u32 v);; mret None
  | xchg a b => x ← load_operand a; y ← load_operand b; store_operand a y;; store_operand b x;; mret None
  | xor src dst => x ← load_operand src; y ← load_operand dst; store_operand dst (Z.lxor y x);; mret None
  | dec o => x ← load_operand o; store_operand o (wrap m (x - 1));; mret None
  | virt i ops => vs ← load_operands ops; virtualize i vs;; mret None
  | jmp l => n ← gets pc; i ← deref (forward n l); modify (set_pc i);; mret None
  | label _ => mret None
  | ret => sp ← load_reg RSP; a ← load_word sp; store_reg RSP (wrap m (sp + word m));; mret (Some a)
  end.

Definition step : M machine (option Z) :=
  n ← gets pc;
  i ← deref (code !! n);
  modify (set_pc (S n));;
  exec i.

(** To the return. *)
Fixpoint run (fuel : nat) : M machine Z :=
  match fuel with
  | O => spin
  | S fuel' => o ← step; match o with Some a => mret a | None => run fuel' end
  end.
End machine.

(** ** Rules *)

Lemma wrap_small m x : 0 <= x < 2 ^ (8 * word m) -> wrap m x = x.
Proof. destruct m; cbn [word wrap]; [apply u32_small|apply u64_small]. Qed.

Section rules.
Context {X : Type} `{!Virtualization X} (m : mode) (addr : nat -> Z) (code : list instr).
Implicit Types (g : regs) (w : gmap Z Z) (x : X).

Lemma wp_asm_step fuel i n g w x (Q : Z -> machine X -> Prop) :
  code !! n = Some i ->
  wp (exec m addr code i) (fun o a => match o with Some r => Q r a | None => wp (run m addr code fuel) Q a end)
    (MkMachine X (S n) g w x) ->
  wp (run m addr code (S fuel)) Q (MkMachine X n g w x).
Proof.
  intros Hi H. cbn [run]. apply wp_bind. unfold step. wp_go. eapply wp_deref; [exact Hi|]. wp_go. eapply wp_mono; [exact H|]. by intros [r|] a.
Qed.

Lemma wp_asm_more f f' (Q : Z -> machine X -> Prop) a :
  wp (run m addr code f) Q a -> (f <= f')%nat -> wp (run m addr code f') Q a.
Proof.
  revert f' a. induction f as [|f IH]; intros f' a H Hle; [done|]. destruct f' as [|f']; [lia|].
  apply wp_iff in H as (u & b & H & HQ). cbn [run] in *. apply bind_ret_iff in H as (go & c & Hs & Hr).
  apply wp_bind. apply (wp_run _ _ _ _ _ Hs). destruct go as [r|]; [by injection Hr as <- <-|].
  apply IH; [|lia]. by apply (wp_run _ _ _ _ _ Hr).
Qed.

Lemma wp_load_word y v n g w x (Q : Z -> machine X -> Prop) :
  w !! y = Some v -> Q v (MkMachine X n g w x) -> wp (load_word y) Q (MkMachine X n g w x).
Proof. intros Hx HQ. unfold load_word. wp_go. by eapply wp_deref. Qed.

Lemma wp_store_word y u v n g w x (Q : () -> machine X -> Prop) :
  w !! y = Some u -> Q tt (MkMachine X n g (<[y := v]> w) x) -> wp (store_word y v) Q (MkMachine X n g w x).
Proof. intros Hx HQ. unfold store_word. wp_go. by eapply wp_deref. Qed.

Lemma wp_virtualize i vs n g w x g' x' (Q : () -> machine X -> Prop) :
  virt_step i vs g x = Some (Next g' x') -> Q tt (MkMachine X n g' w x') ->
  wp (virtualize addr code i vs) Q (MkMachine X n g w x).
Proof. intros H HQ. unfold virtualize. wp_go. eapply wp_deref; [exact H|]. cbv iota beta. by wp_go. Qed.

Lemma wp_virtualize_goto i vs n g w x a g' x' n' (Q : () -> machine X -> Prop) :
  virt_step i vs g x = Some (Goto a g' x') -> at_address addr code a = Some n' -> Q tt (MkMachine X n' g' w x') ->
  wp (virtualize addr code i vs) Q (MkMachine X n g w x).
Proof. intros H Ha HQ. unfold virtualize. wp_go. eapply wp_deref; [exact H|]. cbv iota beta. wp_go. eapply wp_deref; [exact Ha|]. by wp_go. Qed.

(** The assembler gives every instruction an address of its own, and in the low 4GB. *)
Definition placed : Prop :=
  (forall i, (i < length code)%nat -> 0 <= addr i < 2 ^ 32) /\
  forall i j, (i < length code)%nat -> (j < length code)%nat -> addr i = addr j -> i = j.

Lemma at_address_found i : placed -> (i < length code)%nat -> at_address addr code (addr i) = Some i.
Proof.
  intros [_ Hinj] Hi. unfold at_address. apply fmap_Some. exists (i, i). split; [|done]. apply list_find_Some.
  rewrite lookup_seq. split; [split; [done|lia]|]. split; [done|]. intros j y [-> Hy]%lookup_seq Hj E.
  apply Hinj in E; lia.
Qed.
End rules.

(** The word at an address, up to arithmetic: a store that wrote it, or one that
    some stores have left alone. *)
Lemma lookup_stored {A} (w : gmap Z A) x y v : x = y -> <[x := v]> w !! y = Some v.
Proof. intros ->. apply lookup_insert_eq. Qed.
Lemma lookup_there {A} (w : gmap Z A) x y v : w !! x = Some v -> x = y -> w !! y = Some v.
Proof. by intros H <-. Qed.

(** ** Executing code whose memory accesses [look] finds *)

Ltac look :=
  repeat (rewrite lookup_insert_ne by lia);
  first [apply lookup_stored; lia
        | match goal with H : ?w !! _ = Some _ |- ?w !! _ = Some _ => apply (lookup_there _ _ _ _ H); lia end].

Ltac addresses :=
  cbv [_RAX _RCX _RDX _RBX _CR2 _RBP _RSI _RDI _R8 _R9 _R10 _R11 _R12 _R13 _R14 _R15 word];
  repeat match goal with |- context [wrap ?m ?x] => rewrite (wrap_small m x) by (cbn [word]; lia) end.

Ltac exec_instr :=
  cbv beta iota delta [getr setr r_ax r_cx r_dx r_bx r_sp r_bp r_si r_di r_8 r_9 r_10 r_11 r_12 r_13 r_14 r_15 r_cr2
    pc gr words ext set_pc set_gr set_words set_ext];
  lazymatch goal with
  | |- wp (exec _ _ _ ?i) _ _ => unfold exec
  | |- wp (load_operands _ _ _ ?l) _ _ => cbn [load_operands]
  | |- wp (load_operand _ _ _ ?o) _ _ => unfold load_operand
  | |- wp (store_operand _ ?o _) _ _ => unfold store_operand
  | |- wp (load_reg _) _ _ => apply wp_gets
  | |- wp (store_reg _ _) _ _ => addresses; apply wp_modify
  | |- wp (load_word _) _ _ => eapply wp_load_word; [addresses; look|]
  | |- wp (store_word _ _) _ _ => eapply wp_store_word; [addresses; look|]
  | |- wp (deref (forward ?c ?n ?l)) _ _ =>
      let o := eval vm_compute in (forward c n l) in eapply (wp_deref (forward c n l)); [exact (eq_refl o)|]
  | |- wp (virtualize _ _ _ _) _ _ => eapply wp_virtualize; [reflexivity|]
  | |- wp (run _ _ _ _) _ _ => eapply wp_asm_step; [reflexivity|]
  | _ => wp_step
  end.

Ltac settle :=
  first [reflexivity | cbn; lia | look | by intros; rewrite !lookup_insert_ne by lia].
