(* ===== verification/VmxInsn.v ===== *)
(** * VmxInsn: the VMX instructions of inc/hvm/asm.h as bytes

    inc/hvm/asm.h writes each VMX instruction twice: by its name, and, for an
    assembler that does not know it (AS_DOESNT_SUPPORT_VMX), as bytes with the
    operands in fixed registers.  Here the bytes are decoded as the processor's
    manual has it, and both ways are run on the same processor, which is a
    parameter: what an instruction does once its operands are known. *)

From S2P Require Import Prelude.
Open Scope Z_scope.

(** ** Decoding *)

Definition EAX : Z := 0.
Definition ECX : Z := 1.
Definition EDX : Z := 2.
Definition EBX : Z := 3.

(** A ModRM operand: a register, or memory at the address in a register. *)
Inductive rm : Type := InReg (r : Z) | AtReg (r : Z).
Inductive vmx_insn : Type :=
  | I_vmcall | I_vmlaunch | I_vmresume | I_vmxoff
  | I_vmread (dst : rm) (field : Z)
  | I_vmwrite (field : Z) (src : rm)
  | I_vmptrld (a : rm) | I_vmptrst (a : rm) | I_vmclear (a : rm) | I_vmxon (a : rm).

(** The fields of a ModRM byte; of the ways to address memory only (%reg). *)
Definition modrm (b : Z) : option (Z * rm) :=
  let reg := Z.land (Z.shiftr b 3) 7 in
  let r := Z.land b 7 in
  match Z.shiftr b 6 with
  | 3 => Some (reg, InReg r)
  | 0 => if (r =? 4) || (r =? 5) then None else Some (reg, AtReg r)
  | _ => None
  end.
Definition memory (o : rm) : option rm := match o with AtReg _ => Some o | InReg _ => None end.

Definition decode (bytes : list Z) : option vmx_insn :=
  match bytes with
  | [0x0f; 0x01; 0xc1] => Some I_vmcall
  | [0x0f; 0x01; 0xc2] => Some I_vmlaunch
  | [0x0f; 0x01; 0xc3] => Some I_vmresume
  | [0x0f; 0x01; 0xc4] => Some I_vmxoff
  | [0x0f; 0x78; b] => '(reg, o) ← modrm b; Some (I_vmread o reg)
  | [0x0f; 0x79; b] => '(reg, o) ← modrm b; Some (I_vmwrite reg o)
  | [0x0f; 0xc7; b] =>
      '(op, o) ← modrm b; a ← memory o;
      match op with 6 => Some (I_vmptrld a) | 7 => Some (I_vmptrst a) | _ => None end
  | [0x66; 0x0f; 0xc7; b] => '(op, o) ← modrm b; a ← memory o; if op =? 6 then Some (I_vmclear a) else None
  | [0xf3; 0x0f; 0xc7; b] => '(op, o) ← modrm b; a ← memory o; if op =? 6 then Some (I_vmxon a) else None
  | _ => None
  end.

(** ** Execution *)

(** An instruction whose operands are known. *)
Inductive vmx_op : Type :=
  | Vmcall | Vmlaunch | Vmresume | Vmxoff
  | Vmread (field : Z) | Vmwrite (field v : Z)
  | Vmptrld (a : Z) | Vmptrst (a : Z) | Vmclear (a : Z) | Vmxon (a : Z).

Section processor.
Context {X : Type} (vmx : vmx_op -> M X Z) (load : Z -> M X Z) (store : Z -> Z -> M X ()).

(** [registers] are the general registers: what the constraints put there, and
    otherwise anything. *)
Definition registers : Type := Z -> Z.
Definition with_reg (r v : Z) (g : registers) : registers := fun q => if q =? r then v else g q.
Definition get_rm (o : rm) (g : registers) : M X Z := match o with InReg r => mret (g r) | AtReg r => load (g r) end.
Definition put_rm (o : rm) (v : Z) (g : registers) : M X registers :=
  match o with InReg r => mret (with_reg r v g) | AtReg r => store (g r) v;; mret g end.
Definition address (o : rm) (g : registers) : Z := match o with InReg r | AtReg r => g r end.

Definition execute (i : vmx_insn) (g : registers) : M X registers :=
  match i with
  | I_vmcall => vmx Vmcall;; mret g
  | I_vmlaunch => vmx Vmlaunch;; mret g
  | I_vmresume => vmx Vmresume;; mret g
  | I_vmxoff => vmx Vmxoff;; mret g
  | I_vmread dst field => v ← vmx (Vmread (g field)); put_rm dst v g
  | I_vmwrite field src => v ← get_rm src g; vmx (Vmwrite (g field) v);; mret g
  | I_vmptrld a => vmx (Vmptrld (address a g));; mret g
  | I_vmptrst a => vmx (Vmptrst (address a g));; mret g
  | I_vmclear a => vmx (Vmclear (address a g));; mret g
  | I_vmxon a => vmx (Vmxon (address a g));; mret g
  end.
Definition run_bytes (bytes : list Z) (g : registers) : M X registers := i ← deref (decode bytes); execute i g.

(** ** inc/hvm/asm.h

    [as_bytes] is AS_DOESNT_SUPPORT_VMX, [junk] what the registers hold. *)
Context (as_bytes : bool) (junk : registers).

Definition ASM_VMCALL : M X () :=
  if as_bytes then run_bytes [0x0F; 0x01; 0xC1] junk;; mret tt else vmx Vmcall;; mret tt.
Definition asm_vmxon (vmxon_region : Z) : M X () :=
  if as_bytes then run_bytes [0xf3; 0x0f; 0xc7; 0x33] (with_reg EBX vmxon_region junk);; mret tt
  else vmx (Vmxon vmxon_region);; mret tt.
Definition asm_vmxoff : M X () :=
  if as_bytes then run_bytes [0x0f; 0x01; 0xc4] junk;; mret tt else vmx Vmxoff;; mret tt.
Definition asm_vmclear (p : Z) : M X () :=
  if as_bytes then run_bytes [0x66; 0x0f; 0xc7; 0x33] (with_reg EBX p junk);; mret tt else vmx (Vmclear p);; mret tt.
Definition asm_vmptrld (p : Z) : M X () :=
  if as_bytes then run_bytes [0x0f; 0xc7; 0x33] (with_reg EBX p junk);; mret tt else vmx (Vmptrld p);; mret tt.
Definition asm_vmptrst (p : Z) : M X () :=
  if as_bytes then run_bytes [0x0f; 0xc7; 0x3b] (with_reg EBX p junk);; mret tt else vmx (Vmptrst p);; mret tt.
Definition vmwrite_insn (index val : Z) : M X () :=
  if as_bytes then run_bytes [0x0f; 0x79; 0xc2] (with_reg EAX index (with_reg EDX val junk));; mret tt
  else vmx (Vmwrite index val);; mret tt.
Definition asm_vmlaunch : M X () :=
  if as_bytes then run_bytes [0x0f; 0x01; 0xc2] junk;; mret tt else vmx Vmlaunch;; mret tt.
Definition asm_vmresume : M X () :=
  if as_bytes then run_bytes [0x0f; 0x01; 0xc3] junk;; mret tt else vmx Vmresume;; mret tt.
Definition vmread_insn (index : Z) : M X Z :=
  if as_bytes then g ← run_bytes [0x0f; 0x78; 0xc2] (with_reg EAX index junk); mret (g EDX) else vmx (Vmread index).
End processor.

(** ** The two ways agree *)

Section agree.
Context {X : Type} (vmx : vmx_op -> M X Z) (load : Z -> M X Z) (store : Z -> Z -> M X ()).

Lemma run_bytes_op bytes i o g s :
  decode bytes = Some i -> (forall s, execute vmx load store i g s = (vmx o;; mret g) s) ->
  (run_bytes vmx load store bytes g;; mret tt) s = (vmx o;; mret tt) s.
Proof.
  intros Hd He. unfold run_bytes. rewrite Hd. unfold deref, mbind, M_bind, mret, M_ret in *. rewrite He. by destruct (vmx o s).
Qed.

(** C36: The bytes are the encodings of the instructions: whatever the other registers
    hold and whatever the processor does, each function of inc/hvm/asm.h does the
    same with an assembler that knows the VMX instructions and with one that does
    not, with the same operands. *)
Theorem vmx_bytes_correct (junk : registers) (p index val : Z) (s : X) :
  ASM_VMCALL vmx load store true junk s = ASM_VMCALL vmx load store false junk s /\
  asm_vmxon vmx load store true junk p s = asm_vmxon vmx load store false junk p s /\
  asm_vmxoff vmx load store true junk s = asm_vmxoff vmx load store false junk s /\
  asm_vmclear vmx load store true junk p s = asm_vmclear vmx load store false junk p s /\
  asm_vmptrld vmx load store true junk p s = asm_vmptrld vmx load store false junk p s /\
  asm_vmptrst vmx load store true junk p s = asm_vmptrst vmx load store false junk p s /\
  vmwrite_insn vmx load store true junk index val s = vmwrite_insn vmx load store false junk index val s /\
  vmread_insn vmx load store true junk index s = vmread_insn vmx load store false junk index s /\
  asm_vmlaunch vmx load store true junk s = asm_vmlaunch vmx load store false junk s /\
  asm_vmresume vmx load store true junk s = asm_vmresume vmx load store false junk s.
Proof.
  unfold ASM_VMCALL, asm_vmxon, asm_vmxoff, asm_vmclear, asm_vmptrld, asm_vmptrst, vmwrite_insn, asm_vmlaunch, asm_vmresume.
  split_and!; try (eapply run_bytes_op; [reflexivity|]; intros t; reflexivity).
  unfold vmread_insn, run_bytes. change (decode [15; 120; 194]) with (Some (I_vmread (InReg EDX) EAX)).
  unfold deref, execute, put_rm, mbind, M_bind, mret, M_ret. change (with_reg EAX index junk EAX) with index. by destruct (vmx (Vmread index) s).
Qed.
End agree.
