(* ===== verification/VmAsm.v ===== *)
(** * VmAsm: hvm/asm_vmop.S, the 32-bit entry to the guest and the way back

    The two functions that hvm/vt.c calls, [asm_vmlaunch_regs_32] and
    [asm_vmresume_regs_32], as lists of instructions of AsmMachine.v, and what
    Intel's instructions do.  What the guest does between a successful entry and
    the exit that follows is a parameter: it gives back the registers, CR2 among
    them, and any state of the virtual machine, but has no access to the monitor's
    stack and [vr]. *)

From S2P Require Import Prelude Vmcs Vmx AsmMachine.
Open Scope Z_scope.

(** ** Intel's extensions *)

(** What a VM entry comes to: the instruction fails, having changed at most the
    fields of the VMCS, or the guest runs and exits, with registers [R]. *)
Inductive vmentry {P R : Type} : Type := Entry_fails (f : Z -> Z) | Guest_exits (r : R) (s : Vmx.vm (P := P)).
Arguments vmentry : clear implicits.

Section intel.
Context {P R : Type} (m : mode) (regs_to : regs -> R) (regs_from : R -> Z -> regs).
Local Abbreviation vm := (vm (P := P)).
Context (guest : virt_instr -> R -> vm -> vmentry P R).

Definition set_fields f (s : vm) : vm := MkVm (vr s) f (msr s) (cr0 s) (cr4 s) (v_mem s) (dev s).

(** Behind an exit the processor goes on at the HOST_RIP and with the HOST_RSP of
    the VMCS, and with the guest's other registers. *)
Definition intel : Virtualization vm := fun i vs g s =>
  match i, vs with
  | VMWRITE, [v; f] => Some (Next g (set_vmcs f (wrap m v) s))
  | VMLAUNCH, [] | VMRESUME, [] =>
      match guest i (regs_to g) s with
      | Entry_fails f => Some (Next g (set_fields f s))
      | Guest_exits r s' => Some (Goto (vmcs s' VMCS_HOST_RIP) (regs_from r (vmcs s' VMCS_HOST_RSP)) s')
      end
  | _, _ => None
  end.
End intel.

(** ** The code *)

Local Abbreviation EAX := RAX.
Local Abbreviation ECX := RCX.
Local Abbreviation EDX := RDX.
Local Abbreviation EBX := RBX.
Local Abbreviation ESP := RSP.
Local Abbreviation EBP := RBP.
Local Abbreviation ESI := RSI.
Local Abbreviation EDI := RDI.

Definition asm_vmlaunch_regs_32 : list instr := [
  push (Reg EBP);
  push (Reg EBX);
  push (Reg ESI);
  push (Reg EDI);
  mov (At 20 ESP) (Reg EDI);
  push (Reg EDI);
  mov (Imm VMCS_HOST_RSP) (Reg EAX);
  mov (Reg ESP) (Reg EDX);
  vmwrite (Reg EDX) (Reg EAX);
  mov (Imm VMCS_HOST_RIP) (Reg EAX);
  mov (Forward 1) (Reg EDX);
  vmwrite (Reg EDX) (Reg EAX);
  mov (At (4 * _CR2) EDI) (Reg EAX);
  mov (Reg EAX) (Reg CR2);
  mov (At (4 * _RAX) EDI) (Reg EAX);
  mov (At (4 * _RCX) EDI) (Reg ECX);
  mov (At (4 * _RDX) EDI) (Reg EDX);
  mov (At (4 * _RBX) EDI) (Reg EBX);
  mov (At (4 * _RBP) EDI) (Reg EBP);
  mov (At (4 * _RSI) EDI) (Reg ESI);
  mov (At (4 * _RDI) EDI) (Reg EDI);
  vmlaunch;
  pop (Reg EDI);
  xor (Reg EAX) (Reg EAX);
  dec (Reg EAX);
  jmp 2;
  label 1;
  xchg (At 0 ESP) (Reg EDI);
  mov (Reg EAX) (At (4 * _RAX) EDI);
  mov (Reg ECX) (At (4 * _RCX) EDI);
  mov (Reg EDX) (At (4 * _RDX) EDI);
  mov (Reg EBX) (At (4 * _RBX) EDI);
  mov (Reg EBP) (At (4 * _RBP) EDI);
  mov (Reg ESI) (At (4 * _RSI) EDI);
  pop (At (4 * _RDI) EDI);
  mov (Reg CR2) (Reg EAX);
  mov (Reg EAX) (At (4 * _CR2) EDI);
  xor (Reg EAX) (Reg EAX);
  label 2;
  pop (Reg EDI);
  pop (Reg ESI);
  pop (Reg EBX);
  pop (Reg EBP);
  ret].

Definition asm_vmresume_regs_32 : list instr := [
  push (Reg EBP);
  push (Reg EBX);
  push (Reg ESI);
  push (Reg EDI);
  mov (At 20 ESP) (Reg EDI);
  push (Reg EDI);
  mov (Imm VMCS_HOST_RSP) (Reg EAX);
  mov (Reg ESP) (Reg EDX);
  vmwrite (Reg EDX) (Reg EAX);
  mov (Imm VMCS_HOST_RIP) (Reg EAX);
  mov (Forward 1) (Reg EDX);
  vmwrite (Reg EDX) (Reg EAX);
  mov (At (4 * _CR2) EDI) (Reg EAX);
  mov (Reg EAX) (Reg CR2);
  mov (At (4 * _RAX) EDI) (Reg EAX);
  mov (At (4 * _RCX) EDI) (Reg ECX);
  mov (At (4 * _RDX) EDI) (Reg EDX);
  mov (At (4 * _RBX) EDI) (Reg EBX);
  mov (At (4 * _RBP) EDI) (Reg EBP);
  mov (At (4 * _RSI) EDI) (Reg ESI);
  mov (At (4 * _RDI) EDI) (Reg EDI);
  vmresume;
  pop (Reg EAX);
  xor (Reg EAX) (Reg EAX);
  dec (Reg EAX);
  jmp 2;
  label 1;
  xchg (At 0 ESP) (Reg EDI);
  mov (Reg EAX) (At (4 * _RAX) EDI);
  mov (Reg ECX) (At (4 * _RCX) EDI);
  mov (Reg EDX) (At (4 * _RDX) EDI);
  mov (Reg EBX) (At (4 * _RBX) EDI);
  mov (Reg EBP) (At (4 * _RBP) EDI);
  mov (Reg ESI) (At (4 * _RSI) EDI);
  pop (At (4 * _RDI) EDI);
  mov (Reg CR2) (Reg EAX);
  mov (Reg EAX) (At (4 * _CR2) EDI);
  xor (Reg EAX) (Reg EAX);
  label 2;
  pop (Reg EDI);
  pop (Reg ESI);
  pop (Reg EBX);
  pop (Reg EBP);
  ret].

(** ** The calls from hvm/vt.c

    The variable [vr] is at [p]; the registers and the other words of the
    monitor's memory are [g] and [w]. *)

(** The registers of vt_vmentry_regs. *)
Definition vr_of (g : regs) : vt_vmentry_regs := MkVr (r_ax g) (r_cx g) (r_dx g) (r_bx g) (r_cr2 g) (r_bp g) (r_si g) (r_di g).
Definition regs_of (r : vt_vmentry_regs) (sp : Z) : regs :=
  MkGr (rax r) (rcx r) (rdx r) (rbx r) sp (rbp r) (rsi r) (rdi r) 0 0 0 0 0 0 0 0 (cr2 r).

Section calls.
Context {P : Type} (addr : nat -> Z).
Local Abbreviation vm := (vm (P := P)).
Context (guest : virt_instr -> vt_vmentry_regs -> vm -> vmentry P vt_vmentry_regs).
Context (g : regs) (w : gmap Z Z) (p : Z).

Local Abbreviation run_32 := (run (Virtualization0 := intel Code32 vr_of regs_of guest) Code32 addr).

Definition store_vr (r : vt_vmentry_regs) : gmap Z Z :=
  <[p + 0 := rax r]> (<[p + 4 := rcx r]> (<[p + 8 := rdx r]> (<[p + 12 := rbx r]> (<[p + 16 := cr2 r]>
  (<[p + 20 := rbp r]> (<[p + 24 := rsi r]> (<[p + 28 := rdi r]> w))))))).
Definition fetch_vr (w : gmap Z Z) : option vt_vmentry_regs :=
  a ← w !! (p + 0); c ← w !! (p + 4); d ← w !! (p + 8); b ← w !! (p + 12);
  c2 ← w !! (p + 16); bp ← w !! (p + 20); si ← w !! (p + 24); di ← w !! (p + 28);
  Some (MkVr a c d b c2 bp si di).

Definition call_asm (code : list instr) : M vm Z := fun s =>
  match run_32 code 64 (MkMachine _ 0 g (store_vr (vr s)) s) with
  | Ret _ a => (r ← deref (fetch_vr (words a)); modify (set_vr r);; mret (r_ax (gr a))) (ext a)
  | Panic why a => Panic why (ext a)
  | Fault => Fault
  | Spin => Spin
  end.

(** inc/hvm/asm.h *)
Definition asm_vmlaunch_regs : M vm Z := call_asm asm_vmlaunch_regs_32.
Definition asm_vmresume_regs : M vm Z := call_asm asm_vmresume_regs_32.
End calls.

(** ** Running it *)

Section call.
Context {P : Type} (addr : nat -> Z).
Local Abbreviation vm := (vm (P := P)).
Context (guest : virt_instr -> vt_vmentry_regs -> vm -> vmentry P vt_vmentry_regs) (resume : bool).
Local Abbreviation run_32 := (run (Virtualization0 := intel Code32 vr_of regs_of guest) Code32 addr).
Let code : list instr := if resume then asm_vmresume_regs_32 else asm_vmlaunch_regs_32.
Local Abbreviation I32 := (intel Code32 vr_of regs_of guest).
Let kind : virt_instr := if resume then VMRESUME else VMLAUNCH.

Definition holds_vr (w : gmap Z Z) (p : Z) (r : vt_vmentry_regs) : Prop :=
  w !! (p + 0) = Some (rax r) /\ w !! (p + 4) = Some (rcx r) /\ w !! (p + 8) = Some (rdx r) /\ w !! (p + 12) = Some (rbx r) /\
  w !! (p + 16) = Some (cr2 r) /\ w !! (p + 20) = Some (rbp r) /\ w !! (p + 24) = Some (rsi r) /\ w !! (p + 28) = Some (rdi r).

(** The state at the call from C. *)
Record called (g : regs) (w : gmap Z Z) (p ra : Z) : Prop := Called {
  called_stack : 20 <= r_sp g /\ r_sp g + 8 < 2 ^ 32;
  called_vr : 0 <= p /\ p + 32 < 2 ^ 32;
  called_apart : p + 32 <= r_sp g - 20 \/ r_sp g + 8 <= p;
  called_ra : w !! r_sp g = Some ra;
  called_arg : w !! (r_sp g + 4) = Some p;
  called_room : forall i, 1 <= i <= 5 -> is_Some (w !! (r_sp g - 4 * i))
}.

(** The registers that the calling convention preserves; the argument is still on
    the stack. *)
Definition saved (g g' : regs) : Prop :=
  r_bx g' = r_bx g /\ r_si g' = r_si g /\ r_di g' = r_di g /\ r_bp g' = r_bp g /\ r_sp g' = r_sp g + 4.

(** Words outside the part of the stack below [r_sp] and [vr]. *)
Definition untouched (g : regs) (p : Z) (w w' : gmap Z Z) : Prop :=
  forall x, x < r_sp g - 20 \/ r_sp g <= x -> x < p \/ p + 32 <= x -> w' !! x = w !! x.

Definition entering (s : vm) (sp : Z) : vm :=
  set_vmcs VMCS_HOST_RIP (u32 (addr 26)) (set_vmcs VMCS_HOST_RSP (u32 (sp - 20)) s).

Lemma run_to_entry g w p ra s (Q : Z -> machine vm -> Prop) fuel :
  called g w p ra -> holds_vr w p (vr s) ->
  (forall g' w', vr_of g' = vr s -> r_sp g' = r_sp g - 20 -> holds_vr w' p (vr s) -> untouched g p w w' ->
     w' !! (r_sp g - 20) = Some p -> w' !! (r_sp g - 16) = Some (r_di g) -> w' !! (r_sp g - 12) = Some (r_si g) ->
     w' !! (r_sp g - 8) = Some (r_bx g) -> w' !! (r_sp g - 4) = Some (r_bp g) ->
     wp (virtualize (Virtualization0 := I32) addr code kind []) (fun _ => wp (run_32 code fuel) Q) (MkMachine _ 22 g' w' (entering s (r_sp g)))) ->
  wp (run_32 code (22 + fuel)) Q (MkMachine _ 0 g w s).
Proof.
  intros [Hsp Hp Hd Hra Harg Hroom] (H0 & H1 & H2 & H3 & H4 & H5 & H6 & H7) HQ.
  destruct (Hroom 1 ltac:(lia)) as [v1 Hv1], (Hroom 2 ltac:(lia)) as [v2 Hv2], (Hroom 3 ltac:(lia)) as [v3 Hv3],
    (Hroom 4 ltac:(lia)) as [v4 Hv4], (Hroom 5 ltac:(lia)) as [v5 Hv5].
  unfold code, kind, untouched, holds_vr, entering in *. destruct g as [a c d b sp bp si di x8 x9 x10 x11 x12 x13 x14 x15 c2]. cbn [r_sp r_di r_si r_bx r_bp] in *.
  replace (u32 (sp - 20)) with (sp - 4 - 4 - 4 - 4 - 4) in HQ by (rewrite u32_small; lia).
  destruct resume; cbn [Nat.add]; repeat exec_instr; apply HQ; split_and?; try first [settle | unfold vr_of; by destruct (vr s)].
Qed.

(** What a call that returns [v] leaves behind. *)
Definition returned (g : regs) (w : gmap Z Z) (p ra v : Z) (r : vt_vmentry_regs) (s : vm) (to : Z) (a : machine vm) : Prop :=
  to = ra /\ r_ax (gr a) = v /\ saved g (gr a) /\ holds_vr (words a) p r /\ untouched g p w (words a) /\ ext a = s.

(** The stack between the entry and the return. *)
Definition entered (g g' : regs) (w w' : gmap Z Z) (p : Z) : Prop :=
  r_sp g' = r_sp g - 20 /\ untouched g p w w' /\
  w' !! (r_sp g - 20) = Some p /\ w' !! (r_sp g - 16) = Some (r_di g) /\ w' !! (r_sp g - 12) = Some (r_si g) /\
  w' !! (r_sp g - 8) = Some (r_bx g) /\ w' !! (r_sp g - 4) = Some (r_bp g).

Lemma run_after_failure g g' w w' p ra r s :
  called g w p ra -> entered g g' w w' p -> holds_vr w' p r ->
  wp (run_32 code 12) (returned g w p ra (2 ^ 32 - 1) r s) (MkMachine _ 22 g' w' s).
Proof.
  intros [Hsp Hp Hd Hra Harg _] (He & Hw & H20 & H16 & H12 & H8 & H4) Hvr.
  assert (Hra' : w' !! r_sp g = Some ra) by (rewrite Hw by lia; done).
  unfold code, returned, saved. destruct g as [a c d b sp bp si di x8 x9 x10 x11 x12 x13 x14 x15 c2], g' as [a' c' d' b' sp' bp' si' di' y8 y9 y10 y11 y12 y13 y14 y15 c2'].
  cbn [r_sp r_di r_si r_bx r_bp] in *. subst sp'. destruct resume; repeat exec_instr.
  all: cbn; split_and!; try first [settle | done | by rewrite Z.lxor_nilpotent].
Qed.

Lemma run_after_exit g g' w w' p ra s :
  called g w p ra -> entered g g' w w' p ->
  (exists r0, holds_vr w' p r0) ->
  wp (run_32 code 18) (returned g w p ra 0 (vr_of g') s) (MkMachine _ 26 g' w' s).
Proof.
  intros [Hsp Hp Hd Hra Harg _] (He & Hw & H20 & H16 & H12 & H8 & H4) (r0 & G0 & G1 & G2 & G3 & G4 & G5 & G6 & G7).
  assert (Hra' : w' !! r_sp g = Some ra) by (rewrite Hw by lia; done).
  unfold code, returned, saved, holds_vr, untouched in *. destruct g as [a c d b sp bp si di x8 x9 x10 x11 x12 x13 x14 x15 c2], g' as [a' c' d' b' sp' bp' si' di' y8 y9 y10 y11 y12 y13 y14 y15 c2'].
  cbn [r_sp r_di r_si r_bx r_bp] in *. subst sp'. destruct resume; repeat exec_instr.
  all: cbn; split_and!; try first [settle | done | by rewrite Z.lxor_nilpotent].
  all: intros; rewrite !lookup_insert_ne by lia; by apply Hw.
Qed.

Lemma code_length : length code = 44%nat.
Proof. unfold code. by destruct resume. Qed.

Lemma step_entry g r s e :
  vr_of g = r -> guest kind r s = e ->
  virt_step (Virtualization := I32) kind [] g s = Some match e with
    | Entry_fails f => Next g (set_fields f s)
    | Guest_exits r s' => Goto (vmcs s' VMCS_HOST_RIP) (regs_of r (vmcs s' VMCS_HOST_RSP)) s'
    end.
Proof. intros <- <-. unfold virt_step, intel, kind. by destruct resume, (guest _ _ _). Qed.

Lemma run_call g w p ra s :
  placed addr code -> called g w p ra -> holds_vr w p (vr s) ->
  match guest kind (vr s) (entering s (r_sp g)) with
  | Entry_fails f =>
      wp (run_32 code 64) (returned g w p ra (2 ^ 32 - 1) (vr s) (set_fields f (entering s (r_sp g)))) (MkMachine _ 0 g w s)
  | Guest_exits r s' =>
      vmcs s' VMCS_HOST_RSP = r_sp g - 20 -> vmcs s' VMCS_HOST_RIP = addr 26 ->
      wp (run_32 code 64) (returned g w p ra 0 r s') (MkMachine _ 0 g w s)
  end.
Proof.
  intros Hpl Hc Hh0.
  assert (Hrun : forall Q, (forall g' w', vr_of g' = vr s -> entered g g' w w' p -> holds_vr w' p (vr s) ->
      wp (virtualize (Virtualization0 := I32) addr code kind []) (fun _ => wp (run_32 code 42) Q) (MkMachine _ 22 g' w' (entering s (r_sp g)))) ->
    wp (run_32 code 64) Q (MkMachine _ 0 g w s)).
  { intros Q HQ. apply (run_to_entry g w p ra s _ 42 Hc Hh0). intros g' w' Hvr He Hh Hu H20 H16 H12 H8 H4.
    apply HQ; [done| |done]. by split_and!. }
  destruct (guest kind (vr s) (entering s (r_sp g))) as [f|r s'] eqn:E; [|intros Hsp Hip];
    apply Hrun; intros g' w' Hvr He Hh.
  - eapply wp_virtualize; [apply (step_entry _ _ _ _ Hvr E)|]. eapply wp_asm_more; [by eapply run_after_failure|lia].
  - eapply wp_virtualize_goto; [apply (step_entry _ _ _ _ Hvr E)| |].
    { rewrite Hip. apply at_address_found; [done|rewrite code_length; lia]. }
    rewrite Hsp. apply (wp_asm_more _ _ _ 18); [|lia].
    replace r with (vr_of (regs_of r (r_sp g - 20))) at 2 by (by destruct r).
    eapply run_after_exit; [exact Hc| |by eexists]. destruct He as [_ He]. by split.
Qed.

Lemma called_store g w p ra r : called g w p ra -> called g (store_vr w p r) p ra.
Proof.
  intros [Hsp Hp Hd Hra Harg Hroom]. unfold store_vr. split; try done; [look|look|].
  intros i Hi. rewrite !lookup_insert_ne by lia. by apply Hroom.
Qed.

Lemma holds_store w p r : holds_vr (store_vr w p r) p r.
Proof. unfold holds_vr, store_vr. split_and!; look. Qed.

Lemma fetch_holds w p r : holds_vr w p r -> fetch_vr p w = Some r.
Proof. unfold fetch_vr. intros (-> & -> & -> & -> & -> & -> & -> & ->). cbn. by destruct r. Qed.

Lemma call_asm_returned g w p ra v r s t a :
  run_32 code 64 (MkMachine _ 0 g (store_vr w p (vr s)) s) = Ret ra a ->
  returned g (store_vr w p (vr s)) p ra v r t ra a -> call_asm addr guest g w p code s = Ret v (set_vr r t).
Proof.
  intros Hrun (_ & He & _ & Hh & _ & Ht). unfold call_asm. rewrite Hrun, (fetch_holds _ _ _ Hh), He, Ht. done.
Qed.

(** The processor restores the monitor from the fields it has written: nothing
    the guest does changes HOST_RSP and HOST_RIP. *)
Definition keeps_host : Prop :=
  forall r s r' s', guest kind r s = Guest_exits r' s' ->
    vmcs s' VMCS_HOST_RSP = vmcs s VMCS_HOST_RSP /\ vmcs s' VMCS_HOST_RIP = vmcs s VMCS_HOST_RIP.

(** A call of the assembly enters the guest with the registers of [vr] and with
    the way back in the VMCS; it gives -1 if the entry fails, and 0 after an exit,
    with the guest's registers in [vr]. *)
Definition entry_spec (sp : Z) : M vm Z := fun s =>
  match guest kind (vr s) (entering s sp) with
  | Entry_fails f => Ret (2 ^ 32 - 1) (set_fields f (entering s sp))
  | Guest_exits r s' => Ret 0 (set_vr r s')
  end.

(** C8: [asm_vmlaunch_regs_32] and [asm_vmresume_regs_32], instruction by instruction,
    do what [entry_spec] says, and return to where they were called from with the registers of the calling
    convention, the stack pointer, and all words but the five below the stack
    pointer and [vr] as they were. *)
Theorem asm_regs_32_correct g w p ra s :
  placed addr code -> keeps_host -> called g w p ra ->
  call_asm addr guest g w p code s = entry_spec (r_sp g) s /\
  exists a, run_32 code 64 (MkMachine _ 0 g (store_vr w p (vr s)) s) = Ret ra a /\
    saved g (gr a) /\ untouched g p (store_vr w p (vr s)) (words a).
Proof.
  intros Hpl Hk Hc. pose proof (run_call g _ p ra s Hpl (called_store _ _ _ _ (vr s) Hc) (holds_store w p (vr s))) as H.
  unfold entry_spec. destruct (guest kind (vr s) (entering s (r_sp g))) as [f|r t] eqn:E.
  - apply wp_iff in H as (to & a & Hrun & Ha). destruct (proj1 Ha). rewrite (call_asm_returned _ _ _ _ _ _ _ _ _ Hrun Ha).
    split; [by destruct s|]. exists a. by destruct Ha as (_ & _ & ? & _ & ? & _).
  - destruct (Hk _ _ _ _ E) as [H1 H2].
    assert (Hr : wp (run_32 code 64) (returned g (store_vr w p (vr s)) p ra 0 r t)
      (MkMachine _ 0 g (store_vr w p (vr s)) s)).
    { destruct Hc, Hpl as [Hpl _]. pose proof (Hpl 26%nat ltac:(rewrite code_length; lia)).
      apply H; rewrite ?H1, ?H2; cbn; rewrite u32_small; lia. }
    apply wp_iff in Hr as (to & a & Hrun & Ha). destruct (proj1 Ha). rewrite (call_asm_returned _ _ _ _ _ _ _ _ _ Hrun Ha).
    split; [done|]. exists a. by destruct Ha as (_ & _ & ? & _ & ? & _).
Qed.
End call.

(** A guest that loads 42 into EBX and is stopped, and a monitor with a stack of
    seven words. *)
Definition demo_guest (i : virt_instr) (r : vt_vmentry_regs) (s : vm (P := list Z)) : vmentry (list Z) vt_vmentry_regs :=
  Guest_exits (MkVr (rax r) (rcx r) (rdx r) 42 (cr2 r) (rbp r) (rsi r) (rdi r)) (set_vmcs VMCS_EXIT_REASON EXIT_REASON_INIT_SIGNAL s).
Definition demo_addr (i : nat) : Z := 0xf0100000 + 4 * Z.of_nat i.
Definition demo_regs : regs := MkGr 0 0 0 11 0xf0110014 12 13 14 0 0 0 0 0 0 0 0 0.
Definition demo_words : gmap Z Z := list_to_map (zip [0xf0110000; 0xf0110004; 0xf0110008; 0xf011000c; 0xf0110010; 0xf0110014; 0xf0110018]
  [0; 0; 0; 0; 0; 0xf0101234; 0xf0120000]).

Lemma asm_regs_32_correct_witness :
  exists t, call_asm demo_addr demo_guest demo_regs demo_words 0xf0120000 asm_vmresume_regs_32 (demo_vm 0) = Ret 0 t /\
    rbx (vr t) = 42 /\ vmcs t VMCS_HOST_RSP = 0xf0110000.
Proof.
  assert (Hp : placed demo_addr asm_vmresume_regs_32) by (split; unfold demo_addr; change (length asm_vmresume_regs_32) with 44%nat; lia).
  assert (Hk : keeps_host demo_guest true) by (intros r s r' s' [= <- <-]; split; reflexivity).
  assert (Hc : called demo_regs demo_words 0xf0120000 0xf0101234).
  { split; try (cbn; lia); try reflexivity. intros i Hi.
    assert (i = 1 \/ i = 2 \/ i = 3 \/ i = 4 \/ i = 5) as [->|[->|[->|[->| ->]]]] by lia; eexists; vm_compute; reflexivity. }
  destruct (asm_regs_32_correct demo_addr demo_guest true demo_regs demo_words _ _ (demo_vm 0) Hp Hk Hc) as [H _].
  eexists. split; [exact H|]. split; vm_compute; reflexivity.
Defined.
