(* ===== verification/VmAsm64.v ===== *)
(** * VmAsm64: hvm/asm_vmop.S, the 64-bit entry to the guest

    [asm_vmlaunch_regs_64] and [asm_vmresume_regs_64], which inc/hvm/asm.h selects
    on x86-64.  They are run on AsmMachine.v with Intel's instructions of VmAsm.v.
    Behind an exit they do what the 32-bit ones do; when the entry fails they return
    to the wrong place, and both use eight words behind the end of [vr]. *)

From S2P Require Import Prelude Vmcs Vmx AsmMachine VmAsm.
Open Scope Z_scope.

(** ** The code *)

Definition asm_vmlaunch_regs_64 : list instr := [
  push (Reg RBP);
  push (Reg RBX);
  push (Reg R12);
  push (Reg R13);
  push (Reg R14);
  push (Reg R15);
  push (Reg RDI);
  mov (Imm VMCS_HOST_RSP) (Reg RAX);
  mov (Reg RSP) (Reg RDX);
  vmwrite (Reg RDX) (Reg RAX);
  mov (Imm VMCS_HOST_RIP) (Reg RAX);
  movl (Forward 1) (Reg RDX);
  vmwrite (Reg RDX) (Reg RAX);
  mov (At (8 * _CR2) RDI) (Reg RAX);
  mov (Reg RAX) (Reg CR2);
  mov (At (8 * _R8) RDI) (Reg R8);
  mov (At (8 * _R9) RDI) (Reg R9);
  mov (At (8 * _R10) RDI) (Reg R10);
  mov (At (8 * _R11) RDI) (Reg R11);
  mov (At (8 * _R12) RDI) (Reg R12);
  mov (At (8 * _R13) RDI) (Reg R13);
  mov (At (8 * _R14) RDI) (Reg R14);
  mov (At (8 * _R15) RDI) (Reg R15);
  mov (At (8 * _RAX) RDI) (Reg RAX);
  mov (At (8 * _RCX) RDI) (Reg RCX);
  mov (At (8 * _RDX) RDI) (Reg RDX);
  mov (At (8 * _RBX) RDI) (Reg RBX);
  mov (At (8 * _RBP) RDI) (Reg RBP);
  mov (At (8 * _RSI) RDI) (Reg RSI);
  mov (At (8 * _RDI) RDI) (Reg RDI);
  vmlaunch;
  xor (Reg RAX) (Reg RAX);
  dec (Reg RAX);
  jmp 2;
  label 1;
  xchg (At 0 RSP) (Reg RDI);
  mov (Reg RAX) (At (8 * _RAX) RDI);
  mov (Reg RCX) (At (8 * _RCX) RDI);
  mov (Reg RDX) (At (8 * _RDX) RDI);
  mov (Reg RBX) (At (8 * _RBX) RDI);
  mov (Reg RBP) (At (8 * _RBP) RDI);
  mov (Reg RSI) (At (8 * _RSI) RDI);
  pop (At (8 * _RDI) RDI);
  mov (Reg CR2) (Reg RAX);
  mov (Reg RAX) (At (8 * _CR2) RDI);
  mov (Reg R8) (At (8 * _R8) RDI);
  mov (Reg R9) (At (8 * _R9) RDI);
  mov (Reg R10) (At (8 * _R10) RDI);
  mov (Reg R11) (At (8 * _R11) RDI);
  mov (Reg R12) (At (8 * _R12) RDI);
  mov (Reg R13) (At (8 * _R13) RDI);
  mov (Reg R14) (At (8 * _R14) RDI);
  mov (Reg R15) (At (8 * _R15) RDI);
  xor (Reg RAX) (Reg RAX);
  label 2;
  pop (Reg R15);
  pop (Reg R14);
  pop (Reg R13);
  pop (Reg R12);
  pop (Reg RBX);
  pop (Reg RBP);
  ret].

Definition asm_vmresume_regs_64 : list instr := [
  push (Reg RBP);
  push (Reg RBX);
  push (Reg R12);
  push (Reg R13);
  push (Reg R14);
  push (Reg R15);
  push (Reg RDI);
  mov (Imm VMCS_HOST_RSP) (Reg RAX);
  mov (Reg RSP) (Reg RDX);
  vmwrite (Reg RDX) (Reg RAX);
  mov (Imm VMCS_HOST_RIP) (Reg RAX);
  movl (Forward 1) (Reg RDX);
  vmwrite (Reg RDX) (Reg RAX);
  mov (At (8 * _CR2) RDI) (Reg RAX);
  mov (Reg RAX) (Reg CR2);
  mov (At (8 * _R8) RDI) (Reg R8);
  mov (At (8 * _R9) RDI) (Reg R9);
  mov (At (8 * _R10) RDI) (Reg R10);
  mov (At (8 * _R11) RDI) (Reg R11);
  mov (At (8 * _R12) RDI) (Reg R12);
  mov (At (8 * _R13) RDI) (Reg R13);
  mov (At (8 * _R14) RDI) (Reg R14);
  mov (At (8 * _R15) RDI) (Reg R15);
  mov (At (8 * _RAX) RDI) (Reg RAX);
  mov (At (8 * _RCX) RDI) (Reg RCX);
  mov (At (8 * _RDX) RDI) (Reg RDX);
  mov (At (8 * _RBX) RDI) (Reg RBX);
  mov (At (8 * _RBP) RDI) (Reg RBP);
  mov (At (8 * _RSI) RDI) (Reg RSI);
  mov (At (8 * _RDI) RDI) (Reg RDI);
  vmresume;
  xor (Reg RAX) (Reg RAX);
  dec (Reg RAX);
  jmp 2;
  label 1;
  xchg (At 0 RSP) (Reg RDI);
  mov (Reg RAX) (At (8 * _RAX) RDI);
  mov (Reg RCX) (At (8 * _RCX) RDI);
  mov (Reg RDX) (At (8 * _RDX) RDI);
  mov (Reg RBX) (At (8 * _RBX) RDI);
  mov (Reg RBP) (At (8 * _RBP) RDI);
  mov (Reg RSI) (At (8 * _RSI) RDI);
  pop (At (8 * _RDI) RDI);
  mov (Reg CR2) (Reg RAX);
  mov (Reg RAX) (At (8 * _CR2) RDI);
  mov (Reg R8) (At (8 * _R8) RDI);
  mov (Reg R9) (At (8 * _R9) RDI);
  mov (Reg R10) (At (8 * _R10) RDI);
  mov (Reg R11) (At (8 * _R11) RDI);
  mov (Reg R12) (At (8 * _R12) RDI);
  mov (Reg R13) (At (8 * _R13) RDI);
  mov (Reg R14) (At (8 * _R14) RDI);
  mov (Reg R15) (At (8 * _R15) RDI);
  xor (Reg RAX) (Reg RAX);
  label 2;
  pop (Reg R15);
  pop (Reg R14);
  pop (Reg R13);
  pop (Reg R12);
  pop (Reg RBX);
  pop (Reg RBP);
  ret].

(** ** The calls *)

(** inc/hvm/vt_regs.h *)
Definition GENERAL_REG_R8 : Z := 8.
Definition GENERAL_REG_R9 : Z := 9.
Definition GENERAL_REG_R10 : Z := 10.
Definition GENERAL_REG_R11 : Z := 11.
Definition GENERAL_REG_R12 : Z := 12.
Definition GENERAL_REG_R13 : Z := 13.
Definition GENERAL_REG_R14 : Z := 14.
Definition GENERAL_REG_R15 : Z := 15.

(** The assembly numbers the words as general_reg numbers the registers, but for the
    one of the stack pointer, which is that of CR2; vt_vmentry_regs ends behind the
    eighth. *)
Lemma register_numbers :
  [_RAX; _RCX; _RDX; _RBX; _RBP; _RSI; _RDI; _R8; _R9; _R10; _R11; _R12; _R13; _R14; _R15] =
  [GENERAL_REG_RAX; GENERAL_REG_RCX; GENERAL_REG_RDX; GENERAL_REG_RBX; GENERAL_REG_RBP; GENERAL_REG_RSI; GENERAL_REG_RDI; GENERAL_REG_R8;
   GENERAL_REG_R9; GENERAL_REG_R10; GENERAL_REG_R11; GENERAL_REG_R12; GENERAL_REG_R13; GENERAL_REG_R14; GENERAL_REG_R15] /\
  _CR2 = GENERAL_REG_RSP.
Proof. split; reflexivity. Qed.

(** The guest gets every register but the stack pointer. *)
Definition without_sp (g : regs) : regs := setr RSP 0 g.
Definition with_sp (g : regs) (sp : Z) : regs := setr RSP sp g.

Section call.
Context {P : Type} (addr : nat -> Z).
Local Abbreviation vm := (vm (P := P)).
Context (guest : virt_instr -> regs -> vm -> vmentry P regs) (resume : bool).
Local Abbreviation I64 := (intel Code64 without_sp with_sp guest).
Local Abbreviation run_64 := (run (Virtualization0 := I64) Code64 addr).
Let code : list instr := if resume then asm_vmresume_regs_64 else asm_vmlaunch_regs_64.
Let kind : virt_instr := if resume then VMRESUME else VMLAUNCH.

(** The words of vt_vmentry_regs at [p], and R8 to R15 in the eight behind them. *)
Definition holds_vr (w : gmap Z Z) (p : Z) (r : regs) : Prop :=
  w !! (p + 0) = Some (r_ax r) /\ w !! (p + 8) = Some (r_cx r) /\ w !! (p + 16) = Some (r_dx r) /\ w !! (p + 24) = Some (r_bx r) /\
  w !! (p + 32) = Some (r_cr2 r) /\ w !! (p + 40) = Some (r_bp r) /\ w !! (p + 48) = Some (r_si r) /\ w !! (p + 56) = Some (r_di r).
Definition holds_behind (w : gmap Z Z) (p : Z) (r : regs) : Prop :=
  w !! (p + 64) = Some (r_8 r) /\ w !! (p + 72) = Some (r_9 r) /\ w !! (p + 80) = Some (r_10 r) /\ w !! (p + 88) = Some (r_11 r) /\
  w !! (p + 96) = Some (r_12 r) /\ w !! (p + 104) = Some (r_13 r) /\ w !! (p + 112) = Some (r_14 r) /\ w !! (p + 120) = Some (r_15 r).

(** The state at the call from C: the argument is in RDI. *)
Record called (g : regs) (w : gmap Z Z) (p ra : Z) : Prop := Called {
  called_stack : 56 <= r_sp g /\ r_sp g + 8 < 2 ^ 64;
  called_vr : 0 <= p /\ p + 128 < 2 ^ 64;
  called_apart : p + 128 <= r_sp g - 56 \/ r_sp g + 8 <= p;
  called_ra : w !! r_sp g = Some ra;
  called_arg : r_di g = p;
  called_room : forall i, 1 <= i <= 7 -> is_Some (w !! (r_sp g - 8 * i))
}.

Definition entering (s : vm) (sp : Z) : vm := set_vmcs VMCS_HOST_RIP (addr 34) (set_vmcs VMCS_HOST_RSP (sp - 56) s).

(** Words outside the part of the stack below RSP and the two sets of registers. *)
Definition untouched (g : regs) (p : Z) (w w' : gmap Z Z) : Prop :=
  forall x, x < r_sp g - 56 \/ r_sp g <= x -> x < p \/ p + 128 <= x -> w' !! x = w !! x.

(** The stack between the entry and the return. *)
Definition entered (g g' : regs) (w w' : gmap Z Z) (p : Z) : Prop :=
  r_sp g' = r_sp g - 56 /\ untouched g p w w' /\
  w' !! (r_sp g - 56) = Some p /\ w' !! (r_sp g - 48) = Some (r_15 g) /\ w' !! (r_sp g - 40) = Some (r_14 g) /\
  w' !! (r_sp g - 32) = Some (r_13 g) /\ w' !! (r_sp g - 24) = Some (r_12 g) /\ w' !! (r_sp g - 16) = Some (r_bx g) /\
  w' !! (r_sp g - 8) = Some (r_bp g).

Lemma run_to_entry_64 g w p ra r s (Q : Z -> machine vm -> Prop) fuel :
  0 <= addr 34 < 2 ^ 32 -> called g w p ra -> holds_vr w p r -> holds_behind w p r ->
  (forall g' w', without_sp g' = without_sp r -> entered g g' w w' p -> holds_vr w' p r -> holds_behind w' p r ->
     wp (virtualize (Virtualization0 := I64) addr code kind []) (fun _ => wp (run_64 code fuel) Q) (MkMachine _ 31 g' w' (entering s (r_sp g)))) ->
  wp (run_64 code (31 + fuel)) Q (MkMachine _ 0 g w s).
Proof.
  intros H34 [Hsp Hp Hd Hra Harg Hroom] (H0 & H1 & H2 & H3 & H4 & H5 & H6 & H7) (B0 & B1 & B2 & B3 & B4 & B5 & B6 & B7) HQ.
  destruct (Hroom 1 ltac:(lia)) as [v1 Hv1], (Hroom 2 ltac:(lia)) as [v2 Hv2], (Hroom 3 ltac:(lia)) as [v3 Hv3],
    (Hroom 4 ltac:(lia)) as [v4 Hv4], (Hroom 5 ltac:(lia)) as [v5 Hv5], (Hroom 6 ltac:(lia)) as [v6 Hv6], (Hroom 7 ltac:(lia)) as [v7 Hv7].
  unfold code, kind, entered, untouched, holds_vr, holds_behind, entering in *.
  destruct g as [a c d b sp bp si di x8 x9 x10 x11 x12 x13 x14 x15 c2].
  cbn [r_sp r_di r_si r_bx r_bp r_12 r_13 r_14 r_15] in *. subst di. clear Hroom.
  destruct r as [ra0 rc rd rb rsp rbp rsi rdi y8 y9 y10 y11 y12 y13 y14 y15 rc2].
  cbn [r_ax r_cx r_dx r_bx r_cr2 r_bp r_si r_di r_8 r_9 r_10 r_11 r_12 r_13 r_14 r_15 without_sp setr] in *.
  replace (set_vmcs VMCS_HOST_RSP (sp - 56) s) with (set_vmcs VMCS_HOST_RSP (sp - 8 - 8 - 8 - 8 - 8 - 8 - 8) s) in HQ by (f_equal; lia).
  destruct resume; cbn [Nat.add]; repeat exec_instr; addresses; rewrite (u32_small (addr 34)) by lia; addresses.
  all: apply HQ; split_and?; settle.
Qed.

(** What a call behind an exit leaves. *)
Definition saved (g g' : regs) : Prop :=
  r_bx g' = r_bx g /\ r_bp g' = r_bp g /\ r_12 g' = r_12 g /\ r_13 g' = r_13 g /\ r_14 g' = r_14 g /\ r_15 g' = r_15 g /\
  r_sp g' = r_sp g + 8.

Lemma run_after_exit_64 g g' w w' p ra s :
  called g w p ra -> entered g g' w w' p -> (exists r, holds_vr w' p r /\ holds_behind w' p r) ->
  wp (run_64 code 28) (fun to a => to = ra /\ r_ax (gr a) = 0 /\ saved g (gr a) /\ ext a = s /\
      holds_vr (words a) p g' /\ holds_behind (words a) p g' /\ untouched g p w (words a))
    (MkMachine _ 34 g' w' s).
Proof.
  intros [Hsp Hp Hd Hra Harg _] (He & Hw & H56 & H48 & H40 & H32 & H24 & H16 & H8)
    (r & (G0 & G1 & G2 & G3 & G4 & G5 & G6 & G7) & (B0 & B1 & B2 & B3 & B4 & B5 & B6 & B7)).
  assert (Hra' : w' !! r_sp g = Some ra) by (rewrite Hw by lia; done).
  unfold code, saved, holds_vr, holds_behind, untouched in *.
  destruct g as [a c d b sp bp si di x8 x9 x10 x11 x12 x13 x14 x15 c2], g' as [a' c' d' b' sp' bp' si' di' y8 y9 y10 y11 y12 y13 y14 y15 c2'].
  cbn [r_sp r_di r_si r_bx r_bp r_12 r_13 r_14 r_15 r_8 r_9 r_10 r_11 r_ax r_cx r_dx r_cr2] in *. subst sp'. 
  destruct resume; repeat exec_instr.
  all: cbn; split_and!; try first [settle | done | by rewrite Z.lxor_nilpotent].
  all: intros; rewrite !lookup_insert_ne by lia; by apply Hw.
Qed.

(** What a call whose entry fails leaves: the argument is still on the stack, so
    every register is restored from the word below its own, and the return goes to
    the frame pointer of the caller. *)
Definition misplaced (g g' : regs) (p : Z) : Prop :=
  r_15 g' = p /\ r_14 g' = r_15 g /\ r_13 g' = r_14 g /\ r_12 g' = r_13 g /\ r_bx g' = r_12 g /\ r_bp g' = r_bx g /\
  r_sp g' = r_sp g.

Lemma run_after_failure_64 g g' w w' p ra s :
  called g w p ra -> entered g g' w w' p ->
  wp (run_64 code 11) (fun to a => to = r_bp g /\ r_ax (gr a) = 2 ^ 64 - 1 /\ misplaced g (gr a) p /\ ext a = s /\ words a = w')
    (MkMachine _ 31 g' w' s).
Proof.
  intros [Hsp Hp Hd Hra Harg _] (He & Hw & H56 & H48 & H40 & H32 & H24 & H16 & H8).
  unfold code, misplaced in *.
  destruct g as [a c d b sp bp si di x8 x9 x10 x11 x12 x13 x14 x15 c2], g' as [a' c' d' b' sp' bp' si' di' y8 y9 y10 y11 y12 y13 y14 y15 c2'].
  cbn [r_sp r_di r_si r_bx r_bp r_12 r_13 r_14 r_15 r_8 r_9 r_10 r_11 r_ax r_cx r_dx r_cr2] in *. subst sp'. 
  destruct resume; repeat exec_instr.
  all: cbn; split_and!; try first [settle | done | by rewrite Z.lxor_nilpotent].
Qed.

Lemma code_length_64 : length code = 62%nat.
Proof. unfold code. by destruct resume. Qed.

Lemma step_entry_64 g r s e :
  without_sp g = r -> guest kind r s = e ->
  virt_step (Virtualization := I64) kind [] g s = Some match e with
    | Entry_fails f => Next g (set_fields f s)
    | Guest_exits r s' => Goto (vmcs s' VMCS_HOST_RIP) (with_sp r (vmcs s' VMCS_HOST_RSP)) s'
    end.
Proof. intros <- <-. unfold virt_step, intel, kind. by destruct resume, (guest _ _ _). Qed.

Lemma entered_with_sp g g' w w' p r : entered g g' w w' p -> entered g (with_sp r (r_sp g - 56)) w w' p.
Proof. intros [_ H]. split; [by destruct r|exact H]. Qed.

Lemma run_exit g w p ra r s r' s' :
  placed addr code -> called g w p ra -> holds_vr w p r -> holds_behind w p r ->
  guest kind (without_sp r) (entering s (r_sp g)) = Guest_exits r' s' ->
  vmcs s' VMCS_HOST_RSP = r_sp g - 56 -> vmcs s' VMCS_HOST_RIP = addr 34 ->
  wp (run_64 code 59) (fun to a => to = ra /\ r_ax (gr a) = 0 /\ saved g (gr a) /\ ext a = s' /\
    holds_vr (words a) p r' /\ holds_behind (words a) p r' /\ untouched g p w (words a)) (MkMachine _ 0 g w s).
Proof.
  intros Hpl Hc Hv Hb Hg Hsp Hip. assert (H34 : (34 < length code)%nat) by (rewrite code_length_64; lia).
  apply (run_to_entry_64 g w p ra r s _ 28); [by apply Hpl|done..|]. intros g' w' Hr He Hv' Hb'.
  eapply wp_virtualize_goto; [apply (step_entry_64 _ _ _ _ Hr Hg)|by rewrite Hip; apply at_address_found|]. rewrite Hsp.
  eapply wp_mono; [eapply (run_after_exit_64 g); [done|by eapply entered_with_sp|by eexists]|].
  intros to a (? & ? & ? & ? & ? & ? & ?). by destruct r'.
Qed.

Lemma run_fails g w p ra r s f :
  placed addr code -> called g w p ra -> holds_vr w p r -> holds_behind w p r ->
  guest kind (without_sp r) (entering s (r_sp g)) = Entry_fails f ->
  wp (run_64 code 42) (fun to a => to = r_bp g /\ r_ax (gr a) = 2 ^ 64 - 1 /\ misplaced g (gr a) p /\
    ext a = set_fields f (entering s (r_sp g)) /\ untouched g p w (words a)) (MkMachine _ 0 g w s).
Proof.
  intros Hpl Hc Hv Hb Hg. assert (H34 : (34 < length code)%nat) by (rewrite code_length_64; lia).
  apply (run_to_entry_64 g w p ra r s _ 11); [by apply Hpl|done..|]. intros g' w' Hr He Hv' Hb'.
  eapply wp_virtualize; [apply (step_entry_64 _ _ _ _ Hr Hg)|].
  eapply wp_mono; [by eapply (run_after_failure_64 g)|]. intros to a (-> & ? & ? & ? & ->). by destruct He as (_ & ? & _).
Qed.

(** C9: When the guest exits, the 64-bit code returns 0 to where it was called from,
    with the registers of the calling convention restored; the guest has run with the
    registers at [p], and its own are there now: R8 to R15 in the eight words behind
    the end of vt_vmentry_regs, which the code reads and overwrites.  When the entry
    fails it does not return to its caller: the pushed argument is never popped, so
    the return takes the caller's RBP for the return address, and every register
    comes back with the value of the next. *)
Theorem asm_regs_64_correct g w p ra r s :
  placed addr code -> called g w p ra -> holds_vr w p r -> holds_behind w p r ->
  match guest kind (without_sp r) (entering s (r_sp g)) with
  | Guest_exits r' s' =>
      vmcs s' VMCS_HOST_RSP = r_sp g - 56 -> vmcs s' VMCS_HOST_RIP = addr 34 ->
      exists a, run_64 code 59 (MkMachine _ 0 g w s) = Ret ra a /\ r_ax (gr a) = 0 /\ saved g (gr a) /\ ext a = s' /\
        holds_vr (words a) p r' /\ holds_behind (words a) p r' /\ untouched g p w (words a)
  | Entry_fails f =>
      exists a, run_64 code 42 (MkMachine _ 0 g w s) = Ret (r_bp g) a /\ r_ax (gr a) = 2 ^ 64 - 1 /\ misplaced g (gr a) p /\
        ext a = set_fields f (entering s (r_sp g)) /\ untouched g p w (words a)
  end.
Proof.
  intros Hpl Hc Hv Hb. destruct (guest kind (without_sp r) (entering s (r_sp g))) as [f|r' s'] eqn:Hg.
  - destruct (proj1 (wp_iff _ _ _) (run_fails _ _ _ _ _ _ _ Hpl Hc Hv Hb Hg)) as (to & a & Hrun & -> & Ha). by exists a.
  - intros Hsp Hip. destruct (proj1 (wp_iff _ _ _) (run_exit _ _ _ _ _ _ _ _ Hpl Hc Hv Hb Hg Hsp Hip)) as (to & a & Hrun & -> & Ha).
    by exists a.
Qed.
End call.

(** A caller with a frame at 0x9008 and return address 0x40100c; [vr] is at 0xa000. *)
Module Caller64.
Definition addr (i : nat) : Z := 0x400000 + 4 * Z.of_nat i.
Definition g : regs := MkGr 1 2 3 4 0x9000 0x9040 7 0xa000 8 9 10 11 12 13 14 15 0.
Definition stack : list Z := [0; 0; 0; 0; 0; 0; 0; 0x40100c].
Definition r : regs := MkGr 21 22 23 24 0 25 26 27 28 29 30 31 32 33 34 35 36.
Definition vr_words : list Z := [21; 22; 23; 24; 36; 25; 26; 27; 28; 29; 30; 31; 32; 33; 34; 35].
Definition w : gmap Z Z :=
  list_to_map (imap (fun i v => (0x8fc8 + 8 * Z.of_nat i, v)) stack ++ imap (fun i v => (0xa000 + 8 * Z.of_nat i, v)) vr_words).
Definition s0 : vm (P := list Z) := demo_vm 0.
(** The guest counts RBX up and exits. *)
Definition counting (i : virt_instr) (r : regs) (s : vm (P := list Z)) : vmentry (list Z) regs := Guest_exits (setr RBX (r_bx r + 1) r) s.
Definition failing (i : virt_instr) (r : regs) (s : vm (P := list Z)) : vmentry (list Z) regs := Entry_fails (vmcs s).

Lemma placed_64 : placed addr asm_vmlaunch_regs_64.
Proof. split; unfold addr; change (length asm_vmlaunch_regs_64) with 62%nat; lia. Qed.
Lemma called_64 : called g w 0xa000 0x40100c.
Proof.
  split; try (cbn; lia); try reflexivity. intros i Hi.
  assert (i = 1 \/ i = 2 \/ i = 3 \/ i = 4 \/ i = 5 \/ i = 6 \/ i = 7) as [->|[->|[->|[->|[->|[->| ->]]]]]] by lia; eexists; vm_compute; reflexivity.
Qed.
Lemma holds_64 : holds_vr w 0xa000 r /\ holds_behind w 0xa000 r.
Proof. split; unfold holds_vr, holds_behind; split_and!; vm_compute; reflexivity. Qed.

Lemma asm_regs_64_correct_witness :
  (exists a, run (Virtualization0 := intel Code64 without_sp with_sp counting) Code64 addr asm_vmlaunch_regs_64 59 (MkMachine _ 0 g w s0) = Ret 0x40100c a /\
    r_ax (gr a) = 0 /\ saved g (gr a) /\ words a !! 0xa018 = Some 25) /\
  (exists a, run (Virtualization0 := intel Code64 without_sp with_sp failing) Code64 addr asm_vmlaunch_regs_64 42 (MkMachine _ 0 g w s0) = Ret 0x9040 a /\
    r_ax (gr a) = 2 ^ 64 - 1 /\ misplaced g (gr a) 0xa000).
Proof.
  destruct holds_64 as [Hv Hb]. split.
  - destruct (asm_regs_64_correct addr counting false g w 0xa000 0x40100c r s0 placed_64 called_64 Hv Hb ltac:(reflexivity) ltac:(reflexivity))
      as (a & H & H1 & H2 & _ & (_ & _ & _ & H3 & _) & _).
    exists a. split; [exact H|]. split; [exact H1|]. split; [exact H2|exact H3].
  - destruct (asm_regs_64_correct addr failing false g w 0xa000 0x40100c r s0 placed_64 called_64 Hv Hb) as (a & H & H1 & H2 & _).
    exists a. split; [exact H|]. split; [exact H1|exact H2].
Defined.
End Caller64.
