(* ===== verification/SvmAsm.v ===== *)
(** * SvmAsm: hvm/asm_vmop.S, the entry to the guest on AMD

    [asm_vmrun_regs_32] and [asm_vmrun_regs_64], run on AsmMachine.v with AMD's
    instructions.  Of the processor they need the state that vmsave and vmload move
    (segments and system registers: its type is a parameter), the areas in memory
    that hold it, and the global interrupt flag.  What the guest does between vmrun
    and the exit is a parameter. *)

From S2P Require Import Prelude AsmMachine.
Open Scope Z_scope.

(** ** AMD's extensions *)

Record svm {H V : Type} : Type := MkSvm {
  hidden : H;           (* FS, GS, TR, LDTR and the MSRs of system calls *)
  area : Z -> H;        (* the same, in the VMCB at each address *)
  vmcb : V;             (* everything else *)
  gif : bool
}.
Arguments svm : clear implicits.

Section amd.
Context {H V : Type}.
Implicit Types x : svm H V.
Context (guest : Z -> regs -> svm H V -> regs * svm H V).

Definition set_hidden h x : svm H V := MkSvm _ _ h (area x) (vmcb x) (gif x).
Definition set_area a h x : svm H V := MkSvm _ _ (hidden x) (fun b => if decide (b = a) then h else area x b) (vmcb x) (gif x).
Definition set_gif b x : svm H V := MkSvm _ _ (hidden x) (area x) (vmcb x) b.

(** The VMCB keeps the guest's RAX and RSP; behind the exit the processor has its
    own again, and the global interrupt flag is clear. *)
Definition without_ax_sp (g : regs) : regs := setr RAX 0 (setr RSP 0 g).
Definition with_ax_sp (r : regs) (ax sp : Z) : regs := setr RAX ax (setr RSP sp r).

Definition amd : Virtualization (svm H V) := fun i vs g x =>
  match i, vs with
  | VMSAVE, [a] => Some (Next g (set_area a (hidden x) x))
  | VMLOAD, [a] => Some (Next g (set_hidden (area x a) x))
  | VMRUN, [a] =>
      Some (Next (with_ax_sp (guest a (without_ax_sp g) (set_gif true x)).1 (r_ax g) (r_sp g))
                 (set_gif false (guest a (without_ax_sp g) (set_gif true x)).2))
  | STGI, [] => Some (Next g (set_gif true x))
  | _, _ => None
  end.
End amd.

(** ** The code *)

Definition asm_vmrun_regs_32 : list instr := [
  push (Reg RBP);
  push (Reg RBX);
  push (Reg RSI);
  push (Reg RDI);
  mov (At 28 RSP) (Reg RAX);
  vmsave;
  mov (At 20 RSP) (Reg RAX);
  mov (At (4 * _RCX) RAX) (Reg RCX);
  mov (At (4 * _RDX) RAX) (Reg RDX);
  mov (At (4 * _RBX) RAX) (Reg RBX);
  mov (At (4 * _RBP) RAX) (Reg RBP);
  mov (At (4 * _RSI) RAX) (Reg RSI);
  mov (At (4 * _RDI) RAX) (Reg RDI);
  mov (At 24 RSP) (Reg RAX);
  vmload;
  vmrun;
  vmsave;
  mov (At 20 RSP) (Reg RAX);
  mov (Reg RCX) (At (4 * _RCX) RAX);
  mov (Reg RDX) (At (4 * _RDX) RAX);
  mov (Reg RBX) (At (4 * _RBX) RAX);
  mov (Reg RBP) (At (4 * _RBP) RAX);
  mov (Reg RSI) (At (4 * _RSI) RAX);
  mov (Reg RDI) (At (4 * _RDI) RAX);
  mov (At 28 RSP) (Reg RAX);
  vmload;
  stgi;
  pop (Reg RDI);
  pop (Reg RSI);
  pop (Reg RBX);
  pop (Reg RBP);
  ret].

Definition asm_vmrun_regs_64 : list instr := [
  push (Reg RBP);
  push (Reg RBX);
  push (Reg R12);
  push (Reg R13);
  push (Reg R14);
  push (Reg R15);
  mov (Reg RDX) (Reg RAX);
  push (Reg RDX);
  vmsave;
  push (Reg RDI);
  mov (Reg RSI) (Reg RAX);
  mov (At (8 * _R8) RDI) (Reg R8);
  mov (At (8 * _R9) RDI) (Reg R9);
  mov (At (8 * _R10) RDI) (Reg R10);
  mov (At (8 * _R11) RDI) (Reg R11);
  mov (At (8 * _R12) RDI) (Reg R12);
  mov (At (8 * _R13) RDI) (Reg R13);
  mov (At (8 * _R14) RDI) (Reg R14);
  mov (At (8 * _R15) RDI) (Reg R15);
  mov (At (8 * _RCX) RDI) (Reg RCX);
  mov (At (8 * _RDX) RDI) (Reg RDX);
  mov (At (8 * _RBX) RDI) (Reg RBX);
  mov (At (8 * _RBP) RDI) (Reg RBP);
  mov (At (8 * _RSI) RDI) (Reg RSI);
  mov (At (8 * _RDI) RDI) (Reg RDI);
  vmload;
  vmrun;
  vmsave;
  pop (Reg RAX);
  mov (Reg RCX) (At (8 * _RCX) RAX);
  mov (Reg RDX) (At (8 * _RDX) RAX);
  mov (Reg RBX) (At (8 * _RBX) RAX);
  mov (Reg RBP) (At (8 * _RBP) RAX);
  mov (Reg RSI) (At (8 * _RSI) RAX);
  mov (Reg RDI) (At (8 * _RDI) RAX);
  mov (Reg R8) (At (8 * _R8) RAX);
  mov (Reg R9) (At (8 * _R9) RAX);
  mov (Reg R10) (At (8 * _R10) RAX);
  mov (Reg R11) (At (8 * _R11) RAX);
  mov (Reg R12) (At (8 * _R12) RAX);
  mov (Reg R13) (At (8 * _R13) RAX);
  mov (Reg R14) (At (8 * _R14) RAX);
  mov (Reg R15) (At (8 * _R15) RAX);
  pop (Reg RAX);
  vmload;
  stgi;
  pop (Reg R15);
  pop (Reg R14);
  pop (Reg R13);
  pop (Reg R12);
  pop (Reg RBX);
  pop (Reg RBP);
  ret].

(** ** The calls *)

Section call.
Context {H V : Type} (addr : nat -> Z) (guest : Z -> regs -> svm H V -> regs * svm H V).
Implicit Types x : svm H V.

(** A call runs the guest of the VMCB at [a2] with its own hidden state, and keeps
    that of the monitor in the area at [a3] meanwhile. *)
Definition entered (a2 a3 : Z) x : svm H V := set_hidden (area (set_area a3 (hidden x) x) a2) (set_area a3 (hidden x) x).
Definition left (a2 a3 : Z) x : svm H V := set_gif true (set_hidden (area (set_area a2 (hidden x) x) a3) (set_area a2 (hidden x) x)).
Definition vmrun_spec (a2 a3 : Z) (r : regs) x : regs * svm H V :=
  let '(r', y) := guest a2 r (set_gif true (entered a2 a3 x)) in (r', left a2 a3 (set_gif false y)).

(** The guest comes back with the hidden state of the monitor where it was. *)
Lemma vmrun_hidden a2 a3 r x r' y :
  a2 <> a3 -> guest a2 r (set_gif true (entered a2 a3 x)) = (r', y) -> area y a3 = hidden x ->
  vmrun_spec a2 a3 r x = (r', left a2 a3 (set_gif false y)) /\
  hidden (left a2 a3 (set_gif false y)) = hidden x /\ area (left a2 a3 (set_gif false y)) a2 = hidden y.
Proof.
  intros Hne E Ha. unfold vmrun_spec. rewrite E. split; [done|]. cbn. rewrite decide_False by done. rewrite decide_True by done. done.
Qed.

Lemma step_vmrun a g r x r' y :
  without_ax_sp g = r -> guest a r (set_gif true x) = (r', y) ->
  virt_step (Virtualization := amd guest) VMRUN [a] g x = Some (Next (with_ax_sp r' (r_ax g) (r_sp g)) (set_gif false y)).
Proof. intros <- E. unfold virt_step, amd. by rewrite E. Qed.

Ltac run_to_vmrun :=
  repeat lazymatch goal with
    | |- wp (virtualize _ _ VMRUN _) _ _ => fail
    | _ => exec_instr
    end.

(** *** 32 bits *)

(** The words of vt_vmentry_regs at [p] that the code uses: not RAX and CR2. *)
Definition holds_32 (w : gmap Z Z) (p : Z) (r : regs) : Prop :=
  w !! (p + 4) = Some (r_cx r) /\ w !! (p + 8) = Some (r_dx r) /\ w !! (p + 12) = Some (r_bx r) /\
  w !! (p + 20) = Some (r_bp r) /\ w !! (p + 24) = Some (r_si r) /\ w !! (p + 28) = Some (r_di r).

Record called_32 (g : regs) (w : gmap Z Z) (p a2 a3 ra : Z) : Prop := Called32 {
  stack_32 : 16 <= r_sp g /\ r_sp g + 16 < 2 ^ 32;
  regs_32 : 0 <= p /\ p + 32 < 2 ^ 32;
  apart_32 : p + 32 <= r_sp g - 16 \/ r_sp g + 16 <= p;
  ra_32 : w !! r_sp g = Some ra;
  arg1_32 : w !! (r_sp g + 4) = Some p;
  arg2_32 : w !! (r_sp g + 8) = Some a2;
  arg3_32 : w !! (r_sp g + 12) = Some a3;
  room_32 : forall i, 1 <= i <= 4 -> is_Some (w !! (r_sp g - 4 * i))
}.

Definition saved_32 (g g' : regs) : Prop :=
  r_bx g' = r_bx g /\ r_si g' = r_si g /\ r_di g' = r_di g /\ r_bp g' = r_bp g /\ r_sp g' = r_sp g + 4.
(** Words that are neither on the stack below the return address nor one of the six. *)
Definition untouched_32 (g : regs) (p : Z) (w w' : gmap Z Z) : Prop :=
  forall y, y < r_sp g - 16 \/ r_sp g <= y -> y < p + 4 \/ p + 12 < y < p + 20 \/ p + 32 <= y -> w' !! y = w !! y.
(** The guest's registers: those of [r], and otherwise what the processor has. *)
Definition loaded_32 (g r : regs) : regs :=
  MkGr 0 (r_cx r) (r_dx r) (r_bx r) 0 (r_bp r) (r_si r) (r_di r)
    (r_8 g) (r_9 g) (r_10 g) (r_11 g) (r_12 g) (r_13 g) (r_14 g) (r_15 g) (r_cr2 g).

(** The 32-bit code runs the guest as [vmrun_spec] says, with the registers at [p],
    and returns to its caller with those of the calling convention; the guest's are
    at [p], and no other word outside the code's own part of the stack has changed. *)
Theorem asm_vmrun_regs_32_correct g w p a2 a3 ra r x r' y :
  called_32 g w p a2 a3 ra -> holds_32 w p r -> vmrun_spec a2 a3 (loaded_32 g r) x = (r', y) ->
  exists a, run (Virtualization0 := amd guest) Code32 addr asm_vmrun_regs_32 32 (MkMachine _ 0 g w x) = Ret ra a /\
    saved_32 g (gr a) /\ ext a = y /\ holds_32 (words a) p r' /\ untouched_32 g p w (words a).
Proof.
  intros [Hsp Hp Hd Hra H1 H2 H3 Hroom] (G1 & G2 & G3 & G5 & G6 & G7) Hs. unfold vmrun_spec in Hs.
  destruct (guest a2 (loaded_32 g r) (set_gif true (entered a2 a3 x))) as [r1 y1] eqn:E. injection Hs as -> <-.
  destruct (Hroom 1 ltac:(lia)) as [v1 Hv1], (Hroom 2 ltac:(lia)) as [v2 Hv2], (Hroom 3 ltac:(lia)) as [v3 Hv3], (Hroom 4 ltac:(lia)) as [v4 Hv4].
  enough (Hw : wp (run (Virtualization0 := amd guest) Code32 addr asm_vmrun_regs_32 32) (fun to a => to = ra /\
    saved_32 g (gr a) /\ ext a = left a2 a3 (set_gif false y1) /\ holds_32 (words a) p r' /\ untouched_32 g p w (words a)) (MkMachine _ 0 g w x)).
  { apply wp_iff in Hw as (to & a & Hrun & -> & Ha). by exists a. }
  destruct g as [a c d b sp bp si di x8 x9 x10 x11 x12 x13 x14 x15 c2]. destruct r as [qa qc qd qb qsp qbp qsi qdi q8 q9 q10 q11 q12 q13 q14 q15 qc2].
  unfold saved_32, holds_32, untouched_32, loaded_32, entered in *.
  cbn [r_ax r_cx r_dx r_bx r_sp r_bp r_si r_di r_8 r_9 r_10 r_11 r_12 r_13 r_14 r_15 r_cr2] in *.
  destruct r' as [ta tc td tb tsp tbp tsi tdi t8 t9 t10 t11 t12 t13 t14 t15 tc2].
  run_to_vmrun. eapply wp_virtualize; [by eapply step_vmrun; [|exact E]|]. cbn [with_ax_sp setr r_ax r_sp]. repeat exec_instr.
  cbn. split_and!; settle.
Qed.

(** *** 64 bits *)

(** The words that the code uses, eight of them behind the end of vt_vmentry_regs. *)
Definition holds_64 (w : gmap Z Z) (p : Z) (r : regs) : Prop :=
  w !! (p + 8) = Some (r_cx r) /\ w !! (p + 16) = Some (r_dx r) /\ w !! (p + 24) = Some (r_bx r) /\
  w !! (p + 40) = Some (r_bp r) /\ w !! (p + 48) = Some (r_si r) /\ w !! (p + 56) = Some (r_di r) /\
  w !! (p + 64) = Some (r_8 r) /\ w !! (p + 72) = Some (r_9 r) /\ w !! (p + 80) = Some (r_10 r) /\ w !! (p + 88) = Some (r_11 r) /\
  w !! (p + 96) = Some (r_12 r) /\ w !! (p + 104) = Some (r_13 r) /\ w !! (p + 112) = Some (r_14 r) /\ w !! (p + 120) = Some (r_15 r).

Record called_64 (g : regs) (w : gmap Z Z) (p a2 a3 ra : Z) : Prop := Called64 {
  stack_64 : 64 <= r_sp g /\ r_sp g + 8 < 2 ^ 64;
  regs_64 : 0 <= p /\ p + 128 < 2 ^ 64;
  apart_64 : p + 128 <= r_sp g - 64 \/ r_sp g + 8 <= p;
  ra_64 : w !! r_sp g = Some ra;
  args_64 : r_di g = p /\ r_si g = a2 /\ r_dx g = a3;
  room_64 : forall i, 1 <= i <= 8 -> is_Some (w !! (r_sp g - 8 * i))
}.

Definition saved_64 (g g' : regs) : Prop :=
  r_bx g' = r_bx g /\ r_bp g' = r_bp g /\ r_12 g' = r_12 g /\ r_13 g' = r_13 g /\ r_14 g' = r_14 g /\ r_15 g' = r_15 g /\
  r_sp g' = r_sp g + 8.
Definition untouched_64 (g : regs) (p : Z) (w w' : gmap Z Z) : Prop :=
  forall y, y < r_sp g - 64 \/ r_sp g <= y -> y < p + 8 \/ p + 24 < y < p + 40 \/ p + 128 <= y -> w' !! y = w !! y.
Definition loaded_64 (g r : regs) : regs :=
  MkGr 0 (r_cx r) (r_dx r) (r_bx r) 0 (r_bp r) (r_si r) (r_di r)
    (r_8 r) (r_9 r) (r_10 r) (r_11 r) (r_12 r) (r_13 r) (r_14 r) (r_15 r) (r_cr2 g).

(** C10: The code for AMD runs the guest of the VMCB as [vmrun_spec] says, with the
    registers at [p], and returns to its caller with the registers of the calling
    convention; the guest's are at [p] and behind the end of vt_vmentry_regs, and no
    other word outside the code's own part of the stack has changed. *)
Theorem asm_vmrun_regs_64_correct g w p a2 a3 ra r x r' y :
  called_64 g w p a2 a3 ra -> holds_64 w p r -> vmrun_spec a2 a3 (loaded_64 g r) x = (r', y) ->
  exists a, run (Virtualization0 := amd guest) Code64 addr asm_vmrun_regs_64 53 (MkMachine _ 0 g w x) = Ret ra a /\
    saved_64 g (gr a) /\ ext a = y /\ holds_64 (words a) p r' /\ untouched_64 g p w (words a).
Proof.
  intros [Hsp Hp Hd Hra (A1 & A2 & A3) Hroom] (G1 & G2 & G3 & G5 & G6 & G7 & B0 & B1 & B2 & B3 & B4 & B5 & B6 & B7) Hs. unfold vmrun_spec in Hs.
  destruct (guest a2 (loaded_64 g r) (set_gif true (entered a2 a3 x))) as [r1 y1] eqn:E. injection Hs as -> <-.
  destruct (Hroom 1 ltac:(lia)) as [v1 Hv1], (Hroom 2 ltac:(lia)) as [v2 Hv2], (Hroom 3 ltac:(lia)) as [v3 Hv3], (Hroom 4 ltac:(lia)) as [v4 Hv4],
    (Hroom 5 ltac:(lia)) as [v5 Hv5], (Hroom 6 ltac:(lia)) as [v6 Hv6], (Hroom 7 ltac:(lia)) as [v7 Hv7], (Hroom 8 ltac:(lia)) as [v8 Hv8].
  enough (Hw : wp (run (Virtualization0 := amd guest) Code64 addr asm_vmrun_regs_64 53) (fun to a => to = ra /\
    saved_64 g (gr a) /\ ext a = left a2 a3 (set_gif false y1) /\ holds_64 (words a) p r' /\ untouched_64 g p w (words a)) (MkMachine _ 0 g w x)).
  { apply wp_iff in Hw as (to & a & Hrun & -> & Ha). by exists a. }
  destruct g as [a c d b sp bp si di x8 x9 x10 x11 x12 x13 x14 x15 c2]. destruct r as [qa qc qd qb qsp qbp qsi qdi q8 q9 q10 q11 q12 q13 q14 q15 qc2].
  unfold saved_64, holds_64, untouched_64, loaded_64, entered in *.
  cbn [r_ax r_cx r_dx r_bx r_sp r_bp r_si r_di r_8 r_9 r_10 r_11 r_12 r_13 r_14 r_15 r_cr2] in *. subst di si d.
  destruct r' as [ta tc td tb tsp tbp tsi tdi t8 t9 t10 t11 t12 t13 t14 t15 tc2].
  run_to_vmrun. eapply wp_virtualize; [by eapply step_vmrun; [|exact E]|]. cbn [with_ax_sp setr r_ax r_sp]. repeat exec_instr.
  cbn. split_and!; settle.
Qed.
End call.

(** A guest that doubles RCX and changes its hidden state, in the VMCB at 0x2000; the
    monitor keeps its own at 0x3000. *)
Module Monitor64.
Definition addr (i : nat) : Z := 0x400000 + 4 * Z.of_nat i.
Definition doubling (a : Z) (r : regs) (x : svm Z ()) : regs * svm Z () := (setr RCX (2 * r_cx r) r, set_hidden 99 x).
Definition g : regs := MkGr 1 2 0x3000 4 0x9000 5 0x2000 0xa000 8 9 10 11 12 13 14 15 16.
Definition r : regs := MkGr 20 21 22 23 24 25 26 27 28 29 30 31 32 33 34 35 36.
Definition stack : list Z := [0; 0; 0; 0; 0; 0; 0; 0; 0x40100c].
Definition vr_words : list Z := [20; 21; 22; 23; 36; 25; 26; 27; 28; 29; 30; 31; 32; 33; 34; 35].
Definition w : gmap Z Z :=
  list_to_map (imap (fun i v => (0x8fc0 + 8 * Z.of_nat i, v)) stack ++ imap (fun i v => (0xa000 + 8 * Z.of_nat i, v)) vr_words).
Definition x : svm Z () := MkSvm _ _ 7 (fun _ => 50) tt true.

Lemma called_ex : called_64 g w 0xa000 0x2000 0x3000 0x40100c.
Proof.
  split; try (cbn; lia); try reflexivity. intros i Hi.
  assert (i = 1 \/ i = 2 \/ i = 3 \/ i = 4 \/ i = 5 \/ i = 6 \/ i = 7 \/ i = 8) as [->|[->|[->|[->|[->|[->|[->| ->]]]]]]] by lia;
    eexists; vm_compute; reflexivity.
Qed.

Lemma asm_vmrun_regs_64_correct_witness :
  exists a, run (Virtualization0 := amd doubling) Code64 addr asm_vmrun_regs_64 53 (MkMachine _ 0 g w x) = Ret 0x40100c a /\
    saved_64 g (gr a) /\ words a !! 0xa008 = Some 42 /\ hidden (ext a) = 7 /\ area (ext a) 0x2000 = 99 /\ gif (ext a) = true.
Proof.
  assert (Hh : holds_64 w 0xa000 r) by (unfold holds_64; split_and!; vm_compute; reflexivity).
  destruct (asm_vmrun_regs_64_correct addr doubling g w 0xa000 0x2000 0x3000 0x40100c r x _ _ called_ex Hh eq_refl)
    as (a & Hrun & Hs & Hx & (H1 & _) & _).
  exists a. split; [exact Hrun|]. split; [exact Hs|]. split; [exact H1|]. rewrite Hx. split_and!; reflexivity.
Defined.
End Monitor64.
