(* ===== verification/VmRun.v ===== *)
(** * VmRun: the life of a guest, hvm/vt.c

    The loop of [vt_main] - handle the exit, resume the guest - as a transition
    system whose steps are the emulated [cpuid] instructions, and the loop as an
    implementation of it.  What the guest does between two exits is the parameter
    [resume], the assembly behind [asm_vmresume_regs], which VmAsm.v models. *)

From S2P Require Import Prelude Printfmt FormatSpec Printf Vmcs Vmx.
Open Scope Z_scope.

Section guest.
Context {P : Type} (cputchar : Z -> M P ()) (cpu : processor) (resume : M (vm (P := P)) Z).
Implicit Types (s t : vm (P := P)).

(** The guest has left with this basic reason, and not because the entry failed. *)
Definition left_with (s : vm (P := P)) (reason : Z) : Prop :=
  Z.testbit (vmcs s VMCS_EXIT_REASON) 31 = false /\ Z.land (vmcs s VMCS_EXIT_REASON) EXIT_REASON_MASK = reason.

(** A [cpuid] instruction: the leaf asked for and the ECX answered. *)
Definition leaf (s : vm (P := P)) : Z := u32 (rax (vr s)).
Definition answer (s : vm (P := P)) : Z * Z := (leaf s, rcx (vr (cpuid_result cpu s))).

(** The guest runs from an exit to the INIT signal that stops it. *)
Inductive guest_run : vm (P := P) -> list (Z * Z) -> vm (P := P) -> Prop :=
  | guest_stops s : left_with s EXIT_REASON_INIT_SIGNAL -> guest_run s [] s
  | guest_cpuid s s1 tr t :
      left_with s EXIT_REASON_CPUID -> resume (cpuid_result cpu s) = Ret 0 s1 ->
      guest_run s1 tr t -> guest_run s (answer s :: tr) t.

(** When [vt_exit_reason] returns, and what. *)
Lemma vt_exit_reason_ret s go t :
  vt_exit_reason cputchar cpu s = Ret go t <->
  left_with s EXIT_REASON_CPUID /\ go = true /\ t = cpuid_result cpu s \/
  left_with s EXIT_REASON_INIT_SIGNAL /\ go = false /\ t = s.
Proof.
  unfold left_with, vt_exit_reason, asm_vmread, gets. erewrite !(bind_eq (fun s => Ret _ s)) by reflexivity.
  set (reason := vmcs s VMCS_EXIT_REASON). set (basic := Z.land reason EXIT_REASON_MASK).
  change EXIT_REASON_VMENTRY_FAILURE_BIT with (2 ^ 31). rewrite land_bit, negb_involutive by lia.
  destruct (Z.testbit reason 31); [split; [done|naive_solver]|].
  assert (Hp : forall (m : M vm ()) why, (forall a u, ((m;; panic (A := ()) why);; mret true) s <> Ret a u)).
  { intros m why a u. unfold mbind, M_bind, panic. by destruct (m s). }
  destruct (Z.eqb_spec basic EXIT_REASON_CPUID) as [->|].
  { unfold mbind at 1, M_bind at 1. rewrite do_cpuid_run. cbn. unfold mret, M_ret.
    split; [intros [= <- <-]; left; done|]. intros [(_ & -> & ->)|([_ H] & _)]; [done|discriminate H]. }
  destruct (Z.eqb_spec basic EXIT_REASON_EPT_VIOLATION) as [->|].
  { split; [|intros [([_ H] & _)|([_ H] & _)]; discriminate H].
    unfold do_ept_violation, asm_vmread, gets, mbind, M_bind. repeat (case_match; try done). }
  destruct (Z.eqb_spec basic EXIT_REASON_EPT_MISCONFIG) as [->|].
  { split; [|intros [([_ H] & _)|([_ H] & _)]; discriminate H].
    unfold do_ept_misconfig, asm_vmread, gets, mbind, M_bind. repeat (case_match; try done). }
  destruct (Z.eqb_spec basic EXIT_REASON_INIT_SIGNAL) as [->|]; [|split; [done|naive_solver]].
  split; [intros [= <- <-]; right; done|]. intros [([_ H] & _)|(_ & -> & ->)]; [discriminate H|done].
Qed.

Lemma vt_run_ret s t : vt_run resume s = Ret tt t <-> resume s = Ret 0 t.
Proof.
  unfold vt_run, vt_vmresume, mbind, M_bind, mret, M_ret. destruct (resume s) as [r s1| | |]; try done.
  destruct (Z.eqb_spec r 0) as [->|]; cbn [negb]; naive_solver.
Qed.

(** The answer to leaf 1 has the VMX bit clear. *)
Lemma answer_hides_vmx s : (answer s).1 = CPUID_1 -> Z.testbit (answer s).2 5 = false.
Proof.
  unfold answer, cpuid_result, leaf. cbn [fst snd]. destruct (cpuid cpu (u32 (rax (vr s)))) as [[[oa ob] oc] od].
  cbn [set_vmcs set_vr vr rcx]. intros ->. change (CPUID_1 =? CPUID_1) with true. cbv iota. apply Z.clearbit_eq.
Qed.

(** C31: The loop of [vt_main] ends normally exactly when the guest executes some
    [cpuid] instructions, each resumed successfully, and then stops on an INIT
    signal; any other exit, or a failed resume, never lets it return.  In all these
    runs the guest is told that the processor has no VMX. *)
Theorem vt_loop_correct s t :
  (forall exits, vt_loop cputchar cpu resume exits s = Ret tt t <->
     exists tr, (length tr < exits)%nat /\ guest_run s tr t) /\
  (forall tr, guest_run s tr t -> Forall (fun a => a.1 = CPUID_1 -> Z.testbit a.2 5 = false) tr).
Proof.
  split.
  - intros exits. revert s. induction exits as [|exits IH]; intros s; cbn [vt_loop].
    { split; [done|]. intros (tr & H & _). lia. }
    rewrite bind_ret_iff. setoid_rewrite vt_exit_reason_ret. split.
    + intros (go & s1 & [(Hl & -> & ->)|(Hl & -> & ->)] & H).
      * apply bind_ret_iff in H as ([] & s2 & Hr%vt_run_ret & (tr & Hlen & Hrun)%IH). exists (answer s :: tr). cbn.
        split; [lia|by econstructor].
      * injection H as ->. exists []. cbn. split; [lia|by constructor].
    + intros (tr & Hlen & Hrun). inversion Hrun as [? Hl|? s2 tr' ? Hl Hr Hrun']; subst.
      * exists false, t. split; [by right|done].
      * exists true, (cpuid_result cpu s). split; [by left|]. apply bind_ret_iff. exists tt, s2. split; [by apply vt_run_ret|].
        apply IH. exists tr'. cbn in Hlen. split; [lia|done].
  - intros tr Hrun. induction Hrun; constructor; [|done]. apply answer_hides_vmx.
Qed.
End guest.

(** A guest that asks for leaf 1 once and is then stopped. *)
Definition demo_resume : M (vm (P := list Z)) Z := asm_vmwrite VMCS_EXIT_REASON EXIT_REASON_INIT_SIGNAL;; mret 0.

Lemma vt_loop_correct_witness :
  exists t tr, vt_loop emit demo_cpu demo_resume 2 (demo_vm EXIT_REASON_CPUID) = Ret tt t /\
    tr = [(1, 0xdf)] /\ Forall (fun a => a.1 = CPUID_1 -> Z.testbit a.2 5 = false) tr.
Proof.
  set (s := demo_vm EXIT_REASON_CPUID). set (t := set_vmcs VMCS_EXIT_REASON EXIT_REASON_INIT_SIGNAL (cpuid_result demo_cpu s)).
  destruct (vt_loop_correct emit demo_cpu demo_resume s t) as [Hloop Hhide].
  assert (Hrun : guest_run demo_cpu demo_resume s [answer demo_cpu s] t).
  { apply guest_cpuid with (s1 := t); [split; reflexivity|reflexivity|]. constructor. split; reflexivity. }
  exists t, [answer demo_cpu s]. split; [|split; [reflexivity|exact (Hhide _ Hrun)]].
  apply Hloop. exists [answer demo_cpu s]. split; [cbn; lia|exact Hrun].
Defined.
