(* ===== verification/Boot.v ===== *)
(** * Boot: boot/main.c and inc/elf.h

    The boot loader: sectors are read from the disk through its ports, and the
    program segments of the ELF kernel image are copied to where they belong.
    The disk is the sequence of values that its ports deliver. *)

From S2P Require Import Prelude CString Ports.
Open Scope Z_scope.

Definition SECTSIZE : Z := 512.
Definition BOOT_PAGESIZE : Z := 4096.
Definition ELFHDR : Z := 0x10000.
Definition ELF_MAGIC : Z := 0x464C457F.

Record loader : Type := MkLoader { l_io : io; l_mem : mem }.
Definition set_l_io i (s : loader) : loader := MkLoader i (l_mem s).
Definition set_l_mem m (s : loader) : loader := MkLoader (l_io s) m.

#[export, refine] Instance loader_has_io : HasIO loader := {| io_of := l_io; with_io := set_l_io |}.
Proof. - done. - by intros []. - done. Defined.

Definition in_ram {A} (m : M mem A) : M loader A := zoom l_mem set_l_mem m.

(** Every round of the loop reads the port. *)
Fixpoint waitdisk_rec (fuel : nat) : M loader () :=
  match fuel with
  | O => spin
  | S fuel' => st ← inb 0x1F7; if Z.land st 0xC0 =? 0x40 then mret tt else waitdisk_rec fuel'
  end.
Definition waitdisk : M loader () := fun s => waitdisk_rec (S (length (io_in (l_io s)))) s.

(** The words of [insl] go to memory one after the other. *)
Fixpoint store_words (dst : Z) (l : list Z) : M mem () :=
  match l with
  | [] => mret tt
  | w :: l' => store32 dst w;; store_words (dst + 4) l'
  end.

Definition readsect (dst offset : Z) : M loader () :=
  waitdisk;;
  outb 0x1F2 1;;
  outb 0x1F3 offset;;
  outb 0x1F4 (Z.shiftr offset 8);;
  outb 0x1F5 (Z.shiftr offset 16);;
  outb 0x1F6 (Z.lor (Z.shiftr offset 24) 0xE0);;
  outb 0x1F7 0x20;;
  waitdisk;;
  l ← insl 0x1F0 (Z.to_nat (SECTSIZE / 4));
  in_ram (store_words dst l).

(** [end_va] and [memsz] are below 2^33, so that the loops end; they wrap at
    2^32 as the C variables do. *)
Definition readseg (va filesz memsz offset : Z) : M loader () :=
  let va := Z.land va 0xFFFFFF in
  let end_va := u32 (va + filesz) in
  let memsz := u32 (memsz + va) in
  let va := Z.land va (Z.lnot (SECTSIZE - 1)) in
  let offset := u32 (offset / SECTSIZE + 1) in
  while (S (Z.to_nat (end_va / SECTSIZE + 1))) (fun '(va, _) => mret (va <? end_va))
    (fun '(va, offset) => readsect va offset;; mret (u32 (va + SECTSIZE), u32 (offset + 1))) (va, offset);;
  while (S (Z.to_nat (memsz - end_va))) (fun e => mret (e <? memsz))
    (fun e => in_ram (store8 e 0);; mret (u32 (e + 1))) end_va;;
  mret tt.

Definition ld8 (a : Z) : M loader Z := in_ram (load8 a).
Definition ld16 (a : Z) : M loader Z := b0 ← ld8 a; b1 ← ld8 (a + 1); mret (b0 + 2 ^ 8 * b1).
Definition ld32 (a : Z) : M loader Z := lo ← ld16 a; hi ← ld16 (a + 2); mret (lo + 2 ^ 16 * hi).

(** The fields of [struct Elf] and [struct Proghdr]. *)
Definition e_magic : M loader Z := ld32 ELFHDR.
Definition e_entry : M loader Z := ld32 (ELFHDR + 24).
Definition e_phoff : M loader Z := ld32 (ELFHDR + 28).
Definition e_phnum : M loader Z := ld16 (ELFHDR + 44).
Definition sizeof_Proghdr : Z := 32.

Record Proghdr : Type := MkProghdr { p_offset : Z; p_va : Z; p_filesz : Z; p_memsz : Z }.
Definition get_ph (ph : Z) : M loader Proghdr :=
  o ← ld32 (ph + 4); v ← ld32 (ph + 8); f ← ld32 (ph + 16); m ← ld32 (ph + 20); mret (MkProghdr o v f m).

Definition load_segment (ph : Z) : M loader () :=
  p ← get_ph ph; readseg (p_va p) (p_filesz p) (p_memsz p) (p_offset p).

(** The kernel's entry point, which is called and does not return, or [None]
    for [bad]. *)
Definition bootmain : M loader (option Z) :=
  readseg ELFHDR BOOT_PAGESIZE BOOT_PAGESIZE 0;;
  magic ← e_magic;
  if negb (magic =? ELF_MAGIC) then
    outw 0x8A00 0x8A00;; outw 0x8A00 0x8E00;; mret None
  else
    phoff ← e_phoff;
    phnum ← e_phnum;
    for_each load_segment ((fun i => ELFHDR + phoff + sizeof_Proghdr * Z.of_nat i) <$> seq 0 (Z.to_nat phnum));;
    entry ← e_entry;
    mret (Some (Z.land entry 0xFFFFFF)).

(** ** Reading sectors *)

Definition linput (s : loader) : list Z := io_in (l_io s).
Definition log (s : loader) : list port_event := io_log (l_io s).

(** The sectors a log asks the disk for: the numbers in the registers when the
    read command is given. *)
Record regs : Type := Regs { r_f3 : Z; r_f4 : Z; r_f5 : Z; r_f6 : Z }.
Definition lba (r : regs) : Z := r_f3 r + 2 ^ 8 * r_f4 r + 2 ^ 16 * r_f5 r + 2 ^ 24 * (r_f6 r mod 16).
Definition disk_step (r : regs) (e : port_event) : regs * list Z :=
  match e with
  | Out _ p v =>
      if p =? 0x1F3 then (Regs v (r_f4 r) (r_f5 r) (r_f6 r), [])
      else if p =? 0x1F4 then (Regs (r_f3 r) v (r_f5 r) (r_f6 r), [])
      else if p =? 0x1F5 then (Regs (r_f3 r) (r_f4 r) v (r_f6 r), [])
      else if p =? 0x1F6 then (Regs (r_f3 r) (r_f4 r) (r_f5 r) v, [])
      else if (p =? 0x1F7) && (v =? 0x20) then (r, [lba r])
      else (r, [])
  | In _ _ _ => (r, [])
  end.
Fixpoint disk_run (r : regs) (g : list port_event) : regs * list Z :=
  match g with
  | [] => (r, [])
  | e :: g' => let '(r1, a) := disk_step r e in let '(r2, b) := disk_run r1 g' in (r2, a ++ b)
  end.

Lemma disk_run_app r g1 g2 :
  disk_run r (g1 ++ g2) = ((disk_run (disk_run r g1).1 g2).1, (disk_run r g1).2 ++ (disk_run (disk_run r g1).1 g2).2).
Proof.
  revert r. induction g1 as [|e g1 IH]; intros r; cbn [disk_run app].
  - cbn [fst snd app]. by destruct (disk_run r g2).
  - destruct (disk_step r e) as [r1 a]. rewrite IH. destruct (disk_run r1 g1) as [r2 b]. cbn [fst snd].
    by rewrite app_assoc.
Qed.

Definition is_in (e : port_event) : Prop := match e with In _ _ _ => True | Out _ _ _ => False end.
Lemma disk_run_in r g : Forall is_in g -> disk_run r g = (r, []).
Proof. induction 1 as [|e g He Hg IH]; [done|]. destruct e; [|done]. cbn. by rewrite IH. Qed.

(** [t] is [s] with [l] read from the ports, and [g] added to the log. *)
Definition ports_moved (rest : list Z) (g : list port_event) (s : loader) : loader :=
  set_l_io (Io rest (log s ++ g)) s.

Lemma ports_moved_moved r1 g1 r2 g2 s : ports_moved r2 g2 (ports_moved r1 g1 s) = ports_moved r2 (g1 ++ g2) s.
Proof. unfold ports_moved, log. cbn. by rewrite app_assoc. Qed.

Lemma in_run w p v rest s :
  linput s = v :: rest -> port_in w p s = Ret (v mod 2 ^ w) (ports_moved rest [In w (u16 p) (v mod 2 ^ w)] s).
Proof.
  intros E. rewrite (port_in_eq w p v rest) by done. unfold after_in, ports_moved, log. cbn.
  change (io_in (l_io s)) with (linput s). by rewrite E.
Qed.

Lemma out_run w p v s : port_out w p v s = Ret tt (ports_moved (linput s) [Out w (u16 p) (v mod 2 ^ w)] s).
Proof. reflexivity. Qed.

Definition busy (st : Z) : Prop := Z.land (u8 st) 0xC0 <> 0x40.

Lemma waitdisk_run polls rest s :
  Forall busy polls -> linput s = polls ++ 0x40 :: rest ->
  exists g, Forall is_in g /\ waitdisk s = Ret tt (ports_moved rest g s).
Proof.
  intros Hb Hin. unfold waitdisk. change (io_in (l_io s)) with (linput s).
  assert (Hf : (length polls < S (length (linput s)))%nat) by (rewrite Hin, length_app; lia).
  revert Hf. generalize (S (length (linput s))). intros f Hf. revert f s Hf Hin.
  induction Hb as [|st polls Hst Hb IH]; intros f s Hf Hin; (destruct f as [|f]; [cbn in Hf; lia|]); cbn [waitdisk_rec].
  - rewrite (bind_eq _ _ _ _ _ (in_run 8 0x1F7 _ _ s Hin)). eexists. split; [|reflexivity]. by constructor.
  - rewrite (bind_eq _ _ _ _ _ (in_run 8 0x1F7 _ _ s Hin)). unfold busy, u8 in Hst. apply Z.eqb_neq in Hst as ->.
    destruct (IH f (ports_moved (polls ++ 0x40 :: rest) [In 8 (u16 0x1F7) (st mod 2 ^ 8)] s)) as (g & Hg & E);
      [cbn in Hf; lia|done|]. rewrite ports_moved_moved in E. eexists. split; [|exact E]. constructor; [exact I|done].
Qed.

Lemma ins_run p l : forall rest s,
  Forall (fun w => 0 <= w < 2 ^ 32) l -> linput s = l ++ rest ->
  exists g, Forall is_in g /\ insl p (length l) s = Ret l (ports_moved rest g s).
Proof.
  unfold insl. induction l as [|w l IH]; intros rest s Hl Hin; cbn [length ins].
  { exists []. split; [done|]. unfold ports_moved, log. cbn in Hin. subst rest. rewrite app_nil_r.
    by destruct s as [[i o] m]. }
  apply Forall_cons in Hl as [Hw Hl]. rewrite (bind_eq _ _ _ _ _ (in_run 32 p w (l ++ rest) s Hin)).
  destruct (IH rest (ports_moved (l ++ rest) [In 32 (u16 p) (w mod 2 ^ 32)] s) Hl eq_refl) as (g & Hg & E).
  rewrite (bind_eq _ _ _ _ _ E), ports_moved_moved. eexists. split; [|unfold mret, M_ret; by rewrite Z.mod_small].
  by constructor.
Qed.

(** The four bytes of a word. *)
Definition word_bytes (w : Z) : list Z := [u8 w; u8 (Z.shiftr w 8); u8 (Z.shiftr w 16); u8 (Z.shiftr w 24)].

Lemma store32_run m a w :
  mapped m a 4 -> store32 a w m = Ret tt (write m a (word_bytes w)).
Proof.
  intros Hm. apply wp_eq. unfold store32, word_bytes. cbn [write].
  wp_step. apply wp_store8; [apply Hm; lia|]. wp_step. apply wp_store8; [rewrite lookup_insert_ne by lia; apply Hm; lia|].
  wp_step. apply wp_store8; [rewrite !lookup_insert_ne by lia; apply Hm; lia|].
  apply wp_store8; [rewrite !lookup_insert_ne by lia; apply Hm; lia|].
  replace (a + 1 + 1) with (a + 2) by lia. by replace (a + 2 + 1) with (a + 3) by lia.
Qed.

Lemma write_app m p l1 l2 : write m p (l1 ++ l2) = write (write m p l1) (p + Z.of_nat (length l1)) l2.
Proof.
  revert m p. induction l1 as [|c l1 IH]; intros m p; cbn [write app length]; [by rewrite Z.add_0_r|].
  rewrite IH. f_equal. lia.
Qed.

Lemma store_words_run l : forall m dst,
  mapped m dst (4 * Z.of_nat (length l)) ->
  store_words dst l m = Ret tt (write m dst (flat_map word_bytes l)).
Proof.
  induction l as [|w l IH]; intros m dst Hm; [done|]. cbn [store_words flat_map length] in *.
  rewrite (bind_eq _ _ _ tt (write m dst (word_bytes w))) by (apply store32_run; intros a Ha; apply Hm; lia).
  rewrite IH, write_app; [done|]. apply mapped_write. intros a Ha. apply Hm. lia.
Qed.

Section disk.
(** The words of each sector, and the states the disk reports before it is
    ready, for the command and for the data. *)
Context (disk polls1 polls2 : Z -> list Z).

Record disk_ok : Prop := DiskOk {
  dk_length : forall k, length (disk k) = 128%nat;
  dk_words : forall k, Forall (fun w => 0 <= w < 2 ^ 32) (disk k);
  dk_polls1 : forall k, Forall busy (polls1 k);
  dk_polls2 : forall k, Forall busy (polls2 k);
}.
Context (Hdisk : disk_ok).

Definition sector_script (k : Z) : list Z := polls1 k ++ 0x40 :: polls2 k ++ 0x40 :: disk k.
Definition sector_bytes (k : Z) : list Z := flat_map word_bytes (disk k).

Lemma sector_bytes_length k : length (sector_bytes k) = 512%nat.
Proof.
  unfold sector_bytes. assert (H : forall l, length (flat_map word_bytes l) = (4 * length l)%nat).
  { induction l as [|w l IH]; [done|]. cbn [flat_map length]. rewrite length_app, IH. cbn. lia. }
  by rewrite H, (dk_length Hdisk).
Qed.

Lemma lba_bytes k : 0 <= k < 2 ^ 28 ->
  lba (Regs (k mod 2 ^ 8) (Z.shiftr k 8 mod 2 ^ 8) (Z.shiftr k 16 mod 2 ^ 8) (Z.lor (Z.shiftr k 24) 0xE0 mod 2 ^ 8)) = k.
Proof.
  intros Hk. unfold lba. cbn [r_f3 r_f4 r_f5 r_f6].
  assert (E : Z.lor (Z.shiftr k 24) 0xE0 = k / 2 ^ 24 + 0xE0).
  { rewrite Z.shiftr_div_pow2, Z.lor_comm by lia. rewrite (lor_low_add 0xE0 (k / 2 ^ 24) 5) by (done || lia || (Z.div_mod_to_equations; lia)). lia. }
  rewrite E, !Z.shiftr_div_pow2 by lia. Z.div_mod_to_equations. lia.
Qed.

Lemma readsect_run dst k rest s :
  0 <= k < 2 ^ 28 -> linput s = sector_script k ++ rest -> mapped (l_mem s) dst 512 ->
  exists g, readsect dst k s = Ret tt (set_l_mem (write (l_mem s) dst (sector_bytes k)) (ports_moved rest g s)) /\
    forall r, (disk_run r g).2 = [k].
Proof.
  intros Hk Hin Hm. unfold sector_script in Hin. rewrite <- app_assoc in Hin. cbn [app] in Hin. rewrite <- app_assoc in Hin.
  unfold readsect, outb. destruct (waitdisk_run _ _ s (dk_polls1 Hdisk k) Hin) as (g1 & Hg1 & E1).
  rewrite (bind_eq _ _ _ _ _ E1). do 6 (rewrite (bind_eq _ _ _ _ _ (out_run _ _ _ _)), ports_moved_moved).
  cbn [app] in *. match goal with |- context [ports_moved _ ?g s] => set (g2 := g) end.
  destruct (waitdisk_run (polls2 k) (disk k ++ rest) (ports_moved (polls2 k ++ 0x40 :: disk k ++ rest) g2 s) (dk_polls2 Hdisk k) eq_refl)
    as (g3 & Hg3 & E3).
  change (linput _) with (polls2 k ++ 0x40 :: disk k ++ rest). rewrite (bind_eq _ _ _ _ _ E3), ports_moved_moved.
  destruct (ins_run 0x1F0 (disk k) rest (ports_moved (disk k ++ rest) (g2 ++ g3) s) (dk_words Hdisk k) eq_refl) as (g4 & Hg4 & E4).
  rewrite (dk_length Hdisk) in E4. rewrite (bind_eq _ _ _ _ _ E4), ports_moved_moved.
  exists ((g2 ++ g3) ++ g4). split.
  - unfold in_ram, zoom. change (l_mem (ports_moved rest ((g2 ++ g3) ++ g4) s)) with (l_mem s).
    rewrite store_words_run by (by rewrite (dk_length Hdisk)). done.
  - intros r. rewrite !disk_run_app. unfold g2. rewrite !disk_run_app, (disk_run_in r g1 Hg1). cbn [fst snd app].
    change (u16 0x1F2) with 0x1F2. change (u16 0x1F3) with 0x1F3. change (u16 0x1F4) with 0x1F4. change (u16 0x1F5) with 0x1F5.
    change (u16 0x1F6) with 0x1F6. change (u16 0x1F7) with 0x1F7.
    cbn [disk_run disk_step Z.eqb Pos.eqb andb fst snd app r_f3 r_f4 r_f5 r_f6].
    rewrite (disk_run_in _ g3 Hg3), (disk_run_in _ g4 Hg4). cbn [fst snd app]. rewrite app_nil_r.
    change (0x20 mod 2 ^ 8) with 0x20. cbn [Z.eqb Pos.eqb fst snd app].
    rewrite lba_bytes by done. done.
Qed.

(** The bytes of [n] sectors from [k]. *)
Definition image (k : Z) (n : nat) : list Z := flat_map sector_bytes ((fun i => k + Z.of_nat i) <$> seq 0 n).

Lemma seq_shift_map (f : Z -> list Z) k n :
  flat_map f ((fun i => k + Z.of_nat i) <$> seq 0 (S n)) =
  f k ++ flat_map f ((fun i => (k + 1) + Z.of_nat i) <$> seq 0 n).
Proof.
  cbn [seq fmap list_fmap flat_map]. rewrite Z.add_0_r. f_equal. rewrite <- seq_shift, <- list_fmap_compose.
  f_equal. apply list_fmap_ext. intros i x Hx. cbn. lia.
Qed.

Lemma sectors_run n : forall fuel va end_va k rest s,
  (n < fuel)%nat -> (n <> 0%nat -> va + 512 * Z.of_nat n - 512 < end_va) -> end_va <= va + 512 * Z.of_nat n ->
  0 <= va -> va + 512 * Z.of_nat n < 2 ^ 32 -> 0 <= k -> k + Z.of_nat n < 2 ^ 28 ->
  mapped (l_mem s) va (512 * Z.of_nat n) ->
  linput s = flat_map sector_script ((fun i => k + Z.of_nat i) <$> seq 0 n) ++ rest ->
  exists g, while fuel (fun '(va, _) => mret (va <? end_va))
      (fun '(va, offset) => readsect va offset;; mret (u32 (va + SECTSIZE), u32 (offset + 1))) (va, k) s =
    Ret (va + 512 * Z.of_nat n, k + Z.of_nat n) (set_l_mem (write (l_mem s) va (image k n)) (ports_moved rest g s)) /\
    forall r, (disk_run r g).2 = (fun i => k + Z.of_nat i) <$> seq 0 n.
Proof.
  induction n as [|n IH]; intros fuel va end_va k rest s Hf Hlo Hhi Hva Hvb Hk Hkb Hm Hin;
    (destruct fuel as [|fuel]; [lia|]); rewrite while_S, bind_ret.
  - replace (va <? end_va) with false by lia. exists []. split; [|done].
    cbn in Hin. subst rest. unfold image, mret, M_ret. cbn [seq fmap list_fmap flat_map write]. rewrite !Z.add_0_r.
    f_equal. unfold ports_moved, log, linput. rewrite app_nil_r. by destruct s as [[? ?] ?].
  - replace (va <? end_va) with true by lia. rewrite seq_shift_map, <- app_assoc in Hin.
    destruct (readsect_run va k _ s ltac:(lia) Hin) as (g1 & E1 & Hg1); [intros a Ha; apply Hm; lia|].
    erewrite bind_eq by (rewrite (bind_eq _ _ _ _ _ E1); reflexivity).
    change (va + SECTSIZE) with (va + 512). rewrite (u32_small (va + 512)), (u32_small (k + 1)) by lia.
    set (s1 := set_l_mem _ _).
    destruct (IH fuel (va + 512) end_va (k + 1) rest s1) as (g2 & E2 & Hg2); [lia..| |reflexivity|].
    { unfold s1. cbn. apply mapped_write. intros a Ha. apply Hm. lia. }
    exists (g1 ++ g2). split.
    + rewrite E2. unfold s1. cbn [l_mem set_l_mem]. unfold image. rewrite seq_shift_map, write_app, sector_bytes_length.
      f_equal; [f_equal; lia|]. unfold ports_moved, log. cbn. by rewrite app_assoc.
    + intros r. rewrite disk_run_app. cbn [snd]. rewrite Hg1, Hg2. cbn [seq fmap list_fmap]. rewrite Z.add_0_r.
      cbn [app]. f_equal. rewrite <- seq_shift, <- list_fmap_compose. apply list_fmap_ext. intros i x Hx. cbn. lia.
Qed.

(** Clearing from [e] up to [memsz]. *)
Lemma clear_run n : forall fuel e memsz s,
  (n < fuel)%nat -> memsz = e + Z.of_nat n -> 0 <= e -> memsz < 2 ^ 32 -> mapped (l_mem s) e (Z.of_nat n) ->
  while fuel (fun e => mret (e <? memsz)) (fun e => in_ram (store8 e 0);; mret (u32 (e + 1))) e s =
  Ret memsz (set_l_mem (write (l_mem s) e (replicate n 0)) s).
Proof.
  induction n as [|n IH]; intros fuel e memsz s Hf He H0 Hb Hm; (destruct fuel as [|fuel]; [lia|]); rewrite while_S, bind_ret.
  - replace (e <? memsz) with false by lia. cbn. unfold mret, M_ret. replace e with memsz by lia. by destruct s.
  - replace (e <? memsz) with true by lia.
    assert (E : in_ram (store8 e 0) s = Ret tt (set_l_mem (<[e := 0]> (l_mem s)) s)).
    { unfold in_ram, zoom. rewrite (proj1 (wp_eq (store8 e 0) tt (l_mem s) (<[e := 0]> (l_mem s)))); [done|].
      apply wp_store8; [apply Hm; lia|done]. }
    erewrite bind_eq by (rewrite (bind_eq _ _ _ _ _ E); reflexivity). rewrite u32_small by lia.
    rewrite (IH fuel (e + 1) memsz); [done|lia|lia|lia|lia|].
    cbn. apply mapped_insert. intros a Ha. apply Hm. lia.
Qed.

(** The byte of the kernel image at [j]: the image begins at sector 1. *)
Definition image_byte (j : Z) : option Z := sector_bytes (j / 512 + 1) !! Z.to_nat (j mod 512).

Lemma image_lookup n : forall k i, 0 <= k -> (i < 512 * n)%nat ->
  image k n !! i = sector_bytes (k + Z.of_nat (i / 512)) !! (i mod 512)%nat.
Proof.
  induction n as [|n IH]; intros k i Hk Hi; [lia|]. unfold image. rewrite seq_shift_map. fold (image (k + 1) n).
  destruct (decide (i < 512)%nat).
  - rewrite lookup_app_l by (by rewrite sector_bytes_length). rewrite Nat.div_small, Nat.mod_small by done. by rewrite Z.add_0_r.
  - rewrite lookup_app_r by (rewrite sector_bytes_length; lia). rewrite sector_bytes_length, IH by lia.
    assert (i = (1 * 512 + (i - 512))%nat) as E by lia. rewrite E at 3 4.
    rewrite Nat.div_add_l, (Nat.add_comm (1 * 512)), Nat.Div0.mod_add by lia. do 2 f_equal. lia.
Qed.

Lemma image_length k n : length (image k n) = (512 * n)%nat.
Proof.
  revert k. induction n as [|n IH]; intros k; [done|]. unfold image. rewrite seq_shift_map, length_app, sector_bytes_length.
  fold (image (k + 1) n). rewrite IH. lia.
Qed.

Lemma write_lookup m p l i : (i < length l)%nat -> write m p l !! (p + Z.of_nat i) = l !! i.
Proof.
  intros Hi. destruct (lookup_lt_is_Some_2 l i Hi) as [c Hc]. rewrite Hc. by apply write_array.
Qed.

(** ** Loading a segment *)

(** Where [readseg] puts a segment, the sectors it reads, and the memory it leaves. *)
Definition seg_va (p : Proghdr) : Z := p_va p mod 2 ^ 24.
Definition seg_start (p : Proghdr) : Z := seg_va p / 512 * 512.
Definition seg_count (p : Proghdr) : nat := Z.to_nat ((seg_va p + p_filesz p - seg_start p + 511) / 512).
Definition seg_sectors (p : Proghdr) : list Z :=
  (fun i => p_offset p / 512 + 1 + Z.of_nat i) <$> seq 0 (seg_count p).
Definition seg_mem (m : mem) (p : Proghdr) : mem :=
  write (write m (seg_start p) (image (p_offset p / 512 + 1) (seg_count p)))
    (seg_va p + p_filesz p) (replicate (Z.to_nat (p_memsz p - p_filesz p)) 0).

(** The addresses [readseg] may write. *)
Definition region (p : Proghdr) (a : Z) : Prop :=
  seg_start p <= a < seg_start p + 512 * Z.of_nat (seg_count p) \/
  seg_va p + p_filesz p <= a < seg_va p + p_memsz p.

(** The segment is in memory: its bytes of the image, then zeros. *)
Definition loaded (p : Proghdr) (m : mem) : Prop :=
  (forall i, 0 <= i < p_filesz p -> m !! (seg_va p + i) = image_byte (p_offset p + i)) /\
  (forall i, p_filesz p <= i < p_memsz p -> m !! (seg_va p + i) = Some 0).

(** What a segment must satisfy to be loaded: its sizes, an address that agrees
    with its offset within a sector, and memory where it goes. *)
Record seg_ok (m : mem) (p : Proghdr) : Prop := SegOk {
  so_offset : 0 <= p_offset p < 2 ^ 32;
  so_filesz : 0 <= p_filesz p;
  so_memsz : 0 <= p_memsz p;
  so_aligned : seg_va p mod 512 = p_offset p mod 512;
  so_file_end : seg_va p + p_filesz p < 2 ^ 31;
  so_mem_end : seg_va p + p_memsz p < 2 ^ 31;
  so_mapped : forall a, region p a -> is_Some (m !! a);
}.

Lemma seg_bounds m p : seg_ok m p ->
  0 <= seg_va p < 2 ^ 24 /\ 0 <= seg_start p <= seg_va p /\ seg_va p - seg_start p = p_offset p mod 512 /\
  Z.of_nat (seg_count p) = (seg_va p + p_filesz p - seg_start p + 511) / 512 /\
  seg_va p + p_filesz p <= seg_start p + 512 * Z.of_nat (seg_count p) /\
  (seg_count p <> 0%nat -> seg_start p + 512 * Z.of_nat (seg_count p) - 512 < seg_va p + p_filesz p).
Proof.
  intros [Ho Hf Hm Hal H1 H2 _].
  assert (Hva : 0 <= seg_va p < 2 ^ 24) by (apply Z.mod_pos_bound; lia).
  assert (Hs : 0 <= seg_start p <= seg_va p /\ seg_va p - seg_start p = p_offset p mod 512)
    by (rewrite <- Hal; unfold seg_start; Z.div_mod_to_equations; lia).
  assert (Hn : Z.of_nat (seg_count p) = (seg_va p + p_filesz p - seg_start p + 511) / 512)
    by (unfold seg_count; rewrite Z2Nat.id; [done|apply Z.div_pos; lia]).
  split_and!; try tauto; intros; Z.div_mod_to_equations; lia.
Qed.

Lemma seg_ok_mono m m' p : (forall a, is_Some (m !! a) -> is_Some (m' !! a)) -> seg_ok m p -> seg_ok m' p.
Proof. intros H [? ? ? ? ? ? Hm]. split; try done. intros a Ha. by apply H, Hm. Qed.

Lemma is_Some_write m p l a : is_Some (m !! a) -> is_Some (write m p l !! a).
Proof.
  intros H. assert (Hm : mapped m a 1) by (intros b Hb; by replace b with a by lia).
  apply (mapped_write m p l) in Hm. apply Hm. lia.
Qed.

Lemma seg_mem_mapped m p a : is_Some (m !! a) -> is_Some (seg_mem m p !! a).
Proof. intros H. by apply is_Some_write, is_Some_write. Qed.

Lemma seg_mem_out m p a : seg_ok m p -> ~ region p a -> seg_mem m p !! a = m !! a.
Proof.
  intros Hok Ha. destruct (seg_bounds m p Hok) as (Hva & Hst & _ & _ & Hend & _). unfold region in Ha.
  unfold seg_mem. rewrite write_out by (rewrite length_replicate; destruct Hok; lia).
  rewrite write_out; [done|]. rewrite image_length. lia.
Qed.

Lemma seg_mem_loaded m p : seg_ok m p -> loaded p (seg_mem m p).
Proof.
  intros Hok. destruct (seg_bounds m p Hok) as (Hva & Hst & Hoff & Hn & Hend & _). pose proof Hok as [Ho Hf Hm Hal H1 H2 _].
  split; intros i Hi; unfold seg_mem.
  - rewrite write_out by lia. replace (seg_va p + i) with (seg_start p + Z.of_nat (Z.to_nat (seg_va p - seg_start p + i))) by lia.
    rewrite write_lookup, image_lookup by (rewrite ?image_length; Z.div_mod_to_equations; lia).
    unfold image_byte. rewrite Hoff. set (d := p_offset p mod 512) in *.
    assert (Hq : (p_offset p + i) / 512 = p_offset p / 512 + (d + i) / 512 /\ (p_offset p + i) mod 512 = (d + i) mod 512)
      by (unfold d; Z.div_mod_to_equations; lia).
    destruct Hq as [-> ->]. rewrite Nat2Z.inj_div, Z2Nat.id by (unfold d; Z.div_mod_to_equations; lia). change (Z.of_nat 512) with 512.
    replace (Z.to_nat (d + i) mod 512)%nat with (Z.to_nat ((d + i) mod 512)).
    + f_equal. f_equal. lia.
    + rewrite Z2Nat.inj_mod by (unfold d; Z.div_mod_to_equations; lia). done.
  - replace (seg_va p + i) with (seg_va p + p_filesz p + Z.of_nat (Z.to_nat (i - p_filesz p))) by lia.
    rewrite write_lookup by (rewrite length_replicate; lia). apply lookup_replicate_2. lia.
Qed.

Lemma readseg_run p rest s :
  seg_ok (l_mem s) p -> linput s = flat_map sector_script (seg_sectors p) ++ rest ->
  exists g, readseg (p_va p) (p_filesz p) (p_memsz p) (p_offset p) s =
      Ret tt (set_l_mem (seg_mem (l_mem s) p) (ports_moved rest g s)) /\
    forall r, (disk_run r g).2 = seg_sectors p.
Proof.
  intros Hok Hin. destruct (seg_bounds _ p Hok) as (Hva & Hst & _ & Hn & Hend & Hlast). pose proof Hok as [Ho Hf Hm Hal H1 H2 Hmap].
  unfold readseg. change 0xFFFFFF with (Z.ones 24). rewrite Z.land_ones by lia. fold (seg_va p).
  change (SECTSIZE - 1) with (Z.ones 9). rewrite <- Z.ldiff_land, ldiff_ones_div by lia.
  change (2 ^ 9) with 512. fold (seg_start p). change SECTSIZE with 512 at 1 2 3.
  rewrite (u32_small (seg_va p + p_filesz p)), (u32_small (p_memsz p + seg_va p)), (u32_small (p_offset p / 512 + 1))
    by (Z.div_mod_to_equations; lia).
  destruct (sectors_run (seg_count p) (S (Z.to_nat ((seg_va p + p_filesz p) / 512 + 1))) (seg_start p) (seg_va p + p_filesz p)
    (p_offset p / 512 + 1) rest s) as (g & E & Hg);
    [Z.div_mod_to_equations; lia|lia|lia|lia|lia|Z.div_mod_to_equations; lia|Z.div_mod_to_equations; lia| |exact Hin|].
  { intros a Ha. apply Hmap. left. lia. }
  rewrite (bind_eq _ _ _ _ _ E). unfold seg_mem. set (m1 := write (l_mem s) _ _). set (s1 := set_l_mem m1 _).
  set (c := Z.to_nat (p_memsz p - p_filesz p)). set (e := seg_va p + p_filesz p) in *.
  assert (Ec : while (S (Z.to_nat (p_memsz p + seg_va p - e))) (fun e => mret (e <? p_memsz p + seg_va p))
      (fun e => in_ram (store8 e 0);; mret (u32 (e + 1))) e s1 =
      Ret (Z.max e (p_memsz p + seg_va p)) (set_l_mem (write m1 e (replicate c 0)) s1)).
  { destruct (decide (p_filesz p <= p_memsz p)).
    - rewrite (clear_run c) by (lia || (unfold s1, m1; cbn; apply mapped_write; intros a Ha; apply Hmap; right; lia)).
      f_equal. lia.
    - rewrite while_S, bind_ret. replace (e <? p_memsz p + seg_va p) with false by lia.
      replace c with 0%nat by lia. unfold mret, M_ret. cbn [write replicate]. unfold s1. cbn. f_equal. lia. }
  rewrite (bind_eq _ _ _ _ _ Ec). exists g. split; [reflexivity|]. exact Hg.
Qed.

(** [readseg] loads a segment of the kernel image to its address, clears the
    memory behind its bytes up to its size in memory, and asks the disk for exactly
    the sectors that hold them, in order, each once.  Only the rest of the first and
    of the last sector is overwritten besides. *)
Theorem readseg_correct p rest s :
  seg_ok (l_mem s) p -> linput s = flat_map sector_script (seg_sectors p) ++ rest ->
  exists t, readseg (p_va p) (p_filesz p) (p_memsz p) (p_offset p) s = Ret tt t /\
    loaded p (l_mem t) /\ (forall a, ~ region p a -> l_mem t !! a = l_mem s !! a) /\
    linput t = rest /\ exists g, log t = log s ++ g /\ forall r, (disk_run r g).2 = seg_sectors p.
Proof.
  intros Hok Hin. destruct (readseg_run p rest s Hok Hin) as (g & E & Hg). eexists. split; [exact E|].
  split; [by apply seg_mem_loaded|]. split; [intros a Ha; by apply seg_mem_out|]. split; [done|]. by exists g.
Qed.
End disk.

Lemma write_mapped m p l : mapped (write m p l) p (Z.of_nat (length l)).
Proof.
  intros a Ha. replace a with (p + Z.of_nat (Z.to_nat (a - p))) by lia. rewrite write_lookup by lia.
  apply lookup_lt_is_Some_2. lia.
Qed.

Module Example.
(** Three sectors from sector 1 on, busy once before each command. *)
Definition disk (k : Z) : list Z := replicate 128 (0x01010101 * k).
Definition disk_of (k : Z) : list Z := if bool_decide (0 <= k < 256) then disk k else disk 0.
Definition polls1 (_ : Z) : list Z := [0x80].
Definition polls2 (_ : Z) : list Z := [].
Definition start : loader :=
  MkLoader (Io (sector_script disk_of polls1 polls2 1 ++ sector_script disk_of polls1 polls2 2 ++ [7]) [])
    (write ∅ 0x100000 (replicate 2048 5)).

Lemma ok : disk_ok disk_of polls1 polls2.
Proof.
  assert (H : forall k, disk_of k = replicate 128 (0x01010101 * k) /\ 0 <= k < 256 \/ disk_of k = replicate 128 0).
  { intros k. unfold disk_of, disk. case_bool_decide; [by left | by right]. }
  split; intros k; try by repeat constructor.
  - by destruct (H k) as [[-> _]| ->]; rewrite length_replicate.
  - destruct (H k) as [[-> Hk]| ->]; apply Forall_replicate; lia.
Qed.

Definition segment : Proghdr := MkProghdr 0x10 0xF0100010 600 700.

Lemma segment_ok : seg_ok (l_mem start) segment.
Proof.
  split; unfold region; change (seg_start segment) with 0x100000; change (seg_va segment) with 0x100010;
    change (seg_count segment) with 2%nat; cbn [segment p_filesz p_memsz p_offset]; [lia|lia|lia|reflexivity|lia|lia|].
  intros a Ha.
  assert (Hm : mapped (l_mem start) 0x100000 2048) by (unfold start; cbn [l_mem]; apply (write_mapped ∅ 0x100000 (replicate 2048 5))).
  apply Hm. lia.
Qed.

Lemma readseg_correct_witness :
  exists t, readseg 0xF0100010 600 700 0x10 start = Ret tt t /\
    l_mem t !! 0x1001FF = Some 1 /\ l_mem t !! 0x100200 = Some 2 /\ linput t = [7].
Proof.
  destruct (readseg_correct disk_of polls1 polls2 ok segment [7] start) as (t & E & [Hb _] & _ & Hi & _).
  - exact segment_ok.
  - reflexivity.
  - exists t. split; [exact E|]. split; [exact (Hb 495 ltac:(split; reflexivity || discriminate))|]. split; [exact (Hb 496 ltac:(split; reflexivity || discriminate))|exact Hi].
Defined.
End Example.
