(* ===== verification/BootSpec.v ===== *)
(** * BootSpec: what the boot loader does with a kernel image

    The ELF file on the disk as a sequence of bytes, its header and program
    headers read off it, and [bootmain] (boot/main.c) against them. *)

From S2P Require Import Prelude CString Ports Boot.
Open Scope Z_scope.

Section kernel_image.
Context (disk polls1 polls2 : Z -> list Z) (Hdisk : disk_ok disk polls1 polls2).

(** The image as numbers: bytes, and little-endian words. *)
Definition img8 (j : Z) : Z := default 0 (image_byte disk j).
Definition img16 (j : Z) : Z := img8 j + 2 ^ 8 * img8 (j + 1).
Definition img32 (j : Z) : Z := img16 j + 2 ^ 16 * img16 (j + 2).

Definition header_at (o : Z) : Proghdr :=
  MkProghdr (img32 (o + 4)) (img32 (o + 8)) (img32 (o + 16)) (img32 (o + 20)).
Definition headers : list Proghdr :=
  (fun i => header_at (img32 28 + sizeof_Proghdr * Z.of_nat i)) <$> seq 0 (Z.to_nat (img16 44)).

(** The first page of the file, which [bootmain] loads first. *)
Definition first_page : Proghdr := MkProghdr 0 ELFHDR BOOT_PAGESIZE BOOT_PAGESIZE.

Lemma image_byte_some j : 0 <= j -> image_byte disk j = Some (img8 j).
Proof.
  intros Hj. unfold img8. destruct (image_byte disk j) as [c|] eqn:E; [done|]. exfalso. unfold image_byte in E.
  apply lookup_ge_None_1 in E. rewrite (sector_bytes_length disk polls1 polls2 Hdisk) in E. Z.div_mod_to_equations. lia.
Qed.

Definition header_in (m : mem) : Prop := forall j, 0 <= j < 4096 -> m !! (ELFHDR + j) = Some (img8 j).

Lemma wp_ld8 j (Q : Z -> loader -> Prop) s :
  header_in (l_mem s) -> 0 <= j < 4096 -> Q (img8 j) s -> wp (ld8 (ELFHDR + j)) Q s.
Proof.
  intros Hh Hj HQ. unfold ld8, in_ram, zoom, wp, load8, gets, mbind, M_bind, deref, id. rewrite (Hh j Hj).
  unfold mret, M_ret. by destruct s.
Qed.

Lemma wp_ld16 j (Q : Z -> loader -> Prop) s :
  header_in (l_mem s) -> 0 <= j < 4095 -> Q (img16 j) s -> wp (ld16 (ELFHDR + j)) Q s.
Proof.
  intros Hh Hj HQ. unfold ld16. wp_go. apply wp_ld8; [done|lia|]. wp_go.
  replace (ELFHDR + j + 1) with (ELFHDR + (j + 1)) by lia. apply wp_ld8; [done|lia|]. by wp_go.
Qed.

Lemma wp_ld32 j (Q : Z -> loader -> Prop) s :
  header_in (l_mem s) -> 0 <= j < 4093 -> Q (img32 j) s -> wp (ld32 (ELFHDR + j)) Q s.
Proof.
  intros Hh Hj HQ. unfold ld32. wp_go. apply wp_ld16; [done|lia|]. wp_go.
  replace (ELFHDR + j + 2) with (ELFHDR + (j + 2)) by lia. apply wp_ld16; [done|lia|]. by wp_go.
Qed.

Lemma get_ph_run o s : header_in (l_mem s) -> 0 <= o -> o + 32 <= 4096 ->
  get_ph (ELFHDR + o) s = Ret (header_at o) s.
Proof.
  intros Hh Ho Hb. apply wp_eq. unfold get_ph. wp_go.
  replace (ELFHDR + o + 4) with (ELFHDR + (o + 4)) by lia. replace (ELFHDR + o + 8) with (ELFHDR + (o + 8)) by lia.
  replace (ELFHDR + o + 16) with (ELFHDR + (o + 16)) by lia. replace (ELFHDR + o + 20) with (ELFHDR + (o + 20)) by lia.
  do 4 (apply wp_ld32; [done|lia|]; wp_go). done.
Qed.

(** Two segments that do not touch each other, and one that leaves the header page alone. *)
Definition apart (p q : Proghdr) : Prop := forall a, region p a -> region q a -> False.

Lemma loaded_kept m p q : seg_ok m q -> seg_ok m p -> apart p q -> loaded disk p m -> loaded disk p (seg_mem disk m q).
Proof.
  intros Hq Hp Hap [Hd Hz]. pose proof Hp as [? ? ? _ _ _ _].
  destruct (seg_bounds m p Hp) as (? & ? & _ & _ & Hend & _).
  split; intros i Hi; rewrite (seg_mem_out disk polls1 polls2 Hdisk); try done; [by apply Hd| |by apply Hz|];
    intros Hr; apply (Hap (seg_va p + i)); [left; lia|done|right; lia|done].
Qed.

Lemma header_kept m q : seg_ok m q -> apart first_page q -> header_in m -> header_in (seg_mem disk m q).
Proof.
  intros Hq Hap Hh j Hj. rewrite (seg_mem_out disk polls1 polls2 Hdisk); [by apply Hh|done|].
  intros Hr. apply (Hap (ELFHDR + j)); [left|done].
  change (seg_start first_page) with 0x10000. change (seg_count first_page) with 8%nat. unfold ELFHDR. lia.
Qed.

(** The loop over the program headers. *)
Lemma segments_run os : forall rest s,
  header_in (l_mem s) -> Forall (fun o => 0 <= o /\ o + 32 <= 4096) os ->
  Forall (seg_ok (l_mem s)) (header_at <$> os) -> Forall (apart first_page) (header_at <$> os) ->
  ForallOrdPairs apart (header_at <$> os) ->
  linput s = flat_map (sector_script disk polls1 polls2) (flat_map seg_sectors (header_at <$> os)) ++ rest ->
  exists g m, for_each load_segment ((fun o => ELFHDR + o) <$> os) s = Ret tt (set_l_mem m (ports_moved rest g s)) /\
    header_in m /\ (forall a, is_Some (l_mem s !! a) -> is_Some (m !! a)) /\
    (forall p, Forall (fun q => apart p q) (header_at <$> os) -> seg_ok (l_mem s) p -> loaded disk p (l_mem s) -> loaded disk p m) /\
    Forall (fun p => loaded disk p m) (header_at <$> os) /\
    forall r, (disk_run r g).2 = flat_map seg_sectors (header_at <$> os).
Proof.
  induction os as [|o os IH]; intros rest s Hh Ho Hok Hap Hord Hin.
  { exists [], (l_mem s). split_and!; try done.
    - cbn in Hin. subst rest. destruct s as [[? ?] ?]. cbn. unfold ports_moved, log, linput. cbn. by rewrite app_nil_r.
  }
  cbn [fmap list_fmap for_each flat_map] in *. apply Forall_cons in Ho as [[Ho1 Ho2] Ho]. apply Forall_cons in Hok as [Hok1 Hok].
  apply Forall_cons in Hap as [Hap1 Hap]. inversion Hord as [|? ? Hfst Hord']; subst. clear Hord.
  rewrite flat_map_app, <- app_assoc in Hin. set (p := header_at o) in *.
  destruct (readseg_run disk polls1 polls2 Hdisk p _ s Hok1 Hin) as (g1 & E1 & Hg1). set (s1 := set_l_mem _ _) in E1.
  assert (Hmono : forall a, is_Some (l_mem s !! a) -> is_Some (l_mem s1 !! a)) by (intros a; apply seg_mem_mapped).
  destruct (IH rest s1) as (g2 & m & E2 & Hh2 & Hm2 & Hkeep & Hl2 & Hg2); try done.
  { by apply header_kept. }
  { eapply Forall_impl; [exact Hok|]. intros q. by apply seg_ok_mono. }
  exists (g1 ++ g2), m. split_and!.
  - rewrite (bind_eq _ _ s tt s1).
    + rewrite E2. unfold s1. cbn. unfold ports_moved, log. cbn. by rewrite app_assoc.
    + unfold load_segment. by rewrite (bind_eq _ _ _ _ _ (get_ph_run o s Hh Ho1 Ho2)).
  - done.
  - auto.
  - intros q Hq Hqok Hql. apply Forall_cons in Hq as [Hq1 Hq]. apply Hkeep; [done|by eapply seg_ok_mono|].
    by apply loaded_kept.
  - constructor; [|done]. apply Hkeep; [done|by eapply seg_ok_mono|]. by apply (seg_mem_loaded disk polls1 polls2 Hdisk).
  - intros r. rewrite disk_run_app. cbn [snd]. by rewrite Hg1, Hg2.
Qed.

(** A kernel image that the loader can load from memory [m]. *)
Record bootable (m : mem) : Prop := Bootable {
  bt_first_page : seg_ok m first_page;
  bt_headers_in_page : img32 28 + sizeof_Proghdr * img16 44 <= BOOT_PAGESIZE;
  bt_segments : Forall (seg_ok m) headers;
  bt_header_kept : Forall (apart first_page) headers;
  bt_apart : ForallOrdPairs apart headers;
}.

Lemma img8_range j : 0 <= j -> 0 <= img8 j < 256.
Proof.
  intros Hj. pose proof (image_byte_some j Hj) as E. unfold image_byte in E. apply list_elem_of_lookup_2 in E.
  unfold sector_bytes in E. apply list_elem_of_In, in_flat_map in E as (w & _ & Hw).
  unfold word_bytes in Hw. cbn in Hw. destruct Hw as [<-|[<-|[<-|[<-|[]]]]]; apply u8_range.
Qed.

Lemma img16_range j : 0 <= j -> 0 <= img16 j < 2 ^ 16.
Proof. intros Hj. unfold img16. pose proof (img8_range j). pose proof (img8_range (j + 1)). lia. Qed.
Lemma img32_range j : 0 <= j -> 0 <= img32 j < 2 ^ 32.
Proof. intros Hj. unfold img32. pose proof (img16_range j). pose proof (img16_range (j + 2)). lia. Qed.

(** After the first page. *)
Lemma first_page_run rest s :
  seg_ok (l_mem s) first_page -> linput s = flat_map (sector_script disk polls1 polls2) (seg_sectors first_page) ++ rest ->
  exists g, readseg ELFHDR BOOT_PAGESIZE BOOT_PAGESIZE 0 s =
      Ret tt (set_l_mem (seg_mem disk (l_mem s) first_page) (ports_moved rest g s)) /\
    header_in (seg_mem disk (l_mem s) first_page) /\ forall r, (disk_run r g).2 = seg_sectors first_page.
Proof.
  intros Hok Hin. destruct (readseg_run disk polls1 polls2 Hdisk first_page rest s Hok Hin) as (g & E & Hg).
  exists g. split; [exact E|]. split; [|done]. intros j Hj.
  destruct (seg_mem_loaded disk polls1 polls2 Hdisk _ _ Hok) as [Hd _]. rewrite <- image_byte_some by lia. by apply Hd.
Qed.

Lemma bootmain_run rest s :
  bootable (l_mem s) -> img32 0 = ELF_MAGIC ->
  linput s = flat_map (sector_script disk polls1 polls2) (flat_map seg_sectors (first_page :: headers)) ++ rest ->
  exists t, bootmain s = Ret (Some (img32 24 mod 2 ^ 24)) t /\
    Forall (fun p => loaded disk p (l_mem t)) headers /\ (forall a, is_Some (l_mem s !! a) -> is_Some (l_mem t !! a)) /\
    linput t = rest /\
    exists g, log t = log s ++ g /\ forall r, (disk_run r g).2 = flat_map seg_sectors (first_page :: headers).
Proof.
  intros [Hfp Hpage Hsegs Hhdr Hap] Hmagic Hin. cbn [flat_map] in Hin. rewrite flat_map_app, <- app_assoc in Hin.
  pose proof (img32_range 28 ltac:(lia)) as H28. pose proof (img16_range 44 ltac:(lia)) as H44.
  set (os := (fun i => img32 28 + sizeof_Proghdr * Z.of_nat i) <$> seq 0 (Z.to_nat (img16 44))).
  assert (Hos : headers = header_at <$> os) by (unfold headers, os; by rewrite <- list_fmap_compose).
  unfold sizeof_Proghdr, BOOT_PAGESIZE in *.
  assert (Hbound : Forall (fun o => 0 <= o /\ o + 32 <= 4096) os).
  { apply Forall_fmap, Forall_forall. intros i Hi%elem_of_seq. cbn. lia. }
  rewrite Hos in *.
  destruct (first_page_run _ s Hfp Hin) as (g1 & E1 & Hh & Hg1). set (s1 := set_l_mem _ _) in E1.
  destruct (segments_run os rest s1) as (g2 & m & E2 & Hh2 & Hm2 & _ & Hl & Hg2); try done.
  { eapply Forall_impl; [exact Hsegs|]. intros q. apply seg_ok_mono. intros a. apply seg_mem_mapped. }
  assert (E3 : (fun i => ELFHDR + img32 28 + 32 * Z.of_nat i) <$> seq 0 (Z.to_nat (img16 44)) = (fun o => ELFHDR + o) <$> os).
  { unfold os. rewrite <- list_fmap_compose. apply list_fmap_ext. intros. cbn. lia. }
  set (t := set_l_mem m (ports_moved rest g2 s1)) in *.
  exists t. split_and!; [|done| |done|].
  + apply wp_eq. unfold bootmain. wp_step. apply (proj2 (wp_iff _ _ _)). exists tt, s1. split; [exact E1|]. wp_go.
    unfold e_magic. replace ELFHDR with (ELFHDR + 0) at 1 by lia. apply wp_ld32; [done|lia|]. rewrite Hmagic. cbn [negb Z.eqb]. 
    change (ELF_MAGIC =? ELF_MAGIC) with true. cbn [negb]. wp_go. unfold e_phoff. apply wp_ld32; [done|lia|]. wp_go.
    unfold e_phnum. apply wp_ld16; [done|lia|]. wp_go. apply (proj2 (wp_iff _ _ _)). exists tt, t.
    split; [unfold sizeof_Proghdr; by rewrite E3|]. wp_go. unfold e_entry. apply wp_ld32; [done|lia|]. wp_go.
    change 0xFFFFFF with (Z.ones 24). by rewrite Z.land_ones by lia.
  + intros a Ha. by apply Hm2, seg_mem_mapped.
  + exists (g1 ++ g2). split; [unfold t, s1, log; cbn; by rewrite app_assoc|]. intros r. rewrite disk_run_app. cbn [snd flat_map].
    by rewrite Hg1, Hg2.
Qed.

(** C16: [bootmain] loads every segment of the kernel and goes to its entry point; it
    asks the disk for the first page and then for the sectors of each segment, in
    the order of the program headers.  An image without the ELF magic number is
    not loaded: the loader reports to port 0x8A00 and gives up. *)
Theorem bootmain_correct rest s :
  (bootable (l_mem s) -> img32 0 = ELF_MAGIC ->
   linput s = flat_map (sector_script disk polls1 polls2) (flat_map seg_sectors (first_page :: headers)) ++ rest ->
   exists t, bootmain s = Ret (Some (img32 24 mod 2 ^ 24)) t /\
     Forall (fun p => loaded disk p (l_mem t)) headers /\ linput t = rest /\
     exists g, log t = log s ++ g /\ forall r, (disk_run r g).2 = flat_map seg_sectors (first_page :: headers)) /\
  (seg_ok (l_mem s) first_page -> img32 0 <> ELF_MAGIC ->
   linput s = flat_map (sector_script disk polls1 polls2) (seg_sectors first_page) ++ rest ->
   exists t g, bootmain s = Ret None t /\ linput t = rest /\
     log t = log s ++ g ++ [Out 16 0x8A00 0x8A00; Out 16 0x8A00 0x8E00] /\
     forall r, (disk_run r g).2 = seg_sectors first_page).
Proof.
  split.
  - intros Hb Hmagic Hin. destruct (bootmain_run rest s Hb Hmagic Hin) as (t & E & Hl & _ & Hr & Hg). by exists t.
  - intros Hfp Hmagic Hin. destruct (first_page_run _ s Hfp Hin) as (g1 & E1 & Hh & Hg1). set (s1 := set_l_mem _ _) in E1.
    assert (E2 : e_magic s1 = Ret (img32 0) s1).
    { apply wp_eq. unfold e_magic. replace ELFHDR with (ELFHDR + 0) by lia. by apply wp_ld32; [|lia|]. }
    eexists _, g1. unfold bootmain. rewrite (bind_eq _ _ _ _ _ E1), (bind_eq _ _ _ _ _ E2).
    apply Z.eqb_neq in Hmagic as ->. cbn [negb]. unfold outw. rewrite (bind_eq _ _ _ _ _ (out_run _ _ _ _)).
    rewrite (bind_eq _ _ _ _ _ (out_run _ _ _ _)). split_and!; [reflexivity|done| |done].
    unfold s1, log. cbn. by rewrite <- !app_assoc.
Qed.
End kernel_image.

(** A kernel with one segment of 8 bytes and 4 more to clear, at 0x100000; its
    code is in sector 9. *)
Module SmallKernel.
Definition elf_words : list Z :=
  [ELF_MAGIC; 0; 0; 0; 0; 0; 0xF010000C; 52; 0; 0; 0; 1; 0;
   1; 0x1000; 0xF0100000; 0x100000; 8; 12; 5; 0x1000] ++ replicate 107 0.
Definition code_words : list Z := [0x11223344; 0x55667788] ++ replicate 126 0xFFFFFFFF.
Definition disk (k : Z) : list Z :=
  if k =? 1 then elf_words else if k =? 9 then code_words else replicate 128 0.
Definition polls (_ : Z) : list Z := [].

Lemma small_ok : disk_ok disk polls polls.
Proof.
  assert (H : forall k, disk k = elf_words \/ disk k = code_words \/ disk k = replicate 128 0).
  { intros k. unfold disk. destruct (k =? 1); [by left|]. destruct (k =? 9); [right; by left|right; by right]. }
  split; intros k; try constructor; destruct (H k) as [-> | [-> | ->]]; try reflexivity;
    apply (bool_decide_unpack _); vm_compute; exact I.
Qed.

Definition memory : mem := write (write ∅ 0x10000 (replicate 4096 9)) 0x100000 (replicate 512 9).
Definition start : loader :=
  MkLoader (Io (flat_map (sector_script disk polls polls) [1; 2; 3; 4; 5; 6; 7; 8; 9] ++ [7]) []) memory.

Definition code : Proghdr := MkProghdr 0x1000 0xF0100000 8 12.

Lemma headers_code : headers disk = [code].
Proof. reflexivity. Qed.

Lemma region_page a : region first_page a -> 0x10000 <= a < 0x11000.
Proof.
  unfold region. change (seg_start first_page) with 0x10000. change (seg_va first_page) with 0x10000.
  change (seg_count first_page) with 8%nat. cbn [first_page p_filesz p_memsz]. unfold BOOT_PAGESIZE. lia.
Qed.
Lemma region_code a : region code a -> 0x100000 <= a < 0x100200.
Proof.
  unfold region. change (seg_start code) with 0x100000. change (seg_va code) with 0x100000.
  change (seg_count code) with 1%nat. cbn [code p_filesz p_memsz]. lia.
Qed.

Lemma bootable_ex : bootable disk memory.
Proof.
  split.
  - split; try (change (seg_va first_page) with 0x10000; cbn [first_page p_offset p_filesz p_memsz]; unfold BOOT_PAGESIZE; lia || reflexivity).
    intros a Ha%region_page. apply is_Some_write. apply (write_mapped ∅ 0x10000 (replicate 4096 9)). rewrite length_replicate. lia.
  - vm_compute. discriminate.
  - rewrite headers_code. constructor; [|constructor].
    split; try (change (seg_va code) with 0x100000; cbn [code p_offset p_filesz p_memsz]; lia || reflexivity).
    intros a Ha%region_code. unfold memory. apply (write_mapped _ 0x100000 (replicate 512 9)). rewrite length_replicate. lia.
  - rewrite headers_code. constructor; [|constructor]. intros a H1%region_page H2%region_code. lia.
  - rewrite headers_code. constructor; constructor.
Qed.

Lemma bootmain_correct_witness :
  exists t, bootmain start = Ret (Some 0x10000C) t /\
    l_mem t !! 0x100005 = Some 0x77 /\ l_mem t !! 0x100009 = Some 0 /\ linput t = [7].
Proof.
  destruct (bootmain_correct disk polls polls small_ok [7] start) as [H _].
  destruct H as (t & E & Hl & Hi & _); [exact bootable_ex|reflexivity|reflexivity|].
  exists t. rewrite headers_code in Hl. apply Forall_cons in Hl as [[Hd Hz] _].
  split; [exact E|]. split; [exact (Hd 5 ltac:(split; reflexivity || discriminate))|].
  split; [exact (Hz 9 ltac:(split; reflexivity || discriminate))|exact Hi].
Defined.
End SmallKernel.
