(* ===== verification/BootChain.v ===== *)
(** * BootChain: from the BIOS to the kernel

    boot/boot.S, boot/main.c and kern/entry.S one after the other on one machine: the
    memory and the ports go from each to the next.  The processor model of
    StartAsm.v has no C code, so what the compiled loader leaves in the registers
    and on its stack is a parameter. *)

From S2P Require Import Prelude Layout CString Ports Segment Structs StartAsm Boot BootSpec.
Open Scope Z_scope.

(** ** The chain *)

(** The C code of the loader on the memory and the ports of the processor. *)
Definition in_loader {A} (m : M loader A) : M cpu A :=
  zoom (fun c => MkLoader (c_ports c) (c_ram c)) (fun s c => set_ports (l_io s) (set_c_ram (l_mem s) c)) m.

Section power_on.
Context (sector_addr kernel_addr : nat -> Z) (start gdtdesc mygdtdesc bootstacktop : Z) (compiled : cpu -> cpu).

(** [bootmain] calls the entry point, which has to be [_start]; when it returns
    instead, behind [bad], boot.S spins. *)
Definition power_on (fuel : nat) : M cpu string :=
  f ← run sector_addr (boot_S start gdtdesc) fuel;
  if negb (String.eqb f "bootmain") then fault
  else
    o ← in_loader bootmain;
    match o with
    | None => spin
    | Some entry =>
        if entry =? RELOC (kernel_addr 0) then
          modify (fun c => set_ip 0 (compiled c));;
          run kernel_addr (entry_S mygdtdesc bootstacktop) fuel
        else fault
    end.
End power_on.

(** ** What it does *)

Lemma is_Some_accessed g m a : is_Some (m !! a) -> is_Some (accessed g m !! a).
Proof.
  intros H. assert (Hm : mapped m a 1) by (intros b Hb; by replace b with a by lia).
  apply (mapped_accessed g) in Hm. apply Hm. lia.
Qed.

Section chain.
Context (disk polls1 polls2 : Z -> list Z) (Hdisk : disk_ok disk polls1 polls2).
Context (sector_addr kernel_addr : nat -> Z) (start gdt gdtdesc mygdt mygdtdesc bootstacktop : Z).
Context (stack_end : Z) (compiled : cpu -> cpu).

(** The C code of the loader changes general registers, flags and its stack. *)
Record compiled_ok : Prop := CompiledOk {
  co_cr0 : forall c, c_cr0 (compiled c) = c_cr0 c;
  co_if : forall c, c_if (compiled c) = c_if c;
  co_seg : forall c, c_seg (compiled c) = c_seg c;
  co_ports : forall c, c_ports (compiled c) = c_ports c;
  co_ram : forall c a, ~ stack_end <= a < start -> c_ram (compiled c) !! a = c_ram c !! a;
  co_mapped : forall c a, is_Some (c_ram c !! a) -> is_Some (c_ram (compiled c) !! a)
}.

(** Bytes that the kernel file says are at [a]. *)
Definition in_kernel (a : Z) (l : list Z) : Prop :=
  exists p, p ∈ headers disk /\ seg_va p <= a /\ a + Z.of_nat (length l) <= seg_va p + p_filesz p /\
    forall i x, l !! i = Some x -> image_byte disk (p_offset p + (a - seg_va p + Z.of_nat i)) = Some x.

(** The machine when the BIOS is done, and the kernel on its disk. *)
Record startable (c : cpu) : Prop := Startable {
  su_bios : bios sector_addr start gdt gdtdesc c;
  su_bootable : bootable disk (c_ram c);
  su_magic : img32 disk 0 = ELF_MAGIC;
  su_entry : img32 disk 24 mod 2 ^ 24 = RELOC (kernel_addr 0);
  su_addr : forall n, 0 <= kernel_addr n < 2 ^ 32;
  su_stack_apart : Forall (fun p => forall a, region p a -> ~ stack_end <= a < start) (headers disk);
  su_bda : mapped (c_ram c) 0x472 2;
  su_mygdt : KERNBASE + 0x474 <= mygdt < 2 ^ 32 - 24 /\ in_kernel (mygdt - KERNBASE) mygdt_bytes;
  su_gdtdesc : KERNBASE + 0x474 <= mygdtdesc < 2 ^ 32 - 6 /\ in_kernel (mygdtdesc - KERNBASE) (mygdtdesc_bytes mygdt);
  su_stack : KERNBASE + 0x478 <= bootstacktop < 2 ^ 32 /\ mapped (c_ram c) (bootstacktop - KERNBASE - 4) 4
}.

Lemma bootable_mono m m' : (forall a, is_Some (m !! a) -> is_Some (m' !! a)) -> bootable disk m -> bootable disk m'.
Proof.
  intros H [H1 H2 H3 H4 H5]. split; [by apply (seg_ok_mono m)|done| |done|done].
  eapply Forall_impl; [exact H3|]. intros p. by apply seg_ok_mono.
Qed.

Lemma in_kernel_array m a l : Forall (fun p => loaded disk p m) (headers disk) -> in_kernel a l -> array m a l.
Proof.
  rewrite Forall_forall. intros Hl (p & Hp & Hlo & Hhi & Hb) i x Hx. destruct (Hl p Hp) as [Hd _].
  apply lookup_lt_Some in Hx as Hi. specialize (Hb i x Hx).
  replace (a + Z.of_nat i) with (seg_va p + (a - seg_va p + Z.of_nat i)) by lia. rewrite Hd by lia. exact Hb.
Qed.

Lemma loaded_compiled c p :
  compiled_ok -> seg_ok (c_ram c) p -> (forall a, region p a -> ~ stack_end <= a < start) ->
  loaded disk p (c_ram c) -> loaded disk p (c_ram (compiled c)).
Proof.
  intros Hco Hok Hap [Hd Hz]. pose proof Hok as [? ? ? _ _ _ _].
  destruct (seg_bounds _ p Hok) as (? & ? & _ & _ & Hend & _).
  split; intros i Hi; rewrite (co_ram Hco); (by apply Hd || by apply Hz || (apply Hap; unfold region; lia)).
Qed.

(** The machine the loader hands over to entry.S. *)
Lemma handed_over c c1 t :
  compiled_ok -> startable c ->
  (forall r, c_seg c1 r = protected_segs r) -> Z.testbit (c_cr0 c1) 0 = true ->
  (forall a, is_Some (c_ram c !! a) -> is_Some (l_mem t !! a)) -> Forall (fun p => loaded disk p (l_mem t)) (headers disk) ->
  let c2 := compiled (set_ports (l_io t) (set_c_ram (l_mem t) c1)) in
  kernel_loaded kernel_addr mygdt mygdtdesc bootstacktop (set_ip 0 c2) /\ Forall (fun p => loaded disk p (c_ram c2)) (headers disk).
Proof.
  intros Hco Hs Hseg Hpe Hmap Hl c2. pose proof Hs as [_ Hb _ _ Haddr Hap Hbda [Hg1 Hg2] [Hd1 Hd2] [Ht1 Ht2]].
  assert (Hmap2 : forall a, is_Some (c_ram c !! a) -> is_Some (c_ram c2 !! a)) by (intros a Ha; apply (co_mapped Hco); by apply Hmap).
  assert (Hl2 : Forall (fun p => loaded disk p (c_ram c2)) (headers disk)).
  { rewrite Forall_forall in *. intros p Hp. apply loaded_compiled; [done| |by apply Hap|by apply Hl].
    apply (bootable_mono _ (l_mem t)) in Hb; [|done]. destruct Hb as [_ _ Hok _ _]. rewrite Forall_forall in Hok. by apply Hok. }
  split; [|exact Hl2]. split; cbn [set_ip c_ip c_cr0 c_seg c_ram]; unfold c2; try done.
  - by rewrite (co_cr0 Hco).
  - intros r. rewrite (co_seg Hco). apply Hseg.
  - intros a Ha. by apply Hmap2, Hbda.
  - split; [done|]. by apply in_kernel_array.
  - split; [done|]. by apply in_kernel_array.
  - split; [done|]. intros a Ha. by apply Hmap2, Ht2.
Qed.

(** C6: From the BIOS to [i386_init]: however long the keyboard controller and the disk
    are busy, the boot sector, the loader and the entry code of the kernel end in
    the call of [i386_init], with every segment of the kernel file in memory (but for
    the warm-boot flag, the marks in the GDT and the return address), the kernel's
    segments and stack, and interrupts off; the A20 gate is opened before the sectors of
    the kernel are asked for, in the order of its headers. *)
Theorem power_on_correct c busy1 ready1 busy2 ready2 rest :
  compiled_ok -> startable c ->
  io_in (c_ports c) = busy1 ++ ready1 :: busy2 ++ ready2 ::
    flat_map (sector_script disk polls1 polls2) (flat_map seg_sectors (first_page :: headers disk)) ++ rest ->
  Forall (fun v => Z.testbit v 1 = true) (busy1 ++ busy2) -> Z.testbit ready1 1 = false -> Z.testbit ready2 1 = false ->
  let steps := (36 + 4 * (length busy1 + length busy2))%nat in
  exists c' m g,
    (forall fuel, (steps <= fuel)%nat ->
       power_on sector_addr kernel_addr start gdtdesc mygdtdesc bootstacktop compiled fuel c = Ret "i386_init"%string c') /\
    Forall (fun p => loaded disk p m) (headers disk) /\
    c_ram c' = write (entry_ram mygdt m) (RELOC (c_sp c')) (little_endian (kernel_addr 11) 4) /\
    (forall r, c_seg c' r = relocated_segs r) /\ c_bp c' = 0 /\ c_sp c' = bootstacktop - 4 /\ c_if c' = false /\
    c_ports c' = Io rest (io_log (c_ports c) ++ a20_log (busy1 ++ [ready1]) (busy2 ++ [ready2]) ++ g) /\
    forall r, (disk_run r g).2 = flat_map seg_sectors (first_page :: headers disk).
Proof.
  intros Hco Hs Hin Hbusy Hr1 Hr2 steps. pose proof Hs as [Hbios Hb Hmagic Hentry _ _ _ _ _ _].
  destruct (wp_run_enough _ _ _ _ _ (boot_run sector_addr start gdt gdtdesc c busy1 ready1 busy2 ready2 _ Hbios Hin Hbusy Hr1 Hr2))
    as (f & c1 & Hrun1 & -> & Hcr0 & Hif & _ & Hseg & Hram & Hports).
  assert (Hmap1 : forall a, is_Some (c_ram c !! a) -> is_Some (c_ram c1 !! a)).
  { intros a Ha. rewrite Hram. by apply is_Some_write, is_Some_accessed, is_Some_accessed. }
  destruct (bootmain_run disk polls1 polls2 Hdisk rest (MkLoader (c_ports c1) (c_ram c1))) as (t & Hrun2 & Hl & Hmap2 & Hrest & g & Hlog & Hg);
    [by apply (bootable_mono (c_ram c))|done|by unfold linput; cbn [l_io]; rewrite Hports|].
  rewrite Hentry in Hrun2. set (c2 := compiled (set_ports (l_io t) (set_c_ram (l_mem t) c1))).
  destruct (handed_over c c1 t) as [Hk Hl2]; [done|done|done| | |done|].
  { rewrite Hcr0, Z.lor_spec. apply orb_true_r. }
  { intros a Ha. by apply Hmap2, Hmap1. }
  fold c2 in Hk, Hl2.
  destruct (wp_run_enough _ _ _ (fun f c' => f = "i386_init"%string /\ (forall r, c_seg c' r = relocated_segs r) /\ c_bp c' = 0 /\
      c_sp c' = bootstacktop - 4 /\ c_if c' = c_if c2 /\ c_ports c' = c_ports c2 /\
      c_ram c' = write (entry_ram mygdt (c_ram c2)) (RELOC (c_sp c')) (little_endian (kernel_addr 11) 4)) (set_ip 0 c2)
      (entry_run kernel_addr mygdt mygdtdesc bootstacktop (set_ip 0 c2) _ Hk
         (fun _ _ Hsg => conj eq_refl (conj Hsg (conj eq_refl (conj eq_refl (conj eq_refl (conj eq_refl eq_refl))))))))
    as (f & c' & Hrun3 & -> & Hseg' & Hbp & Hsp & Hif' & Hports' & Hram').
  exists c', (c_ram c2), g. split; [|split_and!; [done..| | |done]].
  - intros fuel Hf. unfold power_on. rewrite (bind_eq _ _ _ _ _ (Hrun1 fuel Hf)). cbn [String.eqb negb].
    assert (E : in_loader bootmain c1 = Ret (Some (RELOC (kernel_addr 0))) (set_ports (l_io t) (set_c_ram (l_mem t) c1))).
    { unfold in_loader, zoom. by rewrite Hrun2. }
    change (negb _) with false. cbn iota. rewrite (bind_eq _ _ _ _ _ E), Z.eqb_refl.
    rewrite (bind_eq _ _ _ tt (set_ip 0 c2)) by reflexivity. apply Hrun3. lia.
  - rewrite Hif'. unfold c2. rewrite (co_if Hco). exact Hif.
  - rewrite Hports'. unfold c2. rewrite (co_ports Hco). cbn [set_ports c_ports]. unfold linput, log in *. rewrite Hports in Hlog.
    cbn [l_io io_log] in Hlog. rewrite app_assoc, <- Hlog, <- Hrest. by destruct (l_io t).
Qed.
End chain.

(** A kernel of one sector at 1 MB, in sector 9 of the disk, with its GDT at
    0xf0100040; the keyboard controller is busy twice and then once. *)
Module Machine.
Fixpoint words (l : list Z) : list Z :=
  match l with b0 :: b1 :: b2 :: b3 :: l' => le [b0; b1; b2; b3] :: words l' | _ => [] end.
Definition elf_words : list Z :=
  [ELF_MAGIC; 0; 0; 0; 0; 0; 0xF010000C; 52; 0; 0; 0; 1; 0;
   1; 0x1000; 0xF0100000; 0x100000; 0x60; 0x80; 5; 0x1000] ++ replicate 107 0.
Definition kernel_words : list Z :=
  replicate 16 0xF4F4F4F4 ++ words (mygdt_bytes ++ mygdtdesc_bytes 0xf0100040 ++ [0; 0]) ++ replicate 104 0.
Definition disk (k : Z) : list Z := if k =? 1 then elf_words else if k =? 9 then kernel_words else replicate 128 0.
Definition polls (_ : Z) : list Z := [0x80].
Definition code : Proghdr := MkProghdr 0x1000 0xF0100000 0x60 0x80.

Lemma machine_disk_ok : disk_ok disk polls polls.
Proof.
  assert (H : forall k, disk k = elf_words \/ disk k = kernel_words \/ disk k = replicate 128 0).
  { intros k. unfold disk. destruct (k =? 1); [by left|]. destruct (k =? 9); [right; by left|right; by right]. }
  split; intros k; [| |by repeat constructor..]; destruct (H k) as [-> | [-> | ->]]; try reflexivity;
    apply (bool_decide_unpack _); vm_compute; exact I.
Qed.

Definition ram : mem := write (write (write BootSector.ram 0x472 [0; 0]) 0x10000 (replicate 4096 9)) 0x100000 (replicate 512 9).
Definition script : list Z :=
  [2; 3; 0x1c; 2; 0x18] ++ flat_map (sector_script disk polls polls) [1; 2; 3; 4; 5; 6; 7; 8; 9] ++ [7].
Definition bios_state : cpu := set_ports (Io script []) (set_c_ram ram BootSector.start_state).
Definition leave (c : cpu) : cpu := set_ax 0 (set_sp 0x7bec (set_bp 0x7bf8 (set_c_ram (write (c_ram c) 0x7bec [9; 9; 9; 9]) c))).

Lemma leave_ok : compiled_ok 0x7c00 0x7be0 leave.
Proof.
  split; try done.
  - intros c a Ha. change (c_ram (leave c)) with (write (c_ram c) 0x7bec [9; 9; 9; 9]). apply write_out. cbn [length]. lia.
  - intros c a Ha. by apply (is_Some_write (c_ram c) 0x7bec [9; 9; 9; 9]).
Qed.

Lemma machine_headers : headers disk = [code].
Proof. reflexivity. Qed.
Lemma machine_region a : region code a -> 0x100000 <= a < 0x100200.
Proof.
  unfold region. change (seg_start code) with 0x100000. change (seg_va code) with 0x100000.
  change (seg_count code) with 1%nat. cbn [code p_filesz p_memsz]. lia.
Qed.

Lemma machine_bootable : bootable disk ram.
Proof.
  split.
  - split; try (change (seg_va first_page) with 0x10000; cbn [first_page p_offset p_filesz p_memsz]; unfold BOOT_PAGESIZE; lia || reflexivity).
    intros a Ha%SmallKernel.region_page. apply is_Some_write. apply (write_mapped _ 0x10000 (replicate 4096 9)). rewrite length_replicate. lia.
  - vm_compute. discriminate.
  - rewrite machine_headers. constructor; [|constructor].
    split; try (change (seg_va code) with 0x100000; cbn [code p_offset p_filesz p_memsz]; lia || reflexivity).
    intros a Ha%machine_region. apply (write_mapped _ 0x100000 (replicate 512 9)). rewrite length_replicate. lia.
  - rewrite machine_headers. constructor; [|constructor]. intros a H1%SmallKernel.region_page H2%machine_region. lia.
  - rewrite machine_headers. constructor; constructor.
Qed.

Lemma bios_other_ram addr start gdt gdtdesc c i m :
  bios addr start gdt gdtdesc c -> array m gdt boot_gdt -> array m gdtdesc (boot_gdtdesc gdt) -> mapped m (start - 4) 4 ->
  bios addr start gdt gdtdesc (set_ports i (set_c_ram m c)).
Proof. intros [H1 H2 H3 H4 H5 H6 H7 H8 [H9 _] [H10 _] _] ???. by split. Qed.

Lemma machine_bios : bios BootSector.addr 0x7c00 0x7c60 0x7c78 bios_state.
Proof.
  destruct (bios_gdt _ _ _ _ _ BootSector.bios_start) as [_ Hg]. destruct (bios_gdtdesc _ _ _ _ _ BootSector.bios_start) as [_ Hd].
  assert (Harr : forall a l, 0x7000 <= a -> a + Z.of_nat (length l) <= 0x8000 -> array BootSector.ram a l -> array ram a l).
  { intros a l Ha Hl Hm. unfold ram. do 3 (apply array_write; [|rewrite ?length_replicate; cbn [length]; lia]). exact Hm. }
  apply bios_other_ram; [exact BootSector.bios_start|apply Harr; [done..|exact Hg]|apply Harr; [done..|exact Hd]|].
  unfold ram. do 3 apply mapped_write. exact (bios_stack _ _ _ _ _ BootSector.bios_start).
Qed.

(** Bytes of the file are compared one by one. *)
Lemma in_kernel_code a l :
  0x100000 <= a -> a + Z.of_nat (length l) <= 0x100060 ->
  bool_decide (Forall (fun i => image_byte disk (0x1000 + (a - 0x100000 + Z.of_nat i)) = l !! i) (seq 0 (length l))) = true ->
  in_kernel disk a l.
Proof.
  intros Hlo Hhi H%bool_decide_eq_true. exists code. rewrite machine_headers. change (seg_va code) with 0x100000.
  split; [by constructor|]. split; [done|]. split; [done|]. rewrite Forall_forall in H. intros i x Hx.
  rewrite <- Hx. apply H, elem_of_seq. apply lookup_lt_Some in Hx. lia.
Qed.

Lemma machine_startable :
  startable disk BootSector.addr LoadedKernel.addr 0x7c00 0x7c60 0x7c78 0xf0100040 0xf0100058 0xf0100200 0x7be0 bios_state.
Proof.
  split; try reflexivity.
  - apply machine_bios.
  - apply machine_bootable.
  - intros n. unfold LoadedKernel.addr. pose proof (Z.mod_pos_bound (4 * Z.of_nat n) 0x60). lia.
  - rewrite machine_headers. constructor; [|constructor]. intros a Ha%machine_region. lia.
  - do 2 apply mapped_write. apply (array_mapped _ _ [0; 0]). apply write_array.
  - split; [done|]. by apply in_kernel_code.
  - split; [done|]. by apply in_kernel_code.
  - split; [done|]. intros a Ha. apply (write_mapped _ 0x100000 (replicate 512 9)). rewrite length_replicate. change KERNBASE with 0xf0000000 in Ha. lia.
Qed.

Lemma power_on_correct_witness :
  exists c' m, (forall fuel, (48 <= fuel)%nat ->
      power_on BootSector.addr LoadedKernel.addr 0x7c00 0x7c78 0xf0100058 0xf0100200 leave fuel bios_state = Ret "i386_init"%string c') /\
    m !! 0x100003 = Some 0xf4 /\ c_ram c' = write (entry_ram 0xf0100040 m) 0x1001fc (little_endian (LoadedKernel.addr 11) 4) /\
    c_sp c' = 0xf01001fc /\ c_bp c' = 0 /\ c_if c' = false /\ io_in (c_ports c') = [7].
Proof.
  destruct (power_on_correct disk polls polls machine_disk_ok BootSector.addr LoadedKernel.addr 0x7c00 0x7c60 0x7c78 0xf0100040 0xf0100058
    0xf0100200 0x7be0 leave bios_state [2; 3] 0x1c [2] 0x18 [7]) as (c' & m & g & Hrun & Hl & Hram & _ & Hbp & Hsp & Hif & Hp & _).
  - exact leave_ok.
  - exact machine_startable.
  - reflexivity.
  - repeat constructor.
  - reflexivity.
  - reflexivity.
  - exists c', m. rewrite machine_headers in Hl. apply Forall_cons in Hl as [[Hd _] _]. rewrite Hsp in Hram. rewrite Hp.
    split; [exact Hrun|]. split; [exact (Hd 3 ltac:(split; reflexivity || discriminate))|]. by split_and!.
Defined.
End Machine.
