(* ===== verification/BootImage.v ===== *)
(** * BootImage: boot/mkbootdisk.c

    The tool that makes the boot disk: the boot sector with its signature, and
    then files, each from a new sector on.  The host's files are a parameter; the
    output is what the program has written to [stdout] so far. *)

From S2P Require Import Prelude CString Ports Boot.
Open Scope Z_scope.

(** [stdout], and the variable [nsectors]. *)
Record output : Type := Output { o_bytes : list Z; nsectors : Z }.

Definition zeros (n : Z) : list Z := replicate (Z.to_nat n) 0.
Definition fwrite (l : list Z) : M output () := modify (fun o => Output (o_bytes o ++ l) (nsectors o)).
Definition set_nsectors (n : Z) : M output () := modify (fun o => Output (o_bytes o) n).

(** [usage] prints its line and calls [exit(1)]. *)
Definition usage {A} : M output A := panic "Usage: mkbootdisk BOOTSECTOR [FILE | @SECNUM]...".

(** ** [strtoul(s, &str, 0)] of the C library, on a string that begins with a digit *)

Definition digit_value (c : Z) : Z :=
  if (chr "0" <=? c) && (c <=? chr "9") then c - chr "0"
  else if (chr "a" <=? c) && (c <=? chr "z") then c - chr "a" + 10
  else if (chr "A" <=? c) && (c <=? chr "Z") then c - chr "A" + 10
  else 99.
Definition isdigit (c : Z) : bool := digit_value c <? 10.

Fixpoint read_digits (base acc : Z) (s : list Z) : Z * list Z :=
  match s with
  | c :: s' => if digit_value c <? base then read_digits base (acc * base + digit_value c) s' else (acc, s)
  | [] => (acc, [])
  end.

Section mkbootdisk.
(** The files of the host, and the greatest [unsigned long]. *)
Context (fs : list Z -> option (list Z)) (ULONG_MAX : Z).

Definition strtoul (s : list Z) : Z * list Z :=
  let '(v, str) :=
    match s with
    | z :: x :: d :: r =>
        if (z =? chr "0") && ((x =? chr "x") || (x =? chr "X")) && (digit_value d <? 16) then read_digits 16 0 (d :: r)
        else read_digits (if z =? chr "0" then 8 else 10) 0 s
    | z :: _ => read_digits (if z =? chr "0" then 8 else 10) 0 s
    | [] => (0, [])
    end in
  (Z.min v ULONG_MAX, str).

(** [Some k] for an argument that means "skip to sector k". *)
Definition skipto_sector (arg : list Z) : option Z :=
  match arg with
  | a :: d :: r =>
      if (a =? chr "@") && isdigit d then
        let '(k, str) := strtoul (d :: r) in match str with [] => Some k | _ => None end
      else None
  | _ => None
  end.

Definition fopencheck (name : list Z) : M output (list Z) :=
  match fs name with Some f => mret f | None => usage end.

(** The boot sector. *)
Definition boot_sector (name : list Z) : M output () :=
  f ← fopencheck name;
  let buf := take 1000 f in
  let n := Z.of_nat (length buf) in
  if 510 <? n then usage
  else fwrite (buf ++ zeros (510 - n) ++ [0x55; 0xAA]);; set_nsectors 1.

(** Blocks of zeros up to sector [k]. *)
Definition zero_blocks (k : Z) : M output () :=
  n ← gets nsectors;
  while (S (Z.to_nat (k - n))) (fun n => mret (n <? k))
    (fun n => fwrite (zeros 512);; set_nsectors (n + 1);; mret (n + 1)) n;;
  mret tt.

(** Copying a file, 1000 bytes at a time; the result is [pos]. *)
Fixpoint copy_file (fuel : nat) (f : list Z) (pos : Z) : M output Z :=
  match fuel with
  | O => spin
  | S fuel' =>
      match take 1000 f with
      | [] => mret pos
      | buf => fwrite buf;; copy_file fuel' (drop 1000 f) (pos + Z.of_nat (length buf))
      end
  end.

Definition one_arg (arg : list Z) : M output () :=
  match skipto_sector arg with
  | Some k => n ← gets nsectors; if k <? n then usage else zero_blocks k
  | None =>
      f ← fopencheck arg;
      pos ← copy_file (S (length f)) f 0;
      pos ← (if negb (pos mod 512 =? 0) then
               fwrite (zeros (512 - pos mod 512));; mret (pos + (512 - pos mod 512))
             else mret pos);
      n ← gets nsectors;
      set_nsectors (n + pos / 512)
  end.

(** [main], without the name of the program among the arguments. *)
Definition mkbootdisk (args : list (list Z)) : M output () :=
  match args with
  | [] => usage
  | boot :: args => boot_sector boot;; for_each one_arg args;; zero_blocks 1024
  end.

(** ** What the disk holds *)

Definition padded (l : list Z) : list Z := l ++ zeros (- Z.of_nat (length l) mod 512).

(** The bytes of the disk from sector [n] on. *)
Fixpoint layout (n : Z) (args : list (list Z)) : option (list Z) :=
  match args with
  | [] => Some (zeros (512 * (1024 - n)))
  | arg :: args =>
      match skipto_sector arg with
      | Some k => if k <? n then None else app (zeros (512 * (k - n))) <$> layout k args
      | None => match fs arg with
                | None => None
                | Some f => app (padded f) <$> layout (n + Z.of_nat (length (padded f)) / 512) args
                end
      end
  end.

Lemma zeros_app a b : 0 <= a -> 0 <= b -> zeros a ++ zeros b = zeros (a + b).
Proof. intros. unfold zeros. rewrite <- replicate_add. f_equal. lia. Qed.
Lemma zeros_length a : 0 <= a -> Z.of_nat (length (zeros a)) = a.
Proof. intros. unfold zeros. rewrite length_replicate. lia. Qed.

Lemma pad_length l : Z.of_nat (length (padded l)) = (Z.of_nat (length l) + 511) / 512 * 512.
Proof.
  unfold padded. rewrite length_app, Nat2Z.inj_add, zeros_length by (apply Z.mod_pos_bound; lia).
  Z.div_mod_to_equations. lia.
Qed.

Lemma fwrite_run l o : fwrite l o = Ret tt (Output (o_bytes o ++ l) (nsectors o)).
Proof. reflexivity. Qed.

Lemma zero_blocks_run k b n : n <= k -> zero_blocks k (Output b n) = Ret tt (Output (b ++ zeros (512 * (k - n))) k).
Proof.
  intros Hk. unfold zero_blocks. erewrite bind_eq by reflexivity. cbn [nsectors].
  rewrite (bind_eq _ _ _ k (Output (b ++ zeros (512 * (k - n))) k)); [done|].
  remember (Z.to_nat (k - n)) as c eqn:Hc. revert b n Hk Hc. induction c as [|c IH]; intros b n Hk Hc; rewrite while_S, bind_ret.
  - replace n with k by lia. rewrite Z.ltb_irrefl, Z.sub_diag. change (zeros (512 * 0)) with (@nil Z). by rewrite app_nil_r.
  - replace (n <? k) with true by lia. erewrite bind_eq by reflexivity. cbn [o_bytes nsectors]. rewrite IH by lia.
    rewrite <- app_assoc, zeros_app by lia. do 3 f_equal. f_equal. lia.
Qed.

Lemma zero_blocks_past k b n : k < n -> zero_blocks k (Output b n) = Ret tt (Output b n).
Proof.
  intros Hk. unfold zero_blocks. erewrite bind_eq by reflexivity. cbn [nsectors]. rewrite (bind_eq _ _ _ n (Output b n)); [done|].
  rewrite while_S, bind_ret. by replace (n <? k) with false by lia.
Qed.

Lemma copy_file_run fuel f : forall pos b n, (length f < fuel)%nat ->
  copy_file fuel f pos (Output b n) = Ret (pos + Z.of_nat (length f)) (Output (b ++ f) n).
Proof.
  revert f. induction fuel as [|fuel IH]; intros f pos b n Hf; [lia|]. cbn [copy_file].
  destruct f as [|c f]; [cbn; unfold mret, M_ret; by rewrite app_nil_r, Z.add_0_r|].
  assert (E : take 1000 (c :: f) = c :: take 999 f) by reflexivity. rewrite E, <- E.
  rewrite (bind_eq _ _ _ _ _ (fwrite_run _ _)). cbn [o_bytes nsectors].
  rewrite IH by (rewrite length_drop; cbn [length] in *; lia). rewrite <- app_assoc, take_drop, <- Z.add_assoc, <- Nat2Z.inj_add.
  by rewrite <- length_app, take_drop.
Qed.

Lemma one_arg_file arg f b n : skipto_sector arg = None -> fs arg = Some f ->
  one_arg arg (Output b n) = Ret tt (Output (b ++ padded f) (n + Z.of_nat (length (padded f)) / 512)).
Proof.
  intros Hs Hf. unfold one_arg, fopencheck. rewrite Hs, Hf, bind_ret, (bind_eq _ _ _ _ _ (copy_file_run (S (length f)) f 0 b n (Nat.lt_succ_diag_r _))), Z.add_0_l.
  pose proof (pad_length f) as Hp. unfold padded in *. set (l := Z.of_nat (length f)) in *. destruct (Z.eqb_spec (l mod 512) 0) as [E|E]; cbn [negb].
  - assert (- l mod 512 = 0) as H0 by (Z.div_mod_to_equations; lia). rewrite H0 in *. change (zeros 0) with (@nil Z) in *.
    rewrite app_nil_r in *. rewrite bind_ret. erewrite bind_eq by reflexivity. reflexivity.
  - assert (- l mod 512 = 512 - l mod 512) as H0 by (Z.div_mod_to_equations; lia). rewrite H0 in *.
    do 2 (erewrite bind_eq by reflexivity). cbn [o_bytes nsectors].
    unfold set_nsectors, modify. cbn [o_bytes]. f_equal. rewrite Hp. f_equal; [by rewrite app_assoc|Z.div_mod_to_equations; lia].
Qed.

Lemma one_arg_skip arg k b n : skipto_sector arg = Some k ->
  one_arg arg (Output b n) =
  if k <? n then Panic "Usage: mkbootdisk BOOTSECTOR [FILE | @SECNUM]..." (Output b n)
  else Ret tt (Output (b ++ zeros (512 * (k - n))) k).
Proof.
  intros Hs. unfold one_arg. rewrite Hs. erewrite bind_eq by reflexivity. cbn [nsectors].
  destruct (Z.ltb_spec k n); [done|]. by apply zero_blocks_run.
Qed.

(** The arguments after the boot sector, and the filling. *)
Lemma args_run args : forall b n, 0 <= n ->
  match layout n args with
  | Some l => exists k, (for_each one_arg args;; zero_blocks 1024) (Output b n) = Ret tt (Output (b ++ l) k) /\
      1024 <= k /\ Z.of_nat (length l) = 512 * (k - n)
  | None => exists why o, (for_each one_arg args;; zero_blocks 1024) (Output b n) = Panic why o
  end.
Proof.
  assert (Hbind : forall (m m' : M output ()) s t, m s = Ret tt t -> (m;; m') s = m' t) by (intros m m' s t H; unfold mbind, M_bind; by rewrite H).
  assert (Hassoc : forall (a c d : M output ()) s, ((a;; c);; d) s = (a;; (c;; d)) s).
  { intros a c d s. unfold mbind, M_bind. by destruct (a s). }
  induction args as [|arg args IH]; intros b n Hn; cbn [layout for_each].
  - rewrite bind_ret. destruct (decide (n <= 1024)).
    + exists 1024. rewrite zero_blocks_run, zeros_length by lia. done.
    + exists n. rewrite zero_blocks_past by lia. replace (zeros (512 * (1024 - n))) with (@nil Z) by (unfold zeros; by rewrite Z2Nat.nonpos by lia).
      rewrite app_nil_r. split_and!; [done|lia|cbn; lia].
  - rewrite Hassoc. destruct (skipto_sector arg) as [k|] eqn:Es.
    + pose proof (one_arg_skip arg k b n Es) as E. destruct (Z.ltb_spec k n) as [Hlt|Hge].
      { eexists _, _. unfold mbind at 1, M_bind at 1. by rewrite E. }
      specialize (IH (b ++ zeros (512 * (k - n))) k ltac:(lia)).
      destruct (layout k args) as [l|]; cbn [fmap option_fmap option_map]; rewrite (Hbind _ _ _ _ E); [|exact IH].
      destruct IH as (k' & -> & Hk & Hl). exists k'. rewrite <- app_assoc, length_app, Nat2Z.inj_add, zeros_length by lia. split_and!; [done|lia|lia].
    + destruct (fs arg) as [f|] eqn:Ef.
      * pose proof (one_arg_file arg f b n Es Ef) as E. pose proof (pad_length f) as Hp.
        set (n' := n + Z.of_nat (length (padded f)) / 512) in *. specialize (IH (b ++ padded f) n' ltac:(unfold n'; Z.div_mod_to_equations; lia)).
        destruct (layout n' args) as [l|]; cbn [fmap option_fmap option_map]; rewrite (Hbind _ _ _ _ E).
        -- destruct IH as (k' & -> & Hk & Hl). exists k'. rewrite <- app_assoc, length_app, Nat2Z.inj_add. split_and!; [done|lia|].
           unfold n' in Hl. rewrite Hp in *. rewrite Z.div_mul in Hl by lia. lia.
        -- exact IH.
      * eexists _, _. unfold one_arg, fopencheck. rewrite Es, Ef. reflexivity.
Qed.

(** The boot sector, and a run in which nothing fails. *)
Lemma boot_sector_run boot b : fs boot = Some b ->
  boot_sector boot (Output [] 0) =
    if Z.of_nat (length b) <=? 510 then Ret tt (Output (b ++ zeros (510 - Z.of_nat (length b)) ++ [0x55; 0xAA]) 1)
    else Panic "Usage: mkbootdisk BOOTSECTOR [FILE | @SECNUM]..." (Output [] 0).
Proof.
  intros E. unfold boot_sector, fopencheck. rewrite E, bind_ret, length_take. destruct (Z.leb_spec (Z.of_nat (length b)) 510).
  - by rewrite take_ge, Nat.min_r, (proj2 (Z.ltb_ge _ _)) by lia.
  - by rewrite (proj2 (Z.ltb_lt _ _)) by (pose proof (Nat.min_spec 1000 (length b)); lia).
Qed.

Lemma mkbootdisk_run boot args b l :
  fs boot = Some b -> layout 1 args = Some l -> Z.of_nat (length b) <= 510 ->
  exists k, mkbootdisk (boot :: args) (Output [] 0) =
      Ret tt (Output (b ++ zeros (510 - Z.of_nat (length b)) ++ [0x55; 0xAA] ++ l) k) /\
    1024 <= k /\ 512 + Z.of_nat (length l) = 512 * k.
Proof.
  intros Hb Hl Hlen. pose proof (boot_sector_run boot b Hb) as E. apply Z.leb_le in Hlen. rewrite Hlen in E.
  unfold mkbootdisk. rewrite (bind_eq _ _ _ _ _ E).
  pose proof (args_run args (b ++ zeros (510 - Z.of_nat (length b)) ++ [0x55; 0xAA]) 1 ltac:(lia)) as H.
  rewrite Hl in H. destruct H as (k & Ek & Hk & Hn). exists k. rewrite Ek, <- !app_assoc. split_and!; [done|lia|lia].
Qed.

(** [mkbootdisk] writes the boot sector with its signature and then exactly the
    bytes [layout] says, at least 1024 sectors and a whole number of them; it
    exits with an error when the boot sector does not fit, when a file is missing,
    or when it would have to skip backwards. *)
Theorem mkbootdisk_correct boot args :
  match fs boot, layout 1 args with
  | Some b, Some l =>
      if Z.of_nat (length b) <=? 510 then
        exists k, mkbootdisk (boot :: args) (Output [] 0) =
            Ret tt (Output (b ++ zeros (510 - Z.of_nat (length b)) ++ [0x55; 0xAA] ++ l) k) /\
          1024 <= k /\ 512 + Z.of_nat (length l) = 512 * k
      else exists why o, mkbootdisk (boot :: args) (Output [] 0) = Panic why o
  | _, _ => exists why o, mkbootdisk (boot :: args) (Output [] 0) = Panic why o
  end.
Proof.
  destruct (fs boot) as [b|] eqn:Ef.
  2:{ eexists _, _. unfold mkbootdisk, boot_sector, fopencheck. rewrite Ef. reflexivity. }
  pose proof (boot_sector_run boot b Ef) as E. destruct (Z.of_nat (length b) <=? 510) eqn:Hlen.
  - destruct (layout 1 args) as [l|] eqn:El; [by apply mkbootdisk_run; [..|apply Z.leb_le]|].
    unfold mkbootdisk. rewrite (bind_eq _ _ _ _ _ E).
    pose proof (args_run args (b ++ zeros (510 - Z.of_nat (length b)) ++ [0x55; 0xAA]) 1 ltac:(lia)) as H. by rewrite El in H.
  - assert (exists why o, (boot_sector boot;; for_each one_arg args;; zero_blocks 1024) (Output [] 0) = Panic why o)
      by (eexists _, _; unfold mbind at 1, M_bind at 1; by rewrite E).
    by destruct (layout 1 args).
Qed.
End mkbootdisk.

(** ** The disk that the loader sees *)

(** The byte of the disk at [j]; behind the image there is nothing but zeros. *)
Definition disk_byte (l : list Z) (j : Z) : Z := default 0 (l !! Z.to_nat j).
Definition disk_word (l : list Z) (j : Z) : Z :=
  disk_byte l j + 2 ^ 8 * disk_byte l (j + 1) + 2 ^ 16 * disk_byte l (j + 2) + 2 ^ 24 * disk_byte l (j + 3).
Definition disk_of (l : list Z) (k : Z) : list Z :=
  (fun i => disk_word l (512 * k + 4 * Z.of_nat i)) <$> seq 0 128.

Lemma disk_byte_range l j : is_bytes l -> 0 <= disk_byte l j < 256.
Proof.
  intros Hl. unfold disk_byte. destruct (l !! Z.to_nat j) as [c|] eqn:E; [|cbn; lia]. by apply (Forall_lookup_1 _ _ _ _ Hl E).
Qed.

Lemma word_bytes_le b0 b1 b2 b3 : 0 <= b0 < 256 -> 0 <= b1 < 256 -> 0 <= b2 < 256 -> 0 <= b3 < 256 ->
  word_bytes (b0 + 2 ^ 8 * b1 + 2 ^ 16 * b2 + 2 ^ 24 * b3) = [b0; b1; b2; b3].
Proof.
  intros. unfold word_bytes, u8. rewrite !Z.shiftr_div_pow2 by lia. repeat f_equal; Z.div_mod_to_equations; lia.
Qed.

Lemma flat_map_words (g : nat -> Z) n : forall a,
  flat_map (fun i => [g (4 * i)%nat; g (4 * i + 1)%nat; g (4 * i + 2)%nat; g (4 * i + 3)%nat]) (seq a n) =
  g <$> seq (4 * a) (4 * n).
Proof.
  induction n as [|n IH]; intros a; [done|]. cbn [seq flat_map]. rewrite IH.
  replace (4 * S n)%nat with (S (S (S (S (4 * n))))) by lia. cbn [seq fmap list_fmap app].
  replace (S (4 * a)) with (4 * a + 1)%nat by lia. replace (S (4 * a + 1)) with (4 * a + 2)%nat by lia.
  replace (S (4 * a + 2)) with (4 * a + 3)%nat by lia. by replace (4 * S a)%nat with (S (4 * a + 3)) by lia.
Qed.

Lemma disk_of_sector l k : is_bytes l -> 0 <= k ->
  sector_bytes (disk_of l) k = (fun i => disk_byte l (512 * k + Z.of_nat i)) <$> seq 0 512.
Proof.
  intros Hl Hk. unfold sector_bytes, disk_of.
  change (seq 0 512) with (seq (4 * 0) (4 * 128)). rewrite <- (flat_map_words (fun i => disk_byte l (512 * k + Z.of_nat i)) 128 0).
  generalize (seq 0 128). intros s. induction s as [|i s IH]; [done|]. cbn [fmap list_fmap flat_map].
  rewrite IH. f_equal. unfold disk_word. rewrite word_bytes_le by (by apply disk_byte_range).
  do 4 (f_equal; [f_equal; lia|..]).
Qed.

Lemma disk_of_image l j : is_bytes l -> 0 <= j -> image_byte (disk_of l) j = Some (disk_byte l (512 + j)).
Proof.
  intros Hl Hj. unfold image_byte. rewrite disk_of_sector by (done || (Z.div_mod_to_equations; lia)).
  rewrite list_lookup_fmap, lookup_seq_lt by (Z.div_mod_to_equations; lia). cbn. do 2 f_equal.
  Z.div_mod_to_equations. lia.
Qed.

Lemma zeros_bytes n : is_bytes (zeros n).
Proof. apply Forall_replicate. lia. Qed.

Lemma lookup_zeros_end l n i : default 0 ((l ++ zeros n) !! i) = default 0 (l !! i).
Proof.
  destruct (decide (i < length l)%nat); [by rewrite lookup_app_l|]. rewrite lookup_app_r by lia.
  rewrite (lookup_ge_None_2 l i) by lia. destruct (zeros n !! _) as [c|] eqn:E; [|done].
  by apply lookup_replicate in E as [-> _].
Qed.

(** C17: A disk made from a boot sector and a kernel file is one from which the loader
    reads that file: byte [j] of the image [bootmain] loads is byte [j] of the
    file, and zero behind its end. *)
Theorem boot_disk_image fs umax boot kernel b f :
  fs boot = Some b -> fs kernel = Some f -> Z.of_nat (length b) <= 510 -> skipto_sector umax kernel = None ->
  is_bytes b -> is_bytes f ->
  exists o, mkbootdisk fs umax [boot; kernel] (Output [] 0) = Ret tt o /\
    forall j, 0 <= j -> image_byte (disk_of (o_bytes o)) j = Some (default 0 (f !! Z.to_nat j)).
Proof.
  intros Hb Hf Hlen Hs Bb Bf.
  assert (Hl : exists z, layout fs umax 1 [kernel] = Some (f ++ zeros (- Z.of_nat (length f) mod 512) ++ zeros z)).
  { eexists. cbn [layout]. rewrite Hs, Hf. cbn [fmap option_fmap option_map]. unfold padded. by rewrite <- app_assoc. }
  destruct Hl as [z Hl]. destruct (mkbootdisk_run fs umax boot [kernel] b _ Hb Hl Hlen) as (k & E & _ & _).
  eexists. split; [exact E|]. cbn [o_bytes]. intros j Hj. rewrite disk_of_image; [|unfold is_bytes; rewrite !Forall_app; split_and!; try done; apply zeros_bytes || (repeat constructor; lia)|done].
  f_equal. unfold disk_byte.
  assert (Hs512 : length (b ++ zeros (510 - Z.of_nat (length b)) ++ [85; 170]) = 512%nat).
  { rewrite !length_app. pose proof (zeros_length (510 - Z.of_nat (length b)) ltac:(lia)). cbn [length]. lia. }
  set (file := f ++ _). set (first := b ++ _ ++ _) in Hs512.
  replace (b ++ _ ++ _ ++ file) with (first ++ file) by (unfold first; by rewrite <- !app_assoc).
  rewrite lookup_app_r by lia. replace (Z.to_nat (512 + j) - length first)%nat with (Z.to_nat j) by lia.
  unfold file. by rewrite app_assoc, !lookup_zeros_end.
Qed.

(** A kernel of three bytes. *)
Definition small_fs (name : list Z) : option (list Z) :=
  if bool_decide (name = bytes "boot") then Some [0xEA] else if bool_decide (name = bytes "kernel") then Some [1; 2; 3] else None.

Lemma boot_disk_image_witness :
  exists o, mkbootdisk small_fs (2 ^ 64 - 1) [bytes "boot"; bytes "kernel"] (Output [] 0) = Ret tt o /\
    image_byte (disk_of (o_bytes o)) 2 = Some 3 /\ image_byte (disk_of (o_bytes o)) 3 = Some 0.
Proof.
  destruct (boot_disk_image small_fs (2 ^ 64 - 1) (bytes "boot") (bytes "kernel") [0xEA] [1; 2; 3]) as (o & E & H).
  - reflexivity.
  - reflexivity.
  - discriminate.
  - reflexivity.
  - apply (bool_decide_unpack _). exact I.
  - apply (bool_decide_unpack _). exact I.
  - exists o. split; [exact E|]. split; [exact (H 2 ltac:(discriminate))|exact (H 3 ltac:(discriminate))].
Defined.
